(* ===== verification/_CoqProject ===== *)
-Q . S2P
Prelude.v
Logic.v
Endian.v
Cksum.v
Mask.v
Queue.v
Addr.v
CString.v
Net.v
Ethernet.v
Raw.v
RawFacts.v
IpFragment.v
Ip.v
IpFacts.v
Arp.v
ArpFacts.v
TcpTypes.v
Dump.v
TcpSegment.v
TcpTimer.v
TcpApi.v
TcpLogic.v
TcpSample.v
TcpDemux.v
TcpStates.v
TcpStream.v
TcpWire.v
TcpSend.v
TcpRetransmit.v
TcpNetwork.v
TcpHandshake.v
TcpTransfer.v
TcpStall.v
Echo.v
TcpSafety.v
Stack.v
Station.v
Boot.v
