(* ===== verification/Prelude.v ===== *)
(** * A verification of the tcpip-stack network stack

    tcpip-stack is a user-space TCP/IP stack in C.  Frames come from a packet
    socket or a tap device (src/raw.c, src/raw), pass the Ethernet device
    (src/ethernet.c) and are demultiplexed by src/net.c; they carry IP datagrams
    (src/ip.c), whose link addresses are found by ARP (src/arp.c), and these carry
    the segments of TCP (src/tcp.c), which applications use through
    [tcp_api_open], [..._send], [..._recv] and so on.  The echo server
    (src/apps/tcp_echo.c) is such an application.  This library is a shallow
    embedding of all of it, from the system calls to the threads of the server.

    ** How C is modelled

    Machine integers are [Z] with the wrap-around of their width written out ([u8],
    [u16], [u32], [u64] for [size_t]); memory is a list of octets; heap objects
    live in finite maps from locations; static variables are fields of a state
    record.  An operation is a function in the monad [M S A] of this file: it
    passes a state and a log of undefined behaviour (reads and writes out of
    bounds, too wide shifts, use after free, null dereference, values that were
    never set, joins of no thread, loops without end, relocking).  A theorem that
    an operation is safe says that its log is empty; what a run does after its
    first logged event carries no promise about the C program.  One write out of
    bounds takes place in every run that reassembles: [ip_fragment_alloc] clears
    24568 octets behind the object it has allocated.  There the result of [malloc]
    includes the words behind the object that belong to nothing else; the write is
    logged as far as it goes beyond them, and the theorems on reassembly ask for
    enough of them ([block] in IpFragment.v, [ready] in IpFacts.v).  The byte order
    of the host is the class [Host] of Endian.v.

    What a layer needs from the ones below is a class, and its theorems hold for
    every instance:

    - [Kernel] (Raw.v): the system calls; [KernelLaws], [KernelFrames],
      [KernelThreads] (RawFacts.v): what their manual pages say about descriptors,
      about pending frames and about threads that can be joined;
    - [RawLayer] (Ethernet.v): raw devices and threads, implemented by [raw_layer];
    - [Device] (Arp.v): the output of a device, implemented by [ethernet_device];
    - [LinkLayer] (Ip.v): device output with address resolution, implemented by
      [ethernet_link];
    - [System] (TcpTypes.v): memory, clock, random numbers and [ip_tx], implemented
      by [ip_system]; the last three instances are in Stack.v;
    - [Network] (TcpNetwork.v): a [System] that is up: its calls succeed, and what it
      sends to a peer it has a route to is recorded in order; [Wire]: the way of
      these segments to [tcp_rx] of another host.  Both are implemented by the
      stations of Station.v, in frames.

    ** Files

    - Prelude.v: integers, the monad, tactics and the hint database [net].
    - Logic.v: postconditions, frame conditions and safety of monadic programs.
    - Endian.v: [byteorder], [hton16] ... of src/util.c, and the layout of 16- and
      32-bit objects in memory.
    - Cksum.v: [cksum16] of src/util.c and RFC 1071.
    - Mask.v: [maskset], [maskchk], [maskclr] of src/util.c.
    - Queue.v: the linked queue of src/util.c, refined to a list.
    - Addr.v: the text form of IP and Ethernet addresses ([ip_addr_pton],
      [ethernet_addr_ntop] ... of src/ip.c and src/ethernet.c).
    - CString.v: what the code uses of <string.h>.
    - Net.v: the registries of devices, protocols and interfaces, src/net.c, with
      the interface lists as the links between the interfaces.
    - Ethernet.v: frames and the device operations, src/ethernet.c.
    - Raw.v, RawFacts.v: src/raw.c, src/raw/soc.c and src/raw/tap_linux.c.
    - IpFragment.v: reassembly, lines 100-238 of src/ip.c: [ip_fragment_alloc],
      [ip_fragment_patrol], [ip_fragment_process].
    - Ip.v, IpFacts.v: the rest of src/ip.c: interfaces, [ip_rx], [ip_tx]; and the
      theorems about it.
    - Arp.v, ArpFacts.v: src/arp.c: the table, messages, [arp_rx] and [arp_resolve],
      each in one part per critical section; ArpFacts.v interleaves the parts.
    - TcpTypes.v: src/tcp.c: control blocks, the transmission queue, the checksum
      and [tcp_tx].
    - Dump.v: [hexdump] and [maskdbg] of src/util.c and the dump functions.
    - TcpSegment.v: [tcp_event_segment_arrives], one definition per phase, and
      [tcp_rx].
    - TcpTimer.v: an iteration of [tcp_timer_thread].
    - TcpApi.v: the calls [tcp_api_open] to [tcp_api_send].  A call that waits on a
      condition variable ends with [Blocked]; the definition [..._wake] is what it
      does when it is woken.
    - TcpLogic.v: frame conditions of the operations of TCP.
    - TcpSample.v: a concrete system and control block for examples.
    - TcpDemux.v, TcpStates.v, TcpStream.v, TcpWire.v, TcpSend.v, TcpRetransmit.v,
      TcpSafety.v: the theorems about one host.
    - TcpNetwork.v: two hosts: the interfaces [Network] and [Wire], and symbolic
      execution of one control block.
    - TcpHandshake.v, TcpTransfer.v, TcpStall.v: opening a connection, sending and
      receiving on it, and where it stalls.
    - Echo.v: the threads of src/apps/tcp_echo.c.
    - Stack.v: IP over address resolution, Ethernet and raw devices.
    - Station.v: a host with all layers, [station]; [station_rx] is what a frame does
      in it, and [kernel_station] builds one over the system calls.
    - Boot.v: [setup] and [main] of src/apps/tcp_echo.c over the state of all layers.

    ** What the theorems show

    - Utilities: the checksum is that of RFC 1071, verifies, detects every change
      of one word and does not depend on the host; the mask operations are exact;
      the queue refines a FIFO list under any sequence of operations; byte order
      conversions, addresses and hexdumps round trip; the registries keep unique
      keys and sound lists as long as no interface is added twice.
    - Devices: descriptors are neither leaked nor shared, whichever system calls
      fail, and closing is undefined just when a thread could not be created;
      packets sent by one device are passed up by the other, in order.
    - ARP: two hosts resolve each other; no interleaving of arrivals and resolutions
      is undefined or leaves the table malformed, and addresses are unique in it
      unless one is added between the two critical sections of [arp_rx].
    - IP: [ip_tx] splits a payload into MTU-sized pieces; reassembly accepts any
      order, overlap and repetition, given the memory behind the fragment object;
      a payload sent by [ip_tx] is delivered by [ip_rx] as it was, also through ARP
      and Ethernet; a handler is called for exactly the datagrams that pass the
      tests of [ip_rx], which do not include all those of RFC 791.
    - TCP on one host: control blocks move along the state diagram; an
      application reads a prefix of the stream of the peer; sending cuts the data
      into consecutive segments and bounds what is in flight; the timer resends
      exactly what is due; the demultiplexer picks the first match; closing
      terminates; the mutex is given back but on two error paths.
    - TCP between two hosts: [tcp_handshake] and [tcp_transfer] run the code of both
      hosts, with the segments of each delivered to [tcp_rx] of the other:
      connections open, and applications read exactly what the peers send.
      [tcp_echo_accepts] does so with the echo server and a client with this stack;
      [tcp_echo_session] takes the server from its start through the session of a
      client with any TCP to the FIN.
    - The whole stack: [station_conversation] has two stations talk in Ethernet
      frames, through all layers of both; [echo_starts_and_stops] takes the echo
      server from the zeroed variables to a host as a station needs it, and back.
    - Faults: theorems also state where the code departs from what it means to
      do, among them a length underflow in [ip_rx], a use after free in
      [ip_fragment_patrol], the address added twice in [tcp_checksum], the test
      for the acknowledgement of a FIN, an overrun of the receive buffer,
      sequence numbers that do not wrap around, a SYN that is never
      retransmitted, a client that is not heard when it speaks first, and a port
      that cannot be bound again.

    ** Fuel

    [ip_tx_loop] gets as many turns as there are octets, and each turn sends at
    least one when the MTU exceeds the header ([ip_tx_sends_fragments] shows that
    it returns).  [tcp_send_next] gets one more turn than octets for the same
    reason ([tcp_send_segments]).  [tcp_close] gets the size of the table plus one
    as depth: a nested call clears the mark [used] of its control block
    ([tcp_api_close_terminates]).  [dump_lines] gets a turn per octet and uses
    one per 16; [fmt_num] has room for the digits of 64 bits in base 10 and of 32
    bits in base 16.  [netif_search] gets the number of interfaces, which a list
    without a cycle does not exceed; a cycle is logged.  The parsers recurse on
    their input.

    ** Not modelled

    - The streams printed to and the messages on standard error; Dump.v has the
      text of the dump functions, which the other files do not call because they
      leave the state as it is.
    - Signals: [main_start] of Boot.v ends and [main_stop] begins where [main] waits
      for SIGINT.
    - Threads interleave at the granularity of critical sections, which the
      mutexes of src/tcp.c and src/arp.c make atomic; the state of Net.v and Ip.v,
      which no lock protects, is used by one thread at a time.
    - The allocator: apart from fragment objects, an allocation is only a new
      identifier.
    - Loss on the wire: the theorems about two hosts deliver every segment, in
      order; what happens to a segment that is lost, repeated or out of order is
      stated for one host ([tcp_stream_integrity], [tcp_timer_retransmits],
      [tcp_syn_not_retransmitted]).
    - The first contact: stations know the hardware addresses of each other.  How
      they learn them is [arp_handshake].
    - src/test is not part of the program. *)

From stdpp Require Export base numbers list gmap.
From Stdlib Require Export ZArith Lia.

#[global] Open Scope Z_scope.

(** ** Machine integers

    A C unsigned integer of [w] bits is a [Z]; every arithmetic result that the
    source stores in such a type is wrapped explicitly. *)

Definition u8 (x : Z) : Z := x mod 256.
Definition u16 (x : Z) : Z := x mod 65536.
Definition u32 (x : Z) : Z := x mod 4294967296.
(** [size_t] on the 64-bit targets the Makefile builds for. *)
Definition u64 (x : Z) : Z := x mod 18446744073709551616.

Definition is_u8 (x : Z) : Prop := 0 <= x < 256.
Definition is_u16 (x : Z) : Prop := 0 <= x < 65536.
Definition is_u32 (x : Z) : Prop := 0 <= x < 4294967296.

(** Memory is a list of octets. *)
Abbreviation bytes := (list Z).
Definition is_bytes (l : bytes) : Prop := Forall is_u8 l.
Definition zlen {A} (l : list A) : Z := Z.of_nat (length l).

(** The C conditional on an integer used as a truth value. *)
Definition nz (x : Z) : bool := negb (x =? 0).

(** ** Undefined behaviour

    Operations that the C standard leaves undefined are recorded in a log and
    the model goes on with the in-bounds part of the effect.  A theorem that
    an operation is safe says that its log is empty; whatever a model computes
    after its first logged event carries no promise about the C program. *)

Inductive ub :=
  | OobRead (n : Z)             (** read of [n] octets or words outside an object *)
  | OobWrite (n : Z)            (** write of [n] octets or words outside an object *)
  | ShiftWidth                  (** shift by at least the width of the operand *)
  | UseAfterFree                (** access to or free of a freed object *)
  | NullDeref                   (** dereference of a null pointer *)
  | Indeterminate               (** use of a value that was never set *)
  | BadJoin                     (** join of a thread that is not there to be joined *)
  | Endless                     (** a loop without effects that does not end *)
  | Deadlock.                   (** relocking a held, non-recursive mutex *)

#[export] Instance ub_eq_dec : EqDecision ub.
Proof. solve_decision. Defined.

(** [memcpy(dst + off, src, n)] into an object [dst]: the octets that exist in
    the source and fit the destination are copied. *)
Definition memcpy (dst : bytes) (off : Z) (src : bytes) (n : Z) : bytes * list ub :=
  let got := take (Z.to_nat (Z.min n (zlen src))) src in
  let put := take (Z.to_nat (zlen dst - off)) got in
  (take (Z.to_nat off) dst ++ put ++ drop (Z.to_nat off + length put) dst,
   (if zlen src <? n then [OobRead (n - zlen src)] else []) ++
   (if zlen dst <? off + n then [OobWrite (off + n - zlen dst)] else [])).

(** ** State passing with an undefined-behaviour log *)

Definition M (S A : Type) : Type := S -> A * S * list ub.

Definition mret' {S A} (a : A) : M S A := fun s => (a, s, []).
Definition mbind' {S A B} (m : M S A) (k : A -> M S B) : M S B := fun s =>
  let '(a, s1, u1) := m s in
  let '(b, s2, u2) := k a s1 in
  (b, s2, u1 ++ u2).

Definition get {S} : M S S := fun s => (s, s, []).
Definition gets {S A} (f : S -> A) : M S A := fun s => (f s, s, []).
Definition put {S} (s : S) : M S unit := fun _ => (tt, s, []).
Definition modify {S} (f : S -> S) : M S unit := fun s => (tt, f s, []).
Definition tell {S} (u : list ub) : M S unit := fun s => (tt, s, u).

(** Run an operation on a part of the state. *)
Definition zoom {S T A} (proj : S -> T) (upd : T -> S -> S) (m : M T A) : M S A := fun s =>
  let '(a, t, u) := m (proj s) in (a, upd t s, u).

Definition when {S} (b : bool) (m : M S unit) : M S unit := if b then m else mret' tt.

Declare Scope c_scope.
Delimit Scope c_scope with c.
Notation "'let*' x ':=' m 'in' k" := (mbind' m (fun x => k))
  (at level 200, x pattern, m at level 100, k at level 200, right associativity) : c_scope.
Notation "m ';;;' k" := (mbind' m (fun _ => k))
  (at level 100, k at level 200, right associativity) : c_scope.
Notation ret := mret'.
#[global] Open Scope c_scope.

(** Projections of the result of a run. *)
Definition rval {S A} (r : A * S * list ub) : A := r.1.1.
Definition rst {S A} (r : A * S * list ub) : S := r.1.2.
Definition rub {S A} (r : A * S * list ub) : list ub := r.2.

Lemma mbind_ret_l {S A B} (a : A) (k : A -> M S B) s : mbind' (mret' a) k s = k a s.
Proof. unfold mbind', mret'. by destruct (k a s) as [[b s2] u]. Qed.

Lemma mbind_assoc {S A B C} (m : M S A) (f : A -> M S B) (g : B -> M S C) s :
  mbind' (mbind' m f) g s = mbind' m (fun a => mbind' (f a) g) s.
Proof.
  unfold mbind'. destruct (m s) as [[a s1] u1]. destruct (f a s1) as [[b s2] u2].
  destruct (g b s2) as [[c s3] u3]. by rewrite app_assoc.
Qed.

(** The step of symbolic execution: run the first operation of a sequence. *)
Lemma mbind_run {S A B} (m : M S A) (k : A -> M S B) s a s1 u1 :
  m s = (a, s1, u1) -> mbind' m k s = let '(b, s2, u2) := k a s1 in (b, s2, u1 ++ u2).
Proof. intros H. unfold mbind'. by rewrite H. Qed.

Lemma mbind_run_nil {S A B} (m : M S A) (k : A -> M S B) s a s1 :
  m s = (a, s1, []) -> mbind' m k s = k a s1.
Proof. intros H. rewrite (mbind_run _ _ _ _ _ _ H). by destruct (k a s1) as [[b s2] u]. Qed.

(** ** Tactics *)

(** Run the first operation of a sequence, with [tac] for its result. *)
Tactic Notation "run" "by" tactic3(tac) := erewrite mbind_run_nil by tac; cbv beta iota.
Ltac run := run by done.

(** Unfold the wrap-around operators and let [lia] see divisions. *)
Ltac wrap_lia :=
  unfold is_u8, is_u16, is_u32, u8, u16, u32, u64, zlen in *;
  Z.div_mod_to_equations; lia.

(** Turn boolean tests on integers into propositions, then [lia]. *)
Ltac bool_lia :=
  repeat match goal with
  | H : context [nz _] |- _ => unfold nz in H
  | |- context [nz _] => unfold nz
  end; lia.

(** Case analysis on the scrutinee of the first [if] or [match] of the goal. *)
Ltac split_if :=
  match goal with
  | |- context [if ?b then _ else _] => destruct b eqn:?
  end.

(** ** Integers *)

Create HintDb net discriminated.

Lemma u8_range x : is_u8 (u8 x).
Proof. wrap_lia. Qed.
Lemma u16_range x : is_u16 (u16 x).
Proof. wrap_lia. Qed.
Lemma u32_range x : is_u32 (u32 x).
Proof. wrap_lia. Qed.
Lemma u8_small x : is_u8 x -> u8 x = x.
Proof. intros. apply Z.mod_small. done. Qed.
Lemma u16_small x : is_u16 x -> u16 x = x.
Proof. intros. apply Z.mod_small. done. Qed.
Lemma u32_small x : is_u32 x -> u32 x = x.
Proof. intros. apply Z.mod_small. done. Qed.
Lemma u64_small x : 0 <= x < 18446744073709551616 -> u64 x = x.
Proof. intros. by apply Z.mod_small. Qed.

Lemma u32_add_l a b : u32 (u32 a + b) = u32 (a + b).
Proof. apply Zplus_mod_idemp_l. Qed.
Lemma u32_sub_l a b : u32 (u32 a - b) = u32 (a - b).
Proof. apply Zminus_mod_idemp_l. Qed.

#[global] Arguments u8 _ : simpl never.
#[global] Arguments u16 _ : simpl never.
#[global] Arguments u32 _ : simpl never.
#[global] Arguments u64 _ : simpl never.

#[export] Hint Resolve u8_range u16_range u32_range : net.

(** ** Bits *)

Lemma testbit_high x w i : 0 <= x < 2 ^ w -> w <= i -> Z.testbit x i = false.
Proof.
  intros [Hx Hw] Hi. destruct (decide (0 <= w)) as [Hw0|Hw0].
  - rewrite <- (Z.mod_small x (2 ^ w)) by done. by apply Z.mod_pow2_bits_high.
  - rewrite Z.pow_neg_r in Hw by lia. lia.
Qed.

Lemma land_ones_mod x w : 0 <= w -> Z.land x (2 ^ w - 1) = x mod 2 ^ w.
Proof. intros. rewrite <- Z.land_ones by done. by rewrite Z.ones_equiv, Z.sub_1_r. Qed.

Lemma testbit_ones w i : 0 <= w -> Z.testbit (2 ^ w - 1) i = bool_decide (0 <= i < w).
Proof.
  intros Hw. rewrite Z.sub_1_r, <- Z.ones_equiv, Z.testbit_ones by done.
  case_bool_decide; lia.
Qed.

(** Disjoint [lor] is addition: a low part below [2^w] and a multiple of it. *)
Lemma lor_disjoint_add a b w : 0 <= w -> 0 <= a < 2 ^ w -> Z.lor a (b * 2 ^ w) = a + b * 2 ^ w.
Proof.
  intros Hw Ha. rewrite <- Z.shiftl_mul_pow2 by done. symmetry.
  rewrite <- Z.lxor_lor, <- Z.add_nocarry_lxor; try done.
  all: apply Z.bits_inj'; intros i Hi; rewrite Z.land_spec, Z.bits_0;
    destruct (decide (i < w));
    [ rewrite Z.shiftl_spec_low by done; apply andb_false_r
    | rewrite (testbit_high a w) by lia; done ].
Qed.

(** ** Lists *)

Lemma zlen_nonneg {A} (l : list A) : 0 <= zlen l.
Proof. unfold zlen. lia. Qed.

Lemma zlen_app {A} (l k : list A) : zlen (l ++ k) = zlen l + zlen k.
Proof. unfold zlen. rewrite length_app. lia. Qed.

Lemma is_bytes_app l k : is_bytes (l ++ k) <-> is_bytes l /\ is_bytes k.
Proof. apply Forall_app. Qed.

Lemma is_bytes_take n l : is_bytes l -> is_bytes (take n l).
Proof. apply Forall_take. Qed.

Lemma is_bytes_drop n l : is_bytes l -> is_bytes (drop n l).
Proof. apply Forall_drop. Qed.

#[export] Hint Resolve is_bytes_take is_bytes_drop : net.

(** The index of the first element that passes a test. *)
Fixpoint first_index {A} (p : A -> bool) (l : list A) : option nat :=
  match l with
  | [] => None
  | x :: l => if p x then Some O else S <$> first_index p l
  end.

Lemma first_index_Some {A} (p : A -> bool) l i : first_index p l = Some i ->
  exists x, l !! i = Some x /\ p x = true /\ forall j y, (j < i)%nat -> l !! j = Some y -> p y = false.
Proof.
  revert i. induction l as [|x l IH]; intros i E; cbn in E; [done|].
  destruct (p x) eqn:Ex.
  - injection E as <-. exists x. split_and!; [done|done|]. intros j y Hj. lia.
  - destruct (first_index p l) as [k|]; [|done]. injection E as <-.
    destruct (IH k eq_refl) as (y & Hy & Hp & Hmin). exists y. split_and!; [done|done|].
    intros [|j] z Hj Hz; [by injection Hz as <-|]. apply (Hmin j); [lia|done].
Qed.

Lemma first_index_None {A} (p : A -> bool) l i x : first_index p l = None -> l !! i = Some x -> p x = false.
Proof.
  revert i. induction l as [|y l IH]; intros i E Hl; cbn in E; [done|].
  destruct (p y) eqn:Ey; [done|]. destruct (first_index p l); [done|]. destruct i as [|i]; [by injection Hl as <-|].
  by apply (IH i).
Qed.

(** An element that passes and before which none does is the first. *)
Lemma first_index_intro {A} (p : A -> bool) l i x : l !! i = Some x -> p x = true ->
  (forall j y, (j < i)%nat -> l !! j = Some y -> p y = false) -> first_index p l = Some i.
Proof.
  revert i. induction l as [|y l IH]; intros i Hl Hp Hmin; [done|]. destruct i as [|i]; cbn in *.
  - injection Hl as ->. by rewrite Hp.
  - rewrite (Hmin O y) by (done || lia). rewrite (IH i); [done..|]. intros j z Hj Hz. apply (Hmin (S j)); [lia|done].
Qed.

Lemma first_index_none {A} (p : A -> bool) l : (forall i x, l !! i = Some x -> p x = false) -> first_index p l = None.
Proof.
  intros Hall. destruct (first_index p l) as [i|] eqn:E; [|done].
  apply first_index_Some in E as (x & Hx & Hp & _). by rewrite (Hall i x Hx) in Hp.
Qed.

(** An element put where no other passes. *)
Lemma first_index_insert {A} (p : A -> bool) l i x : (i < length l)%nat -> p x = true ->
  (forall j y, j <> i -> l !! j = Some y -> p y = false) -> first_index p (<[i := x]> l) = Some i.
Proof.
  intros Hi Hp Hother. apply (first_index_intro _ _ _ x); [by apply list_lookup_insert_eq|done|].
  intros j y Hj Hy. rewrite list_lookup_insert_ne in Hy by lia. apply (Hother j); [lia|done].
Qed.
