(* ===== verification/Logic.v ===== *)
(** * A program logic for the monad

    [post m s Q] says that running [m] from [s] ends with [Q], [safe m s Q] also that
    no undefined behaviour is logged on the way.  What an operation may change is
    a preorder on states, and an operation respects it when all its parts do. *)

From S2P Require Import Prelude.

(** ** Postconditions *)

Definition post {S A} (m : M S A) (s : S) (Q : A -> S -> Prop) : Prop := Q (rval (m s)) (rst (m s)).

Lemma post_bind {S A B} (m : M S A) (k : A -> M S B) s Q :
  post m s (fun a s1 => post (k a) s1 Q) -> post (mbind' m k) s Q.
Proof.
  unfold post, mbind'. destruct (m s) as [[a s1] u1]. cbn. by destruct (k a s1) as [[b s2] u2].
Qed.

Lemma post_mono {S A} (m : M S A) s (Q Q' : A -> S -> Prop) :
  post m s Q -> (forall a s', Q a s' -> Q' a s') -> post m s Q'.
Proof. unfold post. auto. Qed.

(** ** Respecting a preorder *)

Definition respects {S A} (R : S -> S -> Prop) (m : M S A) : Prop := forall s, R s (rst (m s)).

Section Respects.
Context {S : Type} (R : S -> S -> Prop) `{!PreOrder R}.

Lemma respects_ret {A} (a : A) : respects R (ret a).
Proof. intros s. reflexivity. Qed.
Lemma respects_tell u : respects R (tell u).
Proof. intros s. reflexivity. Qed.
Lemma respects_gets {A} (f : S -> A) : respects R (gets f).
Proof. intros s. reflexivity. Qed.
Lemma respects_bind {A B} (m : M S A) (k : A -> M S B) :
  respects R m -> (forall a, respects R (k a)) -> respects R (mbind' m k).
Proof.
  intros Hm Hk s. specialize (Hm s). unfold mbind', rst in *. destruct (m s) as [[a s1] u1]. cbn in *.
  specialize (Hk a s1). unfold rst in Hk. destruct (k a s1) as [[b s2] u2]. by etrans.
Qed.
Lemma respects_when b m : respects R m -> respects R (when b m).
Proof. destruct b; [done|]. intros _. apply respects_ret. Qed.
End Respects.

Lemma post_assoc {S A B C} (m : M S A) (f : A -> M S B) (g : B -> M S C) s Q :
  post (mbind' m (fun a => mbind' (f a) g)) s Q -> post (mbind' (mbind' m f) g) s Q.
Proof. unfold post. by rewrite mbind_assoc. Qed.

Lemma post_ret {S A} (a : A) (s : S) (Q : A -> S -> Prop) : Q a s -> post (ret a) s Q.
Proof. done. Qed.

(** ** The parts of a result *)

Lemma rst_bind {S A B} (m : M S A) (k : A -> M S B) s :
  rst (mbind' m k s) = rst (k (rval (m s)) (rst (m s))).
Proof. unfold mbind', rst, rval. destruct (m s) as [[a s1] u]. cbn. by destruct (k a s1) as [[b s2] u2]. Qed.

Lemma rval_bind {S A B} (m : M S A) (k : A -> M S B) s :
  rval (mbind' m k s) = rval (k (rval (m s)) (rst (m s))).
Proof. unfold mbind', rst, rval. destruct (m s) as [[a s1] u]. cbn. by destruct (k a s1) as [[b s2] u2]. Qed.

Lemma rub_bind {S A B} (m : M S A) (k : A -> M S B) s :
  rub (mbind' m k s) = rub (m s) ++ rub (k (rval (m s)) (rst (m s))).
Proof. unfold mbind', rst, rval, rub. destruct (m s) as [[a s1] u]. cbn. by destruct (k a s1) as [[b s2] u2]. Qed.

(** ** Safety *)

Definition safe {S A} (m : M S A) (s : S) (Q : A -> S -> Prop) : Prop :=
  rub (m s) = [] /\ Q (rval (m s)) (rst (m s)).

Lemma safe_bind {S A B} (m : M S A) (k : A -> M S B) s Q :
  safe m s (fun a s1 => safe (k a) s1 Q) -> safe (mbind' m k) s Q.
Proof. intros (Hu & Hu' & HQ). split; [by rewrite rub_bind, Hu, Hu'|]. by rewrite rval_bind, rst_bind. Qed.

Lemma safe_mono {S A} (m : M S A) s (Q Q' : A -> S -> Prop) :
  safe m s Q -> (forall a s', Q a s' -> Q' a s') -> safe m s Q'.
Proof. intros [Hu HQ] HQ'. split; auto. Qed.

Lemma safe_ret {S A} (a : A) (s : S) (Q : A -> S -> Prop) : Q a s -> safe (ret a) s Q.
Proof. done. Qed.

Lemma safe_gets {S A} (f : S -> A) (s : S) (Q : A -> S -> Prop) : Q (f s) s -> safe (gets f) s Q.
Proof. done. Qed.

Lemma safe_modify {S} (f : S -> S) (s : S) (Q : unit -> S -> Prop) : Q tt (f s) -> safe (modify f) s Q.
Proof. done. Qed.

Lemma safe_when {S} (b : bool) (m : M S unit) s (Q : unit -> S -> Prop) :
  (b = true -> safe m s Q) -> (b = false -> Q tt s) -> safe (when b m) s Q.
Proof. destruct b; cbn; auto using safe_ret. Qed.

Lemma safe_assoc {S A B C} (m : M S A) (f : A -> M S B) (g : B -> M S C) s Q :
  safe (mbind' m (fun a => mbind' (f a) g)) s Q -> safe (mbind' (mbind' m f) g) s Q.
Proof. unfold safe. by rewrite mbind_assoc. Qed.

(** The last operation of a sequence, as a sequence. *)
Lemma safe_tail {S A} (m : M S A) s (Q : A -> S -> Prop) : safe (mbind' m ret) s Q -> safe m s Q.
Proof.
  unfold safe, mbind', rub, rval, rst. destruct (m s) as [[a s1] u]. cbn. by rewrite app_nil_r.
Qed.

Lemma safe_tell_nil {S A} (k : M S A) s (Q : A -> S -> Prop) : safe k s Q -> safe (tell [] ;;; k) s Q.
Proof. intros Hk. by apply safe_bind. Qed.

(** What a safe run computes. *)
Lemma safe_run {S A} (m : M S A) s (Q : A -> S -> Prop) : safe m s Q -> exists a s', m s = (a, s', []) /\ Q a s'.
Proof. intros [Hu HQ]. exists (rval (m s)), (rst (m s)). split; [|done]. destruct (m s) as [[a s1] u]. cbn in *. by subst. Qed.
