(* ===== verification/Endian.v ===== *)
(** * Byte order conversion (src/util.c, lines 105-156)

    The host's byte order is a parameter of the whole development: [Host] says
    how the compiler lays out a 16- or 32-bit object in memory.  [byteorder]
    probes it the way the source does; [hton16] and its companions are given
    both with the [static int endian] cache of the source and without it, and
    the two are proved to agree. *)

From S2P Require Import Prelude.

Inductive endian := LittleEndian | BigEndian.

(** How the machine stores integers. *)
Class Host := host_endian : endian.

Section Endian.
Context {H : Host}.

(** ** Objects in memory *)

Definition store16 (v : Z) : bytes :=
  match host_endian with
  | LittleEndian => [v mod 256; v / 256 mod 256]
  | BigEndian => [v / 256 mod 256; v mod 256]
  end.

Definition load16 (b0 b1 : Z) : Z :=
  match host_endian with
  | LittleEndian => b0 + b1 * 256
  | BigEndian => b0 * 256 + b1
  end.

Definition store32 (v : Z) : bytes :=
  match host_endian with
  | LittleEndian => [v mod 256; v / 256 mod 256; v / 65536 mod 256; v / 16777216 mod 256]
  | BigEndian => [v / 16777216 mod 256; v / 65536 mod 256; v / 256 mod 256; v mod 256]
  end.

Definition load32 (b0 b1 b2 b3 : Z) : Z :=
  match host_endian with
  | LittleEndian => b0 + b1 * 256 + b2 * 65536 + b3 * 16777216
  | BigEndian => b0 * 16777216 + b1 * 65536 + b2 * 256 + b3
  end.

(** ** The conversions *)

Definition BIG_ENDIAN_ : Z := 4321.
Definition LITTLE_ENDIAN_ : Z := 1234.

(** [uint32_t x = 1; return *(uint8_t * )&x ? __LITTLE_ENDIAN : __BIG_ENDIAN;] *)
Definition byteorder : Z :=
  if nz (hd 0 (store32 1)) then LITTLE_ENDIAN_ else BIG_ENDIAN_.

Definition byteswap16 (v : Z) : Z :=
  u16 (Z.lor (Z.shiftl (Z.land v 255) 8) (Z.shiftr (Z.land v 65280) 8)).

Definition byteswap32 (v : Z) : Z :=
  Z.lor (Z.lor (Z.lor
    (u32 (Z.shiftl (Z.land v 255) 24))
    (u32 (Z.shiftl (Z.land v 65280) 8)))
    (Z.shiftr (Z.land v 16711680) 8))
    (Z.shiftr (Z.land v 4278190080) 24).

(** The functions of the source: [endian] is the static cache, 0 before its
    first use; the result carries its new value. *)
Definition hton16_static (endian h : Z) : Z * Z :=
  let endian := if nz endian then endian else byteorder in
  (if endian =? LITTLE_ENDIAN_ then byteswap16 h else h, endian).

Definition ntoh16_static (endian n : Z) : Z * Z :=
  let endian := if nz endian then endian else byteorder in
  (if endian =? LITTLE_ENDIAN_ then byteswap16 n else n, endian).

Definition hton32_static (endian h : Z) : Z * Z :=
  let endian := if nz endian then endian else byteorder in
  (if endian =? LITTLE_ENDIAN_ then byteswap32 h else h, endian).

Definition ntoh32_static (endian n : Z) : Z * Z :=
  let endian := if nz endian then endian else byteorder in
  (if endian =? LITTLE_ENDIAN_ then byteswap32 n else n, endian).

(** The value returned once the cache is filled; the other files use these. *)
Definition hton16 (h : Z) : Z := (hton16_static 0 h).1.
Definition ntoh16 (n : Z) : Z := (ntoh16_static 0 n).1.
Definition hton32 (h : Z) : Z := (hton32_static 0 h).1.
Definition ntoh32 (n : Z) : Z := (ntoh32_static 0 n).1.

(** ** Lemmas *)

Lemma byteswap16_div v : is_u16 v -> byteswap16 v = v mod 256 * 256 + v / 256.
Proof.
  intros Hv. unfold byteswap16.
  change 65280 with (Z.shiftl (2 ^ 8 - 1) 8).
  rewrite Z.shiftr_land, Z.shiftr_shiftl_l by lia. change (Z.shiftl _ (8 - 8)) with (2 ^ 8 - 1).
  change 255 with (2 ^ 8 - 1). rewrite !land_ones_mod, Z.shiftl_mul_pow2, Z.shiftr_div_pow2 by lia.
  rewrite Z.lor_comm, lor_disjoint_add; [|lia|apply Z.mod_pos_bound; lia].
  change (2 ^ 8) with 256. wrap_lia.
Qed.

Lemma byteswap16_range v : is_u16 v -> is_u16 (byteswap16 v).
Proof. intros. unfold byteswap16. auto with net. Qed.

(** The octet [k] of [v], as a mask and a shift select it. *)
Lemma land_byte v k : 0 <= k -> Z.land v (255 * 2 ^ (8 * k)) = v / 2 ^ (8 * k) mod 256 * 2 ^ (8 * k).
Proof.
  intros Hk. change 255 with (2 ^ 8 - 1). rewrite <- !Z.shiftl_mul_pow2 by lia.
  rewrite <- Z.shiftr_div_pow2 by lia. change 256 with (2 ^ 8).
  rewrite <- land_ones_mod by lia. rewrite Z.shiftl_land.
  apply Z.bits_inj'; intros i Hi. rewrite !Z.land_spec.
  destruct (decide (i < 8 * k)) as [Hlt|Hge].
  - rewrite !Z.shiftl_spec_low by lia. by rewrite !andb_false_r.
  - rewrite !Z.shiftl_spec, Z.shiftr_spec by lia. by rewrite Z.sub_add.
Qed.

Lemma lor_rev4 a b c d : Z.lor (Z.lor (Z.lor a b) c) d = Z.lor (Z.lor (Z.lor d c) b) a.
Proof.
  apply Z.bits_inj; intros i. rewrite !Z.lor_spec.
  by destruct (Z.testbit a i), (Z.testbit b i), (Z.testbit c i), (Z.testbit d i).
Qed.

Lemma byteswap32_div v : is_u32 v ->
  byteswap32 v = v mod 256 * 16777216 + v / 256 mod 256 * 65536
                 + v / 65536 mod 256 * 256 + v / 16777216.
Proof.
  intros Hv. unfold byteswap32.
  assert (Z.land v 255 = v mod 256) as -> by (apply (land_ones_mod v 8); lia).
  assert (Z.land v 65280 = v / 256 mod 256 * 256) as -> by (apply (land_byte v 1); lia).
  assert (Z.land v 16711680 = v / 65536 mod 256 * 65536) as -> by (apply (land_byte v 2); lia).
  assert (Z.land v 4278190080 = v / 16777216 mod 256 * 16777216) as ->
    by (apply (land_byte v 3); lia).
  rewrite !Z.shiftl_mul_pow2, !Z.shiftr_div_pow2 by lia.
  replace (v / 65536 mod 256 * 65536 / 2 ^ 8) with (v / 65536 mod 256 * 2 ^ 8) by wrap_lia.
  replace (v / 16777216 mod 256 * 16777216 / 2 ^ 24) with (v / 16777216) by wrap_lia.
  replace (u32 (v mod 256 * 2 ^ 24)) with (v mod 256 * 2 ^ 24) by wrap_lia.
  replace (u32 (v / 256 mod 256 * 256 * 2 ^ 8)) with (v / 256 mod 256 * 2 ^ 16) by wrap_lia.
  rewrite lor_rev4.
  rewrite (lor_disjoint_add (v / 16777216)) by wrap_lia.
  rewrite (lor_disjoint_add _ _ 16), (lor_disjoint_add _ _ 24) by wrap_lia.
  change (2 ^ 24) with 16777216. lia.
Qed.

Lemma hton16_cases v :
  hton16 v = match host_endian with LittleEndian => byteswap16 v | BigEndian => v end.
Proof. unfold hton16, hton16_static, byteorder, store32. by destruct host_endian. Qed.

Lemma ntoh16_cases v :
  ntoh16 v = match host_endian with LittleEndian => byteswap16 v | BigEndian => v end.
Proof. unfold ntoh16, ntoh16_static, byteorder, store32. by destruct host_endian. Qed.

Lemma hton32_cases v :
  hton32 v = match host_endian with LittleEndian => byteswap32 v | BigEndian => v end.
Proof. unfold hton32, hton32_static, byteorder, store32. by destruct host_endian. Qed.

Lemma ntoh32_cases v :
  ntoh32 v = match host_endian with LittleEndian => byteswap32 v | BigEndian => v end.
Proof. unfold ntoh32, ntoh32_static, byteorder, store32. by destruct host_endian. Qed.

Lemma byteswap16_involutive v : is_u16 v -> byteswap16 (byteswap16 v) = v.
Proof. intros. rewrite !byteswap16_div by (try rewrite byteswap16_div by done; wrap_lia). wrap_lia. Qed.

Lemma byteswap32_range v : is_u32 v -> is_u32 (byteswap32 v).
Proof. intros. rewrite byteswap32_div by done. wrap_lia. Qed.

(** A 32-bit value is its four octets. *)
Lemma u32_octets v : is_u32 v -> exists b0 b1 b2 b3,
  is_u8 b0 /\ is_u8 b1 /\ is_u8 b2 /\ is_u8 b3 /\
  v = b0 + b1 * 256 + b2 * 65536 + b3 * 16777216.
Proof.
  intros. exists (v mod 256), (v / 256 mod 256), (v / 65536 mod 256), (v / 16777216).
  split_and!; wrap_lia.
Qed.

Lemma octets_div b0 b1 b2 b3 : is_u8 b0 -> is_u8 b1 -> is_u8 b2 -> is_u8 b3 ->
  let v := b0 + b1 * 256 + b2 * 65536 + b3 * 16777216 in
  v mod 256 = b0 /\ v / 256 mod 256 = b1 /\ v / 65536 mod 256 = b2 /\
  v / 16777216 mod 256 = b3 /\ v / 16777216 = b3.
Proof. intros ? ? ? ? v; subst v. split_and!; wrap_lia. Qed.

Lemma byteswap32_octets b0 b1 b2 b3 : is_u8 b0 -> is_u8 b1 -> is_u8 b2 -> is_u8 b3 ->
  byteswap32 (b0 + b1 * 256 + b2 * 65536 + b3 * 16777216)
  = b3 + b2 * 256 + b1 * 65536 + b0 * 16777216.
Proof.
  intros. rewrite byteswap32_div by (unfold is_u32, is_u8 in *; lia).
  destruct (octets_div b0 b1 b2 b3) as (-> & -> & -> & _ & ->); [done..|lia].
Qed.

Lemma byteswap32_involutive v : is_u32 v -> byteswap32 (byteswap32 v) = v.
Proof.
  intros (b0 & b1 & b2 & b3 & ? & ? & ? & ? & ->)%u32_octets.
  by rewrite !byteswap32_octets.
Qed.

Lemma hton16_range v : is_u16 v -> is_u16 (hton16 v).
Proof. intros. rewrite hton16_cases. destruct host_endian; auto using byteswap16_range. Qed.

Lemma ntoh16_range v : is_u16 v -> is_u16 (ntoh16 v).
Proof. intros. rewrite ntoh16_cases. destruct host_endian; auto using byteswap16_range. Qed.

Lemma hton32_range v : is_u32 v -> is_u32 (hton32 v).
Proof. intros. rewrite hton32_cases. destruct host_endian; auto using byteswap32_range. Qed.

Lemma ntoh32_range v : is_u32 v -> is_u32 (ntoh32 v).
Proof. intros. rewrite ntoh32_cases. destruct host_endian; auto using byteswap32_range. Qed.

Lemma ntoh16_hton16 v : is_u16 v -> ntoh16 (hton16 v) = v.
Proof.
  intros. rewrite ntoh16_cases, hton16_cases. destruct host_endian; auto using byteswap16_involutive.
Qed.

Lemma ntoh32_hton32 v : is_u32 v -> ntoh32 (hton32 v) = v.
Proof.
  intros. rewrite ntoh32_cases, hton32_cases. destruct host_endian; auto using byteswap32_involutive.
Qed.

Lemma hton16_ntoh16 v : is_u16 v -> hton16 (ntoh16 v) = v.
Proof.
  intros. rewrite ntoh16_cases, hton16_cases. destruct host_endian; auto using byteswap16_involutive.
Qed.

Lemma hton32_ntoh32 v : is_u32 v -> hton32 (ntoh32 v) = v.
Proof.
  intros. rewrite ntoh32_cases, hton32_cases. destruct host_endian; auto using byteswap32_involutive.
Qed.

Lemma hton16_inj a b : is_u16 a -> is_u16 b -> hton16 a = hton16 b -> a = b.
Proof. intros Ha Hb Hab. rewrite <- (ntoh16_hton16 a), <- (ntoh16_hton16 b) by done. by rewrite Hab. Qed.

Lemma load16_store16 v : is_u16 v ->
  forall b0 b1, store16 v = [b0; b1] -> load16 b0 b1 = v.
Proof.
  intros Hv b0 b1 E. unfold store16, load16 in *.
  destruct host_endian; injection E as <- <-; wrap_lia.
Qed.

Lemma store16_hton16 v : is_u16 v -> store16 (hton16 v) = [v / 256; v mod 256].
Proof.
  intros Hv. rewrite hton16_cases. unfold store16. destruct host_endian.
  - rewrite byteswap16_div by done. f_equal; [|f_equal]; wrap_lia.
  - by assert (v / 256 mod 256 = v / 256) as -> by wrap_lia.
Qed.

Lemma store32_hton32 v : is_u32 v ->
  store32 (hton32 v) = [v / 16777216; v / 65536 mod 256; v / 256 mod 256; v mod 256].
Proof.
  intros (b0 & b1 & b2 & b3 & ? & ? & ? & ? & ->)%u32_octets.
  rewrite hton32_cases. unfold store32. destruct host_endian; [rewrite byteswap32_octets by done|].
  - destruct (octets_div b0 b1 b2 b3) as (-> & -> & -> & _ & ->); [done..|].
    by destruct (octets_div b3 b2 b1 b0) as (-> & -> & -> & -> & _).
  - by destruct (octets_div b0 b1 b2 b3) as (-> & -> & -> & -> & ->).
Qed.

Lemma load16_range b0 b1 : is_u8 b0 -> is_u8 b1 -> is_u16 (load16 b0 b1).
Proof. intros. unfold load16. destruct host_endian; wrap_lia. Qed.

Lemma load32_range b0 b1 b2 b3 :
  is_u8 b0 -> is_u8 b1 -> is_u8 b2 -> is_u8 b3 -> is_u32 (load32 b0 b1 b2 b3).
Proof. intros. unfold load32. destruct host_endian; wrap_lia. Qed.

Lemma ntoh16_load16 b0 b1 : is_u8 b0 -> is_u8 b1 -> ntoh16 (load16 b0 b1) = b0 * 256 + b1.
Proof.
  intros. rewrite ntoh16_cases. unfold load16. destruct host_endian; [|done].
  rewrite byteswap16_div by wrap_lia. wrap_lia.
Qed.

Lemma ntoh32_load32 b0 b1 b2 b3 : is_u8 b0 -> is_u8 b1 -> is_u8 b2 -> is_u8 b3 ->
  ntoh32 (load32 b0 b1 b2 b3) = b0 * 16777216 + b1 * 65536 + b2 * 256 + b3.
Proof.
  intros. rewrite ntoh32_cases. unfold load32. destruct host_endian; [|done].
  rewrite byteswap32_octets by done. lia.
Qed.

Lemma static_agree (endian v : Z) : endian = 0 \/ endian = byteorder ->
  hton16_static endian v = (hton16 v, byteorder) /\
  ntoh16_static endian v = (ntoh16 v, byteorder) /\
  hton32_static endian v = (hton32 v, byteorder) /\
  ntoh32_static endian v = (ntoh32 v, byteorder).
Proof.
  intros Hc.
  unfold hton16, ntoh16, hton32, ntoh32, hton16_static, ntoh16_static, hton32_static, ntoh32_static.
  assert ((if nz endian then endian else byteorder) = byteorder) as ->; [|done].
  destruct Hc as [-> | ->]; [done | by destruct (nz byteorder)].
Qed.

(** A stored object, octet by octet. *)
Lemma store16_length v : length (store16 v) = 2%nat.
Proof. unfold store16. by destruct host_endian. Qed.
Lemma store32_length v : length (store32 v) = 4%nat.
Proof. unfold store32. by destruct host_endian. Qed.
Lemma store16_load16 v : is_u16 v -> exists b0 b1, store16 v = [b0; b1] /\ load16 b0 b1 = v /\ is_u8 b0 /\ is_u8 b1.
Proof.
  intros Hv. unfold store16, load16. destruct host_endian; do 2 eexists; (split; [done|]);
    split_and!; wrap_lia.
Qed.

Lemma store32_load32 v : is_u32 v -> exists b0 b1 b2 b3, store32 v = [b0; b1; b2; b3] /\
  load32 b0 b1 b2 b3 = v /\ is_u8 b0 /\ is_u8 b1 /\ is_u8 b2 /\ is_u8 b3.
Proof.
  intros (b0 & b1 & b2 & b3 & H0 & H1 & H2 & H3 & ->)%u32_octets. unfold store32, load32.
  destruct (octets_div b0 b1 b2 b3) as (-> & -> & -> & -> & _); [done..|].
  destruct host_endian; do 4 eexists; (split; [done|]); split_and!; try done; lia.
Qed.

(** ** Properties *)

(** On a little- and on a big-endian host alike, storing [hton16 v] or
    [hton32 v] lays out the octets of [v] in network order, most significant
    octet first. *)
Theorem hton_wire_format (v w : Z) : is_u16 v -> is_u32 w ->
  store16 (hton16 v) = [v / 256; v mod 256] /\
  store32 (hton32 w) = [w / 16777216; w / 65536 mod 256; w / 256 mod 256; w mod 256].
Proof. split; [by apply store16_hton16 | by apply store32_hton32]. Qed.

(** Whatever the static byte-order cache holds (0 before the first call,
    the probed order after), the four conversions leave the probed order in it
    and the network-to-host ones invert the host-to-network ones on values of
    their width. *)
Theorem ntoh_hton_inverse (endian v w : Z) :
  endian = 0 \/ endian = byteorder -> is_u16 v -> is_u32 w ->
  hton16_static endian v = (hton16 v, byteorder) /\
  ntoh16_static endian (hton16 v) = (v, byteorder) /\
  hton32_static endian w = (hton32 w, byteorder) /\
  ntoh32_static endian (hton32 w) = (w, byteorder).
Proof.
  intros Hc Hv Hw. destruct (static_agree endian v Hc) as (-> & _ & _ & _).
  destruct (static_agree endian (hton16 v) Hc) as (_ & -> & _ & _).
  destruct (static_agree endian w Hc) as (_ & _ & -> & _).
  destruct (static_agree endian (hton32 w) Hc) as (_ & _ & _ & ->).
  by rewrite ntoh16_hton16, ntoh32_hton32.
Qed.

End Endian.

#[global] Arguments hton16 {H} _ : simpl never.
#[global] Arguments ntoh16 {H} _ : simpl never.
#[global] Arguments hton32 {H} _ : simpl never.
#[global] Arguments ntoh32 {H} _ : simpl never.

Lemma hton_wire_format_witness :
  store16 (H := LittleEndian) (hton16 (H := LittleEndian) 2048) = [8; 0].
Proof.
  exact (proj1 (hton_wire_format (H := LittleEndian) 2048 0 ltac:(unfold is_u16; lia)
                  ltac:(unfold is_u32; lia))).
Defined.

Lemma ntoh_hton_inverse_witness :
  ntoh16_static (H := LittleEndian) 0 (hton16 (H := LittleEndian) 2048) = (2048, 1234).
Proof.
  exact (proj1 (proj2 (ntoh_hton_inverse (H := LittleEndian) 0 2048 0 (or_introl eq_refl)
    ltac:(unfold is_u16; lia) ltac:(unfold is_u32; lia)))).
Defined.
