(* ===== verification/Cksum.v ===== *)
(** * The Internet checksum (src/util.c, [cksum16])

    [cksum16] adds 16-bit words of memory into a 32-bit accumulator, folds the
    carries twice and complements.  It is related here to the ones' complement
    sum with end-around carry after every addition, and shown to verify to zero
    once stored, to detect any change of one word, and to put the same octets
    in memory on both kinds of host. *)

From S2P Require Import Prelude Endian.

(** ** The code *)

Section Code.
Context {H : Host}.

(** [while (size > 1) { sum += *(data++); size -= 2; } if (size) sum += *(uint8_t * )data;] *)
Fixpoint cksum_sum (data : bytes) (sum : Z) : Z :=
  match data with
  | b0 :: b1 :: rest => cksum_sum rest (u32 (sum + load16 b0 b1))
  | [b] => u32 (sum + b)
  | [] => sum
  end.

(** [sum = (sum & 0xffff) + (sum >> 16);] *)
Definition cksum_fold (sum : Z) : Z := u32 (Z.land sum 65535 + Z.shiftr sum 16).

(** The value computed over exactly the octets of [data]. *)
Definition cksum (data : bytes) (init : Z) : Z :=
  let sum := cksum_sum data init in
  let sum := cksum_fold sum in
  let sum := cksum_fold sum in
  u16 (Z.lnot (u16 sum)).

(** The call: [size] is a [uint16_t], and [data] is the memory the pointer may
    read from. *)
Definition cksum16 (data : bytes) (size init : Z) : Z * list ub :=
  let size := u16 size in
  (cksum (take (Z.to_nat size) data) (u32 init),
   if zlen data <? size then [OobRead (size - zlen data)] else []).

End Code.

(** ** Reference definition: ones' complement addition *)

Definition oc_add (a b : Z) : Z :=
  let s := a + b in if 65536 <=? s then s - 65535 else s.

Section Reference.
Context {H : Host}.

(** The 16-bit words of an octet string, padded with a zero octet. *)
Fixpoint words (data : bytes) : list Z :=
  match data with
  | b0 :: b1 :: rest => load16 b0 b1 :: words rest
  | [b] => [load16 b 0]
  | [] => []
  end.

Definition oc_sum (ws : list Z) (init : Z) : Z := fold_left oc_add ws init.

(** The complement of the ones' complement sum of the words. *)
Definition rfc1071 (data : bytes) (init : Z) : Z := 65535 - oc_sum (words data) init.
End Reference.

(** The representative of [s] in [1..65535], or 0 for 0. *)
Definition oc (s : Z) : Z := if s =? 0 then 0 else (s - 1) mod 65535 + 1.

(** ** Lemmas *)

Lemma oc_range s : 0 <= oc s <= 65535.
Proof. unfold oc. case_match; [lia|]. Z.div_mod_to_equations; lia. Qed.

Lemma oc_small s : 0 <= s <= 65535 -> oc s = s.
Proof. intros. unfold oc. case_match; [lia|]. rewrite Z.mod_small; lia. Qed.

(** [oc s] is the only value of the range congruent to [s] that is 0 iff [s] is. *)
Lemma oc_unique s t : 0 <= s -> 0 <= t <= 65535 -> (s - t) mod 65535 = 0 ->
  (t = 0 <-> s = 0) -> oc s = t.
Proof. intros. unfold oc. case_match; [lia|]. Z.div_mod_to_equations; lia. Qed.

Lemma oc_congr s : (s - oc s) mod 65535 = 0.
Proof. unfold oc. case_match; Z.div_mod_to_equations; lia. Qed.

Lemma oc_zero s : 0 <= s -> oc s = 0 -> s = 0.
Proof. unfold oc. case_match; [lia|]. Z.div_mod_to_equations; lia. Qed.

Lemma oc_fold s : 0 <= s < 4294967296 -> cksum_fold (cksum_fold s) = oc s.
Proof.
  intros Hs. unfold cksum_fold. change 65535 with (2 ^ 16 - 1).
  rewrite !land_ones_mod, !Z.shiftr_div_pow2 by lia. change (2 ^ 16) with 65536.
  symmetry. apply oc_unique; wrap_lia.
Qed.

Lemma oc_add_oc a b : 0 <= a -> 0 <= b -> oc_add (oc a) (oc b) = oc (a + b).
Proof.
  intros Ha Hb. symmetry. apply oc_unique; [lia|..].
  all: pose proof (oc_range a); pose proof (oc_range b).
  all: pose proof (oc_congr a); pose proof (oc_congr b).
  all: pose proof (oc_zero a Ha); pose proof (oc_zero b Hb).
  all: unfold oc_add; case_match.
  1,2: lia.
  1,2: Z.div_mod_to_equations; lia.
  all: split; intros; [lia|].
  all: assert (a = 0) as -> by lia; assert (b = 0) as -> by lia; done.
Qed.

Section Sums.
Context {H : Host}.

(** The exact sum, without wrap-around. *)
Definition wsum (data : bytes) : Z := foldr Z.add 0 (words data).

(** Induction over the two-octet steps of the loop. *)
Lemma bytes_ind2 (P : bytes -> Prop) :
  P [] -> (forall b, P [b]) -> (forall b0 b1 l, P l -> P (b0 :: b1 :: l)) -> forall l, P l.
Proof.
  intros H0 H1 H2. fix go 1. intros [|b0 [|b1 l]]; [exact H0 | exact (H1 b0) |].
  apply H2, go.
Qed.

Lemma wsum_bounds data : is_bytes data -> 0 <= wsum data <= 65535 * ((zlen data + 1) / 2).
Proof.
  induction data as [|b|b0 b1 l IH] using bytes_ind2; intros Hd;
    unfold wsum; cbn [words foldr]; unfold zlen; cbn [length].
  - wrap_lia.
  - apply Forall_cons_1 in Hd as [Hb _]. pose proof (load16_range b 0 Hb ltac:(unfold is_u8; lia)).
    wrap_lia.
  - apply Forall_cons_1 in Hd as [Hb0 [Hb1 Hl]%Forall_cons_1].
    specialize (IH Hl). pose proof (load16_range b0 b1 Hb0 Hb1).
    fold (wsum l) in *. unfold zlen in *.
    replace (Z.of_nat (S (S (length l))) + 1) with (Z.of_nat (length l) + 1 + 1 * 2) by lia.
    rewrite Z.div_add by lia. wrap_lia.
Qed.

(** On the inputs of the stack the accumulator never wraps. *)
Lemma cksum_sum_exact data sum :
  (host_endian = LittleEndian \/ Nat.Even (length data)) ->
  is_bytes data -> 0 <= sum -> sum + wsum data < 4294967296 ->
  cksum_sum data sum = sum + wsum data.
Proof.
  intros Hodd. revert sum.
  induction data as [|b|b0 b1 l IH] using bytes_ind2; intros sum Hd H0 Hs; cbn in *.
  - lia.
  - destruct Hodd as [Hle | [k Hk]]; [|lia].
    unfold wsum, words, load16 in *. rewrite Hle in *. cbn in *.
    apply Forall_cons_1 in Hd as [Hb _]. rewrite u32_small; unfold is_u32, is_u8 in *; lia.
  - apply Forall_cons_1 in Hd as [Hb0 [Hb1 Hl]%Forall_cons_1].
    pose proof (load16_range b0 b1 Hb0 Hb1) as Hw. pose proof (wsum_bounds l Hl).
    unfold wsum in *; cbn in *. fold (wsum l) in *.
    rewrite u32_small by (unfold is_u32, is_u16 in *; lia).
    rewrite IH; [lia| |done| |]; [|unfold is_u16 in *; lia..].
    destruct Hodd as [?|[k Hk]]; [by left|right]. exists (k - 1)%nat. lia.
Qed.

Lemma cksum_oc data init :
  (host_endian = LittleEndian \/ Nat.Even (length data)) ->
  is_bytes data -> 0 <= init -> init + wsum data < 4294967296 ->
  cksum data init = 65535 - oc (init + wsum data).
Proof.
  intros Hodd Hd H0 Hs. unfold cksum. pose proof (wsum_bounds data Hd).
  rewrite cksum_sum_exact, oc_fold by (done || lia).
  pose proof (oc_range (init + wsum data)). rewrite (u16_small (oc _)) by (unfold is_u16; lia).
  rewrite Z.lnot_eq_pred_opp. wrap_lia.
Qed.

Lemma words_app l k : Nat.Even (length l) -> words (l ++ k) = words l ++ words k.
Proof.
  induction l as [|b|b0 b1 l IH] using bytes_ind2; intros He; cbn in *; [done| |].
  - destruct He as [m Hm]. lia.
  - rewrite IH; [done|]. destruct He as [m Hm]. exists (m - 1)%nat. lia.
Qed.

Lemma wsum_app l k : Nat.Even (length l) -> wsum (l ++ k) = wsum l + wsum k.
Proof.
  intros He. unfold wsum. rewrite words_app by done.
  induction (words l) as [|w ws IH]; cbn; [lia|]. rewrite IH. lia.
Qed.

Lemma wsum_word b0 b1 l : wsum (b0 :: b1 :: l) = load16 b0 b1 + wsum l.
Proof. done. Qed.

Lemma wsum_store16 v l : is_u16 v -> wsum (store16 v ++ l) = v + wsum l.
Proof.
  intros Hv. pose proof (load16_store16 v Hv) as Hls. unfold store16 in *.
  destruct host_endian; cbn [app]; rewrite wsum_word; by rewrite Hls.
Qed.

Lemma oc_sum_wsum data init : is_bytes data -> 0 <= init ->
  oc_sum (words data) (oc init) = oc (init + wsum data).
Proof.
  intros Hd. revert init. unfold wsum, oc_sum.
  induction data as [|b|b0 b1 l IH] using bytes_ind2; intros init H0; cbn.
  - by rewrite Z.add_0_r.
  - apply Forall_cons_1 in Hd as [Hb _].
    pose proof (load16_range b 0 Hb ltac:(unfold is_u8; lia)) as Hw.
    rewrite Z.add_0_r, <- oc_add_oc by (unfold is_u16 in *; lia).
    by rewrite (oc_small (load16 _ _)) by (unfold is_u16 in *; lia).
  - apply Forall_cons_1 in Hd as [Hb0 [Hb1 Hl]%Forall_cons_1].
    pose proof (load16_range b0 b1 Hb0 Hb1) as Hw.
    rewrite <- (oc_small (load16 b0 b1)) by (unfold is_u16 in *; lia).
    rewrite oc_add_oc by (unfold is_u16 in *; lia). rewrite IH by (done || (unfold is_u16 in *; lia)).
    rewrite (oc_small (load16 b0 b1)) by (unfold is_u16 in *; lia). f_equal; lia.
Qed.

Lemma is_bytes_store16 v : is_bytes (store16 v).
Proof. unfold store16. destruct host_endian; repeat constructor; wrap_lia. Qed.

(** A buffer whose length fits [uint16_t], with an [init] made of a few 16-bit
    terms, never overflows the accumulator. *)
Lemma wsum_no_overflow data init : is_bytes data -> zlen data <= 65535 ->
  0 <= init <= 2147418112 -> init + wsum data < 4294967296.
Proof. intros Hd Hl Hi. pose proof (wsum_bounds data Hd). wrap_lia. Qed.

(** A word at an even offset enters the sum on its own. *)
Lemma cksum_word pre post init x :
  host_endian = LittleEndian \/ Nat.Even (length post) ->
  Nat.Even (length pre) -> is_bytes pre -> is_bytes post -> is_u16 x ->
  zlen pre + zlen post + 2 <= 65535 -> 0 <= init <= 2147418112 ->
  cksum (pre ++ store16 x ++ post) init = 65535 - oc (init + wsum pre + wsum post + x).
Proof.
  intros Hodd He Hpre Hpost Hx Hlen Hi.
  assert (is_bytes (pre ++ store16 x ++ post)) as Hb
    by (rewrite !is_bytes_app; auto using is_bytes_store16).
  rewrite cksum_oc; [|..|done|lia|].
  - rewrite wsum_app, wsum_store16 by done. do 2 f_equal. lia.
  - destruct Hodd as [?|Ho]; [by left|right]. rewrite !length_app.
    destruct He as [k ->], Ho as [j ->]. exists (k + j + 1)%nat.
    unfold store16. destruct host_endian; cbn; lia.
  - apply wsum_no_overflow; [done| |done]. rewrite !zlen_app in *. unfold store16, zlen in *.
    destruct host_endian; cbn; lia.
Qed.

Lemma store16_0 : store16 0 = [0; 0].
Proof. unfold store16. by destruct host_endian. Qed.

Lemma cksum_fill pre post init :
  host_endian = LittleEndian \/ Nat.Even (length post) ->
  Nat.Even (length pre) -> is_bytes pre -> is_bytes post ->
  zlen pre + zlen post + 2 <= 65535 -> 0 <= init <= 2147418112 ->
  cksum (pre ++ store16 (cksum (pre ++ [0; 0] ++ post) init) ++ post) init = 0.
Proof.
  intros Hodd He Hpre Hpost Hlen Hi.
  rewrite <- store16_0, (cksum_word pre post init 0) by (done || unfold is_u16; lia).
  rewrite Z.add_0_r. set (S0 := init + wsum pre + wsum post). pose proof (oc_range S0) as Hr.
  rewrite cksum_word by (done || unfold is_u16; lia). fold S0.
  enough (oc (S0 + (65535 - oc S0)) = 65535) by lia.
  pose proof (oc_congr S0). pose proof (wsum_bounds pre Hpre). pose proof (wsum_bounds post Hpost).
  assert (S0 = 0 -> oc S0 = 0) by (intros ->; done).
  apply oc_unique; subst S0; [lia|lia| |lia]. Z.div_mod_to_equations; lia.
Qed.

End Sums.

(** ** Properties *)

Section Properties.
Context {H : Host}.

(** C22: a call of [cksum16] over a buffer it may read returns the complement of
    the ones' complement sum with end-around carry of RFC 1071, although it
    delays the carries to the end: on a little-endian host for every size, on
    a big-endian host for even sizes.  No accumulated carry is lost and nothing
    outside the buffer is read. *)
Theorem cksum16_rfc1071 (data : bytes) (size init : Z) :
  (host_endian = LittleEndian \/ Z.Even size) ->
  is_bytes data -> 0 <= size <= 65535 -> size <= zlen data -> 0 <= init <= 2147418112 ->
  cksum16 data size init = (rfc1071 (take (Z.to_nat size) data) (oc init), []).
Proof.
  intros Hodd Hd Hs Hlen Hi. unfold cksum16.
  assert (length (take (Z.to_nat size) data) = Z.to_nat size) as Hl
    by (rewrite length_take; unfold zlen in *; lia).
  assert (is_bytes (take (Z.to_nat size) data)) as Hd' by auto with net.
  rewrite u16_small, u32_small by (unfold is_u16, is_u32; lia).
  f_equal; [|by rewrite (proj2 (Z.ltb_ge _ _))].
  unfold rfc1071. rewrite oc_sum_wsum by (done || lia). apply cksum_oc; try done; [|lia|].
  - destruct Hodd as [?|[k ->]]; [by left|right]. exists (Z.to_nat k). rewrite Hl. lia.
  - apply wsum_no_overflow; [done| |done]. unfold zlen. lia.
Qed.

(** Writing the checksum of a buffer into its zeroed checksum field, at any
    even offset, makes the checksum of the whole buffer zero; this is the test
    of the receiving side. *)
Theorem cksum_verifies (pre post : bytes) (init : Z) :
  host_endian = LittleEndian \/ Nat.Even (length post) ->
  Nat.Even (length pre) -> is_bytes pre -> is_bytes post ->
  zlen pre + zlen post + 2 <= 65535 -> 0 <= init <= 2147418112 ->
  cksum (pre ++ store16 (cksum (pre ++ [0; 0] ++ post) init) ++ post) init = 0.
Proof. apply cksum_fill. Qed.

(** Two buffers that differ in a single 16-bit word and both verify have the
    same word there, or 0 against 0xffff: every other change of one word is
    detected. *)
Theorem cksum_detects_word (pre post : bytes) (init v w : Z) :
  host_endian = LittleEndian \/ Nat.Even (length post) ->
  Nat.Even (length pre) -> is_bytes pre -> is_bytes post -> is_u16 v -> is_u16 w ->
  zlen pre + zlen post + 2 <= 65535 -> 0 <= init <= 2147418112 ->
  cksum (pre ++ store16 v ++ post) init = 0 -> cksum (pre ++ store16 w ++ post) init = 0 ->
  v = w \/ (v = 0 /\ w = 65535) \/ (v = 65535 /\ w = 0).
Proof.
  intros Hodd He Hpre Hpost Hv Hw Hlen Hi.
  rewrite !cksum_word by done. intros H1 H2. set (S0 := init + wsum pre + wsum post) in *.
  pose proof (oc_congr (S0 + v)). pose proof (oc_congr (S0 + w)). unfold is_u16 in *.
  clearbody S0. clear -H1 H2 H0 H3 Hv Hw. Z.div_mod_to_equations. lia.
Qed.

End Properties.

(** The octet sums seen by the two kinds of host are related by a factor 256
    modulo 65535. *)
Lemma wsum_swap data : Nat.Even (length data) -> is_bytes data ->
  (256 * wsum (H := LittleEndian) data - wsum (H := BigEndian) data) mod 65535 = 0 /\
  (wsum (H := LittleEndian) data = 0 <-> wsum (H := BigEndian) data = 0).
Proof.
  induction data as [|b|b0 b1 l IH] using bytes_ind2; intros He Hd; [done|..].
  - destruct He as [m Hm]; cbn in Hm; lia.
  - apply Forall_cons_1 in Hd as [Hb0 [Hb1 Hl]%Forall_cons_1].
    destruct IH as [IH1 IH2]; [|done|].
    { destruct He as [m Hm]; cbn in Hm. exists (m - 1)%nat. lia. }
    rewrite !wsum_word. unfold load16, host_endian.
    pose proof (wsum_bounds (H := LittleEndian) l Hl). pose proof (wsum_bounds (H := BigEndian) l Hl).
    unfold is_u8 in *. split; [|lia]. clear -IH1 Hb0 Hb1. Z.div_mod_to_equations. lia.
Qed.

(** Over an even number of octets a little- and a big-endian host store the
    same two checksum octets, so the checksum needs no byte-order conversion
    (the code stores [cksum16] into the header as it is). *)
Theorem cksum_host_independent (data : bytes) :
  Nat.Even (length data) -> is_bytes data -> zlen data <= 65535 ->
  store16 (H := LittleEndian) (cksum (H := LittleEndian) data 0)
  = store16 (H := BigEndian) (cksum (H := BigEndian) data 0).
Proof.
  intros He Hd Hl.
  rewrite !cksum_oc by first [done | by right | lia | by apply wsum_no_overflow; (done || lia)].
  rewrite !Z.add_0_l. destruct (wsum_swap data He Hd) as [Hs Hz].
  pose proof (wsum_bounds (H := LittleEndian) data Hd) as [Hle _].
  pose proof (wsum_bounds (H := BigEndian) data Hd) as [Hbe _].
  set (x := wsum (H := LittleEndian) data) in *. set (y := wsum (H := BigEndian) data) in *.
  assert (65535 - oc y = byteswap16 (65535 - oc x)) as ->.
  { pose proof (oc_range x). rewrite byteswap16_div by (unfold is_u16; lia).
    enough (oc y = oc x mod 256 * 256 + oc x / 256) by wrap_lia.
    pose proof (oc_congr x). pose proof (oc_zero x Hle).
    assert (x = 0 -> oc x = 0) by (intros ->; done).
    clearbody x y. apply oc_unique; [lia|wrap_lia| |]; [|split; intros; wrap_lia].
    clear - Hs H H0. Z.div_mod_to_equations. lia. }
  pose proof (oc_range x) as Hr. rewrite byteswap16_div by (unfold is_u16; lia).
  unfold store16, host_endian. f_equal; [|f_equal]; wrap_lia.
Qed.

(** On a big-endian host the trailing octet of an odd-sized buffer is added as a
    low-order octet, which is not the sum of RFC 1071. *)
Example cksum_big_endian_odd :
  cksum (H := BigEndian) [1] 0 = 65534 /\ rfc1071 (H := BigEndian) [1] 0 = 65279.
Proof. vm_compute. done. Qed.

(** ** Witnesses *)

Lemma cksum16_rfc1071_witness :
  cksum16 (H := LittleEndian) [69; 0; 0; 28; 1] 5 0 = (rfc1071 (H := LittleEndian) [69; 0; 0; 28; 1] 0, []).
Proof.
  exact (cksum16_rfc1071 (H := LittleEndian) [69; 0; 0; 28; 1] 5 0 (or_introl eq_refl)
    ltac:(repeat constructor; unfold is_u8; lia) ltac:(lia) ltac:(vm_compute; discriminate) ltac:(lia)).
Defined.

Lemma cksum_verifies_witness :
  cksum (H := BigEndian) ([69; 0] ++ store16 (H := BigEndian)
    (cksum (H := BigEndian) ([69; 0] ++ [0; 0] ++ [192; 168]) 0) ++ [192; 168]) 0 = 0.
Proof.
  exact (cksum_verifies (H := BigEndian) [69; 0] [192; 168] 0
    ltac:(right; by exists 1%nat) ltac:(by exists 1%nat) ltac:(repeat constructor; unfold is_u8; lia)
    ltac:(repeat constructor; unfold is_u8; lia) ltac:(vm_compute; discriminate) ltac:(lia)).
Defined.

Lemma cksum_detects_word_witness : (0 = 65535 \/ (0 = 0 /\ 65535 = 65535) \/ (0 = 65535 /\ 65535 = 0))%Z.
Proof.
  exact (cksum_detects_word (H := LittleEndian) [255; 255] [] 0 0 65535
    ltac:(by left) ltac:(by exists 1%nat) ltac:(repeat constructor; unfold is_u8; lia)
    ltac:(constructor) ltac:(unfold is_u16; lia) ltac:(unfold is_u16; lia)
    ltac:(vm_compute; discriminate) ltac:(lia) eq_refl eq_refl).
Defined.

Lemma cksum_host_independent_witness :
  store16 (H := LittleEndian) (cksum (H := LittleEndian) [69; 0; 1; 28] 0)
  = store16 (H := BigEndian) (cksum (H := BigEndian) [69; 0; 1; 28] 0).
Proof.
  exact (cksum_host_independent [69; 0; 1; 28] ltac:(by exists 2%nat)
    ltac:(repeat constructor; unfold is_u8; lia) ltac:(vm_compute; discriminate)).
Defined.
