(* ===== verification/Mask.v ===== *)
(** * Bit masks (src/util.c, [maskset], [maskchk], [maskclr])

    A mask is an array of 32-bit words; the reassembly of IP fragments keeps in
    one which octets of a datagram have arrived.  The routines work word by
    word; the theorems say that they set and test exactly the bits of an
    interval. *)

From S2P Require Import Prelude.

(** ** The code *)

Definition ALL_ONES : Z := 4294967295.

(** [mask[idx]] as an rvalue. *)
Definition mask_get (idx : Z) : M (list Z) Z := fun m =>
  match m !! Z.to_nat idx with
  | Some v => (v, m, [])
  | None => (0, m, [OobRead 1])
  end.

(** [mask[idx] = v]. *)
Definition mask_put (idx v : Z) : M (list Z) unit := fun m =>
  if idx <? zlen m then (tt, <[Z.to_nat idx := v]> m, []) else (tt, m, [OobWrite 1]).

(** [0xffffffff >> n] on an [unsigned int]; undefined for [n >= 32], where the
    x86 shift uses the count modulo 32. *)
Definition ones_shr {S} (n : Z) : M S Z :=
  if n <? 32 then ret (Z.shiftr ALL_ONES n)
  else tell [ShiftWidth] ;;; ret (Z.shiftr ALL_ONES (n mod 32)).

(** [for (idx = so; idx < so + (len / 32); idx++) mask[idx + 1] = 0xffffffff;] *)
Fixpoint mask_fill (n : nat) (idx : Z) : M (list Z) unit :=
  match n with
  | O => ret tt
  | S n => mask_put (idx + 1) ALL_ONES ;;; mask_fill n (idx + 1)
  end.

(** [mask[idx] |= (0xffffffff >> (32 - n)) << sb], with [sb = 0] for the last word. *)
Definition mask_or (idx n sb : Z) : M (list Z) unit :=
  let* p := ones_shr (32 - n) in
  let* w := mask_get idx in
  mask_put idx (Z.lor w (u32 (Z.shiftl p sb))).

Definition maskset (offset len : Z) : M (list Z) unit :=
  let so := offset / 32 in
  let sb := offset mod 32 in
  let bl := if 32 - sb <? len then 32 - sb else len in
  mask_or so bl sb ;;;
  let len := len - bl in
  mask_fill (Z.to_nat (len / 32)) so ;;;
  let idx := so + len / 32 in
  let len := len - 32 * (idx - so) in
  when (nz len) (mask_or (idx + 1) len 0).

(** The loop of [maskchk]: false when a word is not all ones. *)
Fixpoint mask_full (n : nat) (idx : Z) : M (list Z) bool :=
  match n with
  | O => ret true
  | S n =>
      let* w := mask_get (idx + 1) in
      if nz (Z.lxor w ALL_ONES) then ret false else mask_full n (idx + 1)
  end.

(** [(mask[idx] & p) ^ p] is nonzero for [p = (0xffffffff >> (32 - n)) << sb]. *)
Definition mask_lacks (idx n sb : Z) : M (list Z) bool :=
  let* w := mask_get idx in
  let* p := ones_shr (32 - n) in
  let p := u32 (Z.shiftl p sb) in
  ret (nz (Z.lxor (Z.land w p) p)).

Definition maskchk (offset len : Z) : M (list Z) Z :=
  let so := offset / 32 in
  let sb := offset mod 32 in
  let bl := if 32 - sb <? len then 32 - sb else len in
  let* lacks := mask_lacks (offset / 32) bl sb in
  if lacks then ret 0 else
  let len := len - bl in
  let* full := mask_full (Z.to_nat (len / 32)) so in
  if negb full then ret 0 else
  let idx := so + len / 32 in
  let len := len - 32 * (idx - so) in
  if nz len then
    (let* lacks := mask_lacks (idx + 1) len 0 in
     if lacks then ret 0 else ret 1)
  else ret 1.

(** [memset(mask, 0, sizeof( *mask) * size)]: [size] counts words. *)
Definition maskclr (size : Z) : M (list Z) unit := fun m =>
  (tt, replicate (Nat.min (Z.to_nat size) (length m)) 0 ++ drop (Z.to_nat size) m,
   if zlen m <? size then [OobWrite (size - zlen m)] else []).

(** ** The set of bits of a mask *)

Definition mbit (m : list Z) (i : Z) : bool :=
  match m !! Z.to_nat (i / 32) with
  | Some w => Z.testbit w (i mod 32)
  | None => false
  end.

Definition mask_wf (m : list Z) : Prop := Forall is_u32 m.

(** [i] lies in the interval of [len] bits from [off]. *)
Definition in_range (off len i : Z) : bool := (off <=? i) && (i <? off + len).

(** ** Lemmas *)

Lemma ones_shr_ok {S} n (s : S) : 0 <= n < 32 -> ones_shr n s = (2 ^ (32 - n) - 1, s, []).
Proof.
  intros Hn. unfold ones_shr. rewrite (proj2 (Z.ltb_lt _ _)) by lia.
  unfold mret'. do 2 f_equal. change ALL_ONES with (Z.ones 32).
  rewrite Z.shiftr_div_pow2, Z.ones_div_pow2, Z.ones_equiv by lia. lia.
Qed.

(** The pattern for the first word has the bits [sb .. sb + bl - 1]. *)
Lemma pattern_bits sb bl j : 0 <= sb -> 0 < bl <= 32 - sb -> 0 <= j ->
  Z.testbit (u32 (Z.shiftl (2 ^ bl - 1) sb)) j = in_range sb bl j.
Proof.
  intros Hsb Hbl Hj. unfold u32, in_range. change 4294967296 with (2 ^ 32).
  destruct (decide (j < 32)).
  - rewrite Z.mod_pow2_bits_low, Z.shiftl_spec, testbit_ones by lia. case_bool_decide; lia.
  - rewrite Z.mod_pow2_bits_high by lia. lia.
Qed.

Lemma pattern_u32 p : is_u32 (u32 p).
Proof. auto with net. Qed.

Lemma lor_u32 a b : is_u32 a -> is_u32 b -> is_u32 (Z.lor a b).
Proof.
  intros Ha Hb. unfold is_u32 in *. split; [apply Z.lor_nonneg; lia|].
  change 4294967296 with (2 ^ 32). destruct (decide (Z.lor a b = 0)) as [->|]; [lia|].
  apply Z.log2_lt_pow2; [pose proof (Z.lor_nonneg a b); lia|]. rewrite Z.log2_lor by lia.
  apply Z.max_lub_lt.
  - destruct (decide (a = 0)) as [->|]; [cbn; lia|]. apply Z.log2_lt_pow2; lia.
  - destruct (decide (b = 0)) as [->|]; [cbn; lia|]. apply Z.log2_lt_pow2; lia.
Qed.

(** The test [(w & p) ^ p] is zero when [w] has the bits of [p]. *)
Lemma missing_bits w p : is_u32 p ->
  nz (Z.lxor (Z.land w p) p) = false <->
  (forall j, 0 <= j < 32 -> Z.testbit p j = true -> Z.testbit w j = true).
Proof.
  intros Hp. unfold nz. rewrite negb_false_iff, Z.eqb_eq, Z.lxor_eq_0_iff. split.
  - intros E j Hj Hb. rewrite <- E, Z.land_spec in Hb. by apply andb_true_iff in Hb as [? _].
  - intros Hall. apply Z.bits_inj'; intros j Hj. rewrite Z.land_spec.
    destruct (decide (j < 32)); [|rewrite (testbit_high p 32) by (unfold is_u32 in Hp; lia); apply andb_false_r].
    destruct (Z.testbit p j) eqn:E; [|apply andb_false_r]. by rewrite Hall by (done || lia).
Qed.

Lemma mask_get_ok (m : list Z) idx w : m !! Z.to_nat idx = Some w -> mask_get idx m = (w, m, []).
Proof. intros E. unfold mask_get. by rewrite E. Qed.

Lemma mask_put_ok (m : list Z) idx v : 0 <= idx < zlen m ->
  mask_put idx v m = (tt, <[Z.to_nat idx := v]> m, []).
Proof. intros. unfold mask_put. by rewrite (proj2 (Z.ltb_lt _ _)) by lia. Qed.

Lemma mask_lookup (m : list Z) idx : 0 <= idx < zlen m -> exists w, m !! Z.to_nat idx = Some w.
Proof. intros. apply lookup_lt_is_Some. unfold zlen in *. lia. Qed.

Lemma mbit_insert (m : list Z) k w i : 0 <= k < zlen m -> 0 <= i ->
  mbit (<[Z.to_nat k := w]> m) i = if i / 32 =? k then Z.testbit w (i mod 32) else mbit m i.
Proof.
  intros Hk Hi. unfold mbit. pose proof (Z.div_pos i 32 Hi ltac:(lia)).
  destruct (Z.eqb_spec (i / 32) k) as [->|Hne].
  - rewrite list_lookup_insert_eq; [done|]. unfold zlen in Hk. lia.
  - rewrite list_lookup_insert_ne; [done|]. lia.
Qed.

Lemma zlen_insert {A} (m : list A) k v : zlen (<[k := v]> m) = zlen m.
Proof. unfold zlen. by rewrite length_insert. Qed.

(** What an operation that sets the bits [off .. off + len - 1] establishes. *)
Definition sets (off len : Z) (m m' : list Z) : Prop :=
  zlen m' = zlen m /\ mask_wf m' /\
  forall i, 0 <= i -> mbit m' i = in_range off len i || mbit m i.

(** Or-ing a pattern into word [k] sets [n] bits from bit [sb] of it. *)
Lemma mask_or_sets (m : list Z) k n sb :
  mask_wf m -> 0 <= k < zlen m -> 0 <= sb -> 0 < n <= 32 - sb ->
  exists m', mask_or k n sb m = (tt, m', []) /\ sets (32 * k + sb) n m m'.
Proof.
  intros Hwf Hk Hsb Hn. destruct (mask_lookup m k Hk) as [w Hw].
  eexists. split; [|split_and!].
  - unfold mask_or. rewrite (mbind_run_nil _ _ _ _ _ (ones_shr_ok (32 - n) m ltac:(lia))).
    rewrite (mbind_run_nil _ _ _ _ _ (mask_get_ok m _ _ Hw)). by apply mask_put_ok.
  - apply zlen_insert.
  - apply Forall_insert; [done|]. apply lor_u32; [|apply pattern_u32]. by eapply Forall_lookup_1 in Hwf.
  - intros i Hi. rewrite mbit_insert by done. replace (32 - (32 - n)) with n by lia.
    destruct (Z.eqb_spec (i / 32) k) as [E|E].
    + rewrite Z.lor_spec, pattern_bits by wrap_lia. unfold mbit. rewrite E, Hw, orb_comm.
      f_equal. unfold in_range. wrap_lia.
    + assert (in_range (32 * k + sb) n i = false) as -> by (unfold in_range; wrap_lia). done.
Qed.

(** Setting a word to all ones. *)
Lemma mask_ones_sets (m : list Z) k : mask_wf m -> 0 <= k < zlen m ->
  sets (32 * k) 32 m (<[Z.to_nat k := ALL_ONES]> m).
Proof.
  intros Hwf Hk. split_and!.
  - apply zlen_insert.
  - apply Forall_insert; [done|]. unfold is_u32, ALL_ONES. lia.
  - intros i Hi. rewrite mbit_insert by done. unfold in_range.
    destruct (Z.eqb_spec (i / 32) k) as [E|E].
    + change ALL_ONES with (2 ^ 32 - 1). rewrite testbit_ones by lia.
      rewrite bool_decide_eq_true_2 by wrap_lia.
      assert ((32 * k <=? i) && (i <? 32 * k + 32) = true) as -> by wrap_lia. done.
    + assert ((32 * k <=? i) && (i <? 32 * k + 32) = false) as -> by wrap_lia. done.
Qed.

(** Adjacent intervals compose. *)
Lemma sets_app off l1 l2 m1 m2 m3 : 0 <= l1 -> 0 <= l2 ->
  sets off l1 m1 m2 -> sets (off + l1) l2 m2 m3 -> sets off (l1 + l2) m1 m3.
Proof.
  intros H1 H2 (L1 & W1 & B1) (L2 & W2 & B2). split_and!; [congruence|done|].
  intros i Hi. rewrite B2, B1 by done. rewrite orb_assoc. f_equal. unfold in_range. lia.
Qed.

Lemma sets_nil off m : mask_wf m -> sets off 0 m m.
Proof.
  intros. split_and!; [done|done|]. intros i Hi. unfold in_range.
  assert ((off <=? i) && (i <? off + 0) = false) as -> by lia. done.
Qed.

Lemma mask_fill_sets n : forall idx (m : list Z), mask_wf m -> -1 <= idx -> idx + 1 + Z.of_nat n <= zlen m ->
  exists m', mask_fill n idx m = (tt, m', []) /\ sets (32 * (idx + 1)) (32 * Z.of_nat n) m m'.
Proof.
  induction n as [|n IH]; intros idx m Hwf Hi Hl.
  - exists m. split; [done|]. replace (32 * Z.of_nat 0) with 0 by lia. by apply sets_nil.
  - pose proof (mask_ones_sets m (idx + 1) Hwf ltac:(lia)) as Hs.
    assert (zlen (<[Z.to_nat (idx + 1) := ALL_ONES]> m) = zlen m) as Hl' by apply zlen_insert.
    destruct (IH (idx + 1) (<[Z.to_nat (idx + 1) := ALL_ONES]> m)) as (m' & E & Hs'); [apply Hs|lia|lia|].
    exists m'. split.
    + cbn [mask_fill]. erewrite mbind_run_nil by (apply mask_put_ok; lia). done.
    + replace (32 * Z.of_nat (S n)) with (32 + 32 * Z.of_nat n) by lia.
      eapply sets_app; [lia|lia|done|]. by replace (32 * (idx + 1) + 32) with (32 * (idx + 1 + 1)) by lia.
Qed.

(** The size of the first word's part. *)
Lemma first_part sb len : 0 <= sb < 32 -> 0 < len ->
  let bl := if 32 - sb <? len then 32 - sb else len in 0 < bl <= 32 - sb /\ bl <= len.
Proof. intros. cbn. destruct (Z.ltb_spec (32 - sb) len); lia. Qed.

Lemma maskset_sets (m : list Z) off len :
  mask_wf m -> 0 <= off -> 0 < len -> off + len <= 32 * zlen m ->
  exists m', maskset off len m = (tt, m', []) /\ sets off len m m'.
Proof.
  intros Hwf Hoff Hlen Hfit. unfold maskset.
  pose proof (Z.mod_pos_bound off 32 ltac:(lia)) as Hsb.
  pose proof (first_part (off mod 32) len Hsb Hlen) as [Hbl Hbl']. cbv zeta in *.
  remember (if 32 - off mod 32 <? len then 32 - off mod 32 else len) as bl eqn:Ebl.
  destruct (mask_or_sets m (off / 32) bl (off mod 32)) as (m1 & E1 & Hs1); [done|wrap_lia|lia|lia|].
  rewrite (mbind_run_nil _ _ _ _ _ E1). replace (32 * (off / 32) + off mod 32) with off in Hs1 by wrap_lia.
  assert (zlen m1 = zlen m /\ mask_wf m1) as [L1 W1] by (by destruct Hs1 as (? & ? & _)).
  destruct (decide (len = bl)) as [->|Hne].
  { exists m1. split; [|done]. rewrite Z.sub_diag. change (0 / 32) with 0.
    by rewrite Z.add_0_r, Z.sub_diag. }
  assert (off + bl = 32 * (off / 32 + 1)) as Hnext
    by (subst bl; destruct (32 - off mod 32 <? len); wrap_lia).
  set (r := len - bl) in *.
  destruct (mask_fill_sets (Z.to_nat (r / 32)) (off / 32) m1) as (m2 & E2 & Hs2); [done|wrap_lia|wrap_lia|].
  rewrite (mbind_run_nil _ _ _ _ _ E2). rewrite Z2Nat.id in Hs2 by wrap_lia.
  assert (zlen m2 = zlen m1 /\ mask_wf m2) as [L2 W2] by (by destruct Hs2 as (? & ? & _)).
  rewrite <- Hnext in Hs2. assert (0 <= 32 * (r / 32)) by wrap_lia.
  pose proof (sets_app off bl (32 * (r / 32)) m m1 m2 ltac:(lia) ltac:(lia) Hs1 Hs2) as Hs12.
  replace (r - 32 * (off / 32 + r / 32 - off / 32)) with (r mod 32) by wrap_lia.
  destruct (Z.eq_dec (r mod 32) 0) as [Hr0|Hr0].
  { exists m2. rewrite Hr0. split; [done|]. by replace len with (bl + 32 * (r / 32)) by wrap_lia. }
  assert (nz (r mod 32) = true) as -> by bool_lia. cbn [when].
  destruct (mask_or_sets m2 (off / 32 + r / 32 + 1) (r mod 32) 0) as (m3 & E3 & Hs3);
    [done|wrap_lia|lia|wrap_lia|].
  exists m3. split; [done|]. replace len with ((bl + 32 * (r / 32)) + r mod 32) by wrap_lia.
  eapply sets_app; [wrap_lia|wrap_lia|done|].
  by replace (off + (bl + 32 * (r / 32))) with (32 * (off / 32 + r / 32 + 1) + 0) by lia.
Qed.

(** ** Checking *)

(** All bits of the interval are set. *)
Definition has (off len : Z) (m : list Z) : Prop :=
  forall i, off <= i < off + len -> mbit m i = true.

Lemma has_app off l1 l2 m : 0 <= l1 -> 0 <= l2 -> has off (l1 + l2) m <-> has off l1 m /\ has (off + l1) l2 m.
Proof.
  intros. unfold has. split.
  - intros Ha. split; intros i Hi; apply Ha; lia.
  - intros [H1 H2] i Hi. destruct (decide (i < off + l1)); [apply H1 | apply H2]; lia.
Qed.

Lemma mask_lacks_has (m : list Z) k n sb :
  mask_wf m -> 0 <= k < zlen m -> 0 <= sb -> 0 < n <= 32 - sb ->
  exists b, mask_lacks k n sb m = (b, m, []) /\ (b = false <-> has (32 * k + sb) n m).
Proof.
  intros Hwf Hk Hsb Hn. destruct (mask_lookup m k Hk) as [w Hw]. unfold mask_lacks.
  rewrite (mbind_run_nil _ _ _ _ _ (mask_get_ok m _ _ Hw)).
  rewrite (mbind_run_nil _ _ _ _ _ (ones_shr_ok (32 - n) m ltac:(lia))).
  replace (32 - (32 - n)) with n by lia. eexists; split; [done|].
  rewrite missing_bits by apply pattern_u32. unfold has, mbit. split.
  - intros Hall i Hi. assert (i / 32 = k) as E by wrap_lia. rewrite E, Hw. apply Hall; [wrap_lia|].
    rewrite pattern_bits by wrap_lia. unfold in_range. wrap_lia.
  - intros Hall j Hj Hb. rewrite pattern_bits in Hb by lia. unfold in_range in Hb.
    specialize (Hall (32 * k + j) ltac:(lia)).
    replace ((32 * k + j) / 32) with k in Hall by wrap_lia. rewrite Hw in Hall.
    by replace ((32 * k + j) mod 32) with j in Hall by wrap_lia.
Qed.

Lemma word_full w : is_u32 w ->
  nz (Z.lxor w ALL_ONES) = false <-> forall j, 0 <= j < 32 -> Z.testbit w j = true.
Proof.
  intros Hw. unfold nz. rewrite negb_false_iff, Z.eqb_eq, Z.lxor_eq_0_iff.
  change ALL_ONES with (2 ^ 32 - 1). split.
  - intros -> j Hj. rewrite testbit_ones by lia. by apply bool_decide_eq_true_2.
  - intros Hall. apply Z.bits_inj'; intros j Hj. rewrite testbit_ones by lia.
    case_bool_decide; [by apply Hall|]. apply (testbit_high w 32); [done|lia].
Qed.

Lemma mask_full_has n : forall idx (m : list Z), mask_wf m -> -1 <= idx -> idx + 1 + Z.of_nat n <= zlen m ->
  exists b, mask_full n idx m = (b, m, []) /\ (b = true <-> has (32 * (idx + 1)) (32 * Z.of_nat n) m).
Proof.
  induction n as [|n IH]; intros idx m Hwf Hi Hl.
  - exists true. split; [done|]. split; [|done]. intros _ i Hi'. lia.
  - destruct (mask_lookup m (idx + 1) ltac:(lia)) as [w Hw]. cbn [mask_full].
    rewrite (mbind_run_nil _ _ _ _ _ (mask_get_ok m _ _ Hw)).
    replace (32 * Z.of_nat (S n)) with (32 + 32 * Z.of_nat n) by lia. setoid_rewrite has_app; [|lia..].
    assert (nz (Z.lxor w ALL_ONES) = false <-> has (32 * (idx + 1)) 32 m) as Hfirst.
    { rewrite word_full by (by eapply Forall_lookup_1 in Hwf). unfold has, mbit. split.
      - intros Hall i Hi'. assert (i / 32 = idx + 1) as -> by wrap_lia. rewrite Hw. apply Hall. wrap_lia.
      - intros Hall j Hj. specialize (Hall (32 * (idx + 1) + j) ltac:(lia)).
        replace ((32 * (idx + 1) + j) / 32) with (idx + 1) in Hall by wrap_lia. rewrite Hw in Hall.
        by replace ((32 * (idx + 1) + j) mod 32) with j in Hall by wrap_lia. }
    destruct (nz (Z.lxor w ALL_ONES)) eqn:E.
    + exists false. split; [done|]. split; [done|]. intros [Hh _]. by apply Hfirst in Hh.
    + destruct (IH (idx + 1) m) as (b & Eb & Hb); [done|lia|lia|]. exists b. split; [done|].
      rewrite Hb. replace (32 * (idx + 1 + 1)) with (32 * (idx + 1) + 32) by lia. tauto.
Qed.

Lemma maskchk_has (m : list Z) off len :
  mask_wf m -> 0 <= off -> 0 < len -> off + len <= 32 * zlen m ->
  exists v, maskchk off len m = (v, m, []) /\ (v = 0 \/ v = 1) /\ (v = 1 <-> has off len m).
Proof.
  intros Hwf Hoff Hlen Hfit. unfold maskchk.
  pose proof (Z.mod_pos_bound off 32 ltac:(lia)) as Hsb.
  pose proof (first_part (off mod 32) len Hsb Hlen) as [Hbl Hbl']. cbv zeta in *.
  remember (if 32 - off mod 32 <? len then 32 - off mod 32 else len) as bl eqn:Ebl.
  destruct (mask_lacks_has m (off / 32) bl (off mod 32)) as (b1 & E1 & Hb1); [done|wrap_lia|lia|lia|].
  rewrite (mbind_run_nil _ _ _ _ _ E1). replace (32 * (off / 32) + off mod 32) with off in Hb1 by wrap_lia.
  set (r := len - bl). replace len with (bl + r) by lia. setoid_rewrite has_app; [|lia..].
  destruct b1; [exists 0; split_and!; [done|by left|intuition congruence]|].
  destruct (decide (r = 0)) as [->|Hne].
  { exists 1. change (0 / 32) with 0. rewrite Z.add_0_r, Z.sub_diag. split_and!; [done|by right|].
    split; [|done]. intros _. split; [by apply Hb1|]. intros i Hi. lia. }
  assert (off + bl = 32 * (off / 32 + 1)) as Hnext
    by (subst bl; destruct (32 - off mod 32 <? len); wrap_lia).
  destruct (mask_full_has (Z.to_nat (r / 32)) (off / 32) m) as (b2 & E2 & Hb2); [done|wrap_lia|wrap_lia|].
  rewrite (mbind_run_nil _ _ _ _ _ E2). rewrite Z2Nat.id, <- Hnext in Hb2 by wrap_lia.
  replace (r - 32 * (off / 32 + r / 32 - off / 32)) with (r mod 32) by wrap_lia.
  assert (has (off + bl) r m <->
          has (off + bl) (32 * (r / 32)) m /\ has (off + bl + 32 * (r / 32)) (r mod 32) m) as Hr.
  { rewrite <- has_app by wrap_lia. by replace (32 * (r / 32) + r mod 32) with r by wrap_lia. }
  setoid_rewrite Hr.
  destruct b2; [cbn [negb]|exists 0; split_and!; [done|by left|intuition congruence]].
  destruct (Z.eq_dec (r mod 32) 0) as [Hr0|Hr0].
  { exists 1. rewrite Hr0. split_and!; [done|by right|].
    split; [|done]. intros _. split_and!; [by apply Hb1|by apply Hb2|]. intros i Hi. lia. }
  assert (nz (r mod 32) = true) as -> by bool_lia.
  destruct (mask_lacks_has m (off / 32 + r / 32 + 1) (r mod 32) 0) as (b3 & E3 & Hb3);
    [done|wrap_lia|lia|wrap_lia|].
  rewrite (mbind_run_nil _ _ _ _ _ E3).
  replace (32 * (off / 32 + r / 32 + 1) + 0) with (off + bl + 32 * (r / 32)) in Hb3 by lia.
  destruct b3; [exists 0 | exists 1]; (split_and!; [done|auto|intuition congruence]).
Qed.

Lemma maskclr_all (m : list Z) : maskclr (zlen m) m = (tt, replicate (length m) 0, []).
Proof.
  unfold maskclr, zlen. rewrite Nat2Z.id, Nat.min_id, drop_all, app_nil_r.
  by rewrite (proj2 (Z.ltb_ge _ _)).
Qed.

Lemma mbit_clear n i : mbit (replicate n 0) i = false.
Proof.
  unfold mbit. destruct (replicate n 0 !! Z.to_nat (i / 32)) as [w|] eqn:E; [|done].
  apply lookup_replicate in E as [-> _]. apply Z.testbit_0_l.
Qed.

(** ** Properties *)

(** C27: [maskset] over an interval that fits the mask and is not empty touches
    only words of the mask, keeps them 32-bit, and changes exactly the bits of
    the interval, to one. *)
Theorem maskset_exact (m : list Z) (off len : Z) :
  mask_wf m -> 0 <= off -> 0 < len -> off + len <= 32 * zlen m ->
  exists m', maskset off len m = (tt, m', []) /\ zlen m' = zlen m /\ mask_wf m' /\
    forall i, 0 <= i -> mbit m' i = (bool_decide (off <= i < off + len)) || mbit m i.
Proof.
  intros Hwf Hoff Hlen Hfit.
  destruct (maskset_sets m off len) as (m' & E & Hl & Hw & Hb); [done..|].
  exists m'. split_and!; [done..|]. intros i Hi. rewrite Hb by done. f_equal.
  unfold in_range. case_bool_decide; lia.
Qed.

(** C28: [maskchk] over such an interval reads only words of the mask, leaves it
    alone, and returns 1 exactly when every bit of the interval is set. *)
Theorem maskchk_exact (m : list Z) (off len : Z) :
  mask_wf m -> 0 <= off -> 0 < len -> off + len <= 32 * zlen m ->
  maskchk off len m
  = (if bool_decide (Forall (fun i => mbit m (off + Z.of_nat i) = true) (seq 0 (Z.to_nat len)))
     then 1 else 0, m, []).
Proof.
  intros Hwf Hoff Hlen Hfit. destruct (maskchk_has m off len) as (v & -> & Hv & Hh); [done..|].
  do 2 f_equal. enough (v = 1 <-> Forall (fun i => mbit m (off + Z.of_nat i) = true) (seq 0 (Z.to_nat len)))
    as Hiff by (case_bool_decide; [by apply Hiff | destruct Hv; [done | tauto]]).
  rewrite Hh, Forall_seq. unfold has. split.
  - intros Ha j Hj. apply Ha. lia.
  - intros Ha i Hi. specialize (Ha (Z.to_nat (i - off)) ltac:(lia)).
    by replace (off + Z.of_nat (Z.to_nat (i - off))) with i in Ha by lia.
Qed.

(** ** Witnesses *)

Lemma maskset_exact_witness : exists m', maskset 30 40 [0; 0; 5] = (tt, m', []) /\ zlen m' = 3 /\ mask_wf m' /\
  forall i, 0 <= i -> mbit m' i = bool_decide (30 <= i < 30 + 40) || mbit [0; 0; 5] i.
Proof.
  exact (maskset_exact [0; 0; 5] 30 40 ltac:(repeat constructor; unfold is_u32; lia) ltac:(lia) ltac:(lia)
    ltac:(vm_compute; discriminate)).
Defined.

Lemma maskchk_exact_witness : maskchk 30 3 [3221225472; 1] = (1, [3221225472; 1], []).
Proof.
  exact (maskchk_exact [3221225472; 1] 30 3 ltac:(repeat constructor; unfold is_u32; lia) ltac:(lia) ltac:(lia)
    ltac:(vm_compute; discriminate)).
Defined.
