(* ===== verification/Queue.v ===== *)
(** * The pointer queue (src/util.c, [queue_push] and [queue_pop])

    A queue head holds pointers to the first and the last entry of a singly
    linked list of heap-allocated entries.  The code is modelled over an
    explicit heap; the abstract queue is a list, and the code is shown to refine
    its two operations, without touching a freed or foreign entry. *)

From S2P Require Import Prelude.

Abbreviation loc := positive.

Section Queue.
Context {D : Type}.

(** ** The code *)

Record queue_entry := QueueEntry {
  qe_data : option D;
  qe_size : Z;
  qe_next : option loc
}.

Record queue_head := QueueHead {
  q_next : option loc;
  q_tail : option loc;
  q_num : Z
}.

(** The heap of entries and the head a call works on. *)
Record qstate := QState { q_heap : gmap loc queue_entry; q_head : queue_head }.

Definition set_heap (h : gmap loc queue_entry) (s : qstate) : qstate := QState h (q_head s).
Definition set_head (q : queue_head) (s : qstate) : qstate := QState (q_heap s) q.

(** Read and write through an entry pointer. *)
Definition entry_get (l : loc) : M qstate queue_entry := fun s =>
  match q_heap s !! l with
  | Some e => (e, s, [])
  | None => (QueueEntry None 0 None, s, [UseAfterFree])
  end.

Definition entry_set_next (l : loc) (n : option loc) : M qstate unit := fun s =>
  match q_heap s !! l with
  | Some e => (tt, set_heap (<[l := QueueEntry (qe_data e) (qe_size e) n]> (q_heap s)) s, [])
  | None => (tt, s, [UseAfterFree])
  end.

Definition is_null {A} (p : option A) : bool := match p with Some _ => false | None => true end.

(** [queue] says whether the head pointer is non-null, [data] is the pointer
    pushed, [m] the result of [malloc]. *)
Definition queue_push (queue : bool) (data : option D) (size : Z) (m : option loc) : M qstate Z :=
  if negb queue || is_null data then ret (-1) else
  match m with
  | None => ret (-1)
  | Some entry =>
      modify (fun s => set_heap (<[entry := QueueEntry data size None]> (q_heap s)) s) ;;;
      let* q := gets q_head in
      match q_tail q with
      | Some t => entry_set_next t (Some entry)
      | None => ret tt
      end ;;;
      modify (fun s => let q := q_head s in
        set_head (QueueHead (if is_null (q_next q) then Some entry else q_next q)
                            (Some entry) (u32 (q_num q + 1))) s) ;;;
      ret 0
  end.

(** The result carries the two out parameters when it is 0. *)
Definition queue_pop (queue : bool) : M qstate (Z * option (option D * Z)) :=
  let* q := gets q_head in
  if negb queue then ret (-1, None) else
  match q_next q with
  | None => ret (-1, None)
  | Some l =>
      let* entry := entry_get l in
      modify (set_head (QueueHead (qe_next entry)
                          (if is_null (qe_next entry) then None else q_tail q)
                          (u32 (q_num q - 1)))) ;;;
      modify (fun s => set_heap (delete l (q_heap s)) s) ;;;
      ret (0, Some (qe_data entry, qe_size entry))
  end.

(** ** The abstract queue *)

Definition fifo_push (x : D * Z) (q : list (D * Z)) : list (D * Z) := q ++ [x].
Definition fifo_pop (q : list (D * Z)) : option (D * Z) * list (D * Z) :=
  match q with [] => (None, []) | x :: q => (Some x, q) end.

(** ** Representation *)

(** [p] starts a chain of entries at the locations [ls] holding [xs]. *)
Fixpoint chain (h : gmap loc queue_entry) (p : option loc) (ls : list loc) (xs : list (D * Z)) : Prop :=
  match ls, xs with
  | [], [] => p = None
  | l :: ls, (d, z) :: xs =>
      p = Some l /\ exists n, h !! l = Some (QueueEntry (Some d) z n) /\ chain h n ls xs
  | _, _ => False
  end.

Definition represents (s : qstate) (ls : list loc) (xs : list (D * Z)) : Prop :=
  NoDup ls /\ chain (q_heap s) (q_next (q_head s)) ls xs /\
  q_tail (q_head s) = last ls /\ q_num (q_head s) = u32 (zlen xs).

(** ** Lemmas *)

Lemma chain_length h p ls xs : chain h p ls xs -> length ls = length xs.
Proof.
  revert p xs. induction ls as [|l ls IH]; intros p [|[d z] xs] Hc; try done.
  destruct Hc as (_ & n & _ & Hc). cbn. f_equal. eauto.
Qed.

Lemma chain_null h p ls xs : chain h p ls xs -> (p = None <-> xs = []).
Proof. destruct ls, xs as [|[??] ?]; cbn; [done..|]. intros [-> _]. done. Qed.

Lemma chain_lookup h p ls xs l : chain h p ls xs -> l ∈ ls -> exists e, h !! l = Some e.
Proof.
  revert p xs. induction ls as [|k ls IH]; intros p [|[d z] xs] Hc Hin; try (done || by inversion Hin).
  destruct Hc as (_ & n & Hk & Hc). apply elem_of_cons in Hin as [->|Hin]; eauto.
Qed.

(** A chain does not depend on the rest of the heap. *)
Lemma chain_frame h h' p ls xs :
  (forall l, l ∈ ls -> h' !! l = h !! l) -> chain h p ls xs -> chain h' p ls xs.
Proof.
  revert p xs. induction ls as [|k ls IH]; intros p [|[d z] xs] Hf Hc; try done.
  destruct Hc as (-> & n & Hk & Hc). split; [done|]. exists n. split.
  - rewrite Hf by left. done.
  - apply IH; [|done]. intros l Hl. apply Hf. by right.
Qed.

(** Linking a new entry after the last one. *)
Lemma chain_snoc h p ls xs t l d z :
  NoDup ls -> l ∉ ls -> chain h p ls xs -> last ls = Some t ->
  forall e, h !! t = Some e ->
  chain (<[t := QueueEntry (qe_data e) (qe_size e) (Some l)]> (<[l := QueueEntry (Some d) z None]> h))
        p (ls ++ [l]) (xs ++ [(d, z)]).
Proof.
  revert p xs. induction ls as [|k ls IH]; intros p [|[d' z'] xs] Hnd Hl Hc Ht e He; try done.
  destruct Hc as (-> & n & Hk & Hc). apply NoDup_cons in Hnd as [Hk' Hnd].
  apply not_elem_of_cons in Hl as [Hlk Hl]. cbn. split; [done|].
  destruct ls as [|k' ls].
  - injection Ht as ->. destruct xs as [|[??] ?]; [|done]. rewrite Hk in He. injection He as <-. cbn.
    exists (Some l). rewrite lookup_insert_eq. split; [done|]. split; [done|]. exists None.
    rewrite lookup_insert_ne, lookup_insert_eq by done. done.
  - exists n. rewrite last_cons_cons in Ht.
    assert (t ∈ k' :: ls) as Hin by (apply last_Some in Ht as [l' ->]; set_solver).
    split; [rewrite !lookup_insert_ne by set_solver; done|]. by apply IH.
Qed.

(** ** One operation *)

(** On a well-formed queue, [queue_push] of a non-null pointer with a fresh
    [malloc] result returns 0, appends the element to the represented list and
    accesses only live entries; every other heap entry is unchanged. *)
Lemma queue_push_refines s ls xs d z l :
  represents s ls xs -> q_heap s !! l = None ->
  exists s', queue_push true (Some d) z (Some l) s = (0, s', []) /\
    represents s' (ls ++ [l]) (fifo_push (d, z) xs) /\
    (forall k, k ∉ ls -> k <> l -> q_heap s' !! k = q_heap s !! k).
Proof.
  intros (Hnd & Hc & Ht & Hn) Hl. unfold queue_push. cbn [negb orb is_null].
  assert (l ∉ ls) as Hlf by (intros Hin; destruct (chain_lookup _ _ _ _ _ Hc Hin); congruence).
  assert (NoDup (ls ++ [l])) as Hnd'
    by (apply NoDup_app; split_and!; [done|set_solver|apply NoDup_singleton]).
  pose proof (chain_null _ _ _ _ Hc) as Hnull.
  assert (u32 (q_num (q_head s) + 1) = u32 (zlen (xs ++ [(d, z)]))) as Hnum
    by (rewrite Hn, zlen_app; unfold zlen; cbn; wrap_lia).
  erewrite mbind_run_nil by done. erewrite mbind_run_nil by done. cbn [q_head set_heap].
  destruct (last ls) as [t|] eqn:El; rewrite Ht.
  - assert (t ∈ ls) as Hin by (apply last_Some in El as [l' ->]; set_solver).
    destruct (chain_lookup _ _ _ _ _ Hc Hin) as [e He].
    assert (l <> t) by set_solver.
    erewrite mbind_run_nil
      by (unfold entry_set_next; cbn; rewrite lookup_insert_ne, He by done; done).
    eexists; split; [reflexivity|]. unfold represents. cbn.
    destruct (q_next (q_head s)) as [p|] eqn:Ep; cbn;
      [|assert (xs = []) as -> by (by apply Hnull); apply chain_length in Hc; by destruct ls].
    split_and!; [done| |by rewrite last_snoc|done|].
    + by apply chain_snoc.
    + intros k Hk Hkl. rewrite !lookup_insert_ne by set_solver. done.
  - apply last_None in El as ->. destruct xs as [|[??] ?]; [|done]. cbn in Hc.
    erewrite mbind_run_nil by done. eexists; split; [reflexivity|].
    unfold represents. cbn. rewrite Hc. split_and!; try done; cbn.
    + exists None. by rewrite lookup_insert_eq.
    + intros k _ Hkl. by rewrite lookup_insert_ne.
Qed.

(** On a well-formed queue, [queue_pop] returns -1 and changes nothing when
    the represented list is empty; otherwise it returns 0 with the oldest
    element, frees its entry and leaves the represented list without it. *)
Lemma queue_pop_refines s ls xs :
  represents s ls xs ->
  match fifo_pop xs with
  | (None, _) => queue_pop true s = ((-1, None), s, [])
  | (Some (d, z), xs') => exists l ls' s', ls = l :: ls' /\
      queue_pop true s = ((0, Some (Some d, z)), s', []) /\
      represents s' ls' xs' /\ q_heap s' = delete l (q_heap s)
  end.
Proof.
  intros (Hnd & Hc & Ht & Hn). unfold queue_pop. erewrite mbind_run_nil by done. cbn [negb].
  destruct xs as [|[d z] xs], ls as [|l ls]; try done; cbn [fifo_pop].
  - cbn in Hc. by rewrite Hc.
  - destruct Hc as (Hp & n & Hl & Hc). rewrite Hp. apply NoDup_cons in Hnd as [Hl' Hnd].
    erewrite mbind_run_nil by (unfold entry_get; rewrite Hl; done).
    exists l, ls. eexists; split_and!; [done|reflexivity| |done].
    unfold represents. cbn. pose proof (chain_null _ _ _ _ Hc) as Hnull. split_and!; [done|..].
    + eapply chain_frame; [|done]. intros k Hk. rewrite lookup_delete_ne by set_solver. done.
    + destruct n as [n|]; cbn.
      * rewrite Ht. destruct ls; [|done]. apply chain_length in Hc. destruct xs; [|done]. by destruct Hnull as [_ ?]; naive_solver.
      * assert (xs = []) as -> by (by apply Hnull). apply chain_length in Hc. by destruct ls.
    + rewrite Hn. unfold zlen. cbn. wrap_lia.
Qed.

(** The empty queue of a zeroed head. *)
Lemma represents_empty h : represents (QState h (QueueHead None None 0)) [] [].
Proof. split_and!; [apply NoDup_nil_2|done..]. Qed.

(** ** Any sequence of operations *)

(** [ok] says whether [malloc] has memory for the entry. *)
Inductive queue_op := Push (ok : bool) (d : D) (z : Z) | Pop.

Definition queue_do (op : queue_op) : M qstate (Z * option (option D * Z)) :=
  match op with
  | Push ok d z =>
      let* s := get in
      let* r := queue_push true (Some d) z (if ok then Some (fresh (dom (q_heap s))) else None) in
      ret (r, None)
  | Pop => queue_pop true
  end.

Fixpoint queue_run (ops : list queue_op) : M qstate (list (Z * option (option D * Z))) :=
  match ops with
  | [] => ret []
  | op :: ops => let* r := queue_do op in let* rs := queue_run ops in ret (r :: rs)
  end.

(** The same on the list: the result and the new list. *)
Definition fifo_do (op : queue_op) (xs : list (D * Z)) : (Z * option (option D * Z)) * list (D * Z) :=
  match op with
  | Push true d z => ((0, None), fifo_push (d, z) xs)
  | Push false _ _ => ((-1, None), xs)
  | Pop => let '(o, xs') := fifo_pop xs in
      (match o with Some (d, z) => (0, Some (Some d, z)) | None => (-1, None) end, xs')
  end.

Fixpoint fifo_run (ops : list queue_op) (xs : list (D * Z)) : list (Z * option (option D * Z)) * list (D * Z) :=
  match ops with
  | [] => ([], xs)
  | op :: ops => let '(r, xs1) := fifo_do op xs in let '(rs, xs2) := fifo_run ops xs1 in (r :: rs, xs2)
  end.

Lemma queue_do_refines op s ls xs : represents s ls xs ->
  exists s' ls', queue_do op s = ((fifo_do op xs).1, s', []) /\ represents s' ls' (fifo_do op xs).2.
Proof.
  intros Hr. destruct op as [[] d z|]; cbn [queue_do fifo_do].
  - destruct (queue_push_refines s ls xs d z (fresh (dom (q_heap s))) Hr) as (s' & E & Hr' & _).
    { apply not_elem_of_dom, is_fresh. }
    exists s'. eexists. split; [|exact Hr']. erewrite mbind_run_nil by done. by erewrite mbind_run_nil by exact E.
  - by exists s, ls.
  - pose proof (queue_pop_refines s ls xs Hr) as Hp. destruct xs as [|[d z] xs]; cbn in Hp |- *.
    + exists s, ls. by split.
    + destruct Hp as (l & ls' & s' & _ & E & Hr' & _). by exists s', ls'.
Qed.

(** C29: the pointer queue is a FIFO queue.  Whatever sequence of pushes and pops is
    done on a well-formed queue, with [malloc] failing at any of them, the results are
    those of the list the queue represents: a push appends or fails with -1, a pop
    returns the oldest element or -1.  The queue stays well-formed, and no freed
    or foreign entry is touched. *)
Theorem queue_fifo ops s ls xs : represents s ls xs ->
  exists s' ls', queue_run ops s = ((fifo_run ops xs).1, s', []) /\ represents s' ls' (fifo_run ops xs).2.
Proof.
  revert s ls xs. induction ops as [|op ops IH]; intros s ls xs Hr; [by exists s, ls|]. cbn [queue_run fifo_run].
  destruct (queue_do_refines op s ls xs Hr) as (s1 & ls1 & E1 & Hr1). destruct (fifo_do op xs) as [r xs1]. cbn in E1, Hr1.
  destruct (IH s1 ls1 xs1 Hr1) as (s2 & ls2 & E2 & Hr2). destruct (fifo_run ops xs1) as [rs xs2]. cbn in E2, Hr2.
  exists s2, ls2. split; [|done]. erewrite mbind_run_nil by exact E1. by erewrite mbind_run_nil by exact E2.
Qed.

End Queue.
Arguments queue_op : clear implicits.
Arguments queue_entry : clear implicits.
Arguments qstate : clear implicits.

(** ** Witnesses *)

Definition empty_queue : qstate nat := QState ∅ (QueueHead None None 0).

Lemma queue_fifo_witness : let ops := [Push true 7%nat 1; Push false 8%nat 1; Push true 9%nat 2; Pop; Pop; Pop] in
  exists s' ls', queue_run ops empty_queue =
    ([(0, None); (-1, None); (0, None); (0, Some (Some 7%nat, 1)); (0, Some (Some 9%nat, 2)); (-1, None)], s', []) /\
    represents s' ls' [].
Proof. exact (queue_fifo [Push true 7%nat 1; Push false 8%nat 1; Push true 9%nat 2; Pop; Pop; Pop] empty_queue [] [] (represents_empty ∅)). Defined.
