(* ===== verification/Addr.v ===== *)
(** * Textual addresses (src/ip.c [ip_addr_pton], [ip_addr_ntop]; src/ethernet.c
      [ethernet_addr_pton], [ethernet_addr_ntop])

    C strings are lists of character codes without the terminating NUL; a
    pointer into a string is the suffix it points to.  [strtol] and the two
    [snprintf] formats the code uses are modelled after the C library. *)

From S2P Require Import Prelude.

(** ** The C library *)

(** [*s]: the end of the string reads as NUL. *)
Definition deref (s : list Z) : Z := hd 0 s.

Definition isspace (c : Z) : bool := (c =? 32) || ((9 <=? c) && (c <=? 13)).

(** The value of a character as a digit, 36 or more when it is none. *)
Definition digit (c : Z) : Z :=
  if (48 <=? c) && (c <=? 57) then c - 48
  else if (97 <=? c) && (c <=? 122) then c - 87
  else if (65 <=? c) && (c <=? 90) then c - 55
  else 36.

Definition LONG_MAX : Z := 9223372036854775807.

Fixpoint skip_spaces (s : list Z) : list Z :=
  match s with
  | c :: s' => if isspace c then skip_spaces s' else s
  | [] => []
  end.

(** Read digits of [base]; the accumulator is not bounded, [strtol] clamps it. *)
Fixpoint digits (base acc : Z) (s : list Z) : Z * list Z :=
  match s with
  | c :: s' => if digit c <? base then digits base (acc * base + digit c) s' else (acc, s)
  | [] => (acc, [])
  end.

(** [strtol(s, &ep, base)]: the value and [ep]; [ep = s] when nothing is read. *)
Definition strtol (base : Z) (s : list Z) : Z * list Z :=
  let t := skip_spaces s in
  let neg := deref t =? 45 in
  let t := if neg || (deref t =? 43) then tl t else t in
  let t := if (base =? 16) && (deref t =? 48) &&
              ((deref (tl t) =? 120) || (deref (tl t) =? 88)) && (digit (deref (tl (tl t))) <? 16)
           then tl (tl t) else t in
  if digit (deref t) <? base then
    let '(v, ep) := digits base 0 t in
    (if neg then Z.max (- LONG_MAX - 1) (- v) else Z.min LONG_MAX v, ep)
  else (0, s).

(** [ep == sp] for a pointer [ep] that [strtol] derived from [sp]. *)
Definition same_ptr (ep sp : list Z) : bool := Nat.eqb (length ep) (length sp).

(** [%d] of an octet and [%02x] of an octet. *)
Definition fmt_d (b : Z) : list Z :=
  if b <? 10 then [48 + b]
  else if b <? 100 then [48 + b / 10; 48 + b mod 10]
  else [48 + b / 100; 48 + b / 10 mod 10; 48 + b mod 10].

Definition hex_digit (d : Z) : Z := if d <? 10 then 48 + d else 87 + d.
Definition fmt_02x (b : Z) : list Z := [hex_digit (b / 16); hex_digit (b mod 16)].

(** [snprintf(p, size, ...)]: at most [size - 1] characters. *)
Definition snprintf (size : Z) (s : list Z) : list Z := take (Z.to_nat (size - 1)) s.

(** ** The code *)

(** The loop of [ip_addr_pton]: [k] octets are left; octets are stored as they
    are read, so a failure leaves a partly written address. *)
Fixpoint ip_pton_loop (k : nat) (idx : nat) (sp : list Z) (n : bytes) : Z * bytes :=
  match k with
  | O => (0, n)
  | S k =>
      let '(r, ep) := strtol 10 sp in
      if (r <? 0) || (255 <? r) then (-1, n)
      else if same_ptr ep sp then (-1, n)
      else if (Nat.eqb idx 3 && negb (deref ep =? 0)) || (negb (Nat.eqb idx 3) && negb (deref ep =? 46))
      then (-1, n)
      else ip_pton_loop k (S idx) (tl ep) (<[idx := r]> n)
  end.

Definition ip_addr_pton (p : list Z) (n : bytes) : Z * bytes := ip_pton_loop 4 0 p n.

Definition ip_addr_ntop (n : bytes) (size : Z) : list Z :=
  match n with
  | b0 :: b1 :: b2 :: b3 :: _ =>
      snprintf size (fmt_d b0 ++ [46] ++ fmt_d b1 ++ [46] ++ fmt_d b2 ++ [46] ++ fmt_d b3)
  | _ => []
  end.

Definition ETHERNET_ADDR_LEN : Z := 6.

(** The loop of [ethernet_addr_pton], up to the [break]; the result carries the
    number of octets read and the last [ep]. *)
Fixpoint ether_pton_loop (k : nat) (index : nat) (p : list Z) (n : bytes) (last : list Z)
  : nat * list Z * bytes :=
  match k with
  | O => (index, last, n)
  | S k =>
      let '(val, ep) := strtol 16 p in
      if same_ptr ep p || (val <? 0) || (255 <? val) ||
         (Nat.ltb index 5 && negb (deref ep =? 58))
      then (index, ep, n)
      else ether_pton_loop k (S index) (tl ep) (<[index := val]> n) ep
  end.

(** Both pointers may be null. *)
Definition ethernet_addr_pton (p : option (list Z)) (n : option bytes) : Z * option bytes :=
  match p, n with
  | Some p, Some n =>
      let '(index, ep, n) := ether_pton_loop 6 0 p n [] in
      if negb (Nat.eqb index 6) || negb (deref ep =? 0) then (-1, Some n) else (0, Some n)
  | _, _ => (-1, n)
  end.

(** [p] says whether the buffer pointer is non-null; the result is its contents. *)
Definition ethernet_addr_ntop (n : option bytes) (p : bool) (size : Z) : option (list Z) :=
  match n, p with
  | Some (b0 :: b1 :: b2 :: b3 :: b4 :: b5 :: _), true =>
      Some (snprintf size (fmt_02x b0 ++ [58] ++ fmt_02x b1 ++ [58] ++ fmt_02x b2 ++ [58] ++
                           fmt_02x b3 ++ [58] ++ fmt_02x b4 ++ [58] ++ fmt_02x b5))
  | _, _ => None
  end.

(** ** Lemmas *)

(** The value of a run of digits. *)
Definition dvalue (base : Z) (ds : list Z) : Z := fold_left (fun a c => a * base + digit c) ds 0.

Lemma digits_app base ds rest : Forall (fun c => digit c < base) ds -> base <= digit (deref rest) ->
  forall acc, digits base acc (ds ++ rest) = (fold_left (fun a c => a * base + digit c) ds acc, rest).
Proof.
  intros Hds Hrest. induction Hds as [|c ds Hc _ IH]; intros acc; cbn.
  - destruct rest as [|c rest]; cbn in *; [done|]. by rewrite (proj2 (Z.ltb_ge _ _)).
  - rewrite (proj2 (Z.ltb_lt _ _)) by done. apply IH.
Qed.

(** A number as the formats print it: digits, not starting like a prefix. *)
Definition printed (base b : Z) (ds : list Z) : bool :=
  forallb (fun c => digit c <? base) ds && (dvalue base ds =? b) &&
  match ds with c :: _ => (48 <=? c) | [] => false end &&
  match ds with _ :: c :: _ => (c <? 103) && negb (c =? 88) | _ => true end.

Lemma strtol_printed base b ds rest :
  base = 10 \/ base = 16 -> is_u8 b -> printed base b ds = true ->
  (deref rest = 46 \/ deref rest = 58 \/ rest = []) ->
  strtol base (ds ++ rest) = (b, rest) /\ same_ptr rest (ds ++ rest) = false.
Proof.
  intros Hbase Hb Hp Hrest. unfold printed in Hp. apply andb_true_iff in Hp as [Hp H2].
  apply andb_true_iff in Hp as [Hp H1]. apply andb_true_iff in Hp as [Hds Hv]. apply Z.eqb_eq in Hv.
  destruct ds as [|c ds]; [done|]. apply Z.leb_le in H1.
  assert (Forall (fun c => digit c < base) (c :: ds)) as Hf.
  { apply Forall_forall. intros x Hx. apply list_elem_of_In in Hx.
    rewrite forallb_forall in Hds. apply Z.ltb_lt. by apply Hds. }
  split; [|unfold same_ptr; cbn; rewrite length_app; apply Nat.eqb_neq; lia].
  assert (base <= digit (deref rest)) as Hstop by (destruct Hrest as [-> | [-> | ->]]; cbn; lia).
  assert (isspace c = false) as Hsp by (unfold isspace; lia).
  unfold strtol. cbn [app skip_spaces]. rewrite Hsp. change (deref (c :: ds ++ rest)) with c.
  assert ((c =? 45) = false) as -> by lia. assert ((c =? 43) = false) as -> by lia. cbn [orb].
  change (deref (c :: ds ++ rest)) with c. change (tl (c :: ds ++ rest)) with (ds ++ rest).
  assert (((deref (ds ++ rest) =? 120) || (deref (ds ++ rest) =? 88)) = false) as ->.
  { destruct ds as [|c' ds]; cbn.
    - destruct Hrest as [Hr | [Hr | ->]]; cbn in *; unfold deref in *; rewrite ?Hr; done.
    - lia. }
  rewrite andb_false_r. cbn [andb]. change (deref (c :: ds ++ rest)) with c.
  rewrite Forall_cons in Hf. destruct Hf as [Hc Hf]. rewrite (proj2 (Z.ltb_lt _ _)) by done.
  change (c :: ds ++ rest) with ((c :: ds) ++ rest).
  rewrite (digits_app base (c :: ds) rest) by (done || by constructor).
  fold (dvalue base (c :: ds)). rewrite Hv. f_equal. unfold LONG_MAX, is_u8 in *. lia.
Qed.

(** A test over all octets. *)
Lemma all_octets (P : Z -> bool) : forallb P (seqZ 0 256) = true -> forall b, is_u8 b -> P b = true.
Proof.
  intros Hall b Hb. rewrite forallb_forall in Hall. apply Hall, list_elem_of_In, elem_of_seqZ.
  unfold is_u8 in Hb. lia.
Qed.

Lemma fmt_d_printed b : is_u8 b -> printed 10 b (fmt_d b) = true.
Proof. apply (all_octets (fun b => printed 10 b (fmt_d b))). vm_compute. done. Qed.

Lemma fmt_02x_printed b : is_u8 b -> printed 16 b (fmt_02x b) = true.
Proof. apply (all_octets (fun b => printed 16 b (fmt_02x b))). vm_compute. done. Qed.

Lemma fmt_d_length b : is_u8 b -> (length (fmt_d b) <= 3)%nat.
Proof. intros. unfold fmt_d. repeat case_match; cbn; lia. Qed.

(** One step of each loop on printed text. *)
Lemma ip_pton_step k idx b rest n : is_u8 b ->
  (idx = 3%nat /\ rest = []) \/ (idx <> 3%nat /\ deref rest = 46) ->
  ip_pton_loop (S k) idx (fmt_d b ++ rest) n = ip_pton_loop k (S idx) (tl rest) (<[idx := b]> n).
Proof.
  intros Hb Hrest. cbn [ip_pton_loop].
  destruct (strtol_printed 10 b (fmt_d b) rest) as [-> ->];
    [by left|done|by apply fmt_d_printed|tauto|]. unfold is_u8 in Hb.
  assert ((b <? 0) || (255 <? b) = false) as -> by lia.
  destruct Hrest as [[-> ->]|[Hi ->]]; [done|]. apply Nat.eqb_neq in Hi. by rewrite Hi.
Qed.

Lemma ether_pton_step k idx b rest n last : is_u8 b ->
  (idx = 5%nat /\ rest = []) \/ ((idx < 5)%nat /\ deref rest = 58) ->
  ether_pton_loop (S k) idx (fmt_02x b ++ rest) n last
  = ether_pton_loop k (S idx) (tl rest) (<[idx := b]> n) rest.
Proof.
  intros Hb Hrest. cbn [ether_pton_loop].
  destruct (strtol_printed 16 b (fmt_02x b) rest) as [-> ->];
    [by right|done|by apply fmt_02x_printed|tauto|]. unfold is_u8 in Hb. cbn [orb].
  assert ((b <? 0) || (255 <? b) = false) as -> by lia.
  destruct Hrest as [[-> ->]|[Hi ->]]; [done|]. apply Nat.ltb_lt in Hi. by rewrite Hi.
Qed.

(** ** Properties *)

(** C31: the text [ip_addr_ntop] prints into a buffer of [IP_ADDR_STR_LEN] (16)
    characters is never cut short, and [ip_addr_pton] reads it back to the same
    four octets. *)
Theorem ip_addr_roundtrip (b0 b1 b2 b3 : Z) (n : bytes) :
  is_bytes [b0; b1; b2; b3] -> length n = 4%nat ->
  ip_addr_pton (ip_addr_ntop [b0; b1; b2; b3] 16) n = (0, [b0; b1; b2; b3]).
Proof.
  unfold is_bytes. rewrite !Forall_cons. intros (H0 & H1 & H2 & H3 & _) Hn. unfold ip_addr_ntop, snprintf.
  rewrite take_ge.
  2: { rewrite !length_app. cbn [length]. pose proof (fmt_d_length b0 H0). pose proof (fmt_d_length b1 H1).
       pose proof (fmt_d_length b2 H2). pose proof (fmt_d_length b3 H3). lia. }
  unfold ip_addr_pton. do 3 (rewrite ip_pton_step by (try done; right; done); cbn [tl app]).
  rewrite <- (app_nil_r (fmt_d b3)), ip_pton_step by (try done; left; split; reflexivity).
  by destruct n as [|? [|? [|? [|? [|]]]]].
Qed.

(** The text [ethernet_addr_ntop] prints into a buffer of
    [ETHERNET_ADDR_STR_LEN] (18) characters is complete, and
    [ethernet_addr_pton] reads it back to the same six octets. *)
Theorem ethernet_addr_roundtrip (b0 b1 b2 b3 b4 b5 : Z) (n : bytes) :
  is_bytes [b0; b1; b2; b3; b4; b5] -> length n = 6%nat ->
  ethernet_addr_pton (ethernet_addr_ntop (Some [b0; b1; b2; b3; b4; b5]) true 18) (Some n)
  = (0, Some [b0; b1; b2; b3; b4; b5]).
Proof.
  unfold is_bytes. rewrite !Forall_cons. intros (H0 & H1 & H2 & H3 & H4 & H5 & _) Hn.
  unfold ethernet_addr_ntop, snprintf. rewrite take_ge by (rewrite !length_app; cbn; lia).
  unfold ethernet_addr_pton. 
  do 5 (rewrite ether_pton_step by (try done; right; split; (lia || done)); cbn [tl app]).
  rewrite <- (app_nil_r (fmt_02x b5)), ether_pton_step by (try done; left; split; reflexivity).
  by destruct n as [|? [|? [|? [|? [|? [|? [|]]]]]]].
Qed.

(** ** Witnesses *)

Lemma ip_addr_roundtrip_witness : ip_addr_pton (ip_addr_ntop [192; 168; 0; 255] 16) [0; 0; 0; 0] = (0, [192; 168; 0; 255]).
Proof. exact (ip_addr_roundtrip 192 168 0 255 [0; 0; 0; 0] ltac:(repeat constructor; unfold is_u8; lia) eq_refl). Defined.

Lemma ethernet_addr_roundtrip_witness :
  ethernet_addr_pton (ethernet_addr_ntop (Some [2; 0; 94; 16; 0; 255]) true 18) (Some [0; 0; 0; 0; 0; 0])
  = (0, Some [2; 0; 94; 16; 0; 255]).
Proof.
  exact (ethernet_addr_roundtrip 2 0 94 16 0 255 [0; 0; 0; 0; 0; 0]
    ltac:(repeat constructor; unfold is_u8; lia) eq_refl).
Defined.
