(* ===== verification/CString.v ===== *)
(** * C strings

    A C string is the list of its character codes without the terminating NUL.
    This file has the functions of <string.h> and the conversions of <stdio.h>
    that the code uses. *)

From stdpp Require Export strings.
From S2P Require Import Prelude.

#[global] Open Scope Z_scope.

(** A string literal. *)
Definition str (s : string) : list Z := map (fun c => Z.of_N (Ascii.N_of_ascii c)) (String.list_ascii_of_string s).
Arguments str s%_string.

(** [strncpy(dst, src, n)]: the string, filled up with NUL to [n] characters; no NUL
    is written when [src] has [n] characters or more. *)
Definition strncpy (dst src : list Z) (n : Z) : list Z :=
  take (Z.to_nat n) (src ++ replicate (Z.to_nat n) 0) ++ drop (Z.to_nat n) dst.

(** [strncmp(a, b, n) == 0] for strings without NUL. *)
Definition strncmp_eq (a b : list Z) (n : Z) : bool :=
  bool_decide (take (Z.to_nat n) (a ++ [0]) = take (Z.to_nat n) (b ++ [0])).

Lemma length_strncpy dst src n : 0 <= n <= zlen dst -> length (strncpy dst src n) = length dst.
Proof.
  intros Hn. unfold strncpy, zlen in *. rewrite length_app, length_take, length_app, length_replicate, length_drop. lia.
Qed.

(** A string that fits is stored with its terminating NUL. *)
Lemma strncpy_fits dst src n : zlen src < n -> exists rest, strncpy dst src n = src ++ 0 :: rest.
Proof.
  intros Hn. unfold strncpy, zlen in *. rewrite take_app_ge by lia.
  destruct (Z.to_nat n - length src)%nat eqn:E; [lia|].
  rewrite take_replicate, Nat.min_l by lia. cbn [replicate]. eexists. by rewrite <- app_assoc.
Qed.
