(* ===== verification/Net.v ===== *)
(** * Devices, drivers, protocols and interfaces (src/net.c, src/net.h)

    The registries are singly linked lists with insertion at the head; they are
    lists here, newest first.  Devices and interfaces are referred to by pointer
    from several places, so they live in tables and the lists hold identifiers.
    The interfaces of a device are linked through their own field [next], which
    [netdev_add_netif] overwrites, so these links are kept as they are.
    Function pointers are elements of an abstract type: [Ops] for a driver's
    [netdev_ops], [P] for a protocol's receive handler. *)

From S2P Require Import Prelude Endian.

(** ** Data *)

Definition NETDEV_TYPE_ETHERNET : Z := 1.
Definition NETDEV_FLAG_BROADCAST : Z := 1.
Definition NETDEV_FLAG_NOARP : Z := 16.
Definition NETIF_FAMILY_IPV4 : Z := 2.
Definition ETHERNET_TYPE_IP : Z := 2048.
Definition ETHERNET_TYPE_ARP : Z := 2054.

Abbreviation devid := nat.
Abbreviation nifid := nat.

(** [struct netif_ip]; the plain [struct netif] is its first three fields. *)
Record netif := Netif {
  nif_next : option nifid;
  nif_family : Z;
  nif_dev : option devid;
  nif_unicast : Z;
  nif_netmask : Z;
  nif_network : Z;
  nif_broadcast : Z;
  nif_gateway : Z
}.

Section Net.
Context {H : Host} {Ops P : Type}.

Record netdev_def := NetdevDef {
  def_type : Z; def_mtu : Z; def_flags : Z; def_hlen : Z; def_alen : Z; def_ops : Ops
}.

(** [struct netdev_driver] has the fields of [struct netdev_def] and a link. *)
Record netdev_driver := NetdevDriver {
  drv_type : Z; drv_mtu : Z; drv_flags : Z; drv_hlen : Z; drv_alen : Z; drv_ops : Ops
}.

Record netdev_proto := NetdevProto { proto_type : Z; proto_handler : P }.

Record netdev := Netdev {
  dev_ifs : option nifid;                 (** the first interface *)
  dev_name : bytes;
  dev_type : Z; dev_mtu : Z; dev_flags : Z; dev_hlen : Z; dev_alen : Z;
  dev_addr : bytes; dev_peer : bytes; dev_broadcast : bytes;
  dev_ops : Ops
}.

Record net := Net {
  drivers : list netdev_driver;
  protos : list netdev_proto;
  devices : list devid;
  devtab : gmap devid netdev;
  niftab : gmap nifid netif
}.

Definition set_drivers l (s : net) := Net l (protos s) (devices s) (devtab s) (niftab s).
Definition set_protos l (s : net) := Net (drivers s) l (devices s) (devtab s) (niftab s).
Definition set_devices l (s : net) := Net (drivers s) (protos s) l (devtab s) (niftab s).
Definition set_devtab t (s : net) := Net (drivers s) (protos s) (devices s) t (niftab s).
Definition set_niftab t (s : net) := Net (drivers s) (protos s) (devices s) (devtab s) t.

Definition net_init : net := Net [] [] [] ∅ ∅.

(** ** The code *)

(** [malloc] is whether the allocation succeeds. *)
Definition netdev_driver_register (def : netdev_def) (malloc : bool) : M net Z :=
  let* s := get in
  if existsb (fun entry => drv_type entry =? def_type def) (drivers s) then ret (-1) else
  if negb malloc then ret (-1) else
  modify (set_drivers (NetdevDriver (def_type def) (def_mtu def) (def_flags def)
            (def_hlen def) (def_alen def) (def_ops def) :: drivers s)) ;;;
  ret 0.

Definition netdev_proto_register (type : Z) (handler : P) (malloc : bool) : M net Z :=
  let* s := get in
  if existsb (fun entry => proto_type entry =? type) (protos s) then ret (-1) else
  if negb malloc then ret (-1) else
  modify (set_protos (NetdevProto type handler :: protos s)) ;;;
  ret 0.

(** The handlers called for a frame of the given type (as read from the wire),
    in the order of the calls. *)
Definition netdev_rx_handler (type : Z) (s : net) : list P :=
  map proto_handler (List.filter (fun entry => hton16 (proto_type entry) =? type) (protos s)).

Definition netdev_root (s : net) : list devid := devices s.

(** [m] is the result of [malloc]: a fresh identifier and the uninitialised
    contents of the block. *)
Definition netdev_alloc (type : Z) (m : option (devid * netdev)) : M net (option devid) :=
  let* s := get in
  match List.find (fun driver => drv_type driver =? type) (drivers s) with
  | None => ret None
  | Some driver =>
      match m with
      | None => ret None
      | Some (dev, junk) =>
          modify (set_devtab (<[dev := Netdev None (dev_name junk) (drv_type driver) (drv_mtu driver)
                    (drv_flags driver) (drv_hlen driver) (drv_alen driver)
                    (dev_addr junk) (dev_peer junk) (dev_broadcast junk) (drv_ops driver)]>
                    (devtab s))) ;;;
          modify (fun s => set_devices (dev :: devices s) s) ;;;
          ret (Some dev)
      end
  end.

(** The loops over the interfaces of a device: the first one from [entry] on that
    satisfies [p].  A list without a cycle has at most as many entries as there
    are interfaces, which is the [fuel] of the calls; in a cycle the loop does not
    end. *)
Fixpoint netif_search (fuel : nat) (t : gmap nifid netif) (p : netif -> bool) (entry : option nifid) : option nifid * list ub :=
  match entry with
  | None => (None, [])
  | Some n =>
      match t !! n with
      | None => (None, [UseAfterFree])
      | Some i =>
          if p i then (Some n, []) else
          match fuel with
          | S fuel => netif_search fuel t p (nif_next i)
          | O => (None, match nif_next i with None => [] | Some _ => [Endless] end)
          end
      end
  end.

Definition dev_set_ifs (l : option nifid) (d : netdev) : netdev :=
  Netdev l (dev_name d) (dev_type d) (dev_mtu d) (dev_flags d) (dev_hlen d) (dev_alen d)
    (dev_addr d) (dev_peer d) (dev_broadcast d) (dev_ops d).

(** [netif->next = next; netif->dev = d]. *)
Definition netif_link (next : option nifid) (d : devid) (i : netif) : netif :=
  Netif next (nif_family i) (Some d) (nif_unicast i) (nif_netmask i) (nif_network i)
    (nif_broadcast i) (nif_gateway i).

Definition netdev_add_netif (dev : devid) (n : nifid) : M net Z :=
  let* s := get in
  match devtab s !! dev, niftab s !! n with
  | Some d, Some i =>
      let '(entry, u) := netif_search (size (niftab s)) (niftab s) (fun e => nif_family e =? nif_family i) (dev_ifs d) in
      tell u ;;;
      match entry with
      | Some _ => ret (-1)
      | None =>
          modify (set_niftab (<[n := netif_link (dev_ifs d) dev i]> (niftab s))) ;;;
          modify (set_devtab (<[dev := dev_set_ifs (Some n) d]> (devtab s))) ;;;
          ret 0
      end
  | _, _ => tell [UseAfterFree] ;;; ret (-1)
  end.

Definition netdev_get_netif (dev : devid) (family : Z) (s : net) : option nifid * list ub :=
  match devtab s !! dev with
  | None => (None, [UseAfterFree])
  | Some d => netif_search (size (niftab s)) (niftab s) (fun e => nif_family e =? family) (dev_ifs d)
  end.

(** ** Invariant *)

(** The links from [entry] lead through the interfaces [l]. *)
Fixpoint chain (t : gmap nifid netif) (entry : option nifid) (l : list nifid) : Prop :=
  match l with
  | [] => entry = None
  | n :: l => entry = Some n /\ exists i, t !! n = Some i /\ chain t (nif_next i) l
  end.

(** Every registry has at most one entry per key, and the pointers of the device
    and interface tables are live.  The interfaces of a device form a list that
    ends, and point back to it; so no interface is in the lists of two devices. *)
Record net_wf (s : net) : Prop := {
  wf_drivers : NoDup (map drv_type (drivers s));
  wf_protos : NoDup (map proto_type (protos s));
  wf_proto_types : Forall (fun p => is_u16 (proto_type p)) (protos s);
  wf_devices : Forall (fun d => is_Some (devtab s !! d)) (devices s);
  wf_ifs : forall d dev, devtab s !! d = Some dev -> exists l,
    chain (niftab s) (dev_ifs dev) l /\
    NoDup (map (fun n => nif_family <$> niftab s !! n) l) /\
    Forall (fun n => nif_dev <$> niftab s !! n = Some (Some d)) l
}.

(** The interface [n] is in the list of no device. *)
Definition detached (n : nifid) (s : net) : Prop := forall d dev l,
  devtab s !! d = Some dev -> chain (niftab s) (dev_ifs dev) l -> n ∉ l.

Lemma chain_fun t entry l l' : chain t entry l -> chain t entry l' -> l = l'.
Proof.
  revert entry l'. induction l as [|n l IH]; intros entry [|n' l']; cbn; try done.
  - by intros -> [? _].
  - by intros [-> _] ?.
  - intros [-> (i & Hi & Hl)] [[= <-] (i' & Hi' & Hl')]. rewrite Hi in Hi'. injection Hi' as <-. f_equal. by eapply IH.
Qed.

(** A change of the table that keeps the links of the list keeps the list. *)
Lemma chain_ext (t t' : gmap nifid netif) entry l :
  (forall n, n ∈ l -> nif_next <$> t' !! n = nif_next <$> t !! n) -> chain t entry l -> chain t' entry l.
Proof.
  revert entry. induction l as [|n l IH]; intros entry Hext; cbn; [done|]. intros [-> (i & Hi & Hl)]. split; [done|].
  pose proof (Hext n ltac:(left)) as Hn. rewrite Hi in Hn. destruct (t' !! n) as [i'|]; [|done]. injection Hn as Hn.
  exists i'. split; [done|]. rewrite Hn. apply IH; [|done]. intros k Hk. apply Hext. by right.
Qed.

Lemma chain_live t entry l n : chain t entry l -> n ∈ l -> is_Some (t !! n).
Proof.
  revert entry. induction l as [|m l IH]; intros entry; [by rewrite elem_of_nil|].
  intros [_ (i & Hi & Hl)] [->|Hin]%elem_of_cons; [by eexists|]. by eapply IH.
Qed.

(** The search goes through the list. *)
Lemma netif_search_chain fuel t p entry l : chain t entry l -> (length l <= S fuel)%nat ->
  netif_search fuel t p entry = (List.find (fun n => match t !! n with Some i => p i | None => false end) l, []).
Proof.
  revert fuel entry. induction l as [|n l IH]; intros fuel entry; [by destruct fuel; cbn; intros ->|].
  intros [-> (i & Hi & Hl)] Hlen. cbn [length] in Hlen.
  destruct fuel as [|fuel]; cbn [netif_search List.find]; rewrite Hi; destruct (p i); try done.
  - destruct l; [|cbn in Hlen; lia]. by rewrite Hl.
  - apply IH; [done|lia].
Qed.

Lemma netif_search_some fuel t p entry n u : netif_search fuel t p entry = (Some n, u) -> u = [].
Proof.
  revert entry. induction fuel as [|fuel IH]; intros [m|]; cbn; try done; destruct (t !! m) as [i|]; try done;
    destruct (p i); try (by intros [= _ <-]); try done. apply IH.
Qed.

Lemma ifs_chain_length t entry l : chain t entry l -> NoDup l -> (length l <= size t)%nat.
Proof.
  intros Hc Hl. rewrite <- size_dom, <- (size_list_to_set (C := gset nifid) l) by done.
  apply subseteq_size. intros n Hn. apply elem_of_dom. apply elem_of_list_to_set in Hn. by eapply chain_live.
Qed.

Lemma existsb_false_not_in {A} (f : A -> Z) l k :
  existsb (fun x => f x =? k) l = false -> k ∉ map f l.
Proof.
  intros E Hin. apply list_elem_of_In, in_map_iff in Hin as (x & <- & Hx).
  assert (existsb (fun y => f y =? f x) l = true) as E'
    by (apply existsb_exists; exists x; split; [done|apply Z.eqb_refl]).
  congruence.
Qed.

Lemma net_init_wf : net_wf net_init.
Proof. split; try constructor; cbn in *; by rewrite ?lookup_empty in *. Qed.

Lemma netdev_driver_register_wf def malloc s :
  net_wf s -> net_wf (rst (netdev_driver_register def malloc s)).
Proof.
  intros [? ? ? ? ?]. unfold netdev_driver_register. rewrite mbind_run_nil with (a := s) (s1 := s) by done.
  destruct (existsb _ _) eqn:E; [by split|]. destruct malloc; [|by split].
  split; try done. cbn. constructor; [|done]. by apply existsb_false_not_in.
Qed.

Lemma netdev_proto_register_wf type h malloc s :
  is_u16 type -> net_wf s -> net_wf (rst (netdev_proto_register type h malloc s)).
Proof.
  intros Ht [? ? ? ? ?]. unfold netdev_proto_register.
  rewrite mbind_run_nil with (a := s) (s1 := s) by done.
  destruct (existsb _ _) eqn:E; [by split|]. destruct malloc; [|by split].
  split; try done; cbn; constructor; try done. by apply existsb_false_not_in.
Qed.

Lemma netdev_alloc_wf type m s :
  (forall d j, m = Some (d, j) -> devtab s !! d = None) ->
  net_wf s -> net_wf (rst (netdev_alloc type m s)).
Proof.
  intros Hm [? ? ? Hd Hi]. unfold netdev_alloc. rewrite mbind_run_nil with (a := s) (s1 := s) by done.
  destruct (List.find _ _); [|by split]. destruct m as [[dev junk]|]; [|by split].
  specialize (Hm dev junk eq_refl). split; try done; cbn.
  - constructor; [by rewrite lookup_insert_eq|]. eapply Forall_impl; [done|].
    intros d Hs. destruct (decide (dev = d)) as [->|]; [by rewrite lookup_insert_eq|].
    by rewrite lookup_insert_ne.
  - intros d dev' Hl. destruct (decide (dev = d)) as [->|].
    + rewrite lookup_insert_eq in Hl. injection Hl as <-. exists []. split; [done|]. split; constructor.
    + rewrite lookup_insert_ne in Hl by done. by apply Hi in Hl.
Qed.

(** What the search of the interfaces of a device finds. *)
Lemma wf_search s d dev p : net_wf s -> devtab s !! d = Some dev -> exists l, chain (niftab s) (dev_ifs dev) l /\
  netif_search (size (niftab s)) (niftab s) p (dev_ifs dev)
  = (List.find (fun n => match niftab s !! n with Some i => p i | None => false end) l, []).
Proof.
  intros Hwf Hd. destruct (wf_ifs _ Hwf _ _ Hd) as (l & Hc & Hn & _). exists l. split; [done|].
  apply netif_search_chain; [done|]. apply Nat.le_le_succ_r, (ifs_chain_length _ (dev_ifs dev)); [done|].
  by apply (NoDup_fmap_1 (fun n => nif_family <$> niftab s !! n)).
Qed.

(** A change to an interface in no list. *)
Lemma detached_wf s t' n : net_wf s -> detached n s -> (forall k, k <> n -> t' !! k = niftab s !! k) ->
  net_wf (set_niftab t' s).
Proof.
  intros [? ? ? ? Hi] Hn Ht. split; try done. intros d dev Hl. destruct (Hi _ _ Hl) as (l & Hc & Hnd & Hb).
  assert (forall k, k ∈ l -> t' !! k = niftab s !! k) as Hk.
  { intros k Hk. apply Ht. intros ->. by apply (Hn d dev l). }
  exists l. split; [|split].
  - apply (chain_ext (niftab s)); [|done]. intros k Hin. by rewrite Hk.
  - erewrite map_ext_in; [exact Hnd|]. intros k Hin%list_elem_of_In. by rewrite Hk.
  - rewrite Forall_forall in Hb |- *. intros k Hin. cbn. rewrite Hk by done. by apply Hb.
Qed.

Lemma find_family_None s (l : list nifid) f :
  List.find (fun n => match niftab s !! n with Some i => nif_family i =? f | None => false end) l = None ->
  Some f ∉ map (fun n => nif_family <$> niftab s !! n) l.
Proof.
  intros E Hin. apply list_elem_of_In, in_map_iff in Hin as (x & Hx & Hxin). pose proof (find_none _ _ E x Hxin) as Hf.
  cbv beta in Hf. destruct (niftab s !! x) as [ix|]; [|done]. injection Hx as <-. by rewrite Z.eqb_refl in Hf.
Qed.

Lemma netdev_add_netif_wf dev n s : detached n s -> net_wf s -> net_wf (rst (netdev_add_netif dev n s)).
Proof.
  intros Hn Hwf. unfold netdev_add_netif. rewrite mbind_run_nil with (a := s) (s1 := s) by done.
  destruct (devtab s !! dev) as [d|] eqn:Ed; [|done]. destruct (niftab s !! n) as [i|] eqn:En; [|done].
  destruct (wf_search s dev d (fun e => nif_family e =? nif_family i) Hwf Ed) as (l & Hc & ->).
  rewrite mbind_run_nil with (a := tt) (s1 := s) by done.
  destruct (List.find _ l) eqn:Ef; [done|]. apply find_family_None in Ef.
  destruct (wf_ifs _ Hwf _ _ Ed) as (l' & Hc' & Hnd & Hb). rewrite <- (chain_fun _ _ _ _ Hc Hc') in *. clear l' Hc'.
  pose proof (detached_wf s (<[n := netif_link (dev_ifs d) dev i]> (niftab s)) n Hwf Hn
    (fun k Hk => lookup_insert_ne _ _ _ _ (not_eq_sym Hk))) as [? ? ? Hd Hi].
  split; try done; cbn in *.
  - eapply Forall_impl; [done|]. intros k Hk. rewrite lookup_insert. by case_decide.
  - intros k dev' Hl. rewrite lookup_insert in Hl. case_decide as Ek; [|by apply Hi]. injection Hl as <-. subst k.
    destruct (Hi _ _ Ed) as (l' & Hc' & Hnd' & Hb').
    assert (chain (<[n := netif_link (dev_ifs d) dev i]> (niftab s)) (dev_ifs d) l) as Hc2.
    { apply (chain_ext (niftab s)); [|done]. intros k Hk. rewrite lookup_insert_ne; [done|]. intros <-. by apply (Hn dev d l). }
    rewrite <- (chain_fun _ _ _ _ Hc2 Hc') in *. exists (n :: l). cbn [map chain dev_ifs dev_set_ifs]. rewrite lookup_insert_eq.
    split; [split; [done|]; by eexists|]. split; [|constructor; [by rewrite lookup_insert_eq|done]].
    constructor; [|done]. cbn. intros Hin. apply Ef. erewrite map_ext_in; [exact Hin|]. intros k Hk%list_elem_of_In. cbn.
    rewrite lookup_insert_ne; [done|]. intros <-. by apply (Hn dev d l).
Qed.

(** ** Properties *)

(** One operation on the registries.  The program adds an interface once, right
    after it has allocated it, and frees it only when it could not be added. *)
Inductive net_step : net -> net -> Prop :=
  | step_driver def malloc s : net_step s (rst (netdev_driver_register def malloc s))
  | step_proto type h malloc s : is_u16 type -> net_step s (rst (netdev_proto_register type h malloc s))
  | step_alloc type m s : (forall d j, m = Some (d, j) -> devtab s !! d = None) ->
      net_step s (rst (netdev_alloc type m s))
  | step_netif n i s : niftab s !! n = None -> net_step s (set_niftab (<[n := i]> (niftab s)) s)
  | step_add dev n s : detached n s -> net_step s (rst (netdev_add_netif dev n s))
  | step_free n s : detached n s -> net_step s (set_niftab (delete n (niftab s)) s).

Lemma fresh_detached n s : niftab s !! n = None -> detached n s.
Proof. intros Hn d dev l _ Hc Hin. destruct (chain_live _ _ _ _ Hc Hin). congruence. Qed.

Lemma net_step_wf s s' : net_step s s' -> net_wf s -> net_wf s'.
Proof.
  destruct 1; intros Hwf; auto using netdev_driver_register_wf, netdev_proto_register_wf,
    netdev_alloc_wf, netdev_add_netif_wf.
  - apply (detached_wf _ _ n); [done|by apply fresh_detached|]. intros k Hk. by apply lookup_insert_ne.
  - apply (detached_wf _ _ n); [done|done|]. intros k Hk. by apply lookup_delete_ne.
Qed.

(** C30: in every state that registrations, allocations and the adding of interfaces
    can reach from the empty registries, an interface being added to one device
    only, drivers and protocols are unique per type, and the interfaces of every
    device form a list of live entries that ends, with one per family at most.
    The loop of [netdev_get_netif] goes through exactly this list and reads
    nothing that is freed. *)
Theorem net_registry_invariant s : rtc net_step net_init s -> net_wf s /\
  forall d dev, devtab s !! d = Some dev -> exists l, chain (niftab s) (dev_ifs dev) l /\
    forall family, netdev_get_netif d family s
      = (List.find (fun n => match niftab s !! n with Some i => nif_family i =? family | None => false end) l, []).
Proof.
  intros Hr. assert (net_wf s) as Hwf.
  { remember net_init as s0 eqn:E0. assert (net_wf s0) as Hwf by (subst; apply net_init_wf).
    clear E0. induction Hr as [|s1 s2 s3 Hstep _ IH]; [done|]. apply IH. by eapply net_step_wf. }
  split; [done|]. intros d dev Hd. destruct (wf_ifs _ Hwf _ _ Hd) as (l & Hc & _). exists l. split; [done|].
  intros family. unfold netdev_get_netif. rewrite Hd.
  destruct (wf_search s d dev (fun e => nif_family e =? family) Hwf Hd) as (l' & Hc' & ->). by rewrite (chain_fun _ _ _ _ Hc Hc').
Qed.

(** A received frame whose type field is the network order of a registered
    type is given to that protocol's handler, once, and to no other. *)
Lemma netdev_rx_registered s type h :
  net_wf s -> is_u16 type -> NetdevProto type h ∈ protos s ->
  netdev_rx_handler (hton16 type) s = [h].
Proof.
  intros Hwf Ht Hin. unfold netdev_rx_handler.
  destruct Hwf as [_ Hnd Hty _ _]. induction (protos s) as [|p ps IH]; [by inversion Hin|].
  apply Forall_cons in Hty as [Hp Hty]. apply NoDup_cons in Hnd as [Hp' Hnd]. cbn.
  apply elem_of_cons in Hin as [<-|Hin].
  - cbn in *. rewrite Z.eqb_refl. cbn. f_equal.
    clear IH Hnd. induction ps as [|q ps IH]; [done|]. cbn in Hp'.
    apply not_elem_of_cons in Hp' as [Hq Hp']. apply Forall_cons in Hty as [Hqt Hty]. cbn.
    destruct (Z.eqb_spec (hton16 (proto_type q)) (hton16 type)) as [E|]; [|by apply IH].
    by apply hton16_inj in E.
  - destruct (Z.eqb_spec (hton16 (proto_type p)) (hton16 type)) as [E|]; [|by apply IH].
    exfalso. apply Hp'. apply hton16_inj in E as ->; [|done..].
    by apply (list_elem_of_fmap_2 proto_type) in Hin.
Qed.

End Net.
Arguments netdev_def : clear implicits.
Arguments netdev : clear implicits.
Arguments net : clear implicits.

(** ** Witnesses *)

(** A driver is registered, a device allocated, and an interface allocated and added. *)
Lemma net_registry_invariant_witness :
  let junk := Netdev (Ops := unit) None [] 0 0 0 0 0 [] [] [] tt in
  let s1 := rst (netdev_driver_register (P := nat) (NetdevDef 1 1500 1 14 6 tt) true net_init) in
  let s2 := rst (netdev_alloc NETDEV_TYPE_ETHERNET (Some (0%nat, junk)) s1) in
  let s3 := set_niftab (<[5%nat := Netif (Some 9%nat) NETIF_FAMILY_IPV4 None 1 0 0 0 0]> (niftab s2)) s2 in
  let s := rst (netdev_add_netif 0 5 s3) in
  net_wf s /\ netdev_get_netif 0 NETIF_FAMILY_IPV4 s = (Some 5%nat, []).
Proof.
  intros junk s1 s2 s3 s.
  destruct (net_registry_invariant (Ops := unit) (P := nat) s) as [Hwf Hd].
  - apply (rtc_l _ _ s1); [apply step_driver|]. apply (rtc_l _ _ s2); [by apply step_alloc|].
    apply (rtc_l _ _ s3); [by apply step_netif|]. apply rtc_once, step_add. intros d dev l Hdev Hc.
    change (<[0%nat := Netdev None [] 1 1500 1 14 6 [] [] [] tt]> (∅ : gmap devid (netdev unit)) !! d = Some dev) in Hdev.
    apply lookup_insert_Some in Hdev as [[_ <-]|[_ Hdev]]; [|by rewrite lookup_empty in Hdev].
    destruct l as [|? l]; [by intros ?%elem_of_nil|by destruct Hc].
  - split; [exact Hwf|]. destruct (Hd 0%nat _ eq_refl) as (l & Hc & Hf). rewrite Hf.
    destruct l as [|m l]; [done|]. destruct Hc as [[= <-] (i & Hi & Hl)]. vm_compute in Hi. injection Hi as <-. reflexivity.
Defined.

(** Nothing checks that an interface is in no list when it is added.  Here device 0 has
    interfaces 2 and 1, of families 3 and 2, and device 1 has interface 3, of family
    3.  After interface 1 has been added to device 1, device 0 has two interfaces of
    family 3. *)
Lemma netif_added_twice :
  let nif next family dev := Netif next family (Some dev) 0 0 0 0 0 in
  let dev ifs := Netdev (Ops := unit) ifs [] 1 1500 1 14 6 [] [] [] tt in
  let s := Net (P := nat) [] [] [1%nat; 0%nat] {[ 0%nat := dev (Some 2%nat); 1%nat := dev (Some 3%nat) ]}
             {[ 1%nat := nif None 2 0%nat; 2%nat := nif (Some 1%nat) 3 0%nat; 3%nat := nif None 3 1%nat ]} in
  let s' := rst (netdev_add_netif 1 1 s) in
  rval (netdev_add_netif 1 1 s) = 0 /\ chain (niftab s') (Some 2%nat) [2%nat; 1%nat; 3%nat] /\
  dev_ifs <$> devtab s' !! 0%nat = Some (Some 2%nat).
Proof.
  intros nif dev s s'. split; [reflexivity|]. split; [|reflexivity]. split; [done|].
  do 2 (eexists; split; [reflexivity|split; [reflexivity|]]). eexists. by split; [reflexivity|].
Qed.
