(* ===== verification/Ethernet.v ===== *)
(** * Ethernet frames and devices (src/ethernet.c, src/ethernet.h)

    [ethernet_tx] builds a frame and hands it to the raw device, [ethernet_rx] takes
    one apart and names the call of [dev->rx_handler].  The raw device and the
    threads are an interface, [RawLayer], over a world of its own.  The private
    data of a device ([dev->priv]) is kept in a table beside the devices of
    [Net]. *)

From S2P Require Import Prelude Endian Addr Net.

(** ** Constants *)

Definition ETHERNET_HDR_SIZE : Z := 14.
Definition ETHERNET_TRL_SIZE : Z := 4.
Definition ETHERNET_FRAME_SIZE_MIN : Z := 64.
Definition ETHERNET_FRAME_SIZE_MAX : Z := 1518.
Definition ETHERNET_PAYLOAD_SIZE_MIN : Z := ETHERNET_FRAME_SIZE_MIN - (ETHERNET_HDR_SIZE + ETHERNET_TRL_SIZE).
Definition ETHERNET_PAYLOAD_SIZE_MAX : Z := ETHERNET_FRAME_SIZE_MAX - (ETHERNET_HDR_SIZE + ETHERNET_TRL_SIZE).

Definition ETHERNET_ADDR_ANY : bytes := [0; 0; 0; 0; 0; 0].
Definition ETHERNET_ADDR_BROADCAST : bytes := [255; 255; 255; 255; 255; 255].

(** ** Data *)

(** [struct ethernet_hdr]; [type] as the host reads it. *)
Record ethernet_hdr := EthernetHdr { eh_dst : bytes; eh_src : bytes; eh_type : Z }.

Abbreviation rawid := nat.
Abbreviation tid := nat.

(** [struct ethernet_priv].  A failed [pthread_create] leaves the field [thread]
    indeterminate, which is [None]. *)
Record ethernet_priv := EthernetPriv { ep_raw : option rawid; ep_thread : option tid; ep_terminate : bool }.

Definition ep_set_raw v p := EthernetPriv v (ep_thread p) (ep_terminate p).
Definition ep_set_thread v p := EthernetPriv (ep_raw p) v (ep_terminate p).
Definition ep_set_terminate v p := EthernetPriv (ep_raw p) (ep_thread p) v.

(** [memcmp(a, b, n) == 0]. *)
Definition memeq (a b : bytes) (n : Z) : bool := bool_decide (take (Z.to_nat n) a = take (Z.to_nat n) b).

(** The raw device ([rawdev_alloc] and its operations), [malloc], [free] and the
    thread library.  [raw_addr] gets the octets at the destination and returns
    what they are afterwards; [raw_rx] returns the frame the callback is called
    with, if any; [pthread_create] the new thread, or nothing on failure;
    [pthread_join] is undefined when there is no such thread to be joined. *)
Class RawLayer (W : Type) := {
  eth_malloc : M W bool;
  raw_alloc : Z -> bytes -> M W (option rawid);         (** type and name *)
  raw_free : rawid -> M W unit;
  raw_open : rawid -> M W Z;
  raw_close : rawid -> M W unit;
  raw_tx : rawid -> bytes -> M W Z;
  raw_rx : rawid -> M W (option bytes);
  raw_addr : rawid -> bytes -> M W (Z * bytes);
  pthread_self : M W tid;
  pthread_create : M W (option tid);
  pthread_join : tid -> M W unit
}.

Section Ethernet.
Context {H : Host} {Ops P W : Type} `{RL : RawLayer W}.

Record eth := Eth { eth_net : net Ops P; eth_priv : gmap devid ethernet_priv; eth_world : W }.

Definition set_eth_net n s := Eth n (eth_priv s) (eth_world s).
Definition set_eth_priv p s := Eth (eth_net s) p (eth_world s).
Definition set_eth_world w s := Eth (eth_net s) (eth_priv s) w.

Definition raw {A} (m : M W A) : M eth A := zoom eth_world set_eth_world m.

Definition dev_set_addr v (d : netdev Ops) : netdev Ops :=
  Netdev (dev_ifs d) (dev_name d) (dev_type d) (dev_mtu d) (dev_flags d) (dev_hlen d) (dev_alen d) v (dev_peer d)
    (dev_broadcast d) (dev_ops d).
Definition dev_set_broadcast v (d : netdev Ops) : netdev Ops :=
  Netdev (dev_ifs d) (dev_name d) (dev_type d) (dev_mtu d) (dev_flags d) (dev_hlen d) (dev_alen d) (dev_addr d) (dev_peer d)
    v (dev_ops d).

Definition dev_get (dev : devid) : M eth (option (netdev Ops)) := gets (fun s => devtab (eth_net s) !! dev).
Definition dev_mod (dev : devid) (f : netdev Ops -> netdev Ops) : M eth unit :=
  modify (fun s => set_eth_net (set_devtab (alter f dev (devtab (eth_net s))) (eth_net s)) s).
Definition priv_get (dev : devid) : M eth (option ethernet_priv) := gets (fun s => eth_priv s !! dev).
Definition priv_set (dev : devid) (p : option ethernet_priv) : M eth unit :=
  modify (fun s => set_eth_priv (partial_alter (fun _ => p) dev (eth_priv s)) s).

(** [memcpy(dst, src, 6)] into an address field. *)
Definition addr_copy (dst src : bytes) : bytes := (memcpy dst 0 src ETHERNET_ADDR_LEN).1.

(** ** Opening and closing *)

(** The raw device is freed without being closed when it cannot be opened. *)
Definition ethernet_open (dev : devid) (opt : Z) : M eth Z :=
  let* ok := raw eth_malloc in
  if negb ok then ret (-1) else
  let* d := dev_get dev in
  match d with
  | None => tell [UseAfterFree] ;;; ret (-1)
  | Some d =>
      let* r := raw (raw_alloc opt (dev_name d)) in
      match r with
      | None => ret (-1)
      | Some r =>
          let* o := raw (raw_open r) in
          if o =? -1 then raw (raw_free r) ;;; ret (-1) else
          let* self := raw pthread_self in
          priv_set dev (Some (EthernetPriv (Some r) (Some self) false)) ;;;
          (if memeq (dev_addr d) ETHERNET_ADDR_ANY ETHERNET_ADDR_LEN then
             let* x := raw (raw_addr r (dev_addr d)) in dev_mod dev (dev_set_addr x.2)
           else ret tt) ;;;
          dev_mod dev (fun d => dev_set_broadcast (addr_copy (dev_broadcast d) ETHERNET_ADDR_BROADCAST) d) ;;;
          ret 0
      end
  end.

(** [pthread_join] of the thread of a device. *)
Definition join_thread (t : option tid) : M eth unit :=
  match t with
  | None => tell [Indeterminate]
  | Some t => raw (pthread_join t)
  end.

(** [dev] is null or a device. *)
Definition ethernet_close (dev : option devid) : M eth Z :=
  match dev with
  | None => ret 1
  | Some dev =>
      let* p := priv_get dev in
      match p with
      | None => ret 1
      | Some p =>
          let* self := raw pthread_self in
          (if bool_decide (ep_thread p = Some self) then ret tt
           else priv_set dev (Some (ep_set_terminate true p)) ;;; join_thread (ep_thread p)) ;;;
          match ep_raw p with Some r => raw (raw_close r) | None => ret tt end ;;;
          priv_set dev None ;;;
          ret 0
      end
  end.

Definition ethernet_run (dev : devid) : M eth Z :=
  let* p := priv_get dev in
  match p with
  | None => tell [NullDeref] ;;; ret (-1)
  | Some p =>
      let* t := raw pthread_create in
      priv_set dev (Some (ep_set_thread t p)) ;;;
      match t with None => ret (-1) | Some _ => ret 0 end
  end.

Definition ethernet_stop (dev : devid) : M eth Z :=
  let* p := priv_get dev in
  match p with
  | None => tell [NullDeref] ;;; ret (-1)
  | Some p =>
      priv_set dev (Some (ep_set_terminate true p)) ;;;
      join_thread (ep_thread p) ;;;
      let* self := raw pthread_self in
      priv_set dev (Some (EthernetPriv (ep_raw p) (Some self) false)) ;;;
      ret 0
  end.

(** ** Frames *)

Definition ethernet_hdr_store (h : ethernet_hdr) : bytes := eh_dst h ++ eh_src h ++ store16 (eh_type h).

Definition ethernet_hdr_load (b : bytes) : option ethernet_hdr :=
  match drop 12 b with
  | t0 :: t1 :: _ => Some (EthernetHdr (take 6 b) (take 6 (drop 6 b)) (load16 t0 t1))
  | _ => None
  end.

(** A call [dev->rx_handler(dev, type, packet, plen)]. *)
Record rx_call := RxCall { rc_type : Z; rc_packet : bytes; rc_plen : Z }.

(** [frame] is the memory at the frame pointer. *)
Definition ethernet_rx (d : netdev Ops) (frame : bytes) (flen : Z) : option rx_call * list ub :=
  if flen <? ETHERNET_HDR_SIZE then (None, []) else
  match ethernet_hdr_load frame with
  | None => (None, [OobRead (ETHERNET_HDR_SIZE - zlen frame)])
  | Some hdr =>
      if negb (memeq (dev_addr d) (eh_dst hdr) ETHERNET_ADDR_LEN) &&
         negb (memeq ETHERNET_ADDR_BROADCAST (eh_dst hdr) ETHERNET_ADDR_LEN) then (None, []) else
      (Some (RxCall (eh_type hdr) (drop (Z.to_nat ETHERNET_HDR_SIZE) frame) (flen - ETHERNET_HDR_SIZE)), [])
  end.

(** One turn of the loop of the receiving thread: whether it goes on, and the call
    the frame leads to. *)
Definition ethernet_rx_thread (dev : devid) : M eth (bool * option rx_call) :=
  let* p := priv_get dev in
  match p with
  | None => tell [NullDeref] ;;; ret (false, None)
  | Some p =>
      if ep_terminate p then ret (false, None) else
      match ep_raw p with
      | None => tell [NullDeref] ;;; ret (false, None)
      | Some r =>
          let* f := raw (raw_rx r) in
          let* d := dev_get dev in
          match f, d with
          | Some frame, Some d =>
              let '(call, u) := ethernet_rx d frame (zlen frame) in tell u ;;; ret (true, call)
          | Some _, None => tell [UseAfterFree] ;;; ret (true, None)
          | None, _ => ret (true, None)
          end
      end
  end.

(** The frame buffer after the header and the payload have been copied. *)
Definition frame_buffer (d : netdev Ops) (type : Z) (payload : bytes) (plen : Z) (dst : bytes) : bytes :=
  let hdr := ethernet_hdr_store (EthernetHdr (take 6 dst) (take 6 (dev_addr d)) (hton16 type)) in
  (memcpy (hdr ++ replicate (Z.to_nat (ETHERNET_FRAME_SIZE_MAX - ETHERNET_HDR_SIZE)) 0) ETHERNET_HDR_SIZE payload plen).1.

Definition frame_len (plen : Z) : Z :=
  ETHERNET_HDR_SIZE + (if plen <? ETHERNET_PAYLOAD_SIZE_MIN then ETHERNET_PAYLOAD_SIZE_MIN else plen).

(** [payload] and [dst] are null or the memory at the pointer. *)
Definition ethernet_tx (dev : devid) (type : Z) (payload : option bytes) (plen : Z) (dst : option bytes) : M eth Z :=
  match payload, dst with
  | Some payload, Some dst =>
      if ETHERNET_PAYLOAD_SIZE_MAX <? plen then ret (-1) else
      let* d := dev_get dev in
      let* p := priv_get dev in
      match d, p ≫= ep_raw with
      | Some d, Some r =>
          tell ((if zlen dst <? 6 then [OobRead (6 - zlen dst)] else []) ++
                (if zlen payload <? plen then [OobRead (plen - zlen payload)] else [])) ;;;
          let flen := frame_len plen in
          let* n := raw (raw_tx r (take (Z.to_nat flen) (frame_buffer d type payload plen dst))) in
          ret (if n =? flen then plen else -1)
      | None, _ => tell [UseAfterFree] ;;; ret (-1)
      | _, None => tell [NullDeref] ;;; ret (-1)
      end
  | _, _ => ret (-1)
  end.

(** ** The driver *)

Definition ethernet_def (ops : Ops) : netdev_def Ops :=
  NetdevDef NETDEV_TYPE_ETHERNET ETHERNET_PAYLOAD_SIZE_MAX NETDEV_FLAG_BROADCAST ETHERNET_HDR_SIZE ETHERNET_ADDR_LEN ops.

Definition ethernet_init (ops : Ops) (malloc : bool) : M eth Z :=
  zoom eth_net set_eth_net
    (let* r := netdev_driver_register (ethernet_def ops) malloc in if r =? -1 then ret (-1) else ret 0).

(** ** Frames on the wire *)

(** The payload, filled up to the minimum with zeros. *)
Definition padded (payload : bytes) : bytes :=
  payload ++ replicate (Z.to_nat (ETHERNET_PAYLOAD_SIZE_MIN - zlen payload)) 0.

(** The frame as it is sent. *)
Definition frame_of (d : netdev Ops) (type : Z) (payload dst : bytes) : bytes :=
  take 6 dst ++ take 6 (dev_addr d) ++ store16 (hton16 type) ++ padded payload.

Lemma zlen_padded payload : zlen payload <= ETHERNET_PAYLOAD_SIZE_MAX ->
  ETHERNET_HDR_SIZE + zlen (padded payload) = frame_len (zlen payload).
Proof.
  intros Hp. unfold padded, frame_len. change ETHERNET_PAYLOAD_SIZE_MIN with 46.
  unfold zlen. rewrite length_app, length_replicate. destruct (_ <? _) eqn:E; lia.
Qed.

Lemma take_6 (a : bytes) : 6 <= zlen a -> length (take 6 a) = 6%nat.
Proof. unfold zlen. intros. rewrite length_take. lia. Qed.

Lemma frame_buffer_frame (d : netdev Ops) type payload dst :
  zlen payload <= ETHERNET_PAYLOAD_SIZE_MAX -> 6 <= zlen dst -> 6 <= zlen (dev_addr d) ->
  take (Z.to_nat (frame_len (zlen payload))) (frame_buffer d type payload (zlen payload) dst)
  = frame_of d type payload dst.
Proof.
  intros Hp Hd Ha. unfold frame_buffer, ethernet_hdr_store, frame_of. cbn [eh_dst eh_src eh_type].
  set (hdr := take 6 dst ++ take 6 (dev_addr d) ++ store16 (hton16 type)).
  assert (length hdr = 14%nat) as Hh.
  { subst hdr. rewrite !length_app, !take_6 by done. unfold store16. by destruct host_endian. }
  rewrite !app_assoc, <- (app_assoc (take 6 dst)). fold hdr. pose proof (zlen_nonneg payload).
  rewrite <- zlen_padded by done. unfold memcpy, ETHERNET_HDR_SIZE, ETHERNET_FRAME_SIZE_MAX. cbn [fst].
  change ETHERNET_PAYLOAD_SIZE_MAX with 1500 in Hp.
  rewrite Z.min_id. rewrite (take_ge payload) by (unfold zlen; lia).
  rewrite (take_ge payload) by (unfold zlen in *; rewrite length_app, length_replicate, Hh; lia).
  rewrite (take_app_le hdr), (take_ge hdr) by lia. rewrite (drop_app_ge hdr) by lia. rewrite drop_replicate.
  replace (Z.to_nat (14 + zlen (padded payload))) with (length hdr + length (padded payload))%nat by (unfold zlen; lia).
  rewrite take_app_add. f_equal. unfold padded. rewrite length_app, length_replicate, take_app_add, take_replicate.
  f_equal. f_equal. change ETHERNET_PAYLOAD_SIZE_MIN with 46. unfold zlen in *. lia.
Qed.

(** Receiving a frame. *)
Lemma ethernet_rx_frame (d d' : netdev Ops) type payload dst :
  zlen payload <= ETHERNET_PAYLOAD_SIZE_MAX -> 6 <= zlen dst -> 6 <= zlen (dev_addr d) -> is_u16 type ->
  ethernet_rx d' (frame_of d type payload dst) (frame_len (zlen payload))
  = (if memeq (dev_addr d') dst 6 || memeq ETHERNET_ADDR_BROADCAST dst 6
     then Some (RxCall (hton16 type) (padded payload) (zlen (padded payload))) else None, []).
Proof.
  intros Hp Hd Ha Ht. pose proof (zlen_padded payload Hp) as Hl. pose proof (zlen_nonneg (padded payload)).
  unfold ethernet_rx. rewrite (proj2 (Z.ltb_ge _ _)) by lia. unfold ethernet_hdr_load, frame_of.
  pose proof (take_6 dst Hd) as L1. pose proof (take_6 _ Ha) as L2.
  set (a := take 6 dst) in *. set (b := take 6 (dev_addr d)) in *.
  assert (is_u16 (hton16 type)) as Ht' by (by apply hton16_range).
  destruct (store16_load16 _ Ht') as (t0 & t1 & -> & Et & _ & _).
  assert (forall l, drop 12 (a ++ b ++ l) = l) as Hdrop
    by (intros l; rewrite app_assoc; apply drop_app_length'; rewrite length_app; lia).
  rewrite Hdrop. cbn [app]. rewrite Et. cbn [eh_dst eh_type].
  rewrite take_app_le, (take_ge a) by lia. unfold memeq. change (Z.to_nat ETHERNET_ADDR_LEN) with 6%nat.
  change (Z.to_nat 6) with 6%nat. rewrite (take_ge a) by lia. fold a. rewrite <- negb_orb.
  destruct (_ || _); [cbn [negb]|done]. change (Z.to_nat ETHERNET_HDR_SIZE) with (12 + 2)%nat.
  rewrite <- drop_drop, Hdrop. do 3 f_equal. unfold ETHERNET_HDR_SIZE in *. lia.
Qed.

(** Sending a payload that fits. *)
Lemma ethernet_tx_frame dev type payload dst (s : eth) d p r :
  zlen payload <= ETHERNET_PAYLOAD_SIZE_MAX -> 6 <= zlen dst -> 6 <= zlen (dev_addr d) ->
  devtab (eth_net s) !! dev = Some d -> eth_priv s !! dev = Some p -> ep_raw p = Some r ->
  ethernet_tx dev type (Some payload) (zlen payload) (Some dst) s =
  let '(n, w, u) := raw_tx r (frame_of d type payload dst) (eth_world s) in
  (if n =? frame_len (zlen payload) then zlen payload else -1, set_eth_world w s, u).
Proof.
  intros Hp Hd Ha Ed Ep Er. unfold ethernet_tx. rewrite (proj2 (Z.ltb_ge _ _)) by done.
  run by (unfold dev_get, gets; by rewrite Ed). run by (unfold priv_get, gets; by rewrite Ep).
  cbn [mbind option_bind]. rewrite Er. rewrite (proj2 (Z.ltb_ge (zlen dst) 6)), Z.ltb_irrefl by done.
  run. cbv zeta. rewrite frame_buffer_frame by done. unfold mbind', raw, zoom.
  destruct (raw_tx r _ _) as [[n w] u]. cbn. by rewrite app_nil_r.
Qed.

Lemma zlen_frame (d : netdev Ops) type payload dst :
  zlen payload <= ETHERNET_PAYLOAD_SIZE_MAX -> 6 <= zlen dst -> 6 <= zlen (dev_addr d) ->
  zlen (frame_of d type payload dst) = frame_len (zlen payload).
Proof.
  intros Hp Hd Ha. rewrite <- zlen_padded by done. unfold frame_of, zlen. rewrite !length_app, !take_6 by done.
  unfold store16, ETHERNET_HDR_SIZE. destruct host_endian; cbn [length]; lia.
Qed.

(** C21: a payload of at most 1500 octets handed to [ethernet_tx] goes out as one frame
    of 60 to 1514 octets, with no access out of bounds.  Every device that gets
    this frame and has the destination address, or any device if this is the
    broadcast address, passes it up with the payload, padded to 46 octets, and
    with the type for which [netdev_rx_handler] calls the registered protocol;
    every other device drops it. *)
Theorem ethernet_delivery dev type payload dst (s : eth) d p r (n' : net Ops P) h :
  zlen payload <= ETHERNET_PAYLOAD_SIZE_MAX -> 6 <= zlen dst -> 6 <= zlen (dev_addr d) -> is_u16 type ->
  devtab (eth_net s) !! dev = Some d -> eth_priv s !! dev = Some p -> ep_raw p = Some r ->
  net_wf n' -> NetdevProto type h ∈ protos n' ->
  let frame := frame_of d type payload dst in
  ethernet_tx dev type (Some payload) (zlen payload) (Some dst) s
  = (let '(n, w, u) := raw_tx r frame (eth_world s) in
     (if n =? zlen frame then zlen payload else -1, set_eth_world w s, u)) /\
  60 <= zlen frame <= 1514 /\
  (forall d', ethernet_rx d' frame (zlen frame)
    = (if memeq (dev_addr d') dst 6 || memeq ETHERNET_ADDR_BROADCAST dst 6
       then Some (RxCall (hton16 type) (padded payload) (zlen (padded payload))) else None, [])) /\
  netdev_rx_handler (hton16 type) n' = [h].
Proof.
  intros Hp Hd Ha Ht Ed Ep Er Hwf Hin frame. subst frame. rewrite zlen_frame by done. split_and!.
  - by rewrite (ethernet_tx_frame _ _ _ _ _ _ _ _ Hp Hd Ha Ed Ep Er).
  - unfold frame_len. change ETHERNET_PAYLOAD_SIZE_MIN with 46. destruct (_ <? _) eqn:E; unfold ETHERNET_HDR_SIZE; lia.
  - change ETHERNET_PAYLOAD_SIZE_MAX with 1500 in Hp. unfold frame_len. change ETHERNET_PAYLOAD_SIZE_MIN with 46.
    destruct (_ <? _) eqn:E; unfold ETHERNET_HDR_SIZE; lia.
  - intros d'. by apply ethernet_rx_frame.
  - by apply netdev_rx_registered.
Qed.

(** [netdev_alloc] leaves the address of a device uninitialised.  Unless it happens
    to be zero, [ethernet_open] keeps it and does not ask the raw device. *)
Lemma ethernet_open_keeps_address dev opt (s : eth) d r t w1 w2 w3 w4 :
  devtab (eth_net s) !! dev = Some d -> memeq (dev_addr d) ETHERNET_ADDR_ANY 6 = false ->
  eth_malloc (eth_world s) = (true, w1, []) -> raw_alloc opt (dev_name d) w1 = (Some r, w2, []) ->
  raw_open r w2 = (0, w3, []) -> pthread_self w3 = (t, w4, []) ->
  rval (ethernet_open dev opt s) = 0 /\
  dev_addr <$> devtab (eth_net (rst (ethernet_open dev opt s))) !! dev = Some (dev_addr d).
Proof.
  intros Ed Ha E1 E2 E3 E4. unfold ethernet_open.
  run by (unfold raw, zoom; by rewrite E1). cbn [negb].
  run by (unfold dev_get, gets; cbn; by rewrite Ed).
  run by (unfold raw, zoom; cbn; by rewrite E2). cbv iota.
  run by (unfold raw, zoom; cbn; by rewrite E3). cbn [Z.eqb].
  run by (unfold raw, zoom; cbn; by rewrite E4). run.
  change ETHERNET_ADDR_LEN with 6. rewrite Ha. run. cbn. split; [done|].
  by rewrite lookup_alter_eq, Ed.
Qed.

End Ethernet.
Arguments eth : clear implicits.

(** ** Example *)

(** A raw device that sends everything; the world is the list of frames. *)
#[local] Instance sample_raw : RawLayer (list bytes) := {|
  eth_malloc := ret true;
  raw_alloc _ _ := ret (Some 0%nat);
  raw_free _ := ret tt;
  raw_open _ := ret 0;
  raw_close _ := ret tt;
  raw_tx _ frame := fun w => (zlen frame, w ++ [frame], []);
  raw_rx _ := ret None;
  raw_addr _ a := ret (0, a);
  pthread_self := ret 0%nat;
  pthread_create := ret (Some 1%nat);
  pthread_join _ := ret tt
|}.

Definition sample_netdev : netdev unit :=
  Netdev None [] 1 1500 1 14 6 [2; 0; 0; 0; 0; 1; 0; 0; 0; 0; 0; 0; 0; 0; 0; 0] [] [] tt.

(** Three octets to device 02:00:00:00:00:02, filled up to 46. *)
Lemma ethernet_delivery_witness :
  let n := Net [] [NetdevProto ETHERNET_TYPE_IP 7%nat] [] {[ 0%nat := sample_netdev ]} ∅ in
  let s := Eth n {[ 0%nat := EthernetPriv (Some 0%nat) (Some 0%nat) false ]} [] in
  rval (ethernet_tx (H := LittleEndian) 0 ETHERNET_TYPE_IP (Some [1; 2; 3]) 3 (Some [2; 0; 0; 0; 0; 2]) s) = 3 /\
  netdev_rx_handler (H := LittleEndian) (hton16 (H := LittleEndian) ETHERNET_TYPE_IP) n = [7%nat].
Proof.
  intros n s.
  destruct (ethernet_delivery (H := LittleEndian) 0 ETHERNET_TYPE_IP [1; 2; 3] [2; 0; 0; 0; 0; 2] s sample_netdev
    (EthernetPriv (Some 0%nat) (Some 0%nat) false) 0 n 7%nat) as (E & _ & _ & Hh).
  all: try (split; [change 3 with (zlen [1; 2; 3]); rewrite E; reflexivity|exact Hh]).
  all: try reflexivity.
  all: try (vm_compute; intuition discriminate).
  2: left.
  change n with (set_devtab {[ 0%nat := sample_netdev ]}
    (rst (netdev_proto_register ETHERNET_TYPE_IP 7%nat true (net_init (Ops := unit))))).
  split; cbn; [constructor|repeat constructor; set_solver|by repeat constructor|constructor|].
  intros d dev Hd. apply lookup_singleton_Some in Hd as [_ <-]. exists []. split; [done|]. split; constructor.
Defined.
