(* ===== verification/Raw.v ===== *)
(** * Raw devices (src/raw.c, src/raw/soc.c, src/raw/tap_linux.c)

    A raw device is a packet socket or a tap device, behind one table of
    operations.  The system calls are an interface, [Kernel], over a state of the
    operating system.  The files soc.c and tap_linux.c have the same text for
    closing, receiving, sending and reading the address; it is one definition
    here, under the name of each file.  The build is that of the Makefile on
    Linux: HAVE_TAP and HAVE_PF_PACKET are defined. *)

From S2P Require Import Prelude Endian Addr CString Net Ethernet.

(** ** Constants *)

Definition RAWDEV_TYPE_AUTO : Z := 0.
Definition RAWDEV_TYPE_TAP : Z := 1.
Definition RAWDEV_TYPE_SOCKET : Z := 2.
Definition RAWDEV_TYPE_DEFAULT : Z := RAWDEV_TYPE_SOCKET.

Definition IFNAMSIZ : Z := 16.
Definition PF_PACKET : Z := 17.
Definition AF_PACKET : Z := 17.
Definition AF_INET : Z := 2.
Definition SOCK_RAW : Z := 3.
Definition SOCK_DGRAM : Z := 2.
Definition ETH_P_ALL : Z := 3.
Definition SIOCGIFINDEX : Z := 35123.
Definition SIOCGIFFLAGS : Z := 35091.
Definition SIOCSIFFLAGS : Z := 35092.
Definition SIOCGIFHWADDR : Z := 35111.
Definition TUNSETIFF : Z := 1074025674.
Definition IFF_PROMISC : Z := 256.
Definition IFF_TAP : Z := 2.
Definition IFF_NO_PI : Z := 4096.
Definition O_RDWR : Z := 2.
Definition POLLIN : Z := 1.
Definition CLONE_DEVICE : list Z := str "/dev/net/tun".

(** ** Data *)

(** [struct ifreq]: the name and the 24 octets of the union [ifr_ifru]. *)
Record ifreq := Ifreq { ifr_name : bytes; ifr_ifru : bytes }.

Definition ifr_set_name v i := Ifreq v (ifr_ifru i).
Definition ifr_set_ifru v i := Ifreq (ifr_name i) v.

(** The fields of [struct sockaddr_ll] that are not zero. *)
Record sockaddr_ll := SockaddrLl { sll_family : Z; sll_protocol : Z; sll_ifindex : Z }.

(** The tables of operations [tap_dev_ops] and [soc_dev_ops]. *)
Inductive rawdev_ops := TapOps | SocOps.

Abbreviation privid := nat.

(** [struct rawdev]; [struct soc_dev] and [struct tap_dev] are their descriptor. *)
Record rawdev := Rawdev { rd_type : Z; rd_name : list Z; rd_ops : rawdev_ops; rd_priv : option privid }.

Definition rd_set_priv v d := Rawdev (rd_type d) (rd_name d) (rd_ops d) v.

(** ** System calls *)

(** [malloc] says whether there is memory; [ioctl] returns its result and what the
    request structure is afterwards; [read] its result and the octets stored.
    [k_threads] are the threads of the process that have not been joined and are
    not the caller itself: joining any other is undefined. *)
Class Kernel (K : Type) := {
  k_malloc : K -> bool * K;
  k_socket : Z -> Z -> Z -> K -> Z * K;
  k_open : list Z -> Z -> K -> Z * K;
  k_close : Z -> K -> K;
  k_ioctl : Z -> Z -> ifreq -> K -> (Z * ifreq) * K;
  k_bind : Z -> sockaddr_ll -> K -> Z * K;
  k_poll : Z -> Z -> Z -> K -> Z * K;
  k_read : Z -> Z -> K -> (Z * bytes) * K;
  k_write : Z -> bytes -> K -> Z * K;
  k_threads : K -> gset tid;
  k_pthread_self : K -> tid;
  k_pthread_create : K -> option tid * K;
  k_pthread_join : tid -> K -> K
}.

Section Raw.
Context {H : Host} {K : Type} `{KN : Kernel K}.

Record raws := Raws { raw_devs : gmap rawid rawdev; raw_privs : gmap privid Z; raw_kernel : K }.

Definition set_raw_devs v s := Raws v (raw_privs s) (raw_kernel s).
Definition set_raw_privs v s := Raws (raw_devs s) v (raw_kernel s).
Definition set_raw_kernel v s := Raws (raw_devs s) (raw_privs s) v.

Definition kern {A} (f : K -> A * K) : M raws A := fun s =>
  let '(a, k) := f (raw_kernel s) in (a, set_raw_kernel k s, []).

(** A new [struct soc_dev] or [struct tap_dev]. *)
Definition priv_new (fd : Z) : M raws privid := fun s =>
  let p := fresh (dom (raw_privs s)) in (p, set_raw_privs (<[p := fd]> (raw_privs s)) s, []).

(** Read [dev->fd]. *)
Definition with_fd {A} (dev : option privid) (fail : A) (k : privid -> Z -> M raws A) : M raws A :=
  match dev with
  | None => tell [NullDeref] ;;; ret fail
  | Some p =>
      let* h := gets raw_privs in
      match h !! p with
      | None => tell [UseAfterFree] ;;; ret fail
      | Some fd => k p fd
      end
  end.

(** *** The text soc.c and tap_linux.c have in common *)

Definition dev_close (dev : option privid) : M raws unit :=
  with_fd dev tt (fun p fd =>
    when (negb (fd =? -1)) (kern (fun k => (tt, k_close fd k))) ;;;
    modify (fun s => set_raw_privs (delete p (raw_privs s)) s)).

(** The octets the callback is called with, if it is. *)
Definition dev_rx (dev : option privid) (timeout : Z) : M raws (option bytes) :=
  with_fd dev None (fun _ fd =>
    let* r := kern (k_poll fd POLLIN timeout) in
    if (r =? -1) || (r =? 0) then ret None else
    let* x := kern (k_read fd 2048) in
    let '(len, buf) := x in
    if (len =? -1) || (len =? 0) then ret None else
    ret (Some (take (Z.to_nat len) buf))).

Definition dev_tx_octets (dev : option privid) (buf : bytes) : M raws Z :=
  with_fd dev (-1) (fun _ fd => kern (k_write fd buf)).

(** The data of [ifr_hwaddr]: the union starts with a [struct sockaddr], a family of
    two octets and fourteen octets of data. *)
Definition sa_data (ifr : ifreq) : bytes := take 14 (drop 2 (ifr_ifru ifr)).

(** [strncpy(ifr.ifr_name, name, sizeof(ifr.ifr_name) - 1)]. *)
Definition ifr_copy_name (name : list Z) (ifr : ifreq) : ifreq :=
  ifr_set_name (strncpy (ifr_name ifr) name (IFNAMSIZ - 1)) ifr.

(** [ifr] is the uninitialised local variable, [dst] the memory at the destination. *)
Definition dev_hwaddr (name : list Z) (ifr : ifreq) (dst : bytes) (size : Z) : M raws (Z * bytes) :=
  let* fd := kern (k_socket AF_INET SOCK_DGRAM 0) in
  if fd =? -1 then ret (-1, dst) else
  let ifr := ifr_set_ifru (store16 AF_INET ++ drop 2 (ifr_ifru ifr)) ifr in
  let* x := kern (k_ioctl fd SIOCGIFHWADDR (ifr_copy_name name ifr)) in
  let '(r, ifr) := x in
  if r =? -1 then kern (fun k => (tt, k_close fd k)) ;;; ret (-1, dst) else
  let '(dst, u) := memcpy dst 0 (sa_data ifr) size in
  tell u ;;;
  kern (fun k => (tt, k_close fd k)) ;;;
  ret (0, dst).

(** *** Packet sockets (src/raw/soc.c) *)

Definition ifr_flags (ifr : ifreq) : Z :=
  match ifr_ifru ifr with b0 :: b1 :: _ => load16 b0 b1 | _ => 0 end.
Definition ifr_set_flags (v : Z) (ifr : ifreq) : ifreq := ifr_set_ifru (store16 (u16 v) ++ drop 2 (ifr_ifru ifr)) ifr.
Definition ifr_ifindex (ifr : ifreq) : Z :=
  match ifr_ifru ifr with b0 :: b1 :: b2 :: b3 :: _ => load32 b0 b1 b2 b3 | _ => 0 end.

(** The result of the first [malloc] is not checked: the descriptor is stored
    through a null pointer. *)
Definition soc_dev_open (name : list Z) (ifr : ifreq) : M raws (option privid) :=
  let* ok := kern k_malloc in
  let* fd := kern (k_socket PF_PACKET SOCK_RAW (hton16 ETH_P_ALL)) in
  if negb ok then tell [NullDeref] ;;; ret None else
  let* dev := priv_new fd in
  let error := dev_close (Some dev) ;;; ret None in
  if fd =? -1 then error else
  let* x := kern (k_ioctl fd SIOCGIFINDEX (ifr_copy_name name ifr)) in
  let '(r, ifr) := x in
  if r =? -1 then error else
  let* r := kern (k_bind fd (SockaddrLl AF_PACKET (hton16 ETH_P_ALL) (ifr_ifindex ifr))) in
  if r =? -1 then error else
  let* x := kern (k_ioctl fd SIOCGIFFLAGS ifr) in
  let '(r, ifr) := x in
  if r =? -1 then error else
  let ifr := ifr_set_flags (Z.lor (ifr_flags ifr) IFF_PROMISC) ifr in
  let* x := kern (k_ioctl fd SIOCSIFFLAGS ifr) in
  if x.1 =? -1 then error else
  ret (Some dev).

Definition soc_dev_close : option privid -> M raws unit := dev_close.
Definition soc_dev_rx : option privid -> Z -> M raws (option bytes) := dev_rx.
Definition soc_dev_tx : option privid -> bytes -> M raws Z := dev_tx_octets.
Definition soc_dev_addr : list Z -> ifreq -> bytes -> Z -> M raws (Z * bytes) := dev_hwaddr.

(** *** Tap devices (src/raw/tap_linux.c) *)

Definition tap_dev_open (name : list Z) (ifr : ifreq) : M raws (option privid) :=
  let* ok := kern k_malloc in
  if negb ok then ret None else
  let* fd := kern (k_open CLONE_DEVICE O_RDWR) in
  let* dev := priv_new fd in
  let error := dev_close (Some dev) ;;; ret None in
  if fd =? -1 then error else
  let ifr := ifr_set_flags (Z.lor IFF_TAP IFF_NO_PI) (ifr_copy_name name ifr) in
  let* x := kern (k_ioctl fd TUNSETIFF ifr) in
  if x.1 =? -1 then error else
  ret (Some dev).

Definition tap_dev_close : option privid -> M raws unit := dev_close.
Definition tap_dev_rx : option privid -> Z -> M raws (option bytes) := dev_rx.
Definition tap_dev_tx : option privid -> bytes -> M raws Z := dev_tx_octets.
Definition tap_dev_addr : list Z -> ifreq -> bytes -> Z -> M raws (Z * bytes) := dev_hwaddr.

(** *** The table of operations *)

(** Access through a [struct rawdev *]. *)
Definition with_dev {A} (r : rawid) (fail : A) (k : rawdev -> M raws A) : M raws A :=
  let* t := gets raw_devs in
  match t !! r with
  | None => tell [UseAfterFree] ;;; ret fail
  | Some d => k d
  end.

Definition rawdev_set_priv (r : rawid) (p : option privid) : M raws unit :=
  modify (fun s => set_raw_devs (alter (rd_set_priv p) r (raw_devs s)) s).

(** [dev->priv ? 0 : -1]. *)
Definition priv_result (p : option privid) : Z := match p with Some _ => 0 | None => -1 end.

Definition soc_dev_open_wrap (r : rawid) (d : rawdev) (ifr : ifreq) : M raws Z :=
  let* p := soc_dev_open (rd_name d) ifr in rawdev_set_priv r p ;;; ret (priv_result p).
Definition soc_dev_close_wrap (d : rawdev) : M raws unit := soc_dev_close (rd_priv d).
Definition soc_dev_rx_wrap (d : rawdev) (timeout : Z) : M raws (option bytes) := soc_dev_rx (rd_priv d) timeout.
Definition soc_dev_tx_wrap (d : rawdev) (buf : bytes) : M raws Z := soc_dev_tx (rd_priv d) buf.
Definition soc_dev_addr_wrap (d : rawdev) (ifr : ifreq) (dst : bytes) (size : Z) : M raws (Z * bytes) :=
  soc_dev_addr (rd_name d) ifr dst size.

Definition tap_dev_open_wrap (r : rawid) (d : rawdev) (ifr : ifreq) : M raws Z :=
  let* p := tap_dev_open (rd_name d) ifr in rawdev_set_priv r p ;;; ret (priv_result p).
Definition tap_dev_close_wrap (d : rawdev) : M raws unit := tap_dev_close (rd_priv d).
Definition tap_dev_rx_wrap (d : rawdev) (timeout : Z) : M raws (option bytes) := tap_dev_rx (rd_priv d) timeout.
Definition tap_dev_tx_wrap (d : rawdev) (buf : bytes) : M raws Z := tap_dev_tx (rd_priv d) buf.
Definition tap_dev_addr_wrap (d : rawdev) (ifr : ifreq) (dst : bytes) (size : Z) : M raws (Z * bytes) :=
  tap_dev_addr (rd_name d) ifr dst size.

(** [dev->ops->open(dev)] and so on. *)
Definition ops_open (r : rawid) (ifr : ifreq) : M raws Z :=
  with_dev r (-1) (fun d => match rd_ops d with
    | TapOps => tap_dev_open_wrap r d ifr | SocOps => soc_dev_open_wrap r d ifr end).
Definition ops_close (r : rawid) : M raws unit :=
  with_dev r tt (fun d => match rd_ops d with
    | TapOps => tap_dev_close_wrap d | SocOps => soc_dev_close_wrap d end).
Definition ops_rx (r : rawid) (timeout : Z) : M raws (option bytes) :=
  with_dev r None (fun d => match rd_ops d with
    | TapOps => tap_dev_rx_wrap d timeout | SocOps => soc_dev_rx_wrap d timeout end).
Definition ops_tx_octets (r : rawid) (buf : bytes) : M raws Z :=
  with_dev r (-1) (fun d => match rd_ops d with
    | TapOps => tap_dev_tx_wrap d buf | SocOps => soc_dev_tx_wrap d buf end).
Definition ops_addr (r : rawid) (ifr : ifreq) (dst : bytes) (size : Z) : M raws (Z * bytes) :=
  with_dev r (-1, dst) (fun d => match rd_ops d with
    | TapOps => tap_dev_addr_wrap d ifr dst size | SocOps => soc_dev_addr_wrap d ifr dst size end).

(** *** Allocation (src/raw.c) *)

Definition rawdev_detect_type (name : list Z) : Z :=
  if strncmp_eq name (str "tap") 3 then RAWDEV_TYPE_TAP else RAWDEV_TYPE_DEFAULT.

Definition rawdev_alloc (type : Z) (name : list Z) : M raws (option rawid) :=
  let type := if type =? RAWDEV_TYPE_AUTO then rawdev_detect_type name else type in
  let ops := if type =? RAWDEV_TYPE_TAP then Some TapOps
             else if type =? RAWDEV_TYPE_SOCKET then Some SocOps else None in
  match ops with
  | None => ret None
  | Some ops =>
      let* ok := kern k_malloc in
      if negb ok then ret None else
      let* t := gets raw_devs in
      let r := fresh (dom t) in
      modify (fun s => set_raw_devs (<[r := Rawdev type name ops None]> (raw_devs s)) s) ;;;
      ret (Some r)
  end.

(** [free(raw)]. *)
Definition rawdev_free (r : rawid) : M raws unit :=
  with_dev r tt (fun _ => modify (fun s => set_raw_devs (delete r (raw_devs s)) s)).

End Raw.
Arguments raws : clear implicits.

(** ** The raw layer of Ethernet *)

(** [junk] is what the uninitialised request of a call happens to hold.
    [ethernet_rx_thread] waits for a second, [ethernet_open] asks for six octets of
    the address, and passes the type as a [uint8_t]. *)
Definition raw_layer {H : Host} {K} `{KN : Kernel K} (junk : K -> ifreq)
  : RawLayer (raws K) := {|
  eth_malloc := kern k_malloc;
  raw_alloc opt name := rawdev_alloc (u8 opt) name;
  raw_free r := rawdev_free r;
  raw_open r := let* s := get in ops_open r (junk (raw_kernel s));
  raw_close r := ops_close r;
  raw_tx r frame := ops_tx_octets r frame;
  raw_rx r := ops_rx r 1000;
  raw_addr r dst := let* s := get in ops_addr r (junk (raw_kernel s)) dst ETHERNET_ADDR_LEN;
  pthread_self := gets (fun s => k_pthread_self (raw_kernel s));
  pthread_create := kern k_pthread_create;
  pthread_join t :=
    let* s := get in
    tell (if bool_decide (t ∈ k_threads (raw_kernel s)) then [] else [BadJoin]) ;;;
    kern (fun k => (tt, k_pthread_join t k))
|}.
