(* ===== verification/RawFacts.v ===== *)
(** * Raw devices: theorems

    Under documented laws of the system calls, an Ethernet device owns one file
    descriptor from a successful [ethernet_open] to [ethernet_close], failed calls
    leave none behind, and the receiving thread passes up the frames of the device
    in their order. *)

From S2P Require Import Prelude Logic Endian Addr CString Net Ethernet Raw.

(** ** Descriptors *)

(** The open file descriptors of the process.  [socket] and [open] fail with -1 or
    return a descriptor that was not open; [close] releases its argument; the
    other calls neither open nor close; [ioctl] writes within the structure. *)
Definition new_fd (before : gset Z) (fd : Z) (after : gset Z) : Prop :=
  (fd = -1 /\ after = before) \/ (0 <= fd /\ fd ∉ before /\ after = {[ fd ]} ∪ before).

Class KernelLaws (K : Type) `{KN : Kernel K} := {
  fds : K -> gset Z;
  fds_malloc k : fds (k_malloc k).2 = fds k;
  fds_socket d t p k : new_fd (fds k) (k_socket d t p k).1 (fds (k_socket d t p k).2);
  fds_open path flags k : new_fd (fds k) (k_open path flags k).1 (fds (k_open path flags k).2);
  fds_close fd k : fds (k_close fd k) = fds k ∖ {[ fd ]};
  fds_ioctl fd req ifr k : fds (k_ioctl fd req ifr k).2 = fds k;
  fds_bind fd addr k : fds (k_bind fd addr k).2 = fds k;
  fds_poll fd ev timeout k : fds (k_poll fd ev timeout k).2 = fds k;
  fds_read fd n k : fds (k_read fd n k).2 = fds k;
  fds_write fd buf k : fds (k_write fd buf k).2 = fds k;
  fds_create k : fds (k_pthread_create k).2 = fds k;
  fds_join t k : fds (k_pthread_join t k) = fds k;
  ioctl_size fd req ifr k : length (ifr_ifru (k_ioctl fd req ifr k).1.2) = length (ifr_ifru ifr)
}.

(** The threads: [pthread_create] fails and changes nothing, or makes a thread that
    was not there; [pthread_join] takes its argument away; a thread cannot join
    itself; the other calls neither make threads nor join them.  All calls are made
    by one thread. *)
Definition threads_of {K} `{KN : Kernel K} (k : K) : gset tid * tid := (k_threads k, k_pthread_self k).

Class KernelThreads (K : Type) `{KN : Kernel K} := {
  thr_self k : k_pthread_self k ∉ k_threads k;
  thr_malloc k : threads_of (k_malloc k).2 = threads_of k;
  thr_socket d t p k : threads_of (k_socket d t p k).2 = threads_of k;
  thr_open path flags k : threads_of (k_open path flags k).2 = threads_of k;
  thr_close fd k : threads_of (k_close fd k) = threads_of k;
  thr_ioctl fd req ifr k : threads_of (k_ioctl fd req ifr k).2 = threads_of k;
  thr_bind fd addr k : threads_of (k_bind fd addr k).2 = threads_of k;
  thr_poll fd ev timeout k : threads_of (k_poll fd ev timeout k).2 = threads_of k;
  thr_read fd n k : threads_of (k_read fd n k).2 = threads_of k;
  thr_write fd buf k : threads_of (k_write fd buf k).2 = threads_of k;
  thr_create k : match (k_pthread_create k).1 with
    | None => threads_of (k_pthread_create k).2 = threads_of k
    | Some t => t ∉ k_threads k /\ t <> k_pthread_self k /\
        threads_of (k_pthread_create k).2 = ({[ t ]} ∪ k_threads k, k_pthread_self k)
    end;
  thr_join t k : threads_of (k_pthread_join t k) = (k_threads k ∖ {[ t ]}, k_pthread_self k)
}.

Section Raw.
Context {H : Host} {K : Type} `{KL : KernelLaws K}.

(** [safe], or memory is exhausted and something undefined happens. *)
Definition safe_mem {S A} (m : M S A) (s : S) (Q : A -> S -> Prop) : Prop :=
  (rub (m s) <> [] /\ exists k : K, (k_malloc k).1 = false) \/ safe m s Q.

Lemma safe_mem_bind {S A B} (m : M S A) (k : A -> M S B) s Q :
  safe_mem m s (fun a s1 => safe_mem (k a) s1 Q) -> safe_mem (mbind' m k) s Q.
Proof.
  intros [[Hu Hm]|[Hu [[Hu' Hm]|Hs]]].
  - left. split; [|done]. rewrite rub_bind. by intros [? _]%app_nil.
  - left. split; [|done]. rewrite rub_bind. by intros [_ ?]%app_nil.
  - right. by apply safe_bind.
Qed.

Lemma safe_safe_mem {S A} (m : M S A) s Q : safe m s Q -> safe_mem m s Q.
Proof. by right. Qed.

Lemma safe_mem_mono {S A} (m : M S A) s (Q Q' : A -> S -> Prop) :
  safe_mem m s Q -> (forall a s', Q a s' -> Q' a s') -> safe_mem m s Q'.
Proof. intros [?|Hs] HQ; [by left|right]. by eapply safe_mono. Qed.

Lemma safe_mem_ret {S A} (a : A) (s : S) (Q : A -> S -> Prop) : Q a s -> safe_mem (ret a) s Q.
Proof. intros. by apply safe_safe_mem, safe_ret. Qed.

Abbreviation open_fds s := (fds (raw_kernel s)).

(** The kernel changes, but not its descriptors. *)
Definition same (s s' : raws K) : Prop :=
  raw_devs s' = raw_devs s /\ raw_privs s' = raw_privs s /\ open_fds s' = open_fds s.

#[local] Instance same_preorder : PreOrder same.
Proof. split; [done|]. intros s1 s2 s3 (? & ? & ?) (? & ? & ?). unfold same. by split_and!; etrans. Qed.

Lemma safe_kern {A} (f : K -> A * K) s (Q : A -> raws K -> Prop) :
  fds (f (raw_kernel s)).2 = open_fds s ->
  (forall a s', same s s' -> a = (f (raw_kernel s)).1 -> Q a s') -> safe (kern f) s Q.
Proof.
  intros Hf HQ. unfold safe, kern. destruct (f (raw_kernel s)) as [a k]. split; [done|]. by apply HQ.
Qed.

(** The result of opening a device: nothing, or a new object with a new descriptor. *)
Definition opened (s : raws K) (o : option privid) (s' : raws K) : Prop :=
  raw_devs s' = raw_devs s /\
  match o with
  | None => raw_privs s' = raw_privs s /\ open_fds s' = open_fds s
  | Some q => exists fd, raw_privs s !! q = None /\ 0 <= fd /\ fd ∉ open_fds s /\
      raw_privs s' = <[q := fd]> (raw_privs s) /\ open_fds s' = {[ fd ]} ∪ open_fds s
  end.

(** While it is opened: the object exists, with the descriptor or -1. *)
Definition opening (s : raws K) (q : privid) (fd : Z) (s' : raws K) : Prop :=
  raw_devs s' = raw_devs s /\ raw_privs s !! q = None /\ raw_privs s' = <[q := fd]> (raw_privs s) /\
  new_fd (open_fds s) fd (open_fds s').

Lemma opening_same s q fd s1 s2 : opening s q fd s1 -> same s1 s2 -> opening s q fd s2.
Proof. intros (E1 & E2 & E3 & E4) (F1 & F2 & F3). unfold opening. rewrite F1, F2, F3. done. Qed.

(** A call of [socket] or [open], and a new object for its result. *)
Lemma safe_new (f : K -> Z * K) s (Q : Z -> raws K -> Prop) :
  new_fd (open_fds s) (f (raw_kernel s)).1 (fds (f (raw_kernel s)).2) ->
  (forall fd s', raw_devs s' = raw_devs s -> raw_privs s' = raw_privs s -> new_fd (open_fds s) fd (open_fds s') ->
    Q fd s') -> safe (kern f) s Q.
Proof. intros Hf HQ. unfold safe, kern. destruct (f (raw_kernel s)) as [fd w]. split; [done|]. by apply HQ. Qed.

Lemma safe_fd {B} (f : K -> Z * K) (k : Z -> privid -> M (raws K) B) s0 s (Q : B -> raws K -> Prop) :
  same s0 s -> new_fd (open_fds s) (f (raw_kernel s)).1 (fds (f (raw_kernel s)).2) ->
  (forall fd q s', opening s0 q fd s' -> safe (k fd q) s' Q) ->
  safe (let* fd := kern f in let* q := priv_new fd in k fd q) s Q.
Proof.
  intros (E1 & E2 & E3) Hf Hk. apply safe_bind, safe_new; [done|]. intros fd s1 F1 F2 F3. apply safe_bind.
  split; [done|]. apply Hk. unfold opening. cbn. rewrite F1, F2, <- E1, <- E2, <- E3. split_and!; try done.
  apply not_elem_of_dom, is_fresh.
Qed.

(** The label [ERROR]. *)
Lemma safe_error s q fd s' : opening s q fd s' ->
  safe (dev_close (Some q) ;;; ret (None : option privid)) s' (opened s).
Proof.
  intros (E1 & E2 & E3 & E4). apply safe_bind. unfold dev_close, with_fd. apply safe_bind, safe_gets.
  rewrite E3, lookup_insert_eq. apply safe_bind.
  assert (forall s1, raw_devs s1 = raw_devs s' -> raw_privs s1 = raw_privs s' -> open_fds s1 = open_fds s ->
    safe (modify (fun s => set_raw_privs (delete q (raw_privs s)) s)) s1
      (fun _ s2 => safe (ret (None : option privid)) s2 (opened s))) as Hend.
  { intros s1 F1 F2 F3. apply safe_modify, safe_ret. unfold opened. cbn. rewrite F1, F2, F3, E3.
    split_and!; [done| |done]. by rewrite delete_insert_id. }
  apply safe_when.
  - intros Hfd. destruct E4 as [[-> _]|(Hpos & Hnew & Eopen)]; [done|]. split; [done|]. apply Hend; [done..|].
    cbn. rewrite fds_close, Eopen. set_solver.
  - intros Hfd. apply Hend; [done..|]. destruct E4 as [[_ ?]|(? & _)]; [done|]. lia.
Qed.

Lemma opening_opened s q fd s' : fd <> -1 -> opening s q fd s' -> opened s (Some q) s'.
Proof. intros Hfd (E1 & E2 & E3 & [[? _]|(? & ? & ?)]); [done|]. split; [done|]. by exists fd. Qed.

(** A call on the way that does not open or close. *)
Lemma safe_call {A B} (f : K -> A * K) (k : A -> M (raws K) B) s0 q fd s (Q : B -> raws K -> Prop) :
  opening s0 q fd s -> fds (f (raw_kernel s)).2 = open_fds s ->
  (forall a s', opening s0 q fd s' -> safe (k a) s' Q) -> safe (mbind' (kern f) k) s Q.
Proof.
  intros Ho Hf Hk. apply safe_bind, safe_kern; [done|]. intros a s' Hs _. apply Hk. by eapply opening_same.
Qed.

Lemma soc_dev_open_ok name ifr s : safe_mem (soc_dev_open name ifr) s (opened s).
Proof.
  unfold soc_dev_open. apply safe_mem_bind, safe_safe_mem, safe_kern; [apply fds_malloc|].
  intros ok s1 Hs1 Eok. destruct ok.
  - cbn [negb]. apply safe_safe_mem. apply (safe_fd _ _ s); [done|apply fds_socket|]. intros fd q s2 H2.
    destruct (Z.eqb_spec fd (-1)) as [_|Hfd]; [by eapply safe_error|].
    eapply safe_call; [done|apply fds_ioctl|]. intros [r1 i1] s3 H3. destruct (_ =? _); [by eapply safe_error|].
    eapply safe_call; [done|apply fds_bind|]. intros r2 s4 H4. destruct (_ =? _); [by eapply safe_error|].
    eapply safe_call; [done|apply fds_ioctl|]. intros [r3 i3] s5 H5. destruct (_ =? _); [by eapply safe_error|].
    eapply safe_call; [done|apply fds_ioctl|]. intros [r4 i4] s6 H6. destruct (_ =? _); [by eapply safe_error|].
    by apply safe_ret, (opening_opened _ _ fd).
  - left. split; [|by exists (raw_kernel s)]. cbn [negb]. rewrite !rub_bind. cbn.
    by intros [_ ?]%app_nil.
Qed.

Lemma tap_dev_open_ok name ifr s : safe (tap_dev_open name ifr) s (opened s).
Proof.
  unfold tap_dev_open. apply safe_bind, safe_kern; [apply fds_malloc|].
  intros ok s1 Hs1 _. destruct ok; cbn [negb].
  - apply (safe_fd _ _ s); [done|apply fds_open|]. intros fd q s2 H2.
    destruct (Z.eqb_spec fd (-1)) as [_|Hfd]; [by eapply safe_error|].
    eapply safe_call; [done|apply fds_ioctl|]. intros x s3 H3. destruct (_ =? _); [by eapply safe_error|].
    by apply safe_ret, (opening_opened _ _ fd).
  - destruct Hs1 as (? & ? & ?). by apply safe_ret.
Qed.

(** [dev->ops->open] of a live raw device. *)
Lemma ops_open_ok r ifr s d : raw_devs s !! r = Some d ->
  safe_mem (ops_open r ifr) s (fun v s' => exists o, v = priv_result o /\
    raw_devs s' = alter (rd_set_priv o) r (raw_devs s) /\ opened s o (set_raw_devs (raw_devs s) s')).
Proof.
  intros Hd. unfold ops_open, with_dev. apply safe_mem_bind, safe_safe_mem, safe_gets. rewrite Hd.
  assert (forall m, safe_mem m s (opened s) -> safe_mem (let* p := m in rawdev_set_priv r p ;;; ret (priv_result p)) s
    (fun v s' => exists o, v = priv_result o /\
      raw_devs s' = alter (rd_set_priv o) r (raw_devs s) /\ opened s o (set_raw_devs (raw_devs s) s'))) as Hw.
  { intros m Hm. apply safe_mem_bind. eapply safe_mem_mono; [exact Hm|]. intros o s' [E Ho].
    apply safe_safe_mem, safe_bind, safe_modify, safe_ret. exists o. split; [done|]. cbn. rewrite E. done. }
  destruct (rd_ops d); apply Hw; [apply safe_safe_mem, tap_dev_open_ok|apply soc_dev_open_ok].
Qed.

(** A live device object: closing it releases its descriptor, the other operations
    change nothing. *)
Lemma dev_close_ok q fd s : raw_privs s !! q = Some fd -> fd <> -1 ->
  safe (dev_close (Some q)) s (fun _ s' => raw_devs s' = raw_devs s /\ raw_privs s' = delete q (raw_privs s) /\
    open_fds s' = open_fds s ∖ {[ fd ]}).
Proof.
  intros Hq Hfd. unfold dev_close, with_fd. apply safe_bind, safe_gets. rewrite Hq. apply safe_bind, safe_when; [|lia].
  intros _. split; [done|]. apply safe_modify. cbn. by rewrite fds_close.
Qed.

Lemma dev_rx_ok q fd timeout s : raw_privs s !! q = Some fd -> safe (dev_rx (Some q) timeout) s (fun _ s' => same s s').
Proof.
  intros Hq. unfold dev_rx, with_fd. apply safe_bind, safe_gets. rewrite Hq.
  apply safe_bind, safe_kern; [apply fds_poll|]. intros r s1 H1 _. destruct (_ || _); [by apply safe_ret|].
  apply safe_bind, safe_kern; [apply fds_read|]. intros [len buf] s2 H2 _.
  destruct (_ || _); apply safe_ret; by etrans.
Qed.

Lemma dev_tx_ok q fd buf s : raw_privs s !! q = Some fd -> safe (dev_tx_octets (Some q) buf) s (fun _ s' => same s s').
Proof.
  intros Hq. unfold dev_tx_octets, with_fd. apply safe_bind, safe_gets. rewrite Hq.
  apply safe_kern; [apply fds_write|]. done.
Qed.

Lemma length_memcpy dst off src n : length (memcpy dst off src n).1 = length dst \/ zlen dst < off \/ off < 0.
Proof.
  destruct (decide (0 <= off <= zlen dst)) as [Ho|]; [left|lia]. unfold memcpy, zlen in *. cbn [fst].
  rewrite !length_app, length_drop, !length_take. lia.
Qed.

Lemma safe_close_fd {A} fd (k : M (raws K) A) s0 s (Q : A -> raws K -> Prop) :
  raw_devs s = raw_devs s0 -> raw_privs s = raw_privs s0 -> open_fds s = {[ fd ]} ∪ open_fds s0 -> fd ∉ open_fds s0 ->
  (forall s', same s0 s' -> safe k s' Q) -> safe (kern (fun k => (tt, k_close fd k)) ;;; k) s Q.
Proof.
  intros E1 E2 E3 Hnew Hk. apply safe_bind. split; [done|]. apply Hk. split_and!; [done..|].
  cbn. rewrite fds_close, E3. set_solver.
Qed.

(** Reading an address opens a socket and closes it again. *)
Lemma dev_hwaddr_ok name ifr dst s : 6 <= zlen dst -> length (ifr_ifru ifr) = 24%nat ->
  safe (dev_hwaddr name ifr dst 6) s (fun x s' => same s s' /\ zlen x.2 = zlen dst).
Proof.
  intros Hdst Hifr. unfold dev_hwaddr. apply safe_bind, safe_new; [apply fds_socket|].
  intros fd s0 F1 F2 [[-> Ek]|(Hpos & Hnew & Ek)]; [by apply safe_ret|].
  rewrite (proj2 (Z.eqb_neq fd (-1))) by lia. apply safe_bind, safe_kern; [apply fds_ioctl|].
  intros [r i] s1 (E1 & E2 & E3) Ex. rewrite F1 in E1. rewrite F2 in E2. rewrite Ek in E3.
  destruct (_ =? _); [by eapply safe_close_fd|].
  assert (length (ifr_ifru i) = 24%nat) as Hi.
  { replace i with (r, i).2 by done. rewrite Ex, ioctl_size. cbn. rewrite length_app, length_drop.
    unfold store16. destruct host_endian; cbn [length]; lia. }
  assert (zlen (sa_data i) = 14) as Hsa by (unfold sa_data, zlen; rewrite length_take, length_drop; lia).
  pose proof (length_memcpy dst 0 (sa_data i) 6) as Hlen.
  assert ((memcpy dst 0 (sa_data i) 6).2 = []) as Hu.
  { cbn [memcpy snd]. rewrite Hsa, (proj2 (Z.ltb_ge (zlen dst) _)) by lia. done. }
  destruct (memcpy dst 0 (sa_data i) 6) as [dst' u]. cbn in Hu, Hlen. subst u.
  apply safe_bind. split; [done|]. eapply safe_close_fd; [done..|]. intros s' Hs'. apply safe_ret.
  split; [done|]. cbn. unfold zlen in *. lia.
Qed.

End Raw.

(** ** Ownership of descriptors *)

Section Ownership.
Context {H : Host} {Ops P K : Type} `{KL : KernelLaws K}.
Context (junk : K -> ifreq) (Hjunk : forall k, length (ifr_ifru (junk k)) = 24%nat).

#[local] Instance RL : RawLayer (raws K) := raw_layer junk.
Abbreviation st := (eth Ops P (raws K)).
Implicit Types s : eth Ops P (raws K).

Definition eth_fds s : gset Z := fds (raw_kernel (eth_world s)).

(** Device [dev] is open: its raw device [r] has the object [q] with descriptor
    [fd]. *)
Definition owns s (dev : devid) (r : rawid) (q : privid) (fd : Z) : Prop := exists p d,
  eth_priv s !! dev = Some p /\ ep_raw p = Some r /\ raw_devs (eth_world s) !! r = Some d /\
  rd_priv d = Some q /\ raw_privs (eth_world s) !! q = Some fd.

(** Beside the descriptors [base], the open ones belong to one open device each. *)
Record owned (base : gset Z) s : Prop := {
  ow_open : forall dev, is_Some (eth_priv s !! dev) -> exists r q fd, owns s dev r q fd;
  ow_all : forall q fd, raw_privs (eth_world s) !! q = Some fd -> exists dev r, owns s dev r q fd;
  ow_unique : forall dev r q fd dev' r' q' fd', owns s dev r q fd -> owns s dev' r' q' fd' ->
    r = r' \/ q = q' \/ fd = fd' -> dev = dev';
  ow_new : forall q fd, raw_privs (eth_world s) !! q = Some fd -> 0 <= fd /\ fd ∉ base;
  ow_fds : forall fd, fd ∈ eth_fds s <-> fd ∈ base \/ exists q, raw_privs (eth_world s) !! q = Some fd
}.

(** Nothing changes for the descriptors. *)
Definition quiet s s' : Prop := same (eth_world s) (eth_world s') /\
  forall dev, ep_raw <$> eth_priv s' !! dev = ep_raw <$> eth_priv s !! dev.

Lemma quiet_owns s s' dev r q fd : quiet s s' -> owns s' dev r q fd <-> owns s dev r q fd.
Proof.
  intros [(E1 & E2 & _) Hp]. unfold owns. rewrite E1, E2. specialize (Hp dev).
  split; intros (p & d & Ep & Er & Hd & Hq & Hfd); rewrite Ep in Hp; cbn in Hp.
  - destruct (eth_priv s !! dev) as [p'|]; [|done]. injection Hp as Ep'. exists p', d. by rewrite <- Ep'.
  - destruct (eth_priv s' !! dev) as [p'|]; [|done]. injection Hp as Ep'. exists p', d. by rewrite Ep'.
Qed.

Lemma quiet_owned base s s' : quiet s s' -> owned base s -> owned base s'.
Proof.
  intros Hq [Ho Ha Hu Hn Hf]. pose proof Hq as [(E1 & E2 & E3) Hp]. split.
  - intros dev [p Hd]. destruct (Ho dev) as (r & q & fd & Hown).
    { specialize (Hp dev). rewrite Hd in Hp. by destruct (eth_priv s !! dev). }
    exists r, q, fd. by apply (quiet_owns s).
  - intros q fd. rewrite E2. intros Hl. destruct (Ha q fd Hl) as (dev & r & Hown). exists dev, r. by apply (quiet_owns s).
  - intros dev r q fd dev' r' q' fd' H1 H2. apply (quiet_owns s) in H1, H2; [|done..]. by eapply Hu.
  - rewrite E2. apply Hn.
  - unfold eth_fds. rewrite E2, E3. apply Hf.
Qed.

(** A device is opened: a new raw device with a new object and descriptor. *)
Definition opens s (dev : devid) s' : Prop := exists r d q fd p,
  (raw_devs (eth_world s) !! r = None /\ raw_devs (eth_world s') = <[r := d]> (raw_devs (eth_world s)) /\
   rd_priv d = Some q) /\
  (raw_privs (eth_world s) !! q = None /\ raw_privs (eth_world s') = <[q := fd]> (raw_privs (eth_world s))) /\
  (0 <= fd /\ fd ∉ eth_fds s /\ eth_fds s' = {[ fd ]} ∪ eth_fds s) /\
  eth_priv s' = <[dev := p]> (eth_priv s) /\ ep_raw p = Some r.

Lemma owns_fun s dev r q fd r' q' fd' : owns s dev r q fd -> owns s dev r' q' fd' -> r = r' /\ q = q' /\ fd = fd'.
Proof.
  intros (p & d & Ep & Er & Hd & Hq & Hfd) (p' & d' & Ep' & Er' & Hd' & Hq' & Hfd').
  rewrite Ep in Ep'. injection Ep' as <-. rewrite Er in Er'. injection Er' as <-. rewrite Hd in Hd'. injection Hd' as <-.
  rewrite Hq in Hq'. injection Hq' as <-. rewrite Hfd in Hfd'. by injection Hfd' as <-.
Qed.

Lemma opens_owned base s dev s' : eth_priv s !! dev = None -> opens s dev s' -> owned base s -> owned base s'.
Proof.
  intros Hnone (r & d & q & fd & p & (Hr & Er & Hd) & (Hq & Eq) & (Hpos & Hnew & Ef) & Ep & Epr) [Ho Ha Hu Hn Hf].
  assert (owns s' dev r q fd) as Hown.
  { exists p, d. rewrite Ep, Er, Eq, !lookup_insert_eq. done. }
  assert (forall dev' r' q' fd', owns s dev' r' q' fd' -> owns s' dev' r' q' fd' /\ r' <> r /\ q' <> q /\ fd' <> fd /\ dev' <> dev)
    as Hkeep.
  { intros dev' r' q' fd' (p' & d' & F1 & F2 & F3 & F4 & F5).
    assert (fd' <> fd) by (intros ->; apply Hnew, Hf; right; by exists q').
    split_and!; try congruence. exists p', d'. rewrite Ep, Er, Eq, !lookup_insert_ne by congruence. done. }
  assert (forall dev' r' q' fd', owns s' dev' r' q' fd' -> dev' <> dev -> owns s dev' r' q' fd') as Hback.
  { intros dev' r' q' fd' Ho' Hdev. pose proof Ho' as (p' & _ & F1 & _). rewrite Ep, lookup_insert_ne in F1 by done.
    destruct (Ho dev') as (r2 & q2 & fd2 & H2); [by exists p'|].
    destruct (owns_fun _ _ _ _ _ _ _ _ Ho' (proj1 (Hkeep _ _ _ _ H2))) as (-> & -> & ->). done. }
  split.
  - intros dev' Hs'. destruct (decide (dev' = dev)) as [->|Hdev]; [by exists r, q, fd|].
    rewrite Ep, lookup_insert_ne in Hs' by done. destruct (Ho dev' Hs') as (r2 & q2 & fd2 & H2).
    exists r2, q2, fd2. by apply Hkeep.
  - intros q' fd'. rewrite Eq. intros [[<- <-]|[Hne Hl]]%lookup_insert_Some; [by exists dev, r|].
    destruct (Ha q' fd' Hl) as (dev' & r' & H2). exists dev', r'. by apply Hkeep.
  - intros d1 r1 q1 f1 d2 r2 q2 f2 H1 H2 Heq.
    destruct (decide (d1 = dev)) as [->|N1], (decide (d2 = dev)) as [->|N2]; [done| | |].
    + destruct (owns_fun _ _ _ _ _ _ _ _ H1 Hown) as (-> & -> & ->).
      apply (Hback _ _ _ _ H2), Hkeep in N2. naive_solver.
    + destruct (owns_fun _ _ _ _ _ _ _ _ H2 Hown) as (-> & -> & ->).
      apply (Hback _ _ _ _ H1), Hkeep in N1. naive_solver.
    + apply (Hu d1 r1 q1 f1 d2 r2 q2 f2); auto.
  - intros q' fd'. rewrite Eq. intros [[<- <-]|[Hne Hl]]%lookup_insert_Some; [|by eapply Hn].
    split; [done|]. intros Hb. by apply Hnew, Hf; left.
  - intros fd'. rewrite Ef, Eq, elem_of_union, elem_of_singleton, Hf. split.
    + intros [->|[Hb|[q' Hl]]]; [right; exists q; apply lookup_insert_eq|by left|right]. exists q'.
      rewrite lookup_insert_ne; [done|congruence].
    + intros [Hb|[q' [[<- <-]|[_ Hl]]%lookup_insert_Some]]; [by right; left|by left|]. right. right. by exists q'.
Qed.

(** A device is closed. *)
Definition closes s (dev : devid) s' : Prop := exists r q fd, owns s dev r q fd /\
  raw_devs (eth_world s') = raw_devs (eth_world s) /\ raw_privs (eth_world s') = delete q (raw_privs (eth_world s)) /\
  eth_fds s' = eth_fds s ∖ {[ fd ]} /\ eth_priv s' = delete dev (eth_priv s).

Lemma closes_owned base s dev s' : closes s dev s' -> owned base s -> owned base s'.
Proof.
  intros (r & q & fd & Hown & Er & Eq & Ef & Ep) [Ho Ha Hu Hn Hf].
  assert (forall dev' r' q' fd', owns s' dev' r' q' fd' <-> owns s dev' r' q' fd' /\ dev' <> dev) as Hiff.
  { intros dev' r' q' fd'. unfold owns at 1. rewrite Ep, Er, Eq. split.
    - intros (p' & d' & [Hne F1]%lookup_delete_Some & F2 & F3 & F4 & [_ F5]%lookup_delete_Some).
      split; [by exists p', d'|done].
    - intros [H2 Hne]. assert (q <> q') as Hq by (intros <-; apply Hne; symmetry; eapply Hu; eauto).
      destruct H2 as (p' & d' & F1 & F2 & F3 & F4 & F5). exists p', d'. rewrite !lookup_delete_ne by congruence. done. }
  pose proof Hown as (_ & _ & _ & _ & _ & _ & Hqfd).
  split.
  - intros dev' Hs'. rewrite Ep in Hs'. destruct Hs' as [p' [Hne Hl]%lookup_delete_Some].
    destruct (Ho dev') as (r2 & q2 & fd2 & H2); [by eexists|]. exists r2, q2, fd2. by apply Hiff.
  - intros q' fd'. rewrite Eq. intros [Hne Hl]%lookup_delete_Some. destruct (Ha q' fd' Hl) as (dev' & r' & H2).
    exists dev', r'. apply Hiff. split; [done|]. intros ->. by destruct (owns_fun _ _ _ _ _ _ _ _ H2 Hown) as (_ & -> & _).
  - intros d1 r1 q1 f1 d2 r2 q2 f2 [H1 _]%Hiff [H2 _]%Hiff. by eapply Hu.
  - intros q' fd'. rewrite Eq. intros [_ Hl]%lookup_delete_Some. by eapply Hn.
  - intros fd'. rewrite Ef, Eq, elem_of_difference, elem_of_singleton, Hf. split.
    + intros [[Hb|[q' Hl]] Hne]; [by left|right]. exists q'. rewrite lookup_delete_ne; [done|congruence].
    + intros [Hb|[q' [Hne Hl]%lookup_delete_Some]].
      * split; [by left|]. intros ->. by apply (Hn q fd Hqfd).
      * split; [right; by exists q'|]. intros ->. destruct (Ha _ _ Hl) as (d2 & r2 & H2).
        assert (dev = d2) as <- by (eapply Hu; eauto).
        by destruct (owns_fun _ _ _ _ _ _ _ _ Hown H2) as (_ & -> & _).
Qed.

(** *** The operations *)

Lemma safe_mem_raw {A} (m : M (raws K) A) s (Q : A -> st -> Prop) :
  safe_mem m (eth_world s) (fun a w => Q a (set_eth_world w s)) -> safe_mem (raw m) s Q.
Proof.
  unfold safe_mem, safe, raw, zoom, rub, rval, rst. by destruct (m (eth_world s)) as [[a w] u].
Qed.

Lemma safe_raw {A} (m : M (raws K) A) s (Q : A -> st -> Prop) :
  safe m (eth_world s) (fun a w => Q a (set_eth_world w s)) -> safe (raw m) s Q.
Proof. unfold safe, raw, zoom, rub, rval, rst. by destruct (m (eth_world s)) as [[a w] u]. Qed.

Lemma rawdev_alloc_ok type nm (w : raws K) : safe (rawdev_alloc type nm) w (fun o w' => raw_privs w' = raw_privs w /\
  fds (raw_kernel w') = fds (raw_kernel w) /\
  match o with
  | None => raw_devs w' = raw_devs w
  | Some r => raw_devs w !! r = None /\ exists d, raw_devs w' = <[r := d]> (raw_devs w)
  end).
Proof.
  unfold rawdev_alloc. destruct (if _ : bool then Some TapOps else _) as [ops|]; [|by apply safe_ret].
  apply safe_bind, safe_kern; [apply fds_malloc|]. intros ok w1 (E1 & E2 & E3) _.
  destruct ok; [|by apply safe_ret]. apply safe_bind, safe_gets, safe_bind, safe_modify, safe_ret. cbn.
  rewrite E1. split_and!; try done; [|by eexists]. apply not_elem_of_dom, is_fresh.
Qed.

Lemma rawdev_free_ok r d (w : raws K) : raw_devs w !! r = Some d ->
  safe (rawdev_free r) w (fun _ w' => w' = set_raw_devs (delete r (raw_devs w)) w).
Proof. intros Hd. unfold rawdev_free, with_dev. apply safe_bind, safe_gets. rewrite Hd. by apply safe_modify. Qed.

(** Asking for the address, as [ethernet_open] does. *)
Lemma ops_addr_ok r ifr dst d (w : raws K) : raw_devs w !! r = Some d -> 6 <= zlen dst -> length (ifr_ifru ifr) = 24%nat ->
  safe (ops_addr r ifr dst 6) w (fun _ w' => same w w').
Proof.
  intros Hd Hdst Hifr. unfold ops_addr, with_dev. apply safe_bind, safe_gets. rewrite Hd.
  destruct (rd_ops d); (eapply safe_mono; [by apply dev_hwaddr_ok|]); by intros x w' [? _].
Qed.

(** The part of [ethernet_open] after the raw device is open. *)
Lemma safe_open_tail (dev : devid) r d dn (s : st) (Q : Z -> st -> Prop) :
  devtab (eth_net s) !! dev = Some dn -> 6 <= zlen (dev_addr dn) -> raw_devs (eth_world s) !! r = Some d ->
  (forall s', same (eth_world s) (eth_world s') -> eth_priv s' = eth_priv s -> Q 0 s') ->
  safe ((if memeq (dev_addr dn) ETHERNET_ADDR_ANY ETHERNET_ADDR_LEN then
           let* x := raw (raw_addr r (dev_addr dn)) in dev_mod dev (dev_set_addr x.2)
         else ret tt) ;;;
        dev_mod dev (fun d => dev_set_broadcast (addr_copy (dev_broadcast d) ETHERNET_ADDR_BROADCAST) d) ;;;
        ret 0) s Q.
Proof.
  intros Hdev Hlen Hr HQ. apply safe_bind. destruct (memeq _ _ _).
  - apply safe_bind, safe_raw. cbn [raw_addr RL raw_layer]. apply safe_bind. split; [done|].
    eapply safe_mono; [eapply ops_addr_ok; [exact Hr|exact Hlen|apply Hjunk]|].
    intros x w Hw. apply safe_modify, safe_bind, safe_modify, safe_ret. by apply HQ.
  - apply safe_ret, safe_bind, safe_modify, safe_ret. by apply HQ.
Qed.

Lemma ethernet_open_ok (dev : devid) opt s dn :
  devtab (eth_net s) !! dev = Some dn -> 6 <= zlen (dev_addr dn) ->
  safe_mem (ethernet_open dev opt) s (fun v s' => (v = -1 /\ quiet s s') \/ (v = 0 /\ opens s dev s')).
Proof.
  intros Hdev Hlen. unfold ethernet_open. apply safe_mem_bind, safe_mem_raw, safe_safe_mem.
  apply safe_kern; [apply fds_malloc|]. intros ok w1 Hw1 _.
  destruct ok; [|by apply safe_mem_ret; left]. cbn [negb].
  apply safe_mem_bind, safe_safe_mem, safe_gets. cbn [eth_net set_eth_world]. rewrite Hdev.
  apply safe_mem_bind, safe_mem_raw, safe_safe_mem. cbn [raw_alloc RL raw_layer eth_world set_eth_world].
  eapply safe_mono; [apply rawdev_alloc_ok|]. destruct Hw1 as (E1 & E2 & E3).
  intros [r|] w2 (F1 & F2 & F3); [|apply safe_mem_ret; left; split; [done|split; [|done]]; split_and!; cbn; congruence].
  destruct F3 as (Hr & d & F3). rewrite E1 in Hr, F3. rewrite E2 in F1. rewrite E3 in F2.
  apply safe_mem_bind, safe_mem_raw. cbn [raw_open RL raw_layer eth_world set_eth_world].
  apply safe_mem_bind, safe_safe_mem. split; [done|]. cbn [rval rst get fst snd].
  eapply safe_mem_mono; [apply (ops_open_ok _ _ _ d); rewrite F3; apply lookup_insert_eq|].
  intros v w3 (o & -> & Hdevs & _ & Ho). cbn [raw_privs raw_kernel set_raw_devs] in Ho.
  rewrite F3, alter_insert_eq in Hdevs. rewrite F1, F2 in Ho. apply safe_safe_mem. destruct o as [q|]; cbn [priv_result].
  - destruct Ho as (fd & Hq & Hpos & Hnew & Eq & Ef). cbn [Z.eqb]. apply safe_bind, safe_raw. apply safe_gets.
    apply safe_bind, safe_modify.
    eapply (safe_open_tail dev r); [exact Hdev|done|cbn; rewrite Hdevs; apply lookup_insert_eq|].
    cbn. intros s' (G1 & G2 & G3) G4. right. split; [done|]. exists r, (rd_set_priv (Some q) d), q, fd.
    eexists. unfold eth_fds. rewrite G1, G2, G3, G4. split_and!; done.
  - destruct Ho as [Eq Ef]. cbn [Z.eqb]. apply safe_bind, safe_raw. cbn [raw_free RL raw_layer eth_world set_eth_world].
    eapply safe_mono; [eapply rawdev_free_ok; rewrite Hdevs; apply lookup_insert_eq|]. intros _ w4 ->.
    apply safe_ret. left. split; [done|]. split; [|done]. split_and!; cbn; [|done..].
    by rewrite Hdevs, delete_insert_id.
Qed.

Lemma ops_close_ok r d q fd (w : raws K) : raw_devs w !! r = Some d -> rd_priv d = Some q -> raw_privs w !! q = Some fd ->
  fd <> -1 -> safe (ops_close r) w (fun _ w' => raw_devs w' = raw_devs w /\ raw_privs w' = delete q (raw_privs w) /\
    fds (raw_kernel w') = fds (raw_kernel w) ∖ {[ fd ]}).
Proof.
  intros Hd Hq Hfd Hne. unfold ops_close, with_dev. apply safe_bind, safe_gets. rewrite Hd.
  unfold tap_dev_close_wrap, soc_dev_close_wrap. rewrite Hq. destruct (rd_ops d); by apply dev_close_ok.
Qed.

Lemma ops_rx_ok r d q fd timeout (w : raws K) : raw_devs w !! r = Some d -> rd_priv d = Some q ->
  raw_privs w !! q = Some fd -> safe (ops_rx r timeout) w (fun _ w' => same w w').
Proof.
  intros Hd Hq Hfd. unfold ops_rx, with_dev. apply safe_bind, safe_gets. rewrite Hd.
  unfold tap_dev_rx_wrap, soc_dev_rx_wrap. rewrite Hq. destruct (rd_ops d); by eapply dev_rx_ok.
Qed.

Lemma ops_tx_ok r d q fd buf (w : raws K) : raw_devs w !! r = Some d -> rd_priv d = Some q ->
  raw_privs w !! q = Some fd -> safe (ops_tx_octets r buf) w (fun _ w' => same w w').
Proof.
  intros Hd Hq Hfd. unfold ops_tx_octets, with_dev. apply safe_bind, safe_gets. rewrite Hd.
  unfold tap_dev_tx_wrap, soc_dev_tx_wrap. rewrite Hq. destruct (rd_ops d); by eapply dev_tx_ok.
Qed.

Lemma quiet_refl s : quiet s s.
Proof. by split. Qed.

(** Joining the thread of a device, unless it is none. *)
Definition joinable s (t : option tid) : Prop := exists t', t = Some t' /\ t' ∈ k_threads (raw_kernel (eth_world s)).

Lemma safe_join t s (Q : unit -> st -> Prop) : joinable s t ->
  (forall w, same (eth_world s) w -> Q tt (set_eth_world w s)) -> safe (join_thread t) s Q.
Proof.
  intros (t' & -> & Ht) HQ. apply safe_raw, safe_bind. split; [done|]. apply safe_bind. split.
  - cbn. by rewrite bool_decide_true.
  - apply safe_kern; [apply fds_join|]. intros [] w Hw _. by apply HQ.
Qed.

(** The thread of the caller, which is that of a device that is not running. *)
Definition self_of s : tid := k_pthread_self (raw_kernel (eth_world s)).

Lemma ethernet_close_ok base dev s : owned base s ->
  (forall d p, dev = Some d -> eth_priv s !! d = Some p -> ep_thread p = Some (self_of s) \/ joinable s (ep_thread p)) ->
  safe (ethernet_close dev) s (fun _ s' => quiet s s' \/ exists d, dev = Some d /\ closes s d s').
Proof.
  intros Hs Hth. unfold ethernet_close. destruct dev as [dev|]; [|by apply safe_ret; left; apply quiet_refl].
  apply safe_bind, safe_gets. destruct (eth_priv s !! dev) as [p|] eqn:Ep; [|by apply safe_ret; left; apply quiet_refl].
  destruct (ow_open _ _ Hs dev) as (r & q & fd & Hown); [by exists p|].
  pose proof Hown as (p' & d & Ep' & Er & Hd & Hq & Hfd). rewrite Ep in Ep'. injection Ep' as <-.
  destruct (ow_new _ _ Hs q fd Hfd) as [Hpos _].
  apply safe_bind, safe_raw, safe_gets. apply safe_bind.
  assert (forall w m, same (eth_world s) w -> delete dev m = delete dev (eth_priv s) ->
    safe (match ep_raw p with Some r => raw (raw_close r) | None => ret tt end ;;; priv_set dev None ;;; ret 0)
      (set_eth_world w (set_eth_priv m s)) (fun _ s' => quiet s s' \/ exists d, Some dev = Some d /\ closes s d s')) as Htail.
  { intros w m (E1 & E2 & E3) Em. rewrite Er. apply safe_bind, safe_raw. cbn [raw_close RL raw_layer eth_world set_eth_world].
    eapply safe_mono; [eapply ops_close_ok; [by rewrite E1|done|by rewrite E2|lia]|].
    intros _ w' (F1 & F2 & F3). apply safe_bind, safe_modify, safe_ret. right. exists dev. split; [done|].
    exists r, q, fd. unfold eth_fds. cbn. rewrite F1, F2, F3, E1, E2, E3. done. }
  case_bool_decide as Ht.
  - apply safe_ret. specialize (Htail (eth_world s) (eth_priv s)). destruct s. by apply Htail.
  - destruct (Hth dev p eq_refl Ep) as [|Hj]; [done|]. apply safe_bind, safe_modify. apply safe_join; [exact Hj|]. intros w Hw.
    refine (Htail w (partial_alter (fun _ => Some (ep_set_terminate true p)) dev (eth_priv s)) Hw _).
    exact (delete_insert_eq (eth_priv s) dev (ep_set_terminate true p)).
Qed.

(** [priv_set] with the raw device kept. *)
Lemma quiet_priv s dev p w : eth_priv s !! dev = Some p -> forall p', ep_raw p' = ep_raw p -> same (eth_world s) w ->
  quiet s (set_eth_world w (set_eth_priv (partial_alter (fun _ => Some p') dev (eth_priv s)) s)).
Proof.
  intros Ep p' Er Hw. split; [done|]. intros dev'. cbn. destruct (decide (dev = dev')) as [<-|Hne].
  - rewrite lookup_partial_alter_eq, Ep. cbn. by rewrite Er.
  - by rewrite lookup_partial_alter_ne.
Qed.

Lemma ethernet_run_ok dev s p : eth_priv s !! dev = Some p -> safe (ethernet_run dev) s (fun _ s' => quiet s s').
Proof.
  intros Ep. unfold ethernet_run. apply safe_bind, safe_gets. rewrite Ep. apply safe_bind, safe_raw.
  apply safe_kern; [apply fds_create|]. intros t w Hw _. apply safe_bind, safe_modify.
  destruct t; apply safe_ret; exact (quiet_priv s dev p w Ep (ep_set_thread _ p) eq_refl Hw).
Qed.

Lemma ethernet_stop_ok dev s p : eth_priv s !! dev = Some p -> joinable s (ep_thread p) ->
  safe (ethernet_stop dev) s (fun _ s' => quiet s s').
Proof.
  intros Ep Hj. unfold ethernet_stop. apply safe_bind, safe_gets. rewrite Ep. apply safe_bind, safe_modify.
  apply safe_bind, safe_join; [exact Hj|]. intros w Hw.
  apply safe_bind, safe_raw, safe_gets, safe_bind, safe_modify, safe_ret. split; [done|].
  intros dev'. cbn. destruct (decide (dev = dev')) as [<-|Hne].
  - by rewrite lookup_partial_alter_eq, Ep.
  - by rewrite !lookup_partial_alter_ne.
Qed.

Lemma ethernet_tx_ok base dev type payload dst s d : owned base s -> is_Some (eth_priv s !! dev) ->
  devtab (eth_net s) !! dev = Some d -> 6 <= zlen dst ->
  safe (ethernet_tx dev type (Some payload) (zlen payload) (Some dst)) s (fun _ s' => quiet s s').
Proof.
  intros Hs Hp Hd Hdst. destruct (ow_open _ _ Hs dev Hp) as (r & q & fd & p & rd & Ep & Er & Hr & Hq & Hfd).
  unfold ethernet_tx. destruct (_ <? _); [by apply safe_ret|].
  apply safe_bind, safe_gets, safe_bind, safe_gets. rewrite Hd, Ep. cbn [mbind option_bind]. rewrite Er.
  rewrite (proj2 (Z.ltb_ge (zlen dst) 6)), Z.ltb_irrefl by done. apply safe_bind. split; [done|].
  apply safe_bind, safe_raw. cbn [raw_tx RL raw_layer eth_world set_eth_world].
  eapply safe_mono; [by eapply ops_tx_ok|]. intros v w Hw. by apply safe_ret.
Qed.

Lemma ethernet_rx_safe (d : netdev Ops) frame : (ethernet_rx d frame (zlen frame)).2 = [].
Proof.
  unfold ethernet_rx. destruct (Z.ltb_spec (zlen frame) ETHERNET_HDR_SIZE) as [|Hlen]; [done|].
  unfold ethernet_hdr_load. destruct (drop 12 frame) as [|t0 [|t1 l]] eqn:E.
  1-2: apply (f_equal length) in E; rewrite length_drop in E; unfold zlen, ETHERNET_HDR_SIZE in Hlen; cbn in E; lia.
  by destruct (_ && _).
Qed.

Lemma ethernet_rx_thread_ok base dev s d : owned base s -> is_Some (eth_priv s !! dev) ->
  devtab (eth_net s) !! dev = Some d -> safe (ethernet_rx_thread dev) s (fun _ s' => quiet s s').
Proof.
  intros Hs Hp Hd. destruct (ow_open _ _ Hs dev Hp) as (r & q & fd & p & rd & Ep & Er & Hr & Hq & Hfd).
  unfold ethernet_rx_thread. apply safe_bind, safe_gets. rewrite Ep. destruct (ep_terminate p); [by apply safe_ret|].
  rewrite Er. apply safe_bind, safe_raw. cbn [raw_rx RL raw_layer eth_world set_eth_world].
  eapply safe_mono; [by eapply ops_rx_ok|]. intros f w Hw. apply safe_bind, safe_gets.
  cbn [eth_net set_eth_world]. rewrite Hd. destruct f as [frame|]; [|by apply safe_ret].
  pose proof (ethernet_rx_safe d frame) as Hu. destruct (ethernet_rx d frame (zlen frame)) as [call u]. cbn in Hu. subst u.
  apply safe_bind. split; [done|]. by apply safe_ret.
Qed.

(** *** Threads *)

Context {KT : KernelThreads K}.

Definition thr s : gset tid * tid := threads_of (raw_kernel (eth_world s)).

(** Every thread of a device is that of the caller, for a device that is not running,
    or one that can be joined, and no two devices share it. *)
Record threaded s : Prop := {
  th_known : forall dev p t, eth_priv s !! dev = Some p -> ep_thread p = Some t -> t = (thr s).2 \/ t ∈ (thr s).1;
  th_unique : forall dev dev' p p' t, eth_priv s !! dev = Some p -> eth_priv s !! dev' = Some p' ->
    ep_thread p = Some t -> ep_thread p' = Some t -> t = (thr s).2 \/ dev = dev'
}.

Definition calm (w w' : raws K) : Prop := threads_of (raw_kernel w') = threads_of (raw_kernel w).

#[local] Instance calm_preorder : PreOrder calm.
Proof. split; [done|]. intros w1 w2 w3 H1 H2. unfold calm in *. congruence. Qed.

Lemma calm_kern {A} (f : K -> A * K) : (forall k, threads_of (f k).2 = threads_of k) -> respects calm (kern f).
Proof. intros Hf w. unfold calm, kern. specialize (Hf (raw_kernel w)). by destruct (f (raw_kernel w)). Qed.

Ltac calm :=
  repeat first
    [ apply (respects_bind calm); [|intros ?] | apply (respects_ret calm) | apply (respects_tell calm)
    | apply (respects_gets calm) | apply (respects_when calm)
    | apply calm_kern; intros ?;
      first [apply thr_malloc | apply thr_socket | apply thr_open | apply thr_close | apply thr_ioctl | apply thr_bind |
             apply thr_poll | apply thr_read | apply thr_write]
    | case_match | progress cbv zeta | (intros ?; reflexivity) ].

Lemma calm_close r : respects calm (ops_close r).
Proof. unfold ops_close, with_dev, tap_dev_close_wrap, soc_dev_close_wrap, soc_dev_close, tap_dev_close, dev_close, with_fd. calm. Qed.

Lemma calm_rx r timeout : respects calm (ops_rx r timeout).
Proof. unfold ops_rx, with_dev, tap_dev_rx_wrap, soc_dev_rx_wrap, soc_dev_rx, tap_dev_rx, dev_rx, with_fd. calm. Qed.

Lemma calm_tx r buf : respects calm (ops_tx_octets r buf).
Proof. unfold ops_tx_octets, with_dev, tap_dev_tx_wrap, soc_dev_tx_wrap, soc_dev_tx, tap_dev_tx, dev_tx_octets, with_fd. calm. Qed.

Lemma calm_addr r ifr dst size : respects calm (ops_addr r ifr dst size).
Proof. unfold ops_addr, with_dev, tap_dev_addr_wrap, soc_dev_addr_wrap, soc_dev_addr, tap_dev_addr, dev_hwaddr. calm. Qed.

Lemma calm_open r ifr : respects calm (ops_open r ifr).
Proof.
  unfold ops_open, with_dev, tap_dev_open_wrap, soc_dev_open_wrap, tap_dev_open, soc_dev_open, priv_new, dev_close, with_fd,
    rawdev_set_priv. calm.
Qed.

Lemma calm_alloc type nm : respects calm (rawdev_alloc type nm).
Proof. unfold rawdev_alloc. calm. Qed.

Lemma calm_free r : respects calm (rawdev_free r).
Proof. unfold rawdev_free, with_dev. calm. Qed.

(** No thread comes or goes, and a device keeps its thread, gets that of the caller, or
    is closed. *)
Definition eases s s' : Prop := thr s' = thr s /\ forall dev p', eth_priv s' !! dev = Some p' ->
  ep_thread p' = Some (thr s).2 \/ exists p, eth_priv s !! dev = Some p /\ ep_thread p' = ep_thread p.

#[local] Instance eases_preorder : PreOrder eases.
Proof.
  split.
  - intros s. split; [done|]. intros dev p Hp. right. by exists p.
  - intros s1 s2 s3 [E1 H1] [E2 H2]. split; [congruence|]. intros dev p3 H3.
    destruct (H2 _ _ H3) as [|(p2 & Hp2 & Ep)]; [left; congruence|].
    destruct (H1 _ _ Hp2) as [|(p1 & Hp1 & Ep')]; [left; congruence|]. right. exists p1. split; [done|congruence].
Qed.

Lemma eases_threaded s s' : eases s s' -> threaded s -> threaded s'.
Proof.
  intros [Et He] [Hk Hu]. split; rewrite Et.
  - intros dev p t Hp Ht. destruct (He _ _ Hp) as [E|(p0 & Hp0 & E)]; rewrite E in Ht; [left; congruence|]. by eapply Hk.
  - intros dev dev' p p' t Hp Hp' Ht Ht'. destruct (He _ _ Hp) as [E|(p0 & Hp0 & E)]; rewrite E in Ht; [left; congruence|].
    destruct (He _ _ Hp') as [E'|(p1 & Hp1 & E')]; rewrite E' in Ht'; [left; congruence|]. by eapply Hu.
Qed.

Lemma eases_raw {A} (m : M (raws K) A) : respects calm m -> respects eases (raw m).
Proof.
  intros Hm s. specialize (Hm (eth_world s)). unfold raw, zoom. destruct (m (eth_world s)) as [[a w] u]. cbn in *.
  split; [exact Hm|]. intros dev p Hp. right. by exists p.
Qed.

Lemma eases_net (f : st -> net Ops P) : respects eases (modify (fun s => set_eth_net (f s) s)).
Proof. intros s. split; [done|]. intros dev p Hp. right. by exists p. Qed.

Lemma eases_priv s dev o : (forall p', o = Some p' -> ep_thread p' = Some (thr s).2 \/
    exists p, eth_priv s !! dev = Some p /\ ep_thread p' = ep_thread p) -> eases s (rst (priv_set dev o s)).
Proof.
  intros Ho. split; [done|]. intros d p' Hp. cbn in Hp. destruct (decide (dev = d)) as [<-|Hne].
  - rewrite lookup_partial_alter_eq in Hp. by apply Ho.
  - rewrite lookup_partial_alter_ne in Hp by done. right. by exists p'.
Qed.

Lemma eases_self {A} dev (r : option rawid) (k : M st A) : respects eases k ->
  respects eases (let* self := raw pthread_self in priv_set dev (Some (EthernetPriv r (Some self) false)) ;;; k).
Proof.
  intros Hk s. rewrite rst_bind, rst_bind. etrans; [|apply Hk].
  exact (eases_priv s dev (Some (EthernetPriv r (Some (thr s).2) false)) (fun p' E => or_introl (f_equal (from_option ep_thread None) (eq_sym E)))).
Qed.

Ltac eases :=
  repeat first
    [ apply eases_self | apply (respects_bind eases); [|intros ?] | apply (respects_ret eases) | apply (respects_tell eases)
    | apply (respects_gets eases) | case_match | apply eases_net | progress cbv zeta
    | apply eases_raw; first [apply calm_close | apply calm_rx | apply calm_tx | apply calm_alloc | apply calm_free |
        (apply (respects_bind calm); [intros ?; reflexivity|intros ?]; first [apply calm_open | apply calm_addr]) |
        (apply calm_kern; intros ?; apply thr_malloc)] ].

Lemma ethernet_open_eases dev opt : respects eases (ethernet_open dev opt).
Proof. unfold ethernet_open. eases. Qed.

Lemma ethernet_tx_eases dev type payload plen dst : respects eases (ethernet_tx dev type payload plen dst).
Proof. unfold ethernet_tx. eases. Qed.

Lemma ethernet_rx_thread_eases dev : respects eases (ethernet_rx_thread dev).
Proof. unfold ethernet_rx_thread. eases. Qed.

(** The thread [t] of a device that runs is joined, and the device gives it up. *)
Lemma joined_threaded dev p t s s' : threaded s -> eth_priv s !! dev = Some p -> ep_thread p = Some t -> t <> (thr s).2 ->
  thr s' = ((thr s).1 ∖ {[ t ]}, (thr s).2) ->
  (forall d p', eth_priv s' !! d = Some p' -> ep_thread p' = Some (thr s).2 \/ d <> dev /\ eth_priv s !! d = Some p') ->
  threaded s'.
Proof.
  intros [Hk Hu] Hp Ht Hne Et He. split; rewrite Et; cbn [fst snd].
  - intros d p' t' Hp' Ht'. destruct (He _ _ Hp') as [E|[Hd E]]; [left; congruence|].
    destruct (Hk _ _ _ E Ht') as [|Hin]; [by left|right]. apply elem_of_difference. split; [done|].
    intros ->%elem_of_singleton. by destruct (Hu _ _ _ _ _ E Hp Ht' Ht).
  - intros d d' p1 p2 t' H1 H2 E1 E2. destruct (He _ _ H1) as [E|[_ F1]]; [left; congruence|].
    destruct (He _ _ H2) as [E|[_ F2]]; [left; congruence|]. by eapply Hu.
Qed.

Lemma join_thr t s : rst (join_thread (Some t) s)
  = set_eth_world (set_raw_kernel (k_pthread_join t (raw_kernel (eth_world s))) (eth_world s)) s.
Proof. unfold join_thread, raw, zoom, pthread_join, RL, raw_layer, mbind', kern, get, tell. cbn. by destruct s. Qed.

(** The end of [ethernet_close]. *)
Lemma close_tail (r : option rawid) dev s :
  let s' := rst ((match r with Some r => raw (raw_close r) | None => ret tt end ;;; priv_set dev None ;;; ret 0) s) in
  thr s' = thr s /\ eth_priv s' = delete dev (eth_priv s).
Proof.
  cbv zeta. rewrite !rst_bind. destruct r as [r|]; [|done]. cbn [raw_close RL raw_layer].
  pose proof (calm_close r (eth_world s)) as Hc. unfold raw, zoom. destruct (ops_close r (eth_world s)) as [[[] w] u].
  by split.
Qed.

Lemma ethernet_close_threaded dev s : threaded s ->
  (forall d p, dev = Some d -> eth_priv s !! d = Some p -> ep_thread p <> None) -> threaded (rst (ethernet_close dev s)).
Proof.
  intros Hs Hn. unfold ethernet_close. destruct dev as [dev|]; [|done]. rewrite rst_bind. cbn [priv_get gets rval rst fst snd].
  destruct (eth_priv s !! dev) as [p|] eqn:Ep; [|done]. specialize (Hn dev p eq_refl Ep). rewrite rst_bind.
  change (rval (raw pthread_self s)) with (thr s).2. assert (rst (raw pthread_self s) = s) as -> by (by destruct s).
  destruct (ep_thread p) as [t|] eqn:Et; [|done]. rewrite rst_bind. case_bool_decide as E.
  - destruct (close_tail (ep_raw p) dev s) as [E1 E2]. apply (eases_threaded s); [|done]. split; [exact E1|].
    intros d p' Hp. cbn [mret' rval rst fst snd] in Hp. rewrite E2 in Hp. apply lookup_delete_Some in Hp as [_ Hp]. right. by exists p'.
  - rewrite (rst_bind (priv_set _ _)), join_thr.
    match goal with |- threaded (rst (_ ?s1)) => destruct (close_tail (ep_raw p) dev s1) as [E1 E2] end.
    apply (joined_threaded dev p t s); try done; [congruence| |].
    + refine (eq_trans E1 _). unfold thr. cbn. apply thr_join.
    + intros d p' Hp. right. rewrite E2 in Hp. apply lookup_delete_Some in Hp as [Hd Hp]. cbn in Hp.
      rewrite lookup_partial_alter_ne in Hp by done. by split.
Qed.

Lemma ethernet_stop_threaded dev s p t : threaded s -> eth_priv s !! dev = Some p -> ep_thread p = Some t -> t <> (thr s).2 ->
  threaded (rst (ethernet_stop dev s)).
Proof.
  intros Hs Ep Et Hne. unfold ethernet_stop. rewrite rst_bind. cbn [priv_get gets rval rst fst snd]. rewrite Ep, Et.
  rewrite rst_bind, rst_bind, join_thr. apply (joined_threaded dev p t s); try done.
  - unfold thr. cbn. apply thr_join.
  - intros d p' Hp. cbn in Hp. destruct (decide (d = dev)) as [->|Hd].
    + rewrite lookup_partial_alter_eq in Hp. left. injection Hp as <-. cbn. f_equal.
      pose proof (thr_join t (raw_kernel (eth_world s))) as E. by apply (f_equal snd) in E.
    + rewrite !lookup_partial_alter_ne in Hp by done. by right.
Qed.

Lemma ethernet_run_threaded dev s p : threaded s -> eth_priv s !! dev = Some p -> threaded (rst (ethernet_run dev s)).
Proof.
  intros [Hk Hu] Ep. unfold ethernet_run. rewrite rst_bind. cbn [priv_get gets rval rst fst snd]. rewrite Ep, rst_bind.
  pose proof (thr_create (raw_kernel (eth_world s))) as Hc. unfold raw, zoom, pthread_create, RL, raw_layer, kern.
  destruct (k_pthread_create (raw_kernel (eth_world s))) as [o k]. cbn [fst snd rval rst] in *. rewrite rst_bind.
  assert (forall (m : M st Z) s1, (exists v, m = ret v) -> rst (m s1) = s1) as Hret by (by intros ? ? [v ->]).
  rewrite Hret by (destruct o; by eexists). clear Hret. set (s' := rst (priv_set _ _ _)).
  assert (thr s' = threads_of k) as Et by done.
  assert (forall d p', eth_priv s' !! d = Some p' -> (d = dev /\ ep_thread p' = o) \/ d <> dev /\ eth_priv s !! d = Some p') as He.
  { intros d p' Hp. subst s'. cbn in Hp. destruct (decide (d = dev)) as [->|Hd].
    - rewrite lookup_partial_alter_eq in Hp. injection Hp as <-. by left.
    - rewrite lookup_partial_alter_ne in Hp by done. by right. }
  assert ((thr s').2 = (thr s).2 /\ (thr s).1 ⊆ (thr s').1 /\ forall t, o = Some t -> t ∈ (thr s').1 /\ t ∉ (thr s).1 /\ t <> (thr s).2)
    as (E2 & Hsub & Ho).
  { rewrite Et. destruct o as [t|]; [destruct Hc as (N1 & N2 & ->)|rewrite Hc]; cbn; split_and!; try done; [set_solver|].
    intros t' [= <-]. set_solver. }
  split.
  - intros d p' t Hp Ht. rewrite E2. destruct (He _ _ Hp) as [[_ E]|[_ E]].
    + right. apply Ho. congruence.
    + destruct (Hk _ _ _ E Ht); [by left|right; auto].
  - intros d d' p1 p2 t H1 H2 T1 T2. rewrite E2. destruct (He _ _ H1) as [[-> F1]|[N1 F1]], (He _ _ H2) as [[-> F2]|[N2 F2]]; auto.
    + destruct (Ho t) as (_ & N3 & N4); [congruence|]. by destruct (Hk _ _ _ F2 T2).
    + destruct (Ho t) as (_ & N3 & N4); [congruence|]. by destruct (Hk _ _ _ F1 T1).
    + by eapply Hu.
Qed.

(** *** Theorem *)

(** The device has a receiving thread. *)
Definition has_thread s (dev : devid) : Prop := exists p t,
  eth_priv s !! dev = Some p /\ ep_thread p = Some t /\ t <> self_of s.

(** A call of an operation of the Ethernet devices, on a device of the registry
    whose address field is large enough.  A device is opened when it is not open,
    run when it does not run and stopped when it runs; an undefined event ends the
    run of the program. *)
Inductive dev_step : st -> st -> Prop :=
  | dev_open dev opt s d : devtab (eth_net s) !! dev = Some d -> 6 <= zlen (dev_addr d) -> eth_priv s !! dev = None ->
      rub (ethernet_open dev opt s) = [] -> dev_step s (rst (ethernet_open dev opt s))
  | dev_close_step dev s : rub (ethernet_close dev s) = [] -> dev_step s (rst (ethernet_close dev s))
  | dev_run dev s : is_Some (eth_priv s !! dev) -> ~ has_thread s dev -> dev_step s (rst (ethernet_run dev s))
  | dev_stop dev s : has_thread s dev -> dev_step s (rst (ethernet_stop dev s))
  | dev_tx_step dev type payload dst s d : devtab (eth_net s) !! dev = Some d -> is_Some (eth_priv s !! dev) ->
      6 <= zlen dst -> dev_step s (rst (ethernet_tx dev type (Some payload) (zlen payload) (Some dst) s))
  | dev_rx_step dev s d : devtab (eth_net s) !! dev = Some d -> is_Some (eth_priv s !! dev) ->
      dev_step s (rst (ethernet_rx_thread dev s)).

(** Closing is undefined exactly for a device whose thread is indeterminate. *)
Lemma close_undefined base dev s : owned base s -> threaded s -> rub (ethernet_close dev s) = [] <->
  forall d p, dev = Some d -> eth_priv s !! d = Some p -> ep_thread p <> None.
Proof.
  intros Hs Ht. split.
  - intros Hu d p -> Hp Hn. unfold ethernet_close in Hu. rewrite rub_bind in Hu. cbn [priv_get gets rval rst rub fst snd app] in Hu.
    rewrite Hp, rub_bind, rub_bind in Hu. rewrite Hn in Hu. cbn [bool_decide] in Hu. rewrite bool_decide_false in Hu by done.
    rewrite rub_bind in Hu. by destruct (rub (raw pthread_self s)).
  - intros Hn. apply (ethernet_close_ok base dev s Hs). intros d p Hd Hp. specialize (Hn d p Hd Hp).
    destruct (ep_thread p) as [t|] eqn:Et; [|done]. destruct (th_known _ Ht d p t Hp Et) as [->|Hin]; [by left|right].
    by exists t.
Qed.

Lemma running_joinable s dev p t : threaded s -> eth_priv s !! dev = Some p -> ep_thread p = Some t -> t <> self_of s ->
  joinable s (ep_thread p).
Proof. intros Hs Hp Et Hne. destruct (th_known _ Hs _ _ _ Hp Et) as [|Hin]; [done|]. by exists t. Qed.

Lemma dev_step_owned base s s' : dev_step s s' -> owned base s -> threaded s -> owned base s' /\ threaded s'.
Proof.
  intros Hstep Hs Ht. destruct Hstep as [dev opt s d Hd Hl Hp Hub|dev s Hub|dev s [p Hp] Hr|dev s (p & t & Hp & Et & Hne)|
    dev ty pl dst s d Hd Hp Hl|dev s d Hd Hp].
  - split; [|eapply eases_threaded; [apply ethernet_open_eases|done]].
    destruct (ethernet_open_ok dev opt s d Hd Hl) as [[? _]|[_ [[_ Hq]|[_ Ho]]]]; [done| |].
    + by eapply quiet_owned.
    + by eapply opens_owned.
  - rewrite (close_undefined base dev s Hs Ht) in Hub. split; [|by apply ethernet_close_threaded].
    destruct (ethernet_close_ok base dev s Hs) as [_ [Hq|(d & _ & Hc)]]; [|by eapply quiet_owned|by eapply closes_owned].
    intros d p Ed Hp. specialize (Hub d p Ed Hp). destruct (ep_thread p) as [t|] eqn:Et; [|done].
    destruct (th_known _ Ht d p t Hp Et) as [->|Hin]; [by left|right]. by exists t.
  - split; [|by eapply ethernet_run_threaded]. destruct (ethernet_run_ok dev s p Hp) as [_ Hq]. by eapply quiet_owned.
  - split; [|by eapply ethernet_stop_threaded]. destruct (ethernet_stop_ok dev s p Hp) as [_ Hq]; [|by eapply quiet_owned].
    by eapply running_joinable.
  - split; [|eapply eases_threaded; [apply ethernet_tx_eases|done]].
    destruct (ethernet_tx_ok base dev ty pl dst s d Hs Hp Hd Hl) as [_ Hq]. by eapply quiet_owned.
  - split; [|eapply eases_threaded; [apply ethernet_rx_thread_eases|done]].
    destruct (ethernet_rx_thread_ok base dev s d Hs Hp Hd) as [_ Hq]. by eapply quiet_owned.
Qed.

Lemma threaded_init s : eth_priv s = ∅ -> threaded s.
Proof. intros Ep. split; intros *; by rewrite Ep, lookup_empty. Qed.

(** Before any device is open. *)
Lemma owned_init s : eth_priv s = ∅ -> raw_privs (eth_world s) = ∅ -> owned (eth_fds s) s.
Proof.
  intros Ep Eq. split.
  - intros dev. rewrite Ep, lookup_empty. by intros [? ?].
  - intros q fd. by rewrite Eq, lookup_empty.
  - intros dev r q fd dev' r' q' fd' (p & d & Hp & _). by rewrite Ep, lookup_empty in Hp.
  - intros q fd. by rewrite Eq, lookup_empty.
  - intros fd. rewrite Eq. split; [by left|]. intros [?|[q Hq]]; [done|]. by rewrite lookup_empty in Hq.
Qed.

(** The descriptor of an open device. *)
Definition dev_fd s (dev : devid) : option Z :=
  p ← eth_priv s !! dev; r ← ep_raw p; d ← raw_devs (eth_world s) !! r; q ← rd_priv d; raw_privs (eth_world s) !! q.

Lemma dev_fd_owns s dev fd : dev_fd s dev = Some fd <-> exists r q, owns s dev r q fd.
Proof.
  unfold dev_fd, owns. split.
  - intros (p & Hp & (r & Hr & (d & Hd & (q & Hq & Hfd)%bind_Some)%bind_Some)%bind_Some)%bind_Some. by exists r, q, p, d.
  - intros (r & q & p & d & Ep & Er & Hd & Hq & Hfd). rewrite Ep. cbn. rewrite Er. cbn. rewrite Hd. cbn. by rewrite Hq.
Qed.

(** C4: descriptors are neither leaked, nor shared, nor used when closed.  Start a
    program with no device open and let it open, run, use, stop and close Ethernet
    devices over packet sockets and tap devices in any order (a device being opened
    when it is not open, run when it does not run and stopped when it runs), with any
    system call failing.  Then the open file descriptors are those of the start and
    exactly one for each open device, and two devices never have the same one.
    Stopping a device that runs is not undefined.  Closing a device is undefined
    exactly when its last call of [ethernet_run] has failed to create the thread: the
    field [thread] is indeterminate then, and [ethernet_close] joins it.  Opening is
    undefined only if [malloc] fails. *)
Theorem raw_descriptors s0 s : eth_priv s0 = ∅ -> raw_privs (eth_world s0) = ∅ -> rtc dev_step s0 s ->
  (forall fd, fd ∈ eth_fds s <-> fd ∈ eth_fds s0 \/ exists dev, dev_fd s dev = Some fd) /\
  (forall dev, is_Some (eth_priv s !! dev) -> exists fd, dev_fd s dev = Some fd /\ fd ∉ eth_fds s0) /\
  (forall dev dev' fd, dev_fd s dev = Some fd -> dev_fd s dev' = Some fd -> dev = dev') /\
  (forall dev, has_thread s dev -> rub (ethernet_stop dev s) = []) /\
  (forall dev, rub (ethernet_close dev s) = [] <->
     forall d p, dev = Some d -> eth_priv s !! d = Some p -> ep_thread p <> None) /\
  (forall dev opt d, devtab (eth_net s) !! dev = Some d -> 6 <= zlen (dev_addr d) ->
     rub (ethernet_open dev opt s) <> [] -> exists k : K, (k_malloc k).1 = false).
Proof.
  intros Ep Eq Hr. assert (owned (eth_fds s0) s /\ threaded s) as [Hs Ht].
  { generalize (owned_init s0 Ep Eq) (threaded_init s0 Ep). generalize (eth_fds s0). intros base. clear Ep Eq.
    induction Hr as [|s1 s2 s3 Hstep _ IH]; [done|]. intros H1 H2.
    destruct (dev_step_owned base s1 s2 Hstep H1 H2). by apply IH. }
  split_and!.
  - intros fd. rewrite (ow_fds _ _ Hs). f_equiv. split.
    + intros [q Hq]. destruct (ow_all _ _ Hs q fd Hq) as (dev & r & Ho). exists dev. apply dev_fd_owns. by exists r, q.
    + intros [dev (r & q & p & d & _ & _ & _ & _ & Hq)%dev_fd_owns]. by exists q.
  - intros dev Hp. destruct (ow_open _ _ Hs dev Hp) as (r & q & fd & Ho). exists fd. split; [apply dev_fd_owns; by exists r, q|].
    destruct Ho as (p & d & _ & _ & _ & _ & Hq). by apply (ow_new _ _ Hs q fd).
  - intros dev dev' fd (r & q & H1)%dev_fd_owns (r' & q' & H2)%dev_fd_owns. eapply (ow_unique _ _ Hs); [exact H1|exact H2|auto].
  - intros dev (p & t & Hp & Et & Hne). apply (ethernet_stop_ok dev s p Hp). by eapply running_joinable.
  - intros dev. by eapply close_undefined.
  - intros dev opt d Hd Hl Hub. by destruct (ethernet_open_ok dev opt s d Hd Hl) as [[_ ?]|[? _]].
Qed.

End Ownership.

(** ** Frames *)

(** What the kernel documents for packet sockets and tap devices.  A descriptor has
    frames waiting to be read, [pending], and frames that have been written,
    [sent].  More frames may come in during any call.  [poll] reports a waiting
    frame, a [read] takes one, cut to the size of the buffer, and a [write] that
    succeeds is one frame. *)
Class KernelFrames (K : Type) `{KN : Kernel K} := {
  pending : K -> Z -> list bytes;
  sent : K -> Z -> list bytes;
  poll_pending fd timeout k : pending k fd <> [] -> (k_poll fd POLLIN timeout k).1 = 1;
  poll_keeps fd timeout k : exists more, pending (k_poll fd POLLIN timeout k).2 fd = pending k fd ++ more;
  read_pending fd n k f fs : pending k fd = f :: fs ->
    (k_read fd n k).1 = (Z.min n (zlen f), take (Z.to_nat n) f) /\
    exists more, pending (k_read fd n k).2 fd = fs ++ more;
  write_sent fd buf k : (k_write fd buf k).1 = zlen buf -> sent (k_write fd buf k).2 fd = sent k fd ++ [buf]
}.

Section Frames.
Context {H : Host} {Ops P K : Type} `{KF : KernelFrames K}.
Context (junk : K -> ifreq).

#[local] Instance RL' : RawLayer (raws K) := raw_layer junk.
Abbreviation st := (eth Ops P (raws K)).
Implicit Types s : eth Ops P (raws K).

Definition eth_pending s (fd : Z) : list bytes := pending (raw_kernel (eth_world s)) fd.
Definition eth_sent s (fd : Z) : list bytes := sent (raw_kernel (eth_world s)) fd.

(** Turns of the loop of [ethernet_rx_thread]: the calls they lead to. *)
Fixpoint ethernet_rx_turns (n : nat) (dev : devid) : M st (list (option rx_call)) :=
  match n with
  | O => ret []
  | S n =>
      let* x := ethernet_rx_thread dev in
      if negb x.1 then ret [] else
      let* l := ethernet_rx_turns n dev in
      ret (x.2 :: l)
  end.

(** Send packets of types, one after the other. *)
Fixpoint ethernet_tx_all (dev : devid) (dst : bytes) (l : list (Z * bytes)) : M st (list Z) :=
  match l with
  | [] => ret []
  | (type, payload) :: l =>
      let* v := ethernet_tx dev type (Some payload) (zlen payload) (Some dst) in
      let* vs := ethernet_tx_all dev dst l in
      ret (v :: vs)
  end.

(** A device that is open and runs. *)
Record running s (dev : devid) (d : netdev Ops) (fd : Z) : Prop := {
  rn_owns : exists r q, owns s dev r q fd;
  rn_dev : devtab (eth_net s) !! dev = Some d;
  rn_go : forall p, eth_priv s !! dev = Some p -> ep_terminate p = false
}.

Lemma running_kernel s dev d fd k : running s dev d fd ->
  running (set_eth_world (set_raw_kernel k (eth_world s)) s) dev d fd.
Proof. by intros []. Qed.

Lemma ops_rx_frame r d q fd f fs timeout (w : raws K) : raw_devs w !! r = Some d -> rd_priv d = Some q ->
  raw_privs w !! q = Some fd -> pending (raw_kernel w) fd = f :: fs -> 0 < zlen f <= 2048 ->
  exists k more, ops_rx r timeout w = (Some f, set_raw_kernel k w, []) /\ pending k fd = fs ++ more.
Proof.
  intros Hd Hq Hfd Hp Hf. unfold ops_rx, with_dev. run. rewrite Hd.
  unfold tap_dev_rx_wrap, soc_dev_rx_wrap, tap_dev_rx, soc_dev_rx. rewrite Hq.
  assert (forall m : M (raws K) (option bytes), m = dev_rx (Some q) timeout ->
    exists k more, m w = (Some f, set_raw_kernel k w, []) /\ pending k fd = fs ++ more) as Hrx; [|by destruct (rd_ops d); apply Hrx].
  intros m ->. unfold dev_rx, with_fd. run. rewrite Hfd.
  pose proof (poll_pending fd timeout (raw_kernel w)) as E1. destruct (poll_keeps fd timeout (raw_kernel w)) as [m1 E2].
  unfold mbind', kern at 1. destruct (k_poll _ _ _ _) as [v k1]. cbn in E1, E2. rewrite E1 by (by rewrite Hp).
  cbn [Z.eqb orb]. rewrite Hp in E2. destruct (read_pending fd 2048 k1 f (fs ++ m1) E2) as [E3 [m2 E4]].
  unfold kern. cbn [raw_kernel set_raw_kernel]. destruct (k_read _ _ _) as [x k2]. cbn in E3, E4. subst x.
  rewrite Z.min_r by lia. rewrite (proj2 (Z.eqb_neq _ _)), (proj2 (Z.eqb_neq _ _)) by lia. cbn [orb].
  rewrite (take_ge f (Z.to_nat 2048)), take_ge by (unfold zlen in *; lia). exists k2, (m1 ++ m2). split; [done|].
  by rewrite E4, app_assoc.
Qed.

(** One turn takes the first pending frame. *)
Lemma rx_turn s dev d fd f fs : running s dev d fd -> eth_pending s fd = f :: fs -> 0 < zlen f <= 2048 ->
  exists k more, ethernet_rx_thread dev s
    = ((true, (ethernet_rx d f (zlen f)).1), set_eth_world (set_raw_kernel k (eth_world s)) s, []) /\
    pending k fd = fs ++ more.
Proof.
  intros [(r & q & p & rd & Ep & Er & Hr & Hq & Hfd) Hd Hgo] Hp Hf. unfold ethernet_rx_thread.
  run by (unfold priv_get, gets; by rewrite Ep). rewrite (Hgo p Ep), Er.
  destruct (ops_rx_frame r rd q fd f fs 1000 (eth_world s)) as (k & more & E & Hm); try done.
  exists k, more. split; [|done]. run by (unfold raw, zoom; cbn [raw_rx RL' raw_layer]; by rewrite E). run.
  cbn [eth_net set_eth_world]. rewrite Hd. pose proof (ethernet_rx_safe d f) as Hu.
  destruct (ethernet_rx d f (zlen f)) as [call u]. cbn in Hu. by subst u.
Qed.

Lemma rx_turns dev d fd fs : forall s rest, running s dev d fd -> eth_pending s fd = fs ++ rest ->
  Forall (fun f => 0 < zlen f <= 2048) fs ->
  exists k more, ethernet_rx_turns (length fs) dev s
    = (map (fun f => (ethernet_rx d f (zlen f)).1) fs, set_eth_world (set_raw_kernel k (eth_world s)) s, []) /\
    pending k fd = rest ++ more.
Proof.
  induction fs as [|f fs IH]; intros s rest Hs Hp Hall.
  - exists (raw_kernel (eth_world s)), []. rewrite app_nil_r. split; [|done]. by destruct s as [? ? []].
  - apply Forall_cons in Hall as [Hf Hall]. destruct (rx_turn s dev d fd f (fs ++ rest) Hs Hp Hf) as (k & m & E & Hk).
    cbn [length ethernet_rx_turns map]. run by exact E. cbn [fst snd negb].
    destruct (IH (set_eth_world (set_raw_kernel k (eth_world s)) s) (rest ++ m)) as (k' & m' & E' & Hk').
    + by apply running_kernel.
    + unfold eth_pending. cbn. by rewrite Hk, app_assoc.
    + done.
    + run by exact E'. exists k', (m ++ m'). rewrite Hk', app_assoc. done.
Qed.

(** One packet is one [write] of its frame. *)
Lemma ops_tx_frame r d q fd frame (w : raws K) : raw_devs w !! r = Some d -> rd_priv d = Some q -> raw_privs w !! q = Some fd ->
  let x := k_write fd frame (raw_kernel w) in ops_tx_octets r frame w = (x.1, set_raw_kernel x.2 w, []).
Proof.
  intros Hr Hq Hfd x. unfold ops_tx_octets, with_dev. run. rewrite Hr.
  unfold tap_dev_tx_wrap, soc_dev_tx_wrap, tap_dev_tx, soc_dev_tx. rewrite Hq.
  assert (dev_tx_octets (Some q) frame w = (x.1, set_raw_kernel x.2 w, [])) as E.
  { unfold dev_tx_octets, with_fd. run. rewrite Hfd. unfold kern. subst x. by destruct (k_write _ _ _). }
  by destruct (rd_ops d).
Qed.

Lemma tx_turn s dev d fd type payload dst : (exists r q, owns s dev r q fd) -> devtab (eth_net s) !! dev = Some d ->
  zlen payload <= ETHERNET_PAYLOAD_SIZE_MAX -> 6 <= zlen dst -> 6 <= zlen (dev_addr d) ->
  let frame := frame_of d type payload dst in
  let x := k_write fd frame (raw_kernel (eth_world s)) in
  ethernet_tx dev type (Some payload) (zlen payload) (Some dst) s
  = (if x.1 =? zlen frame then zlen payload else -1, set_eth_world (set_raw_kernel x.2 (eth_world s)) s, []).
Proof.
  intros (r & q & p & rd & Ep & Er & Hr & Hq & Hfd) Hd Hp Hdst Ha frame x.
  rewrite (ethernet_tx_frame _ _ _ _ _ d p r) by done. rewrite <- (zlen_frame d type payload dst) by done. fold frame.
  cbn [raw_tx RL' raw_layer]. by rewrite (ops_tx_frame r rd q fd).
Qed.

Lemma tx_turns dev d fd dst l : forall s, (exists r q, owns s dev r q fd) -> devtab (eth_net s) !! dev = Some d ->
  6 <= zlen dst -> 6 <= zlen (dev_addr d) -> Forall (fun x => zlen x.2 <= ETHERNET_PAYLOAD_SIZE_MAX) l ->
  (forall buf k, (k_write fd buf k).1 = zlen buf) ->
  exists k, ethernet_tx_all dev dst l s
    = (map (fun x => zlen x.2) l, set_eth_world (set_raw_kernel k (eth_world s)) s, []) /\
    sent k fd = eth_sent s fd ++ map (fun x => frame_of d x.1 x.2 dst) l.
Proof.
  induction l as [|[type payload] l IH]; intros s Ho Hd Hdst Ha Hall Hw.
  - exists (raw_kernel (eth_world s)). cbn. rewrite app_nil_r. split; [|done]. by destruct s as [? ? []].
  - apply Forall_cons in Hall as [Hp Hall]. cbn [ethernet_tx_all map fst snd].
    pose proof (tx_turn s dev d fd type payload dst Ho Hd Hp Hdst Ha) as E. cbv zeta in E. rewrite Hw, Z.eqb_refl in E.
    run by exact E. destruct (IH (set_eth_world (set_raw_kernel (k_write fd (frame_of d type payload dst)
      (raw_kernel (eth_world s))).2 (eth_world s)) s)) as (k & E' & Hk); try done.
    run by exact E'. exists k. split; [done|]. rewrite Hk. unfold eth_sent. cbn.
    by rewrite write_sent, <- app_assoc.
Qed.

(** C16: two hosts on one link.  Let [devA] be an open Ethernet device over a packet socket
    or a tap device whose kernel takes every frame.  Packets given to
    [ethernet_tx] one after the other are written as one frame each, in this
    order, and [ethernet_tx] returns their lengths.  When these frames arrive at an
    open device of another host with the destination address, its receiving
    thread passes them up in as many turns, in the same order, each with its
    packet, padded, and its type; frames that arrive meanwhile stay pending. *)
Theorem raw_link sA devA dA fdA sB devB dB fdB dst l rest :
  (exists r q, owns sA devA r q fdA) -> devtab (eth_net sA) !! devA = Some dA -> 6 <= zlen (dev_addr dA) ->
  (forall buf k, (k_write fdA buf k).1 = zlen buf) -> 6 <= zlen dst ->
  Forall (fun x => is_u16 x.1 /\ zlen x.2 <= ETHERNET_PAYLOAD_SIZE_MAX) l ->
  running sB devB dB fdB -> memeq (dev_addr dB) dst 6 = true ->
  exists sA' frames,
    ethernet_tx_all devA dst l sA = (map (fun x => zlen x.2) l, sA', []) /\
    eth_sent sA' fdA = eth_sent sA fdA ++ frames /\
    (eth_pending sB fdB = frames ++ rest -> exists sB' more,
      ethernet_rx_turns (length l) devB sB
      = (map (fun x => Some (RxCall (hton16 x.1) (padded x.2) (zlen (padded x.2)))) l, sB', []) /\
      eth_pending sB' fdB = rest ++ more).
Proof.
  intros Ho Hd Ha Hw Hdst Hall Hrun Hmine.
  assert (Forall (fun x => zlen x.2 <= ETHERNET_PAYLOAD_SIZE_MAX) l) as Hsmall by (eapply Forall_impl; [exact Hall|by intros x [_ ?]]).
  destruct (tx_turns devA dA fdA dst l sA Ho Hd Hdst Ha Hsmall Hw) as (k & E & Hk).
  eexists _, _. split; [exact E|]. split; [exact Hk|]. intros Hp.
  destruct (rx_turns devB dB fdB (map (fun x => frame_of dA x.1 x.2 dst) l) sB rest Hrun Hp) as (k' & more & E' & Hk').
  { apply Forall_fmap. eapply Forall_impl; [exact Hsmall|]. intros x Hx. cbn in *. rewrite zlen_frame by done.
    pose proof (zlen_nonneg x.2). change ETHERNET_PAYLOAD_SIZE_MAX with 1500 in Hx. unfold frame_len.
    change ETHERNET_PAYLOAD_SIZE_MIN with 46. unfold ETHERNET_HDR_SIZE. destruct (_ <? _) eqn:El; lia. }
  rewrite length_map in E'. exists (set_eth_world (set_raw_kernel k' (eth_world sB)) sB), more. split; [|exact Hk']. rewrite E', map_map. f_equal. f_equal.
  apply map_ext_in. intros x Hx%list_elem_of_In. apply (proj1 (Forall_forall _ _) Hall) in Hx as [Hx1 Hx2].
  rewrite zlen_frame, ethernet_rx_frame, Hmine by done. done.
Qed.

End Frames.

(** ** Example *)

(** A kernel with one table of descriptors, a queue of frames for each, and enough
    memory.  The lowest free descriptor is used. *)
Record sample_kernel := SampleKernel { sk_fds : gset Z; sk_in : list bytes; sk_out : list bytes; sk_threads : gset tid }.

Definition sk_new (k : sample_kernel) : Z * sample_kernel :=
  let fd := Z.of_N (fresh (set_map (C := gset Z) (D := gset N) Z.to_N (sk_fds k))) in
  (fd, SampleKernel ({[ fd ]} ∪ sk_fds k) (sk_in k) (sk_out k) (sk_threads k)).

#[local] Instance sample_kernel_calls : Kernel sample_kernel := {|
  k_malloc k := (true, k);
  k_socket _ _ _ k := sk_new k;
  k_open _ _ k := sk_new k;
  k_close fd k := SampleKernel (sk_fds k ∖ {[ fd ]}) (sk_in k) (sk_out k) (sk_threads k);
  k_ioctl _ _ ifr k := ((0, ifr), k);
  k_bind _ _ k := (0, k);
  k_poll _ _ _ k := (match sk_in k with [] => 0 | _ => 1 end, k);
  k_read _ n k := match sk_in k with
    | [] => ((0, []), k)
    | f :: fs => ((Z.min n (zlen f), take (Z.to_nat n) f), SampleKernel (sk_fds k) fs (sk_out k) (sk_threads k))
    end;
  k_write _ buf k := (zlen buf, SampleKernel (sk_fds k) (sk_in k) (sk_out k ++ [buf]) (sk_threads k));
  k_pthread_self _ := 0%nat;
  k_threads k := sk_threads k ∖ {[ 0%nat ]};
  k_pthread_create k :=
    let t := fresh ({[ 0%nat ]} ∪ sk_threads k) in
    (Some t, SampleKernel (sk_fds k) (sk_in k) (sk_out k) ({[ t ]} ∪ sk_threads k));
  k_pthread_join t k := SampleKernel (sk_fds k) (sk_in k) (sk_out k) (sk_threads k ∖ {[ t ]})
|}.

Lemma sk_new_fd k : new_fd (sk_fds k) (sk_new k).1 (sk_fds (sk_new k).2).
Proof.
  right. cbn. split_and!; [lia| |done]. intros Hin.
  apply (is_fresh (set_map (C := gset Z) (D := gset N) Z.to_N (sk_fds k))). apply elem_of_map.
  eexists. split; [|exact Hin]. by rewrite N2Z.id.
Qed.

#[local] Instance sample_kernel_laws : KernelLaws sample_kernel.
Proof.
  refine {| fds := sk_fds |}; try done; cbn.
  - intros. apply sk_new_fd.
  - intros. apply sk_new_fd.
  - intros x y k. by destruct (sk_in k).
Defined.

#[local] Instance sample_kernel_threads : KernelThreads sample_kernel.
Proof.
  split; try done.
  - set_solver.
  - intros x y k. cbn. by destruct (sk_in k).
  - intros k. cbn. pose proof (is_fresh ({[ 0%nat ]} ∪ sk_threads k)) as Hf.
    split; [set_solver|]. split; [set_solver|]. unfold threads_of. cbn. f_equal. set_solver.
  - intros t k. unfold threads_of. cbn. f_equal. set_solver.
Qed.

#[local] Instance sample_kernel_frames : KernelFrames sample_kernel.
Proof.
  refine {| pending k _ := sk_in k; sent k _ := sk_out k |}; cbn.
  - intros _ _ k. by destruct (sk_in k).
  - intros. exists []. by rewrite app_nil_r.
  - intros fd n k f fs E. cbn in E. rewrite E. split; [done|]. exists []. by rewrite app_nil_r.
  - done.
Defined.

Definition sample_name : list Z := str "tap0" ++ replicate 12 0.
Definition sample_ifreq (k : sample_kernel) : ifreq := Ifreq (replicate 16 0) (replicate 24 0).

Definition sample_eth (addr : bytes) (frames : list bytes) : eth unit unit (raws sample_kernel) :=
  Eth (Net [] [] [0%nat] {[ 0%nat := Netdev None sample_name 1 1500 1 14 6 addr [] (replicate 16 0) tt ]} ∅) ∅
    (Raws ∅ ∅ (SampleKernel {[ 0; 1; 2 ]} frames [] ∅)).

(** Opening and running the tap device takes one descriptor beside the standard ones, and
    it can be stopped and closed. *)
Lemma raw_descriptors_witness :
  let RL := raw_layer (H := LittleEndian) sample_ifreq in
  let s0 := sample_eth (replicate 16 7) [] in
  let s1 := rst (ethernet_open (RL := RL) 0%nat 0 s0) in
  let s := rst (ethernet_run (RL := RL) 0%nat s1) in
  eth_fds s = {[ 0; 1; 2; 3 ]} /\ (exists fd, dev_fd s 0%nat = Some fd /\ fd ∉ eth_fds s0) /\
  rub (ethernet_stop (RL := RL) 0%nat s) = [] /\ rub (ethernet_close (RL := RL) (Some 0%nat) s) = [].
Proof.
  intros RL s0 s1 s. split; [reflexivity|].
  destruct (raw_descriptors (H := LittleEndian) sample_ifreq (fun _ => eq_refl) s0 s) as (_ & E & _ & Es & Ec & _).
  - reflexivity.
  - reflexivity.
  - apply (rtc_l _ _ s1); [|apply rtc_once, dev_run].
    + apply (dev_open _ 0%nat 0 s0 (Netdev None sample_name 1 1500 1 14 6 (replicate 16 7) [] (replicate 16 0) tt)).
      * reflexivity.
      * by apply Z.leb_le.
      * reflexivity.
      * reflexivity.
    + by eexists.
    + intros (p & t & Hp & Et & Hne). vm_compute in Hp. injection Hp as <-. vm_compute in Et. injection Et as <-. by apply Hne.
  - split; [|split].
    + apply E. by eexists.
    + apply Es. exists (EthernetPriv (Some 0%nat) (Some 1%nat) false), 1%nat. split; [vm_compute; reflexivity|]. by split.
    + apply Ec. intros d p [= <-] Hp. vm_compute in Hp. by injection Hp as <-.
Defined.

(** A packet of three octets over the link. *)
Lemma raw_link_witness :
  let open s := rst (ethernet_open (RL := raw_layer (H := LittleEndian) sample_ifreq) 0%nat 0 s) in
  let a := [2; 0; 0; 0; 0; 1] ++ replicate 10 0 in
  let b := [2; 0; 0; 0; 0; 2] ++ replicate 10 0 in
  let sA := open (sample_eth a []) in
  let frame := frame_of (H := LittleEndian) (Netdev None sample_name 1 1500 1 14 6 a [] (replicate 16 0) tt) ETHERNET_TYPE_IP [1; 2; 3]
                 [2; 0; 0; 0; 0; 2] in
  let sB := open (sample_eth b [frame]) in
  exists sB', ethernet_rx_turns (H := LittleEndian) sample_ifreq 1 0%nat sB
    = ([Some (RxCall (hton16 (H := LittleEndian) ETHERNET_TYPE_IP) ([1; 2; 3] ++ replicate 43 0) 46)], sB', []).
Proof.
  intros open a b sA frame sB.
  destruct (raw_link (H := LittleEndian) sample_ifreq sA 0%nat
    (Netdev None sample_name 1 1500 1 14 6 a [] ([255; 255; 255; 255; 255; 255] ++ replicate 10 0) tt) 3
    sB 0%nat (Netdev None sample_name 1 1500 1 14 6 b [] ([255; 255; 255; 255; 255; 255] ++ replicate 10 0) tt) 3
    [2; 0; 0; 0; 0; 2] [(ETHERNET_TYPE_IP, [1; 2; 3])] []) as (sA' & frames & E & Hs & Hrx).
  - exists 0%nat, 0%nat. eexists _, _. split_and!; reflexivity.
  - reflexivity.
  - by apply Z.leb_le.
  - reflexivity.
  - by apply Z.leb_le.
  - repeat constructor; by apply Z.leb_le.
  - split; [|reflexivity|].
    + exists 0%nat, 0%nat. eexists _, _. split_and!; reflexivity.
    + intros p Hp. vm_compute in Hp. by injection Hp as <-.
  - reflexivity.
  - assert (frames = [frame]) as ->.
    { vm_compute in E. injection E as <-. vm_compute in Hs. rewrite <- Hs. reflexivity. }
    destruct (Hrx eq_refl) as (sB' & more & E' & _). exists sB'. exact E'.
Defined.
