(* ===== verification/IpFragment.v ===== *)
(** * IP headers and the reassembly of fragments (src/ip.h, src/ip.c lines 13-238)

    Fragment objects are allocated on a heap and linked from the global
    [fragments]; the list of locations is the chain of [next] pointers.  The
    static variables of [ip_fragment_process] are part of the state.  Its mutex
    makes each call one step; every path of the source releases it. *)

From S2P Require Import Prelude Endian Cksum Mask Queue.

(** ** Data *)

Definition IP_FRAGMENT_TIMEOUT_SEC : Z := 30.
Definition IP_FRAGMENT_NUM_MAX : Z := 8.
Definition IP_VERSION_IPV4 : Z := 4.
Definition IP_HDR_SIZE_MIN : Z := 20.
Definition IP_HDR_SIZE_MAX : Z := 60.

(** [struct ip_hdr] as the host reads it: 16- and 32-bit fields in host order of
    their memory. *)
Record ip_hdr := IpHdr {
  ih_vhl : Z; ih_tos : Z; ih_len : Z; ih_id : Z; ih_offset : Z;
  ih_ttl : Z; ih_protocol : Z; ih_sum : Z; ih_src : Z; ih_dst : Z
}.

(** [struct ip_fragment], less its link. *)
Record ip_fragment := IpFragment {
  fr_src : Z; fr_dst : Z; fr_id : Z; fr_protocol : Z; fr_len : Z;
  fr_data : bytes; fr_mask : list Z; fr_timestamp : Z
}.

Definition FRAG_DATA_SIZE : Z := 65535.
Definition FRAG_MASK_WORDS : Z := 2048.

(** What [malloc] returns for a fragment object: a location, the uninitialised contents,
    and the words behind the block that belong to no other object (and not to the
    allocator).  In memory the mask is followed by the time stamp, two words, with
    which the block ends, and these words. *)
Record frag_block := FragBlock { fb_loc : loc; fb_junk : ip_fragment; fb_spare : list Z }.

(** The part of the layer's state that reassembly uses. *)
Record frags := Frags {
  fragments : list loc;                  (** the chain from [fragments] *)
  frag_heap : gmap loc ip_fragment;      (** the allocated objects *)
  frag_timestamp : Z;                    (** [static time_t timestamp] *)
  frag_count : Z                         (** [static size_t count] *)
}.

Definition frags_init : frags := Frags [] ∅ 0 0.

Definition set_fragments l (s : frags) := Frags l (frag_heap s) (frag_timestamp s) (frag_count s).
Definition set_frag_heap h (s : frags) := Frags (fragments s) h (frag_timestamp s) (frag_count s).
Definition set_frag_count c (s : frags) := Frags (fragments s) (frag_heap s) (frag_timestamp s) c.

Section Fragment.
Context {H : Host}.

Definition ip_hdr_load (b : bytes) : option ip_hdr :=
  match b with
  | vhl :: tos :: l0 :: l1 :: i0 :: i1 :: o0 :: o1 :: ttl :: pr :: c0 :: c1
    :: s0 :: s1 :: s2 :: s3 :: d0 :: d1 :: d2 :: d3 :: _ =>
      Some (IpHdr vhl tos (load16 l0 l1) (load16 i0 i1) (load16 o0 o1) ttl pr
              (load16 c0 c1) (load32 s0 s1 s2 s3) (load32 d0 d1 d2 d3))
  | _ => None
  end.

Definition ip_hdr_store (h : ip_hdr) : bytes :=
  [ih_vhl h; ih_tos h] ++ store16 (ih_len h) ++ store16 (ih_id h) ++ store16 (ih_offset h)
  ++ [ih_ttl h; ih_protocol h] ++ store16 (ih_sum h) ++ store32 (ih_src h) ++ store32 (ih_dst h).

(** ** The code *)

(** [time_t] in memory. *)
Definition time_words (t : Z) : list Z := [u32 t; u32 (Z.shiftr t 32)].

(** [m] is the result of [malloc].  The mask is cleared with
    [maskclr(new_fragment->mask, sizeof(new_fragment->mask))]: the second argument
    counts words, [sizeof] counts octets, so four times the size of the mask is
    cleared: the mask, the time stamp and 6142 words behind the block.  When these
    are in use by something else the write is out of bounds. *)
Definition ip_fragment_alloc (hdr : ip_hdr) (m : option frag_block) : M frags (option loc) :=
  match m with
  | None => ret None
  | Some (FragBlock l junk spare) =>
      let '(_, words, u) := maskclr (4 * FRAG_MASK_WORDS) (fr_mask junk ++ time_words (fr_timestamp junk) ++ spare) in
      tell u ;;;
      modify (fun s => set_frag_heap (<[l := IpFragment (ih_src hdr) (ih_dst hdr) (ih_id hdr)
                (ih_protocol hdr) 0 (replicate (length (fr_data junk)) 0) (take (length (fr_mask junk)) words)
                0]> (frag_heap s)) s) ;;;
      modify (fun s => set_fragments (l :: fragments s) s) ;;;
      ret (Some l)
  end.

Definition ip_fragment_free (l : loc) : M frags unit := fun s =>
  (tt, set_frag_heap (delete l (frag_heap s)) s,
   match frag_heap s !! l with Some _ => [] | None => [UseAfterFree] end).

(** Unlink [fragment]; null when it is not in the list. *)
Definition ip_fragment_detach (fragment : loc) : M frags (option loc) :=
  let* s := get in
  if bool_decide (fragment ∈ fragments s) then
    modify (set_fragments (List.filter (fun l => bool_decide (l <> fragment)) (fragments s))) ;;;
    ret (Some fragment)
  else ret None.

Definition frag_matches (hdr : ip_hdr) (f : ip_fragment) : bool :=
  (fr_src f =? ih_src hdr) && (fr_dst f =? ih_dst hdr) &&
  (fr_id f =? ih_id hdr) && (fr_protocol f =? ih_protocol hdr).

Fixpoint search_from (hdr : ip_hdr) (h : gmap loc ip_fragment) (ls : list loc) : option loc * list ub :=
  match ls with
  | [] => (None, [])
  | l :: ls =>
      match h !! l with
      | None => (None, [UseAfterFree])
      | Some f => if frag_matches hdr f then (Some l, []) else search_from hdr h ls
      end
  end.

Definition ip_fragment_search (hdr : ip_hdr) : M frags (option loc) := fun s =>
  let '(r, u) := search_from hdr (frag_heap s) (fragments s) in (r, s, u).

(** The walk of [ip_fragment_patrol]: [kept] are the entries passed over, [rest]
    starts at [entry].  For an expired entry the source advances [entry] before
    it calls [free(entry)], so the block released is the next one, which stays
    linked; the walk stops when it would read a released block. *)
Fixpoint patrol (now : Z) (kept rest : list loc) (h : gmap loc ip_fragment) (count : Z)
  : list loc * gmap loc ip_fragment * Z * list ub :=
  match rest with
  | [] => (kept, h, count, [])
  | e :: rest' =>
      match h !! e with
      | None => (kept ++ rest, h, count, [UseAfterFree])
      | Some f =>
          if IP_FRAGMENT_TIMEOUT_SEC <? now - fr_timestamp f then
            match rest' with
            | [] => (kept, h, count + 1, [])
            | n :: _ => patrol now kept rest' (delete n h) (count + 1)
            end
          else patrol now (kept ++ [e]) rest' h count
      end
  end.

Definition ip_fragment_patrol (now : Z) : M frags Z := fun s =>
  let '(ls, h, count, u) := patrol now [] (fragments s) (frag_heap s) 0 in
  (count, set_frag_heap h (set_fragments ls s), u).

Definition frag_set_data d (f : ip_fragment) :=
  IpFragment (fr_src f) (fr_dst f) (fr_id f) (fr_protocol f) (fr_len f) d (fr_mask f) (fr_timestamp f).
Definition frag_set_mask m (f : ip_fragment) :=
  IpFragment (fr_src f) (fr_dst f) (fr_id f) (fr_protocol f) (fr_len f) (fr_data f) m (fr_timestamp f).
Definition frag_set_len n (f : ip_fragment) :=
  IpFragment (fr_src f) (fr_dst f) (fr_id f) (fr_protocol f) n (fr_data f) (fr_mask f) (fr_timestamp f).
Definition frag_set_timestamp t (f : ip_fragment) :=
  IpFragment (fr_src f) (fr_dst f) (fr_id f) (fr_protocol f) (fr_len f) (fr_data f) (fr_mask f) t.

(** Lines 212-219: copy the data, mark it, note the length of the datagram. *)
Definition frag_store (hdr : ip_hdr) (payload : bytes) (plen now : Z) (f : ip_fragment)
  : ip_fragment * list ub :=
  let off := u16 (Z.shiftl (Z.land (ntoh16 (ih_offset hdr)) 8191) 3) in
  let '(data, u1) := memcpy (fr_data f) off payload plen in
  let '(_, mask, u2) := maskset off plen (fr_mask f) in
  let f := frag_set_mask mask (frag_set_data data f) in
  let last := Z.land (ntoh16 (ih_offset hdr)) 8192 =? 0 in
  let f := frag_set_len (if last then u16 (off + plen) else fr_len f) f in
  (frag_set_timestamp now f, u1 ++ u2).

(** Lines 194-210: find or create the fragment object. *)
Definition frag_find (hdr : ip_hdr) (m : option frag_block) : M frags (option loc) :=
  let* found := ip_fragment_search hdr in
  match found with
  | Some l => ret (Some l)
  | None =>
      let* count := gets frag_count in
      if IP_FRAGMENT_NUM_MAX <=? count then ret None else
      let* fragment := ip_fragment_alloc hdr m in
      match fragment with
      | None => ret None
      | Some l => modify (fun s => set_frag_count (u64 (frag_count s + 1)) s) ;;; ret (Some l)
      end
  end.

(** Lines 212-237: record the fragment in its object, and detach the object when
    the datagram is complete. *)
Definition frag_update (l : loc) (hdr : ip_hdr) (payload : bytes) (plen now : Z) : M frags (option loc) :=
  let* h := gets frag_heap in
  match h !! l with
  | None => tell [UseAfterFree] ;;; ret None
  | Some f =>
      let '(f, u) := frag_store hdr payload plen now f in
      tell u ;;;
      modify (fun s => set_frag_heap (<[l := f]> (frag_heap s)) s) ;;;
      if negb (nz (fr_len f)) then ret None else
      let '(complete, _, u) := maskchk 0 (fr_len f) (fr_mask f) in
      tell u ;;;
      if negb (nz complete) then ret None else
      ip_fragment_detach l ;;;
      modify (fun s => set_frag_count (u64 (frag_count s - 1)) s) ;;;
      ret (Some l)
  end.

(** [t1], [t2], [t3] are the three readings of the clock: the timeout check, the
    patrol and the time stamp.  The result is the completed, detached fragment. *)
Definition ip_fragment_process (hdr : ip_hdr) (payload : bytes) (plen : Z)
    (t1 t2 t3 : Z) (m : option frag_block) : M frags (option loc) :=
  let* stamp := gets frag_timestamp in
  when (10 <? t1 - stamp) (ip_fragment_patrol t2 ;;; ret tt) ;;;
  let* fragment := frag_find hdr m in
  match fragment with
  | None => ret None
  | Some l => frag_update l hdr payload plen t3
  end.

(** ** Lemmas *)

Lemma memcpy_ok dst off src n : 0 <= off -> 0 <= n -> off + n <= zlen dst -> n <= zlen src ->
  memcpy dst off src n
  = (take (Z.to_nat off) dst ++ take (Z.to_nat n) src ++ drop (Z.to_nat (off + n)) dst, []).
Proof.
  intros. unfold memcpy. rewrite Z.min_l by lia. rewrite !(proj2 (Z.ltb_ge _ _)) by lia.
  assert (length (take (Z.to_nat n) src) = Z.to_nat n) as Hl by (rewrite length_take; unfold zlen in *; lia).
  rewrite (take_ge (take (Z.to_nat n) src)) by (rewrite Hl; lia). rewrite Hl.
  by replace (Z.to_nat (off + n)) with (Z.to_nat off + Z.to_nat n)%nat by lia.
Qed.

Lemma splice_lookup (dst src : bytes) off n i :
  0 <= off -> 0 <= n -> off + n <= zlen dst -> n <= zlen src -> 0 <= i ->
  (take (Z.to_nat off) dst ++ take (Z.to_nat n) src ++ drop (Z.to_nat (off + n)) dst) !! Z.to_nat i
  = if in_range off n i then src !! Z.to_nat (i - off) else dst !! Z.to_nat i.
Proof.
  intros. unfold zlen, in_range in *.
  assert (length (take (Z.to_nat off) dst) = Z.to_nat off) as L1 by (rewrite length_take; lia).
  assert (length (take (Z.to_nat n) src) = Z.to_nat n) as L2 by (rewrite length_take; lia).
  destruct (decide (i < off)) as [?|?].
  - rewrite lookup_app_l, lookup_take_lt by lia.
    by assert ((off <=? i) && (i <? off + n) = false) as -> by lia.
  - rewrite lookup_app_r, L1 by lia. destruct (decide (i < off + n)).
    + rewrite lookup_app_l, lookup_take_lt by lia.
      assert ((off <=? i) && (i <? off + n) = true) as -> by lia. f_equal. lia.
    + rewrite lookup_app_r, L2, lookup_drop by lia.
      assert ((off <=? i) && (i <? off + n) = false) as -> by lia. f_equal. lia.
Qed.

Lemma splice_length (dst src : bytes) off n :
  0 <= off -> 0 <= n -> off + n <= zlen dst -> n <= zlen src ->
  zlen (take (Z.to_nat off) dst ++ take (Z.to_nat n) src ++ drop (Z.to_nat (off + n)) dst) = zlen dst.
Proof. intros. unfold zlen in *. rewrite !length_app, !length_take, length_drop. lia. Qed.

(** *** Fragments of a datagram *)

(** A fragment carries the octets [o .. o + n - 1] of the datagram [p]. *)
Definition piece : Type := Z * Z.

Definition piece_ok (p : bytes) (x : piece) : Prop :=
  0 <= x.1 /\ 0 < x.2 /\ x.1 + x.2 <= zlen p /\ x.1 mod 8 = 0.

Definition covered (ps : list piece) (i : Z) : bool :=
  existsb (fun x => in_range x.1 x.2 i) ps.

Definition covers (p : bytes) (ps : list piece) : Prop :=
  forall i, 0 <= i < zlen p -> covered ps i = true.

(** Some fragment of [ps] is the last one of the datagram. *)
Definition has_last (p : bytes) (ps : list piece) : bool :=
  existsb (fun x => x.1 + x.2 =? zlen p) ps.

(** The offset field of a fragment, in host order. *)
Definition offset_field (p : bytes) (x : piece) : Z :=
  Z.lor (if x.1 + x.2 <? zlen p then 8192 else 0) (Z.land (Z.shiftr x.1 3) 8191).

Lemma offset_field_off p x : piece_ok p x -> zlen p <= 65535 ->
  u16 (Z.shiftl (Z.land (offset_field p x) 8191) 3) = x.1.
Proof.
  intros (H0 & H1 & H2 & H3) Hp. unfold offset_field.
  rewrite Z.land_lor_distr_l, <- Z.land_assoc, Z.land_diag.
  assert (Z.land (if x.1 + x.2 <? zlen p then 8192 else 0) 8191 = 0) as -> by (by case_match).
  rewrite Z.lor_0_l. change 8191 with (2 ^ 13 - 1). rewrite land_ones_mod by lia.
  rewrite Z.shiftr_div_pow2, Z.shiftl_mul_pow2 by lia. wrap_lia.
Qed.

Lemma offset_field_more p x : piece_ok p x -> zlen p <= 65535 ->
  (Z.land (offset_field p x) 8192 =? 0) = (x.1 + x.2 =? zlen p).
Proof.
  intros (H0 & H1 & H2 & H3) Hp. unfold offset_field.
  rewrite Z.land_lor_distr_l, <- Z.land_assoc. change (Z.land 8191 8192) with 0.
  rewrite Z.land_0_r, Z.lor_0_r. destruct (Z.ltb_spec (x.1 + x.2) (zlen p));
    symmetry; [apply Z.eqb_neq | apply Z.eqb_eq]; lia.
Qed.

Lemma offset_field_u16 p x : 0 <= x.1 -> is_u16 (offset_field p x).
Proof.
  intros. unfold offset_field. change 8191 with (2 ^ 13 - 1). rewrite land_ones_mod by lia.
  change (2 ^ 13) with 8192. pose proof (Z.mod_pos_bound (Z.shiftr x.1 3) 8192 ltac:(lia)).
  case_match; [|rewrite Z.lor_0_l; unfold is_u16; lia].
  set (y := _ mod 8192) in *. pose proof (lor_disjoint_add y 1 13 ltac:(lia) ltac:(lia)) as E.
  change (1 * 2 ^ 13) with 8192 in E. rewrite Z.lor_comm, E. unfold is_u16. lia.
Qed.

(** What the object of a partially received datagram holds. *)
Record frag_inv (p : bytes) (ps : list piece) (f : ip_fragment) : Prop := {
  fi_data_len : zlen (fr_data f) = FRAG_DATA_SIZE;
  fi_mask_len : zlen (fr_mask f) = FRAG_MASK_WORDS;
  fi_mask_wf : mask_wf (fr_mask f);
  fi_mask : forall i, 0 <= i -> mbit (fr_mask f) i = covered ps i;
  fi_data : forall i, 0 <= i -> covered ps i = true -> fr_data f !! Z.to_nat i = p !! Z.to_nat i;
  fi_len : fr_len f = if has_last p ps then zlen p else 0
}.

Lemma frag_store_inv p ps f hdr x pad now :
  zlen p <= FRAG_DATA_SIZE -> piece_ok p x -> frag_inv p ps f ->
  ntoh16 (ih_offset hdr) = offset_field p x ->
  exists f', frag_store hdr (take (Z.to_nat x.2) (drop (Z.to_nat x.1) p) ++ pad) x.2 now f = (f', []) /\
    frag_inv p (x :: ps) f' /\ fr_timestamp f' = now /\
    (fr_src f', fr_dst f', fr_id f', fr_protocol f') = (fr_src f, fr_dst f, fr_id f, fr_protocol f).
Proof.
  intros Hp Hx [Hdl Hml Hmw Hm Hd Hl] Ho. unfold frag_store. rewrite Ho.
  unfold FRAG_DATA_SIZE, FRAG_MASK_WORDS in *.
  rewrite offset_field_off, offset_field_more by done.
  destruct Hx as (Hx0 & Hx1 & Hx2 & Hx3).
  set (src := take _ _ ++ pad).
  assert (x.2 <= zlen src) by (subst src; unfold zlen in *; rewrite length_app, length_take, length_drop; lia).
  rewrite memcpy_ok by lia.
  destruct (maskset_sets (fr_mask f) x.1 x.2) as (m' & -> & Hml' & Hmw' & Hm'); [done|lia|lia|lia|].
  eexists; split; [reflexivity|]. split; [|done].
  split; cbn [fr_data fr_mask fr_len frag_set_data frag_set_mask frag_set_len frag_set_timestamp].
  - by rewrite splice_length by lia.
  - by rewrite Hml'.
  - done.
  - intros i Hi. by rewrite Hm', Hm by done.
  - intros i Hi Hc. rewrite splice_lookup by lia. cbn in Hc.
    destruct (in_range x.1 x.2 i) eqn:Er; [|by apply Hd].
    unfold in_range in Er. subst src. rewrite lookup_app_l by (rewrite length_take, length_drop; unfold zlen in *; lia).
    rewrite lookup_take_lt, lookup_drop by lia. f_equal. lia.
  - cbn. rewrite Hl. destruct (Z.eqb_spec (x.1 + x.2) (zlen p)) as [E|]; cbn; [|done].
    rewrite u16_small by (unfold is_u16; lia). lia.
Qed.

(** *** Finding the object of a datagram *)

(** A linked object that is live and whose last fragment is recent. *)
Definition recent (now : Z) (h : gmap loc ip_fragment) (l : loc) : Prop :=
  exists f, h !! l = Some f /\ now - fr_timestamp f <= IP_FRAGMENT_TIMEOUT_SEC.

Lemma patrol_recent now kept rest h count : Forall (recent now h) rest ->
  patrol now kept rest h count = (kept ++ rest, h, count, []).
Proof.
  intros Hr. revert kept. induction Hr as [|e rest (f & Hf & Ht) _ IH]; intros kept; cbn.
  - by rewrite app_nil_r.
  - rewrite Hf. rewrite (proj2 (Z.ltb_ge _ _)) by done. rewrite IH. by rewrite <- app_assoc.
Qed.

Lemma ip_fragment_patrol_recent now s : Forall (recent now (frag_heap s)) (fragments s) ->
  ip_fragment_patrol now s = (0, s, []).
Proof. intros Hr. unfold ip_fragment_patrol. rewrite patrol_recent by done. by destruct s. Qed.

Lemma patrol_when t1 t2 s : Forall (recent t2 (frag_heap s)) (fragments s) ->
  when (10 <? t1 - frag_timestamp s) (ip_fragment_patrol t2 ;;; ret tt) s = (tt, s, []).
Proof.
  intros Hr. unfold when. case_match; [|done].
  by rewrite (mbind_run_nil _ _ _ _ _ (ip_fragment_patrol_recent t2 s Hr)).
Qed.

Lemma search_from_cons hdr h l ls f : h !! l = Some f -> frag_matches hdr f = true ->
  search_from hdr h (l :: ls) = (Some l, []).
Proof. intros Hf Hm. cbn. by rewrite Hf, Hm. Qed.

(** The identification of a datagram. *)
Definition same_key (a b : ip_hdr) : Prop :=
  (ih_src a, ih_dst a, ih_id a, ih_protocol a) = (ih_src b, ih_dst b, ih_id b, ih_protocol b).

Definition frag_of (k : ip_hdr) (f : ip_fragment) : Prop :=
  (fr_src f, fr_dst f, fr_id f, fr_protocol f) = (ih_src k, ih_dst k, ih_id k, ih_protocol k).

Lemma frag_of_matches k hdr f : frag_of k f -> same_key hdr k -> frag_matches hdr f = true.
Proof.
  unfold frag_of, same_key, frag_matches. intros [= -> -> -> ->] [= -> -> -> ->].
  by rewrite !Z.eqb_refl.
Qed.

(** The octets copied so far are those of the datagram; when all have arrived
    the object holds the datagram. *)
Lemma frag_inv_complete p ps f : frag_inv p ps f -> covers p ps -> take (Z.to_nat (zlen p)) (fr_data f) = p.
Proof.
  intros [Hdl _ _ _ Hd _] Hc. apply list_eq. intros i.
  destruct (decide (Z.of_nat i < zlen p)) as [Hi|Hi].
  - rewrite lookup_take_lt by lia. specialize (Hd (Z.of_nat i) ltac:(lia) (Hc (Z.of_nat i) ltac:(lia))).
    by rewrite Nat2Z.id in Hd.
  - rewrite !(proj2 (lookup_ge_None _ _)); [done|..];
      rewrite ?length_take; unfold zlen in *; lia.
Qed.

(** A set of fragments that covers the datagram contains its last one. *)
Lemma covers_has_last p ps : 0 < zlen p -> Forall (piece_ok p) ps -> covers p ps -> has_last p ps = true.
Proof.
  intros Hp Hok Hc. specialize (Hc (zlen p - 1) ltac:(lia)). unfold covered, has_last in *.
  apply existsb_exists in Hc as (x & Hin & Hx). apply existsb_exists. exists x. split; [done|].
  rewrite Forall_forall in Hok. apply list_elem_of_In, Hok in Hin as (? & ? & ? & _).
  unfold in_range in Hx. lia.
Qed.

(** The object of datagram [k] heads the list and holds the fragments [ps] of
    [p]; the other objects are as in [others]. *)
Record receiving (k : ip_hdr) (p : bytes) (ps : list piece) (l : loc) (others : list loc)
    (t0 : Z) (s : frags) : Prop := {
  rc_list : fragments s = l :: others;
  rc_fresh : l ∉ others;
  rc_others : Forall (recent (t0 + IP_FRAGMENT_TIMEOUT_SEC) (frag_heap s)) others;
  rc_obj : exists f, frag_heap s !! l = Some f /\ frag_of k f /\ frag_inv p ps f /\
    (ps <> [] -> t0 <= fr_timestamp f);
  rc_pieces : Forall (piece_ok p) ps
}.

(** The octets of fragment [x] of [p] at the payload pointer, and whatever
    follows them in the receive buffer. *)
Definition carries (k : ip_hdr) (p : bytes) (x : piece) (hdr : ip_hdr) (payload : bytes) : Prop :=
  same_key hdr k /\ piece_ok p x /\ ntoh16 (ih_offset hdr) = offset_field p x /\
  exists pad, payload = take (Z.to_nat x.2) (drop (Z.to_nat x.1) p) ++ pad.

(** The object after the datagram is complete. *)
Definition reassembled (p : bytes) (l : loc) (others : list loc) (s s' : frags) : Prop :=
  fragments s' = others /\ frag_count s' = u64 (frag_count s - 1) /\
  exists f, frag_heap s' !! l = Some f /\ fr_len f = zlen p /\ take (Z.to_nat (zlen p)) (fr_data f) = p.

Lemma recent_insert now h l f ls : l ∉ ls -> Forall (recent now h) ls -> Forall (recent now (<[l := f]> h)) ls.
Proof.
  intros Hl. rewrite !Forall_forall. intros Hr k Hk. destruct (Hr k Hk) as (g & Hg & Ht).
  exists g. rewrite lookup_insert_ne by set_solver. done.
Qed.

Lemma detach_head l others s : fragments s = l :: others -> l ∉ others ->
  ip_fragment_detach l s = (Some l, set_fragments others s, []).
Proof.
  intros E Hl. unfold ip_fragment_detach. erewrite mbind_run_nil by done. rewrite E.
  rewrite bool_decide_eq_true_2 by left. erewrite mbind_run_nil by done. cbn.
  rewrite bool_decide_eq_false_2 by auto. unfold mret'. do 3 f_equal.
  clear E. induction others as [|k others IH]; [done|]. apply not_elem_of_cons in Hl as [Hk Hl]. cbn.
  rewrite bool_decide_eq_true_2 by done. f_equal. by apply IH.
Qed.

Lemma frag_update_step k p ps l others t0 s hdr x payload now :
  0 < zlen p <= FRAG_DATA_SIZE -> receiving k p ps l others t0 s -> carries k p x hdr payload -> t0 <= now ->
  exists s', (~ covers p (x :: ps) /\ frag_update l hdr payload x.2 now s = (None, s', []) /\
              receiving k p (x :: ps) l others t0 s' /\ frag_count s' = frag_count s /\
              frag_timestamp s' = frag_timestamp s) \/
             (covers p (x :: ps) /\ frag_update l hdr payload x.2 now s = (Some l, s', []) /\
              reassembled p l others s s').
Proof.
  intros Hp [Hl Hfresh Hoth (f & Hf & Hk & Hi & _) Hps] (_ & Hx & Ho & pad & ->) Hnow.
  destruct (frag_store_inv p ps f hdr x pad now) as (f' & E & Hi' & Ht & Hkey); [lia|done..|].
  unfold frag_update. erewrite mbind_run_nil by done. rewrite Hf, E.
  erewrite mbind_run_nil by done. erewrite mbind_run_nil by done.
  set (s1 := set_frag_heap _ s).
  assert (receiving k p (x :: ps) l others t0 s1) as Hrc.
  { split; cbn; [done|done|by apply recent_insert| |by constructor].
    exists f'. rewrite lookup_insert_eq. split_and!; [done| |done|lia].
    unfold frag_of in *. congruence. }
  rewrite (fi_len _ _ _ Hi').
  destruct (has_last p (x :: ps)) eqn:Elast; cbn [negb].
  - assert (nz (zlen p) = true) as -> by bool_lia.
    destruct (maskchk_has (fr_mask f') 0 (zlen p)) as (v & Ev & Hv & Hh);
      [apply Hi'|lia|lia|rewrite (fi_mask_len _ _ _ Hi'); unfold FRAG_MASK_WORDS, FRAG_DATA_SIZE in *; lia|].
    cbn [negb]. rewrite Ev. erewrite mbind_run_nil by done.
    assert (has 0 (zlen p) (fr_mask f') <-> covers p (x :: ps)) as Hcov.
    { unfold has, covers. split; intros Ha i Hii; specialize (Ha i ltac:(lia)).
      - by rewrite (fi_mask _ _ _ Hi') in Ha by lia.
      - by rewrite (fi_mask _ _ _ Hi') by lia. }
    destruct Hv as [-> | ->]; [change (nz 0) with false | change (nz 1) with true]; cbn [negb].
    + exists s1. left. split_and!; [|done..]. intros Hc. apply Hcov, Hh in Hc. done.
    + erewrite mbind_run_nil by (by apply detach_head). erewrite mbind_run_nil by done.
      eexists; right. split_and!; [by apply Hcov, Hh|reflexivity|].
      split_and!; [done|done|]. exists f'. cbn. rewrite lookup_insert_eq. split_and!; [done| |].
      * by rewrite (fi_len _ _ _ Hi'), Elast.
      * apply (frag_inv_complete p (x :: ps)); [done|]. by apply Hcov, Hh.
  - exists s1. left. split_and!; [|done..]. intros Hc.
    rewrite covers_has_last in Elast; [done|lia|by constructor|done].
Qed.

Lemma frag_find_head k p ps l others t0 s hdr m :
  receiving k p ps l others t0 s -> same_key hdr k -> frag_find hdr m s = (Some l, s, []).
Proof.
  intros [Hl _ _ (f & Hf & Hk & _) _] Hsame. unfold frag_find, ip_fragment_search.
  rewrite mbind_run_nil with (a := Some l) (s1 := s); [done|]. rewrite Hl.
  by rewrite (search_from_cons _ _ _ _ f) by (done || by eapply frag_of_matches).
Qed.

(** No object in [ls] belongs to datagram [k]. *)
Definition unknown (k : ip_hdr) (h : gmap loc ip_fragment) (ls : list loc) : Prop :=
  forall l f, l ∈ ls -> h !! l = Some f -> frag_matches k f = false.

Lemma search_unknown k t h ls : Forall (recent t h) ls -> unknown k h ls ->
  search_from k h ls = (None, []).
Proof.
  induction 1 as [|l ls (f & Hf & _) _ IH]; intros Hu; cbn; [done|].
  rewrite Hf, (Hu l f) by (done || left). apply IH. intros l' f' Hl'. apply Hu. by right.
Qed.

Lemma recent_mono t t' h ls : t' <= t -> Forall (recent t h) ls -> Forall (recent t' h) ls.
Proof. intros Ht Hall. eapply Forall_impl; [done|]. intros l (f & Hf & Hr). exists f. split; [done|lia]. Qed.

(** A block of the size of [struct ip_fragment], with room behind it for what
    [ip_fragment_alloc] clears by mistake. *)
Definition FRAG_OVERRUN : Z := 3 * FRAG_MASK_WORDS - 2.

Definition block (junk : ip_fragment) (spare : list Z) : Prop :=
  zlen (fr_data junk) = FRAG_DATA_SIZE /\ zlen (fr_mask junk) = FRAG_MASK_WORDS /\ FRAG_OVERRUN <= zlen spare.

(** What the clearing of the mask does to the mask, and when it is out of bounds. *)
Lemma maskclr_overrun junk spare : zlen (fr_mask junk) = FRAG_MASK_WORDS -> exists words,
  maskclr (4 * FRAG_MASK_WORDS) (fr_mask junk ++ time_words (fr_timestamp junk) ++ spare)
  = (tt, words, if zlen spare <? FRAG_OVERRUN then [OobWrite (FRAG_OVERRUN - zlen spare)] else []) /\
  take (length (fr_mask junk)) words = replicate (Z.to_nat FRAG_MASK_WORDS) 0.
Proof.
  intros Hm. eexists. unfold maskclr. rewrite !zlen_app. change (zlen (time_words _)) with 2. rewrite Hm. split.
  - f_equal. unfold FRAG_OVERRUN, FRAG_MASK_WORDS. replace (2048 + (2 + zlen spare) <? 4 * 2048) with (zlen spare <? 3 * 2048 - 2) by lia.
    destruct (_ <? _); [|done]. do 2 f_equal. lia.
  - unfold zlen in Hm. rewrite take_app_le, take_replicate; rewrite ?length_replicate, ?length_app.
    + f_equal. unfold FRAG_MASK_WORDS in *. lia.
    + unfold FRAG_MASK_WORDS in *. lia.
Qed.

(** The allocation is out of bounds exactly when less than 24568 octets behind the block
    are unused. *)
Lemma ip_fragment_overrun hdr l junk spare s : zlen (fr_mask junk) = FRAG_MASK_WORDS ->
  rub (ip_fragment_alloc hdr (Some (FragBlock l junk spare)) s)
  = if zlen spare <? FRAG_OVERRUN then [OobWrite (FRAG_OVERRUN - zlen spare)] else [].
Proof.
  intros Hm. unfold ip_fragment_alloc. destruct (maskclr_overrun junk spare Hm) as (words & -> & _).
  destruct (_ <? _); reflexivity.
Qed.

Lemma frag_find_new k p t0 s hdr l junk spare :
  frag_heap s !! l = None -> same_key hdr k -> 0 <= frag_count s < IP_FRAGMENT_NUM_MAX -> block junk spare ->
  Forall (recent (t0 + IP_FRAGMENT_TIMEOUT_SEC) (frag_heap s)) (fragments s) ->
  unknown hdr (frag_heap s) (fragments s) ->
  exists s', frag_find hdr (Some (FragBlock l junk spare)) s = (Some l, s', []) /\
    receiving k p [] l (fragments s) t0 s' /\ frag_count s' = frag_count s + 1 /\
    frag_timestamp s' = frag_timestamp s.
Proof.
  intros Hfresh Hsame Hcount (Hjd & Hjm & Hsp) Hr Hu. unfold frag_find, ip_fragment_search.
  run by (by rewrite (search_unknown _ _ _ _ Hr Hu)). run. rewrite (proj2 (Z.leb_gt _ _)) by lia.
  unfold ip_fragment_alloc. destruct (maskclr_overrun junk spare Hjm) as (words & -> & Hw).
  rewrite (proj2 (Z.ltb_ge _ _)) by done. rewrite Hw.
  assert (l ∉ fragments s) as Hl.
  { intros Hin. rewrite Forall_forall in Hr. destruct (Hr _ Hin) as (f & Hf & _). congruence. }
  eexists. split; [reflexivity|]. cbn [frag_count]. split; [|split; [|done]].
  - split; cbn [fragments frag_heap set_frag_heap set_fragments set_frag_count]; [done|done|by apply recent_insert| |done].
    eexists. rewrite lookup_insert_eq. split_and!; [done| | |done].
    + unfold frag_of, same_key in *. cbn. congruence.
    + split; cbn [fr_data fr_mask fr_len].
      * unfold zlen in *. by rewrite length_replicate.
      * unfold zlen. by rewrite length_replicate.
      * apply Forall_replicate. unfold is_u32. lia.
      * intros i Hi. apply mbit_clear.
      * done.
      * done.
  - cbn. rewrite u64_small; [done|]. unfold IP_FRAGMENT_NUM_MAX in *. lia.
Qed.

(** *** Sequences of fragments *)

(** One fragment to process, with the three clock readings of the call. *)
Record frag_in := FragIn {
  in_hdr : ip_hdr; in_payload : bytes; in_piece : piece; in_t1 : Z; in_t2 : Z; in_t3 : Z
}.

Fixpoint process_all (m : option frag_block) (ins : list frag_in) : M frags (list (option loc)) :=
  match ins with
  | [] => ret []
  | x :: ins =>
      let* r := ip_fragment_process (in_hdr x) (in_payload x) (in_piece x).2
                  (in_t1 x) (in_t2 x) (in_t3 x) m in
      let* rs := process_all m ins in
      ret (r :: rs)
  end.

(** The fragment belongs to the datagram and arrives within the timeout of [t0]. *)
Definition arrives (k : ip_hdr) (p : bytes) (t0 : Z) (x : frag_in) : Prop :=
  carries k p (in_piece x) (in_hdr x) (in_payload x) /\
  t0 <= in_t2 x <= t0 + IP_FRAGMENT_TIMEOUT_SEC /\ t0 <= in_t3 x.

Lemma receiving_recent k p ps l others t0 s t : receiving k p ps l others t0 s -> ps <> [] ->
  t <= t0 + IP_FRAGMENT_TIMEOUT_SEC -> Forall (recent t (frag_heap s)) (fragments s).
Proof.
  intros [Hl _ Ho (f & Hf & _ & _ & Ht) _] Hne Hle. rewrite Hl. constructor.
  - exists f. specialize (Ht Hne). split; [done|lia].
  - by eapply recent_mono.
Qed.

Lemma process_next k p ps l others t0 s x m :
  0 < zlen p <= FRAG_DATA_SIZE -> receiving k p ps l others t0 s -> ps <> [] -> arrives k p t0 x ->
  ip_fragment_process (in_hdr x) (in_payload x) (in_piece x).2 (in_t1 x) (in_t2 x) (in_t3 x) m s
  = frag_update l (in_hdr x) (in_payload x) (in_piece x).2 (in_t3 x) s.
Proof.
  intros Hp Hrc Hne ((Hk & _) & Ht2 & _). unfold ip_fragment_process.
  erewrite mbind_run_nil by done.
  erewrite mbind_run_nil by (apply patrol_when; eapply receiving_recent; [done..|lia]).
  by erewrite mbind_run_nil by (by eapply frag_find_head).
Qed.

Lemma process_all_incomplete k p l others t0 m ins : 0 < zlen p <= FRAG_DATA_SIZE ->
  forall ps s, receiving k p ps l others t0 s -> ps <> [] -> Forall (arrives k p t0) ins ->
  ~ covers p (rev (map in_piece ins) ++ ps) ->
  exists s', process_all m ins s = (replicate (length ins) None, s', []) /\
    receiving k p (rev (map in_piece ins) ++ ps) l others t0 s' /\ frag_count s' = frag_count s.
Proof.
  intros Hp. induction ins as [|x ins IH]; intros ps s Hrc Hne Harr Hnc; [by exists s|].
  apply Forall_cons in Harr as [Hx Harr]. cbn [map rev] in *. rewrite <- app_assoc in *. cbn [app] in *.
  cbn [process_all]. destruct Hx as (Hc & Ht2 & Ht3) eqn:Ex.
  destruct (frag_update_step k p ps l others t0 s (in_hdr x) (in_piece x) (in_payload x) (in_t3 x))
    as (s1 & [(_ & E & Hrc1 & Hcnt & _)|(Hcov & _)]); [done..| |].
  - destruct (IH (in_piece x :: ps) s1) as (s2 & E2 & Hrc2 & Hcnt2); [done..|].
    exists s2. split_and!; [|done|congruence].
    erewrite mbind_run_nil by (by rewrite (process_next k p ps l others t0)).
    by erewrite mbind_run_nil by done.
  - exfalso. apply Hnc. intros i Hi. specialize (Hcov i Hi). unfold covered in *.
    rewrite existsb_app. apply orb_true_iff. by right.
Qed.

Lemma process_all_snoc m ins x s s1 s2 rs r :
  process_all m ins s = (rs, s1, []) ->
  ip_fragment_process (in_hdr x) (in_payload x) (in_piece x).2 (in_t1 x) (in_t2 x) (in_t3 x) m s1
  = (r, s2, []) ->
  process_all m (ins ++ [x]) s = (rs ++ [r], s2, []).
Proof.
  revert s rs. induction ins as [|y ins IH]; intros s rs E1 E2.
  - cbn in E1. injection E1 as <- <-. cbn [app process_all]. by run.
  - cbn [app process_all] in *. unfold mbind' in *.
    destruct (ip_fragment_process (in_hdr y) _ _ _ _ _ m s) as [[r0 s0] u0].
    destruct (process_all m ins s0) as [[rs0 s0'] u0'] eqn:E0. cbn in E1.
    injection E1 as <- <- Hu. rewrite !app_nil_r in Hu. apply app_nil in Hu as [-> ->].
    erewrite IH by done. done.
Qed.

Lemma covers_rev p ps : covers p (rev ps) <-> covers p ps.
Proof.
  unfold covers, covered. split; intros Hc i Hi; specialize (Hc i Hi);
    apply existsb_exists in Hc as (x & Hin & Hx); apply existsb_exists; exists x;
    split; try done; by apply in_rev; rewrite ?rev_involutive.
Qed.

(** The result of processing the fragments of a datagram. *)
Definition delivered (p : bytes) (l : loc) (s s' : frags) : Prop :=
  fragments s' = fragments s /\ frag_count s' = frag_count s /\
  exists f, frag_heap s' !! l = Some f /\ fr_len f = zlen p /\ take (Z.to_nat (zlen p)) (fr_data f) = p.

(** The first fragment of an unknown datagram. *)
Lemma process_first k p t0 s x l junk spare :
  0 < zlen p <= FRAG_DATA_SIZE -> frag_heap s !! l = None -> block junk spare ->
  0 <= frag_count s < IP_FRAGMENT_NUM_MAX ->
  Forall (recent (t0 + IP_FRAGMENT_TIMEOUT_SEC) (frag_heap s)) (fragments s) ->
  unknown k (frag_heap s) (fragments s) -> arrives k p t0 x ->
  exists s1 s', (~ covers p [in_piece x] /\
      ip_fragment_process (in_hdr x) (in_payload x) (in_piece x).2 (in_t1 x) (in_t2 x) (in_t3 x)
        (Some (FragBlock l junk spare)) s = (None, s', []) /\
      receiving k p [in_piece x] l (fragments s) t0 s' /\ frag_count s' = frag_count s + 1) \/
    (covers p [in_piece x] /\
      ip_fragment_process (in_hdr x) (in_payload x) (in_piece x).2 (in_t1 x) (in_t2 x) (in_t3 x)
        (Some (FragBlock l junk spare)) s = (Some l, s', []) /\
      frag_count s1 = frag_count s + 1 /\ reassembled p l (fragments s) s1 s').
Proof.
  intros Hp Hfresh Hj Hcnt Hr Hu (Hc & Ht2 & Ht3).
  assert (same_key (in_hdr x) k) as Hsame by apply Hc.
  assert (unknown (in_hdr x) (frag_heap s) (fragments s)) as Hu'.
  { intros l' f Hl' Hf. specialize (Hu l' f Hl' Hf). unfold frag_matches, same_key in *.
    by injection Hsame as -> -> -> ->. }
  destruct (frag_find_new k p t0 s (in_hdr x) l junk spare) as (s1 & E1 & Hrc & Hc1 & _); [done..|].
  destruct (frag_update_step k p [] l (fragments s) t0 s1 (in_hdr x) (in_piece x) (in_payload x) (in_t3 x))
    as (s' & Hs'); [done..|].
  exists s1, s'. unfold ip_fragment_process. run.
  run by (apply patrol_when; eapply recent_mono; [|done]; lia).
  rewrite (mbind_run _ _ _ _ _ _ E1).
  destruct Hs' as [(Hnc & -> & ? & ? & _)|(Hcov & -> & ?)]; [left|right]; rewrite app_nil_r;
    (split_and!; [done..|]); congruence.
Qed.

(** Reassembly of a sequence of fragments of which the last completes the
    datagram. *)
Lemma process_all_complete k p t0 s l junk spare ins final :
  0 < zlen p <= FRAG_DATA_SIZE -> frag_heap s !! l = None -> block junk spare ->
  0 <= frag_count s < IP_FRAGMENT_NUM_MAX ->
  Forall (recent (t0 + IP_FRAGMENT_TIMEOUT_SEC) (frag_heap s)) (fragments s) ->
  unknown k (frag_heap s) (fragments s) ->
  Forall (arrives k p t0) (ins ++ [final]) ->
  ~ covers p (map in_piece ins) -> covers p (map in_piece (ins ++ [final])) ->
  exists s', process_all (Some (FragBlock l junk spare)) (ins ++ [final]) s
             = (replicate (length ins) None ++ [Some l], s', []) /\
    delivered p l s s'.
Proof.
  intros Hp Hfresh Hj Hcnt Hr Hu Harr Hnc Hcov. destruct ins as [|x ins]; cbn [app] in *.
  - apply Forall_cons in Harr as [Hf _].
    destruct (process_first k p t0 s final l junk spare) as (s1 & s' & [(Hn & _)|(_ & E & Hc1 & Hl & Hc2 & Hobj)]);
      [done..|by apply Hn in Hcov|].
    exists s'. cbn [process_all]. rewrite (mbind_run _ _ _ _ _ _ E). split; [done|].
    split_and!; [done| |done]. rewrite Hc2, Hc1, u64_small; unfold IP_FRAGMENT_NUM_MAX in *; lia.
  - apply Forall_cons in Harr as [Hx [Harr Hf]%Forall_app]. apply Forall_cons in Hf as [Hf _].
    assert (~ covers p (rev (map in_piece ins) ++ [in_piece x])) as Hnc'
      by (intros Hc; by apply Hnc, (covers_rev p (map in_piece (x :: ins)))).
    destruct (process_first k p t0 s x l junk spare) as (s1 & s' & [(_ & E & Hrc & Hc1)|(Hcov1 & _)]); [done..| |].
    + destruct (process_all_incomplete k p l (fragments s) t0 (Some (FragBlock l junk spare)) ins Hp [in_piece x] s')
        as (s2 & E2 & Hrc2 & Hc2); [done..|].
      set (ps := rev (map in_piece ins) ++ [in_piece x]) in *.
      destruct Hf as (Hfc & Hft2 & Hft3) eqn:Ef.
      destruct (frag_update_step k p ps l (fragments s) t0 s2 (in_hdr final) (in_piece final)
        (in_payload final) (in_t3 final)) as (s3 & [(Hn & _)|(_ & E3 & Hl & Hc3 & Hobj)]); [done..| |].
      * exfalso. apply Hn. apply covers_rev in Hcov. cbn [map rev] in Hcov.
        by rewrite map_app, rev_app_distr in Hcov.
      * exists s3. split.
        -- assert (process_all (Some (FragBlock l junk spare)) (ins ++ [final]) s'
             = (replicate (length ins) None ++ [Some l], s3, [])) as Eall.
           { eapply process_all_snoc; [done|].
             by rewrite (process_next k p ps l (fragments s) t0) by (done || by destruct (rev (map in_piece ins))). }
           cbn [process_all]. rewrite (mbind_run _ _ _ _ _ _ E). by run.
        -- split_and!; [done| |done].
           rewrite Hc3, Hc2, Hc1, u64_small; unfold IP_FRAGMENT_NUM_MAX in *; lia.
    + exfalso. apply Hnc'. intros i Hi. specialize (Hcov1 i Hi). unfold covered in *.
      rewrite existsb_app. apply orb_true_iff. by right.
Qed.

(** ** Properties *)


(** C39: expiry releases the wrong object.  When the oldest part of the list is an
    expired entry followed by another live one, [ip_fragment_patrol] frees the
    entry after the expired one while it is still linked and then reads it; the
    expired object is unlinked but stays allocated. *)
Theorem ip_fragment_patrol_use_after_free now s e1 e2 rest f1 :
  fragments s = e1 :: e2 :: rest -> e1 <> e2 -> frag_heap s !! e1 = Some f1 ->
  IP_FRAGMENT_TIMEOUT_SEC < now - fr_timestamp f1 ->
  ip_fragment_patrol now s
  = (1, set_frag_heap (delete e2 (frag_heap s)) (set_fragments (e2 :: rest) s), [UseAfterFree]) /\
  frag_heap (rst (ip_fragment_patrol now s)) !! e1 = Some f1.
Proof.
  intros Hl Hne Hf Ht.
  assert (ip_fragment_patrol now s
    = (1, set_frag_heap (delete e2 (frag_heap s)) (set_fragments (e2 :: rest) s), [UseAfterFree])) as E.
  { unfold ip_fragment_patrol. rewrite Hl. cbn [patrol]. rewrite Hf, (proj2 (Z.ltb_lt _ _)) by done.
    by rewrite lookup_delete_eq. }
  split; [done|]. rewrite E. cbn. by rewrite lookup_delete_ne.
Qed.

Lemma frag_find_refused hdr m s :
  fragments s = [] -> IP_FRAGMENT_NUM_MAX <= frag_count s -> frag_find hdr m s = (None, s, []).
Proof.
  intros Hl Hc. unfold frag_find, ip_fragment_search. run by (by rewrite Hl). run.
  by rewrite (proj2 (Z.leb_le _ _)).
Qed.

Lemma process_refused hdr payload plen t1 t2 t3 m s :
  fragments s = [] -> IP_FRAGMENT_NUM_MAX <= frag_count s ->
  ip_fragment_process hdr payload plen t1 t2 t3 m s = (None, s, []).
Proof.
  intros Hl Hc. unfold ip_fragment_process. run.
  run by (apply patrol_when; by rewrite Hl).
  by run by (by apply frag_find_refused).
Qed.

(** C40: expired datagrams are never taken off the counter.  Once the counter is at
    its limit and the last datagram in progress, a single fragment of an
    abandoned datagram, has expired, no fragment is ever accepted again: every
    later call returns null, whatever arrives and whenever. *)
Theorem ip_reassembly_shut_down s e f first later m :
  fragments s = [e] -> frag_heap s !! e = Some f -> IP_FRAGMENT_NUM_MAX <= frag_count s ->
  10 < in_t1 first - frag_timestamp s -> IP_FRAGMENT_TIMEOUT_SEC < in_t2 first - fr_timestamp f ->
  process_all m (first :: later) s = (replicate (S (length later)) None, set_fragments [] s, []).
Proof.
  intros Hl Hf Hc H1 H2.
  assert (ip_fragment_patrol (in_t2 first) s = (1, set_fragments [] s, [])) as Ep.
  { unfold ip_fragment_patrol. rewrite Hl. cbn [patrol].
    rewrite Hf, (proj2 (Z.ltb_lt _ _)) by done. by destruct s. }
  assert (forall ins s, fragments s = [] -> IP_FRAGMENT_NUM_MAX <= frag_count s ->
    process_all m ins s = (replicate (length ins) None, s, [])) as Hall.
  { induction ins as [|x ins IH]; intros s' Hl' Hc'; [done|]. cbn [process_all].
    run by (by apply process_refused). by run by (by apply IH). }
  cbn [process_all]. run by (unfold ip_fragment_process; run; unfold when;
    rewrite (proj2 (Z.ltb_lt _ _)) by done; run by (by rewrite (mbind_run_nil _ _ _ _ _ Ep));
    by run by (by apply frag_find_refused)).
  by run by (by apply Hall).
Qed.

End Fragment.

(** ** Witnesses *)

(** A block of the right size and the two fragments of a datagram of 20 octets. *)
Definition sample_block : ip_fragment :=
  IpFragment 0 0 0 0 0 (replicate (Z.to_nat FRAG_DATA_SIZE) 0) (replicate (Z.to_nat FRAG_MASK_WORDS) 0) 0.
Definition sample_spare : list Z := replicate (Z.to_nat FRAG_OVERRUN) 5.
Definition sample_payload : bytes := replicate 20 7.
Definition sample_hdr (offset : Z) : ip_hdr := IpHdr 69 0 0 1 (hton16 (H := LittleEndian) offset) 255 6 0 1 2.
Definition sample_in (x : piece) : frag_in :=
  FragIn (sample_hdr (offset_field sample_payload x)) (replicate (Z.to_nat x.2) 7) x 100 100 100.

Lemma sample_block_ok : block sample_block sample_spare.
Proof. split_and!; unfold sample_block, sample_spare, zlen; cbn [fr_data fr_mask]; by rewrite length_replicate. Qed.

Lemma sample_arrives x : x = (0, 16) \/ x = (16, 4) ->
  arrives (H := LittleEndian) (sample_hdr 0) sample_payload 100 (sample_in x).
Proof.
  intros [-> | ->]; (split; [|by cbn; unfold IP_FRAGMENT_TIMEOUT_SEC; lia]);
    (split_and!; [done|done|done|by exists []]).
Qed.


Lemma ip_fragment_patrol_use_after_free_witness :
  rub (ip_fragment_patrol 100 (Frags [1%positive; 2%positive]
    {[1%positive := sample_block; 2%positive := sample_block]} 0 2)) = [UseAfterFree].
Proof.
  unfold rub.
  rewrite (proj1 (ip_fragment_patrol_use_after_free 100 (Frags [1%positive; 2%positive]
    {[1%positive := sample_block; 2%positive := sample_block]} 0 2) 1%positive 2%positive [] sample_block
    eq_refl ltac:(done) eq_refl ltac:(cbn; unfold IP_FRAGMENT_TIMEOUT_SEC; lia))). reflexivity.
Defined.

Lemma ip_reassembly_shut_down_witness :
  let s := Frags [1%positive] {[1%positive := sample_block]} 0 8 in
  process_all (H := LittleEndian) None [sample_in (16, 4); sample_in (0, 16)] s = ([None; None], set_fragments [] s, []).
Proof.
  exact (ip_reassembly_shut_down (H := LittleEndian) (Frags [1%positive] {[1%positive := sample_block]} 0 8)
    1%positive sample_block (sample_in (16, 4)) [sample_in (0, 16)] None eq_refl eq_refl ltac:(done)
    ltac:(done) ltac:(done)).
Defined.
