(* ===== verification/Ip.v ===== *)
(** * The Internet layer (src/ip.c, lines 240-510)

    [ip_rx] validates a datagram and names the upper-layer handler it is given
    to; [ip_tx] splits a payload into datagrams and hands each to the link layer.
    The link layer below (address resolution and the device's transmit
    operation) is an interface, [LinkLayer], over a world of its own; the
    registries of devices and interfaces are read from [Net]. *)

From S2P Require Import Prelude Endian Cksum Mask Queue Addr Net IpFragment.

Definition IPADDR_BROADCAST : Z := 4294967295.
Definition IP_ADDR_ANY : Z := 0.
Definition IP_PROTOCOL_TCP : Z := 6.
Definition IP_PROTOCOL_RAW : Z := 255.
Definition ARP_RESOLVE_ERROR : Z := -1.
Definition ARP_RESOLVE_QUERY : Z := 0.
Definition ARP_RESOLVE_FOUND : Z := 1.

(** What the Internet layer uses of the layer below: [arp_resolve(netif, pa, ha,
    data, len)] returns its code and the resolved address, [dev->ops->tx] the
    number of octets sent. *)
Class LinkLayer (W : Type) := {
  ll_resolve : nifid -> Z -> bytes -> M W (Z * bytes);
  dev_tx : devid -> Z -> bytes -> bytes -> M W Z
}.

(** Lift an operation on one component of a pair of states. *)
Definition on_fst {A B X} (m : M A X) : M (A * B) X := zoom fst (fun a s => (a, s.2)) m.
Definition on_snd {A B X} (m : M B X) : M (A * B) X := zoom snd (fun b s => (s.1, b)) m.

(** The upper-layer handlers are elements of [U]. *)
Section Ip.
Context {H : Host} {Ops P U : Type}.

Record ip_state := IpState {
  ip_frags : frags;
  ip_next_id : Z;                        (** [static uint16_t id = 128] *)
  default_netif : option nifid;
  protocols : list (Z * U)
}.

Definition ip_state_init : ip_state := IpState frags_init 128 None [].
Definition set_ip_frags f s := IpState f (ip_next_id s) (default_netif s) (protocols s).
Definition set_ip_next_id i s := IpState (ip_frags s) i (default_netif s) (protocols s).
Definition set_default_netif d s := IpState (ip_frags s) (ip_next_id s) d (protocols s).
Definition set_protocols l s := IpState (ip_frags s) (ip_next_id s) (default_netif s) l.

Definition on_frags {X} (m : M frags X) : M ip_state X := zoom ip_frags set_ip_frags m.

(** ** Interfaces *)

(** An [ip_addr_t] seen as octets. *)
Definition addr_of_bytes (b : bytes) : Z :=
  match b with [b0; b1; b2; b3] => load32 b0 b1 b2 b3 | _ => 0 end.

(** [m] is the allocated interface with its uninitialised contents; the address
    fields are written octet by octet by [ip_addr_pton]. *)
Definition ip_netif_register (dev : devid) (addr netmask : list Z) (m : option (nifid * netif))
  : M (ip_state * net Ops P) (option nifid) :=
  match m with
  | None => ret None
  | Some (iface, junk) =>
      let fail := on_snd (modify (fun n => set_niftab (delete iface (niftab n)) n)) ;;; ret None in
      let '(r1, u) := ip_addr_pton addr (store32 (nif_unicast junk)) in
      if r1 =? -1 then fail else
      let '(r2, k) := ip_addr_pton netmask (store32 (nif_netmask junk)) in
      if r2 =? -1 then fail else
      let unicast := addr_of_bytes u in
      let mask := addr_of_bytes k in
      let network := Z.land unicast mask in
      let broadcast := Z.lor network (u32 (Z.lnot mask)) in
      on_snd (modify (fun n => set_niftab (<[iface :=
        Netif None NETIF_FAMILY_IPV4 None unicast mask network broadcast (nif_gateway junk)]> (niftab n)) n)) ;;;
      on_fst (modify (set_default_netif (Some iface))) ;;;
      let* r := on_snd (netdev_add_netif dev iface) in
      if r =? -1 then fail else ret (Some iface)
  end.

Definition is_ipv4_with_addr (addr : Z) (i : netif) : bool :=
  (nif_family i =? NETIF_FAMILY_IPV4) && (nif_unicast i =? addr).

(** The first interface with the address, over the devices and their interfaces. *)
Fixpoint by_addr_from (addr : Z) (n : net Ops P) (devs : list devid) : option nifid * list ub :=
  match devs with
  | [] => (None, [])
  | d :: devs =>
      match devtab n !! d with
      | None => (None, [UseAfterFree])
      | Some dev =>
          let '(entry, u) := netif_search (size (niftab n)) (niftab n) (is_ipv4_with_addr addr) (dev_ifs dev) in
          match entry with
          | Some _ => (entry, u)
          | None => let '(entry, u') := by_addr_from addr n devs in (entry, u ++ u')
          end
      end
  end.

Definition ip_netif_by_addr (addr : Z) (n : net Ops P) : option nifid * list ub := by_addr_from addr n (netdev_root n).

Definition ip_netif_by_peer (peer : Z) (s : ip_state) : option nifid := default_netif s.

(** ** Receiving *)

(** A call [protocol->handler(payload, plen, &hdr->src, &hdr->dst, iface)]. *)
Record delivery := Delivery {
  dl_handler : U; dl_payload : bytes; dl_len : Z; dl_src : Z; dl_dst : Z; dl_iface : nifid
}.

(** Lines 374-380: the first protocol of the datagram's type. *)
Definition ip_dispatch (hdr : ip_hdr) (payload : bytes) (plen : Z) (iface : nifid) (s : ip_state)
  : option delivery :=
  match List.find (fun p => p.1 =? ih_protocol hdr) (protocols s) with
  | Some p => Some (Delivery p.2 payload plen (ih_src hdr) (ih_dst hdr) iface)
  | None => None
  end.

(** Lines 316-355: the datagram is for this host; the result is its header, header
    length and the receiving interface. *)
Definition ip_rx_validate (n : net Ops P) (dgram : bytes) (dlen : Z) (dev : devid)
  : option (ip_hdr * Z * nifid) * list ub :=
  if dlen <? 20 then (None, []) else
  match ip_hdr_load dgram with
  | None => (None, [OobRead (20 - zlen dgram)])
  | Some hdr =>
      if negb (Z.shiftr (ih_vhl hdr) 4 =? IP_VERSION_IPV4) then (None, []) else
      let hlen := u16 (Z.shiftl (Z.land (ih_vhl hdr) 15) 2) in
      if (dlen <? hlen) || (dlen <? ntoh16 (ih_len hdr)) then (None, []) else
      let '(sum, u) := cksum16 dgram hlen 0 in
      if negb (sum =? 0) then (None, u) else
      if negb (nz (ih_ttl hdr)) then (None, u) else
      let '(entry, u') := netdev_get_netif dev NETIF_FAMILY_IPV4 n in
      let u := u ++ u' in
      match entry with
      | None => (None, u)
      | Some iface =>
          match niftab n !! iface with
          | None => (None, u ++ [UseAfterFree])
          | Some nif =>
              if negb (ih_dst hdr =? nif_unicast nif) &&
                 (negb (ih_dst hdr =? nif_broadcast nif) && negb (ih_dst hdr =? IPADDR_BROADCAST))
              then (None, u) else (Some (hdr, hlen, iface), u)
          end
      end
  end.

(** Lines 366-383 for a fragment: a completed datagram is given to its protocol
    and released once the handler returned; handlers do not use the reassembly
    state. *)
Definition ip_rx_fragment (hdr : ip_hdr) (iface : nifid) (fragment : option loc) : M ip_state (option delivery) :=
  match fragment with
  | None => ret None
  | Some l =>
      let* h := gets (fun s => frag_heap (ip_frags s)) in
      match h !! l with
      | None => tell [UseAfterFree] ;;; ret None
      | Some f =>
          let* r := gets (ip_dispatch hdr (fr_data f) (fr_len f) iface) in
          on_frags (ip_fragment_free l) ;;;
          ret r
      end
  end.

(** [dgram] is the memory at the datagram pointer, [dlen] the received length. *)
Definition ip_rx (n : net Ops P) (dgram : bytes) (dlen : Z) (dev : devid)
    (t1 t2 t3 : Z) (m : option frag_block) : M ip_state (option delivery) :=
  let '(valid, u) := ip_rx_validate n dgram dlen dev in
  tell u ;;;
  match valid with
  | None => ret None
  | Some (hdr, hlen, iface) =>
      let payload := drop (Z.to_nat hlen) dgram in
      let plen := u64 (ntoh16 (ih_len hdr) - hlen) in
      let offset := ntoh16 (ih_offset hdr) in
      if nz (Z.land offset 8192) || nz (Z.land offset 8191) then
        let* fragment := on_frags (ip_fragment_process hdr payload plen t1 t2 t3 m) in
        ip_rx_fragment hdr iface fragment
      else gets (ip_dispatch hdr payload plen iface)
  end.

(** ** Sending *)

Section Tx.
Context {W : Type} `{LL : LinkLayer W}.

(** A [uint8_t ha[128] = {}] into which an address has been copied. *)
Definition ha_buffer (ha : bytes) : bytes := ha ++ replicate (128 - length ha) 0.

(** [packet] holds [plen] octets; [dst] is null for a broadcast. *)
Definition ip_tx_netdev (n : net Ops P) (netif : nifid) (packet : bytes) (dst : option Z) : M W Z :=
  match niftab n !! netif with
  | None => tell [UseAfterFree] ;;; ret (-1)
  | Some nif =>
      match nif_dev nif ≫= (fun d => devtab n !! d), nif_dev nif with
      | Some d, Some dev =>
          let send (ha : bytes) :=
            let* r := dev_tx dev ETHERNET_TYPE_IP packet ha in
            if negb (r =? zlen packet) then ret (-1) else ret 1 in
          if nz (Z.land (dev_flags d) NETDEV_FLAG_NOARP) then send (ha_buffer [])
          else match dst with
               | Some pa =>
                   let* x := ll_resolve netif pa packet in
                   let '(r, ha) := x in
                   if negb (r =? ARP_RESOLVE_FOUND) then ret r else send (ha_buffer ha)
               | None => send (ha_buffer (take (Z.to_nat (dev_alen d)) (dev_broadcast d)))
               end
      | _, _ => tell [NullDeref] ;;; ret (-1)
      end
  end.

(** Lines 418-431: the header, with its checksum. *)
Definition ip_make_hdr (protocol len src dst id offset : Z) : ip_hdr :=
  let hlen := IP_HDR_SIZE_MIN in
  let hdr sum := IpHdr (u8 (Z.lor (Z.shiftl IP_VERSION_IPV4 4) (Z.shiftr hlen 2))) 0
                   (hton16 (u16 (hlen + len))) (hton16 id) (hton16 offset) 255 protocol sum src dst in
  hdr (cksum16 (ip_hdr_store (hdr 0)) hlen 0).1.

(** The packet is built in [uint8_t packet[4096]]; [buf] is the memory at the
    payload pointer. *)
Definition ip_tx_core (n : net Ops P) (netif : nifid) (protocol : Z) (buf : bytes) (len : Z)
    (src : option Z) (dst : Z) (nexthop : option Z) (id offset : Z) : M W Z :=
  let self := match niftab n !! netif with Some nif => nif_unicast nif | None => 0 end in
  let hdr := ip_make_hdr protocol len (default self src) dst id offset in
  tell ((if 4096 <? IP_HDR_SIZE_MIN + len then [OobWrite (IP_HDR_SIZE_MIN + len - 4096)] else []) ++
        (if zlen buf <? len then [OobRead (len - zlen buf)] else [])) ;;;
  ip_tx_netdev n netif (ip_hdr_store hdr ++ take (Z.to_nat len) buf) nexthop.

Definition ip_generate_id : M ip_state Z :=
  let* id := gets ip_next_id in
  modify (set_ip_next_id (u16 (id + 1))) ;;;
  ret id.

(** The loop of [ip_tx]; [None] when the fuel runs out. *)
Fixpoint ip_tx_loop (fuel : nat) (n : net Ops P) (netif : nifid) (mtu protocol : Z) (buf : bytes) (len : Z)
    (src : option Z) (dst : Z) (nexthop : option Z) (id done : Z) : M W (option Z) :=
  if done <? len then
    match fuel with
    | O => ret None
    | S fuel =>
        let slen := Z.min (len - done) (u64 (mtu - IP_HDR_SIZE_MIN)) in
        let flag := if done + slen <? len then 8192 else 0 in
        let offset := Z.lor flag (Z.land (Z.shiftr done 3) 8191) in
        let* r := ip_tx_core n netif protocol (drop (Z.to_nat done) buf) slen src dst nexthop id offset in
        if r =? -1 then ret (Some (-1))
        else ip_tx_loop fuel n netif mtu protocol buf len src dst nexthop id (done + slen)
    end
  else ret (Some len).

(** [netif->dev->mtu]. *)
Definition netif_mtu (n : net Ops P) (netif : nifid) : option Z :=
  nif ← niftab n !! netif; d ← nif_dev nif; dev ← devtab n !! d; Some (dev_mtu dev).

(** [buf] is the memory at the payload pointer, of which [len] octets are sent.
    One iteration sends at least one octet when the device's MTU exceeds the
    header, so [len] iterations are enough. *)
Definition ip_tx (n : net Ops P) (netif : option nifid) (protocol : Z) (buf : bytes) (len : Z) (dst : Z)
  : M (ip_state * W) (option Z) :=
  let broadcast := match netif with Some _ => dst =? IPADDR_BROADCAST | None => false end in
  let src := if broadcast then None
             else netif ≫= (fun i => nif ← niftab n !! i; Some (nif_unicast nif)) in
  let nexthop := if broadcast then None else Some dst in
  let* id := on_fst ip_generate_id in
  if 0 <? len then
    match netif with
    | None => tell [NullDeref] ;;; ret (Some (-1))
    | Some i =>
        match netif_mtu n i with
        | None => tell [NullDeref] ;;; ret (Some (-1))
        | Some mtu =>
            on_snd (ip_tx_loop (Z.to_nat len) n i mtu protocol buf len src dst nexthop id 0)
        end
    end
  else ret (Some len).

End Tx.

(** ** Protocols *)

(** The result of [malloc] is not checked. *)
Definition ip_add_protocol (protocol : Z) (handler : U) (malloc : bool) : M ip_state Z :=
  let* s := get in
  if existsb (fun p => p.1 =? protocol) (protocols s) then ret (-1) else
  (if malloc then modify (set_protocols ((protocol, handler) :: protocols s)) else tell [NullDeref]) ;;;
  ret 0.

(** [ip_rx_handler] is the identity of [ip_rx] in the protocol registry. *)
Definition ip_init (ip_rx_handler : P) (malloc : bool) : M (net Ops P) Z :=
  netdev_proto_register ETHERNET_TYPE_IP ip_rx_handler malloc.

End Ip.
Arguments ip_state : clear implicits.
Arguments delivery : clear implicits.
