(* ===== verification/IpFacts.v ===== *)
(** * Correctness of the Internet layer

    Headers survive a trip through memory and carry a checksum that verifies;
    [ip_tx] sends exactly the fragments of its payload; a datagram sent by one
    host is delivered with the same octets by [ip_rx] of another. *)

From S2P Require Import Prelude Logic Endian Cksum Mask Queue Addr Net IpFragment Ip.

Section Facts.
Context {H : Host} {Ops P U : Type}.

(** ** Headers in memory *)

Record ip_hdr_wf (h : ip_hdr) : Prop := {
  iw_vhl : is_u8 (ih_vhl h); iw_tos : is_u8 (ih_tos h); iw_len : is_u16 (ih_len h);
  iw_id : is_u16 (ih_id h); iw_offset : is_u16 (ih_offset h); iw_ttl : is_u8 (ih_ttl h);
  iw_protocol : is_u8 (ih_protocol h); iw_sum : is_u16 (ih_sum h);
  iw_src : is_u32 (ih_src h); iw_dst : is_u32 (ih_dst h)
}.

(** Octets of a stored header, in one case analysis. *)
Lemma ip_hdr_store_octets h : ip_hdr_wf h ->
  zlen (ip_hdr_store h) = 20 /\ is_bytes (ip_hdr_store h) /\
  forall rest, ip_hdr_load (ip_hdr_store h ++ rest) = Some h.
Proof.
  intros [Hv Ht Hl Hi Ho Htt Hp Hs Hsrc Hdst]. unfold ip_hdr_store.
  destruct (store16_load16 _ Hl) as (l0 & l1 & -> & El & ? & ?).
  destruct (store16_load16 _ Hi) as (i0 & i1 & -> & Ei & ? & ?).
  destruct (store16_load16 _ Ho) as (o0 & o1 & -> & Eo & ? & ?).
  destruct (store16_load16 _ Hs) as (c0 & c1 & -> & Ec & ? & ?).
  destruct (store32_load32 _ Hsrc) as (s0 & s1 & s2 & s3 & -> & Es & ? & ? & ? & ?).
  destruct (store32_load32 _ Hdst) as (d0 & d1 & d2 & d3 & -> & Ed & ? & ? & ? & ?).
  split_and!; [done| |].
  - unfold is_bytes. cbn [app]. rewrite !Forall_cons. split_and!; try done.
  - intros rest. cbn [app ip_hdr_load]. rewrite El, Ei, Eo, Ec, Es, Ed. by destruct h.
Qed.

(** A header followed by anything: the checksum over the header alone. *)
Lemma cksum16_prefix l rest init : zlen l = 20 -> cksum16 (l ++ rest) 20 init = (cksum l (u32 init), []).
Proof.
  intros Hl. unfold cksum16. rewrite (u16_small 20) by (unfold is_u16; lia).
  rewrite zlen_app, Hl. rewrite (proj2 (Z.ltb_ge _ _)) by (pose proof (zlen_nonneg rest); lia).
  unfold zlen in Hl. by rewrite take_app_length' by lia.
Qed.

Lemma ip_make_hdr_wf protocol len src dst id offset :
  is_u8 protocol -> is_u32 src -> is_u32 dst -> is_u16 id -> is_u16 offset ->
  ip_hdr_wf (ip_make_hdr protocol len src dst id offset).
Proof.
  intros. unfold ip_make_hdr. split; cbn [ih_vhl ih_tos ih_len ih_id ih_offset ih_ttl ih_protocol ih_sum ih_src ih_dst];
    try done; auto using hton16_range with net; try (unfold is_u8; lia).
  unfold cksum16. cbn [fst]. unfold cksum. auto with net.
Qed.

(** The octets before and after the checksum field. *)
Definition hdr_pre (h : ip_hdr) : bytes :=
  [ih_vhl h; ih_tos h] ++ store16 (ih_len h) ++ store16 (ih_id h) ++ store16 (ih_offset h)
  ++ [ih_ttl h; ih_protocol h].
Definition hdr_post (h : ip_hdr) : bytes := store32 (ih_src h) ++ store32 (ih_dst h).

Lemma ip_hdr_store_split h : ip_hdr_store h = hdr_pre h ++ store16 (ih_sum h) ++ hdr_post h.
Proof. unfold ip_hdr_store, hdr_pre, hdr_post. by rewrite <- !app_assoc. Qed.

Lemma hdr_pre_length h : length (hdr_pre h) = 10%nat.
Proof. unfold hdr_pre. by rewrite !length_app, !store16_length. Qed.
Lemma hdr_post_length h : length (hdr_post h) = 8%nat.
Proof. unfold hdr_post. by rewrite length_app, !store32_length. Qed.

Lemma ip_make_hdr_cksum protocol len src dst id offset rest :
  is_u8 protocol -> is_u32 src -> is_u32 dst -> is_u16 id -> is_u16 offset ->
  cksum16 (ip_hdr_store (ip_make_hdr protocol len src dst id offset) ++ rest) 20 0 = (0, []).
Proof.
  intros Hp Hs Hd Hi Ho.
  pose proof (ip_make_hdr_wf protocol len src dst id offset Hp Hs Hd Hi Ho) as Hwf.
  rewrite cksum16_prefix by (by apply ip_hdr_store_octets). f_equal.
  apply ip_hdr_store_octets in Hwf as (_ & Hb & _). revert Hb.
  unfold ip_make_hdr, IP_HDR_SIZE_MIN. rewrite !ip_hdr_store_split. cbn [ih_sum].
  set (pre := hdr_pre _). set (post := hdr_post _).
  change (hdr_pre _) with pre. change (hdr_post _) with post.
  assert (length pre = 10%nat) as L1 by apply hdr_pre_length.
  assert (length post = 8%nat) as L2 by apply hdr_post_length.
  rewrite <- (app_nil_r (pre ++ store16 0 ++ post)), cksum16_prefix, store16_0
    by (unfold zlen; by rewrite !length_app, store16_length, L1, L2).
  rewrite !is_bytes_app. intros (Hpre & _ & Hpost). change (u32 0) with 0. cbn [fst].
  apply cksum_fill; try done; try lia.
  - right. by exists 4%nat.
  - by exists 5%nat.
  - unfold zlen. rewrite L1, L2. lia.
Qed.

(** ** Datagrams *)

(** Fragment [x] of the payload [p] as a datagram. *)
Definition ip_packet (protocol src dst id : Z) (p : bytes) (x : piece) : bytes :=
  ip_hdr_store (ip_make_hdr protocol x.2 src dst id (offset_field p x))
  ++ take (Z.to_nat x.2) (drop (Z.to_nat x.1) p).

(** The interface [iface] of [dev] receives datagrams for [dst]. *)
Definition accepts (n : net Ops P) (dev : devid) (iface : nifid) (dst : Z) : Prop :=
  netdev_get_netif dev NETIF_FAMILY_IPV4 n = (Some iface, []) /\
  exists nif, niftab n !! iface = Some nif /\
    (dst = nif_unicast nif \/ dst = nif_broadcast nif \/ dst = IPADDR_BROADCAST).

(** The header that [ip_tx_core] builds passes every test of [ip_rx]. *)
Lemma ip_rx_validate_made (n : net Ops P) dev iface protocol len src dst id offset rest dlen :
  is_u8 protocol -> is_u32 src -> is_u32 dst -> is_u16 id -> is_u16 offset ->
  0 <= len -> 20 + len <= 65535 -> 20 + len <= dlen -> accepts n dev iface dst ->
  let h := ip_make_hdr protocol len src dst id offset in
  ip_rx_validate n (ip_hdr_store h ++ rest) dlen dev = (Some (h, 20, iface), []).
Proof.
  intros Hp Hs Hd Hi Ho Hlen Hmax Hdlen (Hif & nif & Hnif & Hdst) h. unfold ip_rx_validate.
  destruct (ip_hdr_store_octets h) as (_ & _ & Hload); [by apply ip_make_hdr_wf|].
  assert (ntoh16 (ih_len h) = 20 + len) as Hl.
  { change (ih_len h) with (hton16 (u16 (20 + len))).
    rewrite u16_small, ntoh16_hton16 by (unfold is_u16; lia). done. }
  rewrite Hload, Hl. change (ih_vhl h) with 69. change (u16 (Z.land 69 15 ≪ 2)) with 20.
  change (69 ≫ 4 =? IP_VERSION_IPV4) with true. change (ih_ttl h) with 255. change (ih_dst h) with dst.
  rewrite !(proj2 (Z.ltb_ge _ _)) by lia. cbn [negb orb nz Z.eqb].
  subst h. rewrite ip_make_hdr_cksum by done. cbn [negb Z.eqb]. rewrite Hif, Hnif.
  destruct Hdst as [-> | [-> | ->]]; rewrite Z.eqb_refl; cbn [negb andb]; by rewrite ?andb_false_r.
Qed.

(** ** Sending *)

(** The fragments of a payload of [len] octets, [mss] octets each. *)
Definition pieces (mss len : Z) : list piece :=
  map (fun j => (mss * j, Z.min mss (len - mss * j))) (seqZ 0 ((len + mss - 1) / mss)).

Section Tx.
Context {W : Type} `{LL : LinkLayer W}.

(** Hand datagrams to the link layer until one is refused. *)
Fixpoint send_all (n : net Ops P) (netif : nifid) (nexthop : option Z) (len : Z) (pkts : list bytes) : M W Z :=
  match pkts with
  | [] => ret len
  | pkt :: pkts =>
      let* r := ip_tx_netdev n netif pkt nexthop in
      if r =? -1 then ret (-1) else send_all n netif nexthop len pkts
  end.

(** The source address of what an interface sends. *)
Definition netif_addr (n : net Ops P) (netif : nifid) : Z :=
  match niftab n !! netif with Some nif => nif_unicast nif | None => 0 end.

Lemma ip_tx_core_packet (n : net Ops P) netif protocol buf len src dst nexthop id p x w :
  20 + x.2 <= 4096 -> 0 <= x.1 -> 0 <= x.2 -> x.1 + x.2 <= len -> len <= zlen buf ->
  p = take (Z.to_nat len) buf -> src = None \/ src = Some (netif_addr n netif) ->
  ip_tx_core n netif protocol (drop (Z.to_nat x.1) buf) x.2 src dst nexthop id (offset_field p x) w
  = ip_tx_netdev n netif (ip_packet protocol (netif_addr n netif) dst id p x) nexthop w.
Proof.
  intros Hmtu H1 H2 H12 Hlen -> Hsrc. unfold ip_tx_core, ip_packet, IP_HDR_SIZE_MIN.
  assert (x.2 <= zlen (drop (Z.to_nat x.1) buf)) by (unfold zlen in *; rewrite length_drop; lia).
  rewrite !(proj2 (Z.ltb_ge _ _)) by lia. run. fold (netif_addr n netif).
  assert (default (netif_addr n netif) src = netif_addr n netif) as -> by (by destruct Hsrc as [-> | ->]).
  do 2 f_equal. rewrite skipn_firstn_comm, take_take. f_equal. lia.
Qed.

Lemma num_pieces mss len j : 0 < mss -> 0 <= j ->
  (Z.min (mss * j) len <? len) = (j <? (len + mss - 1) / mss).
Proof.
  intros Hm Hj. pose proof (Z.div_mod (len + mss - 1) mss ltac:(lia)) as E.
  pose proof (Z.mod_pos_bound (len + mss - 1) mss Hm). set (k := (_ / _)) in *.
  destruct (Z.ltb_spec j k); [apply Z.ltb_lt | apply Z.ltb_ge]; nia.
Qed.

Lemma ip_tx_loop_sends (n : net Ops P) netif mtu protocol buf len src dst nexthop id :
  20 < mtu <= 4096 -> 0 <= len <= zlen buf -> src = None \/ src = Some (netif_addr n netif) ->
  let p := take (Z.to_nat len) buf in
  let mss := mtu - 20 in
  forall fuel j w, 0 <= j -> len - Z.min (mss * j) len <= Z.of_nat fuel ->
  ip_tx_loop fuel n netif mtu protocol buf len src dst nexthop id (Z.min (mss * j) len) w
  = let '(r, w', u) := send_all n netif nexthop len
      (map (fun j => ip_packet protocol (netif_addr n netif) dst id p (mss * j, Z.min mss (len - mss * j)))
         (seqZ j ((len + mss - 1) / mss - j))) w in (Some r, w', u).
Proof.
  intros Hmtu Hlen Hsrc p mss. assert (0 < mss) as Hm by lia.
  assert (zlen p = len) as Hp by (subst p; unfold zlen in *; rewrite length_take; lia).
  induction fuel as [|fuel IH]; intros j w Hj Hf; cbn [ip_tx_loop];
    pose proof (num_pieces mss len j Hm Hj) as Hk; destruct (Z.ltb_spec j ((len + mss - 1) / mss)) as [Hjk|Hjk];
    rewrite Hk; try (by rewrite seqZ_nil by lia); [lia|].
  assert (mss * j < len) as Hlt by lia. rewrite Z.min_l by lia.
  rewrite seqZ_cons by lia. cbn [map send_all].
  set (x := (mss * j, Z.min mss (len - mss * j))).
  assert (Z.min (len - mss * j) (u64 (mtu - IP_HDR_SIZE_MIN)) = x.2) as ->
    by (unfold IP_HDR_SIZE_MIN; rewrite u64_small by lia; cbn; lia).
  change (mss * j) with x.1.
  assert (Z.lor (if x.1 + x.2 <? len then 8192 else 0) (Z.land (x.1 ≫ 3) 8191) = offset_field p x) as ->
    by (unfold offset_field; by rewrite Hp).
  unfold mbind'. rewrite ip_tx_core_packet with (len := len); [|subst x; cbn; lia..|done|done].
  destruct (ip_tx_netdev _ _ _ _ w) as [[r w1] u1]. destruct (r =? -1); [done|].
  assert (x.1 + x.2 = Z.min (mss * Z.succ j) len) as -> by (subst x; cbn; lia).
  rewrite (IH (Z.succ j) w1) by lia.
  replace (Z.pred ((len + mss - 1) / mss - j)) with ((len + mss - 1) / mss - Z.succ j) by lia.
  by destruct (send_all _ _ _ _ _ w1) as [[r2 w2] u2].
Qed.

Lemma ip_tx_send_all (n : net Ops P) netif mtu protocol buf len dst (s : ip_state U) w :
  netif_mtu n netif = Some mtu -> 20 < mtu <= 4096 -> 0 <= len <= zlen buf ->
  let nexthop := if dst =? IPADDR_BROADCAST then None else Some dst in
  let packet := ip_packet protocol (netif_addr n netif) dst (ip_next_id s) (take (Z.to_nat len) buf) in
  ip_tx n (Some netif) protocol buf len dst (s, w)
  = let '(r, w', u) := send_all n netif nexthop len (map packet (pieces (mtu - 20) len)) w in
    (Some r, (set_ip_next_id (u16 (ip_next_id s + 1)) s, w'), u).
Proof.
  intros Hmtu Hr Hlen nexthop packet. unfold ip_tx, on_fst, ip_generate_id, zoom. rewrite !Hmtu. run.
  destruct (Z.ltb_spec 0 len) as [Hl|Hl].
  - unfold on_snd, zoom. cbn [snd fst].
    pose proof (ip_tx_loop_sends n netif mtu protocol buf len) as Hloop.
    specialize (Hloop (if dst =? IPADDR_BROADCAST then None else Some (netif_addr n netif)) dst nexthop
      (ip_next_id s) Hr Hlen ltac:(case_match; auto) (Z.to_nat len) 0 w).
    rewrite Z.mul_0_r, Z.min_l, Z.sub_0_r in Hloop by lia. specialize (Hloop ltac:(lia) ltac:(lia)).
    assert (Some netif ≫= (fun i => nif ← niftab n !! i; Some (nif_unicast nif)) = Some (netif_addr n netif)) as ->.
    { unfold netif_addr. unfold netif_mtu in Hmtu. cbn. by destruct (niftab n !! netif). }
    unfold pieces. rewrite map_map. fold packet in Hloop. fold nexthop. rewrite Hloop, Z.sub_0_r.
    clear Hloop. by repeat case_match; simplify_eq.
  - assert (len = 0) as -> by lia. unfold pieces.
    rewrite Z.add_0_l, Z.div_small by lia. done.
Qed.

(** C12: [ip_tx] is a loop-free specification: it takes the next identification
    and hands the link layer the datagrams that carry the consecutive pieces of
    the payload, at most MTU octets each, until all are taken or one is
    refused; it returns [len] in the first case and -1 in the second.  It
    always returns (the MTU leaves room for data), its packet buffer never
    overflows and it reads only the payload. *)
Theorem ip_tx_sends_fragments (n : net Ops P) netif mtu protocol buf len dst (s : ip_state U) w :
  netif_mtu n netif = Some mtu -> 20 < mtu <= 4096 -> 0 <= len <= zlen buf ->
  let nexthop := if dst =? IPADDR_BROADCAST then None else Some dst in
  let packet := ip_packet protocol (netif_addr n netif) dst (ip_next_id s) (take (Z.to_nat len) buf) in
  ip_tx n (Some netif) protocol buf len dst (s, w)
  = let '(r, w', u) := send_all n netif nexthop len (map packet (pieces (mtu - 20) len)) w in
    (Some r, (set_ip_next_id (u16 (ip_next_id s + 1)) s, w'), u).
Proof. apply ip_tx_send_all. Qed.
End Tx.

(** ** Receiving *)

Lemma u8191_offset p x : piece_ok p x -> zlen p <= 65535 ->
  (nz (Z.land (offset_field p x) 8192) || nz (Z.land (offset_field p x) 8191))
  = negb ((x.1 =? 0) && (x.2 =? zlen p)).
Proof.
  intros Hx Hp. pose proof (offset_field_more p x Hx Hp) as E1.
  pose proof (offset_field_off p x Hx Hp) as E2. destruct Hx as (H0 & H1 & H2 & H3).
  set (a := Z.land (offset_field p x) 8191) in *. unfold nz. rewrite E1.
  assert (0 <= a < 8192) as Ha.
  { subst a. change 8191 with (2 ^ 13 - 1). rewrite land_ones_mod by lia.
    pose proof (Z.mod_pos_bound (offset_field p x) (2 ^ 13) ltac:(lia)). lia. }
  rewrite Z.shiftl_mul_pow2 in E2 by lia. rewrite u16_small in E2 by (unfold is_u16; lia).
  destruct (Z.eqb_spec a 0); lia.
Qed.

(** The parameters of a datagram are within their fields. *)
Record dgram_ok (protocol src dst id : Z) (p : bytes) : Prop := {
  dg_protocol : is_u8 protocol; dg_src : is_u32 src; dg_dst : is_u32 dst; dg_id : is_u16 id;
  dg_len : 0 < zlen p <= 65535
}.

(** A datagram of the sender, with the padding the link added, reaches the
    dispatcher or the reassembly with its own octets. *)
Lemma ip_rx_packet (n : net Ops P) dev iface protocol src dst id p x pad t1 t2 t3 m (s : ip_state U) :
  dgram_ok protocol src dst id p -> piece_ok p x -> 20 + x.2 <= 65535 -> accepts n dev iface dst ->
  let h := ip_make_hdr protocol x.2 src dst id (offset_field p x) in
  let data := take (Z.to_nat x.2) (drop (Z.to_nat x.1) p) ++ pad in
  let dgram := ip_packet protocol src dst id p x ++ pad in
  ip_rx n dgram (zlen dgram) dev t1 t2 t3 m s
  = if (x.1 =? 0) && (x.2 =? zlen p) then (ip_dispatch h data x.2 iface s, s, [])
    else mbind' (on_frags (ip_fragment_process h data x.2 t1 t2 t3 m)) (ip_rx_fragment h iface) s.
Proof.
  intros [Hpr Hsrc Hdst Hid Hp] Hx Hmax Hacc h data dgram.
  assert (is_u16 (offset_field p x)) as Ho by (apply offset_field_u16, Hx).
  assert (dgram = ip_hdr_store h ++ data) as -> by (subst dgram data; unfold ip_packet; by rewrite <- app_assoc).
  destruct (ip_hdr_store_octets h) as (Hl & _); [by apply ip_make_hdr_wf|].
  pose proof Hx as (H0 & H1 & H2 & H3).
  assert (x.2 <= zlen data) by (subst data; unfold zlen in *; rewrite length_app, length_take, length_drop; lia).
  pose proof (ip_rx_validate_made n dev iface protocol x.2 src dst id (offset_field p x) data
    (zlen (ip_hdr_store h ++ data))) as Hv. cbv zeta in Hv. fold h in Hv.
  unfold ip_rx. rewrite Hv by (try done; rewrite ?zlen_app; lia). run.
  assert (ntoh16 (ih_len h) = 20 + x.2) as ->.
  { change (ih_len h) with (hton16 (u16 (20 + x.2))).
    rewrite u16_small, ntoh16_hton16 by (unfold is_u16; lia). done. }
  assert (ntoh16 (ih_offset h) = offset_field p x) as -> by (by apply ntoh16_hton16).
  rewrite u8191_offset by (done || lia).
  replace (u64 (20 + x.2 - 20)) with x.2 by (rewrite u64_small; lia).
  rewrite drop_app_length' by (unfold zlen in Hl; lia).
  by destruct ((x.1 =? 0) && (x.2 =? zlen p)).
Qed.

(** A datagram on the way: its fragment, the padding of its frame and the clock
    readings of its reception. *)
Record arrival := Arrival { ar_piece : piece; ar_pad : bytes; ar_t1 : Z; ar_t2 : Z; ar_t3 : Z }.

(** The reception of a sequence of datagrams. *)
Fixpoint rx_all (n : net Ops P) (dev : devid) (m : option frag_block) (packet : piece -> bytes)
    (arrivals : list arrival) : M (ip_state U) (list (option (delivery U))) :=
  match arrivals with
  | [] => ret []
  | a :: arrivals =>
      let dgram := packet (ar_piece a) ++ ar_pad a in
      let* r := ip_rx n dgram (zlen dgram) dev (ar_t1 a) (ar_t2 a) (ar_t3 a) m in
      let* rs := rx_all n dev m packet arrivals in
      ret (r :: rs)
  end.

Section Rx.
Context (n : net Ops P) (dev : devid) (iface : nifid) (protocol src dst id : Z) (p : bytes).
Context (Hok : dgram_ok protocol src dst id p) (Hacc : accepts n dev iface dst).

Definition fragment_in (a : arrival) : frag_in :=
  FragIn (ip_make_hdr protocol (ar_piece a).2 src dst id (offset_field p (ar_piece a)))
    (take (Z.to_nat (ar_piece a).2) (drop (Z.to_nat (ar_piece a).1) p) ++ ar_pad a)
    (ar_piece a) (ar_t1 a) (ar_t2 a) (ar_t3 a).

(** A proper fragment that fits a datagram. *)
Definition proper (x : piece) : Prop := piece_ok p x /\ 20 + x.2 <= 65535 /\ x.2 < zlen p.

Lemma ip_rx_proper a m (s : ip_state U) : proper (ar_piece a) ->
  let dgram := ip_packet protocol src dst id p (ar_piece a) ++ ar_pad a in
  let x := fragment_in a in
  ip_rx n dgram (zlen dgram) dev (ar_t1 a) (ar_t2 a) (ar_t3 a) m s
  = mbind' (on_frags (ip_fragment_process (in_hdr x) (in_payload x) (in_piece x).2 (in_t1 x) (in_t2 x) (in_t3 x) m))
      (ip_rx_fragment (in_hdr x) iface) s.
Proof.
  intros (Hx & Hmax & Hlt) dgram x. subst dgram. rewrite (ip_rx_packet n dev iface) by done.
  rewrite (proj2 (Z.eqb_neq _ (zlen p))) by lia. by rewrite andb_false_r.
Qed.

Lemma rx_all_process l f m fs' final : forall arrivals (s : ip_state U) u,
  Forall (fun a => proper (ar_piece a)) (arrivals ++ [final]) ->
  process_all m (map fragment_in (arrivals ++ [final])) (ip_frags s)
    = (replicate (length arrivals) None ++ [Some l], fs', u) ->
  frag_heap fs' !! l = Some f ->
  rx_all n dev m (ip_packet protocol src dst id p) (arrivals ++ [final]) s
  = (replicate (length arrivals) None ++
       [ip_dispatch (in_hdr (fragment_in final)) (fr_data f) (fr_len f) iface s],
     set_ip_frags (set_frag_heap (delete l (frag_heap fs')) fs') s, u).
Proof.
  induction arrivals as [|a arrivals IH]; intros s u Hpr E Hf; cbn [app] in *;
    apply Forall_cons in Hpr as [Ha Hpr]; cbn [rx_all]; unfold mbind' at 1;
    rewrite (ip_rx_proper _ m s Ha); unfold mbind' at 1; unfold on_frags at 1, zoom;
    cbn [map process_all] in E; unfold mbind' at 1 in E;
    destruct (ip_fragment_process _ _ _ _ _ _ m (ip_frags s)) as [[r0 fs0] u0].
  - cbn in E. injection E as -> -> <-. unfold ip_rx_fragment. run. cbn [ip_frags set_ip_frags]. rewrite Hf.
    unfold on_frags, zoom, ip_fragment_free. cbn. rewrite Hf, !app_nil_r. done.
  - destruct (process_all m (map fragment_in (arrivals ++ [final])) fs0) as [[rs fs1] u1] eqn:E1.
    unfold mbind' in E. rewrite E1 in E. cbn in E. injection E as -> -> -> <-. cbn [ip_rx_fragment mret'].
    rewrite (mbind_run _ _ _ _ _ _ (IH (set_ip_frags fs0 s) _ Hpr E1 Hf)). cbn. by rewrite !app_nil_r.
Qed.

End Rx.

(** *** The pieces of a payload *)

Lemma elem_of_pieces mss len x : 0 < mss -> x ∈ pieces mss len ->
  exists j, 0 <= j /\ mss * j < len /\ x = (mss * j, Z.min mss (len - mss * j)).
Proof.
  intros Hm. unfold pieces. rewrite list_elem_of_fmap. intros (j & -> & Hj). apply elem_of_seqZ in Hj.
  exists j. split_and!; [lia| |done]. pose proof (num_pieces mss len j Hm ltac:(lia)) as E.
  destruct (Z.ltb_spec j ((len + mss - 1) / mss)); lia.
Qed.

Lemma pieces_ok mss p : 0 < mss -> mss mod 8 = 0 -> Forall (piece_ok p) (pieces mss (zlen p)).
Proof.
  intros Hm H8. apply Forall_forall. intros x (j & Hj & Hlt & ->)%elem_of_pieces; [|done].
  split_and!; cbn; try lia. rewrite Z.mul_comm, Z.mul_mod, H8, Z.mul_0_r by lia. done.
Qed.

Lemma pieces_cover mss p : 0 < mss -> covers p (pieces mss (zlen p)).
Proof.
  intros Hm i Hi. apply existsb_exists. pose proof (Z.div_mod i mss ltac:(lia)).
  pose proof (Z.mod_pos_bound i mss Hm). set (j := i / mss) in *.
  assert (0 <= j) by (apply Z.div_pos; lia).
  exists (mss * j, Z.min mss (zlen p - mss * j)). unfold in_range. cbn. split; [|lia].
  apply in_map_iff. exists j. split; [done|]. apply list_elem_of_In, elem_of_seqZ.
  pose proof (num_pieces mss (zlen p) j Hm ltac:(lia)) as E.
  destruct (Z.ltb_spec j ((zlen p + mss - 1) / mss)); lia.
Qed.

Lemma pieces_nodup mss len : 0 < mss -> NoDup (pieces mss len).
Proof.
  intros Hm. unfold pieces. apply NoDup_fmap_2; [|apply NoDup_seqZ].
  intros i j [=]. nia.
Qed.

(** No piece is redundant. *)
Lemma pieces_needed mss p xs x : 0 < mss -> xs ++ [x] ≡ₚ pieces mss (zlen p) -> ~ covers p xs.
Proof.
  intros Hm Hperm Hc. pose proof (pieces_nodup mss (zlen p) Hm) as Hnd. rewrite <- Hperm in Hnd.
  apply NoDup_app in Hnd as (_ & Hx & _).
  destruct (elem_of_pieces mss (zlen p) x Hm) as (j & Hj & Hlt & Ex); [rewrite <- Hperm; set_solver|].
  specialize (Hc (mss * j) ltac:(lia)). apply existsb_exists in Hc as (y & Hy & Hr).
  apply list_elem_of_In in Hy.
  destruct (elem_of_pieces mss (zlen p) y Hm) as (i & Hi & Hlt' & Ey); [rewrite <- Hperm; set_solver|].
  apply (Hx y Hy). subst x y. unfold in_range in Hr. cbn in Hr.
  assert (i = j) as -> by nia. left.
Qed.

Lemma pieces_single mss len : 0 < len <= mss -> pieces mss len = [(0, len)].
Proof.
  intros Hl. unfold pieces. assert ((len + mss - 1) / mss = 1) as ->
    by (symmetry; apply Z.div_unique with (len - 1); lia).
  rewrite seqZ_cons, seqZ_nil by lia. cbn [map]. by rewrite Z.mul_0_r, Z.sub_0_r, Z.min_r by lia.
Qed.

(** ** From one host to another *)

(** The reassembly state has room for the datagram, which is new to it; the
    other datagrams in progress do not expire before [t0 + 30]. *)
Record ready (k : ip_hdr) (l : loc) (junk : ip_fragment) (spare : list Z) (t0 : Z) (s : frags) : Prop := {
  rd_fresh : frag_heap s !! l = None;
  rd_block : block junk spare;
  rd_count : 0 <= frag_count s < IP_FRAGMENT_NUM_MAX;
  rd_recent : Forall (recent (t0 + IP_FRAGMENT_TIMEOUT_SEC) (frag_heap s)) (fragments s);
  rd_unknown : unknown k (frag_heap s) (fragments s)
}.

(** The datagram needs several fragments. *)
Lemma transfer_fragmented (n : net Ops P) dev iface protocol src dst id p mss arrivals final (s : ip_state U)
    l junk spare t0 :
  dgram_ok protocol src dst id p -> accepts n dev iface dst ->
  0 < mss < zlen p -> mss mod 8 = 0 -> 20 + mss <= 65535 ->
  map ar_piece (arrivals ++ [final]) ≡ₚ pieces mss (zlen p) ->
  Forall (fun a => t0 <= ar_t2 a <= t0 + IP_FRAGMENT_TIMEOUT_SEC /\ t0 <= ar_t3 a) (arrivals ++ [final]) ->
  ready (ip_make_hdr protocol 0 src dst id 0) l junk spare t0 (ip_frags s) ->
  exists fs' f,
    rx_all n dev (Some (FragBlock l junk spare)) (ip_packet protocol src dst id p) (arrivals ++ [final]) s
    = (replicate (length arrivals) None ++
         [ip_dispatch (ip_make_hdr protocol 0 src dst id 0) (fr_data f) (zlen p) iface s],
       set_ip_frags (set_frag_heap (delete l (frag_heap fs')) fs') s, []) /\
    take (Z.to_nat (zlen p)) (fr_data f) = p /\
    fragments fs' = fragments (ip_frags s) /\ frag_count fs' = frag_count (ip_frags s).
Proof.
  intros Hok Hacc Hm H8 Hmax Hperm Ht [Hfresh Hblock Hcnt Hrec Hunk].
  assert (forall a, a ∈ arrivals ++ [final] -> proper p (ar_piece a)) as Hproper.
  { intros a Ha. assert (ar_piece a ∈ pieces mss (zlen p)) as Hin.
    { rewrite <- Hperm. by apply list_elem_of_fmap_2. }
    pose proof (pieces_ok mss p ltac:(lia) H8) as Hpo. rewrite Forall_forall in Hpo.
    split; [by apply Hpo|]. destruct (elem_of_pieces mss (zlen p) (ar_piece a)) as (j & ? & ? & ->); [lia|done|].
    cbn. lia. }
  destruct (process_all_complete (ip_make_hdr protocol 0 src dst id 0) p t0 (ip_frags s) l junk spare
    (map (fragment_in protocol src dst id p) arrivals) (fragment_in protocol src dst id p final))
    as (fs' & E & Hl & Hc & f & Hf & Hlen & Hdata); try done.
  - destruct Hok. unfold FRAG_DATA_SIZE. lia.
  - change [fragment_in ?a ?b ?c ?d ?e final] with (map (fragment_in a b c d e) [final]).
    rewrite <- map_app. apply Forall_fmap, Forall_forall. intros a Ha. cbn.
    rewrite Forall_forall in Ht. specialize (Ht a Ha). destruct (Hproper a Ha) as (Hx & _).
    split; [|done]. split_and!; [done|done| |by eexists].
    apply ntoh16_hton16, offset_field_u16, Hx.
  - rewrite map_map. cbn. rewrite map_app in Hperm. by eapply pieces_needed; [|done]; lia.
  - rewrite map_app, map_map. cbn. rewrite map_app in Hperm. cbn in Hperm.
    intros i Hi. pose proof (pieces_cover mss p ltac:(lia) i Hi) as Hcov. unfold covered in *.
    apply existsb_exists in Hcov as (x & Hin & Hr). apply existsb_exists. exists x. split; [|done].
    apply list_elem_of_In. rewrite Hperm. by apply list_elem_of_In.
  - exists fs', f. split; [|done].
    rewrite (rx_all_process n dev iface protocol src dst id p Hok Hacc l f _ fs' final arrivals s []).
    + by rewrite Hlen.
    + by apply Forall_forall.
    + rewrite map_app. cbn [map]. rewrite E. by rewrite length_map.
    + done.
Qed.

Lemma ip_transfer (n : net Ops P) dev iface protocol src dst id p mss arrivals (s : ip_state U)
    l junk spare t0 q :
  dgram_ok protocol src dst id p -> accepts n dev iface dst ->
  0 < mss -> mss mod 8 = 0 -> 20 + mss <= 65535 ->
  map ar_piece arrivals ≡ₚ pieces mss (zlen p) ->
  Forall (fun a => t0 <= ar_t2 a <= t0 + IP_FRAGMENT_TIMEOUT_SEC /\ t0 <= ar_t3 a) arrivals ->
  ready (ip_make_hdr protocol 0 src dst id 0) l junk spare t0 (ip_frags s) ->
  List.find (fun q => q.1 =? protocol) (protocols s) = Some q ->
  exists s' data,
    rx_all n dev (Some (FragBlock l junk spare)) (ip_packet protocol src dst id p) arrivals s
    = (replicate (length arrivals - 1) None ++ [Some (Delivery q.2 data (zlen p) src dst iface)], s',
       []) /\
    take (Z.to_nat (zlen p)) data = p /\
    fragments (ip_frags s') = fragments (ip_frags s) /\
    frag_count (ip_frags s') = frag_count (ip_frags s) /\ frag_heap (ip_frags s') !! l = None.
Proof.
  intros Hok Hacc Hm H8 Hmax Hperm Ht Hready Hq. pose proof (dg_len _ _ _ _ _ Hok) as Hp.
  destruct (Z.ltb_spec mss (zlen p)) as [Hlt|Hge].
  - destruct (exists_last (l := arrivals)) as (init & final & ->).
    { intros ->. pose proof (pieces_cover mss p Hm 0 ltac:(lia)) as Hc.
      apply Permutation_nil_l in Hperm. by rewrite <- Hperm in Hc. }
    destruct (transfer_fragmented n dev iface protocol src dst id p mss init final s l junk spare t0)
      as (fs' & f & E & Hd & Hl & Hc); [done..|].
    exists (set_ip_frags (set_frag_heap (delete l (frag_heap fs')) fs') s), (fr_data f). rewrite E. split; [|split_and!; [done|done|done|by apply lookup_delete_eq]].
    unfold ip_dispatch. cbn [ih_protocol ip_make_hdr]. rewrite Hq, length_app, Nat.add_sub. done.
  - rewrite pieces_single in Hperm by lia.
    destruct arrivals as [|a [|b arrivals]]; try (apply Permutation_length in Hperm; done).
    apply Permutation_singleton_inj in Hperm. cbn [rx_all].
    rename Hperm into Ea.
    pose proof (ip_rx_packet n dev iface protocol src dst id p (ar_piece a) (ar_pad a) (ar_t1 a) (ar_t2 a)
      (ar_t3 a) (Some (FragBlock l junk spare)) s Hok) as E. cbv zeta in E. rewrite Ea in E |- *. cbn [fst snd] in E.
    rewrite !Z.eqb_refl in E. cbn [andb] in E.
    assert (piece_ok p (0, zlen p)) by (split_and!; cbn; lia || done).
    rewrite (mbind_run_nil _ _ _ _ _ (E ltac:(done) ltac:(lia) Hacc)).
    unfold ip_dispatch. cbn [ih_protocol ip_make_hdr]. rewrite Hq.
    eexists s, _. split; [done|]. split_and!; [|done|done|apply Hready].
    change (Z.to_nat 0) with 0%nat. by rewrite drop_0, (take_ge p), take_app_length' by (unfold zlen; lia).
Qed.


(** ** What is delivered *)

(** The tests that [ip_rx] makes.  None of them compares the total length with the
    header length, or the header length with 20. *)
Record ip_tests (n : net Ops P) (dgram : bytes) (dlen : Z) (dev : devid) (hdr : ip_hdr) (hlen : Z) (iface : nifid) (u : list ub)
  : Prop := {
  it_received : 20 <= dlen;
  it_header : ip_hdr_load dgram = Some hdr;
  it_version : Z.shiftr (ih_vhl hdr) 4 = IP_VERSION_IPV4;
  it_hlen : hlen = u16 (Z.shiftl (Z.land (ih_vhl hdr) 15) 2);
  it_hlen_received : hlen <= dlen;
  it_len_received : ntoh16 (ih_len hdr) <= dlen;
  it_cksum : cksum16 dgram hlen 0 = (0, u);
  it_ttl : ih_ttl hdr <> 0;
  it_accepts : accepts n dev iface (ih_dst hdr)
}.

Lemma ip_rx_validate_iff (n : net Ops P) dgram dlen dev hdr hlen iface u :
  ip_rx_validate n dgram dlen dev = (Some (hdr, hlen, iface), u) <-> ip_tests n dgram dlen dev hdr hlen iface u.
Proof.
  split.
  - unfold ip_rx_validate. destruct (Z.ltb_spec dlen 20); [done|].
    destruct (ip_hdr_load dgram) as [h|] eqn:Eh; [|done].
    destruct (Z.eqb_spec (ih_vhl h ≫ 4) IP_VERSION_IPV4); cbn [negb]; [|done].
    set (hl := u16 _). destruct (Z.ltb_spec dlen hl); cbn [orb]; [done|].
    destruct (Z.ltb_spec dlen (ntoh16 (ih_len h))); [done|].
    destruct (cksum16 dgram hl 0) as [sum u'] eqn:Ec. destruct (Z.eqb_spec sum 0) as [->|]; cbn [negb]; [|done].
    unfold nz. destruct (Z.eqb_spec (ih_ttl h) 0); cbn [negb]; [done|].
    destruct (netdev_get_netif dev _ n) as [[i|] u2] eqn:Ei; [|done].
    assert (u2 = []) as -> by (unfold netdev_get_netif in Ei; destruct (devtab n !! dev); [by eapply netif_search_some|done]).
    destruct (niftab n !! i) as [nif|] eqn:En; [|done]. rewrite app_nil_r.
    destruct (negb (ih_dst h =? nif_unicast nif) && _) eqn:Ed; [done|]. intros [= <- <- <- <-].
    split; try done. split; [done|]. exists nif. split; [done|]. lia.
  - intros [H1 H2 H3 -> H5 H6 H7 H8 (H9 & nif & Hnif & Hdst)]. unfold ip_rx_validate.
    rewrite H2, H3, Z.eqb_refl, !(proj2 (Z.ltb_ge _ _)) by done. cbn [negb orb]. rewrite H7. cbn [Z.eqb negb].
    unfold nz. rewrite (proj2 (Z.eqb_neq _ _)) by done. cbn [negb]. rewrite H9, Hnif, app_nil_r.
    destruct Hdst as [-> | [-> | ->]]; rewrite Z.eqb_refl; cbn [negb andb]; by rewrite ?andb_false_r.
Qed.

Lemma ip_dispatch_some hdr payload plen iface (s : ip_state U) d :
  ip_dispatch hdr payload plen iface s = Some d <->
  exists q, List.find (fun q => q.1 =? ih_protocol hdr) (protocols s) = Some q /\
    d = Delivery q.2 payload plen (ih_src hdr) (ih_dst hdr) iface.
Proof.
  unfold ip_dispatch. destruct (List.find _ _) as [q|]; split; try done.
  - intros [= <-]. by exists q.
  - by intros (? & [= <-] & ->).
  - by intros (? & ? & _).
Qed.

(** The datagram is not a fragment. *)
Definition whole (hdr : ip_hdr) : bool :=
  negb (nz (Z.land (ntoh16 (ih_offset hdr)) 8192) || nz (Z.land (ntoh16 (ih_offset hdr)) 8191)).

(** C20: which datagrams [ip_rx] gives to a protocol.  A datagram that is no fragment is
    given to the handler registered for its protocol exactly when version, received
    length, header checksum and TTL pass the tests of the code and it is addressed to
    the receiving interface or to a broadcast address; the handler gets the octets
    after the header, the total length less the header length modulo 2^64, and the
    addresses of the header.  A fragment leads to a call only if it passes the same
    tests, and to one with its own protocol and addresses.  (A total length below the
    header length is not among the tests: see [ip_rx_length_underflow].) *)
Theorem ip_rx_delivers (n : net Ops P) dgram dlen dev t1 t2 t3 m (s : ip_state U) hdr d :
  ip_hdr_load dgram = Some hdr ->
  let call payload plen := exists hlen iface u q, ip_tests n dgram dlen dev hdr hlen iface u /\
    List.find (fun q => q.1 =? ih_protocol hdr) (protocols s) = Some q /\
    d = Delivery q.2 (payload hlen) (plen hlen) (ih_src hdr) (ih_dst hdr) iface in
  (whole hdr = true -> rval (ip_rx n dgram dlen dev t1 t2 t3 m s) = Some d <->
     call (fun hlen => drop (Z.to_nat hlen) dgram) (fun hlen => u64 (ntoh16 (ih_len hdr) - hlen))) /\
  (rval (ip_rx n dgram dlen dev t1 t2 t3 m s) = Some d -> exists payload plen, call (fun _ => payload) (fun _ => plen)).
Proof.
  intros Hh call. subst call. cbv beta. unfold ip_rx.
  destruct (ip_rx_validate n dgram dlen dev) as [[[[h hlen] iface]|] u0] eqn:Ev; cycle 1.
  { split; [|done]. intros _. split; [done|]. intros (hlen & iface & u & q & Ht & _). apply ip_rx_validate_iff in Ht. congruence. }
  pose proof (proj1 (ip_rx_validate_iff _ _ _ _ _ _ _ _) Ev) as Ht. pose proof (it_header _ _ _ _ _ _ _ _ Ht) as Hh'.
  rewrite Hh in Hh'. injection Hh' as <-. rewrite rval_bind. cbn [tell rval rst fst snd].
  assert (forall hlen' iface' u', ip_tests n dgram dlen dev hdr hlen' iface' u' -> hlen' = hlen /\ iface' = iface) as Huniq.
  { intros hlen' iface' u' Ht'. apply ip_rx_validate_iff in Ht'. rewrite Ev in Ht'. by injection Ht' as -> -> _. }
  split.
  - intros Hw. unfold whole in Hw. apply negb_true_iff in Hw. rewrite Hw. cbn [gets rval fst]. rewrite ip_dispatch_some. split.
    + intros (q & Hq & ->). by exists hlen, iface, u0, q.
    + intros (hlen' & iface' & u' & q & Ht' & Hq & ->). destruct (Huniq _ _ _ Ht') as [-> ->]. by exists q.
  - destruct (nz _ || nz _); cycle 1.
    { cbn [gets rval fst]. rewrite ip_dispatch_some. intros (q & Hq & ->). eexists _, _, hlen, iface, u0, q. by split_and!. }
    rewrite rval_bind. unfold on_frags, zoom. destruct (ip_fragment_process _ _ _ _ _ _ m (ip_frags s)) as [[[l|] fs] u1]; [|done].
    cbn [rval rst fst snd]. unfold ip_rx_fragment. rewrite rval_bind. cbn [gets rval rst fst snd ip_frags set_ip_frags].
    destruct (frag_heap fs !! l) as [f|]; [|done]. rewrite rval_bind, rval_bind. cbn [gets rval rst fst snd mret'].
    rewrite ip_dispatch_some. intros (q & Hq & ->). eexists _, _, hlen, iface, u0, q. by split_and!.
Qed.

(** The length field of a datagram is not compared with its header length.
    For an unfragmented datagram that passes the tests but claims a total
    length below its header length, the payload length given to the handler
    wraps around to nearly 2^64. *)
Theorem ip_rx_length_underflow (n : net Ops P) dgram dlen dev t1 t2 t3 m (s : ip_state U) hdr hlen iface q :
  ip_rx_validate n dgram dlen dev = (Some (hdr, hlen, iface), []) ->
  0 <= ntoh16 (ih_len hdr) < hlen -> ntoh16 (ih_offset hdr) = 0 ->
  List.find (fun q => q.1 =? ih_protocol hdr) (protocols s) = Some q ->
  exists payload, ip_rx n dgram dlen dev t1 t2 t3 m s
    = (Some (Delivery q.2 payload (18446744073709551616 + ntoh16 (ih_len hdr) - hlen)
               (ih_src hdr) (ih_dst hdr) iface), s, []).
Proof.
  intros Ev Hlen Ho Hq.
  pose proof (it_hlen _ _ _ _ _ _ _ _ (proj1 (ip_rx_validate_iff _ _ _ _ _ _ _ _) Ev)) as Hh.
  unfold ip_rx. rewrite Ev. run. rewrite Ho.
  change (nz (Z.land 0 8192) || nz (Z.land 0 8191)) with false. cbv iota.
  eexists. unfold gets, ip_dispatch. rewrite Hq. do 4 f_equal.
  assert (is_u16 hlen) by (subst hlen; auto with net). wrap_lia.
Qed.

End Facts.

(** ** Witnesses *)

(** A host with one interface, address 2, on a device with an MTU of 36; the link
    layer records what it is given. *)
Definition sample_net : net unit unit :=
  Net [] [] [0%nat] {[0%nat := Netdev (Some 0%nat) [] NETDEV_TYPE_ETHERNET 36 0 14 6 [] [] [] tt]}
    {[0%nat := Netif None NETIF_FAMILY_IPV4 (Some 0%nat) 2 0 0 4294967295 0]}.

Definition sample_link : LinkLayer (list bytes) := {|
  ll_resolve _ _ _ := ret (ARP_RESOLVE_FOUND, []);
  dev_tx _ _ pkt _ := fun w => (zlen pkt, w ++ [pkt], [])
|}.

Definition sample_state : ip_state nat := IpState frags_init 128 None [(6, 9%nat)].

Lemma ip_tx_sends_fragments_witness :
  (rst (ip_tx (H := LittleEndian) (LL := sample_link) sample_net (Some 0%nat) 6 sample_payload 20 1 (sample_state, []))).2
  = map (ip_packet (H := LittleEndian) 6 2 1 128 sample_payload) [(0, 16); (16, 4)].
Proof.
  pose proof (ip_tx_sends_fragments (H := LittleEndian) (LL := sample_link) sample_net 0%nat 36 6 sample_payload 20 1
    sample_state [] eq_refl ltac:(lia) ltac:(done)) as E. cbv zeta in E. unfold rst. rewrite E.
  vm_compute. reflexivity.
Defined.

Lemma sample_accepts : accepts sample_net 0%nat 0%nat 2.
Proof. split; [reflexivity|]. eexists. split; [reflexivity|]. by left. Qed.

Lemma sample_dgram_ok : dgram_ok 6 1 2 128 sample_payload.
Proof. split; try (vm_compute; split; (discriminate || reflexivity)). Qed.


(** A datagram of one octet, and one whose length field is 19. *)
Definition sample_dgram : bytes := ip_packet (H := LittleEndian) 6 1 2 128 [7] (0, 1).
Definition sample_short : bytes := ip_hdr_store (H := LittleEndian) (ip_make_hdr (H := LittleEndian) 6 (-1) 1 2 128 0).

Lemma ip_rx_delivers_witness : exists hdr hlen iface u q, ip_hdr_load (H := LittleEndian) sample_dgram = Some hdr /\
  ip_tests (H := LittleEndian) sample_net sample_dgram 21 0%nat hdr hlen iface u /\
  List.find (fun q => q.1 =? ih_protocol hdr) (protocols sample_state) = Some q /\
  Delivery 9%nat [7] 1 1 2 0%nat = Delivery q.2 (drop (Z.to_nat hlen) sample_dgram)
    (u64 (ntoh16 (H := LittleEndian) (ih_len hdr) - hlen)) (ih_src hdr) (ih_dst hdr) iface.
Proof.
  pose (hdr := ip_make_hdr (H := LittleEndian) 6 1 1 2 128 0).
  destruct (ip_rx_delivers (H := LittleEndian) sample_net sample_dgram 21 0%nat 0 0 0 None sample_state hdr
    (Delivery 9%nat [7] 1 1 2 0%nat)) as [[Hd _] _]; [vm_compute; reflexivity|vm_compute; reflexivity|].
  destruct Hd as (hlen & iface & u & q & E); [vm_compute; reflexivity|]. exists hdr, hlen, iface, u, q.
  split; [vm_compute; reflexivity|exact E].
Defined.

Lemma ip_rx_length_underflow_witness : exists payload,
  ip_rx (H := LittleEndian) sample_net sample_short 20 0%nat 0 0 0 None sample_state
  = (Some (Delivery 9%nat payload 18446744073709551615 1 2 0%nat), sample_state, []).
Proof.
  apply (ip_rx_length_underflow (H := LittleEndian) sample_net sample_short 20 0%nat 0 0 0 None sample_state
    (ip_make_hdr (H := LittleEndian) 6 (-1) 1 2 128 0) 20 0%nat (6, 9%nat)).
  - vm_compute. reflexivity.
  - vm_compute. split; [discriminate | reflexivity].
  - reflexivity.
  - reflexivity.
Defined.
