(* ===== verification/Arp.v ===== *)
(** * Address resolution (src/arp.c, src/arp.h)

    The table is a list of entries; a [struct arp_entry *] is an index.  The device
    below is an interface, [Device], over a world of its own; the readings of the
    clock and the results of [malloc] are arguments.  [arp_resolve] may wait on the
    condition variable of an entry: it is then [ArpBlocked], and
    [arp_resolve_wake] is what it does when the wait ends. *)

From S2P Require Import Prelude Endian Addr Net Ethernet Ip.

(** ** Constants and data *)

Definition ARP_HRD_ETHERNET : Z := 1.
Definition ARP_OP_REQUEST : Z := 1.
Definition ARP_OP_REPLY : Z := 2.
Definition ARP_TABLE_SIZE : nat := 4096.
Definition ARP_TABLE_TIMEOUT_SEC : Z := 300.
Definition IP_ADDR_LEN : Z := 4.
Definition EINTR : Z := 4.
Definition ETIMEDOUT : Z := 110.

(** [struct arp_ethernet], 28 octets without padding. *)
Record arp_ethernet := ArpEthernet {
  am_hrd : Z; am_pro : Z; am_hln : Z; am_pln : Z; am_op : Z;
  am_sha : bytes; am_spa : Z; am_tha : bytes; am_tpa : Z
}.
Definition ARP_ETHERNET_SIZE : Z := 28.

Record arp_entry := ArpEntry {
  ae_used : bool; ae_pa : Z; ae_ha : bytes; ae_timestamp : Z;
  ae_data : option bytes;                 (** with its length *)
  ae_netif : option nifid
}.

Definition ae_set_ha v e := ArpEntry (ae_used e) (ae_pa e) v (ae_timestamp e) (ae_data e) (ae_netif e).
Definition ae_set_timestamp v e := ArpEntry (ae_used e) (ae_pa e) (ae_ha e) v (ae_data e) (ae_netif e).
Definition ae_set_data v e := ArpEntry (ae_used e) (ae_pa e) (ae_ha e) (ae_timestamp e) v (ae_netif e).

(** An entry of the zero-initialised table. *)
Definition arp_entry0 : arp_entry := ArpEntry false 0 ETHERNET_ADDR_ANY 0 None None.

#[export] Instance arp_entry_inhabited : Inhabited arp_entry := populate arp_entry0.

(** [dev->ops->tx]. *)
Class Device (W : Type) := ops_tx : devid -> Z -> bytes -> bytes -> M W Z.

Record arp (W : Type) := Arp {
  arp_table : list arp_entry;
  arp_timestamp : Z;
  arp_mutex : bool;                       (** held *)
  arp_wakes : list nat;                   (** broadcasts, in order *)
  arp_world : W
}.
Arguments Arp {W}.
Arguments arp_table {W}.
Arguments arp_timestamp {W}.
Arguments arp_mutex {W}.
Arguments arp_wakes {W}.
Arguments arp_world {W}.

Definition arp_init_state {W} (w : W) : arp W := Arp (replicate ARP_TABLE_SIZE arp_entry0) 0 false [] w.

(** What a call of [arp_resolve] comes to. *)
Inductive resolve_outcome := Resolved (code : Z) (ha : bytes) | ArpBlocked (entry : nat).

Section Arp.
Context {H : Host} {Ops P W : Type} `{DEV : Device W}.

Definition set_arp_table t (s : arp W) := Arp t (arp_timestamp s) (arp_mutex s) (arp_wakes s) (arp_world s).
Definition set_arp_timestamp t (s : arp W) := Arp (arp_table s) t (arp_mutex s) (arp_wakes s) (arp_world s).
Definition set_arp_mutex b (s : arp W) := Arp (arp_table s) (arp_timestamp s) b (arp_wakes s) (arp_world s).
Definition set_arp_wakes l (s : arp W) := Arp (arp_table s) (arp_timestamp s) (arp_mutex s) l (arp_world s).
Definition set_arp_world w (s : arp W) : arp W := Arp (arp_table s) (arp_timestamp s) (arp_mutex s) (arp_wakes s) w.

Definition entry_get (i : nat) : M (arp W) arp_entry := gets (fun s => arp_table s !!! i).
Definition entry_mod (i : nat) (f : arp_entry -> arp_entry) : M (arp W) unit :=
  modify (fun s => set_arp_table (<[i := f (arp_table s !!! i)]> (arp_table s)) s).
Definition entry_broadcast (i : nat) : M (arp W) unit :=
  modify (fun s => set_arp_wakes (arp_wakes s ++ [i]) s).
Definition arp_lock : M (arp W) unit := fun s =>
  (tt, set_arp_mutex true s, if arp_mutex s then [Deadlock] else []).
Definition arp_unlock : M (arp W) unit := modify (set_arp_mutex false).
Definition arp_tx (dev : devid) (type : Z) (packet dst : bytes) : M (arp W) Z :=
  zoom arp_world set_arp_world (ops_tx dev type packet dst).

(** ** Messages *)

Definition arp_store (m : arp_ethernet) : bytes :=
  store16 (am_hrd m) ++ store16 (am_pro m) ++ [am_hln m; am_pln m] ++ store16 (am_op m)
  ++ am_sha m ++ store32 (am_spa m) ++ am_tha m ++ store32 (am_tpa m).

Definition arp_load (b : bytes) : option arp_ethernet :=
  match b with
  | h0 :: h1 :: p0 :: p1 :: hln :: pln :: o0 :: o1
    :: a0 :: a1 :: a2 :: a3 :: a4 :: a5 :: s0 :: s1 :: s2 :: s3
    :: t0 :: t1 :: t2 :: t3 :: t4 :: t5 :: d0 :: d1 :: d2 :: d3 :: _ =>
      Some (ArpEthernet (load16 h0 h1) (load16 p0 p1) hln pln (load16 o0 o1)
              [a0; a1; a2; a3; a4; a5] (load32 s0 s1 s2 s3) [t0; t1; t2; t3; t4; t5] (load32 d0 d1 d2 d3))
  | _ => None
  end.

(** ** The table *)

Definition arp_table_freespace (t : list arp_entry) : option nat := first_index (fun e => negb (ae_used e)) t.

Definition arp_table_insert (pa : Z) (ha : bytes) (now : Z) : M (arp W) Z :=
  let* t := gets arp_table in
  match arp_table_freespace t with
  | None => ret (-1)
  | Some i =>
      entry_mod i (fun e => ArpEntry true pa (addr_copy (ae_ha e) ha) now (ae_data e) (ae_netif e)) ;;;
      entry_broadcast i ;;;
      ret 0
  end.

Definition arp_table_select (pa : Z) (t : list arp_entry) : option nat :=
  first_index (fun e => ae_used e && (ae_pa e =? pa)) t.

(** [entry->netif->dev]. *)
Definition entry_dev (n : net Ops P) (e : arp_entry) : option devid :=
  i ← ae_netif e; nif ← niftab n !! i; nif_dev nif.

Definition arp_table_update (n : net Ops P) (dev : devid) (pa : Z) (ha : bytes) (now : Z) : M (arp W) Z :=
  let* t := gets arp_table in
  match arp_table_select pa t with
  | None => ret (-1)
  | Some i =>
      entry_mod i (fun e => ae_set_timestamp now (ae_set_ha (addr_copy (ae_ha e) ha) e)) ;;;
      let* e := entry_get i in
      match ae_data e with
      | None => ret tt
      | Some data =>
          match entry_dev n e with
          | None => tell [NullDeref]
          | Some dev' =>
              let dev := if Nat.eqb dev' dev then dev else dev' in
              arp_tx dev ETHERNET_TYPE_IP data (ae_ha e) ;;;
              entry_mod i (ae_set_data None)
          end
      end ;;;
      entry_broadcast i ;;;
      ret 0
  end.

Definition arp_entry_clear (e : arp_entry) : arp_entry := ArpEntry false 0 ETHERNET_ADDR_ANY 0 None None.

(** ** Sending *)

(** The hardware and protocol address of an interface. *)
Definition netif_addrs (n : net Ops P) (netif : nifid) : option (devid * bytes * Z) :=
  nif ← niftab n !! netif; d ← nif_dev nif; dev ← devtab n !! d;
  Some (d, take 6 (dev_addr dev), nif_unicast nif).

Definition arp_message (op : Z) (sha : bytes) (spa : Z) (tha : bytes) (tpa : Z) : arp_ethernet :=
  ArpEthernet (hton16 ARP_HRD_ETHERNET) (hton16 ETHERNET_TYPE_IP) ETHERNET_ADDR_LEN IP_ADDR_LEN (hton16 op) sha spa tha tpa.

Definition arp_send_request (n : net Ops P) (netif : nifid) (tpa : option Z) : M (arp W) Z :=
  match tpa with
  | None => ret (-1)
  | Some tpa =>
      match netif_addrs n netif with
      | None => tell [NullDeref] ;;; ret (-1)
      | Some (dev, sha, spa) =>
          let request := arp_message ARP_OP_REQUEST sha spa ETHERNET_ADDR_ANY tpa in
          let* r := arp_tx dev ETHERNET_TYPE_ARP (arp_store request) ETHERNET_ADDR_BROADCAST in
          if r =? -1 then ret (-1) else ret 0
      end
  end.

Definition arp_send_reply (n : net Ops P) (netif : nifid) (tha : option bytes) (tpa : option Z) (dst : bytes) : M (arp W) Z :=
  match tha, tpa with
  | Some tha, Some tpa =>
      match netif_addrs n netif with
      | None => tell [NullDeref] ;;; ret (-1)
      | Some (dev, sha, spa) =>
          let reply := arp_message ARP_OP_REPLY sha spa (take 6 tha) tpa in
          let* r := arp_tx dev ETHERNET_TYPE_ARP (arp_store reply) dst in
          if r <? 0 then ret (-1) else ret 0
      end
  | _, _ => ret (-1)
  end.

(** ** Receiving *)

(** The entry has outlived the timeout. *)
Definition arp_expired (now : Z) (e : arp_entry) : bool :=
  ae_used e && (ARP_TABLE_TIMEOUT_SEC <? now - ae_timestamp e).

Fixpoint arp_table_patrol (ids : list nat) : M (arp W) unit :=
  match ids with
  | [] => ret tt
  | i :: ids =>
      let* e := entry_get i in
      let* now := gets arp_timestamp in
      when (arp_expired now e) (entry_mod i arp_entry_clear ;;; entry_broadcast i) ;;;
      arp_table_patrol ids
  end.

(** Lines 285-294: the first critical section.  [now] is the first reading of the
    clock, [t] the one in [arp_table_update]; the result is [marge]. *)
Definition arp_rx_update (n : net Ops P) (dev : devid) (m : arp_ethernet) (now t : Z) : M (arp W) bool :=
  arp_lock ;;;
  let* last := gets arp_timestamp in
  when (10 <? now - last)
    (modify (set_arp_timestamp now) ;;; arp_table_patrol (seq 0 ARP_TABLE_SIZE)) ;;;
  let* r := arp_table_update n dev (am_spa m) (am_sha m) t in
  arp_unlock ;;;
  ret (r =? 0).

(** Lines 296-309: the second one, if the message is for this host, and the reply. *)
Definition arp_rx_insert (n : net Ops P) (dev : devid) (m : arp_ethernet) (marge : bool) (t : Z) : M (arp W) unit :=
  let '(entry, u) := netdev_get_netif dev NETIF_FAMILY_IPV4 n in
  tell u ;;;
  match entry with
  | None => ret tt
  | Some netif =>
      if (match niftab n !! netif with Some nif => nif_unicast nif =? am_tpa m | None => false end) then
        when (negb marge) (arp_lock ;;; arp_table_insert (am_spa m) (am_sha m) t ;;; arp_unlock) ;;;
        when (ntoh16 (am_op m) =? ARP_OP_REQUEST)
          (arp_send_reply n netif (Some (am_sha m)) (Some (am_spa m)) (am_sha m) ;;; ret tt)
      else ret tt
  end.

Definition arp_valid (m : arp_ethernet) : bool :=
  (ntoh16 (am_hrd m) =? ARP_HRD_ETHERNET) && (ntoh16 (am_pro m) =? ETHERNET_TYPE_IP)
  && (am_hln m =? ETHERNET_ADDR_LEN) && (am_pln m =? IP_ADDR_LEN).

(** [arp_rx] up to the end of the first critical section; the result is the message and
    [marge], or nothing when the function has returned.  [packet] is the memory at
    the packet pointer. *)
Definition arp_rx_enter (n : net Ops P) (packet : bytes) (plen : Z) (dev : devid) (now t : Z)
  : M (arp W) (option (arp_ethernet * bool)) :=
  if plen <? ARP_ETHERNET_SIZE then ret None else
  match arp_load packet with
  | None => tell [OobRead (ARP_ETHERNET_SIZE - zlen packet)] ;;; ret None
  | Some m =>
      if negb (arp_valid m) then ret None else
      let* marge := arp_rx_update n dev m now t in
      ret (Some (m, marge))
  end.

(** Other threads may use the table between the two parts. *)
Definition arp_rx (n : net Ops P) (packet : bytes) (plen : Z) (dev : devid) (now t : Z) : M (arp W) unit :=
  let* r := arp_rx_enter n packet plen dev now t in
  match r with
  | None => ret tt
  | Some (m, marge) => arp_rx_insert n dev m marge t
  end.

(** ** Resolving *)

(** The end of a wait that returned [r]. *)
Definition arp_resolve_wake (i : nat) (r : Z) : M (arp W) resolve_outcome :=
  if r =? EINTR then arp_unlock ;;; ret (ArpBlocked i) else
  let* e := entry_get i in
  if negb (ae_used e) || (r =? ETIMEDOUT) then
    when (ae_used e) (entry_mod i arp_entry_clear) ;;;
    arp_unlock ;;;
    ret (Resolved ARP_RESOLVE_ERROR [])
  else
    arp_unlock ;;; ret (Resolved ARP_RESOLVE_FOUND (ae_ha e)).

(** [data] is null or the packet to be sent once the address is known; [malloc] and
    [now] are the results of the allocation and of [time]. *)
Definition arp_resolve (n : net Ops P) (netif : nifid) (pa : Z) (data : option bytes) (malloc : bool) (now : Z)
  : M (arp W) resolve_outcome :=
  arp_lock ;;;
  let* t := gets arp_table in
  match arp_table_select pa t with
  | Some i =>
      let* e := entry_get i in
      if memeq (ae_ha e) ETHERNET_ADDR_ANY ETHERNET_ADDR_LEN then
        arp_send_request n netif (Some pa) ;;;
        arp_unlock ;;;
        ret (ArpBlocked i)
      else arp_unlock ;;; ret (Resolved ARP_RESOLVE_FOUND (ae_ha e))
  | None =>
      match arp_table_freespace t with
      | None => arp_unlock ;;; ret (Resolved ARP_RESOLVE_ERROR [])
      | Some i =>
          let* ok := match data with
                     | Some _ => entry_mod i (ae_set_data (if malloc then data else None)) ;;; ret malloc
                     | None => ret true
                     end in
          if negb ok then arp_unlock ;;; ret (Resolved ARP_RESOLVE_ERROR []) else
          entry_mod i (fun e => ArpEntry true pa (ae_ha e) now (ae_data e) (Some netif)) ;;;
          arp_send_request n netif (Some pa) ;;;
          arp_unlock ;;;
          ret (Resolved ARP_RESOLVE_QUERY [])
      end
  end.

(** [handler] is [arp_rx]; the result of the registration is ignored. *)
Definition arp_init (handler : P) (malloc : bool) (now : Z) : M (arp W * net Ops P) Z :=
  on_fst (modify (set_arp_timestamp now)) ;;;
  on_snd (netdev_proto_register ETHERNET_TYPE_ARP handler malloc) ;;;
  ret 0.

End Arp.
