(* ===== verification/ArpFacts.v ===== *)
(** * Address resolution: theorems

    In every interleaving of the critical sections no operation touches memory it
    must not, and the table has one entry per address as long as nothing else adds
    the address between the two sections of an arrival; two hosts that run this code
    find each other's address and the packet that had to wait is sent. *)

From S2P Require Import Prelude Logic Endian Addr Net Ethernet Ip Arp.

Section Facts.
Context {H : Host} {Ops P W : Type} `{DEV : Device W}.
Context (n : net Ops P) (u : Prop).

(** ** Invariant *)

(** The code relies on the address of an unused entry being zero, and on a saved
    packet having an interface. *)
Record entry_ok (e : arp_entry) : Prop := {
  ok_ha : zlen (ae_ha e) = 6;
  ok_unused : ae_used e = false -> ae_ha e = ETHERNET_ADDR_ANY /\ ae_data e = None;
  ok_data : is_Some (ae_data e) -> is_Some (entry_dev n e)
}.

(** No two used entries have the same address. *)
Definition unique (t : list arp_entry) : Prop := forall i j a b,
  t !! i = Some a -> t !! j = Some b -> ae_used a = true -> ae_used b = true -> ae_pa a = ae_pa b -> i = j.

Definition absent (pa : Z) (t : list arp_entry) : Prop := forall i e,
  t !! i = Some e -> ae_used e = true -> ae_pa e <> pa.

(** Entries are unique under the condition [u], which is about the order of events. *)
Definition table_ok (t : list arp_entry) : Prop := Forall entry_ok t /\ (u -> unique t).

Definition arp_inv (s : arp W) : Prop := table_ok (arp_table s) /\ arp_mutex s = false.

Lemma entry0_ok : entry_ok arp_entry0.
Proof. split; [done|done|]. by intros [? ?]. Qed.

Lemma table_lookup_ok t i : Forall entry_ok t -> entry_ok (t !!! i).
Proof.
  intros Ht. destruct (decide (i < length t)%nat) as [Hi|Hi].
  - rewrite Forall_lookup in Ht. eapply Ht. by apply list_lookup_lookup_total_lt.
  - rewrite list_lookup_total_alt, (proj2 (lookup_ge_None _ _)) by lia. apply entry0_ok.
Qed.

(** Change one entry: it keeps its address, becomes unused, or gets an address that
    was absent. *)
Lemma table_ok_insert t i e : table_ok t -> entry_ok e ->
  (u -> ae_used e = true -> (ae_used (t !!! i) = true /\ ae_pa e = ae_pa (t !!! i)) \/ absent (ae_pa e) t) ->
  table_ok (<[i := e]> t).
Proof.
  intros [Hall Hu] He Hk. split; [by apply Forall_insert|]. intros HU. specialize (Hu HU). specialize (Hk HU).
  assert (forall k a b, t !! k = Some b -> k <> i -> t !! i = Some a -> ae_used e = true -> ae_used b = true ->
    ae_pa e = ae_pa b -> False) as Hne.
  { intros k a b Hb Hki Ha Hue Hub Epa. destruct (Hk Hue) as [[Hui Ep]|Habs].
    - rewrite (list_lookup_total_correct _ _ _ Ha) in *. apply Hki. apply (Hu k i b a); congruence.
    - by apply (Habs k b Hb Hub). }
  intros j k a b Ha Hb Hua Hub Epa. apply list_lookup_insert_Some in Ha as [(<- & <- & Hi)|(Hj & Ha)];
    apply list_lookup_insert_Some in Hb as [(<- & <- & Hi')|(Hj' & Hb)]; try done.
  - apply lookup_lt_is_Some in Hi as [a Ha]. exfalso. by eapply (Hne k a b).
  - apply lookup_lt_is_Some in Hi' as [c Hc]. exfalso. by eapply (Hne j c a).
  - by apply (Hu j k a b).
Qed.

Lemma entry_clear_ok e : entry_ok (arp_entry_clear e).
Proof. apply entry0_ok. Qed.

Lemma table_ok_clear t i : table_ok t -> table_ok (<[i := arp_entry_clear (t !!! i)]> t).
Proof. intros Ht. by apply table_ok_insert; [|apply entry_clear_ok|]. Qed.

Lemma absent_clear pa t i : absent pa t -> absent pa (<[i := arp_entry_clear (t !!! i)]> t).
Proof.
  intros Ha k e Hl Hu. apply list_lookup_insert_Some in Hl as [(_ & <- & _)|(_ & Hl)]; [done|]. by apply (Ha k).
Qed.

Lemma select_None pa t : arp_table_select pa t = None -> absent pa t.
Proof.
  intros E i e Hl Hu <-. apply (first_index_None _ _ _ _ E) in Hl. rewrite Hu, Z.eqb_refl in Hl. done.
Qed.

Lemma select_Some pa t i : arp_table_select pa t = Some i ->
  (i < length t)%nat /\ ae_used (t !!! i) = true /\ ae_pa (t !!! i) = pa.
Proof.
  intros (e & Hl & Hp & _)%first_index_Some. apply andb_prop in Hp as [Hu Hp].
  rewrite (list_lookup_total_correct _ _ _ Hl). split_and!; [by eapply lookup_lt_Some|done|lia].
Qed.

Lemma select_absent pa t : absent pa t -> arp_table_select pa t = None.
Proof.
  intros Ha. apply first_index_none. intros i e Hl. destruct (ae_used e) eqn:Hu; [|done]. cbn.
  apply Z.eqb_neq. by apply (Ha i).
Qed.

Lemma freespace_Some t i : arp_table_freespace t = Some i -> (i < length t)%nat /\ ae_used (t !!! i) = false.
Proof.
  intros (e & Hl & Hp & _)%first_index_Some. apply negb_true_iff in Hp.
  rewrite (list_lookup_total_correct _ _ _ Hl). split; [by eapply lookup_lt_Some|done].
Qed.

(** [memcpy] of a hardware address over another. *)
Lemma addr_copy_6 a b : zlen a = 6 -> zlen b = 6 -> addr_copy a b = b.
Proof.
  unfold addr_copy, memcpy, zlen. intros Ha Hb. cbn [fst]. rewrite Ha, Hb. change (Z.min _ 6) with 6.
  rewrite (take_ge b) by lia. rewrite (take_ge b) by lia.
  rewrite (drop_ge a) by lia. by rewrite app_nil_r.
Qed.

Lemma arp_load_ha b m : arp_load b = Some m -> zlen (am_sha m) = 6 /\ zlen (am_tha m) = 6.
Proof. unfold arp_load. intros E. repeat (destruct b as [|? b]; [done|]). by injection E as <-. Qed.

(** ** The operations *)

(** The device logs no undefined behaviour, and the registries are in order. *)
Context (Hdev : forall d ty p dst w, rub (ops_tx d ty p dst w) = []) (Hwf : net_wf n).

(** The interface of a device is found, and has its addresses. *)
Lemma get_netif_ok dev : is_Some (devtab n !! dev) -> exists r, netdev_get_netif dev NETIF_FAMILY_IPV4 n = (r, []) /\
  forall i, r = Some i -> is_Some (netif_addrs n i).
Proof.
  intros [d Hd]. destruct (wf_search n dev d (fun e => nif_family e =? NETIF_FAMILY_IPV4) Hwf Hd) as (l & Hc & E).
  unfold netdev_get_netif. rewrite Hd, E. eexists. split; [done|]. intros i [Hin _]%List.find_some.
  destruct (wf_ifs _ Hwf _ _ Hd) as (l' & Hc' & _ & Hb). rewrite <- (chain_fun _ _ _ _ Hc Hc'), Forall_forall in Hb.
  apply list_elem_of_In, Hb in Hin. unfold netif_addrs. destruct (niftab n !! i) as [nif|]; [|done].
  injection Hin as Hin. cbn. rewrite Hin. cbn. rewrite Hd. by eexists.
Qed.

Lemma safe_lock (s : arp W) (Q : unit -> arp W -> Prop) :
  arp_mutex s = false -> Q tt (set_arp_mutex true s) -> safe arp_lock s Q.
Proof. intros Hm HQ. split; [|done]. cbn. by rewrite Hm. Qed.

Lemma safe_arp_tx d ty p dst (s : arp W) (Q : Z -> arp W -> Prop) :
  (forall r w, Q r (set_arp_world w s)) -> safe (arp_tx d ty p dst) s Q.
Proof.
  intros HQ. unfold safe, arp_tx, zoom. specialize (Hdev d ty p dst (arp_world s)).
  destruct (ops_tx d ty p dst (arp_world s)) as [[r w] l]. cbn in *. by subst.
Qed.

(** What the invariant says between the lock and the unlock. *)
Definition locked (s s' : arp W) : Prop := table_ok (arp_table s') /\ arp_mutex s' = arp_mutex s.

Lemma entry_mod_locked i f (s0 s : arp W) : locked s0 s ->
  table_ok (<[i := f (arp_table s !!! i)]> (arp_table s)) ->
  locked s0 (set_arp_table (<[i := f (arp_table s !!! i)]> (arp_table s)) s).
Proof. by intros [_ Hm] Ht. Qed.

Lemma patrol_ok ids (s : arp W) : table_ok (arp_table s) -> safe (arp_table_patrol ids) s (fun _ s' => locked s s').
Proof.
  revert s. induction ids as [|i ids IH]; intros s Hs; cbn [arp_table_patrol]; [by apply safe_ret|].
  apply safe_bind, safe_gets, safe_bind, safe_gets, safe_bind, safe_when.
  - intros _. apply safe_bind, safe_modify, safe_modify. eapply safe_mono; [by apply IH, table_ok_clear|].
    intros _ s' [Ht Hm]. by split.
  - intros _. by apply IH.
Qed.

Lemma update_entry_ok e ha now : entry_ok e -> zlen ha = 6 -> ae_used e = true ->
  entry_ok (ae_set_timestamp now (ae_set_ha (addr_copy (ae_ha e) ha) e)).
Proof.
  intros [Hl Hu Hd] Hh Hue. rewrite addr_copy_6 by done. split; cbn; [done|congruence|exact Hd].
Qed.

Lemma update_ok dev pa ha now (s : arp W) : table_ok (arp_table s) -> zlen ha = 6 ->
  safe (arp_table_update n dev pa ha now) s (fun r s' =>
    locked s s' /\ (r = 0 \/ (r = -1 /\ absent pa (arp_table s')))).
Proof.
  intros Hs Hh. unfold arp_table_update. apply safe_bind, safe_gets.
  destruct (arp_table_select pa (arp_table s)) as [i|] eqn:E.
  2: { apply safe_ret. split; [by split|]. right. split; [done|]. by apply select_None. }
  apply select_Some in E as (Hi & Hu & Hp). set (e := arp_table s !!! i) in *.
  assert (entry_ok e) as He by (apply table_lookup_ok; apply Hs).
  pose proof (update_entry_ok e ha now He Hh Hu) as He'. set (e' := ae_set_timestamp now _) in He'.
  apply safe_bind, safe_modify. fold e. fold e'. set (s1 := set_arp_table _ s).
  assert (table_ok (arp_table s1)) as Ht1 by (apply table_ok_insert; [done|done|intros _ _; by left]).
  apply safe_bind, safe_gets. assert (arp_table s1 !!! i = e') as E1 by (by apply list_lookup_total_insert_eq).
  rewrite E1. apply safe_bind. destruct (ae_data e') as [data|] eqn:Ed.
  - destruct (ok_data _ He' ltac:(by rewrite Ed)) as [dev' ->]. apply safe_bind, safe_arp_tx. intros r w.
    apply safe_modify, safe_bind, safe_modify, safe_ret. split; [|by left]. split; [|done].
    change (table_ok (<[i := ae_set_data None (arp_table s1 !!! i)]> (arp_table s1))).
    apply table_ok_insert; [done| |by intros _ Hx; left; rewrite E1 in *]. rewrite E1.
    destruct He' as [Hl' Hu' Hd']. split; cbn; [done| |by intros [? ?]]. intros Hf. by destruct (Hu' Hf).
  - apply safe_ret, safe_bind, safe_modify, safe_ret. split; [|by left]. by split.
Qed.

Lemma insert_ok pa ha now (s : arp W) : table_ok (arp_table s) -> (u -> absent pa (arp_table s)) -> zlen ha = 6 ->
  safe (arp_table_insert pa ha now) s (fun _ s' => locked s s').
Proof.
  intros Hs Ha Hh. unfold arp_table_insert. apply safe_bind, safe_gets.
  destruct (arp_table_freespace (arp_table s)) as [i|] eqn:E; [|by apply safe_ret].
  apply freespace_Some in E as [Hi Hu]. destruct (table_lookup_ok _ i (proj1 Hs)) as [Hl Hun Hd].
  apply safe_bind, safe_modify, safe_bind, safe_modify, safe_ret. split; [|done].
  apply (table_ok_insert (arp_table s)); [done| |by intros HU _; right; apply Ha]. rewrite addr_copy_6 by done.
  destruct (Hun Hu) as [_ Hdat]. split; cbn; [done|done|]. rewrite Hdat. by intros [? ?].
Qed.

Lemma send_request_ok netif tpa (s : arp W) : is_Some (netif_addrs n netif) -> table_ok (arp_table s) ->
  safe (arp_send_request n netif (Some tpa)) s (fun _ s' => locked s s').
Proof.
  intros [[[d sha] spa] E] Hs. unfold arp_send_request. rewrite E. apply safe_bind, safe_arp_tx. intros r w.
  destruct (r =? -1); by apply safe_ret.
Qed.

Lemma send_reply_ok netif tha tpa dst (s : arp W) : is_Some (netif_addrs n netif) -> table_ok (arp_table s) ->
  safe (arp_send_reply n netif (Some tha) (Some tpa) dst) s (fun _ s' => locked s s').
Proof.
  intros [[[d sha] spa] E] Hs. unfold arp_send_reply. rewrite E. apply safe_bind, safe_arp_tx. intros r w.
  destruct (r <? 0); by apply safe_ret.
Qed.

Lemma arp_rx_update_ok dev m now t (s : arp W) : arp_inv s -> zlen (am_sha m) = 6 ->
  safe (arp_rx_update n dev m now t) s (fun marge s' =>
    arp_inv s' /\ (marge = false -> absent (am_spa m) (arp_table s'))).
Proof.
  intros [Hs Hm] Hsha. unfold arp_rx_update. apply safe_bind, safe_lock; [done|]. set (s1 := set_arp_mutex true s).
  apply safe_bind, safe_gets, safe_bind.
  assert (safe (when (10 <? now - arp_timestamp s1)
    (modify (set_arp_timestamp now) ;;; arp_table_patrol (seq 0 ARP_TABLE_SIZE))) s1 (fun _ s' => locked s1 s')) as Hp.
  { apply safe_when; [|done]. intros _. apply safe_bind, safe_modify.
    eapply safe_mono; [by apply patrol_ok|]. intros _ s' [? ?]. by split. }
  eapply safe_mono; [exact Hp|]. intros _ s2 [Ht2 Hm2]. apply safe_bind.
  eapply safe_mono; [by apply update_ok|]. intros r s3 [[Ht3 Hm3] Hr].
  apply safe_bind, safe_modify, safe_ret. split; [by split|]. intros Hf.
  destruct Hr as [->|[-> Ha]]; [done|exact Ha].
Qed.

Lemma arp_rx_insert_ok dev m marge t (s : arp W) : is_Some (devtab n !! dev) -> arp_inv s -> zlen (am_sha m) = 6 ->
  (u -> marge = false -> absent (am_spa m) (arp_table s)) ->
  safe (arp_rx_insert n dev m marge t) s (fun _ s' => arp_inv s').
Proof.
  intros Hd [Hs Hm] Hsha Habs. unfold arp_rx_insert. destruct (get_netif_ok dev Hd) as (r & -> & Hr).
  apply safe_bind. split; [done|]. cbn [tell rval rst fst snd].
  destruct r as [netif|]; [|by apply safe_ret]. specialize (Hr netif eq_refl).
  destruct (match niftab n !! netif with Some _ => _ | None => _ end); [|by apply safe_ret].
  apply safe_bind. eapply safe_mono with (Q := fun _ s' => arp_inv s').
  - apply safe_when; [|done]. intros Hf. apply negb_true_iff in Hf.
    apply safe_bind, safe_lock; [done|]. apply safe_bind. eapply safe_mono; [apply insert_ok; auto|].
    intros _ s' [Ht _]. by apply safe_modify.
  - intros _ s1 [Ht1 Hm1]. apply safe_when; [|done]. intros _. apply safe_bind.
    eapply safe_mono; [by apply send_reply_ok|]. intros _ s2 [Ht2 Hm2]. apply safe_ret. split; congruence.
Qed.

Lemma arp_rx_enter_ok packet plen dev now t (s : arp W) : arp_inv s -> plen <= zlen packet ->
  safe (arp_rx_enter n packet plen dev now t) s (fun r s' => arp_inv s' /\ forall m marge, r = Some (m, marge) ->
    zlen (am_sha m) = 6 /\ (marge = false -> absent (am_spa m) (arp_table s'))).
Proof.
  intros Hs Hl. unfold arp_rx_enter. destruct (plen <? ARP_ETHERNET_SIZE) eqn:El; [by apply safe_ret|].
  destruct (arp_load packet) as [m|] eqn:Em.
  2: { exfalso. unfold arp_load, ARP_ETHERNET_SIZE, zlen in *.
       do 28 (destruct packet as [|? packet]; [cbn in Hl; lia|]). done. }
  destruct (negb (arp_valid m)); [by apply safe_ret|]. destruct (arp_load_ha _ _ Em) as [Hsha _].
  apply safe_bind. eapply safe_mono; [by apply arp_rx_update_ok|]. intros marge s1 [Hi Ha].
  apply safe_ret. split; [done|]. by intros m' marge' [= <- <-].
Qed.

Lemma arp_resolve_wake_ok i r (s : arp W) : arp_inv s ->
  safe (arp_lock ;;; arp_resolve_wake i r) s (fun _ s' => arp_inv s').
Proof.
  intros [Hs Hm]. apply safe_bind, safe_lock; [done|]. unfold arp_resolve_wake.
  destruct (r =? EINTR); [by apply safe_bind, safe_modify, safe_ret|]. apply safe_bind, safe_gets.
  destruct (_ || _); [|by apply safe_bind, safe_modify, safe_ret].
  apply safe_bind, safe_when; intros _; [apply safe_modify|]; apply safe_bind, safe_modify, safe_ret; [|done].
  split; [|done]. by apply (table_ok_clear (arp_table s)).
Qed.

(** A new entry, in place of an unused one. *)
Lemma new_entry_ok netif pa (data : option bytes) now t i : table_ok t -> absent pa t -> ae_used (t !!! i) = false ->
  is_Some (netif_addrs n netif) ->
  table_ok (<[i := ArpEntry true pa (ae_ha (t !!! i)) now data (Some netif)]> t).
Proof.
  intros Ht Ha Hu [x Hx]. destruct (table_lookup_ok _ i (proj1 Ht)) as [Hl _ _].
  apply table_ok_insert; [done| |by intros _ _; right]. split; cbn; [done|done|]. intros _. unfold entry_dev. cbn.
  unfold netif_addrs in Hx. destruct (niftab n !! netif) as [nif|]; [|done]. cbn in *.
  destruct (nif_dev nif); [by eexists|done].
Qed.

Lemma arp_resolve_ok netif pa data malloc now (s : arp W) : arp_inv s -> is_Some (netif_addrs n netif) ->
  safe (arp_resolve n netif pa data malloc now) s (fun _ s' => arp_inv s').
Proof.
  intros [Hs Hm] Hn. unfold arp_resolve. apply safe_bind, safe_lock; [done|].
  set (s1 := set_arp_mutex true s). apply safe_bind, safe_gets.
  destruct (arp_table_select pa (arp_table s1)) as [i|] eqn:E.
  { apply safe_bind, safe_gets. destruct (memeq _ _ _).
    - apply safe_bind. eapply safe_mono; [by apply send_request_ok|]. intros _ s' [Ht _].
      by apply safe_bind, safe_modify, safe_ret.
    - by apply safe_bind, safe_modify, safe_ret. }
  destruct (arp_table_freespace (arp_table s1)) as [i|] eqn:Ef; [|by apply safe_bind, safe_modify, safe_ret].
  apply select_None in E. apply freespace_Some in Ef as [Hi Hu]. change (arp_table s1) with (arp_table s) in *.
  destruct (table_lookup_ok _ i (proj1 Hs)) as [Hl Hun Hd]. set (e := arp_table s !!! i) in *.
  apply safe_bind. eapply safe_mono with (Q := fun ok s2 => if ok : bool
    then exists d, arp_table s2 = <[i := ae_set_data d e]> (arp_table s) else table_ok (arp_table s2)).
  { destruct data as [data|]; [apply safe_bind, safe_modify, safe_ret; destruct malloc; [by eexists|]|apply safe_ret].
    - apply (table_ok_insert (arp_table s)); [done| |intros _; cbn; fold e; congruence]. destruct (Hun Hu).
      split; cbn; [done|done|by intros [? ?]].
    - exists (ae_data e). cbn. symmetry. apply list_insert_id. destruct (lookup_lt_is_Some_2 _ _ Hi) as [e' He].
      subst e. rewrite (list_lookup_total_correct _ _ _ He). by destruct e'. }
  intros [] s2 Hs2; cbn [negb]; [|by apply safe_bind, safe_modify, safe_ret].
  destruct Hs2 as [d Es2]. apply safe_bind, safe_modify. rewrite Es2.
  rewrite list_lookup_total_insert_eq, list_insert_insert_eq by done. cbn [ae_ha ae_data ae_set_data].
  apply safe_bind. eapply safe_mono; [apply send_request_ok; [done|]; by apply (new_entry_ok netif pa d now)|].
  intros _ s' [Ht _]. by apply safe_bind, safe_modify, safe_ret.
Qed.

(** ** Addresses that are added *)

(** Only addresses of [X] are new in the table. *)
Definition adds (X : Z -> Prop) (s s' : arp W) : Prop :=
  forall pa, ~ X pa -> absent pa (arp_table s) -> absent pa (arp_table s').

#[local] Instance adds_preorder X : PreOrder (adds X).
Proof. split; [by intros s pa|]. intros s1 s2 s3 H1 H2 pa Hx Ha. auto. Qed.

Lemma entry_mod_adds X i f : (forall e, ae_used (f e) = true ->
    (ae_used e = true /\ ae_pa (f e) = ae_pa e) \/ X (ae_pa (f e))) -> respects (adds X) (entry_mod (W := W) i f).
Proof.
  intros Hf s pa Hx Ha k e He Hu. cbn in He. apply list_lookup_insert_Some in He as [(<- & <- & Hi)|[_ He]]; [|by eapply Ha].
  destruct (Hf _ Hu) as [[Hu' ->]|HX]; [|by intros <-]. by apply (Ha i); [apply list_lookup_lookup_total_lt|].
Qed.

Lemma same_table_adds X {A} (m : M (arp W) A) : (forall s, arp_table (rst (m s)) = arp_table s) -> respects (adds X) m.
Proof. intros E s pa _ Ha. by rewrite E. Qed.

Lemma arp_tx_table d ty p dst (s : arp W) : arp_table (rst (arp_tx d ty p dst s)) = arp_table s.
Proof. unfold arp_tx, zoom. by destruct (ops_tx d ty p dst (arp_world s)) as [[r w] l]. Qed.

Lemma send_request_table netif tpa (s : arp W) : arp_table (rst (arp_send_request n netif tpa s)) = arp_table s.
Proof.
  unfold arp_send_request. destruct tpa as [tpa|]; [|done]. destruct (netif_addrs n netif) as [[[d sha] spa]|]; [|done].
  rewrite rst_bind. destruct (_ =? _); apply arp_tx_table.
Qed.

Lemma send_reply_table netif tha tpa dst (s : arp W) : arp_table (rst (arp_send_reply n netif tha tpa dst s)) = arp_table s.
Proof.
  unfold arp_send_reply. destruct tha as [tha|]; [|done]. destruct tpa as [tpa|]; [|done].
  destruct (netif_addrs n netif) as [[[d sha] spa]|]; [|done]. rewrite rst_bind. destruct (_ <? _); apply arp_tx_table.
Qed.

Ltac adds_step :=
  match goal with
  | |- respects _ (mbind' _ _) => apply respects_bind; [apply _| |intros ?]
  | |- respects _ (when _ _) => apply respects_when; [apply _|]
  | |- respects _ (entry_mod _ _) => apply entry_mod_adds; intros ?; cbn; by auto
  | |- respects _ (match ?x with _ => _ end) => destruct x
  | |- respects _ _ => apply same_table_adds; intros ?;
      first [done | by apply arp_tx_table | by apply send_request_table | by apply send_reply_table]
  end.

Lemma arp_rx_update_adds X dev m now t : respects (adds X) (arp_rx_update (W := W) n dev m now t).
Proof.
  assert (forall ids, respects (adds X) (arp_table_patrol (W := W) ids)).
  { induction ids as [|i ids IH]; cbn [arp_table_patrol]; repeat adds_step. done. }
  unfold arp_rx_update, arp_table_update. repeat adds_step. done.
Qed.

Lemma arp_rx_insert_adds dev m marge t : respects (adds (eq (am_spa m))) (arp_rx_insert (W := W) n dev m marge t).
Proof. unfold arp_rx_insert, arp_table_insert. repeat adds_step. Qed.

Lemma arp_rx_enter_adds X packet plen dev now t : respects (adds X) (arp_rx_enter (W := W) n packet plen dev now t).
Proof. unfold arp_rx_enter. repeat first [apply arp_rx_update_adds | adds_step]. Qed.

Lemma arp_resolve_adds netif pa data malloc now : respects (adds (eq pa)) (arp_resolve (W := W) n netif pa data malloc now).
Proof. unfold arp_resolve. repeat adds_step. Qed.

Lemma arp_wake_adds X i r : respects (adds X) (arp_lock (W := W) ;;; arp_resolve_wake i r).
Proof. unfold arp_resolve_wake. repeat adds_step. Qed.

(** ** Interleavings *)

(** A thread of [arp_rx] between its two critical sections: its device and message,
    [marge], and the clock it will read. *)
Record pending := Pending { pd_dev : devid; pd_msg : arp_ethernet; pd_marge : bool; pd_time : Z }.

(** The module, and the threads that are between the two sections. *)
Record conf := Conf { cf_arp : arp W; cf_pending : list pending }.

Definition set_cf_arp (a : arp W) (c : conf) : conf := Conf a (cf_pending c).
Definition set_cf_pending (ps : list pending) (c : conf) : conf := Conf (cf_arp c) ps.

(** What threads do to the table, one critical section each: a packet arrives, the
    thread [k] of those in between goes on, an address is resolved, a wait ends. *)
Inductive arp_event :=
  | EvRx (packet : bytes) (plen : Z) (dev : devid) (now t : Z)
  | EvInsert (k : nat)
  | EvResolve (netif : nifid) (pa : Z) (data : option bytes) (malloc : bool) (now : Z)
  | EvWake (i : nat) (r : Z).

Definition on_arp {A} (m : M (arp W) A) : M conf A := zoom cf_arp set_cf_arp m.

Definition arp_handle (ev : arp_event) : M conf unit :=
  match ev with
  | EvRx packet plen dev now t =>
      let* r := on_arp (arp_rx_enter n packet plen dev now t) in
      match r with
      | None => ret tt
      | Some (m, marge) => modify (fun c => set_cf_pending (cf_pending c ++ [Pending dev m marge t]) c)
      end
  | EvInsert k =>
      let* ps := gets cf_pending in
      match ps !! k with
      | None => ret tt
      | Some p =>
          modify (set_cf_pending (delete k ps)) ;;;
          on_arp (arp_rx_insert n (pd_dev p) (pd_msg p) (pd_marge p) (pd_time p))
      end
  | EvResolve netif pa data malloc now => on_arp (arp_resolve n netif pa data malloc now) ;;; ret tt
  | EvWake i r => on_arp (arp_lock ;;; arp_resolve_wake i r) ;;; ret tt
  end.

Fixpoint arp_run (evs : list arp_event) : M conf unit :=
  match evs with
  | [] => ret tt
  | ev :: evs => arp_handle ev ;;; arp_run evs
  end.

(** Packets have their length, devices are registered and interfaces have their addresses. *)
Definition admissible (ev : arp_event) : Prop :=
  match ev with
  | EvRx packet plen dev _ _ => plen <= zlen packet /\ is_Some (devtab n !! dev)
  | EvResolve netif _ _ _ _ => is_Some (netif_addrs n netif)
  | EvInsert _ | EvWake _ _ => True
  end.

(** No thread in [ps] is about to insert an entry for [pa]. *)
Definition unclaimed (pa : Z) (ps : list pending) : Prop :=
  Forall (fun p => pd_marge p = false -> am_spa (pd_msg p) <> pa) ps.

(** The event does not add an address that another thread has looked for, not found,
    and is about to insert. *)
Definition undisturbed (ev : arp_event) (ps : list pending) : Prop :=
  match ev with
  | EvResolve _ pa _ _ _ => unclaimed pa ps
  | EvInsert k => match ps !! k with Some p => unclaimed (am_spa (pd_msg p)) (delete k ps) | None => True end
  | EvRx _ _ _ _ _ | EvWake _ _ => True
  end.

Fixpoint undisturbed_run (evs : list arp_event) (c : conf) : Prop :=
  match evs with
  | [] => True
  | ev :: evs => undisturbed ev (cf_pending c) /\ undisturbed_run evs (rst (arp_handle ev c))
  end.

(** What a thread in between relies on. *)
Definition pending_ok (s : arp W) (p : pending) : Prop :=
  is_Some (devtab n !! pd_dev p) /\ zlen (am_sha (pd_msg p)) = 6 /\
  (u -> pd_marge p = false -> absent (am_spa (pd_msg p)) (arp_table s)).

Definition conf_inv (c : conf) : Prop := arp_inv (cf_arp c) /\ Forall (pending_ok (cf_arp c)) (cf_pending c).

Lemma safe_on_arp {A} (m : M (arp W) A) (X : Z -> Prop) (c : conf) (P0 : A -> arp W -> Prop) (Q : A -> conf -> Prop) :
  safe m (cf_arp c) P0 -> respects (adds X) m ->
  (forall a s', P0 a s' -> adds X (cf_arp c) s' -> Q a (Conf s' (cf_pending c))) -> safe (on_arp m) c Q.
Proof.
  intros [Hu HP] Hr HQ. specialize (Hr (cf_arp c)). unfold safe, on_arp, zoom in *.
  destruct (m (cf_arp c)) as [[a s'] l]. cbn in *. split; [done|]. by apply HQ.
Qed.

Lemma pending_adds X ps (s s' : arp W) : adds X s s' ->
  (u -> Forall (fun p => pd_marge p = false -> ~ X (am_spa (pd_msg p))) ps) ->
  Forall (pending_ok s) ps -> Forall (pending_ok s') ps.
Proof.
  intros Hadd Hx Hps. rewrite Forall_lookup in Hps |- *. intros j p Hp. destruct (Hps j p Hp) as (Hd & Hl & Ha).
  split_and!; [done|done|]. intros HU Hm. apply Hadd; [|by apply Ha]. specialize (Hx HU).
  rewrite Forall_lookup in Hx. by eapply Hx.
Qed.

Lemma arp_handle_ok ev (c : conf) : admissible ev -> (u -> undisturbed ev (cf_pending c)) -> conf_inv c ->
  safe (arp_handle ev) c (fun _ c' => conf_inv c').
Proof.
  intros Ha Hu [Hs Hps]. destruct ev as [packet plen dev now t|k|netif pa data malloc now|i r]; cbn [arp_handle].
  - destruct Ha as [Hl Hd]. apply safe_bind.
    eapply safe_on_arp; [by apply arp_rx_enter_ok|apply (arp_rx_enter_adds (fun _ => False))|].
    intros r s' [Hs' Hr] Hadd. pose proof (pending_adds _ _ _ _ Hadd ltac:(intros _; apply Forall_true; auto) Hps) as Hps'.
    destruct r as [[m marge]|]; [|by apply safe_ret]. destruct (Hr m marge eq_refl) as [Hl' Habs].
    apply safe_modify. split; [done|]. apply Forall_app_2; [done|]. apply Forall_singleton. split_and!; [done|done|by intros _].
  - apply safe_bind, safe_gets. cbn in Hu. destruct (cf_pending c !! k) as [p|] eqn:Ep; [|by apply safe_ret].
    apply safe_bind, safe_modify. pose proof Hps as Hall. rewrite Forall_lookup in Hall. destruct (Hall k p Ep) as (Hd & Hl & Habs).
    eapply safe_on_arp; [by apply arp_rx_insert_ok|apply arp_rx_insert_adds|]. intros a s' Hs' Hadd. split; [done|].
    apply (pending_adds _ _ _ _ Hadd); [|by apply Forall_delete].
    intros HU. eapply Forall_impl; [by apply Hu|]. intros q Hq Hm E. by apply (Hq Hm).
  - apply safe_bind. eapply safe_on_arp; [by apply arp_resolve_ok|apply arp_resolve_adds|].
    intros o s' Hs' Hadd. apply safe_ret. split; [done|]. apply (pending_adds _ _ _ _ Hadd); [|done].
    intros HU. eapply Forall_impl; [by apply Hu|]. intros q Hq Hm E. by apply (Hq Hm).
  - apply safe_bind. eapply safe_on_arp; [by apply arp_resolve_wake_ok|apply (arp_wake_adds (fun _ => False))|].
    intros o s' Hs' Hadd. apply safe_ret. split; [done|].
    apply (pending_adds _ _ _ _ Hadd ltac:(intros _; apply Forall_true; auto) Hps).
Qed.

Lemma arp_inv_init (w : W) : arp_inv (arp_init_state w).
Proof.
  split; [|done]. split; [apply Forall_replicate, entry0_ok|].
  intros _ i j a b Ha _ Hu. apply lookup_replicate in Ha as [-> _]. done.
Qed.

Lemma arp_run_ok evs (c : conf) : Forall admissible evs -> (u -> undisturbed_run evs c) -> conf_inv c ->
  safe (arp_run evs) c (fun _ c' => conf_inv c').
Proof.
  intros Hevs. revert c. induction Hevs as [|ev evs Hev Hevs IH]; intros c Hu Hc; cbn [arp_run]; [by apply safe_ret|].
  cbn [undisturbed_run] in Hu. assert (safe (arp_handle ev) c (fun _ c' => conf_inv c')) as [Hn Hi]
    by (apply arp_handle_ok; [done| |done]; intros HU; by apply Hu).
  apply safe_bind. split; [done|]. apply IH; [|done]. intros HU. by apply Hu.
Qed.

(** ** What the operations do *)

(** Expired entries have been cleared. *)
Definition patrolled (now : Z) (t t' : list arp_entry) : Prop :=
  length t' = length t /\
  forall k, t' !!! k = t !!! k \/ (arp_expired now (t !!! k) = true /\ t' !!! k = arp_entry_clear (t !!! k)).

Lemma patrolled_refl now t : patrolled now t t.
Proof. split; [done|]. by left. Qed.

(** The parts of the state that housekeeping leaves alone. *)
Definition kept (s s' : arp W) : Prop := arp_world s' = arp_world s /\ arp_mutex s' = arp_mutex s.

Lemma patrol_spec now ids (s : arp W) : arp_timestamp s = now ->
  post (arp_table_patrol ids) s (fun _ s' => patrolled now (arp_table s) (arp_table s') /\ kept s s').
Proof.
  revert s. induction ids as [|i ids IH]; intros s Ht; cbn [arp_table_patrol].
  { split; [apply patrolled_refl|done]. }
  apply post_bind. unfold post at 1. cbn [entry_get gets rval rst fst snd].
  apply post_bind. unfold post at 1. cbn [gets rval rst fst snd]. rewrite Ht. apply post_bind.
  destruct (arp_expired now (arp_table s !!! i)) eqn:Ex; [|by apply IH].
  unfold post at 1. cbn [when]. rewrite rst_bind.
  set (s1 := rst (entry_broadcast i _)). eapply post_mono; [by apply (IH s1)|].
  intros _ s' [[Hl Hk] Hkept]. split; [|done]. split; [rewrite Hl; apply length_insert|].
  intros k. specialize (Hk k). subst s1. cbn in Hk |- *.
  destruct (decide (i = k /\ (i < length (arp_table s))%nat)) as [[<- Hi]|Hn].
  - rewrite list_lookup_total_insert_eq in Hk by done. right. split; [done|].
    by destruct Hk as [->|[_ ?]].
  - assert (<[i:=arp_entry_clear (arp_table s !!! i)]> (arp_table s) !!! k = arp_table s !!! k) as Ek; [|by rewrite Ek in Hk].
    destruct (decide (i = k)) as [->|]; [|by apply list_lookup_total_insert_ne].
    rewrite list_insert_ge by (apply Nat.nlt_ge; tauto). done.
Qed.

Lemma absent_patrolled now pa t t' : patrolled now t t' -> absent pa t -> absent pa t'.
Proof.
  intros [Hl Hk] Ha k e He Hu. apply list_lookup_total_correct in He as Et.
  destruct (Hk k) as [E|[_ E]]; rewrite Et in E; [|by rewrite E in Hu].
  apply (Ha k); [|done]. rewrite E. apply list_lookup_lookup_total_lt. rewrite <- Hl. by eapply lookup_lt_Some.
Qed.

Lemma free_patrolled now t t' : patrolled now t t' -> is_Some (arp_table_freespace t) -> is_Some (arp_table_freespace t').
Proof.
  intros [Hl Hk] [i Hi]. apply freespace_Some in Hi as [Hi Hu].
  destruct (arp_table_freespace t') as [j|] eqn:E; [by eexists|]. exfalso.
  assert (ae_used (t' !!! i) = false) as Hu' by (by destruct (Hk i) as [->|[_ ->]]).
  apply (first_index_None _ _ i (t' !!! i)) in E; [cbv beta in E; by rewrite Hu' in E|].
  apply list_lookup_lookup_total_lt. lia.
Qed.

(** The only entry with its address is the one selected. *)
Lemma select_intro pa t i : (i < length t)%nat -> ae_used (t !!! i) = true -> ae_pa (t !!! i) = pa ->
  (forall k, k <> i -> ae_used (t !!! k) = true -> ae_pa (t !!! k) <> pa) -> arp_table_select pa t = Some i.
Proof.
  intros Hi Hu Hp Hne. apply (first_index_intro _ _ _ (t !!! i)).
  - by apply list_lookup_lookup_total_lt.
  - by rewrite Hu, Hp, Z.eqb_refl.
  - intros j y Hj Hy. apply list_lookup_total_correct in Hy as <-. destruct (ae_used (t !!! j)) eqn:E; [|done]. cbn.
    apply Z.eqb_neq. apply Hne; [lia|done].
Qed.

Lemma absent_total pa t k : absent pa t -> ae_used (t !!! k) = true -> ae_pa (t !!! k) <> pa.
Proof.
  intros Ha Hu. destruct (decide (k < length t)%nat).
  - by apply (Ha k); [apply list_lookup_lookup_total_lt|].
  - by rewrite list_lookup_total_alt, (proj2 (lookup_ge_None _ _)) in Hu by lia.
Qed.

(** The entry [i] has been put into a table without its address. *)
Lemma select_insert e t i : (i < length t)%nat -> ae_used e = true -> absent (ae_pa e) t ->
  arp_table_select (ae_pa e) (<[i := e]> t) = Some i.
Proof.
  intros Hi Hu Ha. apply select_intro.
  - by rewrite length_insert.
  - by rewrite list_lookup_total_insert_eq.
  - by rewrite list_lookup_total_insert_eq.
  - intros k Hk. rewrite list_lookup_total_insert_ne by done. by apply absent_total.
Qed.

End Facts.

(** ** Safety of the table *)

Section Safety.
Context {H : Host} {Ops P W : Type} `{DEV : Device W}.

(** C15: whatever packets arrive, addresses are resolved and waits end, with the critical
    sections of all threads in any order, and other threads between the two
    sections of an [arp_rx]: unused entries are clear, every saved packet has a
    device to be sent on, the mutex is free after each section, and no operation
    dereferences a null pointer, reads past a packet or relocks the mutex.  If in
    addition no thread adds an address that a thread between its two sections has
    looked for and not found, the table has at most one entry per protocol
    address; without this condition it may have two ([arp_rx_race]). *)
Theorem arp_table_safe (n : net Ops P) evs (w : W) :
  (forall d ty p dst w, rub (ops_tx d ty p dst w) = []) -> net_wf n -> Forall (admissible n) evs ->
  safe (arp_run n evs) (Conf (arp_init_state w) []) (fun _ c =>
    Forall (entry_ok n) (arp_table (cf_arp c)) /\ arp_mutex (cf_arp c) = false /\
    (undisturbed_run n evs (Conf (arp_init_state w) []) -> unique (arp_table (cf_arp c)))).
Proof.
  intros Hdev Hwf Hevs.
  destruct (arp_run_ok n (undisturbed_run n evs (Conf (arp_init_state w) [])) Hdev Hwf evs (Conf (arp_init_state w) []))
    as [Hu [[[Ht Hun] Hm] _]]; [done..| |]; [split; [apply arp_inv_init|done]|]. done.
Qed.

End Safety.

(** ** Two hosts *)

Section Handshake.
Context {H : Host} {Ops P W : Type} `{DEV : Device W}.

Lemma arp_load_store (m : arp_ethernet) rest :
  is_u16 (am_hrd m) -> is_u16 (am_pro m) -> is_u16 (am_op m) -> is_u32 (am_spa m) -> is_u32 (am_tpa m) ->
  zlen (am_sha m) = 6 -> zlen (am_tha m) = 6 -> arp_load (arp_store m ++ rest) = Some m.
Proof.
  intros Hh Hp Ho Hs Ht Ls Lt. destruct m as [hrd pro hln pln op sha spa tha tpa]. cbn in *. unfold arp_store. cbn.
  destruct (store16_load16 _ Hh) as (h0 & h1 & -> & Eh & _). destruct (store16_load16 _ Hp) as (p0 & p1 & -> & Ep & _).
  destruct (store16_load16 _ Ho) as (o0 & o1 & -> & Eo & _).
  destruct (store32_load32 _ Hs) as (s0 & s1 & s2 & s3 & -> & Es & _).
  destruct (store32_load32 _ Ht) as (t0 & t1 & t2 & t3 & -> & Et & _).
  unfold zlen in *. do 6 (destruct sha as [|? sha]; [done|]). destruct sha; [|cbn in Ls; lia].
  do 6 (destruct tha as [|? tha]; [done|]). destruct tha; [|cbn in Lt; lia].
  cbn. by rewrite Eh, Ep, Eo, Es, Et.
Qed.

Lemma arp_message_load op sha spa tha tpa rest : is_u16 op -> is_u32 spa -> is_u32 tpa -> zlen sha = 6 -> zlen tha = 6 ->
  let m := arp_message op sha spa tha tpa in
  arp_load (arp_store m ++ rest) = Some m /\ arp_valid m = true /\ zlen (arp_store m) = 28 /\ ntoh16 (am_op m) = op.
Proof.
  intros Ho Hs Ht Ls Lt m. assert (is_u16 ARP_HRD_ETHERNET /\ is_u16 ETHERNET_TYPE_IP) as [H1 H2] by (split; by unfold is_u16).
  split_and!.
  - apply arp_load_store; cbn; auto using hton16_range.
  - unfold arp_valid. cbn [m arp_message am_hrd am_pro am_hln am_pln]. by rewrite !ntoh16_hton16 by done.
  - unfold zlen, arp_store in *. cbn [m arp_message am_hrd am_pro am_hln am_pln am_op am_sha am_spa am_tha am_tpa].
    rewrite !length_app. unfold store16, store32. destruct host_endian; cbn [length]; lia.
  - cbn. by apply ntoh16_hton16.
Qed.

Lemma rx_update_post (n : net Ops P) dev m now t (s : arp W) (Q : bool -> arp W -> Prop) :
  (forall s1, patrolled now (arp_table s) (arp_table s1) -> arp_world s1 = arp_world s ->
    post (arp_table_update n dev (am_spa m) (am_sha m) t) s1 (fun r s2 => Q (r =? 0) (set_arp_mutex false s2))) ->
  post (arp_rx_update n dev m now t) s Q.
Proof.
  intros Hn. unfold arp_rx_update. apply post_bind. unfold post at 1. cbn [arp_lock rval rst fst snd].
  set (s1 := set_arp_mutex true s). apply post_bind. unfold post at 1. cbn [gets rval rst fst snd]. apply post_bind.
  eapply post_mono with (Q := fun _ s2 => patrolled now (arp_table s) (arp_table s2) /\ arp_world s2 = arp_world s).
  - destruct (10 <? now - arp_timestamp s1); cbn [when].
    + apply post_bind. unfold post at 1. cbn [modify rval rst fst snd].
      eapply post_mono; [by apply (patrol_spec now)|]. intros _ s2 [Hp [Hw _]]. done.
    + split; [apply patrolled_refl|done].
  - intros _ s2 [Hp Hw]. apply post_bind. eapply post_mono; [by apply Hn|]. done.
Qed.

(** The address of a waiting packet arrives. *)
Lemma update_sends (n : net Ops P) dev pa ha t (s : arp W) i e data d :
  arp_table_select pa (arp_table s) = Some i -> arp_table s !!! i = e -> ae_data e = Some data ->
  entry_dev n e = Some d -> zlen (ae_ha e) = 6 -> zlen ha = 6 ->
  post (arp_table_update n dev pa ha t) s (fun r s' => r = 0 /\
    arp_table s' = <[i := ArpEntry true pa ha t None (ae_netif e)]> (arp_table s) /\
    arp_world s' = rst (ops_tx d ETHERNET_TYPE_IP data ha (arp_world s))).
Proof.
  intros Hsel He Hd Hdev Hl Hh. unfold arp_table_update. apply post_bind. unfold post at 1. cbn [gets rval rst fst snd].
  rewrite Hsel. apply select_Some in Hsel as (Hi & Hu & Hp). rewrite He in Hu, Hp.
  apply post_bind. unfold post at 1. cbn [entry_mod modify rval rst fst snd]. rewrite He, addr_copy_6 by done.
  set (s1 := set_arp_table _ s). apply post_bind. unfold post at 1. cbn [entry_get gets rval rst fst snd].
  assert (arp_table s1 !!! i = ArpEntry true pa ha t (Some data) (ae_netif e)) as E1.
  { subst s1. cbn. rewrite list_lookup_total_insert_eq by done. unfold ae_set_timestamp, ae_set_ha. cbn. congruence. }
  rewrite E1. cbn [ae_data ae_ha]. change (entry_dev n (ArpEntry true pa ha t (Some data) (ae_netif e))) with (entry_dev n e).
  rewrite Hdev. assert ((if (d =? dev)%nat then dev else d) = d) as -> by (by destruct (Nat.eqb_spec d dev)).
  apply post_bind, post_bind. unfold post at 1, arp_tx, zoom. change (arp_world s1) with (arp_world s).
  destruct (ops_tx d ETHERNET_TYPE_IP data ha (arp_world s)) as [[r w] u]. cbn [rval rst fst snd].
  unfold post. split_and!; [done| |done].
  change (<[i := ae_set_data None (arp_table s1 !!! i)]> (arp_table s1)
    = <[i := ArpEntry true pa ha t None (ae_netif e)]> (arp_table s)).
  rewrite E1. apply list_insert_insert_eq.
Qed.

Lemma insert_learns pa ha t (s : arp W) : absent pa (arp_table s) -> is_Some (arp_table_freespace (arp_table s)) ->
  Forall (fun e => zlen (ae_ha e) = 6) (arp_table s) -> zlen ha = 6 ->
  post (arp_table_insert pa ha t) s (fun _ s' => arp_world s' = arp_world s /\ exists i,
    arp_table_select pa (arp_table s') = Some i /\ ae_ha (arp_table s' !!! i) = ha).
Proof.
  intros Ha [i Hf] Hall Hh. unfold arp_table_insert. apply post_bind. unfold post at 1. cbn [gets rval rst fst snd].
  rewrite Hf. apply freespace_Some in Hf as [Hi _].
  assert (zlen (ae_ha (arp_table s !!! i)) = 6) as Hl
    by (rewrite Forall_lookup in Hall; eapply Hall; by apply list_lookup_lookup_total_lt).
  unfold post. rewrite !rst_bind. cbn [entry_mod entry_broadcast modify mret' rst rval fst snd].
  rewrite addr_copy_6 by done. cbn. split; [done|]. exists i. split.
  - by apply (select_insert (ArpEntry true pa ha t _ _)).
  - by rewrite list_lookup_total_insert_eq.
Qed.

(** A resolved address is found. *)
Lemma resolve_found (n : net Ops P) netif pa data malloc now (s : arp W) i ha :
  arp_table_select pa (arp_table s) = Some i -> ae_ha (arp_table s !!! i) = ha -> zlen ha = 6 -> ha <> ETHERNET_ADDR_ANY ->
  rval (arp_resolve n netif pa data malloc now s) = Resolved ARP_RESOLVE_FOUND ha.
Proof.
  intros Hsel Hha Hl Hany. unfold arp_resolve. rewrite !rval_bind. cbn [arp_lock gets rval rst fst snd].
  change (arp_table (set_arp_mutex true s)) with (arp_table s). rewrite Hsel. rewrite rval_bind. cbn [entry_get gets rval rst fst snd].
  change (arp_table (set_arp_mutex true s)) with (arp_table s). rewrite Hha.
  assert (memeq ha ETHERNET_ADDR_ANY ETHERNET_ADDR_LEN = false) as ->; [|done].
  apply bool_decide_eq_false. change (Z.to_nat ETHERNET_ADDR_LEN) with 6%nat.
  rewrite take_ge by (unfold zlen in Hl; lia). done.
Qed.

(** Sending a message changes only the world. *)
Lemma send_request_run (n : net Ops P) netif tpa (s : arp W) d sha spa (Q : Z -> arp W -> Prop) :
  netif_addrs n netif = Some (d, sha, spa) ->
  (forall r, Q r (set_arp_world (rst (ops_tx d ETHERNET_TYPE_ARP
    (arp_store (arp_message ARP_OP_REQUEST sha spa ETHERNET_ADDR_ANY tpa)) ETHERNET_ADDR_BROADCAST (arp_world s))) s)) ->
  post (arp_send_request n netif (Some tpa)) s Q.
Proof.
  intros Hn HQ. unfold arp_send_request. rewrite Hn. apply post_bind. unfold post at 1, arp_tx, zoom.
  destruct (ops_tx d ETHERNET_TYPE_ARP _ _ (arp_world s)) as [[r w] u]. cbn [rval rst fst snd] in *.
  destruct (r =? -1); apply HQ.
Qed.

Lemma send_reply_run (n : net Ops P) netif tha tpa dst (s : arp W) d sha spa (Q : Z -> arp W -> Prop) :
  netif_addrs n netif = Some (d, sha, spa) -> zlen tha = 6 ->
  (forall r, Q r (set_arp_world (rst (ops_tx d ETHERNET_TYPE_ARP
    (arp_store (arp_message ARP_OP_REPLY sha spa tha tpa)) dst (arp_world s))) s)) ->
  post (arp_send_reply n netif (Some tha) (Some tpa) dst) s Q.
Proof.
  intros Hn Hl HQ. unfold arp_send_reply. rewrite Hn, (take_ge tha) by (unfold zlen in Hl; lia).
  apply post_bind. unfold post at 1, arp_tx, zoom.
  destruct (ops_tx d ETHERNET_TYPE_ARP _ _ (arp_world s)) as [[r w] u]. cbn [rval rst fst snd] in *.
  destruct (r <? 0); apply HQ.
Qed.

Lemma netif_unicast_of (n : net Ops P) netif d sha spa : netif_addrs n netif = Some (d, sha, spa) ->
  exists nif, niftab n !! netif = Some nif /\ nif_unicast nif = spa /\ nif_dev nif = Some d.
Proof.
  unfold netif_addrs. intros Hn. destruct (niftab n !! netif) as [nif|]; [|done]. exists nif. cbn in Hn.
  destruct (nif_dev nif); [|done]. cbn in Hn. destruct (devtab n !! _); [|done]. by injection Hn as -> _ ->.
Qed.

(** An unknown address is asked for, and the packet is saved. *)
Lemma resolve_queries (n : net Ops P) netif pa data now (s : arp W) i d sha spa :
  table_ok n True (arp_table s) -> absent pa (arp_table s) -> arp_table_freespace (arp_table s) = Some i ->
  netif_addrs n netif = Some (d, sha, spa) ->
  post (arp_resolve n netif pa (Some data) true now) s (fun r s' =>
    r = Resolved ARP_RESOLVE_QUERY [] /\
    arp_table s' = <[i := ArpEntry true pa ETHERNET_ADDR_ANY now (Some data) (Some netif)]> (arp_table s) /\
    arp_world s' = rst (ops_tx d ETHERNET_TYPE_ARP
      (arp_store (arp_message ARP_OP_REQUEST sha spa ETHERNET_ADDR_ANY pa)) ETHERNET_ADDR_BROADCAST (arp_world s))).
Proof.
  intros Hs Ha Hf Hn. unfold arp_resolve. apply post_bind. unfold post at 1. cbn [arp_lock rval rst fst snd].
  apply post_bind. unfold post at 1. cbn [gets rval rst fst snd]. set (s1 := set_arp_mutex true s).
  change (arp_table s1) with (arp_table s). rewrite (select_absent _ _ Ha), Hf. apply freespace_Some in Hf as [Hi Hu].
  destruct (ok_unused _ _ (table_lookup_ok n _ i (proj1 Hs)) Hu) as [Hha _].
  apply post_bind. unfold post at 1. rewrite rval_bind, rst_bind. cbn [entry_mod modify mret' rval rst fst snd negb].
  set (s2 := set_arp_table _ s1). apply post_bind. unfold post at 1. cbn [entry_mod modify rval rst fst snd].
  set (s3 := set_arp_table _ s2).
  assert (arp_table s3 = <[i := ArpEntry true pa ETHERNET_ADDR_ANY now (Some data) (Some netif)]> (arp_table s)) as E3.
  { subst s3 s2. cbn [arp_table set_arp_table]. change (arp_table s1) with (arp_table s).
    rewrite list_lookup_total_insert_eq, list_insert_insert_eq by done. cbn. by rewrite Hha. }
  apply post_bind, (send_request_run _ _ _ _ _ _ _ _ Hn). intros r. unfold post. split_and!; [done|exact E3|done].
Qed.

(** The host is the target of a request of an unknown sender. *)
Lemma rx_request (n : net Ops P) dev netif d sha spa (s : arp W) ha pa tha rest now t :
  table_ok n True (arp_table s) -> absent pa (arp_table s) -> is_Some (arp_table_freespace (arp_table s)) ->
  netdev_get_netif dev NETIF_FAMILY_IPV4 n = (Some netif, []) -> netif_addrs n netif = Some (d, sha, spa) ->
  is_u32 spa -> is_u32 pa -> zlen ha = 6 -> zlen tha = 6 ->
  let m := arp_message ARP_OP_REQUEST ha pa tha spa in
  post (arp_rx n (arp_store m ++ rest) (28 + zlen rest) dev now t) s (fun _ s' =>
    arp_world s' = rst (ops_tx d ETHERNET_TYPE_ARP (arp_store (arp_message ARP_OP_REPLY sha spa ha pa)) ha (arp_world s)) /\
    exists i, arp_table_select pa (arp_table s') = Some i /\ ae_ha (arp_table s' !!! i) = ha).
Proof.
  intros Hs Ha Hf Hg Hn Hspa Hpa Lh Lt m. pose proof (zlen_nonneg rest).
  destruct (arp_message_load ARP_OP_REQUEST ha pa tha spa rest) as (El & Ev & _ & Eop); [by unfold is_u16|done..|]. fold m in El, Ev, Eop.
  unfold arp_rx, arp_rx_enter. rewrite (proj2 (Z.ltb_ge (28 + zlen rest) _)), El, Ev by (unfold ARP_ETHERNET_SIZE; lia). cbn [negb].
  apply post_bind, post_bind, rx_update_post. intros s1 Hp Hw. cbn [m arp_message am_spa am_sha].
  unfold arp_table_update. apply post_bind. unfold post at 1. cbn [gets rval rst fst snd].
  pose proof (absent_patrolled _ _ _ _ Hp Ha) as Ha1. rewrite (select_absent _ _ Ha1).
  unfold post at 1. cbn [mret' rval rst fst snd]. change (-1 =? 0) with false.
  apply post_ret. unfold arp_rx_insert. rewrite Hg. apply post_bind. unfold post at 1. cbn [tell rval rst fst snd].
  destruct (netif_unicast_of _ _ _ _ _ Hn) as (nif & En & Eu & _).
  rewrite En, Eu. cbn [m arp_message am_tpa]. rewrite Z.eqb_refl. fold m. cbn [negb when].
  apply post_bind, post_bind. unfold post at 1. cbn [arp_lock rst rval fst snd]. apply post_bind.
  eapply post_mono.
  { apply (insert_learns pa ha t); try done; cbn.
    - by eapply free_patrolled.
    - apply Forall_lookup. intros k e He. apply list_lookup_total_correct in He as <-.
      by destruct (proj2 Hp k) as [->|[_ ->]]; [apply (ok_ha n), table_lookup_ok, Hs|]. }
  intros _ s2 [Hw2 Hlearn]. unfold post at 1. cbn [arp_unlock modify rst rval fst snd]. rewrite Eop. cbn [when Z.eqb].
  apply post_bind, (send_reply_run _ _ _ _ _ _ _ _ _ _ Hn); [done|]. intros r. apply post_ret.
  split; [|exact Hlearn]. cbn. rewrite Hw2. cbn. by rewrite Hw.
Qed.

(** The reply to the request for the address of a saved packet. *)
Lemma rx_reply (n : net Ops P) dev netif d sha spa (s : arp W) tab i t0 data ha pa tha rest now t :
  arp_table s = <[i := ArpEntry true pa ETHERNET_ADDR_ANY t0 (Some data) (Some netif)]> tab ->
  (i < length tab)%nat -> absent pa tab -> now - t0 <= ARP_TABLE_TIMEOUT_SEC ->
  netdev_get_netif dev NETIF_FAMILY_IPV4 n = (Some netif, []) -> netif_addrs n netif = Some (d, sha, spa) ->
  is_u32 spa -> is_u32 pa -> zlen ha = 6 -> zlen tha = 6 ->
  let m := arp_message ARP_OP_REPLY ha pa tha spa in
  post (arp_rx n (arp_store m ++ rest) (28 + zlen rest) dev now t) s (fun _ s' =>
    arp_world s' = rst (ops_tx d ETHERNET_TYPE_IP data ha (arp_world s)) /\
    exists i, arp_table_select pa (arp_table s') = Some i /\ ae_ha (arp_table s' !!! i) = ha).
Proof.
  intros Es Hi Ha Ht Hg Hn Hspa Hpa Lh Lt m. pose proof (zlen_nonneg rest).
  destruct (arp_message_load ARP_OP_REPLY ha pa tha spa rest) as (El & Ev & _ & Eop); [by unfold is_u16|done..|]. fold m in El, Ev, Eop.
  unfold arp_rx, arp_rx_enter. rewrite (proj2 (Z.ltb_ge (28 + zlen rest) _)), El, Ev by (unfold ARP_ETHERNET_SIZE; lia). cbn [negb].
  destruct (netif_unicast_of _ _ _ _ _ Hn) as (nif & En & Eu & Ed). set (e := ArpEntry true pa _ t0 _ _) in Es.
  apply post_bind, post_bind, rx_update_post. intros s1 [Hl Hk] Hw. cbn [m arp_message am_spa am_sha].
  assert (forall k, k <> i -> arp_table s1 !!! k = tab !!! k \/ ae_used (arp_table s1 !!! k) = false) as Hother.
  { intros k Hki. specialize (Hk k). rewrite Es, list_lookup_total_insert_ne in Hk by done.
    destruct Hk as [->|[_ ->]]; [by left|by right]. }
  assert (arp_table s1 !!! i = e) as Ei.
  { specialize (Hk i). rewrite Es, list_lookup_total_insert_eq in Hk by done. destruct Hk as [->|[Hx _]]; [done|].
    unfold arp_expired in Hx. cbn in Hx. lia. }
  assert (i < length (arp_table s1))%nat as Hi1 by (rewrite Hl, Es, length_insert; done).
  assert (arp_table_select pa (arp_table s1) = Some i) as Hsel.
  { apply select_intro; [done|by rewrite Ei..|]. intros k Hki Hu. destruct (Hother k Hki) as [E|E]; [|congruence].
    rewrite E in *. by apply absent_total. }
  eapply post_mono; [apply (update_sends n dev pa ha t s1 i e data d); try done; cbn; by rewrite En|].
  intros r s2 (-> & Et2 & Hw2). change (0 =? 0) with true. apply post_ret. unfold arp_rx_insert. rewrite Hg.
  apply post_bind. unfold post at 1. cbn [tell rval rst fst snd]. rewrite En, Eu.
  cbn [m arp_message am_tpa]. rewrite Z.eqb_refl. fold m. rewrite Eop. unfold post. cbn. split; [by rewrite Hw2, Hw|].
  exists i. rewrite Et2. rewrite list_lookup_total_insert_eq by done. split; [|done]. apply select_intro.
  - by rewrite length_insert.
  - by rewrite list_lookup_total_insert_eq.
  - by rewrite list_lookup_total_insert_eq.
  - intros k Hki. rewrite list_lookup_total_insert_ne by done. intros Hu. destruct (Hother k Hki) as [E|E]; [|congruence].
    rewrite E in *. by apply absent_total.
Qed.

(** C14: two hosts that run this code resolve each other's address.  When host A has to
    send [data] to the unknown address [ipB], [arp_resolve] saves it and broadcasts
    a request; B, when it gets the request (with any padding), learns the address
    of A and answers A; A, when it gets the answer within five minutes, sends the
    saved data to the hardware address of B.  From then on [arp_resolve] finds the
    addresses on both sides. *)
Theorem arp_handshake (nA nB : net Ops P) a b dA dB hA hB ipA ipB data (sA sB : arp W) t0 nowA tA nowB tB padA padB :
  netdev_get_netif dA NETIF_FAMILY_IPV4 nA = (Some a, []) -> netif_addrs nA a = Some (dA, hA, ipA) ->
  netdev_get_netif dB NETIF_FAMILY_IPV4 nB = (Some b, []) -> netif_addrs nB b = Some (dB, hB, ipB) ->
  is_u32 ipA -> is_u32 ipB -> zlen hA = 6 -> zlen hB = 6 -> hA <> ETHERNET_ADDR_ANY -> hB <> ETHERNET_ADDR_ANY ->
  arp_inv nA True sA -> arp_inv nB True sB -> absent ipB (arp_table sA) -> absent ipA (arp_table sB) ->
  is_Some (arp_table_freespace (arp_table sA)) -> is_Some (arp_table_freespace (arp_table sB)) ->
  nowA - t0 <= ARP_TABLE_TIMEOUT_SEC ->
  let request := arp_store (arp_message ARP_OP_REQUEST hA ipA ETHERNET_ADDR_ANY ipB) in
  let reply := arp_store (arp_message ARP_OP_REPLY hB ipB hA ipA) in
  let r1 := arp_resolve nA a ipB (Some data) true t0 sA in
  let s2 := rst (arp_rx nB (request ++ padA) (28 + zlen padA) dB nowB tB sB) in
  let s3 := rst (arp_rx nA (reply ++ padB) (28 + zlen padB) dA nowA tA (rst r1)) in
  rval r1 = Resolved ARP_RESOLVE_QUERY [] /\
  arp_world (rst r1) = rst (ops_tx dA ETHERNET_TYPE_ARP request ETHERNET_ADDR_BROADCAST (arp_world sA)) /\
  arp_world s2 = rst (ops_tx dB ETHERNET_TYPE_ARP reply hA (arp_world sB)) /\
  arp_world s3 = rst (ops_tx dA ETHERNET_TYPE_IP data hB (arp_world (rst r1))) /\
  (forall x malloc t, rval (arp_resolve nA a ipB x malloc t s3) = Resolved ARP_RESOLVE_FOUND hB) /\
  (forall x malloc t, rval (arp_resolve nB b ipA x malloc t s2) = Resolved ARP_RESOLVE_FOUND hA).
Proof.
  intros HgA HnA HgB HnB HipA HipB LA LB HA HB [HsA _] [HsB _] HabsA HabsB [i HfA] HfB Ht request reply r1 s2 s3.
  destruct (resolve_queries nA a ipB data t0 sA i dA hA ipA HsA HabsA HfA HnA) as (E1 & T1 & W1). fold r1 in E1, T1, W1.
  apply freespace_Some in HfA as [Hi _].
  destruct (rx_request nB dB b dB hB ipB sB hA ipA ETHERNET_ADDR_ANY padA nowB tB HsB HabsB HfB HgB HnB)
    as (W2 & j & Sj & Hj); [done..|]. fold request s2 in W2, Sj, Hj.
  destruct (rx_reply nA dA a dA hA ipA (rst r1) (arp_table sA) i t0 data hB ipB hA padB nowA tA T1 Hi HabsA Ht HgA HnA)
    as (W3 & k & Sk & Hk); [done..|]. fold reply s3 in W3, Sk, Hk.
  split_and!; try done; intros x malloc t; by eapply resolve_found.
Qed.

End Handshake.

(** ** Examples *)

(** A world that records what devices are asked to send. *)
#[local] Instance sample_device : Device (list (devid * Z * bytes * bytes)) :=
  fun d ty p dst w => (zlen p, w ++ [(d, ty, p, dst)], []).

(** One device with one interface. *)
Definition sample_host (ha : bytes) (ip : Z) : net unit nat :=
  Net [] [] [0%nat] {[ 0%nat := Netdev (Some 0%nat) [] 1 1500 1 14 6 ha [] [] tt ]}
    {[ 0%nat := Netif None NETIF_FAMILY_IPV4 (Some 0%nat) ip 0 0 0 0 ]}.

Lemma sample_absent pa {W} (w : W) : absent pa (arp_table (arp_init_state w)).
Proof. intros i e He. apply lookup_replicate in He as [-> _]. done. Qed.

Lemma sample_host_wf ha ip : net_wf (sample_host ha ip).
Proof.
  split; try constructor; try constructor; [by eexists|]. intros d dev Hd; cbn in Hd; apply lookup_singleton_Some in Hd as [<- <-].
  exists [0%nat]. split_and!; [|apply NoDup_singleton|by apply Forall_singleton]. split; [done|]. by eexists.
Qed.

(** A request of 10.0.0.2 arrives, and before its thread goes on 10.0.0.3 is looked up. *)
Definition sample_events : list arp_event :=
  let request := arp_store (H := LittleEndian) (arp_message (H := LittleEndian) ARP_OP_REQUEST [2; 0; 0; 0; 0; 2] 33554442
                   ETHERNET_ADDR_ANY 16777226) in
  [EvRx request 28 0 101 101; EvResolve 0 50331658 (Some [1; 2]) true 101; EvInsert 0;
   EvResolve 0 33554442 (Some [3]) true 102; EvWake 0 ETIMEDOUT].

Lemma arp_table_safe_witness :
  let n := sample_host [2; 0; 0; 0; 0; 1] 16777226 in
  safe (arp_run (H := LittleEndian) n sample_events) (Conf (arp_init_state []) []) (fun _ c =>
    unique (arp_table (cf_arp c))).
Proof.
  intros n. eapply safe_mono; [apply (arp_table_safe (H := LittleEndian) n sample_events [])|].
  - done.
  - apply sample_host_wf.
  - repeat constructor; try (by eexists). vm_compute. discriminate.
  - intros _ c (_ & _ & Hu). apply Hu. repeat (split; [vm_compute; repeat constructor; discriminate|]). done.
Defined.

(** Hosts 10.0.0.1 and 10.0.0.2. *)
Lemma arp_handshake_witness :
  let nA := sample_host [2; 0; 0; 0; 0; 1] 16777226 in
  let reply := arp_store (H := LittleEndian) (arp_message (H := LittleEndian) ARP_OP_REPLY [2; 0; 0; 0; 0; 2] 33554442
                 [2; 0; 0; 0; 0; 1] 16777226) in
  let s1 := rst (arp_resolve (H := LittleEndian) nA 0 33554442 (Some [1; 2; 3]) true 100 (arp_init_state [])) in
  arp_world (rst (arp_rx (H := LittleEndian) nA (reply ++ [0; 0]) 30 0 101 101 s1))
  = arp_world s1 ++ [(0%nat, ETHERNET_TYPE_IP, [1; 2; 3], [2; 0; 0; 0; 0; 2])].
Proof.
  intros nA reply s1.
  destruct (arp_handshake (H := LittleEndian) nA (sample_host [2; 0; 0; 0; 0; 2] 33554442) 0 0 0 0
    [2; 0; 0; 0; 0; 1] [2; 0; 0; 0; 0; 2] 16777226 33554442 [1; 2; 3] (arp_init_state []) (arp_init_state [])
    100 101 101 101 101 [] [0; 0]) as (_ & _ & _ & E & _).
  all: try exact E.
  all: first [reflexivity | apply arp_inv_init | apply sample_absent | discriminate | by eexists |
    vm_compute; intuition discriminate].
Defined.

(** ** Faults *)

(** When a wait ends early, without a reply, whatever address the entry has at this
    time is returned as resolved: none yet, or that of the next user of the entry. *)
Lemma arp_wake_unresolved {H : Host} {W : Type} `{Device W} i (s : arp W) :
  ae_used (arp_table s !!! i) = true ->
  rval (arp_resolve_wake i 0 s) = Resolved ARP_RESOLVE_FOUND (ae_ha (arp_table s !!! i)).
Proof. intros Hu. unfold arp_resolve_wake. cbn. by rewrite Hu. Qed.

(** A resolution of the sender's address between the two critical sections of [arp_rx]
    makes two entries for one address.  The one found first is unresolved, and its
    packet stays. *)
Lemma arp_rx_race :
  let n := sample_host [2; 0; 0; 0; 0; 1] 16777226 in
  let request := arp_store (H := LittleEndian) (arp_message (H := LittleEndian) ARP_OP_REQUEST [2; 0; 0; 0; 0; 2] 33554442
                   ETHERNET_ADDR_ANY 16777226) in
  let evs := [EvRx request 28 0 100 100; EvResolve 0 33554442 (Some [1]) true 100; EvInsert 0] in
  let r := arp_run (H := LittleEndian) n evs (Conf (arp_init_state []) []) in
  take 2 (arp_table (cf_arp (rst r))) =
    [ArpEntry true 33554442 ETHERNET_ADDR_ANY 100 (Some [1]) (Some 0%nat);
     ArpEntry true 33554442 [2; 0; 0; 0; 0; 2] 100 None None] /\
  rub r = [].
Proof. vm_compute. split; reflexivity. Qed.
