(* ===== verification/TcpTypes.v ===== *)
(** * TCP: control blocks and the operations on them (src/tcp.c, lines
    11-275 and 722-811)

    The control blocks are a table indexed by [nat]; a [struct tcp_cb *] is an
    index.  The chain of a transmission queue is a list of entries, the backlog
    of a listener the abstract queue of [Queue].  Wake-ups of condition
    variables are recorded in the order of the calls.  Everything outside TCP
    (the C library and the Internet layer) works on a world [W] of its own,
    through the class [System]. *)

From S2P Require Import Prelude Endian Cksum Queue Net IpFragment Ip.

(** ** Constants *)

Definition USER_TIMEOUT : Z := 20.
Definition TIME_WAIT_TIMEOUT : Z := 20.
Definition TCP_SND_BUF_SIZE : Z := 10240.
Definition TCP_CB_TABLE_SIZE : nat := 128.
Definition TCP_SOURCE_PORT_MIN : Z := 49152.
Definition TCP_SOURCE_PORT_MAX : Z := 65535.
Definition TCP_WINDOW_SIZE : Z := 65535.
Definition TCP_HDR_SIZE : Z := 20.

Inductive tcp_state :=
  | CLOSED | LISTEN | SYN_SENT | SYN_RCVD | ESTABLISHED | FIN_WAIT1 | FIN_WAIT2
  | CLOSING | TIME_WAIT | CLOSE_WAIT | LAST_ACK.

#[export] Instance tcp_state_eq_dec : EqDecision tcp_state.
Proof. solve_decision. Defined.

Definition state_is (a b : tcp_state) : bool := bool_decide (a = b).

Definition TCP_FLG_FIN : Z := 1.
Definition TCP_FLG_SYN : Z := 2.
Definition TCP_FLG_RST : Z := 4.
Definition TCP_FLG_PSH : Z := 8.
Definition TCP_FLG_ACK : Z := 16.
Definition TCP_FLG_URG : Z := 32.

Definition TCP_FLG_ISSET (x y : Z) : bool := nz (Z.land (Z.land x 63) y).

(** ** Data *)

(** [struct tcp_hdr] as the host reads it. *)
Record tcp_hdr := TcpHdr {
  th_src : Z; th_dst : Z; th_seq : Z; th_ack : Z; th_off : Z; th_flg : Z;
  th_win : Z; th_sum : Z; th_urg : Z
}.

Definition th_set_sum v h :=
  TcpHdr (th_src h) (th_dst h) (th_seq h) (th_ack h) (th_off h) (th_flg h) (th_win h) v (th_urg h).
Definition th_set_ack v h :=
  TcpHdr (th_src h) (th_dst h) (th_seq h) v (th_off h) (th_flg h) (th_win h) (th_sum h) (th_urg h).

Definition TCP_HDR_LEN (h : tcp_hdr) : Z := Z.shiftl (Z.shiftr (th_off h) 4) 2.
Definition TCP_DATA_LEN (h : tcp_hdr) (len : Z) : Z := u64 (len - TCP_HDR_LEN h).

(** An entry of the transmission queue.  The segment is the header and the data
    of one allocation.  Of the time stamp only the seconds are used; 0 means
    that the segment has not been sent. *)
Record tcp_txq_entry := TxqEntry { te_hdr : tcp_hdr; te_data : bytes; te_len : Z; te_sec : Z }.

Record tcp_txq_head := TxqHead { txq_entries : list tcp_txq_entry; txq_snt : Z }.

Record tcp_snd := Snd { snd_nxt : Z; snd_una : Z; snd_up : Z; snd_wl1 : Z; snd_wl2 : Z; snd_wnd : Z }.
Record tcp_rcv := Rcv { rcv_nxt : Z; rcv_up : Z; rcv_wnd : Z }.

Record tcp_cb := TcpCb {
  cb_used : bool;
  cb_state : tcp_state;
  cb_iface : option nifid;
  cb_port : Z;                  (** network byte order *)
  cb_peer_addr : Z;
  cb_peer_port : Z;             (** network byte order *)
  cb_snd : tcp_snd;
  cb_iss : Z;
  cb_rcv : tcp_rcv;
  cb_irs : Z;
  cb_txq : tcp_txq_head;
  cb_window : bytes;
  cb_parent : option nat;
  cb_backlog : list nat;
  cb_timeout : Z
}.

Definition snd0 : tcp_snd := Snd 0 0 0 0 0 0.
Definition rcv0 : tcp_rcv := Rcv 0 0 0.
Definition txq0 : tcp_txq_head := TxqHead [] 0.

(** A control block of the zero-initialised static table. *)
Definition cb0 : tcp_cb :=
  TcpCb false CLOSED None 0 0 0 snd0 0 rcv0 0 txq0 (replicate (Z.to_nat TCP_WINDOW_SIZE) 0) None [] 0.

#[export] Instance tcp_cb_inhabited : Inhabited tcp_cb := populate cb0.

Definition cb_set_used v c := TcpCb v (cb_state c) (cb_iface c) (cb_port c) (cb_peer_addr c) (cb_peer_port c)
  (cb_snd c) (cb_iss c) (cb_rcv c) (cb_irs c) (cb_txq c) (cb_window c) (cb_parent c) (cb_backlog c) (cb_timeout c).
Definition cb_set_state v c := TcpCb (cb_used c) v (cb_iface c) (cb_port c) (cb_peer_addr c) (cb_peer_port c)
  (cb_snd c) (cb_iss c) (cb_rcv c) (cb_irs c) (cb_txq c) (cb_window c) (cb_parent c) (cb_backlog c) (cb_timeout c).
Definition cb_set_iface v c := TcpCb (cb_used c) (cb_state c) v (cb_port c) (cb_peer_addr c) (cb_peer_port c)
  (cb_snd c) (cb_iss c) (cb_rcv c) (cb_irs c) (cb_txq c) (cb_window c) (cb_parent c) (cb_backlog c) (cb_timeout c).
Definition cb_set_port v c := TcpCb (cb_used c) (cb_state c) (cb_iface c) v (cb_peer_addr c) (cb_peer_port c)
  (cb_snd c) (cb_iss c) (cb_rcv c) (cb_irs c) (cb_txq c) (cb_window c) (cb_parent c) (cb_backlog c) (cb_timeout c).
Definition cb_set_peer a p c := TcpCb (cb_used c) (cb_state c) (cb_iface c) (cb_port c) a p
  (cb_snd c) (cb_iss c) (cb_rcv c) (cb_irs c) (cb_txq c) (cb_window c) (cb_parent c) (cb_backlog c) (cb_timeout c).
Definition cb_set_snd v c := TcpCb (cb_used c) (cb_state c) (cb_iface c) (cb_port c) (cb_peer_addr c) (cb_peer_port c)
  v (cb_iss c) (cb_rcv c) (cb_irs c) (cb_txq c) (cb_window c) (cb_parent c) (cb_backlog c) (cb_timeout c).
Definition cb_set_iss v c := TcpCb (cb_used c) (cb_state c) (cb_iface c) (cb_port c) (cb_peer_addr c) (cb_peer_port c)
  (cb_snd c) v (cb_rcv c) (cb_irs c) (cb_txq c) (cb_window c) (cb_parent c) (cb_backlog c) (cb_timeout c).
Definition cb_set_rcv v c := TcpCb (cb_used c) (cb_state c) (cb_iface c) (cb_port c) (cb_peer_addr c) (cb_peer_port c)
  (cb_snd c) (cb_iss c) v (cb_irs c) (cb_txq c) (cb_window c) (cb_parent c) (cb_backlog c) (cb_timeout c).
Definition cb_set_irs v c := TcpCb (cb_used c) (cb_state c) (cb_iface c) (cb_port c) (cb_peer_addr c) (cb_peer_port c)
  (cb_snd c) (cb_iss c) (cb_rcv c) v (cb_txq c) (cb_window c) (cb_parent c) (cb_backlog c) (cb_timeout c).
Definition cb_set_txq v c := TcpCb (cb_used c) (cb_state c) (cb_iface c) (cb_port c) (cb_peer_addr c) (cb_peer_port c)
  (cb_snd c) (cb_iss c) (cb_rcv c) (cb_irs c) v (cb_window c) (cb_parent c) (cb_backlog c) (cb_timeout c).
Definition cb_set_window v c := TcpCb (cb_used c) (cb_state c) (cb_iface c) (cb_port c) (cb_peer_addr c) (cb_peer_port c)
  (cb_snd c) (cb_iss c) (cb_rcv c) (cb_irs c) (cb_txq c) v (cb_parent c) (cb_backlog c) (cb_timeout c).
Definition cb_set_parent v c := TcpCb (cb_used c) (cb_state c) (cb_iface c) (cb_port c) (cb_peer_addr c) (cb_peer_port c)
  (cb_snd c) (cb_iss c) (cb_rcv c) (cb_irs c) (cb_txq c) (cb_window c) v (cb_backlog c) (cb_timeout c).
Definition cb_set_backlog v c := TcpCb (cb_used c) (cb_state c) (cb_iface c) (cb_port c) (cb_peer_addr c) (cb_peer_port c)
  (cb_snd c) (cb_iss c) (cb_rcv c) (cb_irs c) (cb_txq c) (cb_window c) (cb_parent c) v (cb_timeout c).
Definition cb_set_timeout v c := TcpCb (cb_used c) (cb_state c) (cb_iface c) (cb_port c) (cb_peer_addr c) (cb_peer_port c)
  (cb_snd c) (cb_iss c) (cb_rcv c) (cb_irs c) (cb_txq c) (cb_window c) (cb_parent c) (cb_backlog c) v.

Definition snd_set_nxt v s := Snd v (snd_una s) (snd_up s) (snd_wl1 s) (snd_wl2 s) (snd_wnd s).
Definition snd_set_una v s := Snd (snd_nxt s) v (snd_up s) (snd_wl1 s) (snd_wl2 s) (snd_wnd s).
Definition snd_set_window wnd wl1 wl2 s := Snd (snd_nxt s) (snd_una s) (snd_up s) wl1 wl2 wnd.
Definition rcv_set_nxt v r := Rcv v (rcv_up r) (rcv_wnd r).
Definition rcv_set_up v r := Rcv (rcv_nxt r) v (rcv_wnd r).
Definition rcv_set_wnd v r := Rcv (rcv_nxt r) (rcv_up r) v.

Definition IS_FREE_CB (c : tcp_cb) : bool := negb (cb_used c) && state_is (cb_state c) CLOSED.

(** ** The world outside *)

(** What TCP calls: the C library ([malloc], [gettimeofday], [time], [random]; an
    absent time is a failure) and the Internet layer ([ip_tx],
    [ip_netif_by_peer], the address of an interface and the MTU of its device). *)
Class System (W : Type) := {
  sys_malloc : W -> bool * W;
  sys_gettimeofday : W -> option Z * W;
  sys_time : W -> Z * W;
  sys_random : W -> Z * W;
  sys_ip_tx : nifid -> bytes -> Z -> Z -> M W Z;      (** interface, segment, length, destination *)
  sys_netif_by_peer : Z -> W -> option nifid;
  sys_unicast : nifid -> Z;
  sys_mtu : nifid -> Z
}.

Inductive wake := Signal (i : nat) | Broadcast (i : nat) | SignalTimer.

(** The state of TCP. *)
Record tcp (W : Type) := Tcp {
  cb_table : list tcp_cb;
  tcp_mutex : bool;                       (** held *)
  tcp_wakes : list wake;
  tcp_world : W
}.
Arguments Tcp {W}.
Arguments cb_table {W}.
Arguments tcp_mutex {W}.
Arguments tcp_wakes {W}.
Arguments tcp_world {W}.

Definition tcp_init_state {W} (w : W) : tcp W := Tcp (replicate TCP_CB_TABLE_SIZE cb0) false [] w.

(** ** Operations *)

Section Ops.
Context {H : Host} {W : Type} `{SYS : System W}.

Definition set_cb_table t (s : tcp W) : tcp W := Tcp t (tcp_mutex s) (tcp_wakes s) (tcp_world s).
Definition set_tcp_mutex b (s : tcp W) : tcp W := Tcp (cb_table s) b (tcp_wakes s) (tcp_world s).
Definition set_tcp_wakes l (s : tcp W) : tcp W := Tcp (cb_table s) (tcp_mutex s) l (tcp_world s).
Definition set_tcp_world w (s : tcp W) : tcp W := Tcp (cb_table s) (tcp_mutex s) (tcp_wakes s) w.

(** Access through a control block pointer. *)
Definition cb_get (i : nat) : M (tcp W) tcp_cb := gets (fun s => cb_table s !!! i).
Definition cb_mod (i : nat) (f : tcp_cb -> tcp_cb) : M (tcp W) unit :=
  modify (fun s => set_cb_table (<[i := f (cb_table s !!! i)]> (cb_table s)) s).

(** Calls to the world. *)
Definition sys {A} (f : W -> A * W) : M (tcp W) A := fun s =>
  let '(a, w) := f (tcp_world s) in (a, set_tcp_world w s, []).
Definition sysm {A} (m : M W A) : M (tcp W) A := zoom tcp_world set_tcp_world m.

Definition cond (k : wake) : M (tcp W) unit := modify (fun s => set_tcp_wakes (tcp_wakes s ++ [k]) s).

(** The mutex is not recursive. *)
Definition lock : M (tcp W) unit := fun s =>
  (tt, set_tcp_mutex true s, if tcp_mutex s then [Deadlock] else []).
Definition unlock : M (tcp W) unit := modify (set_tcp_mutex false).

Definition tcp_hdr_load (b : bytes) : option tcp_hdr :=
  match b with
  | s0 :: s1 :: d0 :: d1 :: q0 :: q1 :: q2 :: q3 :: a0 :: a1 :: a2 :: a3
    :: off :: flg :: w0 :: w1 :: c0 :: c1 :: u0 :: u1 :: _ =>
      Some (TcpHdr (load16 s0 s1) (load16 d0 d1) (load32 q0 q1 q2 q3) (load32 a0 a1 a2 a3) off flg
              (load16 w0 w1) (load16 c0 c1) (load16 u0 u1))
  | _ => None
  end.

Definition tcp_hdr_store (h : tcp_hdr) : bytes :=
  store16 (th_src h) ++ store16 (th_dst h) ++ store32 (th_seq h) ++ store32 (th_ack h)
  ++ [th_off h; th_flg h] ++ store16 (th_win h) ++ store16 (th_sum h) ++ store16 (th_urg h).

(** The low half of [self] is added twice; the one of [peer] is not added. *)
Definition tcp_checksum (self peer : Z) (segment : bytes) (len : Z) : Z * list ub :=
  let pseudo := 0 in
  let pseudo := u32 (pseudo + Z.land (Z.shiftr self 16) 65535) in
  let pseudo := u32 (pseudo + Z.land self 65535) in
  let pseudo := u32 (pseudo + Z.land (Z.shiftr peer 16) 65535) in
  let pseudo := u32 (pseudo + Z.land self 65535) in
  let pseudo := u32 (pseudo + hton16 IP_PROTOCOL_TCP) in
  let pseudo := u32 (pseudo + hton16 (u16 len)) in
  cksum16 segment (u16 len) pseudo.

(** *** Segment queue *)

(** The result says whether the entry could be allocated. *)
Definition tcp_txq_add (i : nat) (hdr : tcp_hdr) (data : bytes) (len : Z) : M (tcp W) bool :=
  let* ok := sys sys_malloc in
  if negb ok then ret false else
  cb_mod i (fun c => cb_set_txq (TxqHead (txq_entries (cb_txq c) ++ [TxqEntry hdr data (u16 len) 0])
                                   (txq_snt (cb_txq c))) c) ;;;
  ret true.

Definition tcp_txq_clear_all (c : tcp_cb) : tcp_cb := cb_set_txq (TxqHead [] (txq_snt (cb_txq c))) c.

Definition tcp_close_cb (i : nat) : M (tcp W) unit :=
  cb_mod i (fun c => tcp_txq_clear_all (cb_set_irs 0 (cb_set_rcv rcv0
    (cb_set_iss 0 (cb_set_snd snd0 (cb_set_state CLOSED c)))))).

(** *** Sending a segment *)

(** Change the last entry of the queue, the one [txq] points to. *)
Definition txq_map_last (f : tcp_txq_entry -> tcp_txq_entry) (q : tcp_txq_head) : tcp_txq_head :=
  match last (txq_entries q) with
  | Some e => TxqHead (removelast (txq_entries q) ++ [f e]) (txq_snt q)
  | None => q
  end.

Definition te_set_hdr h e := TxqEntry h (te_data e) (te_len e) (te_sec e).
Definition te_set_sec t e := TxqEntry (te_hdr e) (te_data e) (te_len e) t.

(** The last queued segment has not been sent. *)
Definition txq_have_unsent (q : tcp_txq_head) : bool :=
  match last (txq_entries q) with Some e => te_sec e =? 0 | None => false end.

(** Lines 753-777: queue a segment that expects an acknowledgement.  The result
    is what [tcp_tx] returns, if it returns here. *)
Definition tcp_tx_queue (i : nat) (hdr : tcp_hdr) (data : bytes) (len : Z) : M (tcp W) (option Z) :=
  let* c := cb_get i in
  let have_unsent := txq_have_unsent (cb_txq c) in
  let* ok := tcp_txq_add i hdr data (TCP_HDR_SIZE + len) in
  if negb ok then ret (Some (-1)) else
  let* c := cb_get i in
  if have_unsent || (negb (TCP_FLG_ISSET (th_flg hdr) TCP_FLG_SYN)
                     && (snd_wnd (cb_snd c) <? txq_snt (cb_txq c) + len))
  then ret (Some 0) else ret None.

(** Lines 779-811: checksum and transmission.  A queued entry shares the memory of
    the segment, so it sees the checksum. *)
Definition tcp_tx_send (i : nat) (hdr : tcp_hdr) (data : bytes) (len now : Z) (queued : bool) : M (tcp W) Z :=
  let* c := cb_get i in
  match cb_iface c with
  | None => tell [NullDeref] ;;; ret (-1)
  | Some iface =>
      let peer := cb_peer_addr c in
      let '(sum, u) := tcp_checksum (sys_unicast iface) peer (tcp_hdr_store hdr ++ data) (TCP_HDR_SIZE + len) in
      tell u ;;;
      let hdr := th_set_sum sum hdr in
      when queued (cb_mod i (fun c => cb_set_txq (txq_map_last (te_set_hdr hdr) (cb_txq c)) c)) ;;;
      let* r := sysm (sys_ip_tx iface (tcp_hdr_store hdr ++ data) (TCP_HDR_SIZE + len) peer) in
      if r =? -1 then ret (-1) else
      when queued (cb_mod i (fun c =>
        let q := txq_map_last (te_set_sec now) (cb_txq c) in
        cb_set_txq (TxqHead (txq_entries q) (u16 (txq_snt q + len))) c)) ;;;
      ret len
  end.

(** [buf] is the memory at the data pointer, [now] the seconds of the time. *)
Definition tcp_tx (i : nat) (seq ack flg now : Z) (buf : bytes) (len : Z) : M (tcp W) Z :=
  let* ok := sys sys_malloc in
  if negb ok then ret (-1) else
  let* c := cb_get i in
  let hdr := TcpHdr (cb_port c) (cb_peer_port c) (hton32 seq) (hton32 ack)
               (Z.shiftl (Z.shiftr TCP_HDR_SIZE 2) 4) flg (hton16 (rcv_wnd (cb_rcv c))) 0 0 in
  tell (if zlen buf <? len then [OobRead (len - zlen buf)] else []) ;;;
  let data := take (Z.to_nat len) buf in
  let queued := (0 <? len) || nz (Z.land flg (Z.lor TCP_FLG_SYN TCP_FLG_FIN)) in
  let* early := if queued then tcp_tx_queue i hdr data len else ret None in
  match early with
  | Some r => ret r
  | None => tcp_tx_send i hdr data len now queued
  end.

End Ops.
