(* ===== verification/Dump.v ===== *)
(** * Diagnostic output (src/util.c, lines 9-43 and 205-216, and the dump functions
    of src/tcp.c, src/arp.c, src/ethernet.c and src/ip.c)

    What the functions write to the stream, as character codes.  The octets of a
    hexdump and the bits of a mask can be read back from the text. *)

From S2P Require Import Prelude Logic Endian Cksum Mask Queue Addr CString Net Ethernet IpFragment Ip Arp TcpTypes.

(** ** Conversions of <stdio.h> *)

(** The digits of a number that is not negative; [fuel] is at least their number. *)
Fixpoint fmt_num (fuel : nat) (base n : Z) : list Z :=
  match fuel with
  | O => []
  | S fuel => if n <? base then [hex_digit n] else fmt_num fuel base (n / base) ++ [hex_digit (n mod base)]
  end.

(** [%u], [%lu], [%zu] (numbers of at most 64 bits) and [%ld]. *)
Definition fmt_u (n : Z) : list Z := fmt_num 20 10 n.
Definition fmt_ld (n : Z) : list Z := if n <? 0 then 45 :: fmt_u (- n) else fmt_u n.

(** [%04x]. *)
Definition fmt_04x (n : Z) : list Z :=
  let ds := fmt_num 8 16 n in replicate (4 - length ds) 48 ++ ds.

(** The conversion of a [size_t] to [int]. *)
Definition to_int (n : Z) : Z := (n + 2147483648) mod 4294967296 - 2147483648.

Definition isascii (c : Z) : bool := (0 <=? c) && (c <? 128).
Definition isprint (c : Z) : bool := (32 <=? c) && (c <=? 126).

Definition newline : list Z := [10].

(** ** hexdump *)

Definition RULE : list Z := str "+------+-------------------------------------------------+------------------+" ++ newline.

(** [src[k]] *)
Definition peek (data : bytes) (k : Z) : Z := default 0 (data !! Z.to_nat k).

Definition hex_cell (data : bytes) (size k : Z) : list Z :=
  if k <? size then fmt_02x (Z.land 255 (peek data k)) ++ str " " else str "   ".

Definition ascii_cell (data : bytes) (size k : Z) : list Z :=
  if k <? size then
    if isascii (peek data k) && isprint (peek data k) then [peek data k] else str "."
  else str " ".

Definition dump_line (data : bytes) (size offset : Z) : list Z :=
  str "| " ++ fmt_04x offset ++ str " | "
  ++ concat (map (hex_cell data size) (seqZ offset 16))
  ++ str "| " ++ concat (map (ascii_cell data size) (seqZ offset 16)) ++ str " |" ++ newline.

(** The loop over the lines; [fuel] is at least their number. *)
Fixpoint dump_lines (fuel : nat) (data : bytes) (size offset : Z) : list Z :=
  match fuel with
  | O => []
  | S fuel => if offset <? size then dump_line data size offset ++ dump_lines fuel data size (offset + 16) else []
  end.

(** The octets at [data] are read up to [size]. *)
Definition hexdump (data : bytes) (size : Z) : list Z * list ub :=
  let n := to_int size in
  (RULE ++ dump_lines (Z.to_nat n) data n 0 ++ RULE,
   if zlen data <? n then [OobRead (n - zlen data)] else []).

(** ** maskdbg *)

Definition ISBIT (x : Z) : list Z := if nz x then str "1" else str "0".

Definition mask_line (b : Z) : list Z :=
  ISBIT (Z.land b 1) ++ ISBIT (Z.land b 2) ++ ISBIT (Z.land b 4) ++ ISBIT (Z.land b 8) ++ str " "
  ++ ISBIT (Z.land b 16) ++ ISBIT (Z.land b 32) ++ ISBIT (Z.land b 64) ++ ISBIT (Z.land b 128) ++ newline.

(** The words are read octet by octet, as the host stores them. *)
Definition maskdbg {H : Host} (mask : list Z) (size : Z) : list Z * list ub :=
  (concat (map mask_line (concat (map store32 (take (Z.to_nat size) mask)))),
   if zlen mask <? size then [OobRead (size - zlen mask)] else []).

(** ** The dump functions *)

(** The letters of the flags; [buf] has room for them and the NUL. *)
Definition flag_letter (flg f : Z) (c : string) : list Z := if TCP_FLG_ISSET flg f then str c else [].

Definition tcp_flg_ntop (flg : Z) : list Z :=
  flag_letter flg TCP_FLG_FIN "F" ++ flag_letter flg TCP_FLG_SYN "S" ++ flag_letter flg TCP_FLG_RST "R"
  ++ flag_letter flg TCP_FLG_PSH "P" ++ flag_letter flg TCP_FLG_ACK "A" ++ flag_letter flg TCP_FLG_URG "U".

Definition tcp_state_ntop (state : tcp_state) : list Z :=
  match state with
  | CLOSED => str "CLOSED"
  | LISTEN => str "LISTEN"
  | SYN_SENT => str "SYN_SENT"
  | SYN_RCVD => str "SYN_RCVD"
  | ESTABLISHED => str "ESTABLISHED"
  | FIN_WAIT1 => str "FIN_WAIT1"
  | FIN_WAIT2 => str "FIN_WAIT2"
  | CLOSING => str "CLOSING"
  | TIME_WAIT => str "TIME_WAIT"
  | CLOSE_WAIT => str "CLOSE_WAIT"
  | LAST_ACK => str "LAST_ACK"
  end.

Section Dump.
Context {H : Host}.

(** A line with a label and a value. *)
Definition line (label : string) (value : list Z) : list Z := str label ++ value ++ newline.

Definition tcp_state_dump (cb : tcp_cb) : list Z :=
  line "      used: " (if cb_used cb then str "1" else str "0")
  ++ line "     state: " (tcp_state_ntop (cb_state cb))
  ++ line " self.port: " (fmt_u (ntoh16 (cb_port cb)))
  ++ line " peer.addr: " (ip_addr_ntop (store32 (cb_peer_addr cb)) 64)
  ++ line " peer.port: " (fmt_u (ntoh16 (cb_peer_port cb)))
  ++ line "   snd.nxt: " (fmt_u (snd_nxt (cb_snd cb)))
  ++ line "   snd.una: " (fmt_u (snd_una (cb_snd cb)))
  ++ line "   snd.wnd: " (fmt_u (snd_wnd (cb_snd cb)))
  ++ line "   txq.snt: " (fmt_u (txq_snt (cb_txq cb)))
  ++ line "   rcv.nxt: " (fmt_u (rcv_nxt (cb_rcv cb)))
  ++ line "   rcv.wnd: " (fmt_u (rcv_wnd (cb_rcv cb)))
  ++ line " n_backlog: " (fmt_u (zlen (cb_backlog cb)))
  ++ line "   timeout: " (fmt_ld (cb_timeout cb)).

Definition tcp_dump (cb : tcp_cb) (hdr : tcp_hdr) (plen : Z) : list Z :=
  tcp_state_dump cb
  ++ line " len: " (fmt_u plen)
  ++ line " src: " (fmt_u (ntoh16 (th_src hdr)))
  ++ line " dst: " (fmt_u (ntoh16 (th_dst hdr)))
  ++ line " seq: " (fmt_u (ntoh32 (th_seq hdr)))
  ++ line " ack: " (fmt_u (ntoh32 (th_ack hdr)))
  ++ line " off: " (fmt_u (th_off hdr))
  ++ line " flg: " (str "[" ++ tcp_flg_ntop (th_flg hdr) ++ str "]")
  ++ line " win: " (fmt_u (ntoh16 (th_win hdr)))
  ++ line " sum: " (fmt_u (ntoh16 (th_sum hdr)))
  ++ line " urg: " (fmt_u (ntoh16 (th_urg hdr))).

Definition arp_opcode_ntop (opcode : Z) : list Z :=
  let op := ntoh16 opcode in
  if op =? ARP_OP_REQUEST then str "REQUEST" else
  if op =? ARP_OP_REPLY then str "REPLY" else str "UNKNOWN".

(** [%s] of an address: the conversion fails only for null pointers. *)
Definition addr_text (n : bytes) (size : Z) : list Z := default [] (ethernet_addr_ntop (Some n) true size).

Definition arp_dump (message : arp_ethernet) : list Z :=
  line " hrd: 0x" (fmt_04x (ntoh16 (am_hrd message)))
  ++ line " pro: 0x" (fmt_04x (ntoh16 (am_pro message)))
  ++ line " hln: " (fmt_u (am_hln message))
  ++ line " pln: " (fmt_u (am_pln message))
  ++ line "  op: " (fmt_u (ntoh16 (am_op message)) ++ str " (" ++ arp_opcode_ntop (am_op message) ++ str ")")
  ++ line " sha: " (addr_text (am_sha message) 128)
  ++ line " spa: " (ip_addr_ntop (store32 (am_spa message)) 128)
  ++ line " tha: " (addr_text (am_tha message) 128)
  ++ line " tpa: " (ip_addr_ntop (store32 (am_tpa message)) 128).

(** [name] and [addr] are those of the device. *)
Definition ethernet_dump (name : list Z) (addr frame : bytes) (flen : Z) : list Z * list ub :=
  match ethernet_hdr_load frame with
  | None => ([], [OobRead (ETHERNET_HDR_SIZE - zlen frame)])
  | Some hdr =>
      let '(text, u) := hexdump frame flen in
      (line "  dev: " (name ++ str " (" ++ addr_text addr 18 ++ str ")")
       ++ line "  src: " (addr_text (eh_src hdr) 18)
       ++ line "  dst: " (addr_text (eh_dst hdr) 18)
       ++ line " type: 0x" (fmt_04x (ntoh16 (eh_type hdr)) ++ str " (" ++ addr_text (eh_src hdr) 18 ++ str ")")
       ++ line "  len: " (fmt_u flen ++ str " octets")
       ++ text, u)
  end.

(** [name] is that of the device of the interface, [unicast] its address. *)
Definition ip_dump (name : list Z) (unicast : Z) (hdr : ip_hdr) (packet : bytes) (plen : Z) : list Z * list ub :=
  let '(text, u) := hexdump packet plen in
  (line "      dev: " (name ++ str " (" ++ ip_addr_ntop (store32 unicast) 16 ++ str ")")
   ++ line "      src: " (ip_addr_ntop (store32 (ih_src hdr)) 16)
   ++ line "      dst: " (ip_addr_ntop (store32 (ih_dst hdr)) 16)
   ++ line " protocol: 0x" (fmt_02x (ih_protocol hdr))
   ++ line "      len: " (fmt_u plen ++ str " octets")
   ++ text, u).

End Dump.

(** ** Reading a hexdump back *)

(** At most [k] cells, up to the first blank one. *)
Fixpoint read_cells (k : nat) (s : list Z) : bytes :=
  match k, s with
  | S k, h :: l :: _ :: s => if h =? 32 then [] else (digit h * 16 + digit l) :: read_cells k s
  | _, _ => []
  end.

(** The lines, 78 characters each, until a rule. *)
Fixpoint read_lines (fuel : nat) (s : list Z) : bytes :=
  match fuel with
  | O => []
  | S fuel => if deref s =? 124 then read_cells 16 (drop 9 s) ++ read_lines fuel (drop 78 s) else []
  end.

(** A dump of 65536 octets has 4096 lines. *)
Definition undump (s : list Z) : bytes := read_lines 4097 (drop 78 s).

Lemma fmt_02x_digits b : is_u8 b -> exists h l, fmt_02x b = [h; l] /\ h <> 32 /\ digit h * 16 + digit l = b.
Proof.
  intros Hb. do 2 eexists. split; [done|].
  pose proof (all_octets (fun b => negb (hex_digit (b / 16) =? 32) &&
    (digit (hex_digit (b / 16)) * 16 + digit (hex_digit (b mod 16)) =? b)) ltac:(by vm_compute) b Hb) as E.
  apply andb_true_iff in E as [E1 E2]. split; lia.
Qed.

(** A number has as many digits as the powers of the base say, and they are its own. *)
Lemma fmt_num_spec base : 2 <= base <= 16 -> forall k fuel n, (0 < k <= fuel)%nat -> 0 <= n < base ^ Z.of_nat k ->
  (length (fmt_num fuel base n) <= k)%nat /\ dvalue base (fmt_num fuel base n) = n.
Proof.
  intros Hb. assert (forall d, 0 <= d < base -> digit (hex_digit d) = d) as Hdig.
  { intros d Hd. pose proof (all_octets (fun d => (16 <=? d) || (digit (hex_digit d) =? d)) ltac:(by vm_compute) d
      ltac:(unfold is_u8; lia)) as E. cbv beta in E. lia. }
  induction k as [|k IH]; intros fuel n Hk Hn; [lia|]. destruct fuel as [|fuel]; [lia|]. cbn [fmt_num].
  destruct (Z.ltb_spec n base) as [Hlt|Hge]; [cbn; rewrite Hdig by lia; lia|].
  assert (n / base < base ^ Z.of_nat k) as Hq.
  { apply Z.div_lt_upper_bound; [lia|]. rewrite Nat2Z.inj_succ, Z.pow_succ_r in Hn by lia. lia. }
  assert (0 < k)%nat as Hk'.
  { destruct k; [|lia]. cbn in Hn. lia. }
  destruct (IH fuel (n / base) ltac:(lia)) as [Hl Hv]; [split; [apply Z.div_pos; lia|done]|].
  rewrite length_app. unfold dvalue in *. rewrite fold_left_app, Hv. cbn. rewrite Hdig by (apply Z.mod_pos_bound; lia).
  split; [lia|]. rewrite (Z.div_mod n base) at 3 by lia. lia.
Qed.

Lemma fmt_04x_length n : 0 <= n < 65536 -> length (fmt_04x n) = 4%nat.
Proof.
  intros Hn. unfold fmt_04x. destruct (fmt_num_spec 16 ltac:(lia) 4 8 n ltac:(lia) ltac:(done)) as [Hl _].
  rewrite length_app, length_replicate. lia.
Qed.

Section Roundtrip.
Context (data : bytes) (Hdata : is_bytes data).
Let size := zlen data.

Lemma peek_lookup off : 0 <= off < size -> exists b, data !! Z.to_nat off = Some b /\ peek data off = b /\ is_u8 b.
Proof.
  intros Hoff. destruct (lookup_lt_is_Some_2 data (Z.to_nat off)) as [b Hb]; [unfold size, zlen in *; lia|].
  exists b. unfold peek. rewrite Hb. split_and!; [done|done|]. by eapply Forall_lookup_1.
Qed.

Lemma read_cells_hex k : forall off rest, 0 <= off ->
  read_cells k (concat (map (hex_cell data size) (seqZ off (Z.of_nat k))) ++ rest) = take k (drop (Z.to_nat off) data).
Proof.
  induction k as [|k IH]; intros off rest Hoff; [done|]. rewrite seqZ_cons by lia. cbn [map concat].
  replace (Z.pred (Z.of_nat (S k))) with (Z.of_nat k) by lia. rewrite <- app_assoc. unfold hex_cell at 1.
  destruct (Z.ltb_spec off size) as [Hlt|Hge].
  - destruct (peek_lookup off ltac:(lia)) as (b & Hb & -> & Hu). rewrite Z.land_comm. change 255 with (Z.ones 8).
    rewrite Z.land_ones, Z.mod_small by (unfold is_u8 in Hu; lia).
    destruct (fmt_02x_digits b Hu) as (h & l & -> & Hh & Hv). cbn. rewrite (proj2 (Z.eqb_neq h 32)) by done.
    rewrite Hv, (drop_S data b _ Hb). cbn. f_equal. replace (S (Z.to_nat off)) with (Z.to_nat (Z.succ off)) by lia.
    apply IH. lia.
  - cbn. rewrite drop_ge by (unfold size, zlen in *; lia). done.
Qed.

Lemma length_cells (f : Z -> list Z) w off n : (forall k, length (f k) = w) -> length (concat (map f (seqZ off n))) = (w * Z.to_nat n)%nat.
Proof.
  intros Hf. rewrite <- (length_seqZ off n). generalize (seqZ off n) as l.
  induction l as [|x l IH]; cbn; [lia|]. rewrite length_app, Hf, IH. lia.
Qed.

Lemma hex_cell_length k : length (hex_cell data size k) = 3%nat.
Proof. unfold hex_cell. by case_match. Qed.
Lemma ascii_cell_length k : length (ascii_cell data size k) = 1%nat.
Proof. unfold ascii_cell. by repeat case_match. Qed.

Lemma dump_line_read off rest : 0 <= off < 65536 ->
  deref (dump_line data size off ++ rest) = 124 /\ drop 78 (dump_line data size off ++ rest) = rest /\
  read_cells 16 (drop 9 (dump_line data size off ++ rest)) = take 16 (drop (Z.to_nat off) data).
Proof.
  intros Hoff. unfold dump_line. pose proof (fmt_04x_length off Hoff) as Hl.
  assert (exists a b c d, fmt_04x off = [a; b; c; d]) as (a & b & c & d & E).
  { destruct (fmt_04x off) as [|a [|b [|c [|d [|e l]]]]]; try done. by exists a, b, c, d. }
  split_and!; [done| |].
  - rewrite drop_app_length'; [done|]. rewrite !length_app, Hl, (length_cells (hex_cell data size) 3), (length_cells (ascii_cell data size) 1);
      auto using hex_cell_length, ascii_cell_length.
  - rewrite E, <- !app_assoc. cbn [str String.list_ascii_of_string map app drop]. exact (read_cells_hex 16 off _ ltac:(lia)).
Qed.

Lemma dump_lines_read : forall fuel lines off, 0 <= off -> size - off <= 16 * Z.of_nat lines -> size <= 65536 ->
  (lines <= fuel)%nat -> forall rest, deref rest <> 124 -> forall fuel', (lines < fuel')%nat ->
  read_lines fuel' (dump_lines fuel data size off ++ rest) = drop (Z.to_nat off) data.
Proof.
  intros fuel lines. revert fuel. induction lines as [|lines IH]; intros fuel off H0 Hs Hb Hf rest Hr fuel' Hf'.
  - destruct fuel' as [|fuel']; [lia|]. assert (dump_lines fuel data size off = []) as ->.
    { destruct fuel as [|fuel]; [done|]. cbn. by rewrite (proj2 (Z.ltb_ge _ _)) by lia. }
    cbn [app read_lines]. rewrite (proj2 (Z.eqb_neq _ _)) by done. rewrite drop_ge; [done|]. unfold size, zlen in *. lia.
  - destruct fuel' as [|fuel']; [lia|]. destruct fuel as [|fuel]; [lia|]. cbn [dump_lines].
    destruct (Z.ltb_spec off size) as [Hlt|Hge].
    + rewrite <- app_assoc. cbn [read_lines].
      destruct (dump_line_read off (dump_lines fuel data size (off + 16) ++ rest) ltac:(lia)) as (-> & -> & ->).
      cbn [Z.eqb Pos.eqb]. rewrite (IH fuel (off + 16)) by (done || lia).
      rewrite <- (take_drop 16 (drop (Z.to_nat off) data)) at 2. rewrite drop_drop. do 2 f_equal. lia.
    + cbn [app read_lines]. rewrite (proj2 (Z.eqb_neq _ _)) by done. rewrite drop_ge; [done|]. unfold size, zlen in *. lia.
Qed.

End Roundtrip.

(** C32: [hexdump] shows what is in memory: for up to 65536 octets it reads exactly
    these, and they can be read back from the text it prints. *)
Theorem hexdump_roundtrip data : is_bytes data -> zlen data <= 65536 ->
  (hexdump data (zlen data)).2 = [] /\ undump (hexdump data (zlen data)).1 = data.
Proof.
  intros Hd Hl. unfold hexdump. pose proof (zlen_nonneg data).
  assert (to_int (zlen data) = zlen data) as -> by (unfold to_int; rewrite Z.mod_small; lia).
  rewrite Z.ltb_irrefl. split; [done|]. unfold undump. cbn [fst].
  rewrite drop_app_length' by done.
  rewrite (dump_lines_read data Hd (Z.to_nat (zlen data)) (Z.to_nat ((zlen data + 15) / 16)) 0); [done|..];
    try (rewrite ?length_app; Z.div_mod_to_equations; (done || lia)).
Qed.

(** ** Reading a mask back *)

(** The digits of the text, without separators. *)
Definition read_bits (s : list Z) : list bool := map (fun c => c =? 49) (List.filter (fun c => (c =? 48) || (c =? 49)) s).

Lemma read_bits_app a b : read_bits (a ++ b) = read_bits a ++ read_bits b.
Proof. unfold read_bits. by rewrite List.filter_app, map_app. Qed.

Lemma mask_line_bits b : is_u8 b -> read_bits (mask_line b) = map (Z.testbit b) (seqZ 0 8).
Proof.
  intros Hb. pose proof (all_octets (fun b => bool_decide (read_bits (mask_line b) = map (Z.testbit b) (seqZ 0 8)))
    ltac:(by vm_compute) b Hb) as E. by apply bool_decide_eq_true in E.
Qed.

Lemma octet_bit w k j : 0 <= k -> 0 <= j < 8 -> Z.testbit (w / 2 ^ k mod 256) j = Z.testbit w (j + k).
Proof. intros Hk Hj. change 256 with (2 ^ 8). by rewrite Z.mod_pow2_bits_low, Z.div_pow2_bits by lia. Qed.

Lemma octets_bits (w : Z) :
  concat (map (fun b => map (Z.testbit b) (seqZ 0 8)) (store32 (H := LittleEndian) w)) = map (Z.testbit w) (seqZ 0 32).
Proof.
  assert (store32 (H := LittleEndian) w = [w / 2 ^ 0 mod 256; w / 2 ^ 8 mod 256; w / 2 ^ 16 mod 256; w / 2 ^ 24 mod 256]) as ->
    by (change (2 ^ 0) with 1; by rewrite Z.div_1_r).
  change (seqZ 0 8) with [0; 1; 2; 3; 4; 5; 6; 7]. cbn [map concat app]. by rewrite !octet_bit by lia.
Qed.

Lemma mask_text_bits mask : concat (map (fun w => map (Z.testbit w) (seqZ 0 32)) mask) = map (mbit mask) (seqZ 0 (32 * zlen mask)).
Proof.
  induction mask as [|w mask IH]; [done|]. cbn [map concat]. rewrite IH. change (zlen (w :: mask)) with (Z.of_nat (S (length mask))).
  replace (32 * Z.of_nat (S (length mask))) with (32 + 32 * zlen mask) by (unfold zlen; lia). pose proof (zlen_nonneg mask).
  rewrite seqZ_app, map_app by lia. apply (f_equal2 app).
  - apply map_ext_in. intros k Hk%list_elem_of_In%elem_of_seqZ. unfold mbit. by rewrite Z.div_small, Z.mod_small by lia.
  - rewrite <- (fmap_add_seqZ 32 0). change (fmap (M := list)) with (@map Z Z). rewrite map_map. apply map_ext_in.
    intros k Hk%list_elem_of_In%elem_of_seqZ. unfold mbit. replace (32 + k) with (k + 1 * 32) by lia.
    rewrite Z.div_add, Z.mod_add by lia. replace (Z.to_nat (k / 32 + 1)) with (S (Z.to_nat (k / 32))); [done|].
    assert (0 <= k / 32) by (apply Z.div_pos; lia). lia.
Qed.

(** [maskdbg] prints the mask bit by bit: on a little-endian host its digits are the
    bits of the mask in their order. *)
Theorem maskdbg_bits mask :
  (maskdbg (H := LittleEndian) mask (zlen mask)).2 = [] /\
  read_bits (maskdbg (H := LittleEndian) mask (zlen mask)).1 = map (mbit mask) (seqZ 0 (32 * zlen mask)).
Proof.
  unfold maskdbg. rewrite Z.ltb_irrefl. split; [done|]. cbn [fst]. rewrite take_ge by (unfold zlen; lia).
  rewrite <- mask_text_bits. induction mask as [|w mask IH]; [done|].
  cbn [map concat]. rewrite map_app, concat_app, read_bits_app, IH. apply (f_equal2 app); [|done]. rewrite <- octets_bits.
  assert (is_bytes (store32 (H := LittleEndian) w)) as Hb by (repeat constructor; apply Z.mod_pos_bound; lia).
  induction Hb as [|b l Hb _ IHl]; [done|]. cbn [map concat]. by rewrite read_bits_app, mask_line_bits, IHl.
Qed.

(** ** Flags, states and numbers *)

(** The flags can be told from the letters, which fit the buffer of 64 characters. *)
Definition read_flags (s : list Z) : Z :=
  fold_left (fun a (p : string * Z) => if existsb (fun c => c =? deref (str p.1)) s then Z.lor a p.2 else a)
    [("F", TCP_FLG_FIN); ("S", TCP_FLG_SYN); ("R", TCP_FLG_RST); ("P", TCP_FLG_PSH); ("A", TCP_FLG_ACK); ("U", TCP_FLG_URG)]%string 0.

Lemma tcp_flg_ntop_read flg : is_u8 flg -> read_flags (tcp_flg_ntop flg) = Z.land flg 63 /\ (length (tcp_flg_ntop flg) < 64)%nat.
Proof.
  intros Hf. pose proof (all_octets (fun flg => (read_flags (tcp_flg_ntop flg) =? Z.land flg 63) && Nat.ltb (length (tcp_flg_ntop flg)) 64)
    ltac:(by vm_compute) flg Hf) as E. apply andb_true_iff in E as [E1%Z.eqb_eq E2%Nat.ltb_lt]. done.
Qed.

Lemma tcp_state_ntop_inj : Inj (=) (=) tcp_state_ntop.
Proof. intros [] []; done. Qed.

Lemma fmt_u_value n : 0 <= n < 100000000000000000000 -> dvalue 10 (fmt_u n) = n.
Proof. intros Hn. unfold fmt_u. destruct (fmt_num_spec 10 ltac:(lia) 20 20 n ltac:(lia) Hn) as [_ E]. exact E. Qed.

(** ** Examples *)

Lemma hexdump_roundtrip_witness :
  (hexdump (str "hello, world ----") 17).2 = [] /\ undump (hexdump (str "hello, world ----") 17).1 = str "hello, world ----".
Proof. apply (hexdump_roundtrip (str "hello, world ----")); [by repeat constructor|done]. Defined.
