(* ===== verification/TcpSegment.v ===== *)
(** * TCP: arrival of segments (src/tcp.c, lines 277-715 and 813-893)

    [tcp_event_segment_arrives] follows the event processing of RFC 793; its
    phases are definitions of their own.  [hdr] is the header at the start of
    [segment], the memory at the segment pointer. *)

From S2P Require Import Prelude Endian Cksum Queue Net IpFragment Ip TcpTypes.

(** Where control goes after a phase: return, or the label [CHECK_URG]. *)
Inductive next := Stop | CheckUrg.

Section Segment.
Context {H : Host} {W : Type} `{SYS : System W}.

Definition ISSET (hdr : tcp_hdr) (f : Z) : bool := TCP_FLG_ISSET (th_flg hdr) f.
Definition SEQ (hdr : tcp_hdr) : Z := ntoh32 (th_seq hdr).
Definition ACK (hdr : tcp_hdr) : Z := ntoh32 (th_ack hdr).

(** A segment without data. *)
Definition tx (i : nat) (seq ack flg now : Z) : M (tcp W) unit := tcp_tx i seq ack flg now [] 0 ;;; ret tt.

Definition set_state (i : nat) (st : tcp_state) : M (tcp W) unit := cb_mod i (cb_set_state st).
Definition set_timeout (i : nat) (t : Z) : M (tcp W) unit := cb_mod i (cb_set_timeout t).
Definition mod_snd (i : nat) (f : tcp_snd -> tcp_snd) : M (tcp W) unit :=
  cb_mod i (fun c => cb_set_snd (f (cb_snd c)) c).
Definition mod_rcv (i : nat) (f : tcp_rcv -> tcp_rcv) : M (tcp W) unit :=
  cb_mod i (fun c => cb_set_rcv (f (cb_rcv c)) c).

(** Acknowledge what has been received. *)
Definition tx_ack (i : nat) (now : Z) : M (tcp W) unit :=
  let* c := cb_get i in tx i (snd_nxt (cb_snd c)) (rcv_nxt (cb_rcv c)) TCP_FLG_ACK now.

(** ** States without a connection *)

Definition arrives_closed (i : nat) (hdr : tcp_hdr) (plen now : Z) : M (tcp W) unit :=
  if negb (ISSET hdr TCP_FLG_RST) then
    if ISSET hdr TCP_FLG_ACK then tx i (ACK hdr) 0 TCP_FLG_RST now
    else tx i 0 (u32 (SEQ hdr + plen)) (Z.lor TCP_FLG_RST TCP_FLG_ACK) now
  else ret tt.

(** The label [ERROR_RX_LISTEN]. *)
Definition error_rx_listen (i : nat) : M (tcp W) next :=
  tcp_close_cb i ;;;
  cond (Broadcast i) ;;;
  cb_mod i (cb_set_parent None) ;;;
  ret Stop.

Definition arrives_listen (i : nat) (hdr : tcp_hdr) (now : Z) : M (tcp W) next :=
  if ISSET hdr TCP_FLG_RST then error_rx_listen i else
  if ISSET hdr TCP_FLG_ACK then tx i (ACK hdr) 0 TCP_FLG_RST now ;;; error_rx_listen i else
  if ISSET hdr TCP_FLG_SYN then
    mod_rcv i (rcv_set_wnd TCP_WINDOW_SIZE) ;;;
    mod_rcv i (rcv_set_nxt (u32 (SEQ hdr + 1))) ;;;
    cb_mod i (cb_set_irs (SEQ hdr)) ;;;
    let* iss := sys sys_random in
    cb_mod i (cb_set_iss (u32 iss)) ;;;
    let* c := cb_get i in
    tx i (cb_iss c) (rcv_nxt (cb_rcv c)) (Z.lor TCP_FLG_SYN TCP_FLG_ACK) now ;;;
    mod_snd i (snd_set_nxt (u32 (cb_iss c + 1))) ;;;
    mod_snd i (snd_set_una (cb_iss c)) ;;;
    set_timeout i (now + USER_TIMEOUT) ;;;
    set_state i SYN_RCVD ;;;
    ret CheckUrg
  else error_rx_listen i.

(** Lines 377-409: the SYN of a connection being opened. *)
Definition syn_sent_syn (i : nat) (hdr : tcp_hdr) (plen now : Z) : M (tcp W) next :=
  mod_rcv i (rcv_set_nxt (u32 (SEQ hdr + 1))) ;;;
  cb_mod i (cb_set_irs (SEQ hdr)) ;;;
  let* c := cb_get i in
  when (snd_una (cb_snd c) <? ACK hdr)
    (mod_snd i (snd_set_una (ACK hdr)) ;;;
     set_timeout i (now + USER_TIMEOUT) ;;;
     cond SignalTimer) ;;;
  let* c := cb_get i in
  if cb_iss c <? snd_una (cb_snd c) then
    set_state i ESTABLISHED ;;;
    tx_ack i now ;;;
    cond (Signal i) ;;;
    if (0 <? plen) || ISSET hdr TCP_FLG_URG then ret CheckUrg else ret Stop
  else
    set_state i SYN_RCVD ;;;
    tx i (cb_iss c) (rcv_nxt (cb_rcv c)) (Z.lor TCP_FLG_SYN TCP_FLG_ACK) now ;;;
    cond (Signal i) ;;;
    ret Stop.

Definition arrives_syn_sent (i : nat) (hdr : tcp_hdr) (plen now : Z) : M (tcp W) next :=
  let* c := cb_get i in
  let ack := ISSET hdr TCP_FLG_ACK in
  if ack && ((ACK hdr <=? cb_iss c) || (snd_nxt (cb_snd c) <? ACK hdr)) then
    tx i (ACK hdr) 0 TCP_FLG_RST now ;;; ret Stop
  else if ack && negb ((snd_una (cb_snd c) <=? ACK hdr) && (ACK hdr <=? snd_nxt (cb_snd c))) then ret Stop
  else
  let acceptable := ack in
  if ISSET hdr TCP_FLG_RST then
    if negb acceptable then ret Stop else
    tcp_close_cb i ;;; cond (Signal i) ;;; ret Stop
  else if ISSET hdr TCP_FLG_SYN then syn_sent_syn i hdr plen now
  else ret Stop.

(** ** Synchronized states *)

(** First: the sequence number.  The sums are taken at the widths of the source:
    32 bits for the window edge, 64 for the last octet of the segment. *)
Definition seq_acceptable (r : tcp_rcv) (hdr : tcp_hdr) (plen : Z) : bool :=
  let edge := u32 (rcv_nxt r + rcv_wnd r) in
  if 0 <? plen then
    if 0 <? rcv_wnd r then
      ((rcv_nxt r <=? SEQ hdr) && (SEQ hdr <? edge)) ||
      ((rcv_nxt r <=? SEQ hdr) && (u64 (SEQ hdr + plen - 1) <? edge))
    else false
  else
    if 0 <? rcv_wnd r then (rcv_nxt r <=? SEQ hdr) && (SEQ hdr <? edge)
    else SEQ hdr =? rcv_nxt r.

(** Second: a reset closes the connection. *)
Definition check_rst (i : nat) (st : tcp_state) : M (tcp W) unit :=
  tcp_close_cb i ;;;
  cond (if state_is st SYN_RCVD then Signal i else Broadcast i).

(** Fifth, lines 543-582: an acknowledgement in the states that accept one.  The
    result is false when the segment is dropped. *)
Definition ack_update (i : nat) (hdr : tcp_hdr) (now : Z) : M (tcp W) unit :=
  let* c := cb_get i in
  when (snd_una (cb_snd c) <? ACK hdr)
    (mod_snd i (snd_set_una (ACK hdr)) ;;;
     set_timeout i (now + USER_TIMEOUT) ;;;
     cond SignalTimer) ;;;
  cond (Broadcast i) ;;;
  let* c := cb_get i in
  let s := cb_snd c in
  when ((snd_wl1 s <? SEQ hdr) || ((snd_wl1 s =? SEQ hdr) && (snd_wl2 s <=? ACK hdr)))
    (mod_snd i (snd_set_window (ntoh16 (th_win hdr)) (SEQ hdr) (ACK hdr))).

(** The transitions on an acknowledgement of the FIN, as the source tests it. *)
Definition ack_fin (i : nat) (hdr : tcp_hdr) : M (tcp W) unit :=
  let* c := cb_get i in
  let acked := u32 (ACK hdr + 1) =? snd_nxt (cb_snd c) in
  match cb_state c with
  | FIN_WAIT1 => when acked (set_state i FIN_WAIT2)
  | CLOSING => when acked (set_state i TIME_WAIT)
  | _ => ret tt
  end.

Definition check_ack_established (i : nat) (hdr : tcp_hdr) (now : Z) : M (tcp W) next :=
  let* c := cb_get i in
  let s := cb_snd c in
  if (snd_una s <=? ACK hdr) && (ACK hdr <=? snd_nxt s) then
    ack_update i hdr now ;;; ack_fin i hdr ;;; ret CheckUrg
  else if snd_nxt s <? ACK hdr then tx_ack i now ;;; ret Stop
  else ack_fin i hdr ;;; ret CheckUrg.

(** The connection of a listener joins the backlog of its parent. *)
Definition syn_rcvd_established (i : nat) : M (tcp W) unit :=
  set_state i ESTABLISHED ;;;
  let* c := cb_get i in
  match cb_parent c with
  | Some p =>
      let* ok := sys sys_malloc in
      when ok (cb_mod p (fun l => cb_set_backlog (cb_backlog l ++ [i]) l)) ;;;
      cond (Signal p)
  | None => cond (Signal i)
  end.

Definition check_ack (i : nat) (hdr : tcp_hdr) (now : Z) : M (tcp W) next :=
  let* c := cb_get i in
  match cb_state c with
  | SYN_RCVD =>
      if negb ((snd_una (cb_snd c) <=? ACK hdr) && (ACK hdr <=? snd_nxt (cb_snd c))) then
        tx i (ACK hdr) (rcv_nxt (cb_rcv c)) TCP_FLG_RST now ;;; ret CheckUrg
      else syn_rcvd_established i ;;; check_ack_established i hdr now
  | ESTABLISHED | FIN_WAIT1 | FIN_WAIT2 | CLOSE_WAIT | CLOSING => check_ack_established i hdr now
  | LAST_ACK =>
      if ACK hdr =? snd_nxt (cb_snd c) then
        tcp_close_cb i ;;; cond (Broadcast i) ;;; ret Stop
      else ret CheckUrg
  | _ => ret CheckUrg
  end.

Definition arrives_synchronized (i : nat) (hdr : tcp_hdr) (plen now : Z) : M (tcp W) next :=
  let* c := cb_get i in
  if negb (seq_acceptable (cb_rcv c) hdr plen) then
    when (negb (ISSET hdr TCP_FLG_RST)) (tx_ack i now) ;;; ret Stop
  else if ISSET hdr TCP_FLG_RST then check_rst i (cb_state c) ;;; ret Stop
  else if ISSET hdr TCP_FLG_SYN then
    tx i 0 (rcv_nxt (cb_rcv c)) TCP_FLG_RST now ;;;
    tcp_close_cb i ;;;
    cond (Broadcast i) ;;;
    ret Stop
  else if ISSET hdr TCP_FLG_ACK then check_ack i hdr now
  else ret CheckUrg.

(** ** Urgent pointer, text and FIN *)

Definition check_urg (i : nat) (hdr : tcp_hdr) : M (tcp W) unit :=
  let* c := cb_get i in
  if ISSET hdr TCP_FLG_URG then
    match cb_state c with
    | ESTABLISHED | FIN_WAIT1 | FIN_WAIT2 =>
        mod_rcv i (fun r => rcv_set_up (Z.max (rcv_up r) (ntoh16 (th_urg hdr))) r)
    | _ => ret tt
    end
  else ret tt.

(** The text is copied behind what the window holds. *)
Definition check_text (i : nat) (hdr : tcp_hdr) (segment : bytes) (plen now : Z) : M (tcp W) unit :=
  let* c := cb_get i in
  match cb_state c with
  | ESTABLISHED | FIN_WAIT1 | FIN_WAIT2 =>
      if (0 <? plen) && (rcv_nxt (cb_rcv c) =? SEQ hdr) then
        let '(window, u) := memcpy (cb_window c) (TCP_WINDOW_SIZE - rcv_wnd (cb_rcv c))
                              (drop (Z.to_nat (TCP_HDR_LEN hdr)) segment) plen in
        tell u ;;;
        cb_mod i (cb_set_window window) ;;;
        mod_rcv i (rcv_set_nxt (u32 (SEQ hdr + plen))) ;;;
        mod_rcv i (fun r => rcv_set_wnd (u16 (rcv_wnd r - plen)) r) ;;;
        tx_ack i now ;;;
        cond (Broadcast i)
      else if ISSET hdr TCP_FLG_PSH then tx_ack i now ;;; cond (Broadcast i)
      else ret tt
  | _ => ret tt
  end.

Definition check_fin (i : nat) (hdr : tcp_hdr) (now : Z) : M (tcp W) unit :=
  if ISSET hdr TCP_FLG_FIN then
    mod_rcv i (rcv_set_nxt (u32 (SEQ hdr + 1))) ;;;
    tx_ack i now ;;;
    let* c := cb_get i in
    match cb_state c with
    | SYN_RCVD | ESTABLISHED => set_state i CLOSE_WAIT
    | FIN_WAIT1 => set_state i CLOSING
    | FIN_WAIT2 => set_state i TIME_WAIT ;;; set_timeout i (now + TIME_WAIT_TIMEOUT)
    | TIME_WAIT => set_timeout i (now + TIME_WAIT_TIMEOUT)
    | _ => ret tt
    end ;;;
    cond (Broadcast i)
  else ret tt.

Definition tcp_event_segment_arrives (i : nat) (hdr : tcp_hdr) (segment : bytes) (len : Z) : M (tcp W) unit :=
  let plen := TCP_DATA_LEN hdr len in
  let* t := sys sys_gettimeofday in
  match t with
  | None => ret tt
  | Some now =>
      let* c := cb_get i in
      let* k := match cb_state c with
                | CLOSED => arrives_closed i hdr plen now ;;; ret Stop
                | LISTEN => arrives_listen i hdr now
                | SYN_SENT => arrives_syn_sent i hdr plen now
                | _ => arrives_synchronized i hdr plen now
                end in
      match k with
      | Stop => ret tt
      | CheckUrg =>
          check_urg i hdr ;;;
          check_text i hdr segment plen now ;;;
          check_fin i hdr now
      end
  end.

(** ** Demultiplexing *)

(** The loop over the table: the connection of the segment, or the first free and
    the first listening control block. *)
Fixpoint tcp_rx_find (iface : nifid) (hdr : tcp_hdr) (src : Z) (i : nat) (t : list tcp_cb)
    (fcb lcb : option nat) : option nat * option nat * option nat :=
  match t with
  | [] => (None, fcb, lcb)
  | c :: t =>
      if IS_FREE_CB c then
        tcp_rx_find iface hdr src (S i) t (match fcb with None => Some i | _ => fcb end) lcb
      else if (match cb_iface c with None => true | Some n => Nat.eqb n iface end) && (cb_port c =? th_dst hdr) then
        if (cb_peer_addr c =? src) && (cb_peer_port c =? th_src hdr) then (Some i, fcb, lcb)
        else tcp_rx_find iface hdr src (S i) t fcb
               (if state_is (cb_state c) LISTEN && is_null lcb then Some i else lcb)
      else tcp_rx_find iface hdr src (S i) t fcb lcb
  end.

(** Lines 866-881: a control block for a segment of no connection. *)
Definition tcp_rx_new (iface : nifid) (hdr : tcp_hdr) (src : Z) (i : nat) (lcb : option nat) : M (tcp W) unit :=
  cb_mod i (cb_set_iface (Some iface)) ;;;
  match lcb with
  | Some l =>
      let* lc := cb_get l in
      cb_mod i (fun c => cb_set_parent (Some l) (cb_set_port (cb_port lc) (cb_set_state (cb_state lc) c)))
  | None => cb_mod i (cb_set_port 0)
  end ;;;
  cb_mod i (cb_set_peer src (th_src hdr)).

Definition tcp_rx (segment : bytes) (len src dst : Z) (iface : nifid) : M (tcp W) unit :=
  if negb (dst =? sys_unicast iface) then ret tt else
  if len <? TCP_HDR_SIZE then ret tt else
  let '(sum, u) := tcp_checksum src dst segment len in
  tell u ;;;
  if negb (sum =? 0) then ret tt else
  match tcp_hdr_load segment with
  | None => tell [OobRead (TCP_HDR_SIZE - zlen segment)]
  | Some hdr =>
      lock ;;;
      let* t := gets cb_table in
      match tcp_rx_find iface hdr src 0 t None None with
      | (Some i, _, _) => tcp_event_segment_arrives i hdr segment len ;;; unlock
      | (None, None, _) => unlock
      | (None, Some i, lcb) =>
          tcp_rx_new iface hdr src i lcb ;;;
          tcp_event_segment_arrives i hdr segment len ;;;
          unlock
      end
  end.

End Segment.
