(* ===== verification/TcpTimer.v ===== *)
(** * TCP: the timer thread (src/tcp.c, lines 895-1031)

    One iteration of the endless loop of [tcp_timer_thread]: user and TIME_WAIT
    timeouts, the removal of acknowledged segments, transmission of queued ones
    and retransmission.  Between iterations the thread waits on [timer_cond],
    with the mutex released. *)

From S2P Require Import Prelude Endian Cksum Queue Net IpFragment Ip TcpTypes.

Section Timer.
Context {H : Host} {W : Type} `{SYS : System W}.

(** Lines 950-967 and 968-988: refresh the acknowledgement and the checksum of a
    queued segment and send it; the result of [ip_tx] is ignored. *)
Definition txq_resend (c : tcp_cb) (iface : nifid) (now : Z) (e : tcp_txq_entry) : M W tcp_txq_entry :=
  let hdr := th_set_sum 0 (th_set_ack (hton32 (rcv_nxt (cb_rcv c))) (te_hdr e)) in
  let '(sum, u) := tcp_checksum (sys_unicast iface) (cb_peer_addr c) (tcp_hdr_store hdr ++ te_data e) (te_len e) in
  tell u ;;;
  let hdr := th_set_sum sum hdr in
  sys_ip_tx iface (tcp_hdr_store hdr ++ te_data e) (te_len e) (cb_peer_addr c) ;;;
  ret (TxqEntry hdr (te_data e) (te_len e) now).

(** The walk over the queue: [sum] is the data in flight so far, [snt] the
    counter of the queue.  The result is what stays in the queue. *)
Fixpoint txq_walk (c : tcp_cb) (iface : nifid) (now sum snt : Z) (q : list tcp_txq_entry)
  : M W (list tcp_txq_entry * Z) :=
  match q with
  | [] => ret ([], snt)
  | e :: q =>
      let dlen := te_len e - TCP_HDR_LEN (te_hdr e) in
      if snd_una (cb_snd c) <=? ntoh32 (th_seq (te_hdr e)) then
        let* e' := if (sum <? snd_wnd (cb_snd c)) && ((te_sec e =? 0) || (3 <? now - te_sec e))
                   then txq_resend c iface now e else ret e in
        let* r := txq_walk c iface now (u64 (sum + dlen)) snt q in
        ret (e' :: r.1, r.2)
      else txq_walk c iface now sum (u16 (snt - dlen)) q
  end.

(** The body of the loop for one control block. *)
Definition tcp_timer_cb (now : Z) (i : nat) : M (tcp W) unit :=
  let* c := cb_get i in
  if state_is (cb_state c) CLOSED then ret tt else
  if (negb (snd_una (cb_snd c) =? snd_nxt (cb_snd c)) || state_is (cb_state c) TIME_WAIT)
     && (cb_timeout c <? now) then
    tcp_close_cb i ;;; cond (Broadcast i)
  else
  match txq_entries (cb_txq c), cb_iface c with
  | [], _ => ret tt
  | _, None => tell [NullDeref]
  | q, Some iface =>
      let* r := sysm (txq_walk c iface now 0 (txq_snt (cb_txq c)) q) in
      cb_mod i (cb_set_txq (TxqHead r.1 r.2))
  end.

Fixpoint tcp_timer_cbs (now : Z) (ids : list nat) : M (tcp W) unit :=
  match ids with
  | [] => ret tt
  | i :: ids => tcp_timer_cb now i ;;; tcp_timer_cbs now ids
  end.

(** One iteration, from the wake-up to the next wait.  [gettimeofday] is not
    checked; on failure the previous time, plus the 100 ms added to it, remains:
    [last] stands for it. *)
Definition tcp_timer_thread (last : Z) : M (tcp W) Z :=
  lock ;;;
  let* t := sys sys_gettimeofday in
  let now := default last t in
  tcp_timer_cbs now (seq 0 TCP_CB_TABLE_SIZE) ;;;
  unlock ;;;
  ret now.

End Timer.
