(* ===== verification/TcpApi.v ===== *)
(** * TCP: the application interface (src/tcp.c, lines 1033-1500)

    A call that waits on a condition variable releases the mutex and is
    [Blocked]; the definition named [..._wake] is its continuation, run after a
    wake-up with the local variables it needs. *)

From S2P Require Import Prelude Endian Cksum Queue Net IpFragment Ip TcpTypes TcpSegment.

Inductive outcome (A : Type) := Return (a : A) | Blocked.
Arguments Return {A}.
Arguments Blocked {A}.

Section Api.
Context {H : Host} {W : Type} `{SYS : System W}.

Definition TCP_SOCKET_INVALID (soc : Z) : bool := (soc <? 0) || (Z.of_nat TCP_CB_TABLE_SIZE <=? soc).

(** [pthread_cond_wait]: the mutex is released while waiting. *)
Definition cond_wait {A} : M (tcp W) (outcome A) := unlock ;;; ret Blocked.
Definition done_unlock {A} (a : A) : M (tcp W) (outcome A) := unlock ;;; ret (Return a).

(** ** open *)

Definition tcp_api_open : M (tcp W) Z :=
  lock ;;;
  let* t := gets cb_table in
  match List.find (fun i => IS_FREE_CB (t !!! i)) (seq 0 TCP_CB_TABLE_SIZE) with
  | Some i => cb_mod i (cb_set_used true) ;;; unlock ;;; ret (Z.of_nat i)
  | None => unlock ;;; ret (-1)
  end.

(** ** close *)

(** Send a FIN and change the state. *)
Definition tcp_send_fin (i : nat) (now : Z) (st : tcp_state) : M (tcp W) Z :=
  let* c := cb_get i in
  tx i (snd_nxt (cb_snd c)) (rcv_nxt (cb_rcv c)) (Z.lor TCP_FLG_FIN TCP_FLG_ACK) now ;;;
  mod_snd i (fun s => snd_set_nxt (u32 (snd_nxt s + 1)) s) ;;;
  set_state i st ;;;
  ret 0.

(** The loop that closes the backlog; [close] is the recursive call.  Each turn
    removes the entry it works on, and no call on the way adds one. *)
Fixpoint close_backlog (close : nat -> M (tcp W) (option Z)) (n : nat) (i : nat) : M (tcp W) bool :=
  let* c := cb_get i in
  match cb_backlog c, n with
  | [], _ => ret true
  | _, O => ret false
  | b :: l, S n =>
      cb_mod i (cb_set_backlog l) ;;;
      let* r := close b in
      match r with None => ret false | Some _ => close_backlog close n i end
  end.

(** [None] when the fuel runs out.  A nested call returns at once unless its
    control block is marked used, and then clears the mark. *)
Fixpoint tcp_close (fuel : nat) (i : nat) : M (tcp W) (option Z) :=
  match fuel with
  | O => ret None
  | S fuel =>
      let* c := cb_get i in
      if negb (cb_used c) then ret (Some (-1)) else
      cb_mod i (cb_set_used false) ;;;
      let* t := sys sys_gettimeofday in
      match t with
      | None => ret (Some (-1))
      | Some now =>
          match cb_state c with
          | CLOSED => ret (Some 0)
          | LISTEN =>
              let* ok := close_backlog (tcp_close fuel) (length (cb_backlog c)) i in
              if negb ok then ret None else
              tcp_close_cb i ;;; cond (Broadcast i) ;;; ret (Some 0)
          | SYN_SENT => tcp_close_cb i ;;; cond (Broadcast i) ;;; ret (Some 0)
          | SYN_RCVD | ESTABLISHED => let* r := tcp_send_fin i now FIN_WAIT1 in ret (Some r)
          | FIN_WAIT1 | FIN_WAIT2 | CLOSING | TIME_WAIT | LAST_ACK => ret (Some (-1))
          | CLOSE_WAIT => let* r := tcp_send_fin i now CLOSING in ret (Some r)
          end
      end
  end.

Definition tcp_api_close (soc : Z) : M (tcp W) (option Z) :=
  if TCP_SOCKET_INVALID soc then ret (Some (-1)) else
  lock ;;;
  let* r := tcp_close (S TCP_CB_TABLE_SIZE) (Z.to_nat soc) in
  unlock ;;;
  ret r.

(** ** connect *)

Definition port_in_use (t : list tcp_cb) (p : Z) : bool :=
  existsb (fun c => negb (IS_FREE_CB c) && (cb_port c =? hton16 (u16 p))) t.

(** The first unused port at or above [MIN + offset]. *)
Definition find_port (t : list tcp_cb) (offset : Z) : option Z :=
  List.find (fun p => negb (port_in_use t p))
    (seqZ (TCP_SOURCE_PORT_MIN + offset) (TCP_SOURCE_PORT_MAX - (TCP_SOURCE_PORT_MIN + offset) + 1)).

Definition tcp_connect_wake (i : nat) : M (tcp W) (outcome Z) :=
  let* c := cb_get i in
  if state_is (cb_state c) SYN_SENT then cond_wait else done_unlock 0.

(** Lines 1189-1216: address the peer, send the SYN and wait. *)
Definition tcp_connect_syn (i : nat) (addr port now : Z) : M (tcp W) (outcome Z) :=
  cb_mod i (cb_set_peer addr (hton16 (u16 port))) ;;;
  let* w := gets tcp_world in
  cb_mod i (cb_set_iface (sys_netif_by_peer addr w)) ;;;
  match sys_netif_by_peer addr w with
  | None => done_unlock (-1)
  | Some _ =>
      mod_rcv i (rcv_set_wnd TCP_WINDOW_SIZE) ;;;
      let* iss := sys sys_random in
      cb_mod i (cb_set_iss (u32 iss)) ;;;
      let* r := tcp_tx i (u32 iss) 0 TCP_FLG_SYN now [] 0 in
      if r =? -1 then done_unlock (-1) else
      mod_snd i (snd_set_una (u32 iss)) ;;;
      mod_snd i (snd_set_nxt (u32 (u32 iss + 1))) ;;;
      set_timeout i (now + USER_TIMEOUT) ;;;
      set_state i SYN_SENT ;;;
      tcp_connect_wake i
  end.

(** When [gettimeofday] fails the mutex stays locked. *)
Definition tcp_api_connect (soc addr port : Z) : M (tcp W) (outcome Z) :=
  if TCP_SOCKET_INVALID soc then ret (Return (-1)) else
  let i := Z.to_nat soc in
  lock ;;;
  let* c := cb_get i in
  if negb (cb_used c) || negb (state_is (cb_state c) CLOSED) then done_unlock (-1) else
  let* t := sys sys_gettimeofday in
  match t with
  | None => ret (Return (-1))
  | Some now =>
      if cb_port c =? 0 then
        let* time := sys sys_time in
        let* t := gets cb_table in
        match find_port t (Z.rem time 1024) with
        | None => done_unlock (-1)
        | Some p => cb_mod i (cb_set_port (hton16 (u16 p))) ;;; tcp_connect_syn i addr port now
        end
      else tcp_connect_syn i addr port now
  end.

(** ** bind and listen *)

Definition tcp_api_bind (soc port : Z) : M (tcp W) Z :=
  if TCP_SOCKET_INVALID soc then ret (-1) else
  let i := Z.to_nat soc in
  lock ;;;
  let* t := gets cb_table in
  if existsb (fun c => cb_port c =? hton16 (u16 port)) t then unlock ;;; ret (-1) else
  let* c := cb_get i in
  if negb (cb_used c) || negb (state_is (cb_state c) CLOSED) then unlock ;;; ret (-1) else
  cb_mod i (cb_set_port (hton16 (u16 port))) ;;;
  unlock ;;;
  ret 0.

Definition tcp_api_listen (soc : Z) : M (tcp W) Z :=
  if TCP_SOCKET_INVALID soc then ret (-1) else
  let i := Z.to_nat soc in
  lock ;;;
  let* c := cb_get i in
  if negb (cb_used c) || negb (state_is (cb_state c) CLOSED) || (cb_port c =? 0) then unlock ;;; ret (-1) else
  set_state i LISTEN ;;;
  unlock ;;;
  ret 0.

(** ** accept *)

Definition tcp_accept_wake (i : nat) : M (tcp W) (outcome Z) :=
  let* c := cb_get i in
  if state_is (cb_state c) LISTEN then
    match cb_backlog c with
    | [] => cond_wait
    | b :: l =>
        cb_mod i (cb_set_backlog l) ;;;
        cb_mod b (cb_set_used true) ;;;
        done_unlock (Z.of_nat b)
    end
  else done_unlock (-1).

Definition tcp_api_accept (soc : Z) : M (tcp W) (outcome Z) :=
  if TCP_SOCKET_INVALID soc then ret (Return (-1)) else
  let i := Z.to_nat soc in
  lock ;;;
  let* c := cb_get i in
  if negb (cb_used c) || negb (state_is (cb_state c) LISTEN) then done_unlock (-1) else
  tcp_accept_wake i.

(** ** recv *)

(** [memmove(window, window + len, total - len)]. *)
Definition window_shift (window : bytes) (len total : Z) : bytes :=
  (memcpy window 0 (drop (Z.to_nat len) window) (total - len)).1.

(** The result carries the octets copied to the caller's buffer of [size]
    octets. *)
Definition tcp_recv_wake (i : nat) (size : Z) : M (tcp W) (outcome (Z * bytes)) :=
  let* c := cb_get i in
  match cb_state c with
  | CLOSE_WAIT | ESTABLISHED | FIN_WAIT1 | FIN_WAIT2 =>
      let total := TCP_WINDOW_SIZE - rcv_wnd (cb_rcv c) in
      if total =? 0 then
        if state_is (cb_state c) CLOSE_WAIT then done_unlock (-1, []) else cond_wait
      else
        let len := if size <? total then size else total in
        let data := take (Z.to_nat len) (cb_window c) in
        cb_mod i (cb_set_window (window_shift (cb_window c) len total)) ;;;
        mod_rcv i (fun r => rcv_set_wnd (u16 (rcv_wnd r + len)) r) ;;;
        done_unlock (len, data)
  | _ => done_unlock (-1, [])
  end.

Definition tcp_api_recv (soc size : Z) : M (tcp W) (outcome (Z * bytes)) :=
  if TCP_SOCKET_INVALID soc then ret (Return (-1, [])) else
  let i := Z.to_nat soc in
  lock ;;;
  let* c := cb_get i in
  if negb (cb_used c) then done_unlock (-1, []) else
  tcp_recv_wake i size.

(** ** send *)

(** The data of one segment, limited by the MTU (at [size_t]), and the room in the
    send buffer (at [uint16_t]). *)
Definition send_mss (mtu len : Z) : Z :=
  let size := u64 (mtu - IP_HDR_SIZE_MAX - TCP_HDR_SIZE) in
  if len <? size then len else size.
Definition send_wnd (c : tcp_cb) : Z :=
  u16 (TCP_SND_BUF_SIZE - u32 (snd_nxt (cb_snd c) - snd_una (cb_snd c))).

(** What a call of [tcp_api_send] comes to: a result, a wait with [snt] octets
    sent, or no fuel. *)
Inductive send_outcome := SendReturn (r : Z) | SendBlocked (snt : Z) | SendFuel.

(** The states in which data may be sent. *)
Definition sendable (st : tcp_state) : bool :=
  match st with CLOSE_WAIT | ESTABLISHED => true | _ => false end.

(** One turn of the loop at [TCP_API_SEND_NEXT], with [snt] octets of [buf] sent and
    [len] left: the size of the segment sent, or how the call ends.  When
    [tcp_tx] fails the mutex stays locked. *)
Definition tcp_send_one (i : nat) (buf : bytes) (snt len : Z) : M (tcp W) (send_outcome + Z) :=
  let* c := cb_get i in
  if negb (sendable (cb_state c)) then unlock ;;; ret (inl (SendReturn (-1))) else
  let* t := sys sys_gettimeofday in
  match t with
  | None => unlock ;;; ret (inl (SendReturn (if snt =? 0 then -1 else snt)))
  | Some now =>
      if negb (0 <? len) then unlock ;;; ret (inl (SendReturn snt)) else
      match cb_iface c with
      | None => tell [NullDeref] ;;; ret (inl (SendReturn (-1)))
      | Some iface =>
          let mss := send_mss (sys_mtu iface) len in
          let wnd := send_wnd c in
          let size := if wnd <? mss then wnd else mss in
          if (wnd <? mss) && (size <=? 0) then unlock ;;; ret (inl (SendBlocked snt)) else
          let* r := tcp_tx i (snd_nxt (cb_snd c)) (rcv_nxt (cb_rcv c)) (Z.lor TCP_FLG_PSH TCP_FLG_ACK)
                      now (drop (Z.to_nat snt) buf) size in
          if r =? -1 then ret (inl (SendReturn snt)) else
          set_timeout i (now + USER_TIMEOUT) ;;;
          mod_snd i (fun s => snd_set_nxt (u32 (snd_nxt s + size)) s) ;;;
          ret (inr size)
      end
  end.

(** The loop, also entered after a wake-up. *)
Fixpoint tcp_send_next (fuel : nat) (i : nat) (buf : bytes) (snt len : Z) : M (tcp W) send_outcome :=
  match fuel with
  | O => ret SendFuel
  | S fuel =>
      let* r := tcp_send_one i buf snt len in
      match r with
      | inl o => ret o
      | inr size =>
          if 0 <? len - size then tcp_send_next fuel i buf (snt + size) (len - size)
          else unlock ;;; ret (SendReturn (snt + size))
      end
  end.

(** Every turn sends at least one octet when the MTU exceeds 80. *)
Definition tcp_api_send (soc : Z) (buf : bytes) (len : Z) : M (tcp W) send_outcome :=
  if TCP_SOCKET_INVALID soc then ret (SendReturn (-1)) else
  let i := Z.to_nat soc in
  lock ;;;
  let* c := cb_get i in
  if negb (cb_used c) then unlock ;;; ret (SendReturn (-1)) else
  tcp_send_next (S (Z.to_nat len)) i buf 0 len.

(** ** init *)

(** [add_protocol] and [create] are the results of [ip_add_protocol] and
    [pthread_create]; the condition variables and the mutex are initialised. *)
Definition tcp_init (add_protocol create : Z) : M (tcp W) Z :=
  unlock ;;;
  if add_protocol =? -1 then ret (-1) else
  if create =? -1 then ret (-1) else
  ret 0.

End Api.
