(* ===== verification/TcpLogic.v ===== *)
(** * TCP: reasoning about the operations

    Most operations leave most of a control block alone; what an operation
    may change is a preorder on states, and an operation respects it when all
    its parts do. *)

From S2P Require Import Prelude Logic Endian Cksum Queue Net IpFragment Ip TcpTypes TcpSegment TcpTimer TcpApi.

Section Logic.
Context {H : Host} {W : Type} `{SYS : System W}.

(** ** What operations change *)

(** A preorder that ignores the world outside and the wake-ups. *)
Class Frame (R : tcp W -> tcp W -> Prop) := {
  #[global] frame_preorder :: PreOrder R;
  frame_world : forall s w, R s (set_tcp_world w s);
  frame_wakes : forall s l, R s (set_tcp_wakes l s)
}.

Lemma respects_sys {A} R `{!Frame R} (f : W -> A * W) : respects R (sys f).
Proof. intros s. unfold sys, rst. destruct (f (tcp_world s)). apply frame_world. Qed.
Lemma respects_sysm {A} R `{!Frame R} (m : M W A) : respects R (sysm m).
Proof. intros s. unfold sysm, zoom, rst. destruct (m (tcp_world s)) as [[b w] u]. apply frame_world. Qed.
Lemma respects_cond R `{!Frame R} k : respects R (cond k).
Proof. intros s. apply frame_wakes. Qed.

Lemma respects_cb_get R `{!Frame R} i : respects R (cb_get i).
Proof. apply respects_gets. apply _. Qed.

(** The mutex is as before. *)
Definition same_mutex (s s' : tcp W) : Prop := tcp_mutex s' = tcp_mutex s.

#[export] Instance same_mutex_frame : Frame same_mutex.
Proof. split; [|done..]. split; [done|]. intros s1 s2 s3. unfold same_mutex. congruence. Qed.

Lemma same_mutex_cb_mod i f : respects same_mutex (cb_mod i f).
Proof. by intros s. Qed.

(** [F] of every control block is as before. *)
Definition keeps {A} (F : tcp_cb -> A) (s s' : tcp W) : Prop :=
  forall j, F (cb_table s' !!! j) = F (cb_table s !!! j).

#[export] Instance keeps_frame {A} (F : tcp_cb -> A) : Frame (keeps F).
Proof.
  split; [|done..]. split; [intros s j; reflexivity|]. intros s1 s2 s3 H1 H2 j. by rewrite H2, H1.
Qed.

(** The control block at [j] after a change at [i]. *)
Lemma table_insert (t : list tcp_cb) i j c :
  <[i := c]> t !!! j = if decide (i = j /\ (i < length t)%nat) then c else t !!! j.
Proof.
  case_decide as Hd.
  - destruct Hd as [-> Hi]. by apply list_lookup_total_insert_eq.
  - destruct (decide (i = j)) as [->|]; [|by apply list_lookup_total_insert_ne].
    rewrite list_insert_ge by (apply Nat.nlt_ge; tauto). done.
Qed.

Lemma keeps_cb_mod {A} (F : tcp_cb -> A) i f : (forall c, F (f c) = F c) -> respects (keeps F) (cb_mod i f).
Proof.
  intros Hf s j. unfold cb_mod, modify, rst. cbn. rewrite table_insert. case_decide as Hd; [|done].
  destruct Hd as [<- _]. apply Hf.
Qed.

Lemma keeps_lock {A} (F : tcp_cb -> A) : respects (keeps F) lock.
Proof. by intros s j. Qed.
Lemma keeps_unlock {A} (F : tcp_cb -> A) : respects (keeps F) unlock.
Proof. by intros s j. Qed.

(** The table keeps its size. *)
Definition same_size (s s' : tcp W) : Prop := length (cb_table s') = length (cb_table s).

#[export] Instance same_size_frame : Frame same_size.
Proof. split; [|done..]. split; [done|]. intros s1 s2 s3. unfold same_size. congruence. Qed.

Lemma same_size_cb_mod i f : respects same_size (cb_mod i f).
Proof. intros s. apply length_insert. Qed.
Lemma same_size_lock : respects same_size lock.
Proof. by intros s. Qed.
Lemma same_size_unlock : respects same_size unlock.
Proof. by intros s. Qed.

End Logic.

#[export] Hint Resolve respects_sys respects_sysm respects_cond respects_cb_get same_mutex_cb_mod keeps_lock keeps_unlock
  same_size_cb_mod same_size_lock same_size_unlock : net.
#[export] Hint Extern 4 (respects (keeps _) (cb_mod _ _)) => apply keeps_cb_mod; intros; reflexivity : net.

(** Show that an operation respects a relation, part by part. *)
Ltac respects_tac :=
  repeat lazymatch goal with
  | |- forall _, respects _ _ => intros ?
  | |- respects _ (mbind' _ _) => apply respects_bind; [apply _| |intros ?]
  | |- respects _ (mret' _) => apply respects_ret; apply _
  | |- respects _ (tell _) => apply respects_tell; apply _
  | |- respects _ (gets _) => apply respects_gets; apply _
  | |- respects _ (when _ _) => apply respects_when; [apply _|]
  | |- respects _ (let _ := _ in _) => cbv zeta
  | |- respects _ (mod_snd _ _) => unfold mod_snd
  | |- respects _ (mod_rcv _ _) => unfold mod_rcv
  | |- respects _ (set_timeout _ _) => unfold set_timeout
  | |- respects _ (match _ with _ => _ end) => case_match
  | |- _ => solve [eauto 5 with net typeclass_instances]
  end.

Section Facts.
Context {H : Host} {W : Type} `{SYS : System W}.

(** The fields of a control block that sending a segment does not touch: all but
    the transmission queue. *)
Definition no_txq (c : tcp_cb) : tcp_cb := cb_set_txq txq0 c.

Lemma keeps_no_txq {A} (F : tcp_cb -> A) s s' :
  (forall c, F (no_txq c) = F c) -> keeps (W := W) no_txq s s' -> keeps F s s'.
Proof. intros HF Hk j. rewrite <- HF, Hk. apply HF. Qed.

(** Sending a segment changes at most the transmission queue of its control
    block. *)
Section Tx.
Context (R : tcp W -> tcp W -> Prop) `{!Frame R}.
Context (i : nat) (Hq : forall f, respects R (cb_mod i (fun c => cb_set_txq (f c) c))).

Lemma tcp_tx_respects seq ack flg now buf len : respects R (tcp_tx i seq ack flg now buf len).
Proof. unfold tcp_tx, tcp_tx_queue, tcp_tx_send, tcp_txq_add. respects_tac. Qed.

Lemma tx_respects seq ack flg now : respects R (tx i seq ack flg now).
Proof. unfold tx. pose proof tcp_tx_respects. respects_tac. Qed.

Lemma tx_ack_respects now : respects R (tx_ack i now).
Proof. unfold tx_ack. pose proof tx_respects. unfold cb_get. respects_tac. Qed.
End Tx.

Lemma keeps_set_txq {A} (F : tcp_cb -> A) i : (forall q c, F (cb_set_txq q c) = F c) ->
  forall f, respects (keeps (W := W) F) (cb_mod i (fun c => cb_set_txq (f c) c)).
Proof. intros HF f. by apply keeps_cb_mod. Qed.

Lemma tcp_tx_no_txq i seq ack flg now buf len : respects (keeps no_txq) (tcp_tx i seq ack flg now buf len).
Proof. apply tcp_tx_respects; [apply _|]. by apply keeps_set_txq. Qed.
Lemma tx_no_txq i seq ack flg now : respects (keeps no_txq) (tx i seq ack flg now).
Proof. apply tx_respects; [apply _|]. by apply keeps_set_txq. Qed.
Lemma tx_ack_no_txq i now : respects (keeps no_txq) (tx_ack i now).
Proof. apply tx_ack_respects; [apply _|]. by apply keeps_set_txq. Qed.
Lemma tcp_tx_same_size i seq ack flg now buf len : respects same_size (tcp_tx i seq ack flg now buf len).
Proof. apply tcp_tx_respects; [apply _|]. auto with net. Qed.
Lemma tx_same_size i seq ack flg now : respects same_size (tx i seq ack flg now).
Proof. apply tx_respects; [apply _|]. auto with net. Qed.
Lemma tx_ack_same_size i now : respects same_size (tx_ack i now).
Proof. apply tx_ack_respects; [apply _|]. auto with net. Qed.

(** Reading a control block. *)
Lemma rst_get {A} i (k : tcp_cb -> M (tcp W) A) s : rst (mbind' (cb_get i) k s) = rst (k (cb_table s !!! i) s).
Proof. unfold mbind', cb_get, gets, rst. cbn. by destruct (k _ s) as [[a s'] u]. Qed.

End Facts.
#[export] Hint Resolve tcp_tx_no_txq tx_no_txq tx_ack_no_txq tcp_tx_same_size tx_same_size tx_ack_same_size : net.

(** ** Symbolic execution on one control block *)

Section Exec.
Context {H : Host} {W : Type} `{SYS : System W} (i : nat).

(** The control block [i] is [c], up to its transmission queue. *)
Definition holds (c : tcp_cb) (s : tcp W) : Prop :=
  (i < length (cb_table s))%nat /\ no_txq (cb_table s !!! i) = no_txq c.

(** A change that does not look at the transmission queue. *)
Definition local (f : tcp_cb -> tcp_cb) : Prop := forall x y, no_txq x = no_txq y -> no_txq (f x) = no_txq (f y).

Lemma holds_keeps {A} (m : M (tcp W) A) c s :
  respects (keeps no_txq) m -> respects same_size m -> holds c s -> holds c (rst (m s)).
Proof. intros Hk Hs [Hi Hc]. split; [by rewrite Hs|]. by rewrite Hk. Qed.

Lemma post_keeps {A B} (m : M (tcp W) A) (k : A -> M (tcp W) B) c s Q :
  respects (keeps no_txq) m -> respects same_size m -> holds c s ->
  (forall a s1, holds c s1 -> post (k a) s1 Q) -> post (mbind' m k) s Q.
Proof. intros Hk Hs Hc Hnext. apply post_bind. apply Hnext. by apply holds_keeps. Qed.

Lemma post_mod {B} f (k : unit -> M (tcp W) B) c s Q :
  local f -> holds c s -> (forall s1, holds (f c) s1 -> post (k tt) s1 Q) -> post (mbind' (cb_mod i f) k) s Q.
Proof.
  intros Hf [Hi Hc] Hnext. apply post_bind. apply Hnext. split; cbn; [by rewrite length_insert|].
  rewrite list_lookup_total_insert_eq by done. by apply Hf.
Qed.

Lemma post_get {B} (k : tcp_cb -> M (tcp W) B) c s Q :
  holds c s -> (forall c', no_txq c' = no_txq c -> post (k c') s Q) -> post (mbind' (cb_get i) k) s Q.
Proof. intros [_ Hc] Hnext. apply post_bind. by apply Hnext. Qed.

Lemma post_last {A} (m : M (tcp W) A) c s (Q : A -> tcp W -> Prop) :
  respects (keeps no_txq) m -> respects same_size m -> holds c s ->
  (forall a s1, holds c s1 -> Q a s1) -> post m s Q.
Proof. intros Hk Hs Hc Hnext. apply Hnext. by apply holds_keeps. Qed.

Lemma post_mod_last f c s (Q : unit -> tcp W -> Prop) :
  local f -> holds c s -> (forall s1, holds (f c) s1 -> Q tt s1) -> post (cb_mod i f) s Q.
Proof.
  intros Hf [Hi Hc] Hnext. apply Hnext. split; cbn; [by rewrite length_insert|].
  rewrite list_lookup_total_insert_eq by done. by apply Hf.
Qed.

End Exec.

(** The fields of two control blocks that agree up to the queue. *)
Lemma no_txq_fields c c' : no_txq c' = no_txq c ->
  cb_state c' = cb_state c /\ cb_snd c' = cb_snd c /\ cb_rcv c' = cb_rcv c /\ cb_iss c' = cb_iss c /\
  cb_window c' = cb_window c /\ cb_used c' = cb_used c /\ cb_iface c' = cb_iface c /\ cb_port c' = cb_port c /\
  cb_parent c' = cb_parent c /\ cb_backlog c' = cb_backlog c /\ cb_timeout c' = cb_timeout c /\
  cb_peer_addr c' = cb_peer_addr c /\ cb_peer_port c' = cb_peer_port c.
Proof. intros E. unfold no_txq, cb_set_txq in E. injection E. by intros. Qed.

Ltac local_tac := let x := fresh in let y := fresh in intros x y ?; unfold no_txq in *; destruct x, y; cbn in *;
  simplify_eq; reflexivity.


(** Execute the next operation on a control block that is known. *)
Ltac exec1 :=
  lazymatch goal with
  | |- post (mbind' (mbind' _ _) _) _ _ => apply post_assoc
  | |- post (mbind' (mret' _) _) _ _ => apply post_bind, post_ret
  | |- post (mbind' (when _ _) _) _ _ => fail
  | |- post (mbind' (cb_mod _ _) _) _ _ => eapply post_mod; [local_tac|eassumption|intros ? ?]
  | |- post (mbind' (set_state _ _) _) _ _ => eapply post_mod; [local_tac|eassumption|intros ? ?]
  | |- post (mbind' (set_timeout _ _) _) _ _ => eapply post_mod; [local_tac|eassumption|intros ? ?]
  | |- post (mbind' (mod_snd _ _) _) _ _ => eapply post_mod; [local_tac|eassumption|intros ? ?]
  | |- post (mbind' (mod_rcv _ _) _) _ _ => eapply post_mod; [local_tac|eassumption|intros ? ?]
  | |- post (mbind' (tcp_close_cb _) _) _ _ => eapply post_mod; [local_tac|eassumption|intros ? ?]
  | |- post (mbind' _ _) _ _ => eapply post_keeps; [solve [respects_tac]|solve [respects_tac]|eassumption|intros ? ? ?]
  | |- post (mret' _) _ _ => apply post_ret
  | |- post (set_state _ _) _ _ => eapply post_mod_last; [local_tac|eassumption|intros ? ?]
  | |- post (set_timeout _ _) _ _ => eapply post_mod_last; [local_tac|eassumption|intros ? ?]
  | |- post (cond _) _ _ => eapply post_last; [solve [respects_tac]|solve [respects_tac]|eassumption|intros ? ? ?]
  end.
Ltac exec := repeat exec1.
