(* ===== verification/TcpSample.v ===== *)
(** * TCP: a concrete world

    A system that records what is sent, and a table with one control block: the
    inputs at which the theorems on TCP are exercised. *)

From S2P Require Import Prelude Endian Cksum Queue Net IpFragment Ip TcpTypes TcpSegment TcpLogic.

(** [mem] says whether memory is available, [time] is the clock; what [ip_tx] is
    asked to send, with its destination, is recorded. *)
Definition sample_system (mem : bool) (time : option Z) : System (list (bytes * Z)) := {|
  sys_malloc w := (mem, w);
  sys_gettimeofday w := (time, w);
  sys_time w := (default 0 time, w);
  sys_random w := (1000, w);
  sys_ip_tx n b len dst := fun w => (zlen b, w ++ [(b, dst)], []);
  sys_netif_by_peer a w := Some 0%nat;
  sys_unicast n := 16777226;      (* 10.0.0.1 *)
  sys_mtu n := 1500
|}.

Definition sample_window : bytes := replicate (Z.to_nat TCP_WINDOW_SIZE) 0.

Lemma sample_window_len : zlen sample_window = TCP_WINDOW_SIZE.
Proof. unfold zlen, sample_window. rewrite length_replicate. unfold TCP_WINDOW_SIZE. lia. Qed.

(** A connection between port 80 and port 5000 of 10.0.0.2. *)
Definition sample_cb (st : tcp_state) (snd : tcp_snd) (rcv : tcp_rcv) (q : list tcp_txq_entry) : tcp_cb :=
  TcpCb true st (Some 0%nat) 20480 33554442 34835 snd 999 rcv 2000 (TxqHead q 0) sample_window None [] 120.

Definition sample_table (c : tcp_cb) (t : list tcp_cb) : tcp (list (bytes * Z)) := Tcp (c :: t) false [] [].

(** A segment of the peer with five octets of text and the given flags. *)
Definition sample_text : bytes := [104; 101; 108; 108; 111].
Definition sample_hdr (seq ack flg : Z) : tcp_hdr :=
  TcpHdr 34835 20480 (hton32 (H := LittleEndian) seq) (hton32 (H := LittleEndian) ack) 80 flg 255 0 0.
Definition sample_segment (hdr : tcp_hdr) : bytes := tcp_hdr_store (H := LittleEndian) hdr ++ sample_text.
