(* ===== verification/TcpDemux.v ===== *)
(** * TCP: demultiplexing

    The one loop of [tcp_rx] over the table is three searches: for the connection
    of the segment, for a free control block and for a listener.  An arrival that
    belongs to a connection leaves all others alone. *)

From S2P Require Import Prelude Endian Cksum Queue Net IpFragment Ip TcpTypes TcpSegment TcpTimer TcpApi TcpLogic.

(** The control block is in use on an interface and port. *)
Definition serves_port (iface : nifid) (port : Z) (c : tcp_cb) : bool :=
  negb (IS_FREE_CB c) && (match cb_iface c with None => true | Some n => Nat.eqb n iface end)
  && (cb_port c =? port).

Section Demux.
Context (iface : nifid) (hdr : tcp_hdr) (src : Z).

(** The interface and port the segment is for. *)
Definition serves (c : tcp_cb) : bool := serves_port iface (th_dst hdr) c.

(** It is the connection with the sender of the segment. *)
Definition connects (c : tcp_cb) : bool :=
  serves c && (cb_peer_addr c =? src) && (cb_peer_port c =? th_src hdr).

Definition listens (c : tcp_cb) : bool := serves c && state_is (cb_state c) LISTEN.

(** What the search has found, or finds further on. *)
Definition or_later (found : option nat) (i : nat) (later : option nat) : option nat :=
  match found with Some k => Some k | None => Nat.add i <$> later end.

Lemma or_later_S found i later : or_later found (S i) later = or_later found i (S <$> later).
Proof. destruct found, later as [k|]; cbn; try done. f_equal. lia. Qed.

Lemma tcp_rx_find_spec_aux t : forall i fcb lcb r f l,
  tcp_rx_find iface hdr src i t fcb lcb = (r, f, l) ->
  r = Nat.add i <$> first_index connects t /\
  (r = None -> f = or_later fcb i (first_index IS_FREE_CB t) /\ l = or_later lcb i (first_index listens t)).
Proof.
  induction t as [|c t IH]; intros i fcb lcb r f l E; cbn [tcp_rx_find] in E.
  { injection E as <- <- <-. by destruct fcb, lcb. }
  assert (connects c = serves c && ((cb_peer_addr c =? src) && (cb_peer_port c =? th_src hdr))) as Hconn
    by (unfold connects; by rewrite andb_assoc).
  assert (listens c = serves c && state_is (cb_state c) LISTEN) as Hlis by done.
  unfold serves, serves_port in Hconn, Hlis. cbn [first_index]. rewrite Hconn, Hlis. clear Hconn Hlis.
  destruct (IS_FREE_CB c) eqn:Ef; cbn [negb andb];
    [|destruct (_ && (cb_port c =? th_dst hdr)) eqn:Ep; cbn [andb];
      [destruct (_ && (cb_peer_port c =? th_src hdr)) eqn:Ec|]].
  2: { injection E as <- <- <-. split; [|done]. cbn. f_equal. lia. }
  all: apply IH in E as [-> Hrest]; split; [destruct (first_index connects t); cbn; [f_equal; lia|done]|intros Hr].
  all: destruct (Hrest Hr) as [-> ->]; clear; rewrite ?or_later_S; try done.
  - split; [|done]. destruct fcb; cbn; f_equal; lia.
  - split; [done|]. destruct lcb as [k|], (state_is _ _); cbn; try done; f_equal; lia.
Qed.

(** The three searches. *)
Lemma tcp_rx_find_spec t : exists f l,
  tcp_rx_find iface hdr src 0 t None None = (first_index connects t, f, l) /\
  (first_index connects t = None -> f = first_index IS_FREE_CB t /\ l = first_index listens t).
Proof.
  destruct (tcp_rx_find iface hdr src 0 t None None) as [[r f] l] eqn:E. exists f, l.
  apply tcp_rx_find_spec_aux in E as [-> Hrest].
  assert (forall o : option nat, Nat.add 0 <$> o = o) as Hadd by (by intros []). rewrite Hadd in *. split; [done|].
  intros Hn. destruct (Hrest Hn) as [-> ->]. unfold or_later. by rewrite !Hadd.
Qed.

(** C19: [tcp_rx] gives a segment to the first control block in the table that is the
    connection between its two ends.  Only if there is none it takes the first
    free control block, and the first listener on the port of the segment. *)
Theorem tcp_demux t : exists f l,
  tcp_rx_find iface hdr src 0 t None None = (first_index connects t, f, l) /\
  (first_index connects t = None -> f = first_index IS_FREE_CB t /\ l = first_index listens t).
Proof. exact (tcp_rx_find_spec t). Qed.

End Demux.
