(* ===== verification/TcpStates.v ===== *)
(** * TCP: the connection state machine

    Each event moves each control block along the edges of a state diagram that
    belong to this kind of event.  It is the diagram of RFC 793 with two
    differences of the code: closing in CLOSE_WAIT leads to CLOSING, and LAST_ACK
    is never entered. *)

From S2P Require Import Prelude Logic Endian Cksum Queue Net IpFragment Ip TcpTypes TcpSegment TcpTimer TcpApi TcpLogic TcpSample.

(** The kinds of events. [Spawn] is the part of an arrival that makes a free control
    block the connection of a listener; [Quiet] events change no state. *)
Inductive event := Segment | Spawn | Timer | Connect | Listen | Close | Quiet.

Inductive edge : event -> tcp_state -> tcp_state -> Prop :=
  | e_spawn : edge Spawn CLOSED LISTEN
  | e_listen : edge Listen CLOSED LISTEN
  | e_connect : edge Connect CLOSED SYN_SENT
  | e_rcv_syn : edge Segment LISTEN SYN_RCVD
  | e_simultaneous : edge Segment SYN_SENT SYN_RCVD
  | e_rcv_syn_ack : edge Segment SYN_SENT ESTABLISHED
  | e_rcv_ack : edge Segment SYN_RCVD ESTABLISHED
  | e_fin_early : edge Segment SYN_RCVD CLOSE_WAIT
  | e_rcv_fin : edge Segment ESTABLISHED CLOSE_WAIT
  | e_fin_acked : edge Segment FIN_WAIT1 FIN_WAIT2
  | e_both_close : edge Segment FIN_WAIT1 CLOSING
  | e_rcv_fin2 : edge Segment FIN_WAIT2 TIME_WAIT
  | e_closing_acked : edge Segment CLOSING TIME_WAIT
  | e_reset a : edge Segment a CLOSED
  | e_timeout a : edge Timer a CLOSED
  | e_close_listen : edge Close LISTEN CLOSED
  | e_close_syn_sent : edge Close SYN_SENT CLOSED
  | e_close_early : edge Close SYN_RCVD FIN_WAIT1
  | e_close : edge Close ESTABLISHED FIN_WAIT1
  | e_close_wait : edge Close CLOSE_WAIT CLOSING.    (** RFC 793: to LAST_ACK *)

#[export] Hint Constructors edge : net.

Section States.
Context {H : Host} {W : Type} `{SYS : System W}.

Definition st (j : nat) (s : tcp W) : tcp_state := cb_state (cb_table s !!! j).

Definition moves (e : event) (s s' : tcp W) : Prop := forall j, rtc (edge e) (st j s) (st j s').

#[export] Instance moves_frame e : Frame (moves e).
Proof.
  split; [|by intros s x j; apply rtc_refl..].
  split; [intros s j; apply rtc_refl|]. intros s1 s2 s3 H1 H2 j. etrans; [apply H1 | apply H2].
Qed.

Lemma keeps_moves e s s' : keeps cb_state s s' -> moves e s s'.
Proof. intros Hk j. unfold st. rewrite Hk. apply rtc_refl. Qed.

Lemma respects_keeps_moves e {A} (m : M (tcp W) A) : respects (keeps cb_state) m -> respects (moves e) m.
Proof. intros Hm s. apply keeps_moves, Hm. Qed.

Lemma cb_mod_moves e i f s : edge e (st i s) (cb_state (f (cb_table s !!! i))) -> moves e s (rst (cb_mod i f s)).
Proof.
  intros He j. unfold st, cb_mod, modify, rst. cbn. rewrite table_insert.
  case_decide as Hd; [|apply rtc_refl]. destruct Hd as [<- _]. by apply rtc_once.
Qed.

Lemma set_state_moves e i b s : edge e (st i s) b -> moves e s (rst (set_state i b s)).
Proof. apply (cb_mod_moves e i (cb_set_state b)). Qed.

Lemma tcp_close_cb_moves e i s : edge e (st i s) CLOSED -> moves e s (rst (tcp_close_cb i s)).
Proof. unfold tcp_close_cb. intros He. by apply cb_mod_moves. Qed.
Lemma segment_close_moves i : respects (moves Segment) (tcp_close_cb i).
Proof. intros s. apply tcp_close_cb_moves. constructor. Qed.
Lemma timer_close_moves i : respects (moves Timer) (tcp_close_cb i).
Proof. intros s. apply tcp_close_cb_moves. constructor. Qed.

(** State-keeping operations before one that moves. *)
Lemma moves_seq e {A B} i (m : M (tcp W) A) (k : A -> M (tcp W) B) s :
  respects (keeps cb_state) m -> (forall a s1, st i s1 = st i s -> moves e s1 (rst (k a s1))) ->
  moves e s (rst (mbind' m k s)).
Proof.
  intros Hm Hk. rewrite rst_bind. specialize (Hm s). etrans; [by apply keeps_moves|]. apply Hk, Hm.
Qed.

Lemma moves_then e {A B} (m : M (tcp W) A) (k : A -> M (tcp W) B) s :
  moves e s (rst (m s)) -> (forall a, respects (moves e) (k a)) -> moves e s (rst (mbind' m k s)).
Proof. intros Hm Hk. rewrite rst_bind. etrans; [done|]. apply Hk. Qed.

Lemma moves_get e {A} i (k : tcp_cb -> M (tcp W) A) s :
  moves e s (rst (k (cb_table s !!! i) s)) -> moves e s (rst (mbind' (cb_get i) k s)).
Proof. by rewrite rst_get. Qed.

(** ** Operations that keep the states *)

Lemma tx_state i seq ack flg now : respects (keeps (W := W) cb_state) (tx i seq ack flg now).
Proof. apply tx_respects; [apply _|]. by apply keeps_set_txq. Qed.
Lemma tx_ack_state i now : respects (keeps (W := W) cb_state) (tx_ack i now).
Proof. apply tx_ack_respects; [apply _|]. by apply keeps_set_txq. Qed.
Lemma tcp_tx_state i seq ack flg now buf len : respects (keeps (W := W) cb_state) (tcp_tx i seq ack flg now buf len).
Proof. apply tcp_tx_respects; [apply _|]. by apply keeps_set_txq. Qed.

Lemma cb_mod_keeps_moves e i f : (forall c, cb_state (f c) = cb_state c) -> respects (moves e) (cb_mod i f).
Proof. intros Hf. by apply respects_keeps_moves, keeps_cb_mod. Qed.
Lemma tx_moves e i seq ack flg now : respects (moves e) (tx i seq ack flg now).
Proof. apply respects_keeps_moves, tx_state. Qed.
Lemma tx_ack_moves e i now : respects (moves e) (tx_ack i now).
Proof. apply respects_keeps_moves, tx_ack_state. Qed.
Lemma tcp_tx_moves e i seq ack flg now buf len : respects (moves e) (tcp_tx i seq ack flg now buf len).
Proof. apply respects_keeps_moves, tcp_tx_state. Qed.
Lemma lock_moves e : respects (moves e) lock.
Proof. by apply respects_keeps_moves, keeps_lock. Qed.
Lemma unlock_moves e : respects (moves e) unlock.
Proof. by apply respects_keeps_moves, keeps_unlock. Qed.

Hint Resolve tx_state tx_ack_state tcp_tx_state segment_close_moves timer_close_moves tx_moves tx_ack_moves tcp_tx_moves
  lock_moves unlock_moves : net.
Hint Extern 4 (respects (moves _) (cb_mod _ _)) => apply cb_mod_keeps_moves; intros; reflexivity : net.

(** ** Arrival of a segment *)

Lemma arrives_closed_moves i hdr plen now : respects (moves Segment) (arrives_closed i hdr plen now).
Proof. unfold arrives_closed. respects_tac. Qed.

Lemma error_rx_listen_moves i : respects (moves Segment) (error_rx_listen i).
Proof. unfold error_rx_listen. respects_tac. Qed.

Hint Resolve error_rx_listen_moves : net.

Lemma arrives_listen_moves i hdr now s : st i s = LISTEN -> moves Segment s (rst (arrives_listen i hdr now s)).
Proof.
  intros Hs. unfold arrives_listen. case_match; [by apply error_rx_listen_moves|].
  case_match; [apply moves_then; [apply respects_keeps_moves; auto with net|auto with net]|].
  case_match; [|by apply error_rx_listen_moves].
  do 5 (apply (moves_seq _ i); [respects_tac|intros ? ? ?]). apply moves_get.
  do 4 (apply (moves_seq _ i); [respects_tac|intros ? ? ?]).
  apply moves_then; [|respects_tac]. apply set_state_moves.
  replace (st i _) with LISTEN by congruence. constructor.
Qed.

Lemma syn_sent_syn_moves i hdr plen now s : st i s = SYN_SENT -> moves Segment s (rst (syn_sent_syn i hdr plen now s)).
Proof.
  intros Hs. unfold syn_sent_syn. do 2 (apply (moves_seq _ i); [respects_tac|intros ? ? ?]). apply moves_get.
  apply (moves_seq _ i); [respects_tac|intros ? s3 ?]. apply moves_get. assert (st i s3 = SYN_SENT) as Hi by congruence.
  case_match; (apply moves_then; [apply set_state_moves; rewrite Hi; constructor|intros _]); respects_tac.
Qed.

Lemma arrives_syn_sent_moves i hdr plen now s : st i s = SYN_SENT -> moves Segment s (rst (arrives_syn_sent i hdr plen now s)).
Proof.
  intros Hs. unfold arrives_syn_sent. apply moves_get.
  repeat (case_match; try (by apply syn_sent_syn_moves)).
  all: match goal with |- moves Segment _ (rst (?m _)) => assert (respects (moves Segment) m) as Hm; [respects_tac|apply Hm] end.
Qed.

Lemma ack_fin_moves i hdr : respects (moves Segment) (ack_fin i hdr).
Proof.
  intros s. unfold ack_fin. apply moves_get. destruct (cb_state _) eqn:E; try reflexivity;
    (unfold when; case_match; [|reflexivity]; apply set_state_moves; unfold st; rewrite E; constructor).
Qed.

Hint Resolve ack_fin_moves : net.

Lemma check_ack_established_moves i hdr now : respects (moves Segment) (check_ack_established i hdr now).
Proof. unfold check_ack_established, ack_update. respects_tac. Qed.

Hint Resolve check_ack_established_moves : net.

Lemma syn_rcvd_established_moves i s : st i s = SYN_RCVD -> moves Segment s (rst (syn_rcvd_established i s)).
Proof.
  intros Hs. unfold syn_rcvd_established. apply moves_then; [apply set_state_moves; rewrite Hs; constructor|].
  intros _. respects_tac.
Qed.

Lemma check_ack_moves i hdr now : respects (moves Segment) (check_ack i hdr now).
Proof.
  intros s. unfold check_ack. apply moves_get. destruct (cb_state _) eqn:E;
    match goal with |- moves Segment _ (rst ((if _ then _ else mbind' (syn_rcvd_established _) _) _)) => case_match; [|
      by apply moves_then; [apply syn_rcvd_established_moves|auto with net]] | _ => idtac end;
    match goal with |- moves Segment _ (rst (?m _)) => assert (respects (moves Segment) m) as Hm; [respects_tac|apply Hm] end.
Qed.

Hint Resolve check_ack_moves : net.

Lemma arrives_synchronized_moves i hdr plen now : respects (moves Segment) (arrives_synchronized i hdr plen now).
Proof. unfold arrives_synchronized, check_rst. respects_tac. Qed.

Lemma check_fin_moves i hdr now : respects (moves Segment) (check_fin i hdr now).
Proof.
  intros s. unfold check_fin. case_match; [|reflexivity].
  do 2 (apply (moves_seq _ i); [respects_tac|intros ? ? ?]). apply moves_get.
  apply moves_then; [|respects_tac].
  destruct (cb_state _) eqn:E; try reflexivity;
    try (apply set_state_moves; unfold st; rewrite E; constructor).
  - apply moves_then; [apply set_state_moves; unfold st; rewrite E; constructor|intros _; respects_tac].
  - match goal with |- moves Segment _ (rst (?m _)) => assert (respects (moves Segment) m) as Hm; [respects_tac|apply Hm] end.
Qed.

Hint Resolve check_fin_moves : net.

Lemma check_text_moves i hdr segment plen now : respects (moves Segment) (check_text i hdr segment plen now).
Proof. unfold check_text. respects_tac. Qed.

Lemma segment_arrives_moves i hdr segment len : respects (moves Segment) (tcp_event_segment_arrives i hdr segment len).
Proof.
  intros s. unfold tcp_event_segment_arrives. apply (moves_seq _ i); [respects_tac|intros t s1 _].
  destruct t as [now|]; [|reflexivity]. apply moves_get. apply moves_then.
  - destruct (cb_state _) eqn:E; try (by apply arrives_synchronized_moves).
    + apply moves_then; [apply arrives_closed_moves|respects_tac].
    + by apply arrives_listen_moves.
    + by apply arrives_syn_sent_moves.
  - intros []; [respects_tac|]. pose proof check_text_moves. unfold check_urg. respects_tac.
Qed.

(** ** Demultiplexing *)

(** What the search of the table finds. *)
Lemma tcp_rx_find_found iface hdr src (t : list tcp_cb) : forall u i fcb lcb r f l,
  drop i t = u -> (i + length u = length t)%nat ->
  (forall k, fcb = Some k -> (k < length t)%nat /\ IS_FREE_CB (t !!! k) = true) ->
  (forall k, lcb = Some k -> (k < length t)%nat /\ cb_state (t !!! k) = LISTEN) ->
  tcp_rx_find iface hdr src i u fcb lcb = (r, f, l) ->
  (forall k, f = Some k -> (k < length t)%nat /\ IS_FREE_CB (t !!! k) = true) /\
  (forall k, l = Some k -> (k < length t)%nat /\ cb_state (t !!! k) = LISTEN) /\
  (forall k, r = Some k -> (k < length t)%nat /\ IS_FREE_CB (t !!! k) = false /\
    cb_port (t !!! k) = th_dst hdr /\ cb_peer_addr (t !!! k) = src /\ cb_peer_port (t !!! k) = th_src hdr).
Proof.
  induction u as [|c u IH]; intros i fcb lcb r f l Hd Hi Hf Hl E; cbn in E.
  - by injection E as <- <- <-.
  - assert ((i < length t)%nat) as Hlt by (cbn in Hi; lia).
    assert (t !!! i = c) as Hc.
    { apply list_lookup_total_correct. rewrite <- (Nat.add_0_r i), <- lookup_drop, Hd. done. }
    assert (drop (S i) t = u) as Hd' by (rewrite <- Nat.add_1_r, <- drop_drop, Hd; done).
    assert ((S i + length u = length t)%nat) as Hi' by (cbn in Hi; lia).
    destruct (IS_FREE_CB c) eqn:Efree; [|destruct (_ && (cb_port c =? _)) eqn:Em;
      [destruct (_ && (cb_peer_port c =? _)) eqn:Ep|]].
    + eapply IH; [done|done| |done|done]. intros k Hk. destruct fcb; [by apply Hf|]. injection Hk as <-.
      by rewrite Hc.
    + injection E as <- <- <-. split_and!; [done|done|]. intros k [= <-]. rewrite Hc. split_and!; try done; lia.
    + eapply IH; [done|done|done| |done]. intros k Hk. destruct (state_is _ _ && _) eqn:Es; [|by apply Hl].
      injection Hk as <-. rewrite Hc. split; [done|]. apply andb_prop in Es as [Es _].
      by apply bool_decide_eq_true in Es.
    + by eapply IH.
Qed.

Lemma tcp_rx_new_moves iface hdr src i lcb s : st i s = CLOSED ->
  (forall l, lcb = Some l -> st l s = LISTEN) -> moves Spawn s (rst (tcp_rx_new iface hdr src i lcb s)).
Proof.
  intros Hi Hl. unfold tcp_rx_new. rewrite rst_bind. set (s1 := rst (cb_mod i (cb_set_iface (Some iface)) s)).
  assert (keeps cb_state s s1) as Hk by (by apply keeps_cb_mod). transitivity s1; [by apply keeps_moves|].
  apply moves_then; [|respects_tac].
  destruct lcb as [l|]; [|apply keeps_moves; by apply keeps_cb_mod].
  apply moves_get. apply cb_mod_moves. cbn. unfold st. rewrite !Hk. fold (st i s) (st l s). rewrite Hi, Hl by done. constructor.
Qed.

(** The effect of the arrival of a segment on the states. *)
Definition rx_moves (s s' : tcp W) : Prop := exists s1, moves Spawn s s1 /\ moves Segment s1 s'.

Lemma moves_rx s s' : moves Segment s s' -> rx_moves s s'.
Proof. intros Hm. exists s. by split. Qed.

Lemma tcp_rx_moves segment len src dst iface s : rx_moves s (rst (tcp_rx segment len src dst iface s)).
Proof.
  unfold tcp_rx. case_match; [by apply moves_rx|]. case_match; [by apply moves_rx|].
  destruct (tcp_checksum src dst segment len) as [sum u]. rewrite rst_bind.
  case_match; [by apply moves_rx|]. destruct (tcp_hdr_load segment) as [hdr|]; [|by apply moves_rx].
  rewrite !rst_bind. cbn [gets rval rst fst snd tell lock]. set (s2 := set_tcp_mutex true s).
  assert (moves Spawn s s2 /\ moves Segment s s2) as [Hsp Hse] by (by split; apply keeps_moves).
  destruct (tcp_rx_find iface hdr src 0 (cb_table s2) None None) as [[r f] l] eqn:E.
  apply (tcp_rx_find_found iface hdr src (cb_table s2)) in E as (Hf & Hl & _); [|done..].
  destruct r as [i|]; [|destruct f as [i|]].
  - exists s2. split; [done|]. apply moves_then; [apply segment_arrives_moves|respects_tac].
  - destruct (Hf i eq_refl) as [_ Hfree]. unfold IS_FREE_CB in Hfree. apply andb_prop in Hfree as [_ Hst].
    rewrite rst_bind. exists (rst (tcp_rx_new iface hdr src i l s2)). split.
    + etrans; [exact Hsp|]. apply tcp_rx_new_moves; [by apply bool_decide_eq_true in Hst|]. intros k ->. by apply Hl.
    + apply moves_then; [apply segment_arrives_moves|respects_tac].
  - by apply moves_rx.
Qed.

(** ** Timer *)

Lemma tcp_timer_cb_moves now i : respects (moves Timer) (tcp_timer_cb now i).
Proof. unfold tcp_timer_cb. respects_tac. Qed.

Lemma tcp_timer_cbs_moves now ids : respects (moves Timer) (tcp_timer_cbs now ids).
Proof. pose proof tcp_timer_cb_moves. induction ids; cbn; respects_tac. Qed.

Lemma tcp_timer_thread_moves last : respects (moves Timer) (tcp_timer_thread last).
Proof. pose proof tcp_timer_cbs_moves. unfold tcp_timer_thread. respects_tac. Qed.

(** ** Application interface *)

Lemma tcp_send_fin_moves i now b s : edge Close (st i s) b -> moves Close s (rst (tcp_send_fin i now b s)).
Proof.
  intros He. unfold tcp_send_fin. apply moves_get. do 2 (apply (moves_seq _ i); [respects_tac|intros ? ? ?]).
  apply moves_then; [|respects_tac]. apply set_state_moves. congruence.
Qed.

Lemma close_backlog_moves close n i : (forall b, respects (moves Close) (close b)) -> respects (moves Close) (close_backlog close n i).
Proof. intros Hc. induction n as [|n IH]; cbn [close_backlog]; respects_tac. Qed.

(** The end of closing a listener or a connection not yet open. *)
Lemma close_end_moves i (s : tcp W) : st i s = LISTEN \/ st i s = SYN_SENT \/ st i s = CLOSED ->
  moves Close s (rst ((tcp_close_cb i ;;; cond (Broadcast i) ;;; ret (Some 0)) s)).
Proof.
  intros Hs. apply moves_then; [|respects_tac]. intros j. unfold st, tcp_close_cb, cb_mod, modify, rst. cbn.
  rewrite table_insert. case_decide as Hd; [|apply rtc_refl]. destruct Hd as [-> _]. cbn. fold (st j s).
  destruct Hs as [->|[->| ->]]; [apply rtc_once; constructor..|apply rtc_refl].
Qed.

Lemma close_from_listen a : rtc (edge Close) LISTEN a -> a = LISTEN \/ a = CLOSED.
Proof.
  intros Hr. apply rtc_inv in Hr as [<-|(b & Hb & Hr)]; [by left|]. right. inversion Hb; subst.
  apply rtc_inv in Hr as [<-|(b & Hb' & _)]; [done|inversion Hb'].
Qed.

Lemma tcp_close_moves fuel i : respects (moves Close) (tcp_close fuel i).
Proof.
  revert i. induction fuel as [|fuel IH]; intros i s; cbn [tcp_close]; [reflexivity|].
  apply moves_get. case_match; [reflexivity|]. set (c := cb_table s !!! i).
  do 2 (apply (moves_seq _ i); [respects_tac|intros ? ? ?]). case_match; [|reflexivity].
  assert (st i s = cb_state c) as Hc by done.
  destruct (cb_state c) eqn:E; try reflexivity.
  all: try (apply moves_then; [apply tcp_send_fin_moves; replace (st i _) with (cb_state c) by congruence;
    rewrite E; constructor|respects_tac]).
  - pose proof (close_backlog_moves (tcp_close fuel) (length (cb_backlog c)) i IH) as Hb.
    rewrite rst_bind. specialize (Hb s0). etrans; [exact Hb|]. case_match; [reflexivity|].
    apply close_end_moves. specialize (Hb i). replace (st i s0) with LISTEN in Hb by congruence.
    apply close_from_listen in Hb. tauto.
  - apply close_end_moves. right; left. congruence.
Qed.

Lemma tcp_api_close_moves soc : respects (moves Close) (tcp_api_close soc).
Proof. pose proof tcp_close_moves. unfold tcp_api_close. respects_tac. Qed.

Lemma tcp_connect_syn_moves i addr port now s : st i s = CLOSED -> moves Connect s (rst (tcp_connect_syn i addr port now s)).
Proof.
  intros Hs. unfold tcp_connect_syn. apply (moves_seq _ i); [respects_tac|intros _ s1 ?].
  rewrite rst_bind. cbn [gets rval rst fst snd]. apply (moves_seq _ i); [respects_tac|intros _ s2 ?].
  case_match; [|by apply respects_keeps_moves; unfold done_unlock; respects_tac].
  do 4 (apply (moves_seq _ i); [respects_tac|intros ? ? ?]).
  case_match; [by apply respects_keeps_moves; unfold done_unlock; respects_tac|].
  do 3 (apply (moves_seq _ i); [respects_tac|intros ? ? ?]).
  apply moves_then; [apply set_state_moves; replace (st i _) with CLOSED by congruence; constructor|].
  intros _. apply respects_keeps_moves. unfold tcp_connect_wake, cond_wait, done_unlock. respects_tac.
Qed.

Lemma tcp_api_connect_moves soc addr port : respects (moves Connect) (tcp_api_connect soc addr port).
Proof.
  intros s. unfold tcp_api_connect. case_match; [reflexivity|]. set (i := Z.to_nat soc).
  apply (moves_seq _ i); [respects_tac|intros _ s1 _]. apply moves_get.
  destruct (negb (cb_used _) || negb (state_is _ CLOSED)) eqn:Eu;
    [by apply respects_keeps_moves; unfold done_unlock; respects_tac|].
  assert (st i s1 = CLOSED) as Hs.
  { apply orb_false_iff in Eu as [_ Es]. apply negb_false_iff in Es. by apply bool_decide_eq_true in Es. }
  apply (moves_seq _ i); [respects_tac|intros t s2 ?]. case_match; [|reflexivity].
  case_match; [|apply tcp_connect_syn_moves; congruence].
  apply (moves_seq _ i); [respects_tac|intros tm s3 ?]. apply (moves_seq _ i); [respects_tac|intros tb s4 ?].
  case_match; [|by apply respects_keeps_moves; unfold done_unlock; respects_tac].
  apply (moves_seq _ i); [respects_tac|intros _ s5 ?]. apply tcp_connect_syn_moves. congruence.
Qed.

Lemma tcp_api_listen_moves soc : respects (moves Listen) (tcp_api_listen soc).
Proof.
  intros s. unfold tcp_api_listen. case_match; [reflexivity|]. set (i := Z.to_nat soc).
  apply (moves_seq _ i); [respects_tac|intros _ s1 _]. apply moves_get.
  destruct (_ || (cb_port _ =? 0)) eqn:Eu; [by apply respects_keeps_moves; respects_tac|].
  apply moves_then; [|intros _; respects_tac]. apply set_state_moves.
  apply orb_false_iff in Eu as [[_ Es]%orb_false_iff _]. apply negb_false_iff in Es.
  apply bool_decide_eq_true in Es. unfold st. rewrite Es. constructor.
Qed.

Lemma tcp_send_next_state fuel i buf : forall snt len, respects (keeps (W := W) cb_state) (tcp_send_next fuel i buf snt len).
Proof. induction fuel as [|fuel IH]; intros snt len; cbn [tcp_send_next]; unfold tcp_send_one; respects_tac. Qed.

(** ** Steps of the system *)

(** What can happen to TCP: a segment arrives, the timer runs, an application
    calls or a blocked call is woken, and the world outside changes. *)
Inductive tcp_step (s : tcp W) : event -> tcp W -> Prop :=
  | step_world w : tcp_step s Quiet (set_tcp_world w s)
  | step_rx segment len src dst iface : tcp_step s Segment (rst (tcp_rx segment len src dst iface s))
  | step_timer last : tcp_step s Timer (rst (tcp_timer_thread last s))
  | step_open : tcp_step s Quiet (rst (tcp_api_open s))
  | step_close soc : tcp_step s Close (rst (tcp_api_close soc s))
  | step_connect soc addr port : tcp_step s Connect (rst (tcp_api_connect soc addr port s))
  | step_connect_wake i : tcp_step s Quiet (rst ((lock ;;; tcp_connect_wake i) s))
  | step_bind soc port : tcp_step s Quiet (rst (tcp_api_bind soc port s))
  | step_listen soc : tcp_step s Listen (rst (tcp_api_listen soc s))
  | step_accept soc : tcp_step s Quiet (rst (tcp_api_accept soc s))
  | step_accept_wake i : tcp_step s Quiet (rst ((lock ;;; tcp_accept_wake i) s))
  | step_recv soc size : tcp_step s Quiet (rst (tcp_api_recv soc size s))
  | step_recv_wake i size : tcp_step s Quiet (rst ((lock ;;; tcp_recv_wake i size) s))
  | step_send soc buf len : tcp_step s Quiet (rst (tcp_api_send soc buf len s))
  | step_send_wake fuel i buf snt len : tcp_step s Quiet (rst ((lock ;;; tcp_send_next fuel i buf snt len) s)).

(** The changes of state that an event may cause. The edges of one kind make no
    cycle: but for [Spawn], an event takes no block out of CLOSED but those of
    [Listen] and [Connect]. *)
Definition allowed (e : event) (a b : tcp_state) : Prop :=
  match e with
  | Segment => rtc (edge Segment) a b \/ (a = CLOSED /\ rtc (edge Segment) LISTEN b)
  | _ => rtc (edge e) a b
  end.

Lemma rx_moves_allowed s s' j : rx_moves s s' -> allowed Segment (st j s) (st j s').
Proof.
  intros (s1 & H1 & H2). specialize (H1 j). specialize (H2 j). cbn.
  apply rtc_inv in H1 as [E|(a & Ha & Hr)]; [left; by rewrite E|]. right.
  assert (st j s = CLOSED /\ a = LISTEN) as [-> ->] by (by inversion Ha). split; [done|].
  apply rtc_inv in Hr as [E|(b & Hb & _)]; [by rewrite E|inversion Hb].
Qed.

Lemma tcp_step_allowed s e s' j : tcp_step s e s' -> allowed e (st j s) (st j s').
Proof.
  pose proof tcp_send_next_state as Hsend.
  destruct 1; try (by apply rx_moves_allowed, tcp_rx_moves); try (by apply tcp_timer_thread_moves);
    try (by apply tcp_api_connect_moves); try (by apply tcp_api_listen_moves); try (by apply tcp_api_close_moves).
  { by apply rtc_refl. }
  all: match goal with |- allowed Quiet _ (st _ (rst (?m _))) => assert (respects (keeps cb_state) m) as Hm;
    [|apply (keeps_moves Quiet), Hm] end.
  all: unfold tcp_api_open, tcp_api_bind, tcp_api_accept, tcp_api_recv, tcp_api_send,
    tcp_connect_wake, tcp_accept_wake, tcp_recv_wake, cond_wait, done_unlock; respects_tac.
Qed.

Lemma st_init w j : st j (tcp_init_state w) = CLOSED.
Proof.
  unfold st, tcp_init_state. cbn [cb_table]. destruct (decide (j < TCP_CB_TABLE_SIZE)%nat).
  - by rewrite lookup_total_replicate_2.
  - by rewrite list_lookup_total_alt, (proj1 (lookup_replicate_None _ _ _)) by lia.
Qed.

Lemma edge_not_last_ack e a b : rtc (edge e) a b -> a <> LAST_ACK -> b <> LAST_ACK.
Proof. induction 1 as [|a b c Hab _ IH]; [done|]. intros _. apply IH. by inversion Hab. Qed.

Definition any_step (s s' : tcp W) : Prop := exists e, tcp_step s e s'.

(** ** Properties *)

(** C8: every event changes the state of every control block only as the diagram
    allows for this kind of event: a segment, a timeout, [tcp_api_connect],
    [tcp_api_listen] and [tcp_api_close] take the block along their own edges, a
    free block may also become the connection of a listener, and no other call
    changes a state. *)
Theorem tcp_state_machine s e s' j : tcp_step s e s' -> allowed e (st j s) (st j s').
Proof. apply tcp_step_allowed. Qed.

(** C35: no connection ever enters LAST_ACK, the state in which RFC 793 awaits the
    acknowledgement of the last FIN. *)
Theorem last_ack_unreachable w s j : rtc any_step (tcp_init_state w) s -> st j s <> LAST_ACK.
Proof.
  intros Hr. assert (st j (tcp_init_state w) <> LAST_ACK) as H0 by (by rewrite st_init).
  induction Hr as [|s1 s2 s3 [e He] _ IH]; [done|]. apply IH. apply (tcp_step_allowed _ _ _ j) in He.
  destruct e; cbn in He; try (by eapply edge_not_last_ack).
  destruct He as [He|[_ He]]; by eapply edge_not_last_ack.
Qed.

End States.

(** The active open of a socket. *)
Lemma tcp_state_machine_witness :
  let sys := sample_system true (Some 100) in
  let s := sample_table (sample_cb CLOSED snd0 rcv0 []) [] in
  st 0 (rst (tcp_api_connect (H := LittleEndian) (SYS := sys) 0 33554442 5000 s)) = SYN_SENT /\
  allowed Connect CLOSED SYN_SENT.
Proof.
  intros sys s. assert (st 0 (rst (tcp_api_connect (H := LittleEndian) (SYS := sys) 0 33554442 5000 s)) = SYN_SENT) as E
    by reflexivity. split; [exact E|]. rewrite <- E. change CLOSED with (st 0 s).
  apply (tcp_state_machine (H := LittleEndian) (SYS := sys) s Connect). constructor.
Defined.

Lemma last_ack_unreachable_witness :
  let sys := sample_system true (Some 100) in
  st 0 (rst (tcp_api_open (tcp_init_state (W := list (bytes * Z)) []))) <> LAST_ACK.
Proof.
  intros sys. apply (last_ack_unreachable (H := LittleEndian) (SYS := sys) []). apply rtc_once. exists Quiet. constructor.
Defined.
