(* ===== verification/TcpStream.v ===== *)
(** * TCP: the received octet stream

    What an application reads from a connection is a prefix of what the peer
    sent.  The peer's stream and its initial sequence number [irs] are fixed;
    segments may be lost, repeated, reordered and carry any flags. *)

From S2P Require Import Prelude Logic Endian Cksum Queue Net IpFragment Ip TcpTypes TcpSegment TcpTimer TcpApi TcpLogic TcpSample.

Section Stream.
Context {H : Host} {W : Type} `{SYS : System W}.

(** The octets received and not yet read. *)
Definition buffered (c : tcp_cb) : bytes :=
  take (Z.to_nat (TCP_WINDOW_SIZE - rcv_wnd (cb_rcv c))) (cb_window c).

Definition window_ok (c : tcp_cb) : Prop :=
  zlen (cb_window c) = TCP_WINDOW_SIZE /\ 0 <= rcv_wnd (cb_rcv c) <= TCP_WINDOW_SIZE.

Context (stream : bytes) (irs : Z).

(** [got] has been read from the connection. *)
Definition rx_inv (got : bytes) (c : tcp_cb) : Prop :=
  match cb_state c with
  | LISTEN => zlen (cb_window c) = TCP_WINDOW_SIZE /\ got = []
  | SYN_SENT => zlen (cb_window c) = TCP_WINDOW_SIZE /\ rcv_wnd (cb_rcv c) = TCP_WINDOW_SIZE /\ got = []
  | SYN_RCVD | ESTABLISHED | FIN_WAIT1 | FIN_WAIT2 =>
      window_ok c /\ (got ++ buffered c) `prefix_of` stream /\
      rcv_nxt (cb_rcv c) = u32 (irs + 1 + zlen (got ++ buffered c))
  | CLOSE_WAIT => window_ok c /\ (got ++ buffered c) `prefix_of` stream
  | CLOSED | CLOSING | TIME_WAIT | LAST_ACK => True
  end.

(** The part of a control block that the invariant is about. *)
Definition rx_view (c : tcp_cb) : tcp_state * Z * Z * bytes :=
  (cb_state c, rcv_nxt (cb_rcv c), rcv_wnd (cb_rcv c), cb_window c).

Lemma rx_inv_view got c c' : rx_view c' = rx_view c -> rx_inv got c -> rx_inv got c'.
Proof. unfold rx_view, rx_inv, window_ok, buffered. intros [= -> -> -> ->]. done. Qed.

(** A segment of the peer: a SYN carries the initial sequence number, other text
    is a part of the stream at its place. *)
Definition from_peer (hdr : tcp_hdr) (segment : bytes) (len : Z) : Prop :=
  let plen := TCP_DATA_LEN hdr len in
  if ISSET hdr TCP_FLG_SYN then SEQ hdr = irs
  else 0 < plen -> exists k, 0 <= k /\ SEQ hdr = u32 (irs + 1 + k) /\ k + plen <= zlen stream /\
    plen <= zlen (drop (Z.to_nat (TCP_HDR_LEN hdr)) segment) /\
    take (Z.to_nat plen) (drop (Z.to_nat (TCP_HDR_LEN hdr)) segment)
    = take (Z.to_nat plen) (drop (Z.to_nat k) stream).

(** The peer respects the advertised window. *)
Definition fits (hdr : tcp_hdr) (len : Z) (c : tcp_cb) : Prop :=
  rcv_nxt (cb_rcv c) = SEQ hdr -> TCP_DATA_LEN hdr len <= rcv_wnd (cb_rcv c).

(** ** Preservation by the phases *)

Section Preserve.
Context (i : nat) (got : bytes).

(** The invariant of control block [i] is not lost. *)
Definition stays (s s' : tcp W) : Prop := rx_inv got (cb_table s !!! i) -> rx_inv got (cb_table s' !!! i).

#[export] Instance stays_frame : Frame stays.
Proof. split; [|by intros s x ?..]. split; [by intros s ?|]. intros s1 s2 s3 H1 H2 Hs. auto. Qed.

Lemma stays_keeps s s' : keeps rx_view s s' -> stays s s'.
Proof. intros Hk. unfold stays. apply rx_inv_view, Hk. Qed.

Lemma stays_cb_mod j f : (forall c, rx_view (f c) = rx_view c) -> respects stays (cb_mod j f).
Proof. intros Hf s. apply stays_keeps. by apply keeps_cb_mod. Qed.

Lemma stays_mod j f s : (rx_inv got (cb_table s !!! j) -> rx_inv got (f (cb_table s !!! j))) ->
  stays s (rst (cb_mod j f s)).
Proof.
  intros Hf Hs. unfold cb_mod, modify, rst. cbn. rewrite table_insert. case_decide as Hd; [|done].
  destruct Hd as [-> _]. auto.
Qed.

Lemma stays_close j : respects stays (tcp_close_cb j).
Proof. intros s. by apply stays_mod. Qed.

Lemma stays_tx j seq ack flg now : respects stays (tx j seq ack flg now).
Proof. apply tx_respects; [apply _|]. intros f. by apply stays_cb_mod. Qed.
Lemma stays_tx_ack j now : respects stays (tx_ack j now).
Proof. apply tx_ack_respects; [apply _|]. intros f. by apply stays_cb_mod. Qed.

Lemma stays_get {A} j (k : tcp_cb -> M (tcp W) A) s :
  stays s (rst (k (cb_table s !!! j) s)) -> stays s (rst (mbind' (cb_get j) k s)).
Proof. by rewrite rst_get. Qed.

End Preserve.

Hint Resolve stays_close stays_tx stays_tx_ack : net.
Hint Extern 4 (respects (stays _ _) (cb_mod _ _)) => apply stays_cb_mod; intros; reflexivity : net.

Section Segment.
Context (i : nat) (got : bytes).

Lemma ack_fin_stays hdr : respects (stays i got) (ack_fin i hdr).
Proof.
  intros s. unfold ack_fin. apply stays_get. destruct (cb_state _) eqn:E; try reflexivity;
    (unfold when; case_match; [|reflexivity]; apply stays_mod; unfold rx_inv; by rewrite E).
Qed.

Hint Resolve ack_fin_stays : net.

Lemma check_ack_established_stays hdr now : respects (stays i got) (check_ack_established i hdr now).
Proof. unfold check_ack_established, ack_update. respects_tac. Qed.

Hint Resolve check_ack_established_stays : net.

Lemma stays_then {A B} (m : M (tcp W) A) (k : A -> M (tcp W) B) s :
  stays i got s (rst (m s)) -> (forall a, respects (stays i got) (k a)) -> stays i got s (rst (mbind' m k s)).
Proof. intros Hm Hk. rewrite rst_bind. etrans; [done|]. apply Hk. Qed.

Lemma check_ack_stays hdr now : respects (stays i got) (check_ack i hdr now).
Proof.
  intros s. unfold check_ack. apply stays_get. destruct (cb_state _) eqn:E;
    try (match goal with |- stays _ _ _ (rst (?m _)) => assert (respects (stays i got) m) as Hm; [respects_tac; fail|apply Hm] end).
  case_match.
  - match goal with |- stays _ _ _ (rst (?m _)) => assert (respects (stays i got) m) as Hm; [respects_tac|apply Hm] end.
  - apply stays_then; [|auto with net]. unfold syn_rcvd_established. apply stays_then; [|intros _; respects_tac].
    apply stays_mod. unfold rx_inv. by rewrite E.
Qed.

Hint Resolve check_ack_stays : net.

Lemma arrives_synchronized_stays hdr plen now : respects (stays i got) (arrives_synchronized i hdr plen now).
Proof. unfold arrives_synchronized, check_rst. respects_tac. Qed.

Lemma check_urg_stays hdr : respects (stays i got) (check_urg i hdr).
Proof. unfold check_urg. respects_tac. Qed.

Lemma arrives_closed_stays hdr plen now : respects (stays i got) (arrives_closed i hdr plen now).
Proof. unfold arrives_closed. respects_tac. Qed.

End Segment.

(** ** Text *)

Lemma live_index (s : tcp W) i : cb_state (cb_table s !!! i) <> CLOSED -> (i < length (cb_table s))%nat.
Proof.
  intros Hs. apply Nat.nle_gt. intros Hi. apply Hs.
  by rewrite list_lookup_total_alt, (proj2 (lookup_ge_None _ _)) by done.
Qed.

Lemma holds_self (s : tcp W) i : cb_state (cb_table s !!! i) <> CLOSED -> holds i (cb_table s !!! i) s.
Proof. intros Hs. split; [by apply live_index|done]. Qed.

Lemma holds_rx_inv got i c (s : tcp W) : holds i c s -> rx_inv got c -> rx_inv got (cb_table s !!! i).
Proof.
  intros [_ Hc]. apply rx_inv_view. unfold rx_view.
  by destruct (no_txq_fields _ _ Hc) as (-> & _ & -> & _ & -> & _).
Qed.

Definition takes_text (st : tcp_state) : bool :=
  match st with ESTABLISHED | FIN_WAIT1 | FIN_WAIT2 => true | _ => false end.

(** The control block after [text] has been appended. *)
Definition append_text (hdr : tcp_hdr) (text : bytes) (c : tcp_cb) : tcp_cb :=
  let off := TCP_WINDOW_SIZE - rcv_wnd (cb_rcv c) in
  cb_set_rcv (Rcv (u32 (SEQ hdr + zlen text)) (rcv_up (cb_rcv c)) (rcv_wnd (cb_rcv c) - zlen text))
    (cb_set_window (take (Z.to_nat off) (cb_window c) ++ text
                    ++ drop (Z.to_nat (off + zlen text)) (cb_window c)) c).

Lemma check_text_appends i hdr segment plen now s :
  let c := cb_table s !!! i in
  let text := take (Z.to_nat plen) (drop (Z.to_nat (TCP_HDR_LEN hdr)) segment) in
  takes_text (cb_state c) = true -> window_ok c -> 0 < plen <= rcv_wnd (cb_rcv c) ->
  plen <= zlen (drop (Z.to_nat (TCP_HDR_LEN hdr)) segment) -> rcv_nxt (cb_rcv c) = SEQ hdr ->
  post (check_text i hdr segment plen now) s (fun _ s' => holds i (append_text hdr text c) s').
Proof.
  intros c text Hst [Hwl Hwnd] Hplen Hsrc Hseq. unfold check_text. unfold TCP_WINDOW_SIZE in *.
  assert (zlen text = plen) as Htl by (subst text; unfold zlen in *; rewrite length_take; lia).
  assert (holds i c s) as Hc by (apply holds_self; by destruct (cb_state _)).
  eapply post_get; [exact Hc|intros c' E]. destruct (no_txq_fields _ _ E) as (Est & _ & Ercv & _ & Ewin & _).
  assert (forall m1 m2 : M (tcp W) unit, match cb_state c' with ESTABLISHED | FIN_WAIT1 | FIN_WAIT2 => m1 | _ => m2 end = m1)
    as -> by (intros; rewrite Est; by destruct (cb_state c)).
  rewrite Ercv, Ewin, Hseq, Z.eqb_refl, (proj2 (Z.ltb_lt 0 plen)) by lia. cbn [andb]. rewrite memcpy_ok by lia.
  eapply post_keeps; [respects_tac|respects_tac|exact Hc|intros _ s1 Hc1].
  eapply post_mod; [local_tac|exact Hc1|intros s2 Hc2].
  eapply post_mod; [local_tac|exact Hc2|intros s3 Hc3].
  eapply post_mod; [local_tac|exact Hc3|intros s4 Hc4].
  eapply post_keeps; [respects_tac|respects_tac|exact Hc4|intros _ s5 Hc5].
  apply (holds_keeps i); [respects_tac|respects_tac|]. unfold append_text, TCP_WINDOW_SIZE. rewrite Htl.
  replace (rcv_wnd (cb_rcv c) - plen) with (u16 (rcv_wnd (cb_rcv c) - plen))
    by (rewrite u16_small; unfold is_u16; lia). exact Hc5.
Qed.

Lemma buffered_append hdr text c : window_ok c -> zlen text <= rcv_wnd (cb_rcv c) ->
  buffered (append_text hdr text c) = buffered c ++ text /\ window_ok (append_text hdr text c).
Proof.
  intros [Hwl Hwnd] Ht. unfold buffered, window_ok, append_text, TCP_WINDOW_SIZE in *. cbn [cb_rcv cb_window cb_set_rcv cb_set_window rcv_wnd].
  set (off := 65535 - rcv_wnd (cb_rcv c)). assert (length (take (Z.to_nat off) (cb_window c)) = Z.to_nat off) as L
    by (rewrite length_take; unfold zlen in *; lia).
  split; [|split; [|pose proof (zlen_nonneg text); lia]].
  - rewrite app_assoc, take_app_length'; [done|]. rewrite length_app, L. unfold zlen in *. lia.
  - unfold zlen in *. rewrite !length_app, L, length_drop. lia.
Qed.

Lemma prefix_extend (l : bytes) k n : l `prefix_of` stream -> zlen l = k -> 0 <= n -> k + n <= zlen stream ->
  (l ++ take (Z.to_nat n) (drop (Z.to_nat k) stream)) `prefix_of` stream.
Proof.
  intros [r E] Hk Hn Hlen. subst k. rewrite E, drop_app_length' by (unfold zlen; lia).
  apply prefix_app. apply prefix_take.
Qed.

Context (Hirs : is_u32 irs) (Hstream : zlen stream < 4294967295).

Lemma check_text_stays i got hdr segment len now s :
  from_peer hdr segment len -> (ISSET hdr TCP_FLG_SYN = false -> fits hdr len (cb_table s !!! i)) ->
  stays i got s (rst (check_text i hdr segment (TCP_DATA_LEN hdr len) now s)).
Proof.
  intros Hpeer Hfit Hinv. set (c := cb_table s !!! i) in *. set (plen := TCP_DATA_LEN hdr len) in *.
  destruct (takes_text (cb_state c)) eqn:Et; cycle 1.
  { unfold check_text. rewrite rst_get. fold c. by destruct (cb_state c). }
  assert (window_ok c /\ (got ++ buffered c) `prefix_of` stream /\
    rcv_nxt (cb_rcv c) = u32 (irs + 1 + zlen (got ++ buffered c))) as (Hw & Hpre & Hnxt)
    by (unfold rx_inv in Hinv; fold c in Hinv; by destruct (cb_state c)).
  pose proof (prefix_length _ _ Hpre) as Hlen. apply inj_le in Hlen. fold (zlen (got ++ buffered c)) (zlen stream) in Hlen.
  set (n := zlen (got ++ buffered c)) in *. assert (0 <= n) by apply zlen_nonneg.
  destruct ((0 <? plen) && (rcv_nxt (cb_rcv c) =? SEQ hdr)) eqn:Eacc; cycle 1.
  { unfold check_text. rewrite rst_get. fold c. rewrite Eacc.
    assert (respects (stays i got) (if ISSET hdr TCP_FLG_PSH then tx_ack i now ;;; cond (Broadcast i) else ret tt))
      as Hm by respects_tac. destruct (cb_state c); by apply Hm || done. }
  assert (0 < plen /\ rcv_nxt (cb_rcv c) = SEQ hdr) as [Hp Hseq] by lia.
  unfold from_peer in Hpeer. fold plen in Hpeer. destruct (ISSET hdr TCP_FLG_SYN) eqn:Esyn.
  { exfalso. rewrite Hnxt, Hpeer in Hseq. clear -Hseq Hirs Hstream Hlen H0. wrap_lia. }
  specialize (Hfit eq_refl). destruct (Hpeer Hp) as (k & Hk & Hks & Hkl & Hsrc & Htext).
  assert (k = n) as -> by (rewrite Hnxt, Hks in Hseq; clear -Hseq Hirs Hstream Hlen H0 Hk Hkl Hp; wrap_lia).
  pose proof (check_text_appends i hdr segment plen now s) as Happ. cbv zeta in Happ. fold c in Happ.
  specialize (Happ Et Hw ltac:(specialize (Hfit Hseq); lia) Hsrc Hseq). rewrite Htext in Happ.
  set (text := take (Z.to_nat plen) (drop (Z.to_nat n) stream)) in *.
  assert (zlen text = plen) as Htl by (subst text; unfold zlen in *; rewrite length_take, length_drop; lia).
  destruct (buffered_append hdr text c Hw) as [Hb Hw']; [specialize (Hfit Hseq); lia|].
  eapply holds_rx_inv; [exact Happ|]. unfold rx_inv. rewrite Hb, app_assoc.
  assert (rcv_nxt (cb_rcv (append_text hdr text c)) = u32 (irs + 1 + zlen ((got ++ buffered c) ++ text))) as Hnxt'.
  { cbn. rewrite zlen_app, Htl, <- Hseq, Hnxt. fold n. wrap_lia. }
  assert (((got ++ buffered c) ++ text) `prefix_of` stream) by (apply prefix_extend; (done || lia)).
  change (cb_state (append_text hdr text c)) with (cb_state c). by destruct (cb_state c).
Qed.

(** ** FIN and the handshake *)

(** To show that the invariant is not lost, follow the control block. *)
Lemma stays_exec {A} i got (m : M (tcp W) A) s :
  respects same_size m ->
  (holds i (cb_table s !!! i) s -> rx_inv got (cb_table s !!! i) ->
   post m s (fun _ s' => exists c', holds i c' s' /\ rx_inv got c')) ->
  stays i got s (rst (m s)).
Proof.
  intros Hsize Hm Hinv. destruct (decide (i < length (cb_table s))%nat) as [Hi|Hi].
  - destruct (Hm (conj Hi eq_refl) Hinv) as (c' & Hc' & Hi'). by eapply holds_rx_inv.
  - rewrite list_lookup_total_alt, (proj2 (lookup_ge_None _ _)); [done|]. rewrite Hsize. lia.
Qed.

Lemma check_fin_stays i got hdr now : respects (stays i got) (check_fin i hdr now).
Proof.
  intros s. unfold check_fin. case_match; [|reflexivity].
  apply stays_exec; [unfold set_state; respects_tac|]. intros Hc Hinv. set (c := cb_table s !!! i) in *.
  do 2 exec1. eapply post_get; [eassumption|intros c' E]. destruct (no_txq_fields _ _ E) as (-> & _).
  cbn [cb_state cb_set_rcv]. unfold rx_inv in Hinv. fold c in Hinv.
  destruct (cb_state c) eqn:Es; exec; (eexists; split; [eassumption|]); unfold rx_inv; cbn; rewrite ?Es;
    first [done | exact Hinv | exact (conj (proj1 Hinv) (proj1 (proj2 Hinv)))].
Qed.

(** The control block of a connection whose SYN has arrived. *)
Lemma rx_inv_start c : zlen (cb_window c) = TCP_WINDOW_SIZE -> rcv_wnd (cb_rcv c) = TCP_WINDOW_SIZE ->
  rcv_nxt (cb_rcv c) = u32 (irs + 1) ->
  cb_state c = SYN_RCVD \/ cb_state c = ESTABLISHED -> rx_inv [] c.
Proof.
  intros Hw Hwnd Hn Hs. assert (buffered c = []) as Hb by (unfold buffered; by rewrite Hwnd).
  assert (window_ok c /\ ([] ++ buffered c) `prefix_of` stream /\
    rcv_nxt (cb_rcv c) = u32 (irs + 1 + zlen ([] ++ buffered c))).
  { rewrite Hb, Hn. split; [split; [done|unfold TCP_WINDOW_SIZE in *; lia]|]. split; [by exists stream|].
    by rewrite Z.add_0_r. }
  unfold rx_inv. by destruct Hs as [-> | ->].
Qed.

Lemma arrives_listen_stays i got hdr segment len now s :
  from_peer hdr segment len -> cb_state (cb_table s !!! i) = LISTEN ->
  stays i got s (rst (arrives_listen i hdr now s)).
Proof.
  intros Hpeer Hs. unfold arrives_listen.
  assert (respects (stays i got) (error_rx_listen i)) as Herr by (unfold error_rx_listen; respects_tac).
  case_match; [apply Herr|]. case_match; [apply (stays_then i got); [by apply stays_tx|auto]|].
  case_match eqn:Esyn; [|apply Herr]. unfold from_peer in Hpeer. rewrite Esyn in Hpeer.
  apply stays_exec; [unfold set_state; respects_tac|]. intros Hc Hinv. unfold rx_inv in Hinv. rewrite Hs in Hinv.
  destruct Hinv as [Hw ->]. do 5 exec1. eapply post_get; [eassumption|intros c' E].
  exec. eexists; split; [eassumption|]. apply rx_inv_start; cbn; auto. by rewrite Hpeer.
Qed.

Lemma syn_sent_syn_stays i got hdr plen now s :
  SEQ hdr = irs -> cb_state (cb_table s !!! i) = SYN_SENT ->
  stays i got s (rst (syn_sent_syn i hdr plen now s)).
Proof.
  intros Hseq Hs. unfold syn_sent_syn. apply stays_exec; [unfold set_state; respects_tac|]. intros Hc Hinv.
  unfold rx_inv in Hinv. rewrite Hs in Hinv. destruct Hinv as (Hw & Hwnd & ->). do 2 exec1.
  eapply post_get; [eassumption|intros c' _]. apply post_bind.
  match goal with |- post (when ?b ?m) ?s1 ?Q => set (Q' := Q); assert (forall s2, (exists c2, holds i c2 s2 /\
    zlen (cb_window c2) = TCP_WINDOW_SIZE /\ rcv_wnd (cb_rcv c2) = TCP_WINDOW_SIZE /\
    rcv_nxt (cb_rcv c2) = u32 (irs + 1)) -> Q' tt s2) as HQ end.
  { intros s2 (c2 & Hc2 & Hw2 & Hwnd2 & Hn2). subst Q'. cbv beta. eapply post_get; [eassumption|intros c3 _].
    case_match; exec; [case_match; exec|]; (eexists; split; [eassumption|]); apply rx_inv_start; cbn; auto. }
  unfold when. case_match.
  - exec. apply HQ. eexists; split; [eassumption|]. cbn. by rewrite Hseq.
  - apply post_ret, HQ. eexists; split; [eassumption|]. cbn. by rewrite Hseq.
Qed.

(** ** A whole segment *)

(** A segment that gets past the acknowledgement check has not changed the
    receive variables. *)
Definition rcv_vars (c : tcp_cb) : Z * Z := (rcv_nxt (cb_rcv c), rcv_wnd (cb_rcv c)).

Definition passes {A} (m : M (tcp W) A) (s : tcp W) (go : A -> Prop) : Prop :=
  go (rval (m s)) -> keeps rcv_vars s (rst (m s)).

Lemma tx_rcv i seq ack flg now : respects (keeps (W := W) rcv_vars) (tx i seq ack flg now).
Proof. apply tx_respects; [apply _|]. by apply keeps_set_txq. Qed.
Lemma tx_ack_rcv i now : respects (keeps (W := W) rcv_vars) (tx_ack i now).
Proof. apply tx_ack_respects; [apply _|]. by apply keeps_set_txq. Qed.

Hint Resolve tx_rcv tx_ack_rcv : net.

Lemma check_ack_established_rcv i hdr now : respects (keeps (W := W) rcv_vars) (check_ack_established i hdr now).
Proof. unfold check_ack_established, ack_update, ack_fin, set_state. respects_tac. Qed.

Hint Resolve check_ack_established_rcv : net.

Lemma respects_passes {A} (m : M (tcp W) A) s go : respects (keeps rcv_vars) m -> passes m s go.
Proof. intros Hm _. apply Hm. Qed.

Lemma check_ack_passes i hdr now s : passes (check_ack i hdr now) s (fun k => k = CheckUrg).
Proof.
  unfold passes, check_ack. rewrite rst_get, rval_bind. cbn [cb_get gets rval rst fst snd].
  destruct (cb_state _); try (case_match);
    try (intros _; match goal with |- keeps _ _ (rst (?m _)) => assert (respects (keeps rcv_vars) m) as Hm;
      [unfold syn_rcvd_established, set_state; respects_tac; fail|apply Hm] end).
  by rewrite !rval_bind.
Qed.

Lemma synchronized_passes i hdr plen now s : passes (arrives_synchronized i hdr plen now) s (fun k => k = CheckUrg).
Proof.
  unfold passes, arrives_synchronized. rewrite rst_get, rval_bind. cbn [cb_get gets rval rst fst snd].
  repeat case_match; try (by rewrite !rval_bind); [apply check_ack_passes|reflexivity].
Qed.

Lemma arrives_listen_syn i hdr now s : rval (arrives_listen i hdr now s) = CheckUrg -> ISSET hdr TCP_FLG_SYN = true.
Proof. unfold arrives_listen, error_rx_listen. by repeat case_match; rewrite ?rval_bind. Qed.

Lemma arrives_syn_sent_syn i hdr plen now s :
  rval (arrives_syn_sent i hdr plen now s) = CheckUrg -> ISSET hdr TCP_FLG_SYN = true.
Proof.
  unfold arrives_syn_sent. rewrite rval_bind. cbn [cb_get gets rval rst fst snd].
  by repeat case_match; rewrite ?rval_bind.
Qed.

Lemma arrives_syn_sent_stays i got hdr segment len plen now s :
  from_peer hdr segment len -> cb_state (cb_table s !!! i) = SYN_SENT ->
  stays i got s (rst (arrives_syn_sent i hdr plen now s)).
Proof.
  intros Hpeer Hs. unfold arrives_syn_sent. apply stays_get. unfold from_peer in Hpeer.
  repeat (case_match; try (by apply syn_sent_syn_stays)).
  all: match goal with |- stays _ _ _ (rst (?m _)) => assert (respects (stays i got) m) as Hm; [respects_tac|apply Hm] end.
Qed.

Lemma check_urg_rcv i hdr : respects (keeps (W := W) rcv_vars) (check_urg i hdr).
Proof. unfold check_urg. respects_tac. Qed.

(** The phases before the text, and what they leave to it. *)
Definition before_text (i : nat) (hdr : tcp_hdr) (plen now : Z) (st : tcp_state) : M (tcp W) next :=
  match st with
  | CLOSED => arrives_closed i hdr plen now ;;; ret Stop
  | LISTEN => arrives_listen i hdr now
  | SYN_SENT => arrives_syn_sent i hdr plen now
  | _ => arrives_synchronized i hdr plen now
  end.

Lemma before_text_stays i got hdr segment len now s : from_peer hdr segment len ->
  let m := before_text i hdr (TCP_DATA_LEN hdr len) now (cb_state (cb_table s !!! i)) in
  stays i got s (rst (m s)) /\
  (rval (m s) = CheckUrg -> ISSET hdr TCP_FLG_SYN = false -> keeps rcv_vars s (rst (m s))).
Proof.
  intros Hpeer m. subst m. destruct (cb_state _) eqn:Es; cbn [before_text].
  all: try (split; [apply arrives_synchronized_stays|intros Hk _; by apply synchronized_passes]).
  - split; [apply stays_then; [apply arrives_closed_stays|respects_tac]|]. by rewrite rval_bind.
  - split; [by eapply arrives_listen_stays|]. intros Hk%arrives_listen_syn. congruence.
  - split; [by eapply arrives_syn_sent_stays|]. intros Hk%arrives_syn_sent_syn. congruence.
Qed.

Lemma segment_arrives_stays i got hdr segment len s :
  from_peer hdr segment len -> fits hdr len (cb_table s !!! i) ->
  stays i got s (rst (tcp_event_segment_arrives i hdr segment len s)).
Proof.
  intros Hpeer Hfit. unfold tcp_event_segment_arrives. rewrite rst_bind.
  set (t := rval _). set (s1 := rst (sys sys_gettimeofday s)).
  assert (stays i got s s1) as Hs1 by (by apply respects_sys; apply _).
  assert (forall j, cb_table s1 !!! j = cb_table s !!! j) as Hk1
    by (subst s1; unfold sys, rst; by destruct (sys_gettimeofday (tcp_world s))).
  transitivity s1; [done|]. destruct t as [now|]; [|reflexivity].
  rewrite rst_get, rst_bind. fold (before_text i hdr (TCP_DATA_LEN hdr len) now (cb_state (cb_table s1 !!! i))).
  destruct (before_text_stays i got hdr segment len now s1 Hpeer) as [Hst Hkeep].
  set (m := before_text _ _ _ _ _) in *. transitivity (rst (m s1)); [done|].
  destruct (rval (m s1)) eqn:Ek; [reflexivity|]. rewrite rst_bind. set (s2 := rst (m s1)) in *.
  set (s3 := rst (check_urg i hdr s2)). transitivity s3; [apply check_urg_stays|].
  assert (ISSET hdr TCP_FLG_SYN = false -> fits hdr len (cb_table s3 !!! i)) as Hfit3.
  { intros Hsyn. pose proof (check_urg_rcv i hdr s2 i) as E1. pose proof (Hkeep eq_refl Hsyn i) as E2.
    fold s3 in E1. rewrite E2, Hk1 in E1. injection E1 as E3 E4. unfold fits. by rewrite E3, E4. }
  rewrite rst_bind. transitivity (rst (check_text i hdr segment (TCP_DATA_LEN hdr len) now s3)).
  - by apply check_text_stays.
  - apply check_fin_stays.
Qed.

(** ** Reading *)

Lemma window_shift_ok window len total : zlen window = TCP_WINDOW_SIZE -> 0 <= len <= total -> total <= TCP_WINDOW_SIZE ->
  window_shift window len total
  = take (Z.to_nat (total - len)) (drop (Z.to_nat len) window) ++ drop (Z.to_nat (total - len)) window.
Proof.
  clear Hirs Hstream. intros Hw Hl Ht. unfold window_shift, TCP_WINDOW_SIZE in *.
  rewrite memcpy_ok by (try lia; unfold zlen in *; rewrite length_drop; lia). done.
Qed.

(** The control block after [len] octets have been read. *)
Definition read_text (len : Z) (c : tcp_cb) : tcp_cb :=
  let total := TCP_WINDOW_SIZE - rcv_wnd (cb_rcv c) in
  cb_set_rcv (rcv_set_wnd (rcv_wnd (cb_rcv c) + len) (cb_rcv c))
    (cb_set_window (window_shift (cb_window c) len total) c).

Lemma buffered_read len c : window_ok c -> 0 <= len <= zlen (buffered c) ->
  buffered c = take (Z.to_nat len) (cb_window c) ++ buffered (read_text len c) /\ window_ok (read_text len c).
Proof.
  clear Hirs Hstream. intros [Hw Hwnd] Hlen. unfold read_text, buffered, window_ok in *.
  cbn [cb_rcv cb_window cb_set_rcv cb_set_window rcv_wnd rcv_set_wnd]. set (wnd := rcv_wnd (cb_rcv c)) in *.
  assert (len <= TCP_WINDOW_SIZE - wnd) by (unfold zlen in *; rewrite length_take in Hlen; lia).
  rewrite window_shift_ok by (done || lia). unfold TCP_WINDOW_SIZE in *.
  set (l := cb_window c) in *. split.
  - rewrite take_app_length' by (unfold zlen in *; rewrite length_take, length_drop; lia).
    rewrite <- (take_drop (Z.to_nat len) l) at 1.
    assert (length (take (Z.to_nat len) l) = Z.to_nat len) as L by (rewrite length_take; unfold zlen in *; lia).
    rewrite take_app_ge by lia. rewrite L. do 2 f_equal. lia.
  - split; [|lia]. unfold zlen in *. rewrite length_app, length_take, !length_drop. lia.
Qed.

Lemma rx_inv_read got len c : takes_text (cb_state c) = true \/ cb_state c = CLOSE_WAIT ->
  0 <= len <= zlen (buffered c) -> rx_inv got c -> rx_inv (got ++ take (Z.to_nat len) (cb_window c)) (read_text len c).
Proof.
  intros Hs Hlen Hinv. assert (window_ok c) as Hw by (unfold rx_inv in Hinv; destruct (cb_state c), Hs; done || apply Hinv).
  destruct (buffered_read len c Hw Hlen) as [Hb Hw'].
  assert (got ++ buffered c = (got ++ take (Z.to_nat len) (cb_window c)) ++ buffered (read_text len c)) as E
    by (by rewrite <- app_assoc, <- Hb).
  unfold rx_inv in *. change (cb_state (read_text len c)) with (cb_state c).
  change (rcv_nxt (cb_rcv (read_text len c))) with (rcv_nxt (cb_rcv c)). rewrite <- E.
  destruct (cb_state c); try (by destruct Hs); (split; [done|apply Hinv]).
Qed.

(** The octets a call of [tcp_api_recv] returned. *)
Definition read_of (r : outcome (Z * bytes)) : bytes :=
  match r with Return (_, d) => d | Blocked => [] end.

Definition readable (st : tcp_state) : bool := takes_text st || state_is st CLOSE_WAIT.

(** What a call returns when there is text to read. *)
Lemma tcp_recv_wake_reads i size (s : tcp W) :
  let c := cb_table s !!! i in
  readable (cb_state c) = true -> window_ok c -> 0 <= size -> buffered c <> [] ->
  let len := Z.min size (zlen (buffered c)) in
  post (tcp_recv_wake i size) s (fun r s' =>
    r = Return (len, take (Z.to_nat len) (buffered c)) /\ holds i (read_text len c) s').
Proof.
  intros c Hst [Hw Hwnd] Hsize Hne len. unfold tcp_recv_wake. unfold TCP_WINDOW_SIZE in *.
  assert (zlen (buffered c) = 65535 - rcv_wnd (cb_rcv c)) as Hb
    by (unfold buffered, TCP_WINDOW_SIZE, zlen in *; rewrite length_take; lia).
  assert (0 < zlen (buffered c)) by (destruct (buffered c); [done|unfold zlen; cbn; lia]).
  assert (holds i c s) as Hc by (apply holds_self; fold c; by destruct (cb_state c)).
  eapply post_get; [exact Hc|intros c' E]. destruct (no_txq_fields _ _ E) as (-> & _ & -> & _ & -> & _).
  assert (65535 - rcv_wnd (cb_rcv c) =? 0 = false) as -> by lia.
  replace (if size <? 65535 - rcv_wnd (cb_rcv c) then size else 65535 - rcv_wnd (cb_rcv c)) with len
    by (subst len; rewrite Hb; case_match; lia).
  assert (forall m1 m2 : M (tcp W) (outcome (Z * bytes)),
    match cb_state c with CLOSE_WAIT | ESTABLISHED | FIN_WAIT1 | FIN_WAIT2 => m1 | _ => m2 end = m1)
    as -> by (intros; by destruct (cb_state c)).
  do 2 exec1. unfold done_unlock. eapply post_keeps; [respects_tac|respects_tac|eassumption|intros _ s2 Hc2].
  apply post_ret. split.
  - do 2 f_equal. unfold buffered, TCP_WINDOW_SIZE. rewrite take_take. f_equal. lia.
  - unfold read_text, TCP_WINDOW_SIZE. replace (rcv_wnd (cb_rcv c) + len) with (u16 (rcv_wnd (cb_rcv c) + len))
      by (apply u16_small; unfold is_u16; lia). exact Hc2.
Qed.

Lemma tcp_recv_wake_stays got i size (s : tcp W) : 0 <= size -> rx_inv got (cb_table s !!! i) ->
  got `prefix_of` stream ->
  post (tcp_recv_wake i size) s (fun r s' =>
    rx_inv (got ++ read_of r) (cb_table s' !!! i) /\ (got ++ read_of r) `prefix_of` stream).
Proof.
  intros Hsize Hinv Hgot. set (c := cb_table s !!! i) in *.
  assert (readable (cb_state c) = true -> window_ok c) as Hw
    by (intros Hr; unfold rx_inv in Hinv; destruct (cb_state c); done || apply Hinv).
  destruct (readable (cb_state c)) eqn:Hr; [destruct (decide (buffered c = [])) as [He|Hne]|].
  - unfold post, tcp_recv_wake. rewrite rst_get, rval_bind. cbn [cb_get gets rval rst fst snd]. fold c.
    assert (TCP_WINDOW_SIZE - rcv_wnd (cb_rcv c) =? 0 = true) as ->.
    { destruct (Hw eq_refl) as [Hl Hwnd]. apply (f_equal zlen) in He. unfold buffered, zlen in *.
      rewrite length_take in He. cbn in He. lia. }
    destruct (cb_state c); try done; cbn; by rewrite app_nil_r.
  - eapply post_mono; [by apply tcp_recv_wake_reads; auto|]. intros r s' [-> Hh]. cbv zeta in *. fold c in Hh |- *.
    cbn [read_of]. set (len := Z.min _ _).
    assert (take (Z.to_nat len) (buffered c) = take (Z.to_nat len) (cb_window c)) as ->
      by (subst len; unfold buffered, zlen; rewrite take_take, length_take; f_equal; lia).
    assert (takes_text (cb_state c) = true \/ cb_state c = CLOSE_WAIT) as Hs
      by (unfold readable in Hr; apply orb_prop in Hr as [?|?%bool_decide_eq_true]; auto).
    pose proof (rx_inv_read got len c Hs ltac:(pose proof (zlen_nonneg (buffered c)); lia) Hinv) as Hnew.
    split; [by eapply holds_rx_inv|]. eapply prefix_app_l with (l3 := buffered (read_text len c)).
    unfold rx_inv in Hnew. change (cb_state (read_text len c)) with (cb_state c) in Hnew.
    destruct (cb_state c), Hs; done || apply Hnew.
  - unfold post, tcp_recv_wake. rewrite rst_get, rval_bind. cbn [cb_get gets rval rst fst snd]. fold c.
    destruct (cb_state c); try done; cbn; by rewrite app_nil_r.
Qed.

(** ** Everything else *)

Lemma tcp_send_next_view fuel i buf : forall snt len, respects (keeps (W := W) rx_view) (tcp_send_next fuel i buf snt len).
Proof.
  assert (forall seq ack flg now b n, respects (keeps (W := W) rx_view) (tcp_tx i seq ack flg now b n)) as Htx
    by (intros; apply tcp_tx_respects; [apply _|by apply keeps_set_txq]).
  induction fuel as [|fuel IH]; intros snt len; cbn [tcp_send_next]; unfold tcp_send_one; respects_tac.
Qed.

Lemma tcp_timer_cbs_stays i got now ids : respects (stays i got) (tcp_timer_cbs now ids).
Proof. induction ids; cbn [tcp_timer_cbs]; unfold tcp_timer_cb; respects_tac. Qed.

Lemma tcp_send_fin_stays i got j now st s :
  (rx_inv got (cb_table s !!! j) -> forall c, rx_view c = rx_view (cb_table s !!! j) -> rx_inv got (cb_set_state st c)) ->
  stays i got s (rst (tcp_send_fin j now st s)).
Proof.
  intros Hst. unfold tcp_send_fin. rewrite rst_get, rst_bind. set (s1 := rst (tx _ _ _ _ _ s)).
  assert (keeps rx_view s s1) as Hk by (apply tx_respects; [apply _|]; by apply keeps_set_txq).
  rewrite rst_bind. set (s2 := rst (mod_snd _ _ s1)). assert (keeps rx_view s1 s2) as Hk2 by (by apply keeps_cb_mod).
  rewrite rst_bind. cbn [mret' rst fst snd]. intros Hinv.
  apply (stays_mod i got j (cb_set_state st) s2); [|by apply (stays_keeps i got _ _ Hk2), (stays_keeps i got _ _ Hk)].
  intros Hj. apply Hst; [|by rewrite Hk2, Hk]. eapply rx_inv_view; [|exact Hj]. by rewrite Hk2, Hk.
Qed.

Lemma close_backlog_stays i got close n j : (forall b, respects (stays i got) (close b)) ->
  respects (stays i got) (close_backlog close n j).
Proof. intros Hc. induction n as [|n IH]; cbn [close_backlog]; respects_tac. Qed.

(** Closing keeps the invariant of every connection. *)
Lemma tcp_close_stays i got fuel j : respects (stays i got) (tcp_close fuel j).
Proof.
  revert j. induction fuel as [|fuel IH]; intros j s; cbn [tcp_close]; [reflexivity|].
  rewrite rst_get. set (c := cb_table s !!! j). case_match; [reflexivity|].
  rewrite rst_bind. set (s1 := rst (cb_mod j _ s)). assert (keeps rx_view s s1) as Hk by (by apply keeps_cb_mod).
  rewrite rst_bind. set (s2 := rst (sys _ s1)). assert (keeps rx_view s1 s2) as Hk2 by (apply respects_sys; apply _).
  transitivity s2; [by etrans; apply stays_keeps|].
  assert (cb_state (cb_table s2 !!! j) = cb_state c) as Es
    by (pose proof (Hk2 j) as E; rewrite Hk in E; by injection E).
  case_match; [|reflexivity].
  destruct (cb_state c) eqn:Ec; try reflexivity.
  all: try (rewrite rst_bind; cbn [mret' rst fst snd]; apply tcp_send_fin_stays; unfold rx_inv; rewrite Es;
    intros Hi c' Hv; cbn; first [done | unfold rx_view in Hv; injection Hv as Hv1 Hv2 Hv3 Hv4;
      unfold window_ok, buffered in *; cbn; by rewrite Hv2, Hv3, Hv4]).
  all: pose proof (close_backlog_stays i got (tcp_close fuel) (length (cb_backlog c)) j IH);
    match goal with |- stays _ _ _ (rst (?m _)) => assert (respects (stays i got) m) as Hm; [respects_tac|apply Hm] end.
Qed.

(** ** The connection *)

(** What happens to connection [i], with what has been read from it: a segment of
    the peer arrives, the application reads, sends or closes a socket, the timer
    runs, or something happens that does not touch its receive side. *)
Inductive conn_step (i : nat) : bytes * tcp W -> bytes * tcp W -> Prop :=
  | cs_segment got s hdr segment len :
      from_peer hdr segment len -> fits hdr len (cb_table s !!! i) ->
      conn_step i (got, s) (got, rst (tcp_event_segment_arrives i hdr segment len s))
  | cs_recv got s size : 0 <= size ->
      conn_step i (got, s) (got ++ read_of (rval (tcp_recv_wake i size s)), rst (tcp_recv_wake i size s))
  | cs_send got s fuel buf snt len : conn_step i (got, s) (got, rst (tcp_send_next fuel i buf snt len s))
  | cs_close got s fuel j : conn_step i (got, s) (got, rst (tcp_close fuel j s))
  | cs_timer got s now ids : conn_step i (got, s) (got, rst (tcp_timer_cbs now ids s))
  | cs_other got s s' : rx_view (cb_table s' !!! i) = rx_view (cb_table s !!! i) -> conn_step i (got, s) (got, s').

Lemma conn_step_inv i x y : conn_step i x y ->
  rx_inv x.1 (cb_table x.2 !!! i) /\ x.1 `prefix_of` stream -> rx_inv y.1 (cb_table y.2 !!! i) /\ y.1 `prefix_of` stream.
Proof.
  intros Hs [Hi Hp]. destruct Hs; cbn [fst snd] in *.
  - split; [|done]. by apply segment_arrives_stays.
  - by apply tcp_recv_wake_stays.
  - split; [|done]. eapply rx_inv_view; [|exact Hi]. apply tcp_send_next_view.
  - split; [|done]. by apply tcp_close_stays.
  - split; [|done]. by apply tcp_timer_cbs_stays.
  - split; [|done]. by eapply rx_inv_view.
Qed.

(** C3: the octets an application reads from a connection are a prefix of the
    octets the peer sent, in order and without gaps or repetitions, whatever
    segments of the peer arrive (lost, repeated, out of order, with any flags),
    as long as no segment exceeds the advertised window. *)
Theorem tcp_stream_integrity i s0 got s :
  rx_inv [] (cb_table s0 !!! i) -> rtc (conn_step i) ([], s0) (got, s) -> got `prefix_of` stream.
Proof.
  intros H0 Hr. assert (forall x y, rtc (conn_step i) x y ->
    rx_inv x.1 (cb_table x.2 !!! i) /\ x.1 `prefix_of` stream -> rx_inv y.1 (cb_table y.2 !!! i) /\ y.1 `prefix_of` stream)
    as Hall by (induction 1; eauto using conn_step_inv).
  apply (Hall _ _ Hr). split; [done|apply prefix_nil].
Qed.

End Stream.

(** ** Text in order *)

Section InOrder.
Context {H : Host} {W : Type} `{SYS : System W}.

Lemma ack_update_view i hdr now : respects (keeps (W := W) rx_view) (ack_update i hdr now).
Proof. unfold ack_update. respects_tac. Qed.

(** An ordinary segment of an established connection passes the first checks. *)
Lemma established_passes i hdr plen now (s : tcp W) :
  let c := cb_table s !!! i in
  cb_state c = ESTABLISHED -> seq_acceptable (cb_rcv c) hdr plen = true ->
  ISSET hdr TCP_FLG_RST = false -> ISSET hdr TCP_FLG_SYN = false ->
  ACK hdr <= snd_nxt (cb_snd c) ->
  post (arrives_synchronized i hdr plen now) s (fun k s' => k = CheckUrg /\ keeps rx_view s s').
Proof.
  intros c Hst Hacc Hrst Hsyn Hack. unfold post, arrives_synchronized. rewrite rval_bind, rst_get.
  cbn [cb_get gets rval rst fst snd]. fold c. rewrite Hacc, Hrst, Hsyn. cbn [negb].
  destruct (ISSET hdr TCP_FLG_ACK); [|done]. unfold check_ack. rewrite rval_bind, rst_get.
  cbn [cb_get gets rval rst fst snd]. fold c. rewrite Hst. unfold check_ack_established. rewrite rval_bind, rst_get.
  cbn [cb_get gets rval rst fst snd]. fold c.
  assert (forall s', keeps rx_view s s' -> ack_fin i hdr s' = (tt, s', [])) as Hfin.
  { intros s' Hk. unfold ack_fin. rewrite (mbind_run_nil _ _ _ (cb_table s' !!! i) s') by done.
    pose proof (Hk i) as E. unfold rx_view in E. injection E as E _ _ _. fold c in E. by rewrite E, Hst. }
  destruct (_ && _).
  - rewrite !rval_bind, !rst_bind. set (s1 := rst (ack_update i hdr now s)).
    assert (keeps rx_view s s1) as Hk by apply ack_update_view. by rewrite Hfin.
  - rewrite (proj2 (Z.ltb_ge _ _)) by done. rewrite rval_bind, rst_bind. by rewrite Hfin.
Qed.

Lemma in_order_acceptable (r : tcp_rcv) hdr plen : rcv_nxt r = SEQ hdr -> 0 <= rcv_nxt r -> 0 < plen -> 0 < rcv_wnd r ->
  rcv_nxt r + rcv_wnd r < 4294967296 -> seq_acceptable r hdr plen = true.
Proof.
  intros E H0 Hp Hw Hn. unfold seq_acceptable. rewrite u32_small by (unfold is_u32; lia).
  rewrite (proj2 (Z.ltb_lt 0 plen)), (proj2 (Z.ltb_lt 0 (rcv_wnd r))) by done.
  apply orb_true_iff. left. lia.
Qed.

(** On an established connection, a data segment that is next in sequence and
    fits the window is accepted: its text is appended to what is buffered, the
    next expected sequence number and the window are updated, and the connection
    stays established. *)
Theorem tcp_in_order_text i hdr segment len (s : tcp W) now :
  let c := cb_table s !!! i in
  let plen := TCP_DATA_LEN hdr len in
  let text := take (Z.to_nat plen) (drop (Z.to_nat (TCP_HDR_LEN hdr)) segment) in
  (sys_gettimeofday (tcp_world s)).1 = Some now ->
  cb_state c = ESTABLISHED -> window_ok c -> 0 < plen <= rcv_wnd (cb_rcv c) ->
  plen <= zlen (drop (Z.to_nat (TCP_HDR_LEN hdr)) segment) ->
  rcv_nxt (cb_rcv c) = SEQ hdr -> 0 <= rcv_nxt (cb_rcv c) -> rcv_nxt (cb_rcv c) + rcv_wnd (cb_rcv c) < 4294967296 ->
  ISSET hdr TCP_FLG_RST = false -> ISSET hdr TCP_FLG_SYN = false -> ISSET hdr TCP_FLG_FIN = false ->
  ACK hdr <= snd_nxt (cb_snd c) ->
  post (tcp_event_segment_arrives i hdr segment len) s (fun _ s' =>
    let c' := cb_table s' !!! i in
    cb_state c' = ESTABLISHED /\ buffered c' = buffered c ++ text /\ window_ok c' /\
    rcv_nxt (cb_rcv c') = u32 (SEQ hdr + plen) /\ rcv_wnd (cb_rcv c') = rcv_wnd (cb_rcv c) - plen).
Proof.
  intros c plen text Ht Hst Hw Hp Hsrc Hseq H0 Hn Hrst Hsyn Hfin Hack.
  unfold tcp_event_segment_arrives. apply post_bind. unfold sys, post at 1.
  destruct (sys_gettimeofday (tcp_world s)) as [t w] eqn:Ew. cbn in Ht. subst t. cbn [rval rst fst snd].
  set (s1 := set_tcp_world w s). apply post_bind. unfold post at 1. cbn [cb_get gets rval rst fst snd].
  change (cb_table s1 !!! i) with c. apply post_bind. rewrite Hst.
  eapply post_mono; [apply established_passes; change (cb_table s1 !!! i) with c; try done; by apply in_order_acceptable; lia|].
  intros k s2 [-> Hk]. assert (rx_view (cb_table s2 !!! i) = rx_view c) as Hv by apply Hk.
  apply post_bind. assert (keeps rx_view s2 (rst (check_urg i hdr s2))) as Hu.
  { assert (respects (keeps (W := W) rx_view) (check_urg i hdr)) as Hm by (unfold check_urg; respects_tac). apply Hm. }
  unfold post at 1. set (s3 := rst (check_urg i hdr s2)) in *. apply post_bind.
  assert (rx_view (cb_table s3 !!! i) = rx_view c) as Hv3 by (by rewrite Hu).
  unfold rx_view in Hv3. injection Hv3 as E1 E2 E3 E4.
  assert (window_ok (cb_table s3 !!! i)) as Hw3 by (unfold window_ok; by rewrite E3, E4).
  eapply post_mono; [apply check_text_appends; rewrite ?E1, ?E2, ?E3; try done; by rewrite Hst|].
  intros u s4 Hh. unfold check_fin. rewrite Hfin. apply post_ret. fold plen text in Hh.
  destruct Hh as [_ Hh]. destruct (no_txq_fields _ _ Hh) as (F1 & _ & F3 & _ & F5 & _).
  assert (zlen text = plen) as Htl by (subst text; unfold zlen in *; rewrite length_take; lia).
  destruct (buffered_append hdr text (cb_table s3 !!! i) Hw3) as [Hb Hw']; [rewrite E3; lia|].
  assert (buffered (cb_table s3 !!! i) = buffered c) as Hb3 by (unfold buffered; by rewrite E3, E4).
  split_and!.
  - rewrite F1. cbn. congruence.
  - rewrite <- Hb3, <- Hb. unfold buffered. by rewrite F3, F5.
  - unfold window_ok. by rewrite F3, F5.
  - rewrite F3. cbn. by rewrite Htl.
  - rewrite F3. cbn. by rewrite Htl, E3.
Qed.

(** C36: sequence numbers do not wrap around.  When the right edge of the window is
    beyond 2^32, the segment that is next in sequence is taken to be outside the
    window: it is dropped and the control block is left as it was, so that every
    repetition of it is dropped too. *)
Theorem tcp_wraparound_stall i hdr segment len (s : tcp W) now :
  let c := cb_table s !!! i in
  (sys_gettimeofday (tcp_world s)).1 = Some now ->
  cb_state c = ESTABLISHED -> rcv_nxt (cb_rcv c) = SEQ hdr ->
  0 < rcv_wnd (cb_rcv c) <= TCP_WINDOW_SIZE -> 0 <= rcv_nxt (cb_rcv c) < 4294967296 ->
  4294967296 <= rcv_nxt (cb_rcv c) + rcv_wnd (cb_rcv c) ->
  0 < TCP_DATA_LEN hdr len <= 65535 ->
  post (tcp_event_segment_arrives i hdr segment len) s (fun _ s' => keeps no_txq s s').
Proof.
  intros c Ht Hst Hseq Hw Hn Hwrap Hp. unfold tcp_event_segment_arrives. apply post_bind. unfold sys, post at 1.
  destruct (sys_gettimeofday (tcp_world s)) as [t w] eqn:Ew. cbn in Ht. subst t. cbn [rval rst fst snd].
  set (s1 := set_tcp_world w s). apply post_bind. unfold post at 1. cbn [cb_get gets rval rst fst snd].
  change (cb_table s1 !!! i) with c. apply post_bind. rewrite Hst.
  assert (seq_acceptable (cb_rcv c) hdr (TCP_DATA_LEN hdr len) = false) as Hacc.
  { unfold seq_acceptable. rewrite !(proj2 (Z.ltb_lt 0 _)) by lia. unfold TCP_WINDOW_SIZE in *. rewrite <- Hseq.
    rewrite u64_small by lia. apply orb_false_iff. unfold u32. split; Z.div_mod_to_equations; lia. }
  unfold arrives_synchronized. apply post_bind. unfold post at 1. cbn [cb_get gets rval rst fst snd].
  change (cb_table s1 !!! i) with c. rewrite Hacc. cbn [negb]. apply post_bind. unfold post at 1.
  apply post_ret. apply post_ret.
  assert (respects (keeps no_txq) (when (negb (ISSET hdr TCP_FLG_RST)) (tx_ack (W := W) i now))) as Hm by respects_tac.
  apply (Hm s1).
Qed.

End InOrder.

(** ** Examples *)

(** An established connection that expects octet 2001. *)
Definition sample_established : tcp_cb := sample_cb ESTABLISHED (Snd 1000 1000 0 0 0 1000) (Rcv 2001 0 65535) [].
Definition sample_data_hdr : tcp_hdr := sample_hdr 2001 1000 (Z.lor TCP_FLG_PSH TCP_FLG_ACK).

Lemma sample_window_ok : window_ok sample_established.
Proof. split; [apply sample_window_len|]. cbn. unfold TCP_WINDOW_SIZE. lia. Qed.

(** The text arrives and three octets of it are read. *)
Lemma tcp_stream_integrity_witness :
  let sys := sample_system true (Some 100) in
  let s0 := sample_table sample_established [] in
  let s1 := rst (tcp_event_segment_arrives (H := LittleEndian) (SYS := sys) 0 sample_data_hdr
                   (sample_segment sample_data_hdr) 25 s0) in
  let got := read_of (rval (tcp_recv_wake 0 3 s1)) in
  got = [104; 101; 108] /\ got `prefix_of` sample_text.
Proof.
  intros sys s0 s1 got. split; [vm_compute; reflexivity|].
  apply (tcp_stream_integrity (H := LittleEndian) (SYS := sys) sample_text 2000
    ltac:(unfold is_u32; lia) ltac:(reflexivity) 0 s0 got (rst (tcp_recv_wake 0 3 s1))).
  - split; [apply sample_window_ok|]. split; [apply prefix_nil|reflexivity].
  - apply (rtc_l _ _ ([], s1)).
    2: { apply rtc_once. rewrite <- (app_nil_l got). apply (cs_recv sample_text 2000 0 [] s1 3). by apply Z.leb_le. }
    apply (cs_segment sample_text 2000 0 [] s0 sample_data_hdr (sample_segment sample_data_hdr) 25).
    + intros _. exists 0. split_and!; [lia|reflexivity|vm_compute; discriminate..|reflexivity].
    + intros _. change (cb_table s0 !!! 0%nat) with sample_established. vm_compute. discriminate.
Defined.

Lemma tcp_in_order_text_witness :
  let sys := sample_system true (Some 100) in
  let s := sample_table sample_established [] in
  post (tcp_event_segment_arrives (H := LittleEndian) (SYS := sys) 0 sample_data_hdr (sample_segment sample_data_hdr) 25) s
    (fun _ s' => buffered (cb_table s' !!! 0%nat) = sample_text /\ rcv_nxt (cb_rcv (cb_table s' !!! 0%nat)) = 2006).
Proof.
  intros sys s. eapply post_mono.
  - apply (tcp_in_order_text (H := LittleEndian) (SYS := sys) 0 sample_data_hdr (sample_segment sample_data_hdr) 25 s 100).
    all: first [reflexivity | apply sample_window_ok | vm_compute; intuition discriminate].
  - intros _ s' (_ & Hb & _ & Hn & _). split; [exact Hb|exact Hn].
Defined.

(** The window of a connection that expects octet 2^32 - 10 ends beyond 2^32. *)
Lemma tcp_wraparound_stall_witness :
  let sys := sample_system true (Some 100) in
  let hdr := sample_hdr 4294967286 1000 TCP_FLG_ACK in
  let s := sample_table (sample_cb ESTABLISHED (Snd 1000 1000 0 0 0 1000) (Rcv 4294967286 0 65535) []) [] in
  post (tcp_event_segment_arrives (H := LittleEndian) (SYS := sys) 0 hdr (sample_segment hdr) 25) s
    (fun _ s' => keeps no_txq s s').
Proof.
  intros sys hdr s.
  apply (tcp_wraparound_stall (H := LittleEndian) (SYS := sys) 0 hdr (sample_segment hdr) 25 s 100).
  all: first [reflexivity | vm_compute; intuition discriminate].
Defined.
