(* ===== verification/TcpWire.v ===== *)
(** * TCP: segments on the wire

    Headers survive memory; the checksum [tcp_tx] fills in passes the test of
    [tcp_rx], and is the one of RFC 793 only between hosts whose addresses agree
    in one half. *)

From S2P Require Import Prelude Endian Cksum Queue Net IpFragment Ip IpFacts TcpTypes TcpSegment TcpLogic TcpSample.

Section Wire.
Context {H : Host}.

Record tcp_hdr_wf (h : tcp_hdr) : Prop := {
  tw_src : is_u16 (th_src h); tw_dst : is_u16 (th_dst h); tw_seq : is_u32 (th_seq h); tw_ack : is_u32 (th_ack h);
  tw_off : is_u8 (th_off h); tw_flg : is_u8 (th_flg h); tw_win : is_u16 (th_win h); tw_sum : is_u16 (th_sum h);
  tw_urg : is_u16 (th_urg h)
}.

Lemma tcp_hdr_store_octets h : tcp_hdr_wf h ->
  zlen (tcp_hdr_store h) = 20 /\ is_bytes (tcp_hdr_store h) /\
  forall rest, tcp_hdr_load (tcp_hdr_store h ++ rest) = Some h.
Proof.
  intros [Hs Hd Hq Ha Ho Hf Hw Hc Hu]. unfold tcp_hdr_store.
  destruct (store16_load16 _ Hs) as (s0 & s1 & -> & Es & ? & ?).
  destruct (store16_load16 _ Hd) as (d0 & d1 & -> & Ed & ? & ?).
  destruct (store32_load32 _ Hq) as (q0 & q1 & q2 & q3 & -> & Eq & ? & ? & ? & ?).
  destruct (store32_load32 _ Ha) as (a0 & a1 & a2 & a3 & -> & Ea & ? & ? & ? & ?).
  destruct (store16_load16 _ Hw) as (w0 & w1 & -> & Ew & ? & ?).
  destruct (store16_load16 _ Hc) as (c0 & c1 & -> & Ec & ? & ?).
  destruct (store16_load16 _ Hu) as (u0 & u1 & -> & Eu & ? & ?).
  split_and!; [done| |].
  - unfold is_bytes. cbn [app]. rewrite !Forall_cons. split_and!; try done.
  - intros rest. cbn [app tcp_hdr_load]. rewrite Es, Ed, Eq, Ea, Ew, Ec, Eu. by destruct h.
Qed.

(** ** The pseudo header *)

Definition hi16 (a : Z) : Z := Z.land (Z.shiftr a 16) 65535.
Definition lo16 (a : Z) : Z := Z.land a 65535.

Lemma hi16_range a : is_u16 (hi16 a).
Proof. unfold hi16. change 65535 with (2 ^ 16 - 1). rewrite land_ones_mod by lia. unfold is_u16.
  pose proof (Z.mod_pos_bound (Z.shiftr a 16) (2 ^ 16) ltac:(lia)). lia. Qed.
Lemma lo16_range a : is_u16 (lo16 a).
Proof. unfold lo16. change 65535 with (2 ^ 16 - 1). rewrite land_ones_mod by lia. unfold is_u16.
  pose proof (Z.mod_pos_bound a (2 ^ 16) ltac:(lia)). lia. Qed.

(** What [tcp_checksum] adds before the segment. *)
Definition pseudo_sum (self peer len : Z) : Z :=
  hi16 self + lo16 self + hi16 peer + lo16 self + hton16 IP_PROTOCOL_TCP + hton16 (u16 len).

Lemma hton16_tcp : 0 < hton16 IP_PROTOCOL_TCP < 65536.
Proof. rewrite hton16_cases. by destruct host_endian. Qed.

Lemma pseudo_sum_range self peer len : 0 < pseudo_sum self peer len <= 393216.
Proof.
  unfold pseudo_sum. pose proof (hi16_range self). pose proof (lo16_range self). pose proof (hi16_range peer).
  pose proof (hton16_range (u16 len) (u16_range len)) as Hl. pose proof hton16_tcp.
  unfold is_u16 in *. lia.
Qed.

Lemma tcp_checksum_sum self peer segment len : 0 <= len <= 65535 -> zlen segment = len ->
  tcp_checksum self peer segment len = (cksum segment (pseudo_sum self peer len), []).
Proof.
  intros Hl Hs. unfold tcp_checksum. fold (hi16 self) (lo16 self) (hi16 peer).
  pose proof (pseudo_sum_range self peer len) as Hr. unfold pseudo_sum in Hr.
  pose proof (hi16_range self). pose proof (lo16_range self). pose proof (hi16_range peer).
  pose proof (hton16_range (u16 len) (u16_range len)) as Hh.
  pose proof hton16_tcp. unfold is_u16 in *. rewrite Z.add_0_l.
  rewrite (u32_small (hi16 self)), (u32_small (hi16 self + lo16 self)), (u32_small (_ + hi16 peer)),
    (u32_small (_ + lo16 self)), (u32_small (_ + hton16 IP_PROTOCOL_TCP)), (u32_small (_ + hton16 (u16 len)))
    by (unfold is_u32; lia).
  unfold cksum16, pseudo_sum. rewrite !(u16_small len) in * by (unfold is_u16; lia).
  rewrite (proj2 (Z.ltb_ge _ _)) by lia. rewrite take_ge by (unfold zlen in *; lia).
  rewrite u32_small by (unfold is_u32; lia). done.
Qed.

(** ** The checksum of a sent segment *)

(** The octets before and after the checksum field. *)
Definition seg_pre (h : tcp_hdr) : bytes :=
  store16 (th_src h) ++ store16 (th_dst h) ++ store32 (th_seq h) ++ store32 (th_ack h)
  ++ [th_off h; th_flg h] ++ store16 (th_win h).

Lemma tcp_hdr_store_split h data :
  tcp_hdr_store h ++ data = seg_pre h ++ store16 (th_sum h) ++ (store16 (th_urg h) ++ data).
Proof. unfold tcp_hdr_store, seg_pre. by rewrite <- !app_assoc. Qed.

Lemma seg_pre_length h : length (seg_pre h) = 16%nat.
Proof. unfold seg_pre. by rewrite !length_app, !store16_length, !store32_length. Qed.

(** Filling in the checksum makes the sum zero. *)
Lemma tcp_checksum_fill (self peer : Z) (hdr : tcp_hdr) (data : bytes) :
  host_endian = LittleEndian \/ Nat.Even (length data) ->
  tcp_hdr_wf hdr -> th_sum hdr = 0 -> is_bytes data -> zlen data <= 65515 ->
  let len := 20 + zlen data in
  let sum := (tcp_checksum self peer (tcp_hdr_store hdr ++ data) len).1 in
  tcp_checksum self peer (tcp_hdr_store (th_set_sum sum hdr) ++ data) len = (0, []).
Proof.
  intros Hodd Hwf Hsum Hdata Hlen len sum. pose proof (zlen_nonneg data).
  destruct (tcp_hdr_store_octets hdr Hwf) as (Hl & Hb & _).
  assert (sum = cksum (seg_pre hdr ++ [0; 0] ++ (store16 (th_urg hdr) ++ data)) (pseudo_sum self peer len)) as Es.
  { subst sum. rewrite tcp_checksum_sum by (rewrite ?zlen_app; lia). cbn [fst].
    by rewrite tcp_hdr_store_split, Hsum, store16_0. }
  assert (is_u16 sum) by (rewrite Es; unfold cksum; auto with net).
  destruct (tcp_hdr_store_octets (th_set_sum sum hdr)) as (Hl' & _); [destruct Hwf; by split|].
  rewrite tcp_checksum_sum by (rewrite ?zlen_app; lia). f_equal. rewrite tcp_hdr_store_split.
  change (seg_pre (th_set_sum sum hdr)) with (seg_pre hdr). cbn [th_sum th_urg th_set_sum]. rewrite Es.
  assert (is_bytes (seg_pre hdr) /\ is_bytes (store16 (th_urg hdr) ++ data)) as [Hb1 Hb2].
  { rewrite <- (app_nil_r (tcp_hdr_store hdr)), tcp_hdr_store_split, !is_bytes_app in Hb.
    rewrite is_bytes_app. tauto. }
  pose proof (pseudo_sum_range self peer len). apply cksum_fill; try done; try lia.
  - destruct Hodd as [?|[k Hk]]; [by left|right]. exists (S k). rewrite length_app, store16_length. lia.
  - exists 8%nat. by rewrite seg_pre_length.
  - unfold zlen in *. rewrite seg_pre_length, length_app, store16_length. lia.
Qed.

(** A receiver that runs this code accepts the checksum of every segment this
    code sends: for the header with a zero checksum field and any data, filling
    in the checksum that [tcp_tx] computes makes the test of [tcp_rx] succeed. *)
Theorem tcp_checksum_accepted (self peer : Z) (hdr : tcp_hdr) (data : bytes) :
  host_endian = LittleEndian \/ Nat.Even (length data) ->
  tcp_hdr_wf hdr -> th_sum hdr = 0 -> is_bytes data -> zlen data <= 65515 ->
  let len := 20 + zlen data in
  let sum := (tcp_checksum self peer (tcp_hdr_store hdr ++ data) len).1 in
  tcp_checksum self peer (tcp_hdr_store (th_set_sum sum hdr) ++ data) len = (0, []).
Proof. exact (tcp_checksum_fill self peer hdr data). Qed.

(** ** The checksum of RFC 793 *)

(** The pseudo header: addresses, protocol and segment length. *)
Definition pseudo_header (self peer len : Z) : bytes :=
  store32 self ++ store32 peer ++ [0; IP_PROTOCOL_TCP] ++ store16 (hton16 len).

Lemma wsum_store32 a l : is_u32 a -> wsum (store32 a ++ l) = hi16 a + lo16 a + wsum l.
Proof.
  intros Ha. unfold hi16, lo16, store32. change 65535 with (2 ^ 16 - 1). rewrite !land_ones_mod, Z.shiftr_div_pow2 by lia.
  change (2 ^ 16) with 65536.
  destruct host_endian eqn:E; cbn [app]; rewrite !wsum_word; unfold load16; rewrite E; wrap_lia.
Qed.

Lemma is_bytes_store32 a : is_u32 a -> is_bytes (store32 a).
Proof.
  intros Ha. destruct (store32_load32 a Ha) as (b0 & b1 & b2 & b3 & -> & _ & ?).
  unfold is_bytes. rewrite !Forall_cons. intuition.
Qed.

Lemma oc_eq a b : 0 < a -> 0 < b -> oc a = oc b <-> (a - b) mod 65535 = 0.
Proof.
  intros Ha Hb. unfold oc. rewrite !(proj2 (Z.eqb_neq _ 0)) by lia.
  split; intros; Z.div_mod_to_equations; lia.
Qed.

Lemma wsum_pseudo self peer len l : is_u32 self -> is_u32 peer -> is_u16 len ->
  wsum (pseudo_header self peer len ++ l)
  = hi16 self + lo16 self + hi16 peer + lo16 peer + hton16 IP_PROTOCOL_TCP + hton16 len + wsum l.
Proof.
  intros Hs Hp Hl. unfold pseudo_header. rewrite <- !app_assoc, !wsum_store32 by done. cbn [app].
  rewrite wsum_word, wsum_store16 by (by apply hton16_range).
  assert (load16 0 IP_PROTOCOL_TCP = hton16 IP_PROTOCOL_TCP) as ->; [|lia].
  rewrite hton16_cases. unfold load16. by destruct host_endian.
Qed.

(** C23: [tcp_checksum] is the checksum of RFC 793, over the pseudo header and the
    segment, exactly when the low halves of the two addresses (in memory order
    on a little-endian host: their first two octets) are equal, or are 0 and
    0xffff: the code adds the low half of its own address twice and never that
    of the peer. *)
Theorem tcp_checksum_rfc793 (self peer : Z) (segment : bytes) :
  host_endian = LittleEndian \/ Nat.Even (length segment) ->
  is_u32 self -> is_u32 peer -> is_bytes segment -> zlen segment <= 65000 ->
  tcp_checksum self peer segment (zlen segment)
    = (rfc1071 (pseudo_header self peer (zlen segment) ++ segment) 0, []) <->
  (lo16 self - lo16 peer) mod 65535 = 0.
Proof.
  intros Hodd Hs Hp Hb Hl. pose proof (zlen_nonneg segment).
  rewrite tcp_checksum_sum by lia. set (len := zlen segment) in *.
  pose proof (pseudo_sum_range self peer len) as Hr. pose proof (wsum_bounds segment Hb).
  rewrite cksum_oc; [|done|done|lia|apply wsum_no_overflow; (done || lia)].
  assert (is_bytes (pseudo_header self peer len)) as Hbp.
  { unfold pseudo_header. rewrite !is_bytes_app. split_and!; auto using is_bytes_store16, is_bytes_store32.
    repeat constructor; unfold is_u8, IP_PROTOCOL_TCP; lia. }
  unfold rfc1071. change 0 with (oc 0) at 1. rewrite oc_sum_wsum by (rewrite ?is_bytes_app; (done || lia)).
  rewrite Z.add_0_l, wsum_pseudo by (done || unfold is_u16; lia).
  unfold pseudo_sum in *. rewrite (u16_small len) in * by (unfold is_u16; lia).
  pose proof (lo16_range self). pose proof (lo16_range peer). pose proof (hi16_range self). pose proof (hi16_range peer).
  set (base := hi16 self + lo16 self + hi16 peer) in *.
  set (a := base + lo16 self + _ + _ + _). set (b := base + lo16 peer + _ + _ + _).
  assert (0 < a /\ 0 < b) as [Ha Hb'].
  { subst a b base. pose proof (hton16_range len ltac:(unfold is_u16; lia)). pose proof hton16_tcp.
    unfold is_u16 in *. lia. }
  replace (lo16 self - lo16 peer) with (a - b) by (subst a b; lia). rewrite <- oc_eq by done.
  pose proof (oc_range a). pose proof (oc_range b). split; [intros [=]; lia|intros ->; done].
Qed.

End Wire.

(** ** Examples *)

Lemma sample_hdr_wf flg : is_u8 flg -> tcp_hdr_wf (sample_hdr 2001 1000 flg).
Proof. intros Hf. split; cbn; try (exact Hf); vm_compute; intuition discriminate. Qed.

(** From 10.0.0.1 to 10.0.0.2. *)
Lemma tcp_checksum_accepted_witness :
  let sum := (tcp_checksum (H := LittleEndian) 16777226 33554442 (sample_segment (sample_hdr 2001 1000 16)) 25).1 in
  tcp_checksum (H := LittleEndian) 16777226 33554442
    (sample_segment (th_set_sum sum (sample_hdr 2001 1000 16))) 25 = (0, []).
Proof.
  apply (tcp_checksum_accepted (H := LittleEndian) 16777226 33554442 (sample_hdr 2001 1000 16) sample_text).
  - left. reflexivity.
  - apply sample_hdr_wf. vm_compute. intuition discriminate.
  - reflexivity.
  - repeat constructor; discriminate.
  - vm_compute. discriminate.
Defined.

(** The checksum is right between 10.0.0.1 and 10.0.0.2, and wrong between 10.0.0.1
    and 192.168.0.2. *)
Lemma tcp_checksum_rfc793_witness :
  tcp_checksum (H := LittleEndian) 16777226 33554442 (sample_segment (sample_hdr 2001 1000 16)) 25
  = (rfc1071 (H := LittleEndian) (pseudo_header (H := LittleEndian) 16777226 33554442 25 ++ sample_segment (sample_hdr 2001 1000 16)) 0, []) /\
  tcp_checksum (H := LittleEndian) 16777226 33597632 (sample_segment (sample_hdr 2001 1000 16)) 25
  <> (rfc1071 (H := LittleEndian) (pseudo_header (H := LittleEndian) 16777226 33597632 25 ++ sample_segment (sample_hdr 2001 1000 16)) 0, []).
Proof.
  assert (is_bytes (sample_segment (sample_hdr 2001 1000 16))) as Hb by (vm_compute; repeat constructor; discriminate).
  split.
  - apply (tcp_checksum_rfc793 (H := LittleEndian) 16777226 33554442 (sample_segment (sample_hdr 2001 1000 16)));
      first [exact Hb | left; reflexivity | reflexivity | vm_compute; intuition discriminate].
  - intros E. apply (tcp_checksum_rfc793 (H := LittleEndian) 16777226 33597632 (sample_segment (sample_hdr 2001 1000 16))) in E;
      first [exact Hb | left; reflexivity | vm_compute in E; discriminate | vm_compute; intuition discriminate].
Defined.
