(* ===== verification/TcpSend.v ===== *)
(** * TCP: sending

    [tcp_api_send] splits the data of the application into segments in the
    transmission queue and never has more than its send buffer in flight. *)

From S2P Require Import Prelude Logic Endian Cksum Queue Net IpFragment Ip IpFacts TcpTypes TcpSegment TcpTimer TcpApi TcpLogic TcpSample.

Section Send.
Context {H : Host} {W : Type} `{SYS : System W}.

(** The octets sent and not acknowledged. *)
Definition in_flight (c : tcp_cb) : Z := u32 (snd_nxt (cb_snd c) - snd_una (cb_snd c)).

Definition bounded (i : nat) (s : tcp W) : Prop := in_flight (cb_table s !!! i) <= TCP_SND_BUF_SIZE.

(** The send variables of control block [i] are as before. *)
Definition same_snd (i : nat) (s s' : tcp W) : Prop := cb_snd (cb_table s' !!! i) = cb_snd (cb_table s !!! i).

#[export] Instance same_snd_frame i : Frame (same_snd i).
Proof. split; [|done..]. split; [done|]. intros s1 s2 s3. unfold same_snd. congruence. Qed.

Lemma same_snd_cb_mod i j f : (forall c, cb_snd (f c) = cb_snd c) -> respects (same_snd i) (cb_mod j f).
Proof. intros Hf s. by apply (keeps_cb_mod cb_snd). Qed.

Hint Extern 4 (respects (same_snd _) (cb_mod _ _)) => apply same_snd_cb_mod; intros; reflexivity : net.

Lemma tcp_tx_same_snd i seq ack flg now buf len : respects (same_snd i) (tcp_tx i seq ack flg now buf len).
Proof. apply tcp_tx_respects; [apply _|]. intros f. by apply same_snd_cb_mod. Qed.

Lemma send_wnd_bounded c mss : in_flight c <= TCP_SND_BUF_SIZE -> 0 <= mss ->
  let size := if send_wnd c <? mss then send_wnd c else mss in
  0 <= size /\ in_flight c + size <= TCP_SND_BUF_SIZE.
Proof.
  intros Hc Hm size. assert (send_wnd c = TCP_SND_BUF_SIZE - in_flight c) as Hw.
  { unfold send_wnd, in_flight in *. pose proof (u32_range (snd_nxt (cb_snd c) - snd_una (cb_snd c))).
    unfold is_u32, TCP_SND_BUF_SIZE in *. apply u16_small. unfold is_u16. lia. }
  subst size. unfold in_flight in *. pose proof (u32_range (snd_nxt (cb_snd c) - snd_una (cb_snd c))) as Hr.
  unfold is_u32 in Hr. case_match; lia.
Qed.

Lemma send_mss_nonneg mtu len : 0 <= len -> 0 <= send_mss mtu len.
Proof.
  intros. unfold send_mss, u64. case_match; [done|]. pose proof (Z.mod_pos_bound
    (mtu - IP_HDR_SIZE_MAX - TCP_HDR_SIZE) 18446744073709551616 ltac:(lia)). lia.
Qed.

Lemma send_mss_le mtu len : send_mss mtu len <= len.
Proof. unfold send_mss. by destruct (Z.ltb_spec len (u64 (mtu - IP_HDR_SIZE_MAX - TCP_HDR_SIZE))). Qed.

(** The control block is known, with a bounded number of octets in flight. *)
Definition flight_ok (i : nat) (s : tcp W) : Prop := exists c, holds i c s /\ in_flight c <= TCP_SND_BUF_SIZE.

Lemma flight_ok_bounded i s : flight_ok i s -> bounded i s.
Proof.
  intros (c & [_ Hc] & Hb). unfold bounded, in_flight in *. by destruct (no_txq_fields _ _ Hc) as (_ & -> & _).
Qed.

Lemma send_one_bounded i buf snt len (s : tcp W) : 0 <= len -> flight_ok i s ->
  post (tcp_send_one i buf snt len) s (fun r s' => flight_ok i s' /\
    match r with inr size => 0 <= size <= len | inl _ => True end).
Proof.
  intros Hlen (c & Hc & Hb). unfold tcp_send_one.
  eapply post_get; [exact Hc|intros c' E]. destruct (no_txq_fields _ _ E) as (_ & Es & _).
  assert (in_flight c' <= TCP_SND_BUF_SIZE) as Hb' by (unfold in_flight in *; by rewrite Es).
  case_match; [exec; split; [by exists c|done]|]. exec1.
  case_match; [|exec; split; [by exists c|done]].
  case_match; [exec; split; [by exists c|done]|].
  destruct (cb_iface c') as [iface|]; [|exec; split; [by exists c|done]]. cbv zeta.
  pose proof (send_mss_le (sys_mtu iface) len). set (mss := send_mss _ len) in *.
  pose proof (send_wnd_bounded c' mss Hb' (send_mss_nonneg _ _ Hlen)) as [Hpos Hsize]. cbv zeta in *.
  assert ((if send_wnd c' <? mss then send_wnd c' else mss) <= len) as Hle.
  { destruct (Z.ltb_spec (send_wnd c') mss); lia. }
  set (size := if send_wnd c' <? mss then send_wnd c' else mss) in *.
  case_match; [exec; split; [by exists c|done]|]. exec1.
  case_match; [exec; split; [by exists c|done]|]. exec.
  split; [|lia]. eexists. split; [eassumption|]. unfold in_flight in *. cbn. rewrite <- Es.
  unfold TCP_SND_BUF_SIZE in *. wrap_lia.
Qed.

(** C26: [tcp_api_send] never puts more than [TCP_SND_BUF_SIZE] octets in flight:
    if the unacknowledged octets of the connection are within the send buffer
    before a call, or before a blocked call goes on, they are after it, whatever
    [ip_tx], [malloc] and the clock do. *)
Theorem tcp_send_bounded fuel i buf snt len (s : tcp W) :
  (i < length (cb_table s))%nat -> 0 <= len ->
  bounded i s -> bounded i (rst (tcp_send_next fuel i buf snt len s)).
Proof.
  intros Hi Hlen Hb. assert (flight_ok i s) as Hok by (by exists (cb_table s !!! i)). clear Hi Hb.
  apply flight_ok_bounded. revert snt len s Hlen Hok.
  induction fuel as [|fuel IH]; intros snt len s Hlen Hok; cbn [tcp_send_next]; [done|].
  rewrite rst_bind. destruct (send_one_bounded i buf snt len s Hlen Hok) as [Hok1 Hsize].
  destruct (rval (tcp_send_one i buf snt len s)) as [o|size]; [done|]. case_match; [apply IH; (done || lia)|].
  destruct Hok1 as (c & [Hi Hc] & Hb). by exists c.
Qed.

(** ** Segments of the data *)

(** Nothing fails: memory, the clock and the Internet layer. *)
Record reliable : Prop := {
  rel_malloc : forall w, (sys_malloc w).1 = true;
  rel_time : forall w, is_Some (sys_gettimeofday w).1;
  rel_ip_tx : forall n b l d w, rval (sys_ip_tx n b l d w) <> -1
}.

(** The control block [i] is exactly [c]. *)
Definition exactly (i : nat) (c : tcp_cb) (s : tcp W) : Prop :=
  (i < length (cb_table s))%nat /\ cb_table s !!! i = c.

Lemma exactly_sys {A B} i c (f : W -> A * W) (k : A -> M (tcp W) B) s Q : exactly i c s ->
  (forall s', exactly i c s' -> post (k (f (tcp_world s)).1) s' Q) -> post (mbind' (sys f) k) s Q.
Proof.
  intros Hc Hk. apply post_bind. unfold sys, post. destruct (f (tcp_world s)) as [a w]. cbn. by apply Hk.
Qed.

Lemma exactly_sysm {A B} i c (m : M W A) (k : A -> M (tcp W) B) s Q : exactly i c s ->
  (forall s', exactly i c s' -> post (k (rval (m (tcp_world s)))) s' Q) -> post (mbind' (sysm m) k) s Q.
Proof.
  intros Hc Hk. apply post_bind. unfold sysm, zoom, post. destruct (m (tcp_world s)) as [[a w] u]. cbn. by apply Hk.
Qed.

Lemma exactly_get {B} i c (k : tcp_cb -> M (tcp W) B) s Q : exactly i c s -> post (k c) s Q ->
  post (mbind' (cb_get i) k) s Q.
Proof. intros [_ Hc] Hk. apply post_bind. unfold post. cbn. by rewrite Hc. Qed.

Lemma exactly_mod {B} i c f (k : unit -> M (tcp W) B) s Q : exactly i c s ->
  (forall s', exactly i (f c) s' -> post (k tt) s' Q) -> post (mbind' (cb_mod i f) k) s Q.
Proof.
  intros [Hi Hc] Hk. apply post_bind. apply Hk. split; cbn; [by rewrite length_insert|].
  by rewrite list_lookup_total_insert_eq, Hc.
Qed.

Lemma post_tell {B} u (k : unit -> M (tcp W) B) s Q : post (k tt) s Q -> post (mbind' (tell u) k) s Q.
Proof. intros Hk. by apply post_bind. Qed.

Lemma post_when {B} (b : bool) (m : M (tcp W) unit) (k : unit -> M (tcp W) B) s Q :
  (if b then post (mbind' m k) s Q else post (k tt) s Q) -> post (mbind' (when b m) k) s Q.
Proof. destruct b; [done|]. intros Hk. by apply post_bind. Qed.

(** A queued segment: its sequence number and data. *)
Definition queued (e : tcp_txq_entry) : Z * bytes := (ntoh32 (th_seq (te_hdr e)), te_data e).
Definition queue_of (c : tcp_cb) : list (Z * bytes) := map queued (txq_entries (cb_txq c)).

Lemma txq_map_last_snoc f l e n : txq_map_last f (TxqHead (l ++ [e]) n) = TxqHead (l ++ [f e]) n.
Proof. unfold txq_map_last. cbn. by rewrite last_snoc, removelast_last. Qed.

(** Data is queued behind what is there, whether or not it is sent at once. *)
Lemma tcp_tx_queues (Hrel : reliable) i c seq ack flg now buf len s : exactly i c s -> is_u32 seq ->
  0 < len -> is_Some (cb_iface c) ->
  post (tcp_tx i seq ack flg now buf len) s (fun r s' => r <> -1 /\ exists c',
    exactly i c' s' /\ no_txq c' = no_txq c /\ queue_of c' = queue_of c ++ [(seq, take (Z.to_nat len) buf)]).
Proof.
  intros Hc Hseq Hlen [iface Hif]. unfold tcp_tx. eapply exactly_sys; [exact Hc|intros s1 Hc1].
  rewrite (rel_malloc Hrel). cbn [negb]. eapply exactly_get; [exact Hc1|]. apply post_tell.
  rewrite (proj2 (Z.ltb_lt 0 len)) by done. cbn [orb]. unfold tcp_tx_queue. apply post_assoc.
  eapply exactly_get; [exact Hc1|]. unfold tcp_txq_add. do 2 apply post_assoc.
  eapply exactly_sys; [exact Hc1|intros s2 Hc2]. rewrite (rel_malloc Hrel). cbn [negb]. apply post_assoc.
  eapply exactly_mod; [exact Hc2|intros s3 Hc3]. set (hdr := TcpHdr _ _ _ _ _ _ _ _ _) in *.
  set (c3 := cb_set_txq _ c) in *. apply post_bind, post_ret. cbn [negb]. apply post_assoc.
  eapply exactly_get; [exact Hc3|].
  assert (queue_of c3 = queue_of c ++ [(seq, take (Z.to_nat len) buf)]) as Hq.
  { unfold queue_of, c3. cbn. rewrite map_app. cbn. unfold queued at 2. cbn. by rewrite ntoh32_hton32. }
  case_match; [apply post_bind, post_ret, post_ret; split; [done|]; by exists c3|].
  apply post_bind, post_ret. unfold tcp_tx_send. eapply exactly_get; [exact Hc3|].
  change (cb_iface c3) with (cb_iface c). rewrite Hif. destruct (tcp_checksum _ _ _ _) as [sum u].
  apply post_tell, post_when. eapply exactly_mod; [exact Hc3|intros s4 Hc4].
  eapply exactly_sysm; [exact Hc4|intros s5 Hc5].
  rewrite (proj2 (Z.eqb_neq _ (-1))) by apply (rel_ip_tx Hrel). apply post_when.
  eapply exactly_mod; [exact Hc5|intros s6 Hc6]. apply post_ret. split; [lia|]. eexists. split; [exact Hc6|].
  split; [done|]. rewrite <- Hq. unfold queue_of. cbn.
  unfold c3. cbn. rewrite !txq_map_last_snoc. cbn. rewrite !map_app. done.
Qed.

Section Segments.
Context (Hrel : reliable) (i : nat) (iface : nifid) (buf : bytes) (una : Z).

(** The connection can send: [nxt] is the next sequence number and [q] its queue. *)
Record sending (nxt : Z) (q : list (Z * bytes)) (s : tcp W) : Prop := {
  sg_cb : exactly i (cb_table s !!! i) s;
  sg_state : sendable (cb_state (cb_table s !!! i)) = true;
  sg_iface : cb_iface (cb_table s !!! i) = Some iface;
  sg_nxt : snd_nxt (cb_snd (cb_table s !!! i)) = u32 nxt;
  sg_una : snd_una (cb_snd (cb_table s !!! i)) = una;
  sg_queue : queue_of (cb_table s !!! i) = q
}.

Context (mss : Z) (Hmtu : sys_mtu iface = mss + 80) (Hmss : 0 < mss <= 65535).

(** One turn of the loop sends one segment. *)
Lemma send_one_segment nxt q snt len s : sending nxt q s -> 0 < len ->
  u32 (nxt - una) + len <= TCP_SND_BUF_SIZE ->
  let size := Z.min mss len in
  post (tcp_send_one i buf snt len) s (fun r s' =>
    r = inr size /\ sending (nxt + size) (q ++ [(u32 nxt, take (Z.to_nat size) (drop (Z.to_nat snt) buf))]) s').
Proof.
  intros [Hc Hst Hif Hnxt Hu Hq] Hlen Hroom size. set (c := cb_table s !!! i) in *.
  assert (send_mss (sys_mtu iface) len = size) as Emss.
  { unfold send_mss, IP_HDR_SIZE_MAX, TCP_HDR_SIZE. rewrite Hmtu, u64_small by lia. subst size.
    case_match; lia. }
  assert (in_flight c = u32 (nxt - una)) as Efl by (unfold in_flight; by rewrite Hnxt, Hu, u32_sub_l).
  assert (send_wnd c = TCP_SND_BUF_SIZE - in_flight c) as Ewnd.
  { unfold send_wnd. fold (in_flight c). rewrite Efl. pose proof (u32_range (nxt - una)).
    unfold is_u32, TCP_SND_BUF_SIZE in *. apply u16_small. unfold is_u16. lia. }
  unfold tcp_send_one. eapply exactly_get; [exact Hc|]. rewrite Hst. cbn [negb].
  eapply exactly_sys; [exact Hc|intros s1 Hc1]. destruct (rel_time Hrel (tcp_world s)) as [now ->].
  rewrite (proj2 (Z.ltb_lt 0 len)) by done. cbn [negb]. rewrite Hif, Emss. cbv zeta.
  assert (send_wnd c <? size = false) as -> by lia. cbn [andb].
  apply post_bind. eapply post_mono; [apply tcp_tx_queues; [done|exact Hc1| |lia|by rewrite Hif]|].
  { rewrite Hnxt. apply u32_range. }
  intros r s2 [Hr (c2 & Hc2 & E2 & Q2)]. rewrite (proj2 (Z.eqb_neq r (-1))) by done.
  eapply exactly_mod; [exact Hc2|intros s3 Hc3]. eapply exactly_mod; [exact Hc3|intros s4 Hc4].
  apply post_ret. split; [done|]. destruct (no_txq_fields _ _ E2) as (F1 & F2 & _ & _ & _ & _ & F7 & _).
  destruct Hc4 as [Hi4 E4]. split; [done|..]; rewrite E4; cbn; rewrite ?F1, ?F2, ?F7; try done.
  - by rewrite Hnxt, u32_add_l.
  - change (queue_of c2 = q ++ [(u32 nxt, take (Z.to_nat size) (drop (Z.to_nat snt) buf))]).
    by rewrite Q2, Hq, Hnxt.
Qed.

(** The segment for the piece [x] of the data. *)
Definition segment_of (nxt : Z) (x : piece) : Z * bytes :=
  (u32 (nxt + x.1), take (Z.to_nat x.2) (drop (Z.to_nat x.1) buf)).

Lemma send_next_segments nxt q total : 0 <= total -> u32 (nxt - una) + total <= TCP_SND_BUF_SIZE ->
  forall fuel j s, 0 <= j -> mss * j < total -> total - mss * j <= Z.of_nat fuel ->
  sending (nxt + mss * j) (q ++ map (segment_of nxt) (map (fun j => (mss * j, Z.min mss (total - mss * j))) (seqZ 0 j))) s ->
  post (tcp_send_next fuel i buf (mss * j) (total - mss * j)) s (fun r s' =>
    r = SendReturn total /\ tcp_mutex s' = false /\ sending (nxt + total) (q ++ map (segment_of nxt) (pieces mss total)) s').
Proof.
  intros Htot Hroom. induction fuel as [|fuel IH]; intros j s Hj Hlt Hf Hs; [lia|]. cbn [tcp_send_next].
  apply post_bind. eapply post_mono; [apply send_one_segment; [exact Hs|lia|]|].
  { assert (u32 (nxt + mss * j - una) <= u32 (nxt - una) + mss * j); [|lia].
    unfold u32. Z.div_mod_to_equations. nia. }
  intros r s1 [-> Hs1]. set (size := Z.min mss (total - mss * j)) in *.
  replace (nxt + mss * j + size) with (nxt + Z.min (mss * (j + 1)) total) in Hs1 by lia.
  rewrite <- app_assoc in Hs1.
  replace (map (segment_of nxt) _ ++ [(_, _)]) with
    (map (segment_of nxt) (map (fun j => (mss * j, Z.min mss (total - mss * j))) (seqZ 0 (j + 1)))) in Hs1.
  2: { rewrite seqZ_app by lia. rewrite !map_app. cbn. by rewrite Z.add_0_l. }
  destruct (Z.ltb_spec 0 (total - mss * j - size)) as [Hmore|Hdone].
  - replace (mss * j + size) with (mss * (j + 1)) by lia.
    replace (total - mss * j - size) with (total - mss * (j + 1)) by lia.
    apply IH; [lia|lia|lia|]. by rewrite Z.min_l in Hs1 by lia.
  - apply post_bind. unfold post at 1. cbn. apply post_ret. rewrite Z.min_r in Hs1 by lia.
    split; [f_equal; lia|]. split; [done|]. unfold pieces.
    assert ((total + mss - 1) / mss = j + 1) as ->.
    { symmetry. apply Z.div_unique with (total - mss * j - 1). left. lia. lia. }
    destruct Hs1 as [A1 A2 A3 A4 A5 A6]. by split.
Qed.

End Segments.

(** C11: when memory, clock and Internet layer do not fail and the data fits the
    send buffer, [tcp_api_send] returns the length of the data with the mutex
    released.  It has queued the data behind what was queued, cut into
    consecutive segments of at most MTU - 80 octets with consecutive sequence
    numbers, and advanced the next sequence number by the length. *)
Theorem tcp_send_segments (Hrel : reliable) soc buf len (s : tcp W) iface mss :
  let c := cb_table s !!! Z.to_nat soc in
  let nxt := snd_nxt (cb_snd c) in
  0 <= soc < Z.of_nat TCP_CB_TABLE_SIZE -> length (cb_table s) = TCP_CB_TABLE_SIZE ->
  cb_used c = true -> sendable (cb_state c) = true -> cb_iface c = Some iface ->
  sys_mtu iface = mss + 80 -> 0 < mss <= 65535 -> is_u32 nxt ->
  0 <= len <= zlen buf -> in_flight c + len <= TCP_SND_BUF_SIZE ->
  post (tcp_api_send soc buf len) s (fun r s' =>
    let c' := cb_table s' !!! Z.to_nat soc in
    r = SendReturn len /\ tcp_mutex s' = false /\ snd_nxt (cb_snd c') = u32 (nxt + len) /\
    queue_of c' = queue_of c ++ map (segment_of buf nxt) (pieces mss len)).
Proof.
  intros c nxt Hsoc Htab Hused Hst Hif Hmtu Hmss Hnxt Hlen Hroom. set (i := Z.to_nat soc) in *.
  assert (sending i iface (snd_una (cb_snd c)) nxt (queue_of c) (rst (lock s))) as Hs.
  { split; try done.
    - split; [|done]. change (cb_table (rst (lock s))) with (cb_table s). rewrite Htab. subst i.
      unfold TCP_CB_TABLE_SIZE in *. lia.
    - by rewrite u32_small. }
  unfold tcp_api_send. fold i. cbv zeta. assert (TCP_SOCKET_INVALID soc = false) as -> by (unfold TCP_SOCKET_INVALID; lia).
  apply post_bind. unfold post at 1. set (s1 := rst (lock s)) in *. apply post_bind. unfold post at 1.
  cbn [cb_get gets rval rst fst snd]. change (cb_table s1 !!! i) with c. rewrite Hused. cbn [negb].
  destruct (decide (len = 0)) as [->|Hne].
  - cbn [tcp_send_next Z.to_nat]. apply post_bind. unfold tcp_send_one.
    eapply exactly_get; [apply Hs|]. change (cb_table s1 !!! i) with c. rewrite Hst. cbn [negb].
    eapply exactly_sys; [apply Hs|intros s2 [_ Hc2]]. destruct (rel_time Hrel (tcp_world s1)) as [now ->].
    cbn [Z.ltb Z.compare negb]. apply post_bind. unfold post at 1. do 2 apply post_ret. cbn [rst unlock modify fst snd].
    split_and!; [done|done| |]; cbn; rewrite Hc2; change (cb_table s1 !!! i) with c.
    + by rewrite Z.add_0_r, u32_small.
    + unfold pieces. rewrite Z.add_0_l, Z.div_small by lia. cbn. by rewrite app_nil_r.
  - eapply post_mono.
    + pose proof (send_next_segments Hrel i iface buf _ mss Hmtu Hmss nxt (queue_of c) len ltac:(lia)
        Hroom (S (Z.to_nat len)) 0 s1) as Hn.
      rewrite Z.mul_0_r, Z.sub_0_r in Hn. apply Hn; try lia. cbn. by rewrite app_nil_r, Z.add_0_r.
    + intros r s' (-> & Hm & Hs'). destruct Hs' as [_ _ _ E1 _ E2]. done.
Qed.

End Send.

(** ** Examples *)

Definition sample_sender : tcp_cb := sample_cb ESTABLISHED (Snd 1000 990 0 0 0 1000) (Rcv 2001 0 65535) [].

Lemma tcp_send_bounded_witness :
  let sys := sample_system true (Some 100) in
  bounded 0 (rst (tcp_send_next (H := LittleEndian) (SYS := sys) 3 0 sample_text 0 5 (sample_table sample_sender []))).
Proof.
  intros sys. apply (tcp_send_bounded (H := LittleEndian) (SYS := sys) 3 0 sample_text 0 5 (sample_table sample_sender [])).
  - cbn. lia.
  - lia.
  - vm_compute. discriminate.
Defined.

Lemma sample_reliable : reliable (SYS := sample_system true (Some 100)).
Proof. split; [done|by intros; eexists|]. intros n b l d w. cbn. pose proof (zlen_nonneg b). lia. Qed.

(** Five octets, one segment. *)
Lemma tcp_send_segments_witness :
  let sys := sample_system true (Some 100) in
  let s := sample_table sample_sender (replicate 127 cb0) in
  post (tcp_api_send (H := LittleEndian) (SYS := sys) 0 sample_text 5) s (fun r s' =>
    r = SendReturn 5 /\ queue_of (H := LittleEndian) (cb_table s' !!! 0%nat) = [(1000, sample_text)]).
Proof.
  intros sys s. eapply post_mono.
  - apply (tcp_send_segments (H := LittleEndian) (SYS := sys) sample_reliable 0 sample_text 5 s 0 1420).
    all: first [reflexivity | vm_compute; intuition discriminate].
  - intros r s' (-> & _ & _ & Hq). split; [reflexivity|exact Hq].
Defined.
