(* ===== verification/TcpRetransmit.v ===== *)
(** * TCP: retransmission

    What one pass of the timer does to the transmission queue of a connection, as
    a filter and a map over the queue instead of the loop over a linked list. *)

From S2P Require Import Prelude Logic Endian Cksum Queue Net IpFragment Ip TcpTypes TcpSegment TcpTimer TcpApi TcpLogic TcpSample.

(** The data octets of a queued segment, and of a list of them. *)
Definition te_dlen (e : tcp_txq_entry) : Z := te_len e - TCP_HDR_LEN (te_hdr e).
Definition data_total (q : list tcp_txq_entry) : Z := foldr (fun e n => te_dlen e + n) 0 q.

Section Retransmit.
Context {H : Host} {W : Type} `{SYS : System W}.
Context (c : tcp_cb) (iface : nifid) (now : Z).

Definition unacked (e : tcp_txq_entry) : bool := snd_una (cb_snd c) <=? ntoh32 (th_seq (te_hdr e)).

(** A segment is due if it starts inside the window of the peer, given the data
    [before] it, and has not been sent, or not within three seconds. *)
Definition due (before : Z) (e : tcp_txq_entry) : bool :=
  (before <? snd_wnd (cb_snd c)) && ((te_sec e =? 0) || (3 <? now - te_sec e)).

(** It is sent with the current acknowledgement number and its checksum. *)
Definition refreshed (e : tcp_txq_entry) : tcp_txq_entry :=
  let hdr := th_set_sum 0 (th_set_ack (hton32 (rcv_nxt (cb_rcv c))) (te_hdr e)) in
  let sum := (tcp_checksum (sys_unicast iface) (cb_peer_addr c) (tcp_hdr_store hdr ++ te_data e) (te_len e)).1 in
  TxqEntry (th_set_sum sum hdr) (te_data e) (te_len e) now.

(** Each segment with whether it is due, [before] octets preceding the first. *)
Definition marks (before : Z) (q : list tcp_txq_entry) : list (bool * tcp_txq_entry) :=
  imap (fun k e => (due (before + data_total (take k q)) e, e)) q.

Definition kept (m : bool * tcp_txq_entry) : tcp_txq_entry := if m.1 then refreshed m.2 else m.2.

Definition transmit (w : W) (e : tcp_txq_entry) : W :=
  rst (sys_ip_tx iface (tcp_hdr_store (te_hdr e) ++ te_data e) (te_len e) (cb_peer_addr c) w).

Definition sends (ms : list (bool * tcp_txq_entry)) : list tcp_txq_entry :=
  map (fun m => refreshed m.2) (List.filter fst ms).

Lemma marks_cons before e q : marks before (e :: q) = (due before e, e) :: marks (before + te_dlen e) q.
Proof.
  unfold marks. rewrite imap_cons. f_equal; [cbn; by rewrite Z.add_0_r|]. apply imap_ext. intros k x _.
  cbn [compose take data_total foldr]. by rewrite Z.add_assoc.
Qed.

Lemma txq_resend_run e w : let r := txq_resend c iface now e w in
  rval r = refreshed e /\ rst r = transmit w (refreshed e).
Proof.
  cbv zeta. unfold txq_resend, transmit, refreshed. destruct (tcp_checksum _ _ _ _) as [sum u].
  unfold mbind', tell, mret', rval, rst. cbn. by destruct (sys_ip_tx _ _ _ _ w) as [[? ?] ?].
Qed.

Definition sane (q : list tcp_txq_entry) : Prop := Forall (fun e => 0 <= te_dlen e <= 65535) q.

Lemma data_total_bound q : sane q -> 0 <= data_total q <= 65535 * zlen q.
Proof.
  unfold zlen. induction 1 as [|e q He _ IH]; [cbn; lia|]. cbn [length data_total foldr]. fold (data_total q). lia.
Qed.

Lemma txq_walk_run q : forall before snt w,
  sane q -> 0 <= before -> before + data_total q < 18446744073709551616 -> is_u16 snt ->
  let keep := List.filter unacked q in
  let r := txq_walk c iface now before snt q w in
  rval r = (map kept (marks before keep),
            u16 (snt - data_total (List.filter (fun e => negb (unacked e)) q))) /\
  rst r = foldl transmit w (sends (marks before keep)).
Proof.
  induction q as [|e q IH]; intros before snt w Hs H0 Hb Hsnt keep r.
  { subst keep r. cbn. rewrite Z.sub_0_r, u16_small by done. done. }
  apply Forall_cons in Hs as [He Hs]. cbn [data_total foldr] in Hb. fold (data_total q) in Hb.
  pose proof (data_total_bound q Hs). subst keep r. cbn [txq_walk List.filter]. fold (te_dlen e) (unacked e).
  destruct (unacked e) eqn:Eu; cbn [negb].
  - rewrite marks_cons. cbn [map foldr List.filter fst].
    rewrite (u64_small (before + te_dlen e)) by lia.
    change ((before <? _) && _) with (due before e). set (m := if due before e then _ else _).
    assert (exists w1, rval (m w) = kept (due before e, e) /\ rst (m w) = w1 /\
      foldl transmit w (sends ((due before e, e) :: marks (before + te_dlen e) (List.filter unacked q)))
      = foldl transmit w1 (sends (marks (before + te_dlen e) (List.filter unacked q)))) as (w1 & E1 & E2 & ->).
    { unfold m, kept, sends. cbn [fst snd List.filter]. destruct (due before e); [|by eexists].
      destruct (txq_resend_run e w) as [-> ->]. by eexists. }
    destruct (IH (before + te_dlen e) snt w1 Hs ltac:(lia) ltac:(lia) Hsnt) as [Hv Hw].
    unfold mbind', rval, rst in *. destruct (m w) as [[e' w'] u]. cbn in E1, E2. subst.
    destruct (txq_walk _ _ _ _ _ _ w1) as [[p w2] u2]. cbn in Hv, Hw. subst. done.
  - cbn [data_total foldr].
    destruct (IH before (u16 (snt - te_dlen e)) w Hs ltac:(lia) ltac:(lia) (u16_range _)) as [-> ->].
    split; [|done]. f_equal. unfold u16. rewrite Zminus_mod_idemp_l. f_equal. unfold data_total. lia.
Qed.

End Retransmit.

Section Pass.
Context {H : Host} {W : Type} `{SYS : System W}.

(** C13: a pass of the timer over a live connection drops from the transmission queue
    exactly the segments that start before the acknowledged sequence number, and
    keeps the others in order.  Of these, it hands to the Internet layer, in
    order, exactly those that start inside the window of the peer and were never
    sent or not within the last three seconds, each with the current
    acknowledgement number, its checksum and the new time; the counter of data in
    flight loses the data dropped. *)
Theorem tcp_timer_retransmits now i (s : tcp W) iface :
  let c := cb_table s !!! i in
  let q := txq_entries (cb_txq c) in
  let ms := marks c now 0 (List.filter (unacked c) q) in
  cb_state c <> CLOSED -> cb_state c <> TIME_WAIT -> now <= cb_timeout c -> cb_iface c = Some iface ->
  is_u16 (txq_snt (cb_txq c)) -> sane q -> zlen q <= 4294967296 ->
  post (tcp_timer_cb now i) s (fun _ s' =>
    let c' := cb_table s' !!! i in
    no_txq c' = no_txq c /\ txq_entries (cb_txq c') = map (kept c iface now) ms /\
    txq_snt (cb_txq c') = u16 (txq_snt (cb_txq c) - data_total (List.filter (fun e => negb (unacked c e)) q)) /\
    tcp_world s' = foldl (transmit c iface) (tcp_world s) (sends c iface now ms)).
Proof.
  intros c q ms Hst Htw Ht Hif Hsnt Hq Hlen.
  assert (i < length (cb_table s))%nat as Hi.
  { apply Nat.nle_gt. intros Hge. subst c. by rewrite list_lookup_total_alt, (proj2 (lookup_ge_None _ _)) in Hif by done. }
  unfold tcp_timer_cb. apply post_bind. unfold post at 1. cbn [cb_get gets rval rst fst snd]. fold c.
  assert (state_is (cb_state c) CLOSED = false) as -> by (by apply bool_decide_eq_false).
  rewrite (proj2 (Z.ltb_ge (cb_timeout c) now)) by done. rewrite andb_false_r.
  destruct (decide (txq_entries (cb_txq c) = [])) as [Eq|Hne].
  - subst ms q. rewrite Eq. apply post_ret. cbn. fold c. by rewrite Eq, Z.sub_0_r, u16_small by done.
  - assert (post (let* r := sysm (txq_walk c iface now 0 (txq_snt (cb_txq c)) q) in
      cb_mod i (cb_set_txq (TxqHead r.1 r.2))) s (fun _ s' =>
      let c' := cb_table s' !!! i in
      no_txq c' = no_txq c /\ txq_entries (cb_txq c') = map (kept c iface now) ms /\
      txq_snt (cb_txq c') = u16 (txq_snt (cb_txq c) - data_total (List.filter (fun e => negb (unacked c e)) q)) /\
      tcp_world s' = foldl (transmit c iface) (tcp_world s) (sends c iface now ms))) as Hp.
    { pose proof (data_total_bound q Hq).
      destruct (txq_walk_run c iface now q 0 _ (tcp_world s) Hq ltac:(lia) ltac:(lia) Hsnt) as [Hv Hw].
      apply post_bind. unfold post, sysm, zoom, rval, rst in *. destruct (txq_walk _ _ _ _ _ _ _) as [[r w] u].
      cbn in Hv, Hw |- *. rewrite list_lookup_total_insert_eq by done. subst. fold c. done. }
    rewrite Hif. destruct (txq_entries (cb_txq c)); [done|exact Hp].
Qed.

End Pass.

(** ** Example *)

(** Of three queued segments the first is acknowledged, the second was sent ten
    seconds ago and the third just now. *)
Lemma tcp_timer_retransmits_witness :
  let sys := sample_system true (Some 100) in
  let e seq t := TxqEntry (sample_hdr seq 2001 TCP_FLG_ACK) sample_text 25 t in
  let s := sample_table (sample_cb ESTABLISHED (Snd 1015 1005 0 0 0 1000) (Rcv 2001 0 65535) [e 1000 90; e 1005 90; e 1010 100]) [] in
  post (tcp_timer_cb (H := LittleEndian) (SYS := sys) 100 0) s (fun _ s' =>
    length (tcp_world s') = 1%nat /\ map te_sec (txq_entries (cb_txq (cb_table s' !!! 0%nat))) = [100; 100]).
Proof.
  intros sys e s. eapply post_mono.
  - apply (tcp_timer_retransmits (H := LittleEndian) (SYS := sys) 100 0 s 0).
    all: first [discriminate | reflexivity | vm_compute; intuition discriminate | repeat constructor; vm_compute; discriminate].
  - intros _ s' (_ & Hq & _ & Hw). rewrite Hq, Hw. vm_compute. split; reflexivity.
Defined.
