(* ===== verification/TcpNetwork.v ===== *)
(** * TCP: running on a network

    An interface for a system that works: there is memory, the clock runs, and
    [ip_tx] takes every segment, which is then on its way.  On top of it, symbolic
    execution that keeps the whole control block, what has been sent and whom has
    been woken, for the theorems on conversations of two hosts. *)

From S2P Require Import Prelude Logic Endian Cksum Queue Net IpFragment Ip TcpTypes TcpSegment TcpTimer TcpApi TcpLogic TcpDemux TcpWire TcpSend TcpRetransmit.

(** A segment on its way: the interface, its octets and the destination. *)
Abbreviation sent_segment := (nifid * bytes * Z)%type.

(** Calls that leave what has been sent alone, in a world that works. *)
Definition calm {W A B} (up : W -> Prop) (outbox : W -> B) (f : W -> A * W) : Prop :=
  forall w, up w -> up (f w).2 /\ outbox (f w).2 = outbox w.

(** The segments [ip_tx] has taken are the [outbox] of the world.  While the world is
    [net_up], there is memory and a clock, which counts from 1970; [random] is that
    of the C library, with 31 bits; and [ip_tx] takes segments that fit the MTU of
    an interface with a route to the destination. *)
Class Network (W : Type) `{SYS : System W} := {
  outbox : W -> list sent_segment;
  net_up : W -> Prop;
  net_route : nifid -> Z -> Prop;
  net_malloc_calm : calm net_up outbox sys_malloc;
  net_malloc w : net_up w -> (sys_malloc w).1 = true;
  net_gettimeofday_calm : calm net_up outbox sys_gettimeofday;
  net_gettimeofday w : net_up w -> exists now, (sys_gettimeofday w).1 = Some now /\ 0 < now;
  net_time_calm : calm net_up outbox sys_time;
  net_random_calm : calm net_up outbox sys_random;
  net_random w : net_up w -> 0 <= (sys_random w).1 < 2147483648;
  net_by_peer n dst w : net_up w -> net_route n dst -> sys_netif_by_peer dst w = Some n;
  net_mtu n dst : net_route n dst -> IP_HDR_SIZE_MIN + TCP_HDR_SIZE <= sys_mtu n;
  net_ip_tx n segment dst w : net_up w -> net_route n dst ->
    TCP_HDR_SIZE <= zlen segment <= sys_mtu n - IP_HDR_SIZE_MIN ->
    exists r w', sys_ip_tx n segment (zlen segment) dst w = (r, w', []) /\ r <> -1 /\ net_up w' /\
      outbox w' = outbox w ++ [(n, segment, dst)]
}.

Section Exec.
Context {H : Host} {W : Type} `{NW : Network W}.

(** ** Symbolic execution *)

(** The control block [i] is [c], the others are those of [t]; [out] has been sent,
    [wk] woken; [mx] says whether the mutex is held. *)
Record state_of (i : nat) (c : tcp_cb) (t : list tcp_cb) (out : list sent_segment) (wk : list wake) (mx : bool)
    (s : tcp W) : Prop := {
  so_index : (i < length t)%nat;
  so_table : cb_table s = <[i := c]> t;
  so_up : net_up (tcp_world s);
  so_out : outbox (tcp_world s) = out;
  so_wakes : tcp_wakes s = wk;
  so_mutex : tcp_mutex s = mx
}.

Lemma state_of_self i (s : tcp W) : (i < length (cb_table s))%nat -> net_up (tcp_world s) ->
  state_of i (cb_table s !!! i) (cb_table s) (outbox (tcp_world s)) (tcp_wakes s) (tcp_mutex s) s.
Proof. intros Hi Hup. split; try done. symmetry. apply list_insert_id. by apply list_lookup_lookup_total_lt. Qed.

Lemma state_of_cb i c t out wk mx s : state_of i c t out wk mx s -> cb_table s !!! i = c.
Proof. intros []. rewrite so_table0. by apply list_lookup_total_insert_eq. Qed.

Section Rules.
Context (i : nat) (c : tcp_cb) (t : list tcp_cb) (out : list sent_segment) (wk : list wake) (mx : bool) (s : tcp W).
Context (Hs : state_of i c t out wk mx s).

Lemma run_get {B} (k : tcp_cb -> M (tcp W) B) Q : safe (k c) s Q -> safe (mbind' (cb_get i) k) s Q.
Proof. intros Hk. apply safe_bind, safe_gets. by rewrite (state_of_cb _ _ _ _ _ _ _ Hs). Qed.

Lemma run_mod {B} f (k : unit -> M (tcp W) B) Q :
  (forall s', state_of i (f c) t out wk mx s' -> safe (k tt) s' Q) -> safe (mbind' (cb_mod i f) k) s Q.
Proof.
  intros Hk. apply safe_bind, safe_modify, Hk. pose proof (state_of_cb _ _ _ _ _ _ _ Hs) as Ec.
  destruct Hs as [Hi Ht Hup Ho Hw Hm]. split; try done. cbn. rewrite Ec, Ht. apply list_insert_insert_eq.
Qed.

Lemma run_get_other {B} l (k : tcp_cb -> M (tcp W) B) Q : l <> i -> safe (k (t !!! l)) s Q -> safe (mbind' (cb_get l) k) s Q.
Proof.
  intros Hl Hk. apply safe_bind, safe_gets. destruct Hs as [Hi Ht _ _ _ _]. by rewrite Ht, list_lookup_total_insert_ne.
Qed.

Lemma run_mod_other {B} l f (k : unit -> M (tcp W) B) Q : l <> i ->
  (forall s', state_of i c (<[l := f (t !!! l)]> t) out wk mx s' -> safe (k tt) s' Q) -> safe (mbind' (cb_mod l f) k) s Q.
Proof.
  intros Hl Hk. apply safe_bind, safe_modify, Hk. destruct Hs as [Hi Ht Hup Ho Hw Hm]. split; try done; cbn.
  - by rewrite length_insert.
  - rewrite Ht, list_lookup_total_insert_ne by done. by apply list_insert_insert_ne.
Qed.

Lemma run_cond {B} w (k : unit -> M (tcp W) B) Q :
  (forall s', state_of i c t out (wk ++ [w]) mx s' -> safe (k tt) s' Q) -> safe (mbind' (cond w) k) s Q.
Proof.
  intros Hk. apply safe_bind, safe_modify, Hk. destruct Hs as [Hi Ht Hup Ho Hw Hm]. split; try done. cbn. by rewrite Hw.
Qed.

Lemma run_sys {A B} (f : W -> A * W) (k : A -> M (tcp W) B) Q : calm net_up outbox f ->
  (forall s', state_of i c t out wk mx s' -> safe (k (f (tcp_world s)).1) s' Q) -> safe (mbind' (sys f) k) s Q.
Proof.
  intros Hf Hk. destruct Hs as [Hi Ht Hup Ho Hw Hm]. destruct (Hf _ Hup) as [Hup' Hf'].
  apply safe_bind. unfold safe at 1, sys. destruct (f (tcp_world s)) as [a w]. cbn in Hup', Hf'.
  split; [done|]. apply Hk. split; try done. cbn. by rewrite Hf'.
Qed.

Lemma run_malloc {B} (k : bool -> M (tcp W) B) Q :
  (forall s', state_of i c t out wk mx s' -> safe (k true) s' Q) -> safe (mbind' (sys sys_malloc) k) s Q.
Proof. intros Hk. apply run_sys; [apply net_malloc_calm|]. rewrite net_malloc by apply Hs. done. Qed.

Lemma run_gettimeofday {B} (k : option Z -> M (tcp W) B) Q :
  (forall now s', 0 < now -> state_of i c t out wk mx s' -> safe (k (Some now)) s' Q) ->
  safe (mbind' (sys sys_gettimeofday) k) s Q.
Proof.
  intros Hk. destruct (net_gettimeofday (tcp_world s)) as (now & Et & Hnow); [apply Hs|].
  apply run_sys; [apply net_gettimeofday_calm|]. rewrite Et. intros s' Hs'. by apply Hk.
Qed.

Lemma run_random {B} (k : Z -> M (tcp W) B) Q :
  (forall x s', 0 <= x < 2147483648 -> state_of i c t out wk mx s' -> safe (k x) s' Q) ->
  safe (mbind' (sys sys_random) k) s Q.
Proof.
  intros Hk. apply run_sys; [apply net_random_calm|]. intros s' Hs'. apply Hk; [|done]. apply net_random, Hs.
Qed.

Lemma run_unlock {B} (k : unit -> M (tcp W) B) Q :
  (forall s', state_of i c t out wk false s' -> safe (k tt) s' Q) -> safe (mbind' unlock k) s Q.
Proof. intros Hk. apply safe_bind, safe_modify, Hk. by destruct Hs. Qed.

Lemma run_lock {B} (k : unit -> M (tcp W) B) Q : mx = false ->
  (forall s', state_of i c t out wk true s' -> safe (k tt) s' Q) -> safe (mbind' lock k) s Q.
Proof.
  intros Hm Hk. apply safe_bind. split; [|apply Hk; by destruct Hs]. unfold lock, rub. cbn.
  by rewrite (so_mutex _ _ _ _ _ _ _ Hs), Hm.
Qed.

End Rules.

End Exec.

(** Run the operations on a known control block, up to a branch or a call of
    [tcp_tx]. *)
Ltac run1 :=
  lazymatch goal with
  | |- safe (mbind' (mbind' _ _) _) _ _ => apply safe_assoc
  | |- safe (mbind' (mret' _) _) _ _ => apply safe_bind, safe_ret
  | |- safe (mbind' (when true _) _) _ _ => cbn [when]
  | |- safe (mbind' (when false _) _) _ _ => cbn [when]
  | |- safe (mbind' (tell []) _) _ _ => apply safe_tell_nil
  | |- safe (mbind' (cb_get _) _) _ _ => eapply run_get; [eassumption|]
  | |- safe (mbind' (cb_mod _ _) _) _ _ => eapply run_mod; [eassumption|intros ? ?]
  | |- safe (mbind' (set_state _ _) _) _ _ => eapply run_mod; [eassumption|intros ? ?]
  | |- safe (mbind' (set_timeout _ _) _) _ _ => eapply run_mod; [eassumption|intros ? ?]
  | |- safe (mbind' (mod_snd _ _) _) _ _ => eapply run_mod; [eassumption|intros ? ?]
  | |- safe (mbind' (mod_rcv _ _) _) _ _ => eapply run_mod; [eassumption|intros ? ?]
  | |- safe (mbind' (tcp_close_cb _) _) _ _ => eapply run_mod; [eassumption|intros ? ?]
  | |- safe (mbind' (cond _) _) _ _ => eapply run_cond; [eassumption|intros ? ?]
  | |- safe (mbind' (sys sys_malloc) _) _ _ => eapply run_malloc; [eassumption|intros ? ?; cbn [negb]]
  | |- safe (mbind' (sys sys_gettimeofday) _) _ _ => eapply run_gettimeofday; [eassumption|intros ? ? ? ?]
  | |- safe (mbind' (sys sys_random) _) _ _ => eapply run_random; [eassumption|intros ? ? ? ?]
  | |- safe (mbind' (tx _ _ _ _ _) _) _ _ => unfold tx
  | |- safe (mbind' unlock _) _ _ => eapply run_unlock; [eassumption|intros ? ?]
  | |- safe (mbind' lock _) _ _ => eapply run_lock; [eassumption|reflexivity|intros ? ?]
  | |- safe (mret' _) _ _ => apply safe_ret
  end.
Ltac runs := repeat first [run1 | progress cbn [negb]].

(** The condition of the next branch is [v], by [tac]. *)
Tactic Notation "branch" constr(v) "by" tactic3(tac) :=
  lazymatch goal with
  | |- safe (if ?b then _ else _) _ _ => replace b with v by tac
  | |- safe (mbind' (if ?b then _ else _) _) _ _ => replace b with v by tac
  | |- safe (mbind' (when ?b _) _) _ _ => replace b with v by tac
  end; cbv iota.

(** Name what is known about the current state, or about the last one. *)
Ltac current Hc :=
  match goal with
  | Hx : state_of _ _ _ _ _ _ ?s |- safe _ ?s _ => rename Hx into Hc
  | Hx : state_of _ _ _ _ _ _ ?s |- context [state_of _ _ _ _ _ _ ?s] => rename Hx into Hc
  end.

Section Tx.
Context {H : Host} {W : Type} `{NW : Network W}.

(** ** Sending a segment *)

(** The header [tcp_tx] makes for a control block, before and with the checksum, and
    the octets on the wire. *)
Definition seg_hdr (c : tcp_cb) (seq ack flg : Z) : tcp_hdr :=
  TcpHdr (cb_port c) (cb_peer_port c) (hton32 seq) (hton32 ack) 80 flg (hton16 (rcv_wnd (cb_rcv c))) 0 0.

Definition seg_sum (self peer : Z) (hdr : tcp_hdr) (data : bytes) : tcp_hdr :=
  th_set_sum (tcp_checksum self peer (tcp_hdr_store hdr ++ data) (20 + zlen data)).1 hdr.

Definition seg_wire (self peer : Z) (hdr : tcp_hdr) (data : bytes) : bytes :=
  tcp_hdr_store (seg_sum self peer hdr data) ++ data.

Lemma zlen_hdr_store h : zlen (tcp_hdr_store h) = 20.
Proof. unfold tcp_hdr_store, zlen. by rewrite !length_app, !store16_length, !store32_length. Qed.

Lemma tcp_checksum_no_ub self peer segment len : zlen segment = len -> 0 <= len < 65536 ->
  (tcp_checksum self peer segment len).2 = [].
Proof. intros Hl Hr. by rewrite tcp_checksum_sum by lia. Qed.

(** Is a segment put on the queue, and is it sent at once? *)
Definition tx_queued (flg : Z) (data : bytes) : bool := (0 <? zlen data) || nz (Z.land flg (Z.lor TCP_FLG_SYN TCP_FLG_FIN)).
Definition tx_held (c : tcp_cb) (flg : Z) (data : bytes) : bool :=
  txq_have_unsent (cb_txq c)
  || (negb (TCP_FLG_ISSET flg TCP_FLG_SYN) && (snd_wnd (cb_snd c) <? txq_snt (cb_txq c) + zlen data)).

(** The control block with a segment queued: one that is held has time 0. *)
Definition txq_put (hdr : tcp_hdr) (data : bytes) (sec snt : Z) (c : tcp_cb) : tcp_cb :=
  cb_set_txq (TxqHead (txq_entries (cb_txq c) ++ [TxqEntry hdr data (u16 (20 + zlen data)) sec]) snt) c.

(** A queue in order: everything has been sent, lies below [nxt], and is counted. *)
Record txq_ok (nxt : Z) (q : tcp_txq_head) : Prop := {
  tq_sent : txq_have_unsent q = false;
  tq_below : Forall (fun e => ntoh32 (th_seq (te_hdr e)) < nxt) (txq_entries q);
  tq_sane : sane (txq_entries q);
  tq_snt : txq_snt q = data_total (txq_entries q);
  tq_range : is_u16 (txq_snt q)
}.

Lemma txq0_ok nxt : txq_ok nxt txq0.
Proof. split; try done; constructor. Qed.

Lemma data_total_snoc q e : data_total (q ++ [e]) = data_total q + te_dlen e.
Proof. induction q as [|x q IH]; cbn; [lia|]. unfold data_total in *. cbn. lia. Qed.

Lemma txq_put_ok nxt nxt' hdr data now c : txq_ok nxt (cb_txq c) -> nxt <= nxt' -> ntoh32 (th_seq hdr) < nxt' ->
  TCP_HDR_LEN hdr = 20 -> 0 < now -> txq_snt (cb_txq c) + zlen data < 65516 ->
  txq_ok nxt' (cb_txq (txq_put hdr data now (u16 (txq_snt (cb_txq c) + zlen data)) c)).
Proof.
  intros [Hu Hb Hs Hn _] Hle Hseq Hl Hnow Hd. pose proof (data_total_bound _ Hs). pose proof (zlen_nonneg data).
  assert (te_dlen (TxqEntry hdr data (u16 (20 + zlen data)) now) = zlen data) as Ed.
  { unfold te_dlen. cbn. rewrite Hl, u16_small by (unfold is_u16; lia). lia. }
  split; cbn [txq_put cb_txq cb_set_txq txq_entries txq_snt].
  - unfold txq_have_unsent. cbn. rewrite last_snoc. cbn. lia.
  - apply Forall_app. split; [eapply Forall_impl; [exact Hb|cbn; lia]|]. by repeat constructor.
  - apply Forall_app. split; [done|]. constructor; [rewrite Ed; lia|constructor].
  - rewrite data_total_snoc, Ed, u16_small by (unfold is_u16; lia). by rewrite Hn.
  - apply u16_range.
Qed.

(** The transmission part: the segment is on its way. *)
Lemma run_tx_send i c t out wk mx (s : tcp W) hdr data now (q : bool) (iface : nifid) :
  state_of i c t out wk mx s -> cb_iface c = Some iface -> zlen data < 65516 ->
  net_route iface (cb_peer_addr c) -> TCP_HDR_SIZE + zlen data <= sys_mtu iface - IP_HDR_SIZE_MIN ->
  let wire := seg_wire (sys_unicast iface) (cb_peer_addr c) hdr data in
  let filled := seg_sum (sys_unicast iface) (cb_peer_addr c) hdr data in
  let c' := if q then
              let x := txq_map_last (te_set_sec now) (txq_map_last (te_set_hdr filled) (cb_txq c)) in
              cb_set_txq (TxqHead (txq_entries x) (u16 (txq_snt x + zlen data))) c
            else c in
  safe (tcp_tx_send i hdr data (zlen data) now q) s (fun r s' =>
    r = zlen data /\ state_of i c' t (out ++ [(iface, wire, cb_peer_addr c)]) wk mx s').
Proof.
  intros Hs Hif Hlen Hroute Hfit wire filled c'. unfold tcp_tx_send. run1. rewrite Hif. pose proof (zlen_nonneg data).
  change TCP_HDR_SIZE with 20. pose proof (zlen_hdr_store hdr) as Hh.
  pose proof (tcp_checksum_no_ub (sys_unicast iface) (cb_peer_addr c) (tcp_hdr_store hdr ++ data) (20 + zlen data)
    ltac:(rewrite zlen_app; lia) ltac:(lia)) as Hu.
  assert (filled = th_set_sum (tcp_checksum (sys_unicast iface) (cb_peer_addr c) (tcp_hdr_store hdr ++ data) (20 + zlen data)).1 hdr) as Ef by done.
  destruct (tcp_checksum _ _ _ _) as [sum u]. cbn in Hu, Ef. subst u. run1. rewrite <- Ef.
  assert (forall cx sx, state_of i cx t out wk mx sx -> cb_iface cx = Some iface ->
    (forall sy, state_of i cx t (out ++ [(iface, wire, cb_peer_addr c)]) wk mx sy ->
      safe (when q (cb_mod i (fun c => let q := txq_map_last (te_set_sec now) (cb_txq c) in
              cb_set_txq (TxqHead (txq_entries q) (u16 (txq_snt q + zlen data))) c)) ;;; ret (zlen data)) sy
        (fun r s' => r = zlen data /\ state_of i c' t (out ++ [(iface, wire, cb_peer_addr c)]) wk mx s')) ->
    safe (let* r := sysm (sys_ip_tx iface (tcp_hdr_store filled ++ data) (20 + zlen data) (cb_peer_addr c)) in
          if r =? -1 then ret (-1) else
          when q (cb_mod i (fun c => let q := txq_map_last (te_set_sec now) (cb_txq c) in
              cb_set_txq (TxqHead (txq_entries q) (u16 (txq_snt q + zlen data))) c)) ;;; ret (zlen data)) sx
        (fun r s' => r = zlen data /\ state_of i c' t (out ++ [(iface, wire, cb_peer_addr c)]) wk mx s')) as Hsend.
  { intros cx sx Hx _ Hk. apply safe_bind.
    assert (20 + zlen data = zlen (tcp_hdr_store filled ++ data)) as -> by (rewrite zlen_app, zlen_hdr_store; done).
    destruct (net_ip_tx iface (tcp_hdr_store filled ++ data) (cb_peer_addr c) (tcp_world sx)) as (r & w' & E & Hr & Hup & Ho);
      [apply Hx|done|rewrite zlen_app, zlen_hdr_store; unfold TCP_HDR_SIZE in *; lia|].
    unfold safe at 1, sysm, zoom. rewrite E. split; [done|]. cbn [rval rst fst snd].
    rewrite (proj2 (Z.eqb_neq r (-1))) by done. apply Hk. destruct Hx as [? ? _ Hxo ? ?]. split; try done. cbn.
    by rewrite Ho, Hxo. }
  destruct q; cbn [when].
  - run1. eapply Hsend; [eassumption|done|]. intros sy Hy. eapply run_mod; [exact Hy|intros s2 Hs2].
    apply safe_ret. split; [done|exact Hs2].
  - run1. eapply Hsend; [exact Hs|done|]. intros sy Hy. cbn [when]. runs. done.
Qed.

(** [tcp_tx]: a segment without text, SYN or FIN is sent and not queued; others are
    queued, and sent unless they are held. *)
Lemma run_tcp_tx {B} i c t out wk mx (s : tcp W) seq ack flg now buf len (k : Z -> M (tcp W) B) Q (iface : nifid) :
  state_of i c t out wk mx s -> cb_iface c = Some iface -> 0 <= len <= zlen buf -> len < 65516 ->
  net_route iface (cb_peer_addr c) -> TCP_HDR_SIZE + len <= sys_mtu iface - IP_HDR_SIZE_MIN ->
  let data := take (Z.to_nat len) buf in
  let hdr := seg_hdr c seq ack flg in
  let self := sys_unicast iface in
  let peer := cb_peer_addr c in
  let held := tx_queued flg data && tx_held c flg data in
  let c' := if negb (tx_queued flg data) then c
            else if held then txq_put hdr data 0 (txq_snt (cb_txq c)) c
            else txq_put (seg_sum self peer hdr data) data now (u16 (txq_snt (cb_txq c) + len)) c in
  let out' := if held then out else out ++ [(iface, seg_wire self peer hdr data, peer)] in
  (forall s', state_of i c' t out' wk mx s' -> safe (k (if held then 0 else len)) s' Q) ->
  safe (mbind' (tcp_tx i seq ack flg now buf len) k) s Q.
Proof.
  intros Hs Hif Hlen Hmax Hroute Hfit data hdr self peer held c' out' Hk.
  assert (zlen data = len) as Hd by (subst data; unfold zlen in *; rewrite length_take; lia).
  unfold tcp_tx. runs. rewrite (proj2 (Z.ltb_ge (zlen buf) len)) by lia. runs. fold data.
  change (TcpHdr _ _ _ _ _ _ _ _ _) with hdr.
  replace ((0 <? len) || nz (Z.land flg (Z.lor TCP_FLG_SYN TCP_FLG_FIN))) with (tx_queued flg data)
    by (unfold tx_queued; by rewrite Hd).
  destruct (tx_queued flg data); cbn [negb] in c'; cbn [andb] in held; cbn [negb].
  - unfold tcp_tx_queue, tcp_txq_add. runs. current Hs2.
    set (c2 := cb_set_txq _ c) in Hs2.
    lazymatch goal with |- context [if ?b then ret (Some 0) else _] =>
      replace b with held by (subst held; unfold tx_held; by rewrite Hd) end.
    destruct held; runs.
    + apply Hk. subst c' c2. unfold txq_put. rewrite Hd. exact Hs2.
    + rewrite <- Hd. apply safe_bind. eapply safe_mono; [eapply run_tx_send; [exact Hs2|exact Hif|lia|exact Hroute|lia]|].
      intros r s3 [-> Hs3]. rewrite Hd. apply Hk. revert Hs3. subst c2 c' out'. unfold txq_put.
      cbn [cb_txq cb_set_txq txq_entries txq_snt cb_peer_addr]. rewrite !txq_map_last_snoc. cbn. rewrite Hd. done.
  - runs. current Hs1. rewrite <- Hd. apply safe_bind.
    eapply safe_mono; [eapply run_tx_send; [exact Hs1|exact Hif|lia|exact Hroute|lia]|].
    intros r s3 [-> Hs3]. rewrite Hd. by apply Hk.
Qed.

(** The segment an endpoint sends, and its header. *)
Definition header_from (c : tcp_cb) (seq ack flg : Z) (data : bytes) : tcp_hdr :=
  seg_sum (match cb_iface c with Some iface => sys_unicast iface | None => 0 end) (cb_peer_addr c)
    (seg_hdr c seq ack flg) data.
Definition segment_from (c : tcp_cb) (seq ack flg : Z) (data : bytes) : bytes :=
  tcp_hdr_store (header_from c seq ack flg data) ++ data.

(** Segments that are only sent, such as acknowledgements. *)
Lemma run_tx_plain {B} i c t out wk mx (s : tcp W) seq ack flg now (k : Z -> M (tcp W) B) Q (iface : nifid) :
  state_of i c t out wk mx s -> cb_iface c = Some iface -> net_route iface (cb_peer_addr c) ->
  nz (Z.land flg (Z.lor TCP_FLG_SYN TCP_FLG_FIN)) = false ->
  (forall s', state_of i c t (out ++ [(iface, segment_from c seq ack flg [], cb_peer_addr c)]) wk mx s' -> safe (k 0) s' Q) ->
  safe (mbind' (tcp_tx i seq ack flg now [] 0) k) s Q.
Proof.
  intros Hs Hif Hroute Hflg Hk. pose proof (net_mtu _ _ Hroute).
  eapply run_tcp_tx; [exact Hs|exact Hif|by split|done|exact Hroute|lia|]. change (take (Z.to_nat 0) []) with (@nil Z).
  assert (tx_queued flg [] = false) as -> by (unfold tx_queued; by rewrite Hflg).
  unfold segment_from, header_from in Hk. rewrite Hif in Hk. exact Hk.
Qed.

(** A SYN or FIN that is not held. *)
Lemma run_tx_control {B} i c t out wk mx (s : tcp W) seq ack flg now (k : Z -> M (tcp W) B) Q (iface : nifid) :
  state_of i c t out wk mx s -> cb_iface c = Some iface -> net_route iface (cb_peer_addr c) ->
  nz (Z.land flg (Z.lor TCP_FLG_SYN TCP_FLG_FIN)) = true ->
  tx_held c flg [] = false ->
  (forall s', state_of i (txq_put (header_from c seq ack flg []) [] now (u16 (txq_snt (cb_txq c) + 0)) c) t
      (out ++ [(iface, segment_from c seq ack flg [], cb_peer_addr c)]) wk mx s' -> safe (k 0) s' Q) ->
  safe (mbind' (tcp_tx i seq ack flg now [] 0) k) s Q.
Proof.
  intros Hs Hif Hroute Hflg Hheld Hk. pose proof (net_mtu _ _ Hroute).
  eapply run_tcp_tx; [exact Hs|exact Hif|by split|done|exact Hroute|lia|].
  change (take (Z.to_nat 0) []) with (@nil Z).
  assert (tx_queued flg [] = true) as -> by (unfold tx_queued; by rewrite Hflg). rewrite Hheld.
  unfold segment_from, header_from in Hk. rewrite Hif in Hk. exact Hk.
Qed.

End Tx.

(** ** Receiving a segment *)

Section Rx.
Context {H : Host} {W : Type} `{NW : Network W}.

(** A segment as [tcp_tx] makes it: the control block has ports and a window in
    their ranges. *)
Record seg_ok (c : tcp_cb) (seq ack flg : Z) (data : bytes) : Prop := {
  sk_port : is_u16 (cb_port c);
  sk_peer_port : is_u16 (cb_peer_port c);
  sk_wnd : is_u16 (rcv_wnd (cb_rcv c));
  sk_seq : is_u32 seq;
  sk_ack : is_u32 ack;
  sk_flg : is_u8 flg;
  sk_data : is_bytes data /\ zlen data < 65516;
  sk_odd : host_endian = LittleEndian \/ Nat.Even (length data)
}.

Lemma seg_hdr_wf c seq ack flg data : seg_ok c seq ack flg data -> tcp_hdr_wf (seg_hdr c seq ack flg).
Proof.
  intros []. split; cbn; auto using hton32_range, hton16_range; unfold is_u16, is_u8; lia.
Qed.

Lemma seg_sum_wf self peer hdr data : tcp_hdr_wf hdr -> zlen data < 65516 -> tcp_hdr_wf (seg_sum self peer hdr data).
Proof.
  intros [] Hd. split; try done. unfold seg_sum. cbn [th_set_sum th_sum]. pose proof (zlen_nonneg data).
  pose proof (zlen_hdr_store hdr).
  rewrite tcp_checksum_sum by (rewrite ?zlen_app; lia). cbn [fst]. unfold cksum. auto with net.
Qed.

(** The fields of a received header. *)
Lemma seg_fields self peer c seq ack flg data : seg_ok c seq ack flg data ->
  let hdr := seg_sum self peer (seg_hdr c seq ack flg) data in
  SEQ hdr = seq /\ ACK hdr = ack /\ th_flg hdr = flg /\ ntoh16 (th_win hdr) = rcv_wnd (cb_rcv c) /\
  TCP_HDR_LEN hdr = 20 /\ TCP_DATA_LEN hdr (20 + zlen data) = zlen data /\
  drop 20 (seg_wire self peer (seg_hdr c seq ack flg) data) = data.
Proof.
  intros Hok hdr. pose proof (sk_seq _ _ _ _ _ Hok). pose proof (sk_ack _ _ _ _ _ Hok). pose proof (sk_wnd _ _ _ _ _ Hok).
  pose proof (zlen_nonneg data). destruct (sk_data _ _ _ _ _ Hok) as [_ Hd]. unfold SEQ, ACK. cbn.
  rewrite !ntoh32_hton32, ntoh16_hton16 by done. split_and!; try done.
  - unfold TCP_DATA_LEN. change (TCP_HDR_LEN hdr) with 20. rewrite u64_small; lia.
  - unfold seg_wire. pose proof (zlen_hdr_store (seg_sum self peer (seg_hdr c seq ack flg) data)) as Hl.
    apply drop_app_length'. unfold zlen in Hl. lia.
Qed.

(** A segment passes the tests of [tcp_rx]. *)
Lemma run_rx_valid src dst iface c seq ack flg data (s : tcp W) (Q : unit -> tcp W -> Prop) :
  seg_ok c seq ack flg data -> sys_unicast iface = dst ->
  let hdr := seg_sum src dst (seg_hdr c seq ack flg) data in
  let segment := seg_wire src dst (seg_hdr c seq ack flg) data in
  safe (lock ;;;
        let* t := gets cb_table in
        match tcp_rx_find iface hdr src 0 t None None with
        | (Some i, _, _) => tcp_event_segment_arrives i hdr segment (20 + zlen data) ;;; unlock
        | (None, None, _) => unlock
        | (None, Some i, lcb) =>
            tcp_rx_new iface hdr src i lcb ;;;
            tcp_event_segment_arrives i hdr segment (20 + zlen data) ;;;
            unlock
        end) s Q ->
  safe (tcp_rx segment (20 + zlen data) src dst iface) s Q.
Proof.
  intros Hok Hself hdr segment Hk. unfold tcp_rx. rewrite Hself, Z.eqb_refl. cbn [negb].
  pose proof (zlen_nonneg data). rewrite (proj2 (Z.ltb_ge _ _)) by (unfold TCP_HDR_SIZE; lia).
  destruct (sk_data _ _ _ _ _ Hok) as [Hb Hd].
  assert (tcp_checksum src dst segment (20 + zlen data) = (0, [])) as ->.
  { apply tcp_checksum_fill; [apply Hok|by eapply seg_hdr_wf|done|done|lia]. }
  apply safe_tell_nil. cbn [Z.eqb negb].
  destruct (tcp_hdr_store_octets hdr) as (_ & _ & Hload); [apply seg_sum_wf; [by eapply seg_hdr_wf|done]|].
  change segment with (tcp_hdr_store hdr ++ data). by rewrite Hload.
Qed.

(** It belongs to the connection [i]. *)
Lemma run_rx_connection src dst iface c seq ack flg data (s : tcp W) (Q : unit -> tcp W -> Prop) i ci t out wk :
  let hdr := seg_sum src dst (seg_hdr c seq ack flg) data in
  let segment := seg_wire src dst (seg_hdr c seq ack flg) data in
  seg_ok c seq ack flg data -> sys_unicast iface = dst -> state_of i ci t out wk false s ->
  first_index (connects iface hdr src) (cb_table s) = Some i ->
  (forall s', state_of i ci t out wk true s' ->
    safe (tcp_event_segment_arrives i hdr segment (20 + zlen data) ;;; unlock) s' Q) ->
  safe (tcp_rx segment (20 + zlen data) src dst iface) s Q.
Proof.
  intros hdr segment Hok Hself Hs Hfind Hk. apply run_rx_valid; [done|done|]. fold hdr segment.
  eapply run_lock; [exact Hs|done|]. intros s1 Hs1. apply safe_bind, safe_gets.
  assert (cb_table s1 = cb_table s) as ->
    by (rewrite (so_table _ _ _ _ _ _ _ Hs1); by rewrite (so_table _ _ _ _ _ _ _ Hs)).
  destruct (tcp_rx_find_spec iface hdr src (cb_table s)) as (f & l & -> & _). rewrite Hfind. by apply Hk.
Qed.

(** It belongs to no connection; the listener [l] hears it and [i] is free. *)
Lemma run_rx_new src dst iface c seq ack flg data (s : tcp W) (Q : unit -> tcp W -> Prop) i l ci t out wk :
  let hdr := seg_sum src dst (seg_hdr c seq ack flg) data in
  let segment := seg_wire src dst (seg_hdr c seq ack flg) data in
  seg_ok c seq ack flg data -> sys_unicast iface = dst -> state_of i ci t out wk false s ->
  first_index (connects iface hdr src) (cb_table s) = None -> first_index IS_FREE_CB (cb_table s) = Some i ->
  first_index (listens iface hdr) (cb_table s) = Some l -> l <> i ->
  (forall s', state_of i (cb_set_peer src (cb_port c) (cb_set_parent (Some l) (cb_set_port (cb_port (t !!! l))
                (cb_set_state (cb_state (t !!! l)) (cb_set_iface (Some iface) ci))))) t out wk true s' ->
    safe (tcp_event_segment_arrives i hdr segment (20 + zlen data) ;;; unlock) s' Q) ->
  safe (tcp_rx segment (20 + zlen data) src dst iface) s Q.
Proof.
  intros hdr segment Hok Hself Hs Hnone Hfree Hl Hne Hk. apply run_rx_valid; [done|done|]. fold hdr segment.
  eapply run_lock; [exact Hs|done|]. intros s1 Hs1. apply safe_bind, safe_gets.
  assert (cb_table s1 = cb_table s) as ->
    by (rewrite (so_table _ _ _ _ _ _ _ Hs1); by rewrite (so_table _ _ _ _ _ _ _ Hs)).
  destruct (tcp_rx_find_spec iface hdr src (cb_table s)) as (f & l' & -> & Hfl). destruct (Hfl Hnone) as [-> ->].
  rewrite Hnone, Hfree, Hl. unfold tcp_rx_new. runs. current Hs2. eapply run_get_other; [exact Hs2|done|]. runs.
  current Hs3. by apply Hk.
Qed.

End Rx.

(** ** Between two hosts *)

(** How the segments of the world [W] arrive at a host with the world [W']: [deliver]
    brings the segment with a given number to an interface.  A segment without
    options whose destination has the interface, and a route back, is received by
    [tcp_rx] as it was sent. *)
Class Wire {H : Host} (W W' : Type) `{NW : Network W} `{NW' : Network W'} := {
  deliver : nat -> W -> nifid -> M (tcp W') unit;
  wire_delivers k w iface (s : tcp W') n segment dst hdr :
    net_up w -> net_up (tcp_world s) -> net_route (W := W') iface (sys_unicast (W := W) n) ->
    sys_unicast (W := W') iface = dst -> outbox w !! k = Some (n, segment, dst) ->
    tcp_hdr_load segment = Some hdr -> TCP_HDR_LEN hdr = TCP_HDR_SIZE ->
    deliver k w iface s = tcp_rx segment (zlen segment) (sys_unicast (W := W) n) dst iface s
}.

Section Deliver.
Context {H : Host} {W W' : Type} `{NW : Network W} `{NW' : Network W'} {WW : Wire W W'}.

Lemma load_plain h data : exists h', tcp_hdr_load (tcp_hdr_store h ++ data) = Some h' /\ th_off h' = th_off h.
Proof.
  unfold tcp_hdr_store, store32, store16. destruct host_endian; cbn; by eexists.
Qed.

(** What an endpoint has sent arrives as it made it. *)
Lemma deliver_nth k (w : W) c (s' : tcp W') outif iface seq ack flg data self peer (Q : unit -> tcp W' -> Prop) :
  net_up w -> net_up (tcp_world s') -> net_route (W := W') iface self -> sys_unicast (W := W') iface = peer ->
  outbox w !! k = Some (outif, segment_from (W := W) c seq ack flg data, peer) ->
  cb_iface c = Some outif -> cb_peer_addr c = peer -> sys_unicast (W := W) outif = self ->
  safe (tcp_rx (seg_wire self peer (seg_hdr c seq ack flg) data) (20 + zlen data) self peer iface) s' Q ->
  safe (deliver k w iface) s' Q.
Proof.
  intros Hup Hup' Hroute Hdst Hk Hif Hpeer Hself Hs. unfold segment_from in Hk.
  destruct (load_plain (header_from (W := W) c seq ack flg data) data) as (h & Hload & Hoff). unfold safe, rub, rval, rst in *.
  rewrite (wire_delivers k w iface s' outif _ peer h) by (done || (by rewrite Hself) || (unfold TCP_HDR_LEN; by rewrite Hoff)).
  rewrite Hself. unfold header_from. rewrite Hif, Hself, Hpeer. fold (seg_wire self peer (seg_hdr c seq ack flg) data).
  assert (zlen (seg_wire self peer (seg_hdr c seq ack flg) data) = 20 + zlen data) as ->; [|done].
  unfold seg_wire. by rewrite zlen_app, zlen_hdr_store.
Qed.

Lemma deliver_sent i c t out wk mx (s : tcp W) (s' : tcp W') outif iface seq ack flg data self peer (Q : unit -> tcp W' -> Prop) :
  net_up (tcp_world s') -> net_route (W := W') iface self -> sys_unicast (W := W') iface = peer ->
  state_of i c t (out ++ [(outif, segment_from (W := W) c seq ack flg data, peer)]) wk mx s ->
  cb_iface c = Some outif -> cb_peer_addr c = peer -> sys_unicast (W := W) outif = self ->
  safe (tcp_rx (seg_wire self peer (seg_hdr c seq ack flg) data) (20 + zlen data) self peer iface) s' Q ->
  safe (deliver (length out) (tcp_world s) iface) s' Q.
Proof.
  intros Hup' Hroute Hdst Hs. apply (deliver_nth _ _ c s' outif iface); [apply Hs|done|done|done|].
  rewrite (so_out _ _ _ _ _ _ _ Hs). by apply list_lookup_middle.
Qed.

End Deliver.

(** ** Example *)

(** A host with the given address whose [ip_tx] puts the segments into the world. *)
Definition net_system (self : Z) : System (list sent_segment) := {|
  sys_malloc w := (true, w);
  sys_gettimeofday w := (Some 100, w);
  sys_time w := (7, w);
  sys_random w := (1000, w);
  sys_ip_tx n b len dst := fun w => (len, w ++ [(n, take (Z.to_nat len) b, dst)], []);
  sys_netif_by_peer a w := Some 0%nat;
  sys_unicast n := self;
  sys_mtu n := 1500
|}.

Lemma net_network (self : Z) : Network (list sent_segment) (SYS := net_system self).
Proof.
  unshelve refine {| outbox w := w; net_up w := True; net_route n dst := n = 0%nat |}; unfold calm; cbn; intros; try done.
  - by exists 100.
  - by subst.
  - exists (zlen segment). eexists. split; [done|]. pose proof (zlen_nonneg segment). split; [lia|].
    by rewrite take_ge by (unfold zlen; lia).
Defined.

(** A wire that hands the segments over. *)
Definition net_wire {H : Host} (self peer : Z) : Wire (NW := net_network self) (NW' := net_network peer)
    (list sent_segment) (list sent_segment).
Proof.
  unshelve refine {| deliver k w iface := match w !! k with
    | Some (_, segment, dst) => tcp_rx (SYS := net_system peer) segment (zlen segment) self dst iface
    | None => ret tt
    end |}.
  intros k w iface s n segment dst hdr _ _ _ _ Hk _ _. cbn in Hk. by rewrite Hk.
Defined.
