(* ===== verification/TcpHandshake.v ===== *)
(** * TCP: opening a connection

    The three-way handshake of two hosts that run this code, and what happens
    when one of its segments is lost. *)

From S2P Require Import Prelude Logic Endian Cksum Queue Net IpFragment Ip TcpTypes TcpSegment TcpTimer TcpApi TcpLogic TcpDemux TcpWire TcpSend TcpRetransmit TcpNetwork.

(** What the two ends of a connection agree on: interface, ports and peer, the
    sequence variables, a queue of segments in order and a whole receive buffer. *)
Record endpoint {H : Host} (c : tcp_cb) (st : tcp_state) (iface : nifid) (port peer pport : Z) (snd : tcp_snd) (rcv : tcp_rcv)
  : Prop := {
  en_state : cb_state c = st;
  en_iface : cb_iface c = Some iface;
  en_port : cb_port c = port;
  en_peer : cb_peer_addr c = peer;
  en_pport : cb_peer_port c = pport;
  en_snd : cb_snd c = snd;
  en_rcv : cb_rcv c = rcv;
  en_txq : txq_ok (snd_nxt snd) (cb_txq c);
  en_window : zlen (cb_window c) = TCP_WINDOW_SIZE
}.

Section Client.
Context {H : Host} {W : Type} `{NW : Network W}.

Lemma find_port_range t offset p : -1024 < offset < 1024 -> find_port t offset = Some p -> is_u16 p.
Proof.
  intros Ho [Hin _]%List.find_some. apply list_elem_of_In, elem_of_seqZ in Hin.
  unfold TCP_SOURCE_PORT_MIN, TCP_SOURCE_PORT_MAX in Hin. unfold is_u16. lia.
Qed.

(** A table of control blocks cannot occupy all the ports. *)
Lemma find_port_exists t offset : length t = TCP_CB_TABLE_SIZE -> -1024 < offset < 1024 -> is_Some (find_port t offset).
Proof.
  intros Hlen Ho. destruct (find_port t offset) as [p|] eqn:E; [by exists p|exfalso].
  set (ports := seqZ (TCP_SOURCE_PORT_MIN + offset) (TCP_SOURCE_PORT_MAX - (TCP_SOURCE_PORT_MIN + offset) + 1)) in *.
  assert (forall p, p ∈ ports -> is_u16 p) as Hr.
  { intros p Hp%elem_of_seqZ. unfold is_u16, TCP_SOURCE_PORT_MIN, TCP_SOURCE_PORT_MAX in *. lia. }
  assert (length (map hton16 ports) <= length (map cb_port t))%nat as Hl.
  { apply List.NoDup_incl_length.
    - apply NoDup_ListNoDup, NoDup_fmap_2_strong; [|apply NoDup_seqZ].
      intros x y Hx Hy Exy. rewrite <- (ntoh16_hton16 x), <- (ntoh16_hton16 y) by auto. by rewrite Exy.
    - intros x (p & <- & Hp)%List.in_map_iff. pose proof (List.find_none _ _ E p Hp) as Hn.
      apply negb_false_iff in Hn. apply List.existsb_exists in Hn as (c & Hc & Hcp).
      apply andb_true_iff in Hcp as [_ Hcp%Z.eqb_eq]. rewrite u16_small in Hcp by (by apply Hr, list_elem_of_In).
      rewrite <- Hcp. by apply List.in_map. }
  rewrite !length_map, Hlen in Hl. subst ports. rewrite length_seqZ in Hl.
  unfold TCP_CB_TABLE_SIZE, TCP_SOURCE_PORT_MIN, TCP_SOURCE_PORT_MAX in *. lia.
Qed.

(** A control block as the start of the program leaves it. *)
Definition clean (c : tcp_cb) : Prop :=
  cb_state c = CLOSED /\ cb_snd c = snd0 /\ cb_rcv c = rcv0 /\ cb_txq c = txq0 /\ zlen (cb_window c) = TCP_WINDOW_SIZE.

(** The SYN goes out, and the call waits. *)
Lemma run_connect i c t out wk (s : tcp W) addr port iface :
  state_of i c t out wk false s -> (i < TCP_CB_TABLE_SIZE)%nat -> cb_used c = true -> clean c -> cb_port c = 0 ->
  length t = TCP_CB_TABLE_SIZE -> net_route iface addr ->
  safe (tcp_api_connect (Z.of_nat i) addr port) s (fun r s' => exists p iss c',
    r = Blocked /\ is_u16 p /\ port_in_use (cb_table s) p = false /\ 0 <= iss < 2147483648 /\
    state_of i c' t (out ++ [(iface, segment_from c' iss 0 TCP_FLG_SYN [], addr)]) wk false s' /\
    endpoint c' SYN_SENT iface (hton16 p) addr (hton16 (u16 port)) (Snd (iss + 1) iss 0 0 0 0)
      (Rcv 0 0 TCP_WINDOW_SIZE) /\
    cb_iss c' = iss /\ cb_used c' = true /\ txq_snt (cb_txq c') = 0).
Proof.
  intros Hs Hi Hused (Hst & Hsnd & Hrcv & Hq & Hwin) Hport Hlen Hif. unfold tcp_api_connect.
  assert (TCP_SOCKET_INVALID (Z.of_nat i) = false) as -> by (unfold TCP_SOCKET_INVALID; lia).
  rewrite Nat2Z.id. runs. rewrite Hused, Hst. cbn [negb orb state_is]. branch false by done.
  runs. rewrite Hport. cbn [Z.eqb]. current Hs1. eapply run_sys; [exact Hs1|apply net_time_calm|intros s2 Hs2].
  apply safe_bind, safe_gets.
  assert (cb_table s2 = cb_table s) as ->
    by (rewrite (so_table _ _ _ _ _ _ _ Hs2); by rewrite (so_table _ _ _ _ _ _ _ Hs)).
  lazymatch goal with |- context [sys_time ?w] =>
    pose proof (Z.rem_bound_abs (sys_time w).1 1024 ltac:(lia));
    destruct (find_port_exists (cb_table s) (Z.rem (sys_time w).1 1024)) as [p Ep] end.
  { rewrite (so_table _ _ _ _ _ _ _ Hs), length_insert, Hlen. done. }
  { lia. }
  rewrite Ep. assert (is_u16 p) as Hp by (eapply find_port_range; [|exact Ep]; lia).
  rewrite (u16_small p) by done. unfold tcp_connect_syn. runs. apply safe_bind, safe_gets.
  current Hs2'. rewrite (net_by_peer iface addr) by (done || apply Hs2'). runs.
  current Hs3. assert (u32 x = x) as Ex by (apply u32_small; unfold is_u32; lia). rewrite Ex in *. clear Ex.
  set (c3 := cb_set_iss x _) in *.
  eapply (run_tx_control _ c3 _ _ _ _ _ _ _ _ _ _ _ iface); [exact Hs3|done|done|done|unfold tx_held, txq_have_unsent; cbn; by rewrite Hq|].
  intros s4 Hs4. cbn [Z.eqb]. unfold tcp_connect_wake, cond_wait. runs. branch true by done. runs. current Hs5.
  exists p, x. eexists. split; [done|]. split; [done|].
  split; [apply List.find_some in Ep as [_ Ep]; by apply negb_true_iff|]. split; [done|]. split; [exact Hs5|].
  assert (u32 (x + 1) = x + 1) as -> by (apply u32_small; unfold is_u32; lia).
  split; [|split_and!; try done; cbn; by rewrite Hq]. split; try done; cbn [cb_snd cb_set_snd cb_set_state cb_set_timeout cb_txq].
  - change (cb_snd c3) with (cb_snd c). cbn. by rewrite Hsnd.
  - cbn. by rewrite Hrcv.
  - apply (txq_put_ok 0); [cbn; rewrite Hq; apply txq0_ok|cbn; lia|cbn; rewrite ntoh32_hton32 by (unfold is_u32; cbn; lia); cbn; lia|done|done|cbn; by rewrite Hq].
Qed.

(** The SYN arrives at a listener: a new connection answers. *)
Lemma run_syn_arrives src dst iface cA issA (s : tcp W) i l ci t out wk :
  let hdr := seg_sum src dst (seg_hdr cA issA 0 TCP_FLG_SYN) [] in
  seg_ok cA issA 0 TCP_FLG_SYN [] -> 0 <= issA < 2147483648 -> sys_unicast iface = dst -> state_of i ci t out wk false s ->
  first_index (connects iface hdr src) (cb_table s) = None -> first_index IS_FREE_CB (cb_table s) = Some i ->
  first_index (listens iface hdr) (cb_table s) = Some l -> l <> i -> cb_state (t !!! l) = LISTEN -> clean ci ->
  net_route iface src ->
  safe (tcp_rx (seg_wire src dst (seg_hdr cA issA 0 TCP_FLG_SYN) []) 20 src dst iface) s (fun _ s' => exists iss c',
    0 <= iss < 2147483648 /\
    state_of i c' t (out ++ [(iface, segment_from c' iss (issA + 1) (Z.lor TCP_FLG_SYN TCP_FLG_ACK) [], src)]) wk false s' /\
    endpoint c' SYN_RCVD iface (cb_port (t !!! l)) src (cb_port cA) (Snd (iss + 1) iss 0 0 0 0)
      (Rcv (issA + 1) 0 TCP_WINDOW_SIZE) /\
    cb_parent c' = Some l /\ txq_snt (cb_txq c') = 0).
Proof.
  intros hdr Hok HissA Hself Hs Hnone Hfree Hlis Hne Hl (Hst & Hsnd & Hrcv & Hq & Hwin) Hroute.
  destruct (seg_fields src dst _ _ _ _ _ Hok) as (Eseq & Eack & Eflg & _). fold hdr in Eseq, Eack, Eflg.
  assert (forall f, ISSET hdr f = TCP_FLG_ISSET TCP_FLG_SYN f) as Eset by (intros f; unfold ISSET; by rewrite Eflg).
  change 20 with (20 + zlen (@nil Z)). eapply run_rx_new; try done. fold hdr. intros s1 Hs1.
  unfold tcp_event_segment_arrives. runs. rewrite Hl. cbn [cb_state cb_set_peer cb_set_parent cb_set_port cb_set_state].
  unfold arrives_listen. rewrite !Eset, Eseq. do 2 branch false by done. branch true by done. runs.
  assert (u32 (issA + 1) = issA + 1) as E1 by (apply u32_small; unfold is_u32; lia). rewrite !E1 in *. clear E1.
  current Hs2. assert (u32 x = x) as Ex by (apply u32_small; unfold is_u32; lia). rewrite Ex in *. clear Ex.
  set (c2 := cb_set_iss x _) in *.
  eapply (run_tx_control _ c2 _ _ _ _ _ _ _ _ _ _ _ iface); [exact Hs2|done|exact Hroute|done|unfold tx_held, txq_have_unsent; cbn; by rewrite Hq|].
  intros s4 Hs4. runs. unfold check_urg. runs. rewrite Eset. branch false by done. runs. unfold check_text. runs.
  cbn [cb_state cb_set_state]. runs. unfold check_fin. rewrite Eset. branch false by done . apply safe_tail. runs. current Hs5.
  exists x. eexists. split; [done|]. split; [exact Hs5|].
  assert (u32 (cb_iss c2 + 1) = x + 1) as -> by (apply u32_small; unfold is_u32; cbn; lia).
  split; [|split; [done|cbn; by rewrite Hq]]. split; try done; cbn [cb_snd cb_set_snd cb_set_state cb_set_timeout cb_txq].
  - change (cb_snd c2) with (cb_snd ci). cbn. by rewrite Hsnd.
  - cbn. by rewrite Hrcv.
  - apply (txq_put_ok 0); [cbn; rewrite Hq; apply txq0_ok|cbn; lia|cbn; rewrite ntoh32_hton32 by (unfold is_u32; cbn; lia); cbn; lia|done|done|cbn; by rewrite Hq].
Qed.

(** The answer arrives at the client: the connection is open there, and the call of
    [tcp_api_connect] is woken. *)
Lemma run_syn_ack_arrives src dst iface cB issB issA rcvA (s : tcp W) i ci t out wk p pport :
  let flg := Z.lor TCP_FLG_SYN TCP_FLG_ACK in
  let hdr := seg_sum src dst (seg_hdr cB issB (issA + 1) flg) [] in
  seg_ok cB issB (issA + 1) flg [] -> 0 <= issA < 2147483648 -> 0 <= issB < 2147483648 -> sys_unicast iface = dst ->
  state_of i ci t out wk false s ->
  first_index (connects iface hdr src) (cb_table s) = Some i ->
  endpoint ci SYN_SENT iface p src pport (Snd (issA + 1) issA 0 0 0 0) rcvA -> cb_iss ci = issA -> net_route iface src ->
  safe (tcp_rx (seg_wire src dst (seg_hdr cB issB (issA + 1) flg) []) 20 src dst iface) s (fun _ s' => exists c',
    state_of i c' t (out ++ [(iface, segment_from c' (issA + 1) (issB + 1) TCP_FLG_ACK [], src)])
      (wk ++ [SignalTimer; Signal i]) false s' /\
    endpoint c' ESTABLISHED iface p src pport (Snd (issA + 1) (issA + 1) 0 0 0 0) (rcv_set_nxt (issB + 1) rcvA) /\
    cb_used c' = cb_used ci /\ cb_txq c' = cb_txq ci).
Proof.
  intros flg hdr Hok HissA HissB Hself Hs Hfind [Hst Hif Hp Hpeer Hpp Hsnd Hrcv Htxq Hwin] Hiss Hroute.
  destruct (seg_fields src dst _ _ _ _ _ Hok) as (Eseq & Eack & Eflg & _ & _ & Elen & _). fold hdr in Eseq, Eack, Eflg, Elen.
  assert (forall f, ISSET hdr f = TCP_FLG_ISSET flg f) as Eset by (intros f; unfold ISSET; by rewrite Eflg).
  change 20 with (20 + zlen (@nil Z)). eapply run_rx_connection; try done. fold hdr. intros s1 Hs1.
  unfold tcp_event_segment_arrives. runs. rewrite Hst. unfold arrives_syn_sent. runs. rewrite !Eset, Hsnd, Hiss, Eack.
  cbn [snd_nxt snd_una]. branch false by (cbn; lia). branch false by (cbn; lia). branch false by done.
  branch true by done. unfold syn_sent_syn. rewrite Eseq, Eack, u32_small by (unfold is_u32; lia). runs.
  branch true by (cbn; rewrite Hsnd; cbn; lia). runs. branch true by (cbn; rewrite Hiss; lia).
  unfold tx_ack. runs. current Hs2. set (c2 := cb_set_state ESTABLISHED _) in *.
  assert (snd_nxt (cb_snd c2) = issA + 1) as -> by (cbn; by rewrite Hsnd).
  assert (rcv_nxt (cb_rcv c2) = issB + 1) as -> by done.
  eapply (run_tx_plain _ c2 _ _ _ _ _ _ _ _ _ _ _ iface); [exact Hs2|done|change (cb_peer_addr c2) with (cb_peer_addr ci); by rewrite Hpeer|done|].
  intros s4 Hs4. runs. rewrite Elen, Eset. branch false by done. runs. apply safe_tail. runs. current Hs5.
  exists c2. rewrite <- app_assoc in Hs5. change (cb_peer_addr c2) with (cb_peer_addr ci) in Hs5. rewrite Hpeer in Hs5.
  split; [exact Hs5|]. split; [|done]. split; try done; cbn.
  - by rewrite Hsnd.
  - by rewrite Hrcv.
Qed.

(** The segment the receiver expects is acceptable while the window is open. *)
Lemma seq_acceptable_next r hdr plen : SEQ hdr = rcv_nxt r -> 0 <= rcv_nxt r -> 0 < rcv_wnd r ->
  rcv_nxt r + rcv_wnd r < 4294967296 -> seq_acceptable r hdr plen = true.
Proof.
  intros Es Hn Hw Hr. unfold seq_acceptable. rewrite Es, (u32_small (_ + _)) by (unfold is_u32; lia).
  rewrite (proj2 (Z.ltb_lt 0 (rcv_wnd r))), Z.leb_refl, (proj2 (Z.ltb_lt (rcv_nxt r) (_ + _))) by lia.
  by destruct (0 <? plen).
Qed.

(** Its acknowledgement arrives at the server: the connection is open there too and
    waits in the backlog of the listener. *)
Lemma run_ack_arrives src dst iface cA issA issB rcvB (s : tcp W) i l ci t out wk p pport :
  let hdr := seg_sum src dst (seg_hdr cA (issA + 1) (issB + 1) TCP_FLG_ACK) [] in
  seg_ok cA (issA + 1) (issB + 1) TCP_FLG_ACK [] -> 0 <= issA < 2147483648 -> 0 <= issB < 2147483648 ->
  sys_unicast iface = dst -> state_of i ci t out wk false s ->
  first_index (connects iface hdr src) (cb_table s) = Some i -> l <> i -> cb_parent ci = Some l ->
  endpoint ci SYN_RCVD iface p src pport (Snd (issB + 1) issB 0 0 0 0) (Rcv (issA + 1) rcvB TCP_WINDOW_SIZE) ->
  safe (tcp_rx (seg_wire src dst (seg_hdr cA (issA + 1) (issB + 1) TCP_FLG_ACK) []) 20 src dst iface) s (fun _ s' => exists c',
    state_of i c' (<[l := cb_set_backlog (cb_backlog (t !!! l) ++ [i]) (t !!! l)]> t) out
      (wk ++ [Signal l; SignalTimer; Broadcast i]) false s' /\
    endpoint c' ESTABLISHED iface p src pport (Snd (issB + 1) (issB + 1) 0 (issA + 1) (issB + 1) (rcv_wnd (cb_rcv cA)))
      (Rcv (issA + 1) rcvB TCP_WINDOW_SIZE) /\
    cb_txq c' = cb_txq ci).
Proof.
  intros hdr Hok HissA HissB Hself Hs Hfind Hne Hpar [Hst Hif Hp Hpeer Hpp Hsnd Hrcv Htxq Hwin].
  destruct (seg_fields src dst _ _ _ _ _ Hok) as (Eseq & Eack & Eflg & Ewin & _ & Elen & _). fold hdr in Eseq, Eack, Eflg, Elen, Ewin.
  assert (forall f, ISSET hdr f = TCP_FLG_ISSET TCP_FLG_ACK f) as Eset by (intros f; unfold ISSET; by rewrite Eflg).
  change 20 with (20 + zlen (@nil Z)). eapply run_rx_connection; try done. fold hdr. intros s1 Hs1.
  unfold tcp_event_segment_arrives. runs. rewrite Hst, Elen. unfold arrives_synchronized. runs. rewrite !Eset, Hrcv.
  branch false by (rewrite seq_acceptable_next; cbn; unfold TCP_WINDOW_SIZE; lia).
  branch false by done. branch false by done. branch true by done.
  unfold check_ack. runs. rewrite Hst, Hsnd, Eack. branch false by (cbn; bool_lia).
  unfold syn_rcvd_established. runs. cbn [cb_parent cb_set_state]. rewrite Hpar. runs. current Hs2.
  eapply run_mod_other; [exact Hs2|done|intros s3 Hs3]. runs. unfold check_ack_established. runs.
  rewrite Eack. branch true by (cbn; rewrite Hsnd; cbn; bool_lia). unfold ack_update. runs. rewrite Eack, Eseq.
  branch true by (cbn; rewrite Hsnd; cbn; lia). runs. 
  branch true by (cbn; rewrite Hsnd; cbn; bool_lia). runs. unfold ack_fin. runs.
  cbn [cb_state cb_set_snd cb_set_timeout cb_set_state]. runs.
  unfold check_urg. runs. rewrite Eset. branch false by done. runs. unfold check_text. runs.
  cbn [cb_state cb_set_snd cb_set_timeout cb_set_state]. rewrite Eset. branch false by done. branch false by done. runs.
  unfold check_fin. rewrite Eset. branch false by done. runs. apply safe_tail. runs. current Hs5. eexists.
  rewrite <- !app_assoc in Hs5. split; [exact Hs5|]. split; [|done]. split; try done.
  cbn [cb_snd cb_set_snd cb_set_timeout cb_set_state]. by rewrite Hsnd, Ewin.
Qed.

(** [tcp_accept_wake] and [tcp_api_accept] hand out a connection of the backlog. *)
Lemma run_accept j l c t out wk (s : tcp W) :
  state_of j c t out wk false s -> l <> j -> (l < TCP_CB_TABLE_SIZE)%nat -> (l < length t)%nat ->
  cb_used (t !!! l) = true -> cb_state (t !!! l) = LISTEN -> cb_backlog (t !!! l) = [j] ->
  safe (tcp_api_accept (Z.of_nat l)) s (fun r s' =>
    r = Return (Z.of_nat j) /\
    state_of j (cb_set_used true c) (<[l := cb_set_backlog [] (t !!! l)]> t) out wk false s').
Proof.
  intros Hs Hne Hl Hlt Hused Hst Hback. unfold tcp_api_accept.
  assert (TCP_SOCKET_INVALID (Z.of_nat l) = false) as -> by (unfold TCP_SOCKET_INVALID; lia).
  rewrite Nat2Z.id. runs. current Hs1. eapply run_get_other; [exact Hs1|done|]. rewrite Hused, Hst. branch false by done.
  unfold tcp_accept_wake, done_unlock. eapply run_get_other; [exact Hs1|done|]. rewrite Hst, Hback. branch true by done.
  eapply run_mod_other; [exact Hs1|done|intros s2 Hs2]. runs. done.
Qed.

(** [tcp_api_connect] returns once the connection is open. *)
Lemma run_connected i c t out wk (s : tcp W) : state_of i c t out wk false s -> cb_state c = ESTABLISHED ->
  safe (lock ;;; tcp_connect_wake i) s (fun r s' => r = Return 0 /\ state_of i c t out wk false s').
Proof.
  intros Hs Hst. unfold tcp_connect_wake, done_unlock. runs. rewrite Hst. branch false by done. runs. done.
Qed.

End Client.

(** ** Two hosts *)

Section Pair.
Context {H : Host} {WA WB : Type} `{NA : Network WA} `{NB : Network WB} {AB : Wire WA WB} {BA : Wire WB WA}.

(** A control block with which the client may call [tcp_api_connect]. *)
Record client_ready (i : nat) (peer : Z) (iface : nifid) (self : Z) (s : tcp WA) : Prop := {
  cr_index : (i < TCP_CB_TABLE_SIZE)%nat;
  cr_table : length (cb_table s) = TCP_CB_TABLE_SIZE;
  cr_mutex : tcp_mutex s = false;
  cr_used : cb_used (cb_table s !!! i) = true;
  cr_clean : clean (cb_table s !!! i);
  cr_port : cb_port (cb_table s !!! i) = 0;
  cr_up : net_up (tcp_world s);
  cr_route : net_route (W := WA) iface peer;
  cr_self : sys_unicast (W := WA) iface = self
}.

(** The server has the listener [l] on the port and the free control block [j], and
    no connection of the port with the client. *)
Record server_ready (j l : nat) (port peer : Z) (iface : nifid) (self : Z) (s : tcp WB) : Prop := {
  sv_table : length (cb_table s) = TCP_CB_TABLE_SIZE;
  sv_mutex : tcp_mutex s = false;
  sv_free : first_index IS_FREE_CB (cb_table s) = Some j;
  sv_clean : clean (cb_table s !!! j);
  sv_listen : first_index (fun c => serves_port iface port c && state_is (cb_state c) LISTEN) (cb_table s) = Some l;
  sv_used : cb_used (cb_table s !!! l) = true;
  sv_backlog : cb_backlog (cb_table s !!! l) = [];
  sv_new k c : cb_table s !! k = Some c -> serves_port iface port c = true -> cb_peer_addr c <> peer;
  sv_up : net_up (tcp_world s);
  sv_route : net_route (W := WB) iface peer;
  sv_self : sys_unicast (W := WB) iface = self
}.

Lemma seg_ok_control c seq ack flg port pport wnd :
  cb_port c = port -> cb_peer_port c = pport -> rcv_wnd (cb_rcv c) = wnd -> is_u16 port -> is_u16 pport -> is_u16 wnd ->
  is_u32 seq -> is_u32 ack -> is_u8 flg -> seg_ok c seq ack flg [].
Proof. intros <- <- <- ???? ??. split; try done; [split; [constructor|done]|]. right. by exists 0%nat. Qed.

(** No other control block has a connection between these two ends. *)
Definition sole (i : nat) (t : list tcp_cb) (iface : nifid) (port peer pport : Z) : Prop :=
  forall k c, k <> i -> t !! k = Some c -> serves_port iface port c = true -> cb_peer_addr c = peer -> cb_peer_port c <> pport.

Lemma connects_only iface hdr src (t : list tcp_cb) i c : (i < length t)%nat ->
  IS_FREE_CB c = false -> cb_iface c = Some iface -> cb_port c = th_dst hdr -> cb_peer_addr c = src -> cb_peer_port c = th_src hdr ->
  sole i t iface (th_dst hdr) src (th_src hdr) -> first_index (connects iface hdr src) (<[i := c]> t) = Some i.
Proof.
  intros Hi Hf Hif Hp Ha Hpp Hother. apply first_index_insert; [done| |].
  - unfold connects, serves, serves_port. by rewrite Hf, Hif, Hp, Ha, Hpp, Nat.eqb_refl, !Z.eqb_refl.
  - intros k ck Hk Hl. unfold connects, serves. destruct (serves_port _ _ ck) eqn:E; [|done]. cbn [andb].
    destruct (Z.eqb_spec (cb_peer_addr ck) src) as [Ea|]; [|done]. cbn [andb].
    exact (proj2 (Z.eqb_neq _ _) (Hother k ck Hk Hl E Ea)).
Qed.

Lemma not_free c : cb_state c <> CLOSED -> IS_FREE_CB c = false.
Proof. intros Hst. unfold IS_FREE_CB, state_is. rewrite bool_decide_eq_false_2 by done. apply andb_false_r. Qed.

Lemma port_unused iface t p k c : port_in_use t p = false -> is_u16 p -> t !! k = Some c ->
  serves_port iface (hton16 p) c = false.
Proof.
  intros Hfree Hp Hk. destruct (serves_port iface (hton16 p) c) eqn:E; [|done]. rewrite <- Hfree. symmetry.
  apply List.existsb_exists. exists c. split; [by eapply list_elem_of_In, list_elem_of_lookup_2|].
  rewrite u16_small by done. unfold serves_port in E. apply andb_true_iff in E as [[-> _]%andb_true_iff ->]. done.
Qed.

Lemma unused_sole i t iface p peer pport : port_in_use t p = false -> is_u16 p -> sole i t iface (hton16 p) peer pport.
Proof. intros Hfree Hp k c _ Hk. by rewrite (port_unused iface t p k c Hfree Hp Hk). Qed.

(** Neither is there a connection with a peer that is new, also when the backlog of a
    listener has changed. *)
Lemma new_sole j t iface port peer pport :
  (forall k c, t !! k = Some c -> serves_port iface port c = true -> cb_peer_addr c <> peer) -> sole j t iface port peer pport.
Proof. intros Hnew k c _ Hk Hs Hp. by destruct (Hnew k c Hk Hs). Qed.

Lemma sole_backlog j t iface port peer pport l b : (l < length t)%nat -> sole j t iface port peer pport ->
  sole j (<[l := cb_set_backlog b (t !!! l)]> t) iface port peer pport.
Proof.
  intros Hl Hs k c Hk Hc. destruct (decide (k = l)) as [->|Hkl].
  - rewrite list_lookup_insert_eq in Hc by done. injection Hc as <-. apply (Hs l (t !!! l)); [done|]. by apply list_lookup_lookup_total_lt.
  - rewrite list_lookup_insert_ne in Hc by done. by apply (Hs k).
Qed.

(** The listener of a server that is ready. *)
Lemma server_listener j l port peer iface self s : server_ready j l port peer iface self s ->
  l <> j /\ (j < length (cb_table s))%nat /\ (l < length (cb_table s))%nat /\ (l < TCP_CB_TABLE_SIZE)%nat /\
  cb_port (cb_table s !!! l) = port /\ cb_state (cb_table s !!! l) = LISTEN.
Proof.
  intros []. destruct (first_index_Some _ _ _ sv_free0) as (cj & Hcj & Hcjf & _).
  destruct (first_index_Some _ _ _ sv_listen0) as (cl & Hcl & [Hs Hst]%andb_true_iff & _).
  assert (cb_table s !!! l = cl) as -> by (by apply list_lookup_total_correct).
  unfold serves_port in Hs. apply andb_true_iff in Hs as [Hs Hp%Z.eqb_eq]. apply bool_decide_eq_true in Hst.
  assert (l < length (cb_table s))%nat by (by eapply lookup_lt_Some).
  split_and!; [|by eapply lookup_lt_Some|done|by rewrite <- sv_table0|done|done].
  intros ->. simplify_eq. by rewrite Hcjf in Hs.
Qed.

Section Steps.
Context (i j l : nat) (port p x : Z) (addrA addrB : Z) (ifA ifB : nifid).
Context (Hport : is_u16 port) (Hp : is_u16 p) (Hx : 0 <= x < 2147483648).

Abbreviation sending_A := (segment_from (W := WA)).
Abbreviation sending_B := (segment_from (W := WB)).

(** The SYN. *)
Lemma handshake_syn (sA : tcp WA) (sB : tcp WB) cA t out wk : sys_unicast (W := WA) ifA = addrA ->
  state_of i cA t (out ++ [(ifA, sending_A cA x 0 TCP_FLG_SYN [], addrB)]) wk false sA ->
  endpoint cA SYN_SENT ifA (hton16 p) addrB (hton16 port) (Snd (x + 1) x 0 0 0 0) (Rcv 0 0 TCP_WINDOW_SIZE) ->
  server_ready j l (hton16 port) addrA ifB addrB sB ->
  safe (deliver (length out) (tcp_world sA) ifB) sB (fun _ sB1 => exists y cB,
    0 <= y < 2147483648 /\
    state_of j cB (cb_table sB)
      (outbox (tcp_world sB) ++ [(ifB, sending_B cB y (x + 1) (Z.lor TCP_FLG_SYN TCP_FLG_ACK) [], addrA)])
      (tcp_wakes sB) false sB1 /\
    endpoint cB SYN_RCVD ifB (hton16 port) addrA (hton16 p) (Snd (y + 1) y 0 0 0 0) (Rcv (x + 1) 0 TCP_WINDOW_SIZE) /\
    cb_parent cB = Some l /\ txq_snt (cb_txq cB) = 0).
Proof.
  intros HA SA [_ A1 A2 A3 A4 _ A5 _ _] Hr.
  destruct (server_listener _ _ _ _ _ _ _ Hr) as (Hlj & Hj & Hl & _ & Elp & Els).
  destruct Hr as [HlenB HmB Hfree HcB Hlis HuL HbL Hnew HupB HrouteB HselfB].
  pose proof (state_of_self j sB Hj HupB) as SB. rewrite HmB in SB.
  assert (is_u16 (hton16 p) /\ is_u16 (hton16 port)) as [Hhp Hhport] by (split; by apply hton16_range).
  refine (deliver_sent (W := WA) (W' := WB) i cA t out wk false sA sB ifA ifB x 0 TCP_FLG_SYN [] addrA addrB _ HupB HrouteB HselfB SA A1 A3 HA _).
  eapply safe_mono.
  - eapply (run_syn_arrives addrA addrB ifB cA x sB j l);
      [|exact Hx|exact HselfB|exact SB| |exact Hfree| |exact Hlj|exact Els|exact HcB|exact HrouteB].
    + eapply seg_ok_control; [exact A2|exact A4|by rewrite A5|done|done|done|unfold is_u32; lia|done|done].
    + apply first_index_none. intros k c Hk. unfold connects, serves. cbn [th_dst seg_sum th_set_sum seg_hdr].
      rewrite A4. destruct (serves_port ifB (hton16 port) c) eqn:E; [|done].
      by rewrite (proj2 (Z.eqb_neq _ _) (Hnew k c Hk E)).
    + rewrite <- Hlis. unfold listens, serves. cbn [th_dst seg_sum th_set_sum seg_hdr]. by rewrite A4.
  - intros _ s' (y & c' & ? & ? & Hen & ? & ?). exists y, c'. by rewrite Elp, A2 in Hen.
Qed.

(** Its answer. *)
Lemma handshake_syn_ack y (sA : tcp WA) (sB : tcp WB) cA cB tA tB outA outB wkA wkB : 0 <= y < 2147483648 ->
  sys_unicast (W := WA) ifA = addrA -> sys_unicast (W := WB) ifB = addrB -> net_route (W := WA) ifA addrB ->
  port_in_use tA p = false ->
  state_of i cA tA outA wkA false sA -> cb_iss cA = x ->
  endpoint cA SYN_SENT ifA (hton16 p) addrB (hton16 port) (Snd (x + 1) x 0 0 0 0) (Rcv 0 0 TCP_WINDOW_SIZE) ->
  state_of j cB tB (outB ++ [(ifB, sending_B cB y (x + 1) (Z.lor TCP_FLG_SYN TCP_FLG_ACK) [], addrA)]) wkB false sB ->
  endpoint cB SYN_RCVD ifB (hton16 port) addrA (hton16 p) (Snd (y + 1) y 0 0 0 0) (Rcv (x + 1) 0 TCP_WINDOW_SIZE) ->
  safe (deliver (length outB) (tcp_world sB) ifA) sA (fun _ sA1 => exists cA',
    state_of i cA' tA (outA ++ [(ifA, sending_A cA' (x + 1) (y + 1) TCP_FLG_ACK [], addrB)])
      (wkA ++ [SignalTimer; Signal i]) false sA1 /\
    endpoint cA' ESTABLISHED ifA (hton16 p) addrB (hton16 port) (Snd (x + 1) (x + 1) 0 0 0 0)
      (Rcv (y + 1) 0 TCP_WINDOW_SIZE) /\
    cb_used cA' = cb_used cA /\ cb_txq cA' = cb_txq cA).
Proof.
  intros Hy HA HB HrA Hfree SA Eiss EA SB [_ B1 B2 B3 B4 _ B5 _ _]. pose proof EA as [A0 A1 A2 A3 A4 _ _ _ _].
  assert (is_u16 (hton16 p) /\ is_u16 (hton16 port)) as [Hhp Hhport] by (split; by apply hton16_range).
  refine (deliver_sent (W := WB) (W' := WA) j cB tB outB wkB false sB sA ifB ifA _ _ _ [] addrB addrA _ (so_up _ _ _ _ _ _ _ SA) HrA HA SB B1 B3 HB _).
  eapply safe_mono.
  - eapply (run_syn_ack_arrives addrB addrA ifA cB y x);
      [|exact Hx|exact Hy|exact HA|exact SA| |exact EA|exact Eiss|exact HrA].
    + eapply seg_ok_control; [exact B2|exact B4|by rewrite B5|done|done|done|unfold is_u32; lia..|done].
    + rewrite (so_table _ _ _ _ _ _ _ SA).
      apply connects_only; [by apply SA|apply not_free; by rewrite A0|done|by rewrite A2, <- B4|done|by rewrite A4, <- B2|].
      cbn [th_dst seg_sum th_set_sum seg_hdr]. rewrite B4. by apply unused_sole.
  - intros _ s' (c' & ? & ? & ? & ?). by exists c'.
Qed.

(** The acknowledgement of both. *)
Lemma handshake_ack y (sA : tcp WA) (sB sB1 : tcp WB) cA cB tA outA outB wkA wkB : 0 <= y < 2147483648 ->
  sys_unicast (W := WA) ifA = addrA -> server_ready j l (hton16 port) addrA ifB addrB sB ->
  state_of i cA tA (outA ++ [(ifA, sending_A cA (x + 1) (y + 1) TCP_FLG_ACK [], addrB)]) wkA false sA ->
  endpoint cA ESTABLISHED ifA (hton16 p) addrB (hton16 port) (Snd (x + 1) (x + 1) 0 0 0 0) (Rcv (y + 1) 0 TCP_WINDOW_SIZE) ->
  state_of j cB (cb_table sB) outB wkB false sB1 -> cb_parent cB = Some l ->
  endpoint cB SYN_RCVD ifB (hton16 port) addrA (hton16 p) (Snd (y + 1) y 0 0 0 0) (Rcv (x + 1) 0 TCP_WINDOW_SIZE) ->
  safe (deliver (length outA) (tcp_world sA) ifB) sB1 (fun _ sB2 => exists cB',
    state_of j cB' (<[l := cb_set_backlog [j] (cb_table sB !!! l)]> (cb_table sB)) outB
      (wkB ++ [Signal l; SignalTimer; Broadcast j]) false sB2 /\
    endpoint cB' ESTABLISHED ifB (hton16 port) addrA (hton16 p)
      (Snd (y + 1) (y + 1) 0 (x + 1) (y + 1) TCP_WINDOW_SIZE) (Rcv (x + 1) 0 TCP_WINDOW_SIZE) /\
    cb_txq cB' = cb_txq cB).
Proof.
  intros Hy HA Hr SA [_ A1 A2 A3 A4 _ A5 _ _] SB Hpar EB. pose proof EB as [B0 B1 B2 B3 B4 _ _ _ _].
  destruct (server_listener _ _ _ _ _ _ _ Hr) as (Hlj & Hj & Hl & _ & Elp & Els).
  destruct Hr as [HlenB HmB Hfree HcB Hlis HuL HbL Hnew HupB HrouteB HselfB].
  assert (is_u16 (hton16 p) /\ is_u16 (hton16 port)) as [Hhp Hhport] by (split; by apply hton16_range).
  refine (deliver_sent (W := WA) (W' := WB) i cA tA outA wkA false sA sB1 ifA ifB _ _ _ [] addrA addrB _
    (so_up _ _ _ _ _ _ _ SB) HrouteB HselfB SA A1 A3 HA _).
  eapply safe_mono.
  - eapply (run_ack_arrives addrA addrB ifB cA x y); [|exact Hx|exact Hy|exact HselfB|exact SB| |exact Hlj|exact Hpar|exact EB].
    + eapply seg_ok_control; [exact A2|exact A4|by rewrite A5|done|done|done|unfold is_u32; lia..|done].
    + rewrite (so_table _ _ _ _ _ _ _ SB).
      apply connects_only; [done|apply not_free; by rewrite B0|done|by rewrite B2, <- A4|done|by rewrite B4, <- A2|].
      cbn [th_dst seg_sum th_set_sum seg_hdr]. rewrite A4. by eapply new_sole.
  - intros _ s' (c' & Hs' & Hen & ?). exists c'. rewrite HbL in Hs'. rewrite A5 in Hen. done.
Qed.

End Steps.

(** The whole handshake, with all that is known at its end. *)
Lemma handshake_run i j l port addrA addrB ifA ifB (sA : tcp WA) (sB : tcp WB) :
  is_u16 port -> client_ready i addrB ifA addrA sA -> server_ready j l (hton16 port) addrA ifB addrB sB ->
  let a := length (outbox (tcp_world sA)) in
  let b := length (outbox (tcp_world sB)) in
  exists p x y sA1 sA2 sA3 sB1 sB2 sB3 cA cB tB syn syn_ack ack,
    tcp_api_connect (Z.of_nat i) addrB port sA = (Blocked, sA1, []) /\
    deliver a (tcp_world sA1) ifB sB = (tt, sB1, []) /\
    deliver b (tcp_world sB1) ifA sA1 = (tt, sA2, []) /\
    deliver (S a) (tcp_world sA2) ifB sB1 = (tt, sB2, []) /\
    (lock ;;; tcp_connect_wake i) sA2 = (Return 0, sA3, []) /\ tcp_wakes sA2 = tcp_wakes sA3 /\
    tcp_api_accept (Z.of_nat l) sB2 = (Return (Z.of_nat j), sB3, []) /\ tcp_wakes sB2 = tcp_wakes sB3 /\
    is_u16 p /\ 0 <= x < 2147483648 /\ 0 <= y < 2147483648 /\ cb_used cA = true /\ cb_used cB = true /\
    txq_snt (cb_txq cA) = 0 /\ txq_snt (cb_txq cB) = 0 /\
    endpoint cA ESTABLISHED ifA (hton16 p) addrB (hton16 port) (Snd (x + 1) (x + 1) 0 0 0 0) (Rcv (y + 1) 0 TCP_WINDOW_SIZE) /\
    state_of i cA (cb_table sA) ((outbox (tcp_world sA) ++ [syn]) ++ [ack]) (tcp_wakes sA ++ [SignalTimer; Signal i]) false sA3 /\
    endpoint cB ESTABLISHED ifB (hton16 port) addrA (hton16 p)
      (Snd (y + 1) (y + 1) 0 (x + 1) (y + 1) TCP_WINDOW_SIZE) (Rcv (x + 1) 0 TCP_WINDOW_SIZE) /\
    state_of j cB tB (outbox (tcp_world sB) ++ [syn_ack]) (tcp_wakes sB ++ [Signal l; SignalTimer; Broadcast j]) false sB3 /\
    sole i (cb_table sA) ifA (hton16 p) addrB (hton16 port) /\ sole j tB ifB (hton16 port) addrA (hton16 p).
Proof.
  intros Hport [Hi HlenA HmA HuA HcA HpA HupA Hroute HselfA] Hr a b.
  destruct (server_listener _ _ _ _ _ _ _ Hr) as (Hlj & Hj & Hl & Hlt & Elp & Els).
  pose proof (state_of_self i sA ltac:(lia) HupA) as SA. rewrite HmA in SA.
  pose proof (run_connect i _ _ _ _ sA addrB port ifA SA Hi HuA HcA HpA HlenA Hroute) as R.
  apply safe_run in R as (r & sA1 & E1 & p & x & cA & -> & Hp & Hpfree & Hx & SA1 & EA1 & EissA & UA & QA).
  rewrite (u16_small port) in EA1 by done.
  pose proof (handshake_syn i j l port p x addrA addrB ifA ifB Hport Hp Hx _ _ _ _ _ _ HselfA SA1 EA1 Hr) as R.
  apply safe_run in R as ([] & sB1 & E2 & y & cB & Hy & SB1 & EB1 & Hpar & QB).
  pose proof (handshake_syn_ack i j port p x addrA addrB ifA ifB Hport Hp Hx y _ _ _ _ _ _ _ _ _ _ Hy HselfA
    (sv_self _ _ _ _ _ _ _ Hr) Hroute Hpfree SA1 EissA EA1 SB1 EB1) as R.
  apply safe_run in R as ([] & sA2 & E3 & cA2 & SA2 & EA2 & UA2 & QA2).
  pose proof (handshake_ack i j l port p x addrA addrB ifA ifB Hport Hp Hx y _ _ _ _ _ _ _ _ _ _ Hy HselfA Hr SA2 EA2
    SB1 Hpar EB1) as R.
  rewrite length_app, Nat.add_comm in R. cbn [length Nat.add] in R.
  apply safe_run in R as ([] & sB2 & E4 & cB2 & SB2 & EB2 & QB2).
  pose proof (run_connected i _ _ _ _ sA2 SA2 (en_state _ _ _ _ _ _ _ _ EA2)) as R.
  apply safe_run in R as (r & sA3 & E5 & -> & SA3).
  pose proof (run_accept j l _ _ _ _ sB2 SB2 Hlj Hlt) as R. rewrite length_insert, list_lookup_total_insert_eq in R by done.
  destruct (safe_run _ _ _ (R Hl (sv_used _ _ _ _ _ _ _ Hr) Els eq_refl)) as (r & sB3 & E6 & -> & SB3).
  exists p, x, y, sA1, sA2, sA3, sB1, sB2, sB3, cA2, (cb_set_used true cB2). do 4 eexists. split_and!; try done; try apply Hx; try apply Hy.
  - by rewrite (so_wakes _ _ _ _ _ _ _ SA2), (so_wakes _ _ _ _ _ _ _ SA3).
  - by rewrite (so_wakes _ _ _ _ _ _ _ SB2), (so_wakes _ _ _ _ _ _ _ SB3).
  - by rewrite UA2.
  - by rewrite QA2.
  - cbn. by rewrite QB2.
  - by destruct EB2.
  - by apply unused_sole.
  - pose proof (new_sole j _ _ _ _ (hton16 p) (sv_new _ _ _ _ _ _ _ Hr)) as Hs.
    rewrite list_insert_insert_eq. by apply (sole_backlog _ _ _ _ _ _ l []).
Qed.

(** C10: a client that calls [tcp_api_connect] and a host with a listener on the port
    open a connection when their segments arrive: the SYN at the server, its
    answer at the client, the acknowledgement at the server.  The connect, which
    was blocked, is woken and returns 0, and [tcp_api_accept] returns the new
    connection.  Both ends are then ESTABLISHED, name each other as peers and
    agree on the sequence numbers: each has acknowledged the SYN of the other and
    expects what the other will send next.  No step has undefined behaviour.
    (The client still has a send window of 0.) *)
Theorem tcp_handshake i j l port addrA addrB ifA ifB (sA : tcp WA) (sB : tcp WB) :
  is_u16 port -> client_ready i addrB ifA addrA sA -> server_ready j l (hton16 port) addrA ifB addrB sB ->
  let a := length (outbox (tcp_world sA)) in
  let b := length (outbox (tcp_world sB)) in
  exists p x y sA1 sA2 sA3 sB1 sB2 sB3,
    tcp_api_connect (Z.of_nat i) addrB port sA = (Blocked, sA1, []) /\
    deliver a (tcp_world sA1) ifB sB = (tt, sB1, []) /\
    deliver b (tcp_world sB1) ifA sA1 = (tt, sA2, []) /\
    deliver (S a) (tcp_world sA2) ifB sB1 = (tt, sB2, []) /\
    tcp_wakes sA2 = tcp_wakes sA ++ [SignalTimer; Signal i] /\
    (lock ;;; tcp_connect_wake i) sA2 = (Return 0, sA3, []) /\
    tcp_wakes sB2 = tcp_wakes sB ++ [Signal l; SignalTimer; Broadcast j] /\
    tcp_api_accept (Z.of_nat l) sB2 = (Return (Z.of_nat j), sB3, []) /\
    endpoint (cb_table sA3 !!! i) ESTABLISHED ifA (hton16 p) addrB (hton16 port)
      (Snd (x + 1) (x + 1) 0 0 0 0) (Rcv (y + 1) 0 TCP_WINDOW_SIZE) /\
    endpoint (cb_table sB3 !!! j) ESTABLISHED ifB (hton16 port) addrA (hton16 p)
      (Snd (y + 1) (y + 1) 0 (x + 1) (y + 1) TCP_WINDOW_SIZE) (Rcv (x + 1) 0 TCP_WINDOW_SIZE).
Proof.
  intros Hport HA HB a b.
  destruct (handshake_run i j l port addrA addrB ifA ifB sA sB Hport HA HB)
    as (p & x & y & sA1 & sA2 & sA3 & sB1 & sB2 & sB3 & cA & cB & tB & syn & syn_ack & ack &
        E1 & E2 & E3 & E4 & E5 & WA' & E6 & WB' & _ & _ & _ & _ & _ & _ & _ & EA & SA & EB & SB & _).
  exists p, x, y, sA1, sA2, sA3, sB1, sB2, sB3. rewrite WA', WB', (so_wakes _ _ _ _ _ _ _ SA), (so_wakes _ _ _ _ _ _ _ SB).
  rewrite (state_of_cb _ _ _ _ _ _ _ SA), (state_of_cb _ _ _ _ _ _ _ SB). done.
Qed.

End Pair.

(** ** Examples *)

(** 10.0.0.1 connects to port 7 of 10.0.0.2, where the first control block listens. *)
Definition sample_client : tcp (list sent_segment) := Tcp (cb_set_used true cb0 :: replicate 127 cb0) false [] [].
Definition sample_listener : tcp_cb := cb_set_state LISTEN (cb_set_port (hton16 (H := LittleEndian) 7) (cb_set_used true cb0)).
Definition sample_server : tcp (list sent_segment) := Tcp (sample_listener :: replicate 127 cb0) false [] [].

Lemma sample_client_ready :
  client_ready (NA := net_network 16777226) 0 33554442 0 16777226 sample_client.
Proof.
  split; try done. unfold TCP_CB_TABLE_SIZE. lia.
Qed.

Lemma sample_server_ready :
  server_ready (NB := net_network 33554442) 1 0
    (hton16 (H := LittleEndian) 7) 16777226 0 33554442 sample_server.
Proof.
  split; try done. intros [|k] c Hk Hs; [by injection Hk as <-|].
  apply lookup_replicate in Hk as [-> _]. done.
Qed.

Lemma tcp_handshake_witness :
  exists sA1 sA3 sB3 : tcp (list sent_segment),
    tcp_api_connect (H := LittleEndian) (SYS := net_system 16777226) 0 33554442 7 sample_client = (Blocked, sA1, []) /\
    cb_state (cb_table sA3 !!! 0%nat) = ESTABLISHED /\ cb_state (cb_table sB3 !!! 1%nat) = ESTABLISHED.
Proof.
  destruct (tcp_handshake (H := LittleEndian) (AB := net_wire 16777226 33554442) (BA := net_wire 33554442 16777226) 0 1 0 7
    16777226 33554442 0 0 sample_client sample_server) as (p & x & y & sA1 & sA2 & sA3 & sB1 & sB2 & sB3 & E1 & _ & _ & _ & _ & E5 & _ & E6 & EA & EB).
  - by split.
  - exact sample_client_ready.
  - exact sample_server_ready.
  - exists sA1, sA3, sB3. split; [exact E1|]. split; [apply EA|apply EB].
Defined.
