(* ===== verification/TcpTransfer.v ===== *)
(** * TCP: transfer of data between two hosts

    What one application gives to [tcp_api_send] is what the other gets from
    [tcp_api_recv]: the segments of the sender arrive at the receiver, its
    acknowledgements arrive at the sender, and both ends are again in agreement.
    Together with the handshake this is a whole conversation of two hosts. *)

From S2P Require Import Prelude Logic Endian Cksum Queue Net IpFragment Ip TcpTypes TcpSegment TcpTimer TcpApi TcpLogic TcpDemux TcpStream TcpWire TcpSend TcpRetransmit TcpNetwork TcpHandshake TcpSample.

Definition TEXT : Z := Z.lor TCP_FLG_PSH TCP_FLG_ACK.

Section Sender.
Context {H : Host} {W : Type} `{NW : Network W}.

(** ** Sending *)

(** One turn of the loop of [tcp_api_send]: the segment is sent, or held. *)
Lemma run_send_one i c t out wk (s : tcp W) iface mss buf snt len :
  state_of i c t out wk true s -> cb_state c = ESTABLISHED -> cb_iface c = Some iface -> net_route iface (cb_peer_addr c) ->
  sys_mtu iface = mss + 80 -> 0 < mss <= 65435 -> 0 <= snt -> 0 < len -> snt + len <= zlen buf ->
  u32 (snd_nxt (cb_snd c) - snd_una (cb_snd c)) + len <= TCP_SND_BUF_SIZE ->
  let size := Z.min mss len in
  let data := take (Z.to_nat size) (drop (Z.to_nat snt) buf) in
  let nxt := snd_nxt (cb_snd c) in
  let ack := rcv_nxt (cb_rcv c) in
  let held := tx_held c TEXT data in
  safe (tcp_send_one i buf snt len) s (fun r s' => r = inr size /\ exists now, 0 < now /\
    let c1 := if held then txq_put (seg_hdr c nxt ack TEXT) data 0 (txq_snt (cb_txq c)) c
              else txq_put (header_from c nxt ack TEXT data) data now (u16 (txq_snt (cb_txq c) + size)) c in
    state_of i (cb_set_snd (snd_set_nxt (u32 (nxt + size)) (cb_snd c)) (cb_set_timeout (now + USER_TIMEOUT) c1)) t
      (if held then out else out ++ [(iface, segment_from c nxt ack TEXT data, cb_peer_addr c)]) wk true s').
Proof.
  intros Hs Hst Hif Hroute Hmtu Hmss Hsnt Hlen Hbuf Hroom size data nxt ack held.
  assert (send_mss (sys_mtu iface) len = size) as Emss.
  { unfold send_mss, IP_HDR_SIZE_MAX, TCP_HDR_SIZE. rewrite Hmtu, u64_small by lia. subst size. case_match; lia. }
  assert (size <= send_wnd c) as Hwnd.
  { unfold send_wnd. pose proof (u32_range (snd_nxt (cb_snd c) - snd_una (cb_snd c))). unfold is_u32, TCP_SND_BUF_SIZE in *.
    rewrite u16_small by (unfold is_u16; lia). lia. }
  assert (zlen data = size) as Hd by (subst data; unfold zlen in *; rewrite length_take, length_drop; lia).
  unfold tcp_send_one. runs. rewrite Hst. cbn [sendable]. runs. rewrite (proj2 (Z.ltb_lt 0 len)) by done. cbn [negb].
  rewrite Hif, Emss. cbv zeta. assert (send_wnd c <? size = false) as -> by lia. cbn [andb].
  current Hs1. eapply run_tcp_tx; [exact Hs1|exact Hif| |lia|exact Hroute|rewrite Hmtu; unfold TCP_HDR_SIZE, IP_HDR_SIZE_MIN; lia|].
  { unfold zlen in *. rewrite length_drop. lia. }
  fold data. change (Z.lor TCP_FLG_PSH TCP_FLG_ACK) with TEXT. intros s2 Hs2.
  assert (tx_queued TEXT data = true) as Eq by (unfold tx_queued; by rewrite (proj2 (Z.ltb_lt 0 (zlen data))) by lia).
  rewrite Eq in Hs2 |- *. cbn [negb andb] in Hs2 |- *. fold nxt ack in Hs2.
  fold held in Hs2 |- *.
  assert ((if held then 0 else size) =? -1 = false) as -> by (destruct held; lia).
  runs. current Hs3. split; [done|]. exists now. split; [done|].
  unfold segment_from, header_from. rewrite Hif. destruct held; exact Hs3.
Qed.

(** The octets of a segment depend on the ends of the connection and on the window. *)
Definition ends_cb (iface : nifid) (port peer pport : Z) (rcv : tcp_rcv) : tcp_cb :=
  cb_set_rcv rcv (cb_set_peer peer pport (cb_set_port port (cb_set_iface (Some iface) cb0))).

Lemma endpoint_segment c st iface port peer pport snd rcv seq ack flg data :
  endpoint c st iface port peer pport snd rcv ->
  segment_from c seq ack flg data = segment_from (ends_cb iface port peer pport rcv) seq ack flg data.
Proof.
  intros [_ E1 E2 E3 E4 _ E5 _ _]. unfold segment_from, header_from, seg_hdr, ends_cb. by rewrite E1, E2, E3, E4, E5.
Qed.

(** The segments of consecutive pieces of text, from a sequence number on. *)
Fixpoint segs_of (iface : nifid) (port peer pport : Z) (rcv : tcp_rcv) (seq : Z) (ds : list bytes) : list sent_segment :=
  match ds with
  | [] => []
  | d :: ds =>
      (iface, segment_from (ends_cb iface port peer pport rcv) seq (rcv_nxt rcv) TEXT d, peer)
      :: segs_of iface port peer pport rcv (seq + zlen d) ds
  end.

Section Loop.
Context (i : nat) (t : list tcp_cb) (wk : list wake) (iface : nifid) (mss : Z) (buf : bytes).
Context (Hmtu : sys_mtu iface = mss + 80) (Hmss : 0 < mss <= 65435).
Context (port peer pport una up wl1 wl2 wnd : Z) (rcv : tcp_rcv) (Hroute : net_route iface peer).

(** While the window of the peer has room all segments are sent at once. *)
Lemma run_send_next : forall fuel c out (s : tcp W) nxt snt len,
  (Z.to_nat len <= fuel)%nat -> state_of i c t out wk true s ->
  endpoint c ESTABLISHED iface port peer pport (Snd nxt una up wl1 wl2 wnd) rcv ->
  0 <= snt -> 0 < len -> snt + len <= zlen buf -> 0 <= una <= nxt -> nxt - una + len <= TCP_SND_BUF_SIZE ->
  nxt + len < 4294967296 -> txq_snt (cb_txq c) + len <= wnd -> txq_snt (cb_txq c) + len < 65516 ->
  safe (tcp_send_next fuel i buf snt len) s (fun r s' => r = SendReturn (snt + len) /\ exists ds c',
    concat ds = take (Z.to_nat len) (drop (Z.to_nat snt) buf) /\ Forall (fun d => 0 < zlen d <= mss) ds /\
    state_of i c' t (out ++ segs_of iface port peer pport rcv nxt ds) wk false s' /\
    endpoint c' ESTABLISHED iface port peer pport (Snd (nxt + len) una up wl1 wl2 wnd) rcv /\
    cb_used c' = cb_used c /\ cb_window c' = cb_window c /\ txq_snt (cb_txq c') = txq_snt (cb_txq c) + len).
Proof.
  induction fuel as [|fuel IH]; intros c out s nxt snt len Hf Hs En Hsnt Hlen Hbuf Huna Hroom Hnw Hw Hwm; [lia|].
  cbn [tcp_send_next]. apply safe_bind. pose proof En as [E1 E2 E3 E4 E5 E6 E7 E8 E9].
  pose proof (tq_sane _ _ E8) as Hsane. pose proof (data_total_bound _ Hsane). pose proof (tq_snt _ _ E8).
  set (size := Z.min mss len). set (data := take (Z.to_nat size) (drop (Z.to_nat snt) buf)).
  assert (zlen data = size) as Hd by (subst data; unfold zlen in *; rewrite length_take, length_drop; lia).
  assert (tx_held c TEXT data = false) as Hheld.
  { unfold tx_held. rewrite (tq_sent _ _ E8), E6, Hd. cbn. lia. }
  eapply safe_mono; [eapply (run_send_one i c t out wk s iface mss); try done; [by rewrite E4|]|].
  { rewrite E6. cbn [snd_nxt snd_una]. rewrite u32_small by (unfold is_u32, TCP_SND_BUF_SIZE in *; lia). done. }
  fold size data. rewrite Hheld, E6. cbn [snd_nxt]. rewrite (u32_small (nxt + size)) by (unfold is_u32; lia).
  intros r s1 (-> & now & Hnow & Hs1). set (c1 := cb_set_snd _ _) in Hs1.
  assert (endpoint c1 ESTABLISHED iface port peer pport (Snd (nxt + size) una up wl1 wl2 wnd) rcv) as En1.
  { split; try done. subst c1. cbn [snd_nxt cb_txq cb_set_snd cb_set_timeout]. rewrite <- Hd at 2. rewrite <- Hd.
    apply (txq_put_ok nxt); [exact E8|lia|cbn; rewrite ntoh32_hton32; unfold is_u32; cbn; lia|done|done|lia]. }
  assert (txq_snt (cb_txq c1) = txq_snt (cb_txq c) + size) as Hsnt1 by (apply u16_small; unfold is_u16; lia).
  rewrite (endpoint_segment _ _ _ _ _ _ _ _ _ _ _ _ En), E4, E7 in Hs1.
  destruct (Z.ltb_spec 0 (len - size)) as [Hmore|Hdone].
  - eapply safe_mono.
    + eapply (IH c1 _ s1 (nxt + size) (snt + size) (len - size)); [lia|exact Hs1|exact En1|lia..].
    + intros r s2 (-> & ds & c2 & Hcat & Hall & Hs2 & En2 & Hu & Hwin & Hsnt2). split; [f_equal; lia|]. exists (data :: ds), c2.
      cbn [segs_of]. rewrite Hd. replace (nxt + size + (len - size)) with (nxt + len) in En2 by lia. rewrite <- app_assoc in Hs2.
      split_and!; try done; [|constructor; [lia|done]|lia]. cbn [concat]. rewrite Hcat. subst data.
      rewrite Z2Nat.inj_add, <- drop_drop, take_take_drop by lia. f_equal. lia.
  - assert (size = len) as Esz by lia. runs. current Hs2. split; [f_equal; lia|]. exists [data], c1.
    rewrite Esz in En1. cbn [segs_of concat]. rewrite app_nil_r. split_and!; try done; [|constructor; [lia|constructor]|lia].
    subst data. by rewrite Esz.
Qed.

End Loop.

(** The whole call. *)
Lemma run_send i c t out wk (s : tcp W) iface mss buf len port peer pport nxt up wl1 wl2 wnd rcv :
  state_of i c t out wk false s -> (i < TCP_CB_TABLE_SIZE)%nat -> cb_used c = true ->
  net_route iface peer -> sys_mtu iface = mss + 80 -> 0 < mss <= 65435 ->
  endpoint c ESTABLISHED iface port peer pport (Snd nxt nxt up wl1 wl2 wnd) rcv -> txq_snt (cb_txq c) = 0 ->
  0 < len <= zlen buf -> len <= TCP_SND_BUF_SIZE -> len <= wnd -> 0 <= nxt -> nxt + len < 4294967296 ->
  safe (tcp_api_send (Z.of_nat i) buf len) s (fun r s' => r = SendReturn len /\ exists ds c',
    concat ds = take (Z.to_nat len) buf /\ Forall (fun d => 0 < zlen d <= mss) ds /\
    state_of i c' t (out ++ segs_of iface port peer pport rcv nxt ds) wk false s' /\
    endpoint c' ESTABLISHED iface port peer pport (Snd (nxt + len) nxt up wl1 wl2 wnd) rcv /\
    cb_used c' = cb_used c /\ cb_window c' = cb_window c /\ txq_snt (cb_txq c') = len).
Proof.
  intros Hs Hi Hu Hroute Hmtu Hmss En Hsnt Hlen Hb Hw H0 Hn. unfold tcp_api_send.
  assert (TCP_SOCKET_INVALID (Z.of_nat i) = false) as -> by (unfold TCP_SOCKET_INVALID; lia). cbv zeta.
  rewrite Nat2Z.id. runs. rewrite Hu. cbn [negb]. current Hs1. unfold TCP_SND_BUF_SIZE in *.
  eapply safe_mono; [eapply (run_send_next i t wk iface mss buf Hmtu Hmss); [exact Hroute| |exact Hs1|exact En|..]|].
  1-9: unfold TCP_SND_BUF_SIZE; lia.
  intros r s2 (-> & ds & c2 & Hcat & Hr). split; [done|]. exists ds, c2. split; [exact Hcat|by rewrite Hu, Hsnt, Z.add_0_l in Hr].
Qed.

End Sender.

Section Receiver.
Context {H : Host} {W : Type} `{NW : Network W}.

(** ** Receiving *)

(** The segment that is expected: its text is put behind what is buffered and
    acknowledged. *)
Lemma run_text_arrives src dst iface cS d (s : tcp W) i ci t out wk p pport n m up wl1 wl2 wnd rup rw :
  let hdr := seg_sum src dst (seg_hdr cS n m TEXT) d in
  seg_ok cS n m TEXT d -> sys_unicast iface = dst -> state_of i ci t out wk false s ->
  first_index (connects iface hdr src) (cb_table s) = Some i ->
  endpoint ci ESTABLISHED iface p src pport (Snd m m up wl1 wl2 wnd) (Rcv n rup rw) ->
  net_route iface src ->
  0 < zlen d <= rw -> rw <= TCP_WINDOW_SIZE -> 0 <= n -> n + rw < 4294967296 -> 0 <= m -> wl1 <= n -> wl2 <= m ->
  safe (tcp_rx (seg_wire src dst (seg_hdr cS n m TEXT) d) (20 + zlen d) src dst iface) s (fun _ s' => exists c',
    state_of i c' t (out ++ [(iface, segment_from c' m (n + zlen d) TCP_FLG_ACK [], src)]) (wk ++ [Broadcast i; Broadcast i])
      false s' /\
    endpoint c' ESTABLISHED iface p src pport (Snd m m up n m (rcv_wnd (cb_rcv cS))) (Rcv (n + zlen d) rup (rw - zlen d)) /\
    buffered c' = buffered ci ++ d /\ cb_used c' = cb_used ci /\ cb_txq c' = cb_txq ci).
Proof.
  intros hdr Hok Hself Hs Hfind [Hst Hif Hp Hpeer Hpp Hsnd Hrcv Htxq Hwin] Hroute Hd Hrw Hn0 Hn Hm Hwl1 Hwl2.
  destruct (seg_fields src dst _ _ _ _ _ Hok) as (Eseq & Eack & Eflg & Ewin & Ehl & Elen & Edrop).
  fold hdr in Eseq, Eack, Eflg, Elen, Ewin, Ehl.
  assert (forall f, ISSET hdr f = TCP_FLG_ISSET TEXT f) as Eset by (intros f; unfold ISSET; by rewrite Eflg).
  eapply run_rx_connection; try done. fold hdr. intros s1 Hs1.
  unfold tcp_event_segment_arrives. runs. rewrite Hst, Elen. unfold arrives_synchronized. runs. rewrite !Eset, Hrcv.
  branch false by (rewrite seq_acceptable_next; cbn; lia).
  branch false by done. branch false by done. branch true by done.
  unfold check_ack. runs. rewrite Hst. unfold check_ack_established. runs. rewrite Hsnd, Eack. cbn [snd_una snd_nxt].
  branch true by lia. unfold ack_update. runs. rewrite Eack, Eseq. branch false by (rewrite Hsnd; cbn; lia). runs.
  branch true by (rewrite Hsnd; cbn; bool_lia). runs. unfold ack_fin. runs. cbn [cb_state cb_set_snd]. rewrite Hst. runs.
  unfold check_urg. runs. rewrite Eset. branch false by done. runs. unfold check_text. runs.
  cbn [cb_state cb_set_snd]. rewrite Hst. cbn [cb_rcv cb_window cb_set_snd]. rewrite Hrcv, Eseq. cbn [rcv_nxt rcv_wnd].
  branch true by lia. rewrite Ehl. change (Z.to_nat 20) with 20%nat. rewrite Edrop.
  rewrite memcpy_ok by lia. rewrite (take_ge d) by (unfold zlen; lia).
  rewrite (u32_small (n + zlen d)) by (unfold is_u32; lia). unfold tx_ack. runs. current Hs2.
  set (c2 := cb_set_rcv _ _) in Hs2 |- *. assert (cb_rcv c2 = Rcv (n + zlen d) rup (rw - zlen d)) as Ercv.
  { cbn. rewrite Hrcv, u16_small by (unfold is_u16, TCP_WINDOW_SIZE in *; cbn; lia). done. }
  assert (cb_window c2 = cb_window (append_text hdr d ci)) as Ew by (unfold append_text; rewrite Hrcv; reflexivity).
  assert (window_ok ci) as Hok' by (unfold window_ok; rewrite Hrcv; cbn; lia).
  destruct (buffered_append hdr d ci Hok' ltac:(rewrite Hrcv; cbn; lia)) as [Hb [Hwl _]].
  rewrite Ercv. replace (snd_nxt (cb_snd c2)) with m by (cbn; by rewrite Hsnd). cbn [rcv_nxt].
  eapply (run_tx_plain _ c2 _ _ _ _ _ _ _ _ _ _ _ iface); [exact Hs2|exact Hif|change (cb_peer_addr c2) with (cb_peer_addr ci); by rewrite Hpeer|done|].
  intros s4 Hs4. runs. unfold check_fin. rewrite Eset. branch false by done. runs. apply safe_tail. runs. current Hs5.
  exists c2. rewrite <- app_assoc in Hs5. change (cb_peer_addr c2) with (cb_peer_addr ci) in Hs5. rewrite Hpeer in Hs5.
  split; [exact Hs5|]. split_and!; try done.
  - split; try done.
    + change (cb_snd c2) with (snd_set_window (ntoh16 (th_win hdr)) n m (cb_snd ci)). by rewrite Hsnd, Ewin.
    + by rewrite Ew.
  - rewrite <- Hb. unfold buffered. rewrite Ew, Ercv. unfold append_text. cbn [cb_rcv cb_set_rcv rcv_wnd]. by rewrite Hrcv.
Qed.

(** The acknowledgement of text that is in flight. *)
Lemma run_text_acked src dst iface cR a (s : tcp W) i ci t out wk p pport n m una up wl1 wl2 wnd rup rw :
  let hdr := seg_sum src dst (seg_hdr cR m a TCP_FLG_ACK) [] in
  seg_ok cR m a TCP_FLG_ACK [] -> sys_unicast iface = dst -> state_of i ci t out wk false s ->
  first_index (connects iface hdr src) (cb_table s) = Some i ->
  endpoint ci ESTABLISHED iface p src pport (Snd n una up wl1 wl2 wnd) (Rcv m rup rw) ->
  una < a <= n -> 0 < rw -> 0 <= m -> m + rw < 4294967296 -> wl1 <= m -> wl2 <= una ->
  safe (tcp_rx (seg_wire src dst (seg_hdr cR m a TCP_FLG_ACK) []) 20 src dst iface) s (fun _ s' => exists c',
    state_of i c' t out (wk ++ [SignalTimer; Broadcast i]) false s' /\
    endpoint c' ESTABLISHED iface p src pport (Snd n a up m a (rcv_wnd (cb_rcv cR))) (Rcv m rup rw) /\
    buffered c' = buffered ci /\ cb_used c' = cb_used ci /\ cb_txq c' = cb_txq ci).
Proof.
  intros hdr Hok Hself Hs Hfind [Hst Hif Hp Hpeer Hpp Hsnd Hrcv Htxq Hwin] Ha Hrw Hm Hn Hwl1 Hwl2.
  destruct (seg_fields src dst _ _ _ _ _ Hok) as (Eseq & Eack & Eflg & Ewin & _ & Elen & _).
  fold hdr in Eseq, Eack, Eflg, Elen, Ewin.
  assert (forall f, ISSET hdr f = TCP_FLG_ISSET TCP_FLG_ACK f) as Eset by (intros f; unfold ISSET; by rewrite Eflg).
  change 20 with (20 + zlen (@nil Z)). eapply run_rx_connection; try done. fold hdr. intros s1 Hs1.
  unfold tcp_event_segment_arrives. runs. rewrite Hst, Elen. unfold arrives_synchronized. runs. rewrite !Eset, Hrcv.
  branch false by (rewrite seq_acceptable_next; cbn; lia).
  branch false by done. branch false by done. branch true by done.
  unfold check_ack. runs. rewrite Hst. unfold check_ack_established. runs. rewrite Hsnd, Eack. cbn [snd_una snd_nxt].
  branch true by lia. unfold ack_update. runs. rewrite Eack, Eseq. branch true by (rewrite Hsnd; cbn; lia). runs.
  branch true by (cbn; rewrite Hsnd; cbn; bool_lia). runs. unfold ack_fin. runs.
  cbn [cb_state cb_set_snd cb_set_timeout]. rewrite Hst. runs.
  unfold check_urg. runs. rewrite Eset. branch false by done. runs. unfold check_text. runs.
  cbn [cb_state cb_set_snd cb_set_timeout]. rewrite Hst, Eset. branch false by done. branch false by done. runs.
  unfold check_fin. rewrite Eset. branch false by done. runs. apply safe_tail. runs. current Hs5. eexists.
  rewrite <- app_assoc in Hs5. split; [exact Hs5|]. split; [|done]. split; try done.
  cbn [cb_snd cb_set_snd cb_set_timeout]. by rewrite Hsnd, Ewin.
Qed.

(** [tcp_api_recv] with room for it returns all that is buffered. *)
Lemma run_recv i c t out wk (s : tcp W) size iface p peer pport snd n rup rw :
  state_of i c t out wk false s -> (i < TCP_CB_TABLE_SIZE)%nat -> cb_used c = true ->
  endpoint c ESTABLISHED iface p peer pport snd (Rcv n rup rw) -> 0 <= rw < TCP_WINDOW_SIZE -> TCP_WINDOW_SIZE - rw <= size ->
  safe (tcp_api_recv (Z.of_nat i) size) s (fun r s' =>
    r = Return (TCP_WINDOW_SIZE - rw, buffered c) /\ exists c', state_of i c' t out wk false s' /\
    endpoint c' ESTABLISHED iface p peer pport snd (Rcv n rup TCP_WINDOW_SIZE) /\ cb_used c' = true /\ cb_txq c' = cb_txq c).
Proof.
  intros Hs Hi Hu [Hst Hif Hp Hpeer Hpp Hsnd Hrcv Htxq Hwin] Hrw Hsize. unfold tcp_api_recv.
  assert (TCP_SOCKET_INVALID (Z.of_nat i) = false) as -> by (unfold TCP_SOCKET_INVALID; lia). cbv zeta.
  rewrite Nat2Z.id. runs. rewrite Hu. cbn [negb]. unfold tcp_recv_wake. runs. rewrite Hst, Hrcv. cbn [rcv_wnd].
  branch false by lia. cbv zeta. rewrite (proj2 (Z.ltb_ge size _)) by lia. unfold done_unlock. runs. current Hs1.
  split; [unfold buffered; by rewrite Hrcv|]. eexists. split; [exact Hs1|]. split; [|done].
  assert (window_ok c) as Hw by (unfold window_ok; rewrite Hrcv; cbn; lia).
  destruct (buffered_read (TCP_WINDOW_SIZE - rw) c Hw) as [_ [Hw' _]].
  { unfold buffered. rewrite Hrcv. cbn. unfold zlen in *. rewrite length_take. lia. }
  split; try done.
  - cbn [cb_rcv cb_set_rcv cb_set_window]. rewrite Hrcv. unfold rcv_set_wnd. cbn [rcv_nxt rcv_up rcv_wnd].
    rewrite Zplus_minus. done.
  - etrans; [|exact Hw']. unfold read_text. by rewrite Hrcv.
Qed.

(** The timer drops a queue that is acknowledged as a whole. *)
Lemma txq_walk_acked c iface now q : sane q -> Forall (fun e => ntoh32 (th_seq (te_hdr e)) < snd_una (cb_snd c)) q ->
  forall sum snt (w : W), is_u16 snt -> txq_walk c iface now sum snt q w = ([], u16 (snt - data_total q), w, []).
Proof.
  intros Hs. induction Hs as [|e q He Hs IH]; intros Hb sum snt w Hr.
  { cbn. by rewrite Z.sub_0_r, u16_small. }
  apply Forall_cons in Hb as [Hb Hq]. cbn [txq_walk]. rewrite (proj2 (Z.leb_gt _ _)) by done.
  rewrite IH; [|done|apply u16_range]. do 3 f_equal. fold (te_dlen e). unfold data_total, u16. cbn [foldr].
  rewrite Zminus_mod_idemp_l. f_equal. lia.
Qed.

Lemma run_timer_acked i c t out wk mx (s : tcp W) now iface p peer pport nxt up wl1 wl2 wnd rcv :
  state_of i c t out wk mx s ->
  endpoint c ESTABLISHED iface p peer pport (Snd nxt nxt up wl1 wl2 wnd) rcv ->
  safe (tcp_timer_cb now i) s (fun _ s' => exists c', state_of i c' t out wk mx s' /\
    endpoint c' ESTABLISHED iface p peer pport (Snd nxt nxt up wl1 wl2 wnd) rcv /\
    cb_txq c' = txq0 /\ cb_used c' = cb_used c /\ cb_window c' = cb_window c).
Proof.
  intros Hs [Hst Hif Hp Hpeer Hpp Hsnd Hrcv Htxq Hwin]. unfold tcp_timer_cb. runs. rewrite Hst, Hsnd. cbn [snd_una snd_nxt].
  rewrite Z.eqb_refl. branch false by done. branch false by done. destruct Htxq as [Hsent Hbelow Hsane Hsnt Hrange].
  assert (txq_entries (cb_txq c) = [] -> cb_txq c = txq0) as Hnil.
  { intros E. rewrite E in Hsnt. cbn in Hsnt. destruct (cb_txq c). cbn in *. by subst. }
  assert (safe (let* r := sysm (txq_walk c iface now 0 (txq_snt (cb_txq c)) (txq_entries (cb_txq c))) in
    cb_mod i (cb_set_txq (TxqHead r.1 r.2))) s (fun _ s' => state_of i (cb_set_txq txq0 c) t out wk mx s')) as Hw.
  { apply safe_bind. unfold safe at 1, sysm, zoom.
    rewrite txq_walk_acked; [|done|rewrite Hsnd; exact Hbelow|done]. split; [done|]. cbn [rval rst fst snd].
    apply safe_tail. rewrite Hsnt, Z.sub_diag. eapply run_mod; [|intros s2 Hs2; apply safe_ret; exact Hs2].
    by destruct Hs. }
  rewrite Hif. destruct (txq_entries (cb_txq c)) as [|e q] eqn:Eq.
  - apply safe_ret. exists c. rewrite (Hnil eq_refl). split_and!; try done. split; try done. by rewrite (Hnil eq_refl).
  - eapply safe_mono; [exact Hw|]. intros u s' Hs'. cbn in Hs'. eexists. split; [exact Hs'|]. split_and!; try done.
    split; try done. apply txq0_ok.
Qed.

End Receiver.

(** ** Two hosts *)

(** Segments of one world arrive at another host one after the other. *)
Fixpoint deliver_all {H : Host} {W W' : Type} `{NW : Network W} `{NW' : Network W'} {WW : Wire W W'} (ks : list nat) (w : W) (iface : nifid)
  : M (tcp W') unit :=
  match ks with
  | [] => ret tt
  | k :: ks => deliver k w iface ;;; deliver_all ks w iface
  end.

(** The numbers of the segments sent between two states. *)
Definition sent_since {W : Type} `{NW : Network W} (s s' : tcp W) : list nat :=
  let k := length (outbox (tcp_world s)) in
  seq k (length (outbox (tcp_world s')) - k).

(** One side of an open connection, on which nothing is in flight: the control block
    [i] has the next sequence number [nxt] and expects [ack], may send [wnd] octets,
    has [rwnd] octets of its buffer free, and [pending] are those the application
    has not read. *)
Record side_cb {H : Host} (c : tcp_cb) (iface : nifid) (port peer pport nxt ack wnd rwnd : Z) (pending : bytes) : Prop := {
  sd_used : cb_used c = true;
  sd_end : exists up wl1 wl2 rup, endpoint c ESTABLISHED iface port peer pport (Snd nxt nxt up wl1 wl2 wnd) (Rcv ack rup rwnd) /\
    wl1 <= ack /\ wl2 <= nxt;
  sd_snt : txq_snt (cb_txq c) = 0;
  sd_pending : buffered c = pending;
  sd_nxt : 0 <= nxt < 4294967296;
  sd_ack : 0 <= ack /\ ack + rwnd < 4294967296;
  sd_rwnd : 0 < rwnd <= TCP_WINDOW_SIZE
}.

Definition side {H : Host} {W : Type} `{NW : Network W} (i : nat) (s : tcp W) (iface : nifid)
    (port peer pport nxt ack wnd rwnd : Z) (pending : bytes) : Prop :=
  (i < TCP_CB_TABLE_SIZE)%nat /\ net_route (W := W) iface peer /\ exists c t out wk, state_of i c t out wk false s /\ sole i t iface port peer pport /\
    side_cb c iface port peer pport nxt ack wnd rwnd pending.

(** One application sends [len] octets of [buf] and the other reads [data]: the call of the sender, the
    arrival of its segments, the arrival of the acknowledgements, a pass of the timer
    of the sender, and the call of the receiver with a buffer of [size] octets.  No
    step has undefined behaviour. *)
Definition exchange {H : Host} {WS WR : Type} `{NS : Network WS} `{NR : Network WR} {WSR : Wire WS WR} {WRS : Wire WR WS}
    (i j : nat) (ifS ifR : nifid) (now size : Z) (buf : bytes) (len : Z) (data : bytes) (sS sS' : tcp WS) (sR sR' : tcp WR) : Prop :=
  exists sS1 sS2 sR1,
    tcp_api_send (Z.of_nat i) buf len sS = (SendReturn len, sS1, []) /\
    deliver_all (sent_since sS sS1) (tcp_world sS1) ifR sR = (tt, sR1, []) /\
    deliver_all (sent_since sR sR1) (tcp_world sR1) ifS sS1 = (tt, sS2, []) /\
    tcp_timer_cb now i sS2 = (tt, sS', []) /\
    tcp_api_recv (Z.of_nat j) size sR1 = (Return (zlen data, data), sR', []).

Section Transfer.
Context {H : Host} {WS WR : Type} `{NS : Network WS} `{NR : Network WR} {WSR : Wire WS WR} {WRS : Wire WR WS}.
Context (ifS ifR : nifid) (addrS addrR pS pR : Z).
Context (HS : sys_unicast (W := WS) ifS = addrS) (HR : sys_unicast (W := WR) ifR = addrR).
Context (HpS : is_u16 pS) (HpR : is_u16 pR) (Hle : host_endian = LittleEndian).
Context (m : Z) (Hm0 : 0 <= m < 4294967296).

(** The text arrives piece by piece and is acknowledged piece by piece. *)
Fixpoint acks_of (n rup rw : Z) (ds : list bytes) : list sent_segment :=
  match ds with
  | [] => []
  | d :: ds =>
      let rcv := Rcv (n + zlen d) rup (rw - zlen d) in
      (ifR, segment_from (W := WR) (ends_cb ifR pR addrS pS rcv) m (n + zlen d) TCP_FLG_ACK [], addrS)
      :: acks_of (n + zlen d) rup (rw - zlen d) ds
  end.

Lemma receive_all rcvS j t up rup (w : WS) : net_up w -> net_route (W := WR) ifR addrS -> is_u16 (rcv_wnd rcvS) -> rcv_nxt rcvS = m -> sole j t ifR pR addrS pS ->
  forall ds k cR out wk (s : tcp WR) n rw wl1 wl2 wnd,
  (forall x seg, segs_of (W := WS) ifS pS addrR pR rcvS n ds !! x = Some seg -> outbox w !! (k + x)%nat = Some seg) ->
  Forall (fun d => 0 < zlen d < 65516 /\ is_bytes d) ds -> zlen (concat ds) <= rw -> rw <= TCP_WINDOW_SIZE ->
  state_of j cR t out wk false s ->
  endpoint cR ESTABLISHED ifR pR addrS pS (Snd m m up wl1 wl2 wnd) (Rcv n rup rw) ->
  0 <= n -> n + rw < 4294967296 -> wl1 <= n -> wl2 <= m ->
  safe (deliver_all (seq k (length ds)) w ifR) s (fun _ s' => exists c' wk' wl1' wl2' wnd',
    state_of j c' t (out ++ acks_of n rup rw ds) wk' false s' /\
    endpoint c' ESTABLISHED ifR pR addrS pS (Snd m m up wl1' wl2' wnd')
      (Rcv (n + zlen (concat ds)) rup (rw - zlen (concat ds))) /\
    wl1' <= n + zlen (concat ds) /\ wl2' <= m /\ wnd' = match ds with [] => wnd | _ => rcv_wnd rcvS end /\
    buffered c' = buffered cR ++ concat ds /\ cb_used c' = cb_used cR /\ cb_txq c' = cb_txq cR).
Proof.
  intros Hup Hroute Hw Hm Hsole ds. induction ds as [|d ds IH]; intros k cR out wk s n rw wl1 wl2 wnd Hout Hds Hfit Hrw Hs En Hn0 Hn Hwl1 Hwl2.
  { cbn. apply safe_ret. exists cR, wk, wl1, wl2, wnd. rewrite !app_nil_r, Z.add_0_r, Z.sub_0_r. done. }
  apply Forall_cons in Hds as [[Hd Hb] Hds]. cbn [concat length] in *. rewrite zlen_app in Hfit. cbn [seq deliver_all].
  pose proof En as [E1 E2 E3 E4 E5 E6 E7 E8 E9]. apply safe_bind. pose proof (zlen_nonneg (concat ds)).
  pose proof (Hout O _ eq_refl) as Hk. rewrite Nat.add_0_r, Hm in Hk.
  refine (deliver_nth (W := WS) (W' := WR) k w _ s ifS ifR n m TEXT d addrS addrR _ Hup (so_up _ _ _ _ _ _ _ Hs) Hroute HR Hk eq_refl eq_refl HS _).
  eapply safe_mono.
  - eapply run_text_arrives; [|exact HR|exact Hs| |exact En|exact Hroute|lia..].
    + split; try done; [unfold is_u32; lia|split; [done|lia]|by left].
    + rewrite (so_table _ _ _ _ _ _ _ Hs). apply connects_only; try done; [by apply Hs|apply not_free; by rewrite E1].
  - intros _ s1 (c1 & Hs1 & En1 & Hb1 & Hu1 & Ht1). eapply safe_mono.
    + eapply (IH (S k) c1 _ _ s1 (n + zlen d) (rw - zlen d) n m (rcv_wnd rcvS)); [|done|lia|lia|exact Hs1|exact En1|lia..].
      intros x seg Hx. replace (S k + x)%nat with (k + S x)%nat by lia. by apply Hout.
    + intros _ s2 (c2 & wk2 & wl1' & wl2' & wnd' & Hs2 & En2 & Hl1 & Hl2 & Hwnd & Hb2 & Hu2 & Ht2).
      rewrite (endpoint_segment _ _ _ _ _ _ _ _ _ _ _ _ En1), <- app_assoc in Hs2.
      exists c2, wk2, wl1', wl2', wnd'. rewrite zlen_app, Hb2, Hb1, <- app_assoc, Hu2, Hu1, Ht2, Ht1.
      replace (n + (zlen d + zlen (concat ds))) with (n + zlen d + zlen (concat ds)) by lia.
      replace (rw - (zlen d + zlen (concat ds))) with (rw - zlen d - zlen (concat ds)) by lia.
      split_and!; try done. by destruct ds.
Qed.

(** The acknowledgements arrive at the sender. *)
Lemma collect_all i t up rupS rwS rup (w : WR) (Hup : net_up w) (Hroute : net_route (W := WS) ifS addrR) (Hrw : 0 < rwS) (Hm : m + rwS < 4294967296) (Hsole : sole i t ifS pS addrR pR) nxt :
  nxt < 4294967296 -> forall ds k cS out wk (s : tcp WS) una rw wl1 wl2 wnd,
  (forall x seg, acks_of una rup rw ds !! x = Some seg -> outbox w !! (k + x)%nat = Some seg) ->
  Forall (fun d => 0 < zlen d < 65516 /\ is_bytes d) ds -> zlen (concat ds) <= rw -> rw <= TCP_WINDOW_SIZE ->
  state_of i cS t out wk false s ->
  endpoint cS ESTABLISHED ifS pS addrR pR (Snd nxt una up wl1 wl2 wnd) (Rcv m rupS rwS) ->
  0 <= una -> una + zlen (concat ds) <= nxt -> wl1 <= m -> wl2 <= una ->
  safe (deliver_all (seq k (length ds)) w ifS) s (fun _ s' => exists c' wk',
    state_of i c' t out wk' false s' /\
    endpoint c' ESTABLISHED ifS pS addrR pR
      (match ds with
       | [] => Snd nxt una up wl1 wl2 wnd
       | _ => Snd nxt (una + zlen (concat ds)) up m (una + zlen (concat ds)) (rw - zlen (concat ds))
       end) (Rcv m rupS rwS) /\
    buffered c' = buffered cS /\ cb_used c' = cb_used cS /\ cb_txq c' = cb_txq cS).
Proof.
  intros Hnxt ds. induction ds as [|d ds IH]; intros k cS out wk s una rw wl1 wl2 wnd Hout Hds Hfit Hrw' Hs En H0 Hsum Hwl1 Hwl2.
  { cbn. apply safe_ret. by exists cS, wk. }
  apply Forall_cons in Hds as [[Hd Hb] Hds]. cbn [concat length] in *. rewrite zlen_app in Hfit, Hsum. cbn [seq deliver_all].
  pose proof En as [E1 E2 E3 E4 E5 E6 E7 E8 E9]. apply safe_bind. pose proof (zlen_nonneg (concat ds)).
  pose proof (Hout O _ eq_refl) as Hk. rewrite Nat.add_0_r in Hk. unfold TCP_WINDOW_SIZE in *.
  refine (deliver_nth (W := WR) (W' := WS) k w _ s ifR ifS m (una + zlen d) TCP_FLG_ACK [] addrR addrS _ Hup (so_up _ _ _ _ _ _ _ Hs) Hroute HS Hk eq_refl eq_refl HR _).
  eapply safe_mono.
  - eapply run_text_acked; [|exact HS|exact Hs| |exact En|lia..].
    + apply (seg_ok_control _ _ _ _ pR pS (rw - zlen d)); [done|done|done|done|done|unfold is_u16; lia|exact Hm0|unfold is_u32; lia|done].
    + rewrite (so_table _ _ _ _ _ _ _ Hs). apply connects_only; try done; [by apply Hs|apply not_free; by rewrite E1].
  - intros _ s1 (c1 & Hs1 & En1 & Hb1 & Hu1 & Ht1). eapply safe_mono.
    + eapply (IH (S k) c1 _ _ s1 (una + zlen d) (rw - zlen d) m (una + zlen d) (rw - zlen d));
        [|done|lia|lia|exact Hs1|exact En1|lia..].
      intros x seg Hx. replace (S k + x)%nat with (k + S x)%nat by lia. by apply Hout.
    + intros _ s2 (c2 & wk2 & Hs2 & En2 & Hb2 & Hu2 & Ht2). exists c2, wk2. rewrite Hb2, Hb1, Hu2, Hu1, Ht2, Ht1.
      rewrite zlen_app. replace (una + (zlen d + zlen (concat ds))) with (una + zlen d + zlen (concat ds)) by lia.
      replace (rw - (zlen d + zlen (concat ds))) with (rw - zlen d - zlen (concat ds)) by lia.
      split_and!; try done. destruct ds; [|done]. cbn in *. rewrite !Z.add_0_r, !Z.sub_0_r. done.
Qed.

Lemma length_segs_of rcv ds : forall n, length (segs_of (W := WS) ifS pS addrR pR rcv n ds) = length ds.
Proof. induction ds as [|d ds IH]; intros n; [done|]. cbn. by rewrite IH. Qed.

Lemma length_acks_of rup ds : forall n rw, length (acks_of n rup rw ds) = length ds.
Proof. induction ds as [|d ds IH]; intros n rw; [done|]. cbn. by rewrite IH. Qed.

(** What has been sent since is what was appended to the outbox. *)
Lemma sent_since_app {W : Type} `{NW : Network W} (s s' : tcp W) out segs :
  outbox (tcp_world s) = out -> outbox (tcp_world s') = out ++ segs ->
  sent_since s s' = seq (length out) (length segs) /\
  (forall x seg, segs !! x = Some seg -> outbox (tcp_world s') !! (length out + x)%nat = Some seg).
Proof.
  intros E E'. unfold sent_since. rewrite E, E', length_app. split; [f_equal; lia|].
  intros x seg Hx. rewrite lookup_app_r by lia. rewrite <- Hx. f_equal. lia.
Qed.

(** A transfer that fits the windows and the send buffer. *)
Lemma transfer_run i j (sS : tcp WS) (sR : tcp WR) n wndS rwS pendS wndR rwR pendR mss buf len size now :
  side i sS ifS pS addrR pR n m wndS rwS pendS -> side j sR ifR pR addrS pS m n wndR rwR pendR ->
  sys_mtu (W := WS) ifS = mss + 80 -> 0 < mss <= 65435 -> is_bytes buf ->
  0 < len <= zlen buf -> len <= TCP_SND_BUF_SIZE -> len <= wndS -> len <= rwR -> zlen pendR + len <= size ->
  n + len + TCP_WINDOW_SIZE < 4294967296 ->
  exists sS' sR', exchange i j ifS ifR now size buf len (pendR ++ take (Z.to_nat len) buf) sS sS' sR sR' /\
    side i sS' ifS pS addrR pR (n + len) m (rwR - len) rwS pendS /\
    side j sR' ifR pR addrS pS m (n + len) rwS TCP_WINDOW_SIZE [].
Proof.
  intros (Hi & RtS & cS & tS & outS & wkS & SS & LS & [US (upS & wl1S & wl2S & rupS & ES & WS1 & WS2) QS PS NS' AS RS])
    (Hj & RtR & cR & tR & outR & wkR & SR & LR & [UR (upR & wl1R & wl2R & rupR & ER & WR1 & WR2) QR PR NR' AR RR])
    Hmtu Hmss Hb Hlen Hbuf Hwnd Hrw Hsize Hnw.
  pose proof (run_send i cS tS outS wkS sS ifS mss buf len pS addrR pR n upS wl1S wl2S wndS (Rcv m rupS rwS) SS Hi US RtS Hmtu Hmss ES QS
    Hlen Hbuf Hwnd ltac:(lia) ltac:(lia)) as R.
  apply safe_run in R as (r & sS1 & E1 & -> & ds & cS1 & Hcat & Hds & SS1 & ES1 & US1 & BS1 & _).
  set (data := take (Z.to_nat len) buf) in *.
  assert (zlen (concat ds) = len) as Hcl by (rewrite Hcat; unfold data, zlen in *; rewrite length_take; lia).
  assert (Forall (fun d => 0 < zlen d < 65516 /\ is_bytes d) ds) as Hds'.
  { assert (is_bytes (concat ds)) as Hbs by (rewrite Hcat; by apply Forall_take). apply Forall_concat in Hbs.
    eapply Forall_impl; [apply Forall_and; split; [exact Hds|exact Hbs]|]. intros d [? ?]. split; [lia|done]. }
  assert (ds <> []) as Hne by (intros ->; unfold zlen in Hcl; cbn in Hcl; lia).
  destruct (sent_since_app sS sS1 outS _ (so_out _ _ _ _ _ _ _ SS) (so_out _ _ _ _ _ _ _ SS1)) as [Hks Hout].
  rewrite length_segs_of in Hks.
  pose proof (receive_all (Rcv m rupS rwS) j tR upR rupR (tcp_world sS1) (so_up _ _ _ _ _ _ _ SS1) RtR ltac:(unfold is_u16, TCP_WINDOW_SIZE in *; cbn; lia) eq_refl LR
    ds (length outS) cR outR wkR sR n rwR wl1R wl2R wndR Hout Hds' ltac:(lia) ltac:(lia) SR ER ltac:(lia) ltac:(lia) WR1 WR2) as R.
  rewrite <- Hks, Hcl in R.
  apply safe_run in R as ([] & sR1 & E2 & cR1 & wkR1 & wl1' & wl2' & wnd' & SR1 & ER1 & W1 & W2 & W3 & BR1 & UR1 & QR1).
  destruct (sent_since_app sR sR1 outR _ (so_out _ _ _ _ _ _ _ SR) (so_out _ _ _ _ _ _ _ SR1)) as [Hks' Hout'].
  rewrite length_acks_of in Hks'.
  pose proof (collect_all i tS upS rupS rwS rupR (tcp_world sR1) (so_up _ _ _ _ _ _ _ SR1) RtS ltac:(lia) ltac:(lia) LS (n + len) ltac:(lia)
    ds (length outR) cS1 _ wkS sS1 n rwR wl1S wl2S wndS Hout' Hds' ltac:(lia) ltac:(lia) SS1 ES1 ltac:(lia) ltac:(lia) WS1 WS2) as R.
  rewrite <- Hks', Hcl in R. apply safe_run in R as ([] & sS2 & E3 & cS2 & wkS2 & SS2 & ES2 & BS2 & US2 & QS2).
  assert (wnd' = rwS) as -> by (by destruct ds).
  assert (endpoint cS2 ESTABLISHED ifS pS addrR pR (Snd (n + len) (n + len) upS m (n + len) (rwR - len)) (Rcv m rupS rwS)) as ES2'
    by (by destruct ds).
  pose proof (run_timer_acked i _ _ _ _ _ _ now _ _ _ _ _ _ _ _ _ _ SS2 ES2') as R.
  apply safe_run in R as ([] & sS3 & E4 & cS3 & SS3 & ES3 & QS3 & US3 & BS3).
  assert (zlen pendR = TCP_WINDOW_SIZE - rwR) as Hpend.
  { rewrite <- PR. unfold buffered. rewrite (en_rcv _ _ _ _ _ _ _ _ ER). cbn [rcv_wnd].
    pose proof (en_window _ _ _ _ _ _ _ _ ER). unfold zlen in *. rewrite length_take. lia. }
  pose proof (run_recv j cR1 _ _ _ sR1 size _ _ _ _ _ _ _ _ SR1 Hj ltac:(by rewrite UR1) ER1 ltac:(lia) ltac:(lia)) as R.
  apply safe_run in R as (r & sR2 & E5 & -> & cR2 & SR2 & ER2 & UR2 & QR2).
  assert (buffered cS3 = pendS) as PS3.
  { transitivity (buffered cS2); [unfold buffered; by rewrite BS3, (en_rcv _ _ _ _ _ _ _ _ ES3), (en_rcv _ _ _ _ _ _ _ _ ES2')|].
    rewrite BS2, <- PS. unfold buffered. by rewrite BS1, (en_rcv _ _ _ _ _ _ _ _ ES), (en_rcv _ _ _ _ _ _ _ _ ES1). }
  exists sS3, sR2. rewrite BR1, PR, Hcat in E5.
  replace (TCP_WINDOW_SIZE - (rwR - len)) with (zlen (pendR ++ data)) in E5 by (rewrite zlen_app, <- Hcat, Hcl; lia).
  split; [by exists sS1, sS2, sR1|]. split; (split; [done|split; [done|]]).
  - exists cS3, tS. do 2 eexists. split; [exact SS3|]. split; [done|].
    split; try done; [by rewrite US3, US2, US1|by exists upS, m, (n + len), rupS|by rewrite QS3|lia].
  - exists cR2, tR. do 2 eexists. split; [exact SR2|]. split; [done|].
    split; try done; [by exists upR, wl1', wl2', rupR|by rewrite QR2, QR1| |lia].
    unfold buffered. by rewrite (en_rcv _ _ _ _ _ _ _ _ ER2).
Qed.

End Transfer.

Section Conversation.
Context {H : Host} {WA WB : Type} `{NA : Network WA} `{NB : Network WB} {AB : Wire WA WB} {BA : Wire WB WA}.

(** C7: two hosts of little-endian byte order have a connection on which nothing is in
    flight.  When one application sends data that fits the send buffer and the window
    of the peer, its segments and the acknowledgements arrive in order and the other
    application reads, then it gets what it had not read before followed by exactly
    that data.  Afterwards nothing is in flight again, and both sides agree on the
    new sequence number. *)
Theorem tcp_transfer i j (sA : tcp WA) (sB : tcp WB) ifA ifB addrA addrB pA pB n m wndA rwA pendA wndB rwB pendB mss buf len size now :
  host_endian = LittleEndian ->
  sys_unicast (W := WA) ifA = addrA -> sys_unicast (W := WB) ifB = addrB -> is_u16 pA -> is_u16 pB ->
  side i sA ifA pA addrB pB n m wndA rwA pendA -> side j sB ifB pB addrA pA m n wndB rwB pendB ->
  sys_mtu (W := WA) ifA = mss + 80 -> 0 < mss <= 65435 -> is_bytes buf ->
  0 < len <= zlen buf -> len <= TCP_SND_BUF_SIZE -> len <= wndA -> len <= rwB -> zlen pendB + len <= size ->
  n + len + TCP_WINDOW_SIZE < 4294967296 ->
  exists sA' sB', exchange i j ifA ifB now size buf len (pendB ++ take (Z.to_nat len) buf) sA sA' sB sB' /\
    side i sA' ifA pA addrB pB (n + len) m (rwB - len) rwA pendA /\
    side j sB' ifB pB addrA pA m (n + len) rwA TCP_WINDOW_SIZE [].
Proof.
  intros Hle HA HB HpA HpB SA SB. assert (0 <= m < 4294967296) as Hm by (destruct SB as (_ & _ & c & t & out & wk & _ & _ & []); done).
  revert SA SB. by apply transfer_run.
Qed.

(** What the handshake leaves is an open connection with nothing in flight. *)
Lemma handshake_side {W : Type} `{NW : Network W} i c t out wk (s : tcp W) iface p peer pport nxt wl1 wl2 wnd ack :
  (i < TCP_CB_TABLE_SIZE)%nat -> net_route (W := W) iface peer -> state_of i c t out wk false s ->
  sole i t iface p peer pport -> cb_used c = true ->
  endpoint c ESTABLISHED iface p peer pport (Snd nxt nxt 0 wl1 wl2 wnd) (Rcv ack 0 TCP_WINDOW_SIZE) ->
  0 <= nxt < 4294967296 -> 0 <= ack -> ack + TCP_WINDOW_SIZE < 4294967296 -> wl1 <= ack -> wl2 <= nxt -> txq_snt (cb_txq c) = 0 ->
  side i s iface p peer pport nxt ack wnd TCP_WINDOW_SIZE [].
Proof.
  intros Hi Hro Hs Hso Hu En Hn Ha Hr H1 H2 Hq. split; [done|]. split; [done|]. exists c, t, out, wk. split; [done|]. split; [done|].
  split; try done; [by exists 0, wl1, wl2, 0|]. unfold buffered. by rewrite (en_rcv _ _ _ _ _ _ _ _ En).
Qed.

(** A whole conversation: the client [i] connects to the port, where [l] listens, and
    the server accepts the connection as [j] (the handshake); the server sends a
    greeting, which the client reads; the client sends a reply, which the server
    reads.  All calls succeed, and nothing undefined happens. *)
Definition conversation (i j l : nat) (port addrB : Z) (ifA ifB : nifid) (size now now' : Z) (greeting reply : bytes)
    (sA sA' : tcp WA) (sB sB' : tcp WB) : Prop :=
  let a := length (outbox (tcp_world sA)) in
  let b := length (outbox (tcp_world sB)) in
  exists sA1 sA2 sA3 sA4 sB1 sB2 sB3 sB4,
    tcp_api_connect (Z.of_nat i) addrB port sA = (Blocked, sA1, []) /\
    deliver a (tcp_world sA1) ifB sB = (tt, sB1, []) /\
    deliver b (tcp_world sB1) ifA sA1 = (tt, sA2, []) /\
    deliver (S a) (tcp_world sA2) ifB sB1 = (tt, sB2, []) /\
    (lock ;;; tcp_connect_wake i) sA2 = (Return 0, sA3, []) /\
    tcp_api_accept (Z.of_nat l) sB2 = (Return (Z.of_nat j), sB3, []) /\
    exchange (WS := WB) (WR := WA) j i ifB ifA now size greeting (zlen greeting) greeting sB3 sB4 sA3 sA4 /\
    exchange (WS := WA) (WR := WB) i j ifA ifB now' size reply (zlen reply) reply sA4 sA' sB4 sB'.

(** Two hosts have it, and are left with an open connection.  (A client that spoke
    first would not be heard: its send window opens with the greeting.) *)
Lemma conversation_run i j l port addrA addrB ifA ifB (sA : tcp WA) (sB : tcp WB) mssA mssB greeting reply size now now' :
  host_endian = LittleEndian -> is_u16 port ->
  client_ready i addrB ifA addrA sA -> server_ready j l (hton16 port) addrA ifB addrB sB ->
  sys_mtu (W := WA) ifA = mssA + 80 -> 0 < mssA <= 65435 -> sys_mtu (W := WB) ifB = mssB + 80 -> 0 < mssB <= 65435 ->
  is_bytes greeting -> 0 < zlen greeting <= TCP_SND_BUF_SIZE -> is_bytes reply -> 0 < zlen reply <= TCP_SND_BUF_SIZE ->
  TCP_WINDOW_SIZE <= size ->
  exists sA' sB' p n m, conversation i j l port addrB ifA ifB size now now' greeting reply sA sA' sB sB' /\
    side i sA' ifA (hton16 p) addrB (hton16 port) n m (TCP_WINDOW_SIZE - zlen reply) TCP_WINDOW_SIZE [] /\
    side j sB' ifB (hton16 port) addrA (hton16 p) m n TCP_WINDOW_SIZE TCP_WINDOW_SIZE [].
Proof.
  intros Hle Hport HA HB HmA HmA' HmB HmB' Hg Hgl Hr Hrl Hsize.
  destruct (handshake_run i j l port addrA addrB ifA ifB sA sB Hport HA HB)
    as (p & x & y & sA1 & sA2 & sA3 & sB1 & sB2 & sB3 & cA & cB & tB & syn & syn_ack & ack &
        E1 & E2 & E3 & E4 & E5 & _ & E6 & _ & Hp & Hx & Hy & UA & UB & QA & QB & EA & SA & EB & SB & LA & LB).
  destruct (server_listener _ _ _ _ _ _ _ HB) as (_ & Hj & _). unfold TCP_SND_BUF_SIZE in *.
  assert (side j sB3 ifB (hton16 port) addrA (hton16 p) (y + 1) (x + 1) TCP_WINDOW_SIZE TCP_WINDOW_SIZE []) as DB.
  { eapply (handshake_side j cB); try done; unfold TCP_WINDOW_SIZE; try lia; [by rewrite <- (sv_table _ _ _ _ _ _ _ HB)|by apply HB]. }
  assert (side i sA3 ifA (hton16 p) addrB (hton16 port) (x + 1) (y + 1) 0 TCP_WINDOW_SIZE []) as DA.
  { eapply (handshake_side i cA); try done; unfold TCP_WINDOW_SIZE; try lia; by apply HA. }
  assert (is_u16 (hton16 p) /\ is_u16 (hton16 port)) as [Hhp Hhport] by (split; by apply hton16_range).
  destruct (transfer_run (WS := WB) (WR := WA) ifB ifA addrB addrA (hton16 port) (hton16 p) (sv_self _ _ _ _ _ _ _ HB)
    (cr_self _ _ _ _ _ HA) Hhport Hhp Hle (x + 1) ltac:(lia) j i sB3 sA3 (y + 1) _ _ _ _ _ _ mssB greeting (zlen greeting) size now DB DA
    HmB HmB' Hg) as (sB4 & sA4 & X1 & DB4 & DA4); unfold TCP_SND_BUF_SIZE, TCP_WINDOW_SIZE in *;
    try (change (zlen (@nil Z)) with 0; lia); try lia.
  destruct (transfer_run (WS := WA) (WR := WB) ifA ifB addrA addrB (hton16 p) (hton16 port) (cr_self _ _ _ _ _ HA)
    (sv_self _ _ _ _ _ _ _ HB) Hhp Hhport Hle (y + 1 + zlen greeting) ltac:(lia) i j sA4 sB4 (x + 1) _ _ _ _ _ _ mssA reply (zlen reply) size now' DA4 DB4
    HmA HmA' Hr) as (sA5 & sB5 & X2 & DA5 & DB5); unfold TCP_SND_BUF_SIZE, TCP_WINDOW_SIZE in *;
    try (change (zlen (@nil Z)) with 0; lia); try lia.
  rewrite take_ge in X1, X2 by (unfold zlen; lia). exists sA5, sB5, p, (x + 1 + zlen reply), (y + 1 + zlen greeting).
  split; [by exists sA1, sA2, sA3, sA4, sB1, sB2, sB3, sB4|done].
Qed.

End Conversation.

(** ** Examples *)

(** A connection of the two hosts, from port 2000 of 10.0.0.1 to port 7 of 10.0.0.2. *)
Definition sample_side (port peer pport nxt ack : Z) : tcp (list sent_segment) :=
  Tcp (cb_set_snd (Snd nxt nxt 0 0 0 65535) (cb_set_rcv (Rcv ack 0 65535) (cb_set_state ESTABLISHED
    (cb_set_iface (Some 0%nat) (cb_set_port port (cb_set_peer peer pport (cb_set_used true cb0)))))) :: []) false [] [].

Lemma sample_side_open (self port peer pport nxt ack : Z) : 0 <= nxt < 4294967296 -> 0 <= ack -> ack + 65535 < 4294967296 ->
  side (H := LittleEndian) (NW := net_network self) 0 (sample_side port peer pport nxt ack) 0 port peer pport nxt ack 65535 65535 [].
Proof.
  intros Hn Ha Hr. split; [unfold TCP_CB_TABLE_SIZE; lia|]. split; [done|]. do 4 eexists.
  split; [exact (state_of_self (NW := net_network self) 0 (sample_side port peer pport nxt ack) ltac:(cbn; lia) I)|].
  split; [by intros [|k] c Hk Hc|]. split; try done. exists 0, 0, 0, 0. split; [|lia].
  split; try done. apply txq0_ok.
Qed.

Lemma tcp_transfer_witness :
  exists sA' sB',
    exchange (H := LittleEndian) (WSR := net_wire 16777226 33554442) (WRS := net_wire 33554442 16777226) 0 0 0 0 200 65535
      sample_text 5 sample_text (sample_side 2000 33554442 1792 1000 5000) sA' (sample_side 1792 16777226 2000 5000 1000) sB'.
Proof.
  destruct (tcp_transfer (H := LittleEndian) (AB := net_wire 16777226 33554442) (BA := net_wire 33554442 16777226) 0 0
    (sample_side 2000 33554442 1792 1000 5000) (sample_side 1792 16777226 2000 5000 1000) 0 0 16777226 33554442 2000 1792
    1000 5000 65535 65535 [] 65535 65535 [] 1420 sample_text 5 65535 200) as (sA' & sB' & E & _).
  1-5, 8-9, 11-16: vm_compute; intuition discriminate.
  1-2: by apply sample_side_open.
  - by repeat constructor.
  - by exists sA', sB'.
Defined.
