(* ===== verification/TcpStall.v ===== *)
(** * TCP: a send window of zero

    The window of the peer is only taken from segments that are processed in a
    synchronized state.  Until then it is 0, and the timer sends no queued segment
    of a connection whose window is 0.  So a SYN is sent once, and a client that
    speaks first is not heard. *)

From S2P Require Import Prelude Logic Endian Cksum Queue Net IpFragment Ip TcpTypes TcpSegment TcpTimer TcpApi TcpLogic TcpDemux TcpStream TcpWire TcpSend TcpRetransmit TcpNetwork TcpHandshake TcpTransfer TcpSample.

Section Stall.
Context {H : Host} {W : Type} `{NW : Network W}.

(** ** The timer *)

Definition mute (s : tcp W) : Prop := Forall (fun c => snd_wnd (cb_snd c) <= 0) (cb_table s).

(** What keeps every window closed and sends nothing. *)
Definition silent (s s' : tcp W) : Prop := mute s -> net_up (tcp_world s) ->
  mute s' /\ net_up (tcp_world s') /\ outbox (tcp_world s') = outbox (tcp_world s).

#[export] Instance silent_preorder : PreOrder silent.
Proof.
  split; [done|]. intros s1 s2 s3 H1 H2 Hm Hu. destruct (H1 Hm Hu) as (Hm2 & Hu2 & E1).
  destruct (H2 Hm2 Hu2) as (Hm3 & Hu3 & E2). by rewrite E2, E1.
Qed.

Lemma mute_cb i (s : tcp W) : mute s -> snd_wnd (cb_snd (cb_table s !!! i)) <= 0.
Proof.
  intros Hm. rewrite list_lookup_total_alt. destruct (cb_table s !! i) as [c|] eqn:E; [|done]. cbn.
  by eapply (Forall_lookup_1 _ _ _ _ Hm).
Qed.

Lemma mod_silent i f : (forall c, snd_wnd (cb_snd c) <= 0 -> snd_wnd (cb_snd (f c)) <= 0) -> respects silent (cb_mod i f).
Proof.
  intros Hf s Hm Hu. split; [|done]. unfold mute in *. cbn. apply Forall_insert; [done|]. apply Hf, mute_cb, Hm.
Qed.

Lemma cond_silent k : respects silent (cond k).
Proof. by intros s Hm. Qed.

Lemma txq_walk_mute c iface now : snd_wnd (cb_snd c) <= 0 -> forall q sum snt (w : W), 0 <= sum ->
  rst (txq_walk c iface now sum snt q w) = w.
Proof.
  intros Hw q. induction q as [|e q IH]; intros sum snt w Hs; [done|]. cbn [txq_walk]. destruct (_ <=? _).
  - rewrite (proj2 (Z.ltb_ge sum _)) by lia. cbn [andb]. rewrite rst_bind. cbn [rst rval mret' fst snd].
    rewrite rst_bind. cbn [rst mret' fst snd]. apply IH. apply Z.mod_pos_bound. lia.
  - by apply IH.
Qed.

Lemma timer_cb_silent now i : respects silent (tcp_timer_cb now i).
Proof.
  intros s Hm. pose proof (mute_cb i s Hm) as Hc. unfold tcp_timer_cb. rewrite rst_bind. cbn [cb_get gets rst rval fst snd].
  set (c := cb_table s !!! i) in *. clearbody c. revert Hm.
  change (silent s (rst ((if state_is (cb_state c) CLOSED then ret tt else
    if (negb (snd_una (cb_snd c) =? snd_nxt (cb_snd c)) || state_is (cb_state c) TIME_WAIT) && (cb_timeout c <? now)
    then tcp_close_cb i ;;; cond (Broadcast i)
    else match txq_entries (cb_txq c), cb_iface c with
         | [], _ => ret tt
         | _, None => tell [NullDeref]
         | q, Some iface => let* r := sysm (txq_walk c iface now 0 (txq_snt (cb_txq c)) q) in cb_mod i (cb_set_txq (TxqHead r.1 r.2))
         end) s))).
  case_match; [reflexivity|]. case_match.
  { apply respects_bind; [apply _| |intros _; apply cond_silent]. by apply mod_silent. }
  destruct (txq_entries (cb_txq c)) as [|e q]; [reflexivity|]. destruct (cb_iface c) as [iface|]; [|reflexivity].
  rewrite rst_bind. etrans; [|by apply mod_silent]. unfold sysm, zoom.
  pose proof (txq_walk_mute c iface now Hc (e :: q) 0 (txq_snt (cb_txq c)) (tcp_world s) ltac:(lia)) as E.
  destruct (txq_walk _ _ _ _ _ _ _) as [[r w] u]. cbn in E |- *. subst w. by intros Hm.
Qed.

Lemma timer_cbs_silent now ids : respects silent (tcp_timer_cbs now ids).
Proof.
  induction ids as [|i ids IH]; [by intros s Hm|]. cbn [tcp_timer_cbs].
  apply respects_bind; [apply _|apply timer_cb_silent|by intros _].
Qed.

Lemma timer_thread_silent last : respects silent (tcp_timer_thread last).
Proof.
  unfold tcp_timer_thread. apply respects_bind; [apply _|by intros s Hm|intros _].
  apply respects_bind; [apply _| |intros t].
  - intros s Hm Hu. unfold sys. destruct (net_gettimeofday_calm (tcp_world s) Hu) as [Hu' E].
    destruct (sys_gettimeofday (tcp_world s)) as [t w]. cbn in *. by split.
  - apply respects_bind; [apply _|apply timer_cbs_silent|intros _].
    apply respects_bind; [apply _|by intros s Hm|intros _]. apply respects_ret. apply _.
Qed.

(** Passes of the timer thread, one after the other. *)
Fixpoint timer_passes (n : nat) (last : Z) (s : tcp W) : tcp W :=
  match n with
  | O => s
  | S n => let r := tcp_timer_thread last s in timer_passes n (rval r) (rst r)
  end.

Lemma timer_passes_silent n : forall last s, silent s (timer_passes n last s).
Proof.
  induction n as [|n IH]; intros last s; [reflexivity|]. cbn [timer_passes]. etrans; [apply timer_thread_silent|apply IH].
Qed.

Lemma state_of_mute i c t out wk mx (s : tcp W) : state_of i c t out wk mx s ->
  Forall (fun c => snd_wnd (cb_snd c) <= 0) t -> snd_wnd (cb_snd c) <= 0 -> mute s.
Proof. intros [_ E _ _ _ _] Ht Hc. unfold mute. rewrite E. by apply Forall_insert. Qed.

(** C33: no SYN is retransmitted.  When no connection of a client has a window yet,
    [tcp_api_connect] sends the SYN and waits, and then no number of passes of the
    timer sends anything: if the SYN or its answer is lost, the connection is not
    made. *)
Theorem tcp_syn_not_retransmitted i peer port iface self (s : tcp W) :
  client_ready i peer iface self s -> mute s ->
  exists s1 syn, tcp_api_connect (Z.of_nat i) peer port s = (Blocked, s1, []) /\
    forall n last, outbox (tcp_world (timer_passes n last s1)) = outbox (tcp_world s) ++ [syn].
Proof.
  intros [Hi Hlen Hm Hu Hc Hp Hup Hr _] Hmute. pose proof (state_of_self i s ltac:(lia) Hup) as Hs. rewrite Hm in Hs.
  pose proof (run_connect i _ _ _ _ s peer port iface Hs Hi Hu Hc Hp Hlen Hr) as R.
  apply safe_run in R as (r & s1 & E1 & p & x & c1 & -> & _ & _ & _ & Hs1 & En & _).
  do 2 eexists. split; [exact E1|]. intros n last.
  destruct (timer_passes_silent n last s1) as (_ & _ & ->).
  - eapply state_of_mute; [exact Hs1|exact Hmute|]. by rewrite (en_snd _ _ _ _ _ _ _ _ En).
  - apply Hs1.
  - exact (so_out _ _ _ _ _ _ _ Hs1).
Qed.

(** ** Sending *)

(** With a window of 0 the loop of [tcp_api_send] queues the data and sends nothing. *)
Lemma run_send_held i t out wk iface mss buf una up wl1 wl2 : sys_mtu iface = mss + 80 -> 0 < mss <= 65435 ->
  forall fuel c (s : tcp W) nxt snt len, (Z.to_nat len <= fuel)%nat -> state_of i c t out wk true s ->
  cb_state c = ESTABLISHED -> cb_iface c = Some iface -> net_route iface (cb_peer_addr c) -> cb_snd c = Snd nxt una up wl1 wl2 0 -> 0 <= txq_snt (cb_txq c) ->
  0 <= snt -> 0 < len -> snt + len <= zlen buf -> 0 <= una <= nxt -> nxt - una + len <= TCP_SND_BUF_SIZE ->
  nxt + len < 4294967296 ->
  safe (tcp_send_next fuel i buf snt len) s (fun r s' => r = SendReturn (snt + len) /\ exists c',
    state_of i c' t out wk false s' /\ cb_snd c' = Snd (nxt + len) una up wl1 wl2 0).
Proof.
  intros Hmtu Hmss. induction fuel as [|fuel IH];
    intros c s nxt snt len Hf Hs Hst Hif Hroute Hsnd Hq Hsnt Hlen Hbuf Huna Hroom Hnw; [lia|].
  cbn [tcp_send_next]. apply safe_bind. set (size := Z.min mss len).
  set (data := take (Z.to_nat size) (drop (Z.to_nat snt) buf)).
  assert (zlen data = size) as Hd by (subst data; unfold zlen in *; rewrite length_take, length_drop; lia).
  assert (tx_held c TEXT data = true) as Hheld.
  { unfold tx_held. rewrite Hsnd, Hd. cbn [snd_wnd]. rewrite (proj2 (Z.ltb_lt 0 _)) by lia. apply orb_true_r. }
  eapply safe_mono; [eapply (run_send_one i c t out wk s iface mss); try done|].
  { rewrite Hsnd. cbn [snd_nxt snd_una]. rewrite u32_small by (unfold is_u32, TCP_SND_BUF_SIZE in *; lia). done. }
  fold size data. rewrite Hheld, Hsnd. cbn [snd_nxt]. rewrite (u32_small (nxt + size)) by (unfold is_u32; lia).
  intros r s1 (-> & now & Hnow & Hs1). destruct (Z.ltb_spec 0 (len - size)) as [Hmore|Hdone].
  - eapply safe_mono; [eapply (IH _ s1 (nxt + size) (snt + size) (len - size)); [lia|exact Hs1|..]; try done; lia|].
    intros r s2 (-> & c2 & Hs2 & Hsnd2). split; [f_equal; lia|]. exists c2. split; [done|]. rewrite Hsnd2. f_equal. lia.
  - runs. current Hs2. split; [f_equal; lia|]. eexists. split; [exact Hs2|]. cbn. unfold snd_set_nxt. cbn. f_equal. lia.
Qed.

(** C34: a client that speaks first is not heard.  On the connection that the handshake
    leaves at the client, with a send window of 0, [tcp_api_send] accepts the data
    and returns its length, but nothing is sent: neither by the call, nor by any
    number of passes of the timer. *)
Theorem tcp_client_not_heard i (s : tcp W) iface port peer pport nxt ack rwnd pending mss buf :
  side i s iface port peer pport nxt ack 0 rwnd pending -> mute s -> sys_mtu iface = mss + 80 -> 0 < mss <= 65435 ->
  0 < zlen buf <= TCP_SND_BUF_SIZE -> nxt + zlen buf < 4294967296 ->
  exists s1, tcp_api_send (Z.of_nat i) buf (zlen buf) s = (SendReturn (zlen buf), s1, []) /\
    forall n last, outbox (tcp_world (timer_passes n last s1)) = outbox (tcp_world s).
Proof.
  intros (Hi & Hroute & c & t & out & wk & Hs & _ & [Hu (up & wl1 & wl2 & rup & En & _ & _) Hq _ Hn _ _]) Hmute Hmtu Hmss Hlen Hnw.
  assert (safe (tcp_api_send (Z.of_nat i) buf (zlen buf)) s (fun r s' => r = SendReturn (zlen buf) /\ exists c',
    state_of i c' t out wk false s' /\ cb_snd c' = Snd (nxt + zlen buf) nxt up wl1 wl2 0)) as R.
  { unfold tcp_api_send. assert (TCP_SOCKET_INVALID (Z.of_nat i) = false) as -> by (unfold TCP_SOCKET_INVALID; lia).
    cbv zeta. rewrite Nat2Z.id. runs. rewrite Hu. cbn [negb]. current Hs1.
    eapply safe_mono; [eapply (run_send_held i t out wk iface mss); [done|done| |exact Hs1|apply En|apply En|by rewrite (en_peer _ _ _ _ _ _ _ _ En)|apply En|..]; lia|].
    intros r s2 [-> Hc']. split; [f_equal; lia|done]. }
  apply safe_run in R as (r & s1 & E1 & -> & c1 & Hs1 & Hsnd). exists s1. split; [exact E1|]. intros n last.
  destruct (timer_passes_silent n last s1) as (_ & _ & ->).
  - destruct Hs as [Hti Htab _ _ _ _]. unfold mute in Hmute. rewrite Htab in Hmute.
    assert (Forall (fun c => snd_wnd (cb_snd c) <= 0) (<[i := c1]> t)) as Hm1.
    { rewrite <- (list_insert_insert_eq t i c1 c). apply Forall_insert; [done|]. by rewrite Hsnd. }
    unfold mute. by rewrite (so_table _ _ _ _ _ _ _ Hs1).
  - apply Hs1.
  - by rewrite (so_out _ _ _ _ _ _ _ Hs1), (so_out _ _ _ _ _ _ _ Hs).
Qed.

End Stall.

(** ** Examples *)

Lemma tcp_syn_not_retransmitted_witness :
  exists s1 syn, tcp_api_connect (H := LittleEndian) (SYS := net_system 16777226) 0 33554442 7 sample_client = (Blocked, s1, []) /\
    @outbox _ _ (net_network 16777226) (tcp_world (timer_passes (H := LittleEndian) (SYS := net_system 16777226) 1000 100 s1))
    = @outbox _ _ (net_network 16777226) (tcp_world sample_client) ++ [syn].
Proof.
  destruct (tcp_syn_not_retransmitted (H := LittleEndian) (NW := net_network 16777226) 0 33554442 7 0 16777226 sample_client)
    as (s1 & syn & E & Hn).
  - exact sample_client_ready.
  - by repeat constructor.
  - exists s1, syn. split; [exact E|]. exact (Hn 1000%nat 100).
Defined.

Definition sample_closed_window : tcp (list sent_segment) :=
  Tcp (cb_set_snd (Snd 1001 1001 0 0 0 0) (cb_set_rcv (Rcv 5001 0 65535) (cb_set_state ESTABLISHED
    (cb_set_iface (Some 0%nat) (cb_set_port 2000 (cb_set_peer 33554442 1792 (cb_set_used true cb0)))))) :: []) false [] [].

Lemma tcp_client_not_heard_witness :
  exists s1, tcp_api_send (H := LittleEndian) (SYS := net_system 16777226) 0 sample_text 5 sample_closed_window = (SendReturn 5, s1, []) /\
    @outbox _ _ (net_network 16777226) (tcp_world (timer_passes (H := LittleEndian) (SYS := net_system 16777226) 1000 100 s1))
    = @outbox _ _ (net_network 16777226) (tcp_world sample_closed_window).
Proof.
  destruct (tcp_client_not_heard (H := LittleEndian) (NW := net_network 16777226) 0 sample_closed_window 0 2000 33554442 1792
    1001 5001 65535 [] 1420 sample_text) as (s1 & E & Hn).
  - split; [unfold TCP_CB_TABLE_SIZE; lia|]. split; [done|]. do 4 eexists.
    split; [exact (state_of_self (NW := net_network 16777226) 0 sample_closed_window ltac:(cbn; lia) I)|].
    split; [by intros [|k] c Hk Hc|]. split; try done. exists 0, 0, 0, 0. split; [|done].
    split; try done. apply txq0_ok.
  - by repeat constructor.
  - done.
  - done.
  - done.
  - done.
  - exists s1. split; [exact E|]. exact (Hn 1000%nat 100).
Defined.
