(* ===== verification/Echo.v ===== *)
(** * The echo server (src/apps/tcp_echo.c)

    The threads of the program: [main], which opens the listening socket, the
    acceptor, and one handler per connection, which sends back what it receives.
    A thread runs until the call it is in returns or blocks; what it prints is not
    modelled.  The theorems follow the program from its start to the conversation
    with a client. *)

From S2P Require Import Prelude Logic Endian Cksum Queue CString Net IpFragment Ip TcpTypes TcpSegment TcpTimer TcpApi TcpLogic TcpDemux TcpStream TcpWire TcpSend TcpRetransmit TcpNetwork TcpHandshake TcpTransfer TcpSample.

Section Echo.
Context {H : Host} {W : Type} `{SYS : System W}.

(** ** handler *)

Definition BUF_SIZE : Z := 1024.

(** Where a handler is: before or inside [tcp_api_recv]; before [tcp_api_send] of [n]
    octets, or inside with [snt] of them sent and [len] left; before
    [tcp_api_close]; at its end. *)
Inductive handler_at := Recv | RecvWait | Send (n : Z) | SendWait (snt len : Z) | Close | Ended | OutOfFuel.

(** With its buffer. *)
Definition handler : Type := handler_at * bytes.

Definition quits (buf : bytes) (n : Z) : bool := (4 <=? n) && strncmp_eq (str "quit") buf 4.

(** Lines 36-44: [n] octets have been received into the buffer, unless [n] is -1. *)
Definition handler_received (buf : bytes) (r : outcome (Z * bytes)) : handler :=
  match r with
  | Blocked => (RecvWait, buf)
  | Return (n, data) => if n =? -1 then (Close, buf) else (Send n, data ++ drop (length data) buf)
  end.

(** Lines 47-55. *)
Definition handler_sent (buf : bytes) (len : Z) (r : send_outcome) : handler :=
  match r with
  | SendFuel => (OutOfFuel, buf)
  | SendBlocked snt => (SendWait snt (len - snt), buf)
  | SendReturn n => if n =? -1 then (Close, buf) else if quits buf n then (Close, buf) else (Recv, buf)
  end.

(** One call of the loop, or the rest of a call that was waiting. *)
Definition handler_step (soc : Z) (h : handler) : M (tcp W) handler :=
  let '(a, buf) := h in
  match a with
  | Recv => let* r := tcp_api_recv soc BUF_SIZE in ret (handler_received buf r)
  | RecvWait => lock ;;; let* r := tcp_recv_wake (Z.to_nat soc) BUF_SIZE in ret (handler_received buf r)
  | Send n => let* r := tcp_api_send soc buf n in ret (handler_sent buf n r)
  | SendWait snt len =>
      lock ;;;
      let* r := tcp_send_next (S (Z.to_nat len)) (Z.to_nat soc) buf snt len in
      ret (handler_sent buf (snt + len) r)
  | Close => tcp_api_close soc ;;; ret (Ended, buf)
  | Ended | OutOfFuel => ret h
  end.

(** ** accept_handler *)

Inductive acceptor := Accept | AcceptWait | AcceptEnded.

(** The loop of the acceptor up to the next call; the result has the socket for which
    a handler is started. *)
Definition accepted (r : outcome Z) : acceptor * option Z :=
  match r with
  | Blocked => (AcceptWait, None)
  | Return soc => if soc =? -1 then (AcceptEnded, None) else (Accept, Some soc)
  end.

Definition accept_step (listener : Z) (a : acceptor) : M (tcp W) (acceptor * option Z) :=
  match a with
  | Accept => let* r := tcp_api_accept listener in ret (accepted r)
  | AcceptWait => lock ;;; let* r := tcp_accept_wake (Z.to_nat listener) in ret (accepted r)
  | AcceptEnded => ret (AcceptEnded, None)
  end.

(** ** main *)

(** The listening socket; the rest of [main] is in Boot.v. *)
Definition main_listen : M (tcp W) (option Z) :=
  let* listener := tcp_api_open in
  if listener =? -1 then ret None else
  let* r := tcp_api_bind listener 20000 in
  if r =? -1 then ret None else
  let* r := tcp_api_listen listener in
  if r =? -1 then ret None else
  ret (Some listener).

End Echo.

(** ** The start *)

Section Start.
Context {H : Host} {WA WB : Type} `{NA : Network WA} `{NB : Network WB} {AB : Wire WA WB} {BA : Wire WB WA}.

(** The state in which the acceptor finds TCP. *)
Definition listening (w : WB) : tcp WB :=
  Tcp (cb_set_state LISTEN (cb_set_port (hton16 20000) (cb_set_used true cb0)) :: replicate 127 cb0) false [] w.

Lemma nonzero_port : (0 =? hton16 20000) = false.
Proof. unfold hton16, hton16_static, byteorder, store32. by destruct host_endian. Qed.

Lemma main_listen_first c t wk (w : WB) : IS_FREE_CB c = true -> cb_port c = 0 -> Forall (fun c => cb_port c = 0) t ->
  main_listen (Tcp (c :: t) false wk w)
  = (Some 0, Tcp (cb_set_state LISTEN (cb_set_port (hton16 20000) (cb_set_used true c)) :: t) false wk w, []).
Proof.
  intros Hf Hp Ht. assert (cb_state c = CLOSED) as Hst.
  { unfold IS_FREE_CB in Hf. apply andb_true_iff in Hf as [_ Hf]. by apply bool_decide_eq_true in Hf. }
  assert (tcp_api_open (Tcp (c :: t) false wk w) = (0, Tcp (cb_set_used true c :: t) false wk w, [])) as E1.
  { unfold tcp_api_open, mbind', lock, gets. cbn [cb_table set_tcp_mutex tcp_mutex tcp_wakes tcp_world fst snd].
    change (seq 0 TCP_CB_TABLE_SIZE) with (0%nat :: seq 1 127). cbn [List.find]. cbn. by rewrite Hf. }
  assert (existsb (fun c => cb_port c =? hton16 20000) (cb_set_used true c :: t) = false) as Hex.
  { cbn [existsb cb_port cb_set_used]. rewrite Hp, nonzero_port. cbn [orb]. clear -Ht. induction Ht as [|x l Hx _ IH]; [done|].
    cbn [existsb]. by rewrite Hx, nonzero_port, IH. }
  set (c1 := cb_set_used true c) in *. set (c2 := cb_set_port (hton16 20000) c1).
  assert (tcp_api_bind 0 20000 (Tcp (c1 :: t) false wk w) = (0, Tcp (c2 :: t) false wk w, [])) as E2.
  { unfold tcp_api_bind. change (TCP_SOCKET_INVALID 0) with false. change (u16 20000) with 20000. cbv zeta iota.
    unfold mbind' at 1, lock. unfold mbind' at 1, gets. cbn [cb_table set_tcp_mutex]. rewrite Hex.
    unfold mbind' at 1, cb_get, gets. cbn.
    change ((c1 :: t) !!! Z.to_nat 0) with c1. change (cb_state c1) with (cb_state c). rewrite Hst. done. }
  assert (tcp_api_listen 0 (Tcp (c2 :: t) false wk w) = (0, Tcp (cb_set_state LISTEN c2 :: t) false wk w, [])) as E3.
  { unfold tcp_api_listen. change (TCP_SOCKET_INVALID 0) with false. cbv zeta iota.
    unfold mbind' at 1, lock. unfold mbind' at 1, cb_get, gets. cbn -[hton16].
    change ((c2 :: t) !!! Z.to_nat 0) with c2. change (cb_state c2) with (cb_state c). rewrite Hst. change (cb_port c2) with (hton16 20000).
    rewrite Z.eqb_sym, nonzero_port. done. }
  unfold main_listen, mbind'. rewrite E1. cbn [Z.eqb]. rewrite E2. cbn [Z.eqb]. by rewrite E3.
Qed.

Lemma main_listen_starts (w : WB) : main_listen (tcp_init_state w) = (Some 0, listening w, []).
Proof.
  unfold tcp_init_state. change (replicate TCP_CB_TABLE_SIZE cb0) with (cb0 :: replicate 127 cb0).
  apply main_listen_first; [done|done|]. by apply Forall_replicate.
Qed.

Lemma listening_ready (w : WB) peer iface self : peer <> 0 -> net_up w -> net_route (W := WB) iface peer ->
  sys_unicast (W := WB) iface = self ->
  server_ready 1 0 (hton16 20000) peer iface self (listening w).
Proof.
  intros Hp Hup Hroute Hself. split; try done; cbn [cb_table listening].
  - cbn [first_index]. unfold serves_port. cbn [cb_port cb_set_state cb_set_port]. by rewrite Z.eqb_refl.
  - intros [|k] c Hk Hs; [injection Hk as <-; by apply not_eq_sym|]. cbn [lookup list_lookup] in Hk.
    apply lookup_replicate in Hk as [-> _]. done.
Qed.

(** An acceptor that waits goes on like one that calls. *)
Lemma accept_waiting (s s' : tcp WB) l b u : (l < TCP_CB_TABLE_SIZE)%nat -> b <> -1 ->
  tcp_api_accept (Z.of_nat l) s = (Return b, s', u) -> (lock ;;; tcp_accept_wake l) s = (Return b, s', u).
Proof.
  intros Hl Hb. unfold tcp_api_accept.
  assert (TCP_SOCKET_INVALID (Z.of_nat l) = false) as -> by (unfold TCP_SOCKET_INVALID; lia). cbv zeta. rewrite Nat2Z.id.
  unfold mbind', lock, cb_get, gets. cbn [cb_table set_tcp_mutex]. destruct (_ || _).
  - intros E. unfold done_unlock, mbind', unlock, modify, mret' in E. by injection E as ? ? ?.
  - intros <-. by destruct (tcp_accept_wake l _) as [[? ?] ?].
Qed.

(** C18: the echo server comes up.  From the initial state of TCP, [main] opens the
    socket 0 and listens on port 20000; the acceptor waits.  A client with another
    address that connects to the port gets its connection, and the acceptor, woken,
    starts a handler for the socket 1 and goes on. *)
Theorem tcp_echo_accepts i addrA addrB ifA ifB (sA : tcp WA) (wB : WB) :
  client_ready i addrB ifA addrA sA -> net_up wB -> net_route (W := WB) ifB addrA -> sys_unicast (W := WB) ifB = addrB ->
  addrA <> 0 ->
  let a := length (outbox (tcp_world sA)) in
  let b := length (outbox wB) in
  exists sA1 sA2 sA3 sB sB1 sB2 sB3,
    main_listen (tcp_init_state wB) = (Some 0, sB, []) /\
    accept_step 0 Accept sB = (AcceptWait, None, sB, []) /\
    tcp_api_connect (Z.of_nat i) addrB 20000 sA = (Blocked, sA1, []) /\
    deliver a (tcp_world sA1) ifB sB = (tt, sB1, []) /\
    deliver b (tcp_world sB1) ifA sA1 = (tt, sA2, []) /\
    deliver (S a) (tcp_world sA2) ifB sB1 = (tt, sB2, []) /\
    (lock ;;; tcp_connect_wake i) sA2 = (Return 0, sA3, []) /\
    tcp_wakes sB2 = [Signal 0; SignalTimer; Broadcast 1] /\
    accept_step 0 AcceptWait sB2 = (Accept, Some 1, sB3, []) /\
    cb_state (cb_table sA3 !!! i) = ESTABLISHED /\ cb_state (cb_table sB3 !!! 1%nat) = ESTABLISHED.
Proof.
  intros HA Hup Hroute HB Hne a b. pose proof (listening_ready wB addrA ifB addrB Hne Hup Hroute HB) as Hr.
  destruct (handshake_run i 1 0 20000 addrA addrB ifA ifB sA (listening wB) ltac:(done) HA Hr)
    as (p & x & y & sA1 & sA2 & sA3 & sB1 & sB2 & sB3 & cA & cB & tB & syn & syn_ack & ack &
        E1 & E2 & E3 & E4 & E5 & _ & E6 & W6 & Hp & Hx & Hy & UA & UB & QA & QB & EA & SA & EB & SB & LA & LB).
  exists sA1, sA2, sA3, (listening wB), sB1, sB2, sB3.
  split; [exact (main_listen_starts wB)|]. split; [done|]. do 5 (split; [done|]).
  split; [by rewrite W6, (so_wakes _ _ _ _ _ _ _ SB)|].
  split; [|rewrite (state_of_cb _ _ _ _ _ _ _ SA), (state_of_cb _ _ _ _ _ _ _ SB); split; [apply EA|apply EB]].
  apply accept_waiting in E6; [|unfold TCP_CB_TABLE_SIZE; lia|lia]. unfold accept_step. change (Z.to_nat 0) with 0%nat.
  rewrite <- (mbind_assoc lock (fun _ => tcp_accept_wake 0) (fun r => ret (accepted r))). unfold mbind' at 1. by rewrite E6.
Qed.

End Start.

(** ** A session with a client *)

(** Three calls of the loop: a handler that is woken by a message receives it, sends it
    back, and then closes the connection or waits for the next one. *)
Definition handler_turn {H : Host} {W : Type} `{SYS : System W} (soc : Z) (h : handler) : M (tcp W) handler :=
  let* h := handler_step soc h in
  let* h := handler_step soc h in
  handler_step soc h.

Definition is_message (msg : bytes) : Prop := is_bytes msg /\ 0 < zlen msg <= BUF_SIZE.

Lemma quits_app msg rest : quits (msg ++ rest) (zlen msg) = quits msg (zlen msg).
Proof.
  unfold quits, strncmp_eq. destruct (Z.leb_spec 4 (zlen msg)) as [Hl|]; [|done]. cbn [andb].
  change (Z.to_nat 4) with 4%nat. unfold zlen in Hl.
  by rewrite <- app_assoc, (take_app_le msg (rest ++ [0])), (take_app_le msg [0]) by lia.
Qed.

Lemma safe_group {S A B C} (m : M S A) (f : A -> M S B) (g : B -> M S C) s Q :
  safe (mbind' (mbind' m f) g) s Q -> safe (mbind' m (fun a => mbind' (f a) g)) s Q.
Proof. unfold safe. by rewrite mbind_assoc. Qed.

Section Session.
Context {H : Host} {W : Type} `{NW : Network W}.

(** The client has the address [peer] and the port [cport]; it always announces the
    window [win].  The server is reached through [iface] at the address [self]. *)
Context (iface : nifid) (self peer cport win mss : Z).

(** A segment of the client arrives.  It has no options. *)
Definition arrives (seq ack flg : Z) (data : bytes) : M (tcp W) unit :=
  tcp_rx (seg_wire peer self (TcpHdr (hton16 cport) (hton16 20000) (hton32 seq) (hton32 ack) 80 flg (hton16 win) 0 0) data)
    (20 + zlen data) peer self iface.

(** A segment of the server, with the window [wnd]. *)
Definition reply (wnd seq ack flg : Z) (data : bytes) : sent_segment :=
  (iface, seg_wire self peer (TcpHdr (hton16 20000) (hton16 cport) (hton32 seq) (hton32 ack) 80 flg (hton16 wnd) 0 0) data, peer).

(** Consecutive segments with the text [ds]. *)
Fixpoint echo_segs (seq ack : Z) (ds : list bytes) : list sent_segment :=
  match ds with
  | [] => []
  | d :: ds => reply TCP_WINDOW_SIZE seq ack TEXT d :: echo_segs (seq + zlen d) ack ds
  end.

(** Between two states the server sends [segs]. *)
Definition tells (s s' : tcp W) (segs : list sent_segment) : Prop :=
  outbox (tcp_world s') = outbox (tcp_world s) ++ segs.

(** A message of the client arrives with the sequence number [n], when the server has
    sent all below [m].  It is acknowledged; the handler, woken, sends the octets of
    the message back in segments of at most [mss] octets, and then [rest]. *)
Definition echo_turn (n m : Z) (msg : bytes) (rest : list sent_segment) (s s' : tcp W) (h h' : handler) : Prop :=
  exists s1 ds,
    arrives n m TEXT msg s = (tt, s1, []) /\
    tells s s1 [reply (TCP_WINDOW_SIZE - zlen msg) m (n + zlen msg) TCP_FLG_ACK []] /\
    handler_turn 1 h s1 = (h', s', []) /\
    tells s1 s' (echo_segs m (n + zlen msg) ds ++ rest) /\
    concat ds = msg /\ Forall (fun d => 0 < zlen d <= mss) ds.

(** Then the client acknowledges what it has got, and the timer has a pass at [now]. *)
Definition echo_round (n m : Z) (msg : bytes) (now : Z) (s s' : tcp W) (h h' : handler) : Prop :=
  exists s1 s2,
    echo_turn n m msg [] s s1 h h' /\
    arrives (n + zlen msg) (m + zlen msg) TCP_FLG_ACK [] s1 = (tt, s2, []) /\ tells s1 s2 [] /\
    tcp_timer_cb now 1 s2 = (tt, s', []) /\ tells s2 s' [].

(** One message after the other, each with the time of the pass of the timer. *)
Fixpoint echo_session (n m : Z) (msgs : list (bytes * Z)) (s s' : tcp W) (h h' : handler) : Prop :=
  match msgs with
  | [] => s' = s /\ h' = h
  | (msg, now) :: msgs => exists s1 h1, echo_round n m msg now s s1 h h1 /\
      echo_session (n + zlen msg) (m + zlen msg) msgs s1 s' h1 h'
  end.

Context (Hle : host_endian = LittleEndian) (Hself : sys_unicast (W := W) iface = self) (Hroute : net_route (W := W) iface peer).
Context (Hcport : is_u16 cport) (Hwin : BUF_SIZE <= win < 65536) (Hmtu : sys_mtu (W := W) iface = mss + 80) (Hmss : 0 < mss <= 65435).

(** The client as far as its segments go, and the server. *)
Definition client_cb : tcp_cb := ends_cb iface (hton16 cport) self (hton16 20000) (Rcv 0 0 win).
Abbreviation server c st snd rcv := (endpoint c st iface (hton16 20000) peer (hton16 cport) snd rcv).

Lemma client_ok seq ack flg data : is_u32 seq -> is_u32 ack -> is_u8 flg -> is_bytes data -> zlen data < 65516 ->
  seg_ok client_cb seq ack flg data.
Proof.
  intros ?????. assert (is_u16 (hton16 cport) /\ is_u16 (hton16 20000)) as [? ?] by (split; by apply hton16_range).
  unfold BUF_SIZE in Hwin. split; try done; [cbn; unfold is_u16; lia|by left].
Qed.

Lemma reply_segment c st snd rcv seq ack flg data : server c st snd rcv ->
  (iface, segment_from (W := W) c seq ack flg data, peer) = reply (rcv_wnd rcv) seq ack flg data.
Proof. intros En. rewrite (endpoint_segment _ _ _ _ _ _ _ _ _ _ _ _ En). unfold reply. by rewrite <- Hself. Qed.

Lemma segs_of_echo rup ack : forall ds seq,
  segs_of (W := W) iface (hton16 20000) peer (hton16 cport) (Rcv ack rup TCP_WINDOW_SIZE) seq ds = echo_segs seq ack ds.
Proof. induction ds as [|d ds IH]; intros seq; [done|]. cbn [segs_of echo_segs]. rewrite IH. unfold reply. by rewrite <- Hself. Qed.

(** ** The calls of the handler *)

Lemma run_recv_woken i c t out wk (s : tcp W) size snd n rup rw :
  state_of i c t out wk false s -> server c ESTABLISHED snd (Rcv n rup rw) ->
  0 <= rw < TCP_WINDOW_SIZE -> TCP_WINDOW_SIZE - rw <= size -> (i < TCP_CB_TABLE_SIZE)%nat -> cb_used c = true ->
  safe (lock ;;; tcp_recv_wake i size) s (fun r s' =>
    r = Return (TCP_WINDOW_SIZE - rw, buffered c) /\ exists c', state_of i c' t out wk false s' /\
    server c' ESTABLISHED snd (Rcv n rup TCP_WINDOW_SIZE) /\ cb_used c' = true /\ cb_txq c' = cb_txq c).
Proof.
  intros Hs En Hrw Hsize Hi Hu. pose proof (run_recv i c t out wk s size _ _ _ _ _ _ _ _ Hs Hi Hu En Hrw Hsize) as R.
  unfold tcp_api_recv in R.
  assert (TCP_SOCKET_INVALID (Z.of_nat i) = false) as E by (unfold TCP_SOCKET_INVALID; lia). rewrite E in R. cbv zeta in R.
  rewrite Nat2Z.id in R. unfold safe, mbind', lock, cb_get, gets in R |- *. cbn [cb_table set_tcp_mutex] in R.
  rewrite (state_of_cb _ _ _ _ _ _ _ Hs), Hu in R. cbn [negb] in R.
  destruct (tcp_recv_wake i size _) as [[r s'] u]. exact R.
Qed.

Lemma run_recv_blocks i c t out wk (s : tcp W) size snd n rup :
  state_of i c t out wk false s -> server c ESTABLISHED snd (Rcv n rup TCP_WINDOW_SIZE) -> (i < TCP_CB_TABLE_SIZE)%nat -> cb_used c = true ->
  safe (tcp_api_recv (Z.of_nat i) size) s (fun r s' => r = Blocked /\ state_of i c t out wk false s').
Proof.
  intros Hs En Hi Hu. unfold tcp_api_recv.
  assert (TCP_SOCKET_INVALID (Z.of_nat i) = false) as -> by (unfold TCP_SOCKET_INVALID; lia). cbv zeta. rewrite Nat2Z.id.
  runs. rewrite Hu. cbn [negb]. unfold tcp_recv_wake. runs. rewrite (en_state _ _ _ _ _ _ _ _ En), (en_rcv _ _ _ _ _ _ _ _ En).
  branch true by done. branch false by done. unfold cond_wait. runs. done.
Qed.

(** [tcp_api_close] of an open connection sends a FIN, behind the text in flight. *)
Lemma run_close i c t out wk (s : tcp W) nxt una up wl1 wl2 wnd rcv :
  state_of i c t out wk false s -> server c ESTABLISHED (Snd nxt una up wl1 wl2 wnd) rcv -> (i < TCP_CB_TABLE_SIZE)%nat ->
  cb_used c = true -> txq_snt (cb_txq c) <= wnd ->
  safe (tcp_api_close (Z.of_nat i)) s (fun r s' => r = Some 0 /\ exists c',
    state_of i c' t (out ++ [reply (rcv_wnd rcv) nxt (rcv_nxt rcv) (Z.lor TCP_FLG_FIN TCP_FLG_ACK) []]) wk false s' /\
    cb_state c' = FIN_WAIT1 /\ cb_used c' = false).
Proof.
  intros Hs En Hi Hu Hsnt. pose proof En as [E1 E2 E3 E4 E5 E6 E7 E8 E9]. unfold tcp_api_close.
  assert (TCP_SOCKET_INVALID (Z.of_nat i) = false) as -> by (unfold TCP_SOCKET_INVALID; lia). rewrite Nat2Z.id.
  runs. cbn [tcp_close]. runs. rewrite Hu. cbn [negb]. runs. rewrite E1. unfold tcp_send_fin. runs. current Hs1.
  set (c1 := cb_set_used false c) in Hs1 |- *. assert (server c1 ESTABLISHED (Snd nxt una up wl1 wl2 wnd) rcv) as En1 by done.
  change (cb_snd c1) with (cb_snd c). change (cb_rcv c1) with (cb_rcv c). rewrite E6, E7. cbn [snd_nxt].
  eapply (run_tx_control _ c1 _ _ _ _ _ _ _ _ _ _ _ iface); [exact Hs1|done| |done| |].
  - change (cb_peer_addr c1) with (cb_peer_addr c). by rewrite E4.
  - unfold tx_held. change (cb_txq c1) with (cb_txq c). change (cb_snd c1) with (cb_snd c).
    rewrite (tq_sent _ _ E8), E6. cbn [snd_wnd]. change (zlen []) with 0. rewrite Z.add_0_r, (proj2 (Z.ltb_ge _ _)) by done. done.
  - intros s2 Hs2. change (cb_peer_addr c1) with (cb_peer_addr c) in Hs2. rewrite E4 in Hs2.
    rewrite (reply_segment _ _ _ _ _ _ _ _ En1) in Hs2. runs. split; [done|]. current Hs3. eexists. split; [exact Hs3|done].
Qed.

(** The handler after a message: it has sent it, and has closed or waits. *)
Lemma run_turn c t out wk (s : tcp W) buf msg n m up wl1 wl2 rup :
  state_of 1 c t out wk false s -> cb_used c = true -> txq_snt (cb_txq c) = 0 ->
  server c ESTABLISHED (Snd m m up wl1 wl2 win) (Rcv n rup (TCP_WINDOW_SIZE - zlen msg)) -> buffered c = msg ->
  is_message msg -> zlen buf = BUF_SIZE -> 0 <= m -> m + zlen msg < 4294967296 ->
  let buf' := msg ++ drop (length msg) buf in
  safe (handler_turn 1 (RecvWait, buf)) s (fun h' s' => exists ds c',
    concat ds = msg /\ Forall (fun d => 0 < zlen d <= mss) ds /\
    if quits msg (zlen msg) then
      h' = (Ended, buf') /\ cb_state c' = FIN_WAIT1 /\ cb_used c' = false /\
      state_of 1 c' t (out ++ echo_segs m n ds ++ [reply TCP_WINDOW_SIZE (m + zlen msg) n (Z.lor TCP_FLG_FIN TCP_FLG_ACK) []]) wk false s'
    else
      h' = (RecvWait, buf') /\ cb_used c' = true /\ buffered c' = [] /\ state_of 1 c' t (out ++ echo_segs m n ds) wk false s' /\
      server c' ESTABLISHED (Snd (m + zlen msg) m up wl1 wl2 win) (Rcv n rup TCP_WINDOW_SIZE)).
Proof.
  intros Hs Hu Hq En Hb [Hbytes Hl] Hbuf Hm Hm' buf'. unfold BUF_SIZE in *.
  assert (zlen buf' = 1024) as Hbl by (unfold buf', zlen in *; rewrite length_app, length_drop; lia).
  unfold handler_turn, handler_step at 1. change (Z.to_nat 1) with 1%nat.
  apply safe_bind. apply (safe_group lock (fun _ => tcp_recv_wake 1 BUF_SIZE) (fun r => ret (handler_received buf r))).
  apply safe_bind. eapply safe_mono.
  { apply (run_recv_woken 1 c t out wk s BUF_SIZE _ _ _ _ Hs En); [unfold TCP_WINDOW_SIZE; lia|unfold BUF_SIZE; lia|unfold TCP_CB_TABLE_SIZE; lia|done]. }
  rewrite Hb. replace (TCP_WINDOW_SIZE - (TCP_WINDOW_SIZE - zlen msg)) with (zlen msg) by lia.
  intros r s1 (-> & c1 & Hs1 & En1 & Hu1 & Hq1). apply safe_ret. cbn [handler_received].
  rewrite (proj2 (Z.eqb_neq (zlen msg) (-1))) by lia. fold buf'.
  unfold handler_step at 1. apply safe_bind, safe_bind. change 1 with (Z.of_nat 1). eapply safe_mono.
  { eapply (run_send 1 c1 t out wk s1 iface mss buf' (zlen msg)); [exact Hs1|unfold TCP_CB_TABLE_SIZE; lia|done|exact Hroute|done|done|exact En1|..];
      rewrite ?Hq1; unfold TCP_SND_BUF_SIZE in *; lia. }
  intros r s2 (-> & ds & c2 & Hcat & Hds & Hs2 & En2 & Hu2 & _ & Hq2). apply safe_ret. cbn [handler_sent].
  rewrite (proj2 (Z.eqb_neq (zlen msg) (-1))) by lia. rewrite segs_of_echo in Hs2.
  assert (concat ds = msg) as Hcat' by (rewrite Hcat; apply take_app_length'; unfold zlen; lia).
  unfold buf' at 1. rewrite quits_app. destruct (quits msg (zlen msg)); unfold handler_step; apply safe_bind; eapply safe_mono.
  - apply (run_close 1 c2 t _ wk s2 _ _ _ _ _ _ _ Hs2 En2); [unfold TCP_CB_TABLE_SIZE; lia|by rewrite Hu2|lia].
  - intros r s3 (-> & c3 & Hs3 & St3 & Hu3). apply safe_ret. exists ds, c3. rewrite <- app_assoc in Hs3. done.
  - apply (run_recv_blocks 1 c2 t _ wk s2 BUF_SIZE _ _ _ Hs2 En2); [unfold TCP_CB_TABLE_SIZE; lia|by rewrite Hu2].
  - intros r s3 (-> & Hs3). apply safe_ret. exists ds, c2. split_and!; try done; [by rewrite Hu2|].
    unfold buffered. by rewrite (en_rcv _ _ _ _ _ _ _ _ En2).
Qed.

Abbreviation open s m n wnd := (side 1 s iface (hton16 20000) peer (hton16 cport) m n wnd TCP_WINDOW_SIZE []).

(** What is left of the connection after a message. *)
Lemma echo_turn_run msg n m wnd (s : tcp W) buf : is_message msg -> zlen buf = BUF_SIZE -> open s m n wnd ->
  n + zlen msg + TCP_WINDOW_SIZE < 4294967296 -> m + zlen msg < 4294967296 ->
  exists s' c t out wk buf', zlen buf' = BUF_SIZE /\ state_of 1 c t out wk false s' /\
    if quits msg (zlen msg) then
      echo_turn n m msg [reply TCP_WINDOW_SIZE (m + zlen msg) (n + zlen msg) (Z.lor TCP_FLG_FIN TCP_FLG_ACK) []] s s' (RecvWait, buf) (Ended, buf') /\
      cb_state c = FIN_WAIT1 /\ cb_used c = false
    else
      echo_turn n m msg [] s s' (RecvWait, buf) (RecvWait, buf') /\ cb_used c = true /\ buffered c = [] /\
      sole 1 t iface (hton16 20000) peer (hton16 cport) /\ exists up rup,
      server c ESTABLISHED (Snd (m + zlen msg) m up n m win) (Rcv (n + zlen msg) rup TCP_WINDOW_SIZE).
Proof.
  intros Hmsg Hbuf (Hi & _ & c & t & out & wk & Hs & Hsole & [Hu (up & wl1 & wl2 & rup & En & Hw1 & Hw2) Hq Hp Hnxt Hack Hrw]) Hn Hm.
  pose proof Hmsg as [Hb Hl]. unfold BUF_SIZE, TCP_WINDOW_SIZE in *.
  pose proof (run_text_arrives peer self iface client_cb msg s 1 c t out wk (hton16 20000) (hton16 cport) n m up wl1 wl2 wnd rup 65535) as R.
  cbv zeta in R. pose proof En as [E1 E2 E3 E4 E5 _ _ _ _].
  destruct (safe_run _ _ _ (R ltac:(apply client_ok; try done; unfold is_u32; lia) Hself Hs
    ltac:(rewrite (so_table _ _ _ _ _ _ _ Hs); apply connects_only; try done; [by apply Hs|apply not_free; by rewrite E1])
    En Hroute ltac:(lia) ltac:(unfold TCP_WINDOW_SIZE; lia) ltac:(lia) ltac:(lia) ltac:(lia) Hw1 Hw2))
    as ([] & s1 & A1 & c1 & Hs1 & En1 & Hb1 & Hu1 & Hq1). clear R.
  rewrite (reply_segment _ _ _ _ _ _ _ _ En1) in Hs1. rewrite Hp in Hb1. cbn [app] in Hb1.
  destruct (safe_run _ _ _ (run_turn c1 t _ _ s1 buf msg (n + zlen msg) m up n m rup Hs1 ltac:(by rewrite Hu1) ltac:(by rewrite Hq1)
    En1 Hb1 Hmsg Hbuf ltac:(lia) Hm)) as (h' & s2 & A2 & ds & c2 & Hcat & Hds & Hc2).
  set (buf' := msg ++ drop (length msg) buf) in *.
  assert (zlen buf' = 1024) as Hbl by (unfold buf', zlen in *; rewrite length_app, length_drop; lia).
  assert (tells s s1 [reply (TCP_WINDOW_SIZE - zlen msg) m (n + zlen msg) TCP_FLG_ACK []]) as T1
    by (unfold tells; by rewrite (so_out _ _ _ _ _ _ _ Hs), (so_out _ _ _ _ _ _ _ Hs1)).
  destruct (quits msg (zlen msg)).
  - destruct Hc2 as (-> & St & Hu2 & Hs2). exists s2, c2, t. do 2 eexists. exists buf'. split; [done|]. split; [exact Hs2|]. split; [|done].
    exists s1, ds. split_and!; try done. unfold tells. by rewrite (so_out _ _ _ _ _ _ _ Hs2), (so_out _ _ _ _ _ _ _ Hs1).
  - destruct Hc2 as (-> & Hu2 & Hb2 & Hs2 & En2). exists s2, c2, t. do 2 eexists. exists buf'. split; [done|]. split; [exact Hs2|].
    split_and!; try done; [|by exists up, rup].
    exists s1, ds. split_and!; try done. unfold tells. by rewrite (so_out _ _ _ _ _ _ _ Hs2), (so_out _ _ _ _ _ _ _ Hs1), app_nil_r.
Qed.

Lemma echo_round_run msg n m wnd now (s : tcp W) buf : is_message msg -> quits msg (zlen msg) = false -> zlen buf = BUF_SIZE ->
  open s m n wnd -> n + zlen msg + TCP_WINDOW_SIZE < 4294967296 -> m + zlen msg < 4294967296 ->
  exists s' buf', zlen buf' = BUF_SIZE /\ open s' (m + zlen msg) (n + zlen msg) win /\
    echo_round n m msg now s s' (RecvWait, buf) (RecvWait, buf').
Proof.
  intros Hmsg Hq Hbuf Ho Hn Hm. destruct (echo_turn_run msg n m wnd s buf Hmsg Hbuf Ho Hn Hm)
    as (s1 & c & t & out & wk & buf' & Hbl & Hs & HT). rewrite Hq in HT.
  destruct HT as (HT & Hu & Hb & Hsole & up & rup & En). pose proof Hmsg as [_ Hl].
  destruct Ho as (_ & _ & ? & ? & ? & ? & _ & _ & [_ _ _ _ Hnxt [Hack _] _]). unfold TCP_WINDOW_SIZE in *.
  pose proof En as [E1 E2 E3 E4 E5 _ _ _ _].
  pose proof (run_text_acked peer self iface client_cb (m + zlen msg) s1 1 c t out wk (hton16 20000) (hton16 cport)
    (m + zlen msg) (n + zlen msg) m up n m win rup 65535) as R. cbv zeta in R.
  destruct (safe_run _ _ _ (R ltac:(apply client_ok; try done; [unfold is_u32; lia..|constructor]) Hself Hs
    ltac:(rewrite (so_table _ _ _ _ _ _ _ Hs); apply connects_only; try done; [by apply Hs|apply not_free; by rewrite E1])
    En ltac:(lia) ltac:(lia) ltac:(lia) ltac:(lia) ltac:(lia) ltac:(lia))) as ([] & s2 & A2 & c2 & Hs2 & En2 & Hb2 & Hu2 & _). clear R.
  destruct (safe_run _ _ _ (run_timer_acked 1 _ _ _ _ _ s2 now _ _ _ _ _ _ _ _ _ _ Hs2 En2))
    as ([] & s3 & A3 & c3 & Hs3 & En3 & Hq3 & Hu3 & Hw3).
  exists s3, buf'. split; [done|]. split.
  - split; [unfold TCP_CB_TABLE_SIZE; lia|]. split; [done|]. exists c3, t. do 2 eexists. split; [exact Hs3|]. split; [done|].
    split; unfold TCP_WINDOW_SIZE; try lia; [by rewrite Hu3, Hu2| |by rewrite Hq3|].
    + exists up, (n + zlen msg), (m + zlen msg), rup. split; [exact En3|lia].
    + unfold buffered in *. by rewrite (en_rcv _ _ _ _ _ _ _ _ En3).
  - exists s1, s2. split_and!; try done; unfold tells; rewrite app_nil_r.
    + by rewrite (so_out _ _ _ _ _ _ _ Hs), (so_out _ _ _ _ _ _ _ Hs2).
    + by rewrite (so_out _ _ _ _ _ _ _ Hs3), (so_out _ _ _ _ _ _ _ Hs2).
Qed.

Lemma echo_session_run : forall msgs n m wnd (s : tcp W) buf,
  Forall (fun x => is_message x.1 /\ quits x.1 (zlen x.1) = false) msgs -> zlen buf = BUF_SIZE -> open s m n wnd ->
  n + zlen (concat (map fst msgs)) + TCP_WINDOW_SIZE < 4294967296 -> m + zlen (concat (map fst msgs)) < 4294967296 ->
  exists s' buf' wnd', zlen buf' = BUF_SIZE /\ open s' (m + zlen (concat (map fst msgs))) (n + zlen (concat (map fst msgs))) wnd' /\
    echo_session n m msgs s s' (RecvWait, buf) (RecvWait, buf').
Proof.
  induction msgs as [|[msg now] msgs IH]; intros n m wnd s buf Hall Hbuf Ho Hn Hm.
  - exists s, buf, wnd. cbn. rewrite !Z.add_0_r. done.
  - apply Forall_cons in Hall as [[Hmsg Hq] Hall]. cbn [map concat fst] in *. rewrite zlen_app in Hn, Hm |- *.
    pose proof (zlen_nonneg (concat (map fst msgs))).
    destruct (echo_round_run msg n m wnd now s buf Hmsg Hq Hbuf Ho ltac:(lia) ltac:(lia)) as (s1 & buf1 & Hbl & Ho1 & E1).
    destruct (IH _ _ _ s1 buf1 Hall Hbl Ho1 ltac:(lia) ltac:(lia)) as (s2 & buf2 & wnd2 & Hbl2 & Ho2 & E2).
    exists s2, buf2, wnd2. rewrite !Z.add_assoc. split; [done|]. split; [exact Ho2|]. by exists s1, (RecvWait, buf1).
Qed.

(** ** The handshake, from the side of the server *)

Lemma serve_syn x (s : tcp W) : 0 <= x < 2147483648 -> server_ready 1 0 (hton16 20000) peer iface self s ->
  safe (arrives x 0 TCP_FLG_SYN []) s (fun _ s' => exists y c, 0 <= y < 2147483648 /\
    state_of 1 c (cb_table s) (outbox (tcp_world s) ++ [reply TCP_WINDOW_SIZE y (x + 1) (Z.lor TCP_FLG_SYN TCP_FLG_ACK) []])
      (tcp_wakes s) false s' /\
    server c SYN_RCVD (Snd (y + 1) y 0 0 0 0) (Rcv (x + 1) 0 TCP_WINDOW_SIZE) /\ cb_parent c = Some 0%nat /\ txq_snt (cb_txq c) = 0).
Proof.
  intros Hx Hr. destruct (server_listener _ _ _ _ _ _ _ Hr) as (Hne & Hj & _ & _ & Elp & Els).
  destruct Hr as [_ Hmx Hfree Hclean Hlis _ _ Hnew Hup _ _].
  pose proof (state_of_self 1 s Hj Hup) as Hs. rewrite Hmx in Hs.
  pose proof (run_syn_arrives peer self iface client_cb x s 1 0) as R. cbv zeta in R. eapply safe_mono; [eapply R|].
  - apply client_ok; try done; [unfold is_u32; lia|constructor].
  - done.
  - exact Hself.
  - exact Hs.
  - apply first_index_none. intros k c Hk. unfold connects, serves. cbn [th_dst seg_sum th_set_sum seg_hdr client_cb].
    destruct (serves_port iface _ c) eqn:E; [|done]. by rewrite (proj2 (Z.eqb_neq _ _) (Hnew k c Hk E)).
  - exact Hfree.
  - rewrite <- Hlis. done.
  - exact Hne.
  - exact Els.
  - exact Hclean.
  - exact Hroute.
  - intros _ s' (y & c & Hy & Hs' & En & Hpar & Hq). rewrite Elp in En. exists y, c.
    rewrite (reply_segment _ _ _ _ _ _ _ _ En) in Hs'. done.
Qed.

Lemma serve_ack x y (s s1 : tcp W) c out wk : 0 <= x < 2147483648 -> 0 <= y < 2147483648 ->
  server_ready 1 0 (hton16 20000) peer iface self s -> state_of 1 c (cb_table s) out wk false s1 -> cb_parent c = Some 0%nat ->
  server c SYN_RCVD (Snd (y + 1) y 0 0 0 0) (Rcv (x + 1) 0 TCP_WINDOW_SIZE) -> txq_snt (cb_txq c) = 0 ->
  safe (arrives (x + 1) (y + 1) TCP_FLG_ACK []) s1 (fun _ s2 => outbox (tcp_world s2) = out /\ exists s3,
    tcp_api_accept 0 s2 = (Return 1, s3, []) /\ outbox (tcp_world s3) = out /\ open s3 (y + 1) (x + 1) win).
Proof.
  intros Hx Hy Hr Hs Hpar En Hq. destruct (server_listener _ _ _ _ _ _ _ Hr) as (Hne & Hj & Hl & Hls & Elp & Els).
  destruct Hr as [_ _ _ _ _ Hul Hbl Hnew _ _ _]. pose proof En as [E1 E2 E3 E4 E5 _ _ _ _].
  assert (sole 1 (cb_table s) iface (hton16 20000) peer (hton16 cport)) as Hsole by (by apply new_sole).
  pose proof (run_ack_arrives peer self iface client_cb x y 0 s1 1 0 c) as R.
  cbv zeta in R. eapply safe_mono; [eapply R; [|done|done|exact Hself|exact Hs| |exact Hne|exact Hpar|exact En]|].
  - apply client_ok; try done; [unfold is_u32; lia..|constructor].
  - rewrite (so_table _ _ _ _ _ _ _ Hs). apply connects_only; try done. apply not_free. by rewrite E1.
  - intros _ s2 (c2 & Hs2 & En2 & Hq2). rewrite Hbl in Hs2. cbn [app] in Hs2. split; [by apply Hs2|].
    destruct (safe_run _ _ _ (run_accept 1 0 c2 _ _ _ s2 Hs2 Hne Hls ltac:(by rewrite length_insert)
      ltac:(by rewrite list_lookup_total_insert_eq) ltac:(by rewrite list_lookup_total_insert_eq)
      ltac:(by rewrite list_lookup_total_insert_eq))) as (r & s3 & A3 & -> & Hs3).
    exists s3. split; [exact A3|]. split; [by apply Hs3|].
    eapply (handshake_side 1); [unfold TCP_CB_TABLE_SIZE; lia|exact Hroute|exact Hs3| |done|by destruct En2|unfold TCP_WINDOW_SIZE; lia..|].
    + apply sole_backlog; [by rewrite length_insert|]. by apply sole_backlog.
    + cbn. by rewrite Hq2.
Qed.


End Session.

(** ** Examples *)

Lemma tcp_echo_accepts_witness :
  exists sB sB2 sB3 : tcp (list sent_segment),
    main_listen (H := LittleEndian) (tcp_init_state []) = (Some 0, sB, []) /\
    accept_step 0 AcceptWait sB2 = (Accept, Some 1, sB3, []) /\ cb_state (cb_table sB3 !!! 1%nat) = ESTABLISHED.
Proof.
  destruct (tcp_echo_accepts (H := LittleEndian) (AB := net_wire 16777226 33554442) (BA := net_wire 33554442 16777226) 0
    16777226 33554442 0 0 sample_client [] sample_client_ready I eq_refl eq_refl ltac:(discriminate))
    as (sA1 & sA2 & sA3 & sB & sB1 & sB2 & sB3 & E1 & _ & _ & _ & _ & _ & _ & _ & E2 & _ & E3).
  by exists sB, sB2, sB3.
Defined.

