(* ===== verification/TcpSafety.v ===== *)
(** * TCP: mutex, termination and error paths *)

From S2P Require Import Prelude Logic Endian Cksum Queue Net IpFragment Ip TcpTypes TcpSegment TcpTimer TcpApi TcpLogic TcpSample.

Section Safety.
Context {H : Host} {W : Type} `{SYS : System W}.

(** ** The mutex *)

(** The operation ends with the mutex released. *)
Definition releases {A} (m : M (tcp W) A) : Prop := forall s, tcp_mutex (rst (m s)) = false.

Lemma releases_bind {A B} (m : M (tcp W) A) (k : A -> M (tcp W) B) :
  (forall a, releases (k a)) -> releases (mbind' m k).
Proof. intros Hk s. rewrite rst_bind. apply Hk. Qed.

Lemma releases_ret {A B} (m : M (tcp W) A) (b : B) : releases m -> releases (mbind' m (fun _ => ret b)).
Proof. intros Hm s. rewrite rst_bind. apply Hm. Qed.

Lemma releases_unlock : releases unlock.
Proof. done. Qed.

End Safety.

Ltac releases_tac := unfold done_unlock, cond_wait; repeat first
  [ apply releases_unlock | apply releases_ret; solve [apply releases_unlock]
  | lazymatch goal with
    | |- releases (mbind' _ _) => apply releases_bind; intros ?
    | |- releases (match _ with _ => _ end) => case_match
    end ].

Section Mutex.
Context {H : Host} {W : Type} `{SYS : System W}.

(** The steps that give the mutex back on every path: all but connecting and
    sending. *)
Inductive plain_step (s : tcp W) : tcp W -> Prop :=
  | plain_rx segment len src dst iface : plain_step s (rst (tcp_rx segment len src dst iface s))
  | plain_timer last : plain_step s (rst (tcp_timer_thread last s))
  | plain_open : plain_step s (rst (tcp_api_open s))
  | plain_close soc : plain_step s (rst (tcp_api_close soc s))
  | plain_connect_wake i : plain_step s (rst ((lock ;;; tcp_connect_wake i) s))
  | plain_bind soc port : plain_step s (rst (tcp_api_bind soc port s))
  | plain_listen soc : plain_step s (rst (tcp_api_listen soc s))
  | plain_accept soc : plain_step s (rst (tcp_api_accept soc s))
  | plain_accept_wake i : plain_step s (rst ((lock ;;; tcp_accept_wake i) s))
  | plain_recv soc size : plain_step s (rst (tcp_api_recv soc size s))
  | plain_recv_wake i size : plain_step s (rst ((lock ;;; tcp_recv_wake i size) s)).

(** C25: arrival of segments, the timer and every call of the interface but
    connecting and sending return, or block, with the mutex released. *)
Theorem tcp_mutex_released s s' : tcp_mutex s = false -> plain_step s s' -> tcp_mutex s' = false.
Proof.
  intros Hm. destruct 1.
  { unfold tcp_rx. do 2 (case_match; [done|]). destruct (tcp_checksum _ _ _ _) as [sum u]. rewrite rst_bind.
    case_match; [done|]. case_match; [|done].
    match goal with |- tcp_mutex (rst (?m _)) = _ => assert (releases m) as Hr; [releases_tac|apply Hr] end. }
  all: unfold tcp_timer_thread, tcp_api_open, tcp_api_close, tcp_connect_wake, tcp_api_bind, tcp_api_listen,
      tcp_api_accept, tcp_accept_wake, tcp_api_recv, tcp_recv_wake; try (case_match; [done|]);
    match goal with |- tcp_mutex (rst (?m _)) = _ => assert (releases m) as Hr; [releases_tac|apply Hr] end.
Qed.

(** When [gettimeofday] fails, [tcp_api_connect] returns -1 with the mutex
    held, and the next call deadlocks. *)
Theorem tcp_connect_keeps_mutex soc addr port (s : tcp W) :
  let c := cb_table s !!! Z.to_nat soc in
  0 <= soc < Z.of_nat TCP_CB_TABLE_SIZE -> cb_used c = true -> cb_state c = CLOSED ->
  (sys_gettimeofday (tcp_world s)).1 = None ->
  rval (tcp_api_connect soc addr port s) = Return (-1) /\
  tcp_mutex (rst (tcp_api_connect soc addr port s)) = true /\
  Deadlock ∈ rub (tcp_api_open (rst (tcp_api_connect soc addr port s))).
Proof.
  intros c Hsoc Hused Hst Ht.
  assert (exists w, tcp_api_connect soc addr port s
    = (Return (-1), set_tcp_world w (set_tcp_mutex true s), if tcp_mutex s then [Deadlock] else [])) as [w E].
  { unfold tcp_api_connect. assert (TCP_SOCKET_INVALID soc = false) as -> by (unfold TCP_SOCKET_INVALID; lia).
    destruct (sys_gettimeofday (tcp_world s)) as [t w] eqn:Ew. cbn in Ht. subst t. exists w.
    cbv zeta. rewrite (mbind_run lock _ s tt (set_tcp_mutex true s) _ eq_refl).
    rewrite (mbind_run_nil (cb_get _) _ (set_tcp_mutex true s) c (set_tcp_mutex true s) eq_refl). rewrite Hused, Hst.
    change (negb true || negb (state_is CLOSED CLOSED)) with false. cbv iota.
    rewrite (mbind_run_nil (sys _) _ _ None (set_tcp_world w (set_tcp_mutex true s))) by (unfold sys; cbn; by rewrite Ew).
    cbn. by rewrite app_nil_r. }
  rewrite E. split_and!; [done|done|]. unfold tcp_api_open. rewrite rub_bind. apply elem_of_app. left. left.
Qed.

(** When the segment cannot be allocated, [tcp_api_send] returns the number of
    octets sent so far, here 0, with the mutex held. *)
Theorem tcp_send_keeps_mutex soc buf len (s : tcp W) iface now w w' :
  let c := cb_table s !!! Z.to_nat soc in
  0 <= soc < Z.of_nat TCP_CB_TABLE_SIZE -> cb_used c = true -> sendable (cb_state c) = true -> cb_iface c = Some iface ->
  0 < len -> send_wnd c <> 0 ->
  sys_gettimeofday (tcp_world s) = (Some now, w) -> sys_malloc w = (false, w') ->
  rval (tcp_api_send soc buf len s) = SendReturn 0 /\ tcp_mutex (rst (tcp_api_send soc buf len s)) = true.
Proof.
  intros c Hsoc Hused Hst Hif Hlen Hwnd Ht Hm. set (s1 := set_tcp_mutex true s).
  assert (exists u, tcp_api_send soc buf len s = (SendReturn 0, set_tcp_world w' s1, u)) as [u ->]; [|done].
  unfold tcp_api_send. assert (TCP_SOCKET_INVALID soc = false) as -> by (unfold TCP_SOCKET_INVALID; lia).
  cbv zeta. rewrite (mbind_run lock _ s tt s1 _ eq_refl).
  rewrite (mbind_run_nil (cb_get _) _ s1 c s1 eq_refl), Hused. cbn [negb tcp_send_next].
  assert (tcp_send_one (Z.to_nat soc) buf 0 len s1 = (inl (SendReturn 0), set_tcp_world w' s1, [])) as E.
  { unfold tcp_send_one. rewrite (mbind_run_nil (cb_get _) _ s1 c s1 eq_refl), Hst. cbn [negb].
    rewrite (mbind_run_nil (sys _) _ s1 (Some now) (set_tcp_world w s1)) by (unfold sys; cbn; by rewrite Ht).
    rewrite (proj2 (Z.ltb_lt 0 len)), Hif by done. cbn [negb]. cbv zeta.
    assert ((send_wnd c <? send_mss (sys_mtu iface) len) && ((if send_wnd c <? send_mss (sys_mtu iface) len
      then send_wnd c else send_mss (sys_mtu iface) len) <=? 0) = false) as ->.
    { pose proof (u16_range (TCP_SND_BUF_SIZE - u32 (snd_nxt (cb_snd c) - snd_una (cb_snd c)))) as Hr.
      fold (send_wnd c) in Hr. unfold is_u16 in Hr. destruct (_ <? _) eqn:El; [|done]. cbn [andb]. lia. }
    unfold tcp_tx. rewrite mbind_assoc.
    rewrite (mbind_run_nil (sys _) _ _ false (set_tcp_world w' s1)) by (unfold sys; cbn; by rewrite Hm). done. }
  rewrite (mbind_run_nil _ _ _ _ _ E). by eexists.
Qed.

End Mutex.

(** ** Termination of close *)

Section Close.
Context {H : Host} {W : Type} `{SYS : System W}.

(** Marks of use are only cleared and backlogs only get shorter. *)
Definition shrinks (s s' : tcp W) : Prop :=
  length (cb_table s') = length (cb_table s) /\
  forall j, (cb_used (cb_table s' !!! j) = true -> cb_used (cb_table s !!! j) = true) /\
            (length (cb_backlog (cb_table s' !!! j)) <= length (cb_backlog (cb_table s !!! j)))%nat.

#[export] Instance shrinks_frame : Frame shrinks.
Proof.
  split; [|done..]. split; [done|]. intros s1 s2 s3 [L1 H1] [L2 H2]. split; [congruence|]. intros j.
  destruct (H1 j) as [U1 B1], (H2 j) as [U2 B2]. split; [auto|lia].
Qed.

Lemma shrinks_cb_mod i f :
  (forall c, (cb_used (f c) = true -> cb_used c = true) /\ (length (cb_backlog (f c)) <= length (cb_backlog c))%nat) ->
  respects shrinks (cb_mod i f).
Proof.
  intros Hf s. split; [apply length_insert|]. intros j. cbn. rewrite table_insert. case_decide as Hd; [|done].
  destruct Hd as [<- _]. apply Hf.
Qed.

Lemma shrinks_same i f : (forall c, cb_used (f c) = cb_used c /\ cb_backlog (f c) = cb_backlog c) ->
  respects shrinks (cb_mod i f).
Proof. intros Hf. apply shrinks_cb_mod. intros c. by destruct (Hf c) as [-> ->]. Qed.

Hint Extern 4 (respects shrinks (cb_mod _ _)) => apply shrinks_same; intros; split; reflexivity : net.

Lemma shrinks_tx i seq ack flg now : respects shrinks (tx i seq ack flg now).
Proof. apply tx_respects; [apply _|]. intros f. by apply shrinks_same. Qed.
Lemma shrinks_clear_used i : respects shrinks (cb_mod i (cb_set_used false)).
Proof. apply shrinks_cb_mod. by intros c. Qed.

Hint Resolve shrinks_tx shrinks_clear_used : net.

Lemma close_backlog_shrinks close n i : (forall b, respects shrinks (close b)) -> respects shrinks (close_backlog close n i).
Proof.
  intros Hc. induction n as [|n IH]; intros s; cbn [close_backlog]; rewrite rst_get.
  - by case_match.
  - destruct (cb_backlog (cb_table s !!! i)) as [|b l] eqn:Eb; [reflexivity|]. rewrite rst_bind.
    transitivity (rst (cb_mod i (cb_set_backlog l) s)).
    + split; [apply length_insert|]. intros j. cbn. rewrite table_insert. case_decide as Hd; [|done].
      destruct Hd as [<- _]. cbn. rewrite Eb. cbn. split; [done|lia].
    + assert (respects shrinks (let* r := close b in match r with None => ret false | Some _ => close_backlog close n i end))
        as Hm by respects_tac. apply Hm.
Qed.

Lemma tcp_close_shrinks fuel i : respects shrinks (tcp_close fuel i).
Proof.
  revert i. induction fuel as [|fuel IH]; intros i; cbn [tcp_close]; [respects_tac|].
  assert (forall n, respects shrinks (close_backlog (tcp_close fuel) n i)) as Hb
    by (intros n; by apply close_backlog_shrinks).
  unfold tcp_send_fin, set_state, tcp_close_cb. respects_tac.
Qed.

(** The number of control blocks in use. *)
Definition used_count (t : list tcp_cb) : nat := length (List.filter cb_used t).

Lemma used_count_le (t t' : list tcp_cb) : length t' = length t ->
  (forall j, cb_used (t' !!! j) = true -> cb_used (t !!! j) = true) -> (used_count t' <= used_count t)%nat.
Proof.
  revert t. induction t' as [|c' t' IH]; intros [|c t] Hl Hu; cbn in *; try lia.
  specialize (IH t ltac:(lia) (fun j => Hu (S j))). pose proof (Hu 0%nat) as H0. cbn in H0.
  unfold used_count in *. cbn. destruct (cb_used c'), (cb_used c); cbn; try lia; by specialize (H0 eq_refl).
Qed.

Lemma used_count_clear (t : list tcp_cb) i c : (i < length t)%nat -> cb_used (t !!! i) = true -> cb_used c = false ->
  (used_count (<[i := c]> t) < used_count t)%nat.
Proof.
  revert i. induction t as [|d t IH]; intros [|i] Hi Hu Hc; cbn [length] in Hi; try lia.
  - cbn in Hu. unfold used_count. cbn. rewrite Hu, Hc. cbn. lia.
  - specialize (IH i ltac:(lia) Hu Hc). change (<[S i := c]> (d :: t)) with (d :: <[i := c]> t).
    unfold used_count in *. cbn [List.filter]. destruct (cb_used d); cbn [length]; lia.
Qed.

(** The call returns. *)
Definition returns {A} (r : option A) : Prop := is_Some r.

Lemma close_backlog_returns close U n i :
  (forall b, respects shrinks (close b)) ->
  (forall b s, (used_count (cb_table s) <= U)%nat -> returns (rval (close b s))) ->
  forall s, (used_count (cb_table s) <= U)%nat -> (length (cb_backlog (cb_table s !!! i)) <= n)%nat ->
  rval (close_backlog close n i s) = true.
Proof.
  intros Hsh Hclose. induction n as [|n IH]; intros s HU Hn; cbn [close_backlog]; rewrite rval_bind;
    cbn [cb_get gets rval rst fst snd]; destruct (cb_backlog (cb_table s !!! i)) as [|b l] eqn:Eb; try done; cbn in Hn; [lia|].
  rewrite rval_bind. set (s1 := rst (cb_mod i (cb_set_backlog l) s)).
  assert (used_count (cb_table s1) <= U)%nat as HU1.
  { etrans; [|exact HU]. apply used_count_le; [apply length_insert|]. intros j. cbn. rewrite table_insert.
    case_decide as Hd; [|done]. by destruct Hd as [<- _]. }
  rewrite rval_bind. destruct (Hclose b s1 HU1) as [r Hr]. rewrite Hr.
  destruct (Hsh b s1) as [L Hj]. apply IH.
  - etrans; [|exact HU1]. apply used_count_le; [done|]. intros j. apply Hj.
  - destruct (Hj i) as [_ Hl]. etrans; [exact Hl|]. subst s1. cbn. rewrite list_lookup_total_insert_eq; [cbn; lia|].
    apply Nat.nle_gt. intros Hge. rewrite list_lookup_total_alt, (proj2 (lookup_ge_None _ _)) in Eb by done. done.
Qed.

Lemma tcp_close_returns fuel : forall i s, (used_count (cb_table s) < fuel)%nat -> returns (rval (tcp_close fuel i s)).
Proof.
  induction fuel as [|fuel IH]; intros i s HU; [lia|]. cbn [tcp_close]. rewrite rval_bind.
  cbn [cb_get gets rval rst fst snd]. set (c := cb_table s !!! i).
  destruct (cb_used c) eqn:Eu; cbn [negb]; [|by eexists].
  assert (i < length (cb_table s))%nat as Hi.
  { apply Nat.nle_gt. intros Hge. subst c. by rewrite list_lookup_total_alt, (proj2 (lookup_ge_None _ _)) in Eu by done. }
  rewrite rval_bind. set (s1 := rst (cb_mod i (cb_set_used false) s)).
  assert (used_count (cb_table s1) < used_count (cb_table s))%nat as HU1 by (by apply used_count_clear).
  rewrite rval_bind. set (t := rval (sys sys_gettimeofday s1)). set (s2 := rst (sys sys_gettimeofday s1)).
  assert (cb_table s2 = cb_table s1) as E2 by (subst s2; unfold sys, rst; by destruct (sys_gettimeofday _)).
  destruct t as [now|]; [|by eexists].
  destruct (cb_state c); try (rewrite ?rval_bind; by eexists). rewrite rval_bind.
  rewrite (close_backlog_returns (tcp_close fuel) (used_count (cb_table s1))).
  - cbn [negb]. rewrite !rval_bind. by eexists.
  - apply tcp_close_shrinks.
  - intros b s' Hs'. apply IH. lia.
  - by rewrite E2.
  - rewrite E2. subst s1. cbn. rewrite list_lookup_total_insert_eq by done. done.
Qed.

(** C24: [tcp_api_close] terminates: the nested calls on the connections of a
    backlog, and on the backlogs of those, come to an end, with the depth of
    recursion bounded by the size of the table. *)
Theorem tcp_api_close_terminates soc (s : tcp W) : length (cb_table s) = TCP_CB_TABLE_SIZE ->
  exists r, rval (tcp_api_close soc s) = Some r.
Proof.
  intros Hlen. unfold tcp_api_close. case_match; [by eexists|]. rewrite !rval_bind. cbn [mret' rval fst].
  apply tcp_close_returns. cbn [lock rst fst snd cb_table set_tcp_mutex]. unfold used_count.
  pose proof (List.filter_length_le cb_used (cb_table s)). lia.
Qed.

End Close.

(** ** Error paths *)

Section Errors.
Context {H : Host} {W : Type} `{SYS : System W}.

(** Control block [j] is untouched. *)
Definition same_cb (j : nat) (s s' : tcp W) : Prop := cb_table s' !!! j = cb_table s !!! j.

#[export] Instance same_cb_frame j : Frame (same_cb j).
Proof. split; [|done..]. split; [done|]. intros s1 s2 s3. unfold same_cb. congruence. Qed.

Lemma same_cb_mod i j f : i <> j -> respects (same_cb j) (cb_mod i f).
Proof. intros Hne s. unfold same_cb. cbn. by apply list_lookup_total_insert_ne. Qed.

(** A close of a control block that is not in use does nothing. *)
Lemma tcp_close_unused fuel b s : (0 < fuel)%nat -> cb_used (cb_table s !!! b) = false ->
  tcp_close fuel b s = (Some (-1), s, []).
Proof.
  intros Hf Hu. destruct fuel as [|fuel]; [lia|]. cbn [tcp_close]. rewrite (mbind_run_nil (cb_get b) _ s (cb_table s !!! b) s eq_refl). by rewrite Hu.
Qed.

Lemma close_backlog_unused fuel i n s : (0 < fuel)%nat -> (length (cb_backlog (cb_table s !!! i)) <= n)%nat ->
  Forall (fun b => b <> i /\ cb_used (cb_table s !!! b) = false) (cb_backlog (cb_table s !!! i)) ->
  rval (close_backlog (tcp_close fuel) n i s) = true /\
  (forall j, j <> i -> cb_table (rst (close_backlog (tcp_close fuel) n i s)) !!! j = cb_table s !!! j).
Proof.
  intros Hf. revert s. induction n as [|n IH]; intros s Hn Hall; cbn [close_backlog];
    rewrite rval_bind, rst_get; cbn [cb_get gets rval rst fst snd];
    destruct (cb_backlog (cb_table s !!! i)) as [|b l] eqn:Eb; try done; cbn in Hn; [lia|].
  assert (i < length (cb_table s))%nat as Hi.
  { apply Nat.nle_gt. intros Hge. by rewrite list_lookup_total_alt, (proj2 (lookup_ge_None _ _)) in Eb by done. }
  apply Forall_cons in Hall as [[Hb Hu] Hall].
  rewrite rval_bind, rst_bind. set (s1 := rst (cb_mod i (cb_set_backlog l) s)).
  assert (forall j, j <> i -> cb_table s1 !!! j = cb_table s !!! j) as Hs1
    by (intros j Hj; by apply same_cb_mod).
  assert (cb_backlog (cb_table s1 !!! i) = l) as Hl1 by (subst s1; cbn; by rewrite list_lookup_total_insert_eq).
  rewrite rval_bind, rst_bind, tcp_close_unused by (done || by rewrite Hs1). cbn [rval rst fst snd].
  destruct (IH s1) as [Hr Hj]; [rewrite Hl1; lia| |].
  - rewrite Hl1. eapply Forall_impl; [exact Hall|]. intros x [Hx Hxu]. by rewrite Hs1.
  - split; [done|]. intros j Hne. by rewrite Hj, Hs1.
Qed.

(** Closing a listener abandons the connections waiting in its backlog.  They
    are not marked as used before they are accepted, so the close of each
    returns at once: all of them keep their state, without a FIN, and nobody can
    accept them any more. *)
Theorem tcp_close_abandons_backlog i (s : tcp W) now w b :
  let c := cb_table s !!! i in
  cb_used c = true -> cb_state c = LISTEN -> sys_gettimeofday (tcp_world s) = (Some now, w) ->
  Forall (fun b => b <> i /\ cb_used (cb_table s !!! b) = false) (cb_backlog c) -> b ∈ cb_backlog c ->
  let r := tcp_close (S TCP_CB_TABLE_SIZE) i s in
  rval r = Some 0 /\ cb_state (cb_table (rst r) !!! i) = CLOSED /\ cb_table (rst r) !!! b = cb_table s !!! b.
Proof.
  intros c Hu Hst Ht Hall Hb r. assert (i < length (cb_table s))%nat as Hi.
  { apply Nat.nle_gt. intros Hge. subst c. by rewrite list_lookup_total_alt, (proj2 (lookup_ge_None _ _)) in Hu by done. }
  set (s1 := rst (cb_mod i (cb_set_used false) s)). set (s2 := set_tcp_world w s1).
  assert (cb_table s2 !!! i = cb_set_used false c) as Ei by (cbn; by rewrite list_lookup_total_insert_eq).
  assert (forall j, j <> i -> cb_table s2 !!! j = cb_table s !!! j) as Ej by (intros j Hj; by apply same_cb_mod).
  assert (0 < TCP_CB_TABLE_SIZE)%nat as Hf by (unfold TCP_CB_TABLE_SIZE; lia).
  destruct (close_backlog_unused TCP_CB_TABLE_SIZE i (length (cb_backlog c)) s2 Hf) as [Hr Hj].
  { by rewrite Ei. }
  { rewrite Ei. eapply Forall_impl; [exact Hall|]. intros x [Hx Hxu]. by rewrite Ej. }
  set (m := close_backlog _ _ i) in *.
  assert (rval (sys sys_gettimeofday s1) = Some now /\ rst (sys sys_gettimeofday s1) = s2) as [Et Es]
    by (unfold sys, rval, rst; change (tcp_world s1) with (tcp_world s); by rewrite Ht).
  assert (rval r = Some 0 /\ cb_table (rst r) = cb_table (rst (tcp_close_cb i (rst (m s2))))) as [Ev Er].
  { subst r. clear Hf. revert m Hr Hj. generalize TCP_CB_TABLE_SIZE. intros fuel m Hr Hj. cbn [tcp_close].
    rewrite rval_bind, rst_get. cbn [cb_get gets rval rst fst snd]. fold c. rewrite Hu. cbn [negb].
    rewrite rval_bind, rst_bind. fold s1. rewrite rval_bind, rst_bind, Et, Es, Hst.
    rewrite rval_bind, rst_bind. fold m. rewrite Hr. cbn [negb]. by rewrite !rval_bind, !rst_bind. }
  assert (b <> i) as Hbi by (rewrite Forall_forall in Hall; by apply Hall).
  assert (length (cb_table (rst (m s2))) = length (cb_table s)) as Hlen.
  { transitivity (length (cb_table s2)); [|apply length_insert].
    assert (respects same_size m) as Hm; [|apply Hm]. subst m. intros s'. apply close_backlog_shrinks, tcp_close_shrinks. }
  rewrite Er. split_and!; [done| |].
  - cbn. rewrite list_lookup_total_insert_eq by (by rewrite Hlen). done.
  - unfold tcp_close_cb. rewrite (same_cb_mod i b _ (not_eq_sym Hbi) (rst (m s2))), Hj, Ej by done. done.
Qed.

(** C37: the text of a segment is not limited to the window.  A segment that starts
    where the window starts is acceptable however long it is, and its text is
    copied whole: what exceeds the free space is written past the receive
    buffer of the control block. *)
Theorem tcp_window_overflow i hdr segment plen now (s : tcp W) :
  let c := cb_table s !!! i in
  cb_state c = ESTABLISHED -> 0 < rcv_wnd (cb_rcv c) < plen -> zlen (cb_window c) = TCP_WINDOW_SIZE ->
  rcv_nxt (cb_rcv c) = SEQ hdr -> 0 <= rcv_nxt (cb_rcv c) -> rcv_nxt (cb_rcv c) + rcv_wnd (cb_rcv c) < 4294967296 ->
  seq_acceptable (cb_rcv c) hdr plen = true /\
  OobWrite (plen - rcv_wnd (cb_rcv c)) ∈ rub (check_text i hdr segment plen now s).
Proof.
  intros c Hst Hw Hwl Hseq H0 Hn. split.
  - unfold seq_acceptable. rewrite u32_small by (unfold is_u32; lia).
    rewrite !(proj2 (Z.ltb_lt 0 _)) by lia. apply orb_true_iff. left. lia.
  - unfold check_text. rewrite rub_bind. cbn [cb_get gets rval rst fst snd]. fold c. rewrite Hst, Hseq, Z.eqb_refl.
    rewrite (proj2 (Z.ltb_lt 0 plen)) by lia. cbn [andb]. destruct (memcpy _ _ _ _) as [window u] eqn:Em.
    rewrite rub_bind. apply elem_of_app. right. apply elem_of_app. left.
    unfold memcpy in Em. injection Em as _ <-. apply elem_of_app. right.
    unfold TCP_WINDOW_SIZE in *. rewrite Hwl. rewrite (proj2 (Z.ltb_lt _ _)) by lia.
    replace (65535 - rcv_wnd (cb_rcv c) + plen - 65535) with (plen - rcv_wnd (cb_rcv c)) by lia. left.
Qed.

(** The state after an acknowledgement in FIN_WAIT1. *)
Lemma fin_wait1_ack i hdr now (s : tcp W) :
  let c := cb_table s !!! i in
  cb_state c = FIN_WAIT1 -> snd_una (cb_snd c) <= ACK hdr <= snd_nxt (cb_snd c) ->
  post (check_ack i hdr now) s (fun _ s' => cb_state (cb_table s' !!! i)
    = if u32 (ACK hdr + 1) =? snd_nxt (cb_snd c) then FIN_WAIT2 else FIN_WAIT1).
Proof.
  intros c Hst Hack. assert (i < length (cb_table s))%nat as Hi.
  { apply Nat.nle_gt. intros Hge. subst c. by rewrite list_lookup_total_alt, (proj2 (lookup_ge_None _ _)) in Hst by done. }
  unfold check_ack. apply post_bind. unfold post at 1. cbn [cb_get gets rval rst fst snd]. fold c. rewrite Hst.
  unfold check_ack_established. apply post_bind. unfold post at 1. cbn [cb_get gets rval rst fst snd]. fold c.
  rewrite (proj2 (Z.leb_le _ _)), (proj2 (Z.leb_le (ACK hdr) _)) by lia. cbn [andb].
  set (view := fun x => (cb_state x, snd_nxt (cb_snd x))).
  assert (respects (keeps (W := W) view) (ack_update i hdr now)) as Hk by (unfold ack_update; respects_tac).
  assert (respects same_size (ack_update (W := W) i hdr now)) as Hl by (unfold ack_update; respects_tac).
  specialize (Hk s i). specialize (Hl s). apply post_bind. unfold post at 1.
  set (s1 := rst (ack_update i hdr now s)) in *. fold c in Hk. injection Hk as Ev1 Ev2. unfold same_size in Hl.
  apply post_bind. unfold ack_fin. apply post_bind. unfold post at 1. cbn [cb_get gets rval rst fst snd].
  rewrite Ev1, Hst, Ev2. destruct (_ =? _); unfold post, when; cbn; [|congruence].
  by rewrite list_lookup_total_insert_eq by lia.
Qed.

(** C38: the acknowledgement of the FIN is not recognised.  After [tcp_api_close],
    when everything including the FIN is acknowledged ([ack] = SND.NXT), the
    connection stays in FIN_WAIT1; it enters FIN_WAIT2 on the acknowledgement of
    everything but the FIN ([ack] + 1 = SND.NXT). *)
Theorem fin_wait1_acknowledged i hdr now (s : tcp W) :
  let c := cb_table s !!! i in
  cb_state c = FIN_WAIT1 -> 0 <= snd_una (cb_snd c) <= ACK hdr -> is_u32 (snd_nxt (cb_snd c)) ->
  (ACK hdr = snd_nxt (cb_snd c) ->
    post (check_ack i hdr now) s (fun _ s' => cb_state (cb_table s' !!! i) = FIN_WAIT1)) /\
  (ACK hdr + 1 = snd_nxt (cb_snd c) ->
    post (check_ack i hdr now) s (fun _ s' => cb_state (cb_table s' !!! i) = FIN_WAIT2)).
Proof.
  intros c Hst Hack Hn. unfold is_u32 in Hn. split; intros Ha.
  all: pose proof (fin_wait1_ack i hdr now s Hst ltac:(fold c; lia)) as Hp; fold c in Hp.
  - assert (u32 (ACK hdr + 1) =? snd_nxt (cb_snd c) = false) as E by (apply Z.eqb_neq; rewrite Ha; wrap_lia).
    by rewrite E in Hp.
  - assert (u32 (ACK hdr + 1) =? snd_nxt (cb_snd c) = true) as E
      by (apply Z.eqb_eq; rewrite u32_small by (unfold is_u32; lia); done).
    by rewrite E in Hp.
Qed.

End Errors.

(** ** Examples *)

Definition idle_snd : tcp_snd := Snd 1000 1000 0 0 0 1000.
Definition open_rcv : tcp_rcv := Rcv 2001 0 65535.

Lemma tcp_mutex_released_witness :
  let sys := sample_system true (Some 100) in
  let s := sample_table (sample_cb ESTABLISHED idle_snd open_rcv []) [] in
  tcp_mutex (rst (tcp_timer_thread (H := LittleEndian) (SYS := sys) 0 s)) = false.
Proof. intros sys s. apply (tcp_mutex_released (H := LittleEndian) (SYS := sys) s); [reflexivity|constructor]. Defined.

Lemma tcp_connect_keeps_mutex_witness :
  let sys := sample_system true None in
  let s := sample_table (sample_cb CLOSED snd0 rcv0 []) [] in
  tcp_mutex (rst (tcp_api_connect (H := LittleEndian) (SYS := sys) 0 33554442 5000 s)) = true.
Proof.
  intros sys s. apply (tcp_connect_keeps_mutex (H := LittleEndian) (SYS := sys) 0 33554442 5000 s).
  all: first [reflexivity | vm_compute; intuition discriminate].
Defined.

Lemma tcp_send_keeps_mutex_witness :
  let sys := sample_system false (Some 100) in
  let s := sample_table (sample_cb ESTABLISHED idle_snd open_rcv []) [] in
  tcp_mutex (rst (tcp_api_send (H := LittleEndian) (SYS := sys) 0 sample_text 5 s)) = true.
Proof.
  intros sys s. apply (tcp_send_keeps_mutex (H := LittleEndian) (SYS := sys) 0 sample_text 5 s 0 100 [] []).
  all: first [reflexivity | vm_compute; intuition discriminate].
Defined.

Lemma tcp_api_close_terminates_witness :
  let sys := sample_system true (Some 100) in
  let s := sample_table (cb_set_backlog [1%nat; 2%nat] (sample_cb LISTEN snd0 rcv0 [])) (replicate 127 cb0) in
  exists r, rval (tcp_api_close (H := LittleEndian) (SYS := sys) 0 s) = Some r.
Proof. intros sys s. apply (tcp_api_close_terminates (H := LittleEndian) (SYS := sys) 0 s). reflexivity. Defined.

(** A listener with one connection in its backlog. *)
Lemma tcp_close_abandons_backlog_witness :
  let sys := sample_system true (Some 100) in
  let child := cb_set_used false (sample_cb ESTABLISHED idle_snd open_rcv []) in
  let s := sample_table (cb_set_backlog [1%nat] (sample_cb LISTEN snd0 rcv0 [])) [child] in
  cb_table (rst (tcp_close (H := LittleEndian) (SYS := sys) (S TCP_CB_TABLE_SIZE) 0 s)) !!! 1%nat = child.
Proof.
  intros sys child s. apply (tcp_close_abandons_backlog (H := LittleEndian) (SYS := sys) 0 s 100 [] 1).
  all: first [reflexivity | by constructor | repeat constructor; discriminate].
Defined.

(** Two octets of window are left; the segment has five. *)
Lemma tcp_window_overflow_witness :
  let sys := sample_system true (Some 100) in
  let hdr := sample_hdr 2001 1000 TCP_FLG_ACK in
  let s := sample_table (sample_cb ESTABLISHED idle_snd (Rcv 2001 0 2) []) [] in
  OobWrite 3 ∈ rub (check_text (H := LittleEndian) (SYS := sys) 0 hdr (sample_segment hdr) 5 100 s).
Proof.
  intros sys hdr s.
  apply (tcp_window_overflow (H := LittleEndian) (SYS := sys) 0 hdr (sample_segment hdr) 5 100 s).
  all: first [reflexivity | apply sample_window_len | vm_compute; intuition discriminate].
Defined.

(** SND.NXT is 1000: the acknowledgement of 1000 includes the FIN. *)
Lemma fin_wait1_acknowledged_witness :
  let sys := sample_system true (Some 100) in
  let s := sample_table (sample_cb FIN_WAIT1 (Snd 1000 990 0 0 0 1000) open_rcv []) [] in
  post (check_ack (H := LittleEndian) (SYS := sys) 0 (sample_hdr 2001 1000 TCP_FLG_ACK) 100) s
    (fun _ s' => cb_state (cb_table s' !!! 0%nat) = FIN_WAIT1) /\
  post (check_ack (H := LittleEndian) (SYS := sys) 0 (sample_hdr 2001 999 TCP_FLG_ACK) 100) s
    (fun _ s' => cb_state (cb_table s' !!! 0%nat) = FIN_WAIT2).
Proof.
  intros sys s. split.
  - apply (fin_wait1_acknowledged (H := LittleEndian) (SYS := sys) 0 (sample_hdr 2001 1000 TCP_FLG_ACK) 100 s);
      first [reflexivity | vm_compute; intuition discriminate].
  - apply (fin_wait1_acknowledged (H := LittleEndian) (SYS := sys) 0 (sample_hdr 2001 999 TCP_FLG_ACK) 100 s);
      first [reflexivity | vm_compute; intuition discriminate].
Defined.
