(* ===== verification/Stack.v ===== *)
(** * The layers together

    The interfaces of the layers are implemented by the layers below: [Device] of
    address resolution by Ethernet, [LinkLayer] of IP by address resolution and
    Ethernet, [System] of TCP by IP.  A payload given to [ip_tx] on one host goes
    through all of them, over the wire, and up to the protocol handler of the
    other. *)

From S2P Require Import Prelude Logic Endian Cksum Mask Queue Addr Net Ethernet IpFragment Ip IpFacts Arp ArpFacts TcpTypes.

(** ** The implementations *)

Section Instances.
Context {H : Host} {Ops P U RW : Type} `{RL : RawLayer RW}.

(** [ethernet_ops.tx]. *)
#[export] Instance ethernet_device : Device (eth Ops P RW) :=
  fun dev type packet dst => ethernet_tx dev type (Some packet) (zlen packet) (Some dst).

(** [wait] is what happens from the wait on an entry until its end, with the result
    of the last [pthread_cond_timedwait]; [clock] and [mem] are [time] and the
    availability of memory. *)
Context (n : net Ops P) (clock : arp (eth Ops P RW) -> Z) (mem : bool)
  (wait : nat -> M (arp (eth Ops P RW)) Z).

Definition link_resolve (netif : nifid) (pa : Z) (packet : bytes) : M (arp (eth Ops P RW)) (Z * bytes) :=
  let* t := gets clock in
  let* r := arp_resolve n netif pa (Some packet) mem t in
  match r with
  | Resolved code ha => ret (code, ha)
  | ArpBlocked i =>
      let* e := wait i in
      let* r := arp_resolve_wake i e in
      match r with Resolved code ha => ret (code, ha) | ArpBlocked _ => ret (ARP_RESOLVE_ERROR, []) end
  end.

Definition ethernet_link : LinkLayer (arp (eth Ops P RW)) := {|
  ll_resolve := link_resolve;
  dev_tx dev type packet dst := arp_tx dev type packet dst
|}.

(** The rest of the C library, for TCP. *)
Context (malloc : ip_state U * arp (eth Ops P RW) -> bool * (ip_state U * arp (eth Ops P RW)))
  (gettimeofday : ip_state U * arp (eth Ops P RW) -> option Z * (ip_state U * arp (eth Ops P RW)))
  (time random : ip_state U * arp (eth Ops P RW) -> Z * (ip_state U * arp (eth Ops P RW))).

Definition ip_system : System (ip_state U * arp (eth Ops P RW)) := {|
  sys_malloc := malloc;
  sys_gettimeofday := gettimeofday;
  sys_time := time;
  sys_random := random;
  sys_ip_tx netif segment len dst :=
    let* r := ip_tx (LL := ethernet_link) n (Some netif) IP_PROTOCOL_TCP segment len dst in ret (default (-1) r);
  sys_netif_by_peer peer w := ip_netif_by_peer peer w.1;
  sys_unicast netif := netif_addr n netif;
  sys_mtu netif := default 0 (netif_mtu n netif)
|}.

(** ** Receiving *)

(** A frame with the clock readings of its reception. *)
Record frame_in := FrameIn { fi_frame : bytes; fi_t1 : Z; fi_t2 : Z; fi_t3 : Z }.

(** Frames that reach a device, as [ethernet_rx], [netdev_rx_handler] and [ip_rx]
    handle them; [ip] is the handler registered for IP, frames of other types are
    not for it. *)
Context (ip : P -> bool) (d : netdev Ops) (dev : devid) (m : option frag_block).

Definition stack_rx (f : frame_in) : M (ip_state U) (option (delivery U)) :=
  let '(call, u) := ethernet_rx d (fi_frame f) (zlen (fi_frame f)) in
  tell u ;;;
  match call with
  | None => ret None
  | Some c =>
      if existsb ip (netdev_rx_handler (rc_type c) n)
      then ip_rx n (rc_packet c) (rc_plen c) dev (fi_t1 f) (fi_t2 f) (fi_t3 f) m
      else ret None
  end.

Fixpoint stack_rx_all (fs : list frame_in) : M (ip_state U) (list (option (delivery U))) :=
  match fs with
  | [] => ret []
  | f :: fs =>
      let* r := stack_rx f in
      let* rs := stack_rx_all fs in
      ret (r :: rs)
  end.

End Instances.

(** ** Sending *)

Section Send.
Context {H : Host} {Ops P U RW : Type} `{RL : RawLayer RW}.
Context (n : net Ops P) (clock : arp (eth Ops P RW) -> Z) (mem : bool) (wait : nat -> M (arp (eth Ops P RW)) Z).

(** The interface [netif] of device [dev], and the raw device below, which accepts
    every frame while it is [up]: [put] is its effect. *)
Context (netif : nifid) (nif : Net.netif) (dev : devid) (d : netdev Ops) (r : rawid) (up : RW -> Prop) (put : RW -> bytes -> RW).
Context (Hnif : niftab n !! netif = Some nif) (Hdev : nif_dev nif = Some dev) (Hd : devtab n !! dev = Some d).
Context (Hflags : nz (Z.land (dev_flags d) NETDEV_FLAG_NOARP) = false) (Haddr : 6 <= zlen (dev_addr d)).
Context (Hmtu : dev_mtu d = ETHERNET_PAYLOAD_SIZE_MAX).
Context (Hput : forall frame w, up w -> raw_tx r frame w = (zlen frame, put w frame, []) /\ up (put w frame)).

(** The hardware address [ha] of [pa] is known, and the device is open. *)
Record linked (pa : Z) (ha : bytes) (s : arp (eth Ops P RW)) : Prop := {
  lk_mutex : arp_mutex s = false;
  lk_entry : exists i, arp_table_select pa (arp_table s) = Some i /\ ae_ha (arp_table s !!! i) = ha;
  lk_ha : zlen ha = 6 /\ ha <> ETHERNET_ADDR_ANY;
  lk_net : eth_net (arp_world s) = n;
  lk_priv : exists p, eth_priv (arp_world s) !! dev = Some p /\ ep_raw p = Some r;
  lk_up : up (eth_world (arp_world s))
}.

Definition put_frame (s : arp (eth Ops P RW)) (frame : bytes) : arp (eth Ops P RW) :=
  set_arp_world (set_eth_world (put (eth_world (arp_world s)) frame) (arp_world s)) s.

Lemma linked_put pa ha s frame : linked pa ha s -> linked pa ha (put_frame s frame).
Proof. intros []. split; try done. by apply Hput. Qed.

Lemma resolve_linked pa ha packet s : linked pa ha s ->
  link_resolve n clock mem wait netif pa packet s = ((ARP_RESOLVE_FOUND, ha), s, []).
Proof.
  intros [Hm (i & Hsel & Hha) [Hl Hany] _ _ _]. unfold link_resolve. run.
  assert (arp_resolve n netif pa (Some packet) mem (clock s) s = (Resolved ARP_RESOLVE_FOUND ha, s, [])) as E.
  { unfold arp_resolve. run by (unfold arp_lock; by rewrite Hm). run.
    change (arp_table (set_arp_mutex true s)) with (arp_table s). rewrite Hsel. run.
    change (arp_table (set_arp_mutex true s)) with (arp_table s). rewrite Hha.
    assert (memeq ha ETHERNET_ADDR_ANY ETHERNET_ADDR_LEN = false) as ->.
    { apply bool_decide_eq_false. change (Z.to_nat ETHERNET_ADDR_LEN) with 6%nat.
      by rewrite take_ge by (unfold zlen in Hl; lia). }
    cbn. destruct s. cbn in *. by subst. }
  run by exact E. done.
Qed.

Lemma frame_of_buffer type packet ha : zlen ha = 6 -> frame_of d type packet (ha_buffer ha) = frame_of d type packet ha.
Proof.
  intros Hl. unfold frame_of, ha_buffer. rewrite take_app_le by (unfold zlen in Hl; lia). done.
Qed.

(** A packet of known destination is one frame. *)
Lemma tx_netdev_linked pa ha packet s : linked pa ha s -> zlen packet <= ETHERNET_PAYLOAD_SIZE_MAX ->
  ip_tx_netdev (LL := ethernet_link n clock mem wait) n netif packet (Some pa) s
  = (1, put_frame s (frame_of d ETHERNET_TYPE_IP packet ha), []).
Proof.
  intros Hs Hp. unfold ip_tx_netdev. rewrite Hnif. cbn [mbind option_bind]. rewrite Hdev. cbn [mbind option_bind].
  rewrite Hd, Hflags. cbn [ll_resolve ethernet_link]. run by (by apply resolve_linked).
  change (negb (ARP_RESOLVE_FOUND =? ARP_RESOLVE_FOUND)) with false. cbv iota.
  destruct Hs as [Hm _ [Hl _] Hn (p & Hpriv & Hraw) Hup].
  assert (6 <= zlen (ha_buffer ha)) by (unfold ha_buffer, zlen in *; rewrite length_app; lia).
  assert (dev_tx (LinkLayer := ethernet_link n clock mem wait) dev ETHERNET_TYPE_IP packet (ha_buffer ha) s
    = (zlen packet, put_frame s (frame_of d ETHERNET_TYPE_IP packet ha), [])) as E.
  { cbn [dev_tx ethernet_link]. unfold arp_tx, zoom, ops_tx, ethernet_device.
    rewrite (ethernet_tx_frame _ _ _ _ _ d p r); try done; [|by rewrite Hn].
    rewrite (proj1 (Hput _ _ Hup)), zlen_frame, frame_of_buffer by done. by rewrite Z.eqb_refl. }
  run by exact E. by rewrite Z.eqb_refl.
Qed.

Lemma send_all_linked pa ha len pkts : forall s, linked pa ha s ->
  Forall (fun pkt => zlen pkt <= ETHERNET_PAYLOAD_SIZE_MAX) pkts ->
  send_all (LL := ethernet_link n clock mem wait) n netif (Some pa) len pkts s
  = (len, foldl put_frame s (map (fun pkt => frame_of d ETHERNET_TYPE_IP pkt ha) pkts), []).
Proof.
  induction pkts as [|pkt pkts IH]; intros s Hs Hall; cbn [send_all map foldl]; [done|].
  apply Forall_cons in Hall as [Hp Hall]. run by (by apply tx_netdev_linked). cbn [Z.eqb].
  apply IH; [by apply linked_put|done].
Qed.

End Send.

(** ** From one host to another *)

Section Delivery.
Context {H : Host} {Ops P U RW : Type} `{RL : RawLayer RW}.

(** The zeros that fill up a short packet. *)
Definition padding (packet : bytes) : bytes :=
  replicate (Z.to_nat (ETHERNET_PAYLOAD_SIZE_MIN - zlen packet)) 0.

Section Receiver.
Context (n : net Ops P) (ip : P -> bool) (d : netdev Ops) (dev : devid) (m : option frag_block) (h : P).
Context (Hwf : net_wf n) (Hproto : NetdevProto ETHERNET_TYPE_IP h ∈ protos n) (Hip : ip h = true).
Context (d' : netdev Ops) (ha : bytes) (Haddr : 6 <= zlen (dev_addr d')) (Hlen : zlen ha = 6).
Context (Hmine : memeq (dev_addr d) ha 6 = true).

Lemma stack_rx_frame packet f (s : ip_state U) : zlen packet <= ETHERNET_PAYLOAD_SIZE_MAX ->
  fi_frame f = frame_of d' ETHERNET_TYPE_IP packet ha ->
  stack_rx n ip d dev m f s
  = ip_rx n (packet ++ padding packet) (zlen (packet ++ padding packet)) dev (fi_t1 f) (fi_t2 f) (fi_t3 f) m s.
Proof.
  intros Hp Hf. assert (is_u16 ETHERNET_TYPE_IP) by (by unfold is_u16). unfold stack_rx.
  rewrite Hf, zlen_frame, ethernet_rx_frame, Hmine by (done || lia). cbn [orb]. run.
  cbn [rc_type rc_packet rc_plen]. rewrite (netdev_rx_registered n ETHERNET_TYPE_IP h) by done. cbn [existsb].
  by rewrite Hip.
Qed.

(** The arrivals at IP for frames that carry the pieces [xs]. *)
Definition arrivals_of (packet : piece -> bytes) (xs : list piece) (fs : list frame_in) : list arrival :=
  zip_with (fun x f => Arrival x (padding (packet x)) (fi_t1 f) (fi_t2 f) (fi_t3 f)) xs fs.

Lemma stack_rx_all_ip packet : forall xs fs (s : ip_state U),
  Forall (fun x => zlen (packet x) <= ETHERNET_PAYLOAD_SIZE_MAX) xs ->
  map fi_frame fs = map (fun x => frame_of d' ETHERNET_TYPE_IP (packet x) ha) xs ->
  stack_rx_all n ip d dev m fs s = rx_all n dev m packet (arrivals_of packet xs fs) s.
Proof.
  induction xs as [|x xs IH]; intros [|f fs] s Hall E; try done. cbn in E. injection E as Ef E.
  apply Forall_cons in Hall as [Hx Hall]. cbn [stack_rx_all arrivals_of zip_with rx_all ar_piece ar_pad ar_t1 ar_t2 ar_t3].
  unfold mbind'. rewrite (stack_rx_frame (packet x)) by done.
  destruct (ip_rx _ _ _ _ _ _ _ _ s) as [[o s1] u]. by rewrite (IH fs s1 Hall E).
Qed.

End Receiver.

Lemma length_arrivals_of packet xs fs : length fs = length xs -> length (arrivals_of packet xs fs) = length fs.
Proof. intros Hl. unfold arrivals_of. rewrite length_zip_with. lia. Qed.

Lemma arrivals_of_pieces packet xs fs : length fs = length xs -> map ar_piece (arrivals_of packet xs fs) = xs.
Proof.
  revert fs. induction xs as [|x xs IH]; intros [|f fs] Hl; try done. cbn. f_equal. apply IH. by injection Hl.
Qed.

Lemma elem_of_arrivals_of packet xs fs a : a ∈ arrivals_of packet xs fs ->
  exists f, f ∈ fs /\ ar_t2 a = fi_t2 f /\ ar_t3 a = fi_t3 f.
Proof. intros (x & f & -> & _ & Hf)%elem_of_zip_with. by exists f. Qed.

Lemma zlen_ip_packet protocol src dst id p mss x : dgram_ok protocol src dst id p -> 0 < mss -> mss mod 8 = 0 ->
  x ∈ pieces mss (zlen p) -> zlen (ip_packet protocol src dst id p x) <= 20 + mss.
Proof.
  intros [Hpr Hsrc Hdst Hid Hp] Hm H8 Hx. pose proof (pieces_ok mss p Hm H8) as Hok. rewrite Forall_forall in Hok.
  specialize (Hok x Hx). apply elem_of_pieces in Hx as (j & Hj & Hlt & Ex); [|done].
  destruct (ip_hdr_store_octets (ip_make_hdr protocol x.2 src dst id (offset_field p x))) as (Hl & _).
  { apply ip_make_hdr_wf; try done. apply offset_field_u16, Hok. }
  unfold ip_packet. rewrite zlen_app, Hl. unfold zlen at 1. rewrite length_take, length_drop.
  assert (x.2 <= mss) by (subst x; cbn; lia). lia.
Qed.


End Delivery.

(** ** Example *)

(** Two hosts, with addresses 1 and 2. *)
Definition host_net (ha : bytes) (ip : Z) : net unit nat :=
  Net [] [NetdevProto ETHERNET_TYPE_IP 7%nat] [0%nat]
    {[ 0%nat := Netdev (Some 0%nat) [] NETDEV_TYPE_ETHERNET 1500 1 14 6 ha [] [] tt ]}
    {[ 0%nat := Netif None NETIF_FAMILY_IPV4 (Some 0%nat) ip 0 0 4294967295 0 ]}.

Lemma host_net_wf ha ip : net_wf (host_net ha ip).
Proof.
  split; cbn; [constructor|repeat constructor; set_solver|by repeat constructor|by repeat constructor|].
  intros d dev Hd. apply lookup_singleton_Some in Hd as [<- <-]. exists [0%nat].
  split_and!; [|apply NoDup_singleton|by apply Forall_singleton]. split; [done|]. by eexists.
Qed.

Definition host_arp (n : net unit nat) (pa : Z) (ha : bytes) : arp (eth unit nat (list bytes)) :=
  Arp [ArpEntry true pa ha 100 None None] 100 false []
    (Eth n {[ 0%nat := EthernetPriv (Some 0%nat) (Some 0%nat) false ]} []).

Definition host_dev (ha : bytes) : netdev unit :=
  Netdev (Some 0%nat) [] NETDEV_TYPE_ETHERNET 1500 1 14 6 ha [] [] tt.

Definition long_payload : bytes := replicate 2000 7.

Definition long_frame (x : piece) : bytes :=
  frame_of (H := LittleEndian) (host_dev [2; 0; 0; 0; 0; 1]) ETHERNET_TYPE_IP
    (ip_packet (H := LittleEndian) 6 1 2 128 long_payload x) [2; 0; 0; 0; 0; 2].

