(* ===== verification/Station.v ===== *)
(** * Stations: the stack as one program

    A station is a host with all the layers: its frames come from
    [ethernet_rx], which calls [ip_rx] or [arp_rx] through the registered
    protocols, and [ip_rx] calls [tcp_rx]; its segments leave through [ip_tx],
    address resolution and the Ethernet device.  Stations whose addresses are
    known to each other are a [Network] with a [Wire] for the theorems on TCP, so
    two of them open connections and exchange data in Ethernet frames. *)

From S2P Require Import Prelude Logic Endian Cksum Mask Queue Addr CString Net Ethernet Raw RawFacts IpFragment Ip IpFacts Arp ArpFacts TcpTypes TcpSegment TcpTimer TcpApi TcpNetwork TcpHandshake TcpTransfer TcpSample Echo Stack.

(** ** Padding *)

Section Padding.
Context {H : Host} {W : Type} `{SYS : System W}.

Lemma mbind_ext {S A B} (m : M S A) (k k' : A -> M S B) s :
  (forall a s', k a s' = k' a s') -> mbind' m k s = mbind' m k' s.
Proof. intros E. unfold mbind'. destruct (m s) as [[a s1] u]. by rewrite E. Qed.

Lemma memcpy_padded dst off src pad n : n <= zlen src -> memcpy dst off (src ++ pad) n = memcpy dst off src n.
Proof.
  intros Hn. unfold memcpy. pose proof (zlen_nonneg pad). rewrite zlen_app, !Z.min_l by lia.
  rewrite take_app_le by (unfold zlen in Hn; lia).
  by rewrite (proj2 (Z.ltb_ge (zlen src + zlen pad) n)), (proj2 (Z.ltb_ge (zlen src) n)) by lia.
Qed.

Lemma tcp_checksum_padded self peer segment pad : zlen segment < 65536 ->
  tcp_checksum self peer (segment ++ pad) (zlen segment) = tcp_checksum self peer segment (zlen segment).
Proof.
  intros Hl. pose proof (zlen_nonneg segment). pose proof (zlen_nonneg pad).
  unfold tcp_checksum, cksum16. rewrite !(u16_small (zlen segment)) by (unfold is_u16; lia).
  rewrite zlen_app, take_app_le by (unfold zlen; lia).
  by rewrite (proj2 (Z.ltb_ge (zlen segment + zlen pad) _)), (proj2 (Z.ltb_ge (zlen segment) _)) by lia.
Qed.

(** [tcp_rx] does not look at what follows the segment in memory. *)
Lemma tcp_rx_padded segment pad hdr src dst iface (s : tcp W) :
  TCP_HDR_SIZE <= zlen segment < 65536 -> tcp_hdr_load segment = Some hdr -> TCP_HDR_LEN hdr = TCP_HDR_SIZE ->
  tcp_rx (segment ++ pad) (zlen segment) src dst iface s = tcp_rx segment (zlen segment) src dst iface s.
Proof.
  intros Hl Hload Hhl. unfold TCP_HDR_SIZE in *.
  assert (tcp_hdr_load (segment ++ pad) = Some hdr) as Hload'.
  { rewrite <- Hload. do 20 (destruct segment as [|? segment]; [done|]). done. }
  assert (TCP_DATA_LEN hdr (zlen segment) = zlen segment - 20) as Hdl.
  { unfold TCP_DATA_LEN. rewrite Hhl, u64_small by lia. done. }
  assert (forall i s', tcp_event_segment_arrives i hdr (segment ++ pad) (zlen segment) s'
    = tcp_event_segment_arrives i hdr segment (zlen segment) s') as Harr.
  { intros i s'. unfold tcp_event_segment_arrives. rewrite Hdl. apply mbind_ext. intros [now|] s1; [|done].
    apply mbind_ext. intros c s2. apply mbind_ext. intros [] s3; [done|]. apply mbind_ext. intros _ s4. unfold mbind'.
    assert (check_text i hdr (segment ++ pad) (zlen segment - 20) now s4
      = check_text i hdr segment (zlen segment - 20) now s4) as ->; [|done].
    unfold check_text. apply mbind_ext. intros c' s5. rewrite Hhl, drop_app_le by (unfold zlen in Hl; lia).
    rewrite memcpy_padded; [done|]. unfold zlen in *. rewrite length_drop. lia. }
  unfold tcp_rx. rewrite tcp_checksum_padded, Hload, Hload' by lia. destruct (negb _); [done|]. destruct (_ <? _); [done|].
  destruct (tcp_checksum _ _ _ _) as [sum u]. apply mbind_ext. intros _ s1. destruct (negb _); [done|].
  apply mbind_ext. intros _ s2. apply mbind_ext. intros t s3.
  destruct (tcp_rx_find _ _ _ _ _ _ _) as [[[i|] [f|]] l]; try done; unfold mbind'; try by rewrite Harr.
  - destruct (tcp_rx_new _ _ _ _ _ s3) as [[? s4] ?]. by rewrite Harr.
Qed.

End Padding.

(** ** The program *)

(** The handlers that [ip_init] and [arp_init] register with [netdev_proto_register],
    and the one that [tcp_init] registers with [ip_add_protocol]. *)
Inductive eth_handler := IpRx | ArpRx.
Inductive ip_handler := TcpRx.

(** The registries of a host: IP is registered for its Ethernet type, and the interface
    [netif] with an IPv4 address belongs to the Ethernet device [dev]. *)
Record registered {Ops : Type} (n : net Ops eth_handler) (netif : nifid) (nif : Net.netif) (dev : devid) (d : netdev Ops) : Prop := {
  rg_wf : net_wf n;
  rg_ip : NetdevProto ETHERNET_TYPE_IP IpRx ∈ protos n;
  rg_nif : niftab n !! netif = Some nif;
  rg_nif_dev : nif_dev nif = Some dev;
  rg_dev : devtab n !! dev = Some d;
  rg_family : netdev_get_netif dev NETIF_FAMILY_IPV4 n = (Some netif, []);
  rg_arp : nz (Z.land (dev_flags d) NETDEV_FLAG_NOARP) = false;
  rg_addr : 6 <= zlen (dev_addr d);
  rg_mtu : dev_mtu d = ETHERNET_PAYLOAD_SIZE_MAX;
  rg_unicast : is_u32 (nif_unicast nif)
}.

Arguments rg_wf {Ops n netif nif dev d} _.
Arguments rg_ip {Ops n netif nif dev d} _.
Arguments rg_nif {Ops n netif nif dev d} _.
Arguments rg_nif_dev {Ops n netif nif dev d} _.
Arguments rg_dev {Ops n netif nif dev d} _.
Arguments rg_family {Ops n netif nif dev d} _.
Arguments rg_arp {Ops n netif nif dev d} _.
Arguments rg_addr {Ops n netif nif dev d} _.
Arguments rg_mtu {Ops n netif nif dev d} _.
Arguments rg_unicast {Ops n netif nif dev d} _.

Section Station.
Context {H : Host} {Ops RW : Type} `{RL : RawLayer RW}.

Abbreviation link := (arp (eth Ops eth_handler RW)).
Abbreviation world := (ip_state ip_handler * arp (eth Ops eth_handler RW))%type.

(** What the operating system holds, below all the layers. *)
Definition raw_world (w : world) : RW := eth_world (arp_world w.2).
Definition set_raw_world (rw : RW) (w : world) : world := (w.1, set_arp_world (set_eth_world rw (arp_world w.2)) w.2).

(** A call of the C library. *)
Definition lib {A} (f : RW -> A * RW) (w : world) : A * world :=
  let '(a, rw) := f (raw_world w) in (a, set_raw_world rw w).

(** A host that works: the raw device below its interface takes every frame while it is
    [st_up]; the C library has memory, time and random numbers. *)
Record station := Station {
  st_net : net Ops eth_handler;
  st_netif : nifid;
  st_nif : netif;
  st_dev : devid;
  st_netdev : netdev Ops;
  st_raw : rawid;
  st_up : RW -> Prop;
  st_put : RW -> bytes -> RW;
  st_frames : RW -> list bytes;
  st_clock : link -> Z;
  st_mem : bool;
  st_wait : nat -> M link Z;
  st_malloc : RW -> bool * RW;
  st_gettimeofday : RW -> option Z * RW;
  st_time : RW -> Z * RW;
  st_random : RW -> Z * RW;
  st_registered : registered st_net st_netif st_nif st_dev st_netdev;
  st_tx frame w : st_up w -> raw_tx st_raw frame w = (zlen frame, st_put w frame, []) /\ st_up (st_put w frame);
  st_tx_frame frame w : st_up w -> st_frames (st_put w frame) = st_frames w ++ [frame];
  st_calm : calm st_up st_frames st_malloc /\ calm st_up st_frames st_gettimeofday /\
    calm st_up st_frames st_time /\ calm st_up st_frames st_random;
  st_memory w : st_up w -> (st_malloc w).1 = true;
  st_now w : st_up w -> exists now, (st_gettimeofday w).1 = Some now /\ 0 < now;
  st_bits w : st_up w -> 0 <= (st_random w).1 < 2147483648
}.

(** [System] of TCP in a station. *)
Definition station_system (S : station) : System world :=
  ip_system (st_net S) (st_clock S) (st_mem S) (st_wait S)
    (lib (st_malloc S)) (lib (st_gettimeofday S)) (lib (st_time S)) (lib (st_random S)).

(** The calls of [dev->rx_handler] and of what is registered above it. *)
Definition station_ip (S : station) (m : option frag_block) (f : frame_in) (c : rx_call) : M (tcp world) unit :=
  let* r := sysm (on_fst (ip_rx (st_net S) (rc_packet c) (rc_plen c) (st_dev S) (fi_t1 f) (fi_t2 f) (fi_t3 f) m)) in
  match r with
  | Some dl =>
      match dl_handler dl with
      | TcpRx => tcp_rx (SYS := station_system S) (dl_payload dl) (dl_len dl) (dl_src dl) (dl_dst dl) (dl_iface dl)
      end
  | None => ret tt
  end.

Fixpoint station_handlers (S : station) (m : option frag_block) (f : frame_in) (c : rx_call) (hs : list eth_handler)
  : M (tcp world) unit :=
  match hs with
  | [] => ret tt
  | h :: hs =>
      match h with
      | IpRx => station_ip S m f c
      | ArpRx => sysm (on_snd (arp_rx (st_net S) (rc_packet c) (rc_plen c) (st_dev S) (fi_t1 f) (fi_t2 f)))
      end ;;;
      station_handlers S m f c hs
  end.

(** A frame that the receiving thread hands to [ethernet_rx]. *)
Definition station_rx (S : station) (m : option frag_block) (f : frame_in) : M (tcp world) unit :=
  let '(call, u) := ethernet_rx (st_netdev S) (fi_frame f) (zlen (fi_frame f)) in
  tell u ;;;
  match call with
  | None => ret tt
  | Some c => station_handlers S m f c (netdev_rx_handler (rc_type c) (st_net S))
  end.

End Station.
Arguments station Ops RW {RL}.

(** ** A station as a network *)

Section Network.
Context {H : Host} {Ops RW : Type} `{RL : RawLayer RW}.
Context (S : station Ops RW) (peer : Z) (ha : bytes) (Hpeer : is_u32 peer) (Hcast : peer <> IPADDR_BROADCAST).

Abbreviation world := (ip_state ip_handler * arp (eth Ops eth_handler RW))%type.
Abbreviation self := (nif_unicast (st_nif S)).

(** The frame of a segment for the peer. *)
Definition tcp_frame (id : Z) (segment : bytes) : bytes :=
  frame_of (st_netdev S) ETHERNET_TYPE_IP (ip_packet IP_PROTOCOL_TCP self peer id segment (0, zlen segment)) ha.

Definition is_tcp_frame (frame : bytes) : Prop :=
  exists id segment, is_u16 id /\ TCP_HDR_SIZE <= zlen segment <= 1480 /\ frame = tcp_frame id segment.

(** The segment in a frame. *)
Definition segment_of (frame : bytes) : option sent_segment :=
  h ← ip_hdr_load (drop 14 frame);
  Some (st_netif S, take (Z.to_nat (ntoh16 (ih_len h) - 20)) (drop 34 frame), ih_dst h).

(** The peer is known to address resolution, the interface is the default one, TCP is
    registered, and only segments have been sent. *)
Record station_up (w : world) : Prop := {
  su_linked : linked (st_net S) (st_dev S) (st_raw S) (st_up S) peer ha w.2;
  su_default : default_netif w.1 = Some (st_netif S);
  su_tcp : List.find (fun q => q.1 =? IP_PROTOCOL_TCP) (protocols w.1) = Some (IP_PROTOCOL_TCP, TcpRx);
  su_id : is_u16 (ip_next_id w.1);
  su_frames : Forall is_tcp_frame (st_frames S (raw_world w))
}.

Definition station_outbox (w : world) : list sent_segment := omap segment_of (st_frames S (raw_world w)).

Lemma segment_datagram id segment : is_u16 id -> TCP_HDR_SIZE <= zlen segment <= 1480 ->
  dgram_ok IP_PROTOCOL_TCP self peer id segment.
Proof. intros Hid Hl. unfold TCP_HDR_SIZE in Hl. split; try done; [apply (rg_unicast (st_registered _))|lia]. Qed.

Lemma drop_ethernet_hdr type packet : zlen ha = 6 -> drop 14 (frame_of (st_netdev S) type packet ha) = padded packet.
Proof.
  intros Hha. pose proof (take_6 ha ltac:(lia)). pose proof (take_6 _ (rg_addr (st_registered S))). unfold frame_of.
  rewrite !app_assoc. apply drop_app_length'. rewrite !length_app, store16_length. lia.
Qed.

Lemma segment_of_frame id segment : zlen ha = 6 -> is_u16 id -> TCP_HDR_SIZE <= zlen segment <= 1480 ->
  segment_of (tcp_frame id segment) = Some (st_netif S, segment, peer).
Proof.
  intros Hha Hid Hl. unfold segment_of, tcp_frame. rewrite drop_ethernet_hdr by done.
  change 34%nat with (14 + 20)%nat. rewrite <- drop_drop, drop_ethernet_hdr by done.
  destruct (segment_datagram id segment Hid Hl) as [Hpr Hsrc Hdst _ _]. unfold TCP_HDR_SIZE in Hl.
  unfold padded, ip_packet. cbn [fst snd]. set (pad := replicate _ _). clearbody pad.
  rewrite drop_0, (take_ge segment), <- app_assoc by (unfold zlen; lia).
  set (h := ip_make_hdr _ _ _ _ _ _). destruct (ip_hdr_store_octets h) as (L & _ & ->).
  { apply ip_make_hdr_wf; try done. apply offset_field_u16. unfold piece_ok. cbn. lia. }
  cbn [mbind option_bind]. rewrite (drop_app_length' (ip_hdr_store h)) by (unfold zlen in L; lia).
  change (ih_len h) with (hton16 (u16 (IP_HDR_SIZE_MIN + zlen segment))). change (ih_dst h) with peer. rewrite u16_small, ntoh16_hton16 by (unfold is_u16, IP_HDR_SIZE_MIN; lia).
  rewrite take_app_length' by (unfold IP_HDR_SIZE_MIN, zlen; lia). done.
Qed.

(** The segments and the frames have the same numbers. *)
Lemma outbox_frames fs k : zlen ha = 6 -> Forall is_tcp_frame fs -> omap segment_of fs !! k = (fs !! k) ≫= segment_of.
Proof.
  intros Hha Hfs. revert k. induction Hfs as [|f fs (id & segment & Hid & Hl & ->) _ IH]; intros k; [done|].
  cbn [omap list_omap]. rewrite segment_of_frame by done. destruct k as [|k]; [cbn; by rewrite segment_of_frame|apply IH].
Qed.

Lemma station_up_raw (w : world) rw : station_up w -> st_up S rw -> Forall is_tcp_frame (st_frames S rw) ->
  station_up (set_raw_world rw w).
Proof. intros [[] ? ? ? ?] Hrw Hf. by split. Qed.

Lemma lib_calm {A} (f : RW -> A * RW) : calm (st_up S) (st_frames S) f -> calm station_up station_outbox (lib f).
Proof.
  intros Hf w Hw. destruct (Hf (raw_world w)) as [Hup Hfr]; [apply Hw|]. unfold lib, station_outbox.
  destruct (f (raw_world w)) as [a rw]. cbn in *. split; [|by rewrite <- Hfr]. apply station_up_raw; [done|done|].
  rewrite Hfr. apply Hw.
Qed.

Lemma lib_value {A} (f : RW -> A * RW) (w : world) : (lib f w).1 = (f (raw_world w)).1.
Proof. unfold lib. by destruct (f (raw_world w)). Qed.

(** [ip_tx] of a segment for the peer puts its frame on the wire. *)
Lemma station_ip_tx segment w : station_up w -> TCP_HDR_SIZE <= zlen segment <= 1480 ->
  let frame := tcp_frame (ip_next_id w.1) segment in
  sys_ip_tx (System := station_system S) (st_netif S) segment (zlen segment) peer w
  = (zlen segment, (set_ip_next_id (u16 (ip_next_id w.1 + 1)) w.1, put_frame (st_put S) w.2 frame), []).
Proof.
  intros [Hlk Hdef Htcp Hid Hfs] Hl frame. unfold TCP_HDR_SIZE in Hl. destruct w as [ips l]. cbn [fst snd] in *.
  assert (netif_mtu (st_net S) (st_netif S) = Some 1500) as Hm.
  { unfold netif_mtu. rewrite (rg_nif (st_registered _)). cbn. rewrite (rg_nif_dev (st_registered _)). cbn. rewrite (rg_dev (st_registered _)). cbn. by rewrite (rg_mtu (st_registered _)). }
  assert (netif_addr (st_net S) (st_netif S) = self) as Ha by (unfold netif_addr; by rewrite (rg_nif (st_registered _))).
  cbn [sys_ip_tx station_system ip_system]. unfold mbind' at 1.
  rewrite (ip_tx_send_all (LL := ethernet_link (st_net S) (st_clock S) (st_mem S) (st_wait S)) _ _ 1500) by (done || lia).
  rewrite (proj2 (Z.eqb_neq _ _) Hcast), Ha, (take_ge segment) by (unfold zlen; lia).
  change (1500 - 20) with 1480. rewrite pieces_single by lia. cbn [map].
  rewrite (send_all_linked _ _ _ _ _ (st_nif S) (st_dev S) (st_netdev S) (st_raw S) (st_up S) (st_put S) (rg_nif (st_registered S))
    (rg_nif_dev (st_registered S)) (rg_dev (st_registered S)) (rg_arp (st_registered S)) (rg_addr (st_registered S)) (st_tx S) peer ha); [done|exact Hlk|].
  constructor; [|constructor]. change ETHERNET_PAYLOAD_SIZE_MAX with (20 + 1480).
  apply zlen_ip_packet; [by apply segment_datagram|done|done|]. rewrite pieces_single by lia. by left.
Qed.

Lemma station_sends segment w : station_up w -> TCP_HDR_SIZE <= zlen segment <= 1480 ->
  exists w', sys_ip_tx (System := station_system S) (st_netif S) segment (zlen segment) peer w = (zlen segment, w', []) /\
    station_up w' /\ station_outbox w' = station_outbox w ++ [(st_netif S, segment, peer)].
Proof.
  intros Hw Hl. eexists. split; [by apply station_ip_tx|]. pose proof Hw as [Hlk Hdef Htcp Hid Hfs].
  destruct (st_tx S (tcp_frame (ip_next_id w.1) segment) (raw_world w)) as [_ Hup]; [apply Hlk|].
  pose proof (st_tx_frame S (tcp_frame (ip_next_id w.1) segment) (raw_world w) ltac:(apply Hlk)) as Hfr.
  split; [split; try done|].
  - cbn [snd]. by destruct Hlk.
  - apply u16_range.
  - unfold raw_world in *. cbn. rewrite Hfr. apply Forall_app. split; [done|]. constructor; [|constructor].
    by exists (ip_next_id w.1), segment.
  - unfold station_outbox, raw_world in *. cbn. rewrite Hfr, omap_app. cbn. rewrite segment_of_frame; try done. apply Hlk.
Qed.

Definition station_network : Network world (SYS := station_system S).
Proof.
  unshelve refine {| outbox := station_outbox; net_up := station_up;
    net_route k dst := k = st_netif S /\ dst = peer |}.
  - exact (lib_calm _ (proj1 (st_calm S))).
  - intros w Hw. etrans; [apply lib_value|]. apply st_memory, Hw.
  - exact (lib_calm _ (proj1 (proj2 (st_calm S)))).
  - intros w Hw. destruct (st_now S (raw_world w)) as (now & E & Hnow); [apply Hw|].
    exists now. split; [|done]. etrans; [apply lib_value|exact E].
  - exact (lib_calm _ (proj1 (proj2 (proj2 (st_calm S))))).
  - exact (lib_calm _ (proj2 (proj2 (proj2 (st_calm S))))).
  - intros w Hw. pose proof (st_bits S (raw_world w) ltac:(apply Hw)) as Hb. rewrite <- lib_value in Hb. exact Hb.
  - intros n dst w Hw [-> ->]. apply Hw.
  - intros n dst [-> ->]. cbn. unfold netif_mtu. rewrite (rg_nif (st_registered _)). cbn. rewrite (rg_nif_dev (st_registered _)). cbn. rewrite (rg_dev (st_registered _)).
    cbn. by rewrite (rg_mtu (st_registered _)).
  - intros n segment dst w Hw [-> ->] Hl.
    assert (sys_mtu (System := station_system S) (st_netif S) = 1500) as Hm.
    { cbn. unfold netif_mtu. rewrite (rg_nif (st_registered _)). cbn. rewrite (rg_nif_dev (st_registered _)). cbn. rewrite (rg_dev (st_registered _)). cbn. by rewrite (rg_mtu (st_registered _)). }
    rewrite Hm in Hl. destruct (station_sends segment w Hw ltac:(unfold IP_HDR_SIZE_MIN in *; lia)) as (w' & E & Hup & Ho).
    exists (zlen segment), w'. split; [exact E|]. pose proof (zlen_nonneg segment). split; [lia|done].
Defined.

End Network.

(** ** Two stations on one link *)

Section Link.
Context {H : Host} {Ops RWA RWB : Type} `{RLA : RawLayer RWA} `{RLB : RawLayer RWB}.
Context (SA : station Ops RWA) (SB : station Ops RWB) (haA haB : bytes).

Abbreviation addrA := (nif_unicast (st_nif SA)).
Abbreviation addrB := (nif_unicast (st_nif SB)).
Abbreviation worldA := (ip_state ip_handler * arp (eth Ops eth_handler RWA))%type.
Abbreviation worldB := (ip_state ip_handler * arp (eth Ops eth_handler RWB))%type.

(** The address that A knows is that of B. *)
Context (HaA : addrA <> IPADDR_BROADCAST) (HaB : addrB <> IPADDR_BROADCAST) (Hha : zlen haB = 6).
Context (Hmine : memeq (dev_addr (st_netdev SB)) haB 6 = true).

(** The frame of a segment is received by TCP. *)
Lemma station_rx_segment m t1 t2 t3 id segment hdr (s : tcp worldB) :
  List.find (fun q => q.1 =? IP_PROTOCOL_TCP) (protocols (tcp_world s).1) = Some (IP_PROTOCOL_TCP, TcpRx) ->
  is_u16 id -> TCP_HDR_SIZE <= zlen segment <= 1480 -> tcp_hdr_load segment = Some hdr -> TCP_HDR_LEN hdr = TCP_HDR_SIZE ->
  station_rx SB m (FrameIn (tcp_frame SA addrB haB id segment) t1 t2 t3) s
  = tcp_rx (SYS := station_system SB) segment (zlen segment) addrA addrB (st_netif SB) s.
Proof.
  intros Htcp Hid Hl Hload Hhl. pose proof (segment_datagram SA addrB (rg_unicast (st_registered SB)) id segment Hid Hl) as Hdg.
  unfold TCP_HDR_SIZE in Hl. unfold station_rx, tcp_frame. cbn [fi_frame].
  set (packet := ip_packet _ _ _ _ _ _).
  assert (zlen packet <= ETHERNET_PAYLOAD_SIZE_MAX) as Hp.
  { change ETHERNET_PAYLOAD_SIZE_MAX with (20 + 1480). apply zlen_ip_packet; try done. rewrite pieces_single by lia. by left. }
  rewrite zlen_frame by (done || lia || apply (rg_addr (st_registered _))).
  rewrite ethernet_rx_frame, Hmine by (done || lia || apply (rg_addr (st_registered _)) || by unfold is_u16). cbn [orb].
  run. cbn [rc_type]. rewrite (netdev_rx_registered _ ETHERNET_TYPE_IP IpRx) by (apply (rg_wf (st_registered _)) || apply (rg_ip (st_registered _)) || by unfold is_u16).
  cbn [station_handlers]. set (pad := replicate (Z.to_nat (ETHERNET_PAYLOAD_SIZE_MIN - zlen packet)) 0).
  assert (accepts (st_net SB) (st_dev SB) (st_netif SB) addrB) as Hacc.
  { split; [apply (rg_family (st_registered _))|]. exists (st_nif SB). split; [apply (rg_nif (st_registered _))|]. by left. }
  assert (sysm (on_fst (ip_rx (st_net SB) (padded packet) (zlen (padded packet)) (st_dev SB) t1 t2 t3 m)) s
    = (Some (Delivery TcpRx (segment ++ pad) (zlen segment) addrA addrB (st_netif SB)), s, [])) as E.
  { unfold sysm, on_fst, zoom, padded. fold pad.
    pose proof (ip_rx_packet (st_net SB) (st_dev SB) (st_netif SB) IP_PROTOCOL_TCP addrA addrB id segment (0, zlen segment)
      pad t1 t2 t3 m (tcp_world s).1 Hdg ltac:(unfold piece_ok; cbn [fst snd]; change (0 mod 8) with 0; lia) ltac:(cbn [snd]; lia) Hacc) as R.
    cbv zeta in R. fold packet in R. rewrite R.
    cbn [fst snd]. rewrite !Z.eqb_refl. cbn [andb]. unfold ip_dispatch. change (ih_protocol _) with IP_PROTOCOL_TCP.
    rewrite Htcp. cbn [snd]. rewrite drop_0, (take_ge segment) by (unfold zlen; lia). by destruct s as [? ? ? [? ?]]. }
  unfold station_ip. cbn [rc_packet rc_plen fi_t1 fi_t2 fi_t3].
  rewrite mbind_assoc. erewrite mbind_run_nil by exact E. cbn [dl_handler dl_payload dl_len dl_src dl_dst dl_iface].
  unfold mbind'. rewrite (tcp_rx_padded segment pad hdr) by (done || (unfold TCP_HDR_SIZE; lia)).
  destruct (tcp_rx _ _ _ _ _ s) as [[[] s'] u]. cbn. by rewrite app_nil_r.
Qed.

(** Frames of A that arrive at B; [m] is the memory that reassembly would get and
    the others are readings of the clock. *)
Definition station_wire (m : option frag_block) (t1 t2 t3 : Z)
  : Wire worldA worldB (NW := station_network SA addrB haB (rg_unicast (st_registered SB)) HaB)
      (NW' := station_network SB addrA haA (rg_unicast (st_registered SA)) HaA).
Proof.
  unshelve refine {| deliver k w iface :=
    match st_frames SA (raw_world w) !! k with
    | Some f => station_rx SB m (FrameIn f t1 t2 t3)
    | None => ret tt
    end |}.
  intros k w iface s n segment dst hdr Hup Hup' [-> _] Hdst Ho Hload Hhl. pose proof (su_frames _ _ _ _ Hup) as Hfs.
  cbn [outbox station_network] in Ho. unfold station_outbox in Ho. rewrite (outbox_frames SA addrB haB (rg_unicast (st_registered SB))) in Ho by done.
  destruct (st_frames SA (raw_world w) !! k) as [f|] eqn:Ef; [|done].
  destruct (Forall_lookup_1 _ _ _ _ Hfs Ef) as (id & segment' & Hid & Hl & ->). cbn [mbind option_bind] in Ho.
  rewrite segment_of_frame in Ho by (done || apply (rg_unicast (st_registered _))). injection Ho as <- <- <-.
  rewrite (station_rx_segment m t1 t2 t3 id segment' hdr) by (done || apply Hup').
  cbn. unfold netif_addr. by rewrite (rg_nif (st_registered _)).
Defined.

End Link.

(** ** A conversation in frames *)

Section Conversation.
Context {H : Host} {Ops RWA RWB : Type} `{RLA : RawLayer RWA} `{RLB : RawLayer RWB}.
Context (SA : station Ops RWA) (SB : station Ops RWB) (haA haB : bytes).

Abbreviation addrA := (nif_unicast (st_nif SA)).
Abbreviation addrB := (nif_unicast (st_nif SB)).
Abbreviation ifA := (st_netif SA).
Abbreviation ifB := (st_netif SB).

(** Each knows the hardware address of the other. *)
Context (HaA : addrA <> IPADDR_BROADCAST) (HaB : addrB <> IPADDR_BROADCAST) (HlA : zlen haA = 6) (HlB : zlen haB = 6).
Context (HmA : memeq (dev_addr (st_netdev SA)) haA 6 = true) (HmB : memeq (dev_addr (st_netdev SB)) haB 6 = true).
Context (m : option frag_block) (t1 t2 t3 : Z).

Abbreviation worldA := (ip_state ip_handler * arp (eth Ops eth_handler RWA))%type.
Abbreviation worldB := (ip_state ip_handler * arp (eth Ops eth_handler RWB))%type.

#[local] Instance system_A : System worldA := station_system SA.
#[local] Instance system_B : System worldB := station_system SB.
#[local] Instance network_A : Network worldA := station_network SA addrB haB (rg_unicast (st_registered SB)) HaB.
#[local] Instance network_B : Network worldB := station_network SB addrA haA (rg_unicast (st_registered SA)) HaA.
#[local] Instance wire_AB : Wire worldA worldB := station_wire SA SB haA haB HaA HaB HlB HmB m t1 t2 t3.
#[local] Instance wire_BA : Wire worldB worldA := station_wire SB SA haB haA HaB HaA HlA HmA m t1 t2 t3.

Lemma station_mtu {RW} `{RL : RawLayer RW} (S : station Ops RW) : sys_mtu (System := station_system S) (st_netif S) = 1420 + 80.
Proof.
  cbn. unfold netif_mtu. rewrite (rg_nif (st_registered _)). cbn. rewrite (rg_nif_dev (st_registered _)). cbn. rewrite (rg_dev (st_registered _)). cbn. by rewrite (rg_mtu (st_registered _)).
Qed.

(** C1: two hosts that run the whole stack on one Ethernet talk to each other.  Each has
    its registries in order, knows the hardware address of the other, and has a raw
    device that takes frames.  The client connects to the port where the server
    listens and the server accepts; the server sends a greeting, the client a reply.
    Every call succeeds, each application reads exactly what the other has sent,
    and nothing undefined happens.  All that passes between the hosts are frames:
    each segment goes through [ip_tx], address resolution and [ethernet_tx] of the
    one and, padded to the minimum of a frame, through [ethernet_rx],
    [netdev_rx_handler], [ip_rx] and [tcp_rx] of the other. *)
Theorem station_conversation i j l port (sA : tcp worldA) (sB : tcp worldB) greeting reply size now now' :
  host_endian = LittleEndian -> is_u16 port ->
  client_ready i addrB ifA addrA sA -> server_ready j l (hton16 port) addrA ifB addrB sB ->
  is_bytes greeting -> 0 < zlen greeting <= TCP_SND_BUF_SIZE -> is_bytes reply -> 0 < zlen reply <= TCP_SND_BUF_SIZE ->
  TCP_WINDOW_SIZE <= size ->
  exists sA' sB', conversation i j l port addrB ifA ifB size now now' greeting reply sA sA' sB sB' /\
    Forall (is_tcp_frame SA addrB haB) (st_frames SA (raw_world (tcp_world sA'))) /\
    Forall (is_tcp_frame SB addrA haA) (st_frames SB (raw_world (tcp_world sB'))).
Proof.
  intros Hle Hport HcA HsB Hg Hgl Hr Hrl Hsize.
  destruct (conversation_run i j l port addrA addrB ifA ifB sA sB 1420 1420 greeting reply size now now' Hle Hport HcA HsB
    (station_mtu SA) ltac:(lia) (station_mtu SB) ltac:(lia) Hg Hgl Hr Hrl Hsize) as (sA' & sB' & p & n & k & Hc & DA & DB).
  exists sA', sB'. split; [done|]. destruct DA as (_ & _ & ? & ? & ? & ? & DA & _). destruct DB as (_ & _ & ? & ? & ? & ? & DB & _).
  split; [exact (su_frames _ _ _ _ (so_up _ _ _ _ _ _ _ DA))|exact (su_frames _ _ _ _ (so_up _ _ _ _ _ _ _ DB))].
Qed.

End Conversation.

(** ** Stations over system calls *)

(** With the raw devices of Raw.v a station needs a kernel that takes the frames
    written to the descriptor of the device, and a C library with memory, time and
    random numbers that sends nothing itself. *)
Section Kernel.
Context {H : Host} {Ops K : Type} `{KF : KernelFrames K} (junk : K -> ifreq).
Context (n : net Ops eth_handler) (netif : nifid) (nif : Net.netif) (dev : devid) (d : netdev Ops).
Context (Hreg : registered n netif nif dev d).

(** The raw device [r] has the object [q] with the descriptor [fd]. *)
Context (r : rawid) (q : privid) (fd : Z) (Hwrite : forall buf k, (k_write fd buf k).1 = zlen buf).

Definition raw_open_at (w : raws K) : Prop :=
  (exists rd, raw_devs w !! r = Some rd /\ rd_priv rd = Some q) /\ raw_privs w !! q = Some fd.

Definition write_to (w : raws K) (frame : bytes) : raws K := set_raw_kernel (k_write fd frame (raw_kernel w)).2 w.
Definition written (w : raws K) : list bytes := sent (raw_kernel w) fd.

Definition os {A} (f : K -> A * K) (w : raws K) : A * raws K :=
  let '(a, k) := f (raw_kernel w) in (a, set_raw_kernel k w).

Context (k_gettimeofday : K -> option Z * K) (k_time k_random : K -> Z * K).
Context (Hquiet : forall k, sent (k_malloc k).2 fd = sent k fd /\ sent (k_gettimeofday k).2 fd = sent k fd /\
  sent (k_time k).2 fd = sent k fd /\ sent (k_random k).2 fd = sent k fd).
Context (Hmem : forall k, (k_malloc k).1 = true) (Hnow : forall k, exists now, (k_gettimeofday k).1 = Some now /\ 0 < now).
Context (Hbits : forall k, 0 <= (k_random k).1 < 2147483648).
Context (clock : arp (eth Ops eth_handler (raws K)) -> Z) (mem : bool) (wait : nat -> M (arp (eth Ops eth_handler (raws K))) Z).

Lemma os_calm {A} (f : K -> A * K) : (forall k, sent (f k).2 fd = sent k fd) -> calm raw_open_at written (os f).
Proof.
  intros Hf w Hw. unfold os, written. specialize (Hf (raw_kernel w)). destruct (f (raw_kernel w)) as [a k]. by split.
Qed.

Lemma os_value {A} (f : K -> A * K) w : (os f w).1 = (f (raw_kernel w)).1.
Proof. unfold os. by destruct (f (raw_kernel w)). Qed.

Lemma write_frame frame w : raw_open_at w ->
  raw_tx (RawLayer := raw_layer junk) r frame w = (zlen frame, write_to w frame, []) /\ raw_open_at (write_to w frame).
Proof.
  intros [(rd & Hr & Hq) Hfd]. split; [|split; [by exists rd|done]].
  cbn [raw_tx raw_layer]. rewrite (ops_tx_frame r rd q fd) by done. by rewrite Hwrite.
Qed.

Definition kernel_station : station Ops (raws K) (RL := raw_layer junk).
Proof.
  unshelve refine (Station (RL := raw_layer junk) n netif nif dev d r raw_open_at write_to written clock mem wait
    (os k_malloc) (os k_gettimeofday) (os k_time) (os k_random) Hreg
    write_frame _ _ _ _ _).
  - intros frame w Hw. unfold written, write_to. cbn. apply write_sent, Hwrite.
  - split_and!; apply os_calm; intros k; apply Hquiet.
  - intros w _. rewrite os_value. apply Hmem.
  - intros w _. rewrite os_value. apply Hnow.
  - intros w _. rewrite os_value. apply Hbits.
Defined.

End Kernel.

(** ** Example *)

(** Hosts on a tap device, 10.0.0.1 with a client and 10.0.0.2 with a listener on
    port 7. *)
Definition sample_net (ha : bytes) (ip : Z) : net unit eth_handler :=
  Net [] [NetdevProto ETHERNET_TYPE_IP IpRx; NetdevProto ETHERNET_TYPE_ARP ArpRx] [0%nat]
    {[ 0%nat := Netdev (Some 0%nat) sample_name NETDEV_TYPE_ETHERNET 1500 1 14 6 ha [] [] tt ]}
    {[ 0%nat := Netif None NETIF_FAMILY_IPV4 (Some 0%nat) ip 0 0 4294967295 0 ]}.

Lemma sample_net_wf ha ip : net_wf (sample_net ha ip).
Proof.
  split; cbn; [constructor|repeat constructor; set_solver|by repeat constructor|by repeat constructor|].
  intros d dev Hd. apply lookup_singleton_Some in Hd as [<- <-]. exists [0%nat].
  split_and!; [|apply NoDup_singleton|by apply Forall_singleton]. split; [done|]. by eexists.
Qed.

Definition sample_layer : RawLayer (raws sample_kernel) :=
  raw_layer (H := LittleEndian) (KN := sample_kernel_calls) sample_ifreq.

Definition sample_station (a : Z) (ip : Z) (Hip : is_u32 ip) : station unit (raws sample_kernel) (RL := sample_layer).
Proof.
  refine (kernel_station (H := LittleEndian) (KF := sample_kernel_frames) sample_ifreq (sample_net [2; 0; 0; 0; 0; a] ip)
    0 (Netif None NETIF_FAMILY_IPV4 (Some 0%nat) ip 0 0 4294967295 0) 0
    (Netdev (Some 0%nat) sample_name NETDEV_TYPE_ETHERNET 1500 1 14 6 [2; 0; 0; 0; 0; a] [] [] tt) _ 0 0 3 (fun _ _ => eq_refl)
    (fun k => (Some 100, k)) (fun k => (7, k)) (fun k => (1000, k)) (fun _ => conj eq_refl (conj eq_refl (conj eq_refl eq_refl)))
    (fun _ => eq_refl) _ _ (fun _ => 100) true (fun _ => ret ETIMEDOUT)).
  - split; [apply sample_net_wf|by left|done..|by apply Z.leb_le|done|done].
  - intros k. by exists 100.
  - intros k. split; by apply Z.leb_le || apply Z.ltb_lt.
Defined.

(** The table of address resolution has the other host, and the device is open. *)
Definition sample_world (a : Z) (ip b peer : Z) : ip_state ip_handler * arp (eth unit eth_handler (raws sample_kernel)) :=
  (IpState frags_init 128 (Some 0%nat) [(IP_PROTOCOL_TCP, TcpRx)],
   Arp [ArpEntry true peer [2; 0; 0; 0; 0; b] 100 None None] 100 false []
     (Eth (sample_net [2; 0; 0; 0; 0; a] ip) {[ 0%nat := EthernetPriv (Some 0%nat) (Some 1%nat) false ]}
        (Raws {[ 0%nat := Rawdev RAWDEV_TYPE_TAP (str "tap0") TapOps (Some 0%nat) ]} {[ 0%nat := 3 ]}
           (SampleKernel {[ 0; 1; 2; 3 ]} [] [] {[ 1%nat ]})))).

Lemma sample_world_up a ip Hip b peer : peer <> IPADDR_BROADCAST -> [2; 0; 0; 0; 0; b] <> ETHERNET_ADDR_ANY ->
  station_up (H := LittleEndian) (sample_station a ip Hip) peer [2; 0; 0; 0; 0; b] (sample_world a ip b peer).
Proof.
  intros Hp Hb. split; try done. split; try done; [|by eexists|by split; [eexists|]]. exists 0%nat. unfold arp_table_select. cbn. by rewrite Z.eqb_refl.
Qed.

Definition sample_tcp (c : tcp_cb) (a ip b peer : Z) : tcp (ip_state ip_handler * arp (eth unit eth_handler (raws sample_kernel))) :=
  Tcp (c :: replicate 127 cb0) false [] (sample_world a ip b peer).

Lemma sample_u32_A : is_u32 16777226.
Proof. by split; [apply Z.leb_le|]. Qed.
Lemma sample_u32_B : is_u32 33554442.
Proof. by split; [apply Z.leb_le|]. Qed.

Definition sample_A := sample_station 1 16777226 sample_u32_A.
Definition sample_B := sample_station 2 33554442 sample_u32_B.

Lemma sample_not_cast a ip Hip : ip <> IPADDR_BROADCAST -> nif_unicast (st_nif (sample_station a ip Hip)) <> IPADDR_BROADCAST.
Proof. done. Qed.

Definition sample_cast_A : nif_unicast (st_nif sample_A) <> IPADDR_BROADCAST := sample_not_cast 1 16777226 sample_u32_A ltac:(discriminate).
Definition sample_cast_B : nif_unicast (st_nif sample_B) <> IPADDR_BROADCAST := sample_not_cast 2 33554442 sample_u32_B ltac:(discriminate).

Lemma sample_mine_A : memeq (dev_addr (st_netdev sample_A)) [2; 0; 0; 0; 0; 1] 6 = true.
Proof. reflexivity. Qed.
Lemma sample_mine_B : memeq (dev_addr (st_netdev sample_B)) [2; 0; 0; 0; 0; 2] 6 = true.
Proof. reflexivity. Qed.
Lemma sample_length a : zlen [2; 0; 0; 0; 0; a] = 6.
Proof. reflexivity. Qed.

Lemma sample_A_ready : client_ready
  (NA := network_A (H := LittleEndian) sample_A sample_B [2; 0; 0; 0; 0; 2] sample_cast_B)
  0 33554442 0 16777226 (sample_tcp (cb_set_used true cb0) 1 16777226 2 33554442).
Proof.
  split; [unfold TCP_CB_TABLE_SIZE; lia|reflexivity|reflexivity|reflexivity|by split_and!|reflexivity| |by split|reflexivity].
  by apply (sample_world_up 1 16777226 sample_u32_A 2 33554442).
Qed.

Lemma sample_B_ready : server_ready
  (NB := network_B (H := LittleEndian) sample_A sample_B [2; 0; 0; 0; 0; 1] sample_cast_A)
  1 0 (hton16 (H := LittleEndian) 7) 16777226 0 33554442 (sample_tcp sample_listener 2 33554442 1 16777226).
Proof.
  split; [reflexivity|reflexivity|reflexivity|by split_and!|reflexivity|reflexivity|reflexivity| | |by split|reflexivity].
  - intros [|k] c Hk Hs; [by injection Hk as <-|]. apply lookup_replicate in Hk as [-> _]. done.
  - by apply (sample_world_up 2 33554442 sample_u32_B 1 16777226).
Qed.

Lemma station_conversation_witness :
  exists sA' sB',
    conversation (H := LittleEndian)
      (AB := wire_AB (H := LittleEndian) sample_A sample_B [2; 0; 0; 0; 0; 1] [2; 0; 0; 0; 0; 2] sample_cast_A sample_cast_B
        (sample_length 2) sample_mine_B None 100 100 100)
      (BA := wire_BA (H := LittleEndian) sample_A sample_B [2; 0; 0; 0; 0; 1] [2; 0; 0; 0; 0; 2] sample_cast_A sample_cast_B
        (sample_length 1) sample_mine_A None 100 100 100)
      0 1 0 7 (nif_unicast (st_nif sample_B)) (st_netif sample_A) (st_netif sample_B) 65535 200 200 sample_text sample_text
      (sample_tcp (cb_set_used true cb0) 1 16777226 2 33554442) sA' (sample_tcp sample_listener 2 33554442 1 16777226) sB'.
Proof.
  destruct (station_conversation (H := LittleEndian) sample_A sample_B [2; 0; 0; 0; 0; 1] [2; 0; 0; 0; 0; 2] sample_cast_A sample_cast_B
    (sample_length 1) (sample_length 2) sample_mine_A sample_mine_B None 100 100 100 0 1 0 7
    (sample_tcp (cb_set_used true cb0) 1 16777226 2 33554442) (sample_tcp sample_listener 2 33554442 1 16777226)
    sample_text sample_text 65535 200 200) as (sA' & sB' & E & _).
  - reflexivity.
  - by split.
  - exact sample_A_ready.
  - exact sample_B_ready.
  - by repeat constructor.
  - by vm_compute.
  - by repeat constructor.
  - by vm_compute.
  - by apply Z.leb_le.
  - exists sA', sB'. exact E.
Defined.
