(* ===== verification/Boot.v ===== *)
(** * The start of the echo server (src/apps/tcp_echo.c, [setup] and [main])

    The initialisations of all the layers run on the state of the whole program,
    from the zeroed static variables to a host whose device is open and whose TCP
    listens.  The registries they leave are those of a station. *)

From S2P Require Import Prelude Logic Endian Cksum Mask Queue Addr CString Net Ethernet Raw RawFacts IpFragment Ip IpFacts Arp ArpFacts TcpTypes TcpSegment TcpTimer TcpApi TcpNetwork TcpHandshake TcpTransfer TcpSample Echo Stack Station.

Section Boot.
Context {H : Host} {Ops RW : Type} `{RL : RawLayer RW}.

Abbreviation world := (ip_state ip_handler * arp (eth Ops eth_handler RW))%type.
Context `{SYS : System world}.

(** ** The parts of the state *)

Definition world_net (w : world) : net Ops eth_handler := eth_net (arp_world w.2).
Definition set_world_net (n : net Ops eth_handler) (w : world) : world :=
  (w.1, set_arp_world (set_eth_net n (arp_world w.2)) w.2).

Definition on_ip {A} (m : M (ip_state ip_handler) A) : M (tcp world) A := sysm (on_fst m).
Definition on_eth {A} (m : M (eth Ops eth_handler RW) A) : M (tcp world) A := sysm (on_snd (zoom arp_world set_arp_world m)).
Definition on_net {A} (m : M (net Ops eth_handler) A) : M (tcp world) A := on_eth (zoom eth_net set_eth_net m).
Definition on_raw {A} (m : M RW A) : M (tcp world) A := on_eth (zoom eth_world set_eth_world m).
Definition on_arp_net {A} (m : M (arp (eth Ops eth_handler RW) * net Ops eth_handler) A) : M (tcp world) A :=
  sysm (zoom (fun w => (w.2, world_net w)) (fun x w => set_world_net x.2 (w.1, x.1)) m).
Definition on_ip_net {A} (m : M (ip_state ip_handler * net Ops eth_handler) A) : M (tcp world) A :=
  sysm (zoom (fun w => (w.1, world_net w)) (fun x w => set_world_net x.2 (x.1, w.2)) m).

(** ** The code *)

Definition EAGAIN : Z := 11.

(** [mem] says which allocations succeed, [now] is the time.  When [pthread_create]
    fails it returns a positive error number, which [tcp_init] compares with -1. *)
Definition setup (ops : Ops) (mem : nat -> bool) (now : Z) : M (tcp world) Z :=
  let* r := on_eth (ethernet_init ops (mem 0%nat)) in
  if r =? -1 then ret (-1) else
  let* r := on_net (ip_init IpRx (mem 1%nat)) in
  if r =? -1 then ret (-1) else
  let* r := on_arp_net (arp_init ArpRx (mem 2%nat) now) in
  if r =? -1 then ret (-1) else
  let* r := on_ip (ip_add_protocol IP_PROTOCOL_TCP TcpRx (mem 3%nat)) in
  let* t := if r =? -1 then ret None else on_raw pthread_create in
  let* r := tcp_init r (match t with Some _ => 0 | None => EAGAIN end) in
  if r =? -1 then ret (-1) else ret 0.

Definition dev_set_name v (d : netdev Ops) : netdev Ops :=
  Netdev (dev_ifs d) v (dev_type d) (dev_mtu d) (dev_flags d) (dev_hlen d) (dev_alen d)
    (dev_addr d) (dev_peer d) (dev_broadcast d) (dev_ops d).

(** [strncpy(dev->name, name, sizeof(dev->name) - 1)]; the last octet stays what it was. *)
Definition dev_copy_name (name : bytes) (d : netdev Ops) : netdev Ops :=
  dev_set_name (strncpy (dev_name d) name (IFNAMSIZ - 1)) d.

(** Up to the start of the acceptor.  [d0] and [nif0] are what [malloc] returns for the
    device and for the interface: an identifier and the uninitialised contents.
    The results of [ip_netif_register] and of running the device are not looked
    at. *)
Definition main_start (ops : Ops) (mem : nat -> bool) (now : Z) (d0 : option (devid * netdev Ops)) (nif0 : option (nifid * netif))
  : M (tcp world) (option (devid * Z)) :=
  let* r := setup ops mem now in
  if r =? -1 then ret None else
  let* dev := on_net (netdev_alloc NETDEV_TYPE_ETHERNET d0) in
  match dev with
  | None => ret None
  | Some dev =>
      on_eth (dev_mod dev (dev_copy_name (str "tap2"))) ;;;
      let* r := on_eth (ethernet_open dev RAWDEV_TYPE_AUTO) in
      if r =? -1 then ret None else
      let* _ := on_ip_net (ip_netif_register dev (str "192.168.33.13") (str "255.255.0.0") nif0) in
      let* _ := on_eth (ethernet_run dev) in
      let* l := main_listen in
      match l with
      | None => ret None
      | Some l => let* _ := on_raw pthread_create in ret (Some (dev, l))
      end
  end.

(** After SIGINT. *)
Definition main_stop (dev : devid) (listener : Z) : M (tcp world) (option Z) :=
  let* r := tcp_api_close listener in
  match r with
  | None => ret None
  | Some r => if r =? -1 then ret (Some (-1)) else let* _ := on_eth (ethernet_close (Some dev)) in ret (Some 0)
  end.

(** The static variables at the start of the program. *)
Definition boot_state (rw : RW) : tcp world := tcp_init_state (ip_state_init, arp_init_state (Eth net_init ∅ rw)).

(** ** The start *)

(** What the raw device and the thread library do while [main] starts: the timer
    thread is [t0], the raw device for [name] is [r], the device gets the address [addr], its thread is [t1] and the
    acceptor [t2].  The raw device is asked for its address only when the memory of
    the device happens to be zero there. *)
Record starts (name a0 : bytes) (rw : RW) (r : rawid) (t t1 : tid) (addr : bytes) (rw' : RW) : Prop := {
  sr_run : exists o w0 w1 w2 w3 w4 w5 w6 t0 t2 c,
    pthread_create rw = (Some t0, w0, []) /\ eth_malloc w0 = (true, w1, []) /\
    raw_alloc RAWDEV_TYPE_AUTO name w1 = (Some r, w2, []) /\ raw_open r w2 = (o, w3, []) /\ o <> -1 /\
    pthread_self w3 = (t, w4, []) /\
    (if memeq a0 ETHERNET_ADDR_ANY ETHERNET_ADDR_LEN then raw_addr r a0 w4 = ((c, addr), w5, []) else addr = a0 /\ w5 = w4) /\
    pthread_create w5 = (Some t1, w6, []) /\ pthread_create w6 = (Some t2, rw', []);
  sr_addr : 6 <= zlen addr
}.

(** The state while [main] runs. *)
Definition starting (ip : ip_state ip_handler) (now : Z) (n : net Ops eth_handler) (p : gmap devid ethernet_priv) (rw : RW) : world :=
  (ip, Arp (replicate ARP_TABLE_SIZE arp_entry0) now false [] (Eth n p rw)).

Definition ip_started (d : option nifid) : ip_state ip_handler := IpState frags_init 128 d [(IP_PROTOCOL_TCP, TcpRx)].

(** The registries with the device [d] and the interface [nif]. *)
Definition net_started (ops : Ops) (devs : list devid) (devtab : gmap devid (netdev Ops)) (niftab : gmap nifid netif) : net Ops eth_handler :=
  Net [NetdevDriver NETDEV_TYPE_ETHERNET ETHERNET_PAYLOAD_SIZE_MAX NETDEV_FLAG_BROADCAST ETHERNET_HDR_SIZE ETHERNET_ADDR_LEN ops]
    [NetdevProto ETHERNET_TYPE_ARP ArpRx; NetdevProto ETHERNET_TYPE_IP IpRx] devs devtab niftab.

Definition dev_started (ops : Ops) (ifs : option nifid) (name addr peer broadcast : bytes) : netdev Ops :=
  Netdev ifs name NETDEV_TYPE_ETHERNET ETHERNET_PAYLOAD_SIZE_MAX NETDEV_FLAG_BROADCAST ETHERNET_HDR_SIZE ETHERNET_ADDR_LEN addr peer broadcast ops.

Definition nif_started (dev : option devid) (gateway : Z) : netif :=
  let unicast := load32 192 168 33 13 in
  let mask := load32 255 255 0 0 in
  Netif None NETIF_FAMILY_IPV4 dev unicast mask (Z.land unicast mask) (Z.lor (Z.land unicast mask) (u32 (Z.lnot mask))) gateway.

Lemma setup_runs ops mem now (rw w : RW) t : (forall k, mem k = true) -> pthread_create rw = (Some t, w, []) ->
  setup ops mem now (boot_state rw) = (0, tcp_init_state (starting (ip_started None) now (net_started ops [] ∅ ∅) ∅ w), []).
Proof.
  intros Hm Ht. unfold setup. rewrite !Hm. run by reflexivity. cbn [Z.eqb]. run by reflexivity. cbn [Z.eqb].
  run by reflexivity. cbn [Z.eqb]. run by reflexivity. cbn [Z.eqb].
  run by (unfold on_raw, on_eth, sysm, on_snd, zoom; cbn -[replicate]; by rewrite Ht). reflexivity.
Qed.

Lemma alloc_runs ops ip now dev (d0 : netdev Ops) (rw : RW) :
  on_net (netdev_alloc NETDEV_TYPE_ETHERNET (Some (dev, d0))) (tcp_init_state (starting ip now (net_started ops [] ∅ ∅) ∅ rw))
  = (Some dev, tcp_init_state (starting ip now (net_started ops [dev]
       {[ dev := dev_started ops None (dev_name d0) (dev_addr d0) (dev_peer d0) (dev_broadcast d0) ]} ∅) ∅ rw), []).
Proof. reflexivity. Qed.

Lemma name_runs ops ip now dev name addr peer broadcast (rw : RW) :
  on_eth (dev_mod dev (dev_copy_name (str "tap2")))
    (tcp_init_state (starting ip now (net_started ops [dev] {[ dev := dev_started ops None name addr peer broadcast ]} ∅) ∅ rw))
  = (tt, tcp_init_state (starting ip now (net_started ops [dev]
       {[ dev := dev_started ops None (strncpy name (str "tap2") (IFNAMSIZ - 1)) addr peer broadcast ]} ∅) ∅ rw), []).
Proof.
  unfold on_eth, sysm, on_snd, zoom, dev_mod, modify. cbn -[replicate strncpy].
  unfold singletonM, map_singleton. by rewrite alter_insert_eq.
Qed.

Lemma register_runs ops now dev netif (nif0 : Net.netif) name addr peer broadcast p (rw : RW) :
  on_ip_net (ip_netif_register dev (str "192.168.33.13") (str "255.255.0.0") (Some (netif, nif0)))
    (tcp_init_state (starting (ip_started None) now (net_started ops [dev] {[ dev := dev_started ops None name addr peer broadcast ]} ∅) p rw))
  = (Some netif, tcp_init_state (starting (ip_started (Some netif)) now (net_started ops [dev]
       {[ dev := dev_started ops (Some netif) name addr peer broadcast ]} {[ netif := nif_started (Some dev) (nif_gateway nif0) ]}) p rw), []).
Proof.
  assert (forall x, ip_addr_pton (str "192.168.33.13") (store32 x) = (0, [192; 168; 33; 13])) as E1
    by (intros x; unfold store32; by destruct host_endian).
  assert (forall x, ip_addr_pton (str "255.255.0.0") (store32 x) = (0, [255; 255; 0; 0])) as E2
    by (intros x; unfold store32; by destruct host_endian).
  unfold on_ip_net, sysm, zoom, ip_netif_register. rewrite E1, E2. cbn [Z.eqb addr_of_bytes].
  unfold netdev_add_netif, mbind', on_fst, on_snd, zoom, modify, get. cbn -[load32 replicate u32 Z.lnot Z.land Z.lor].
  rewrite lookup_singleton_eq, lookup_insert_eq. cbn -[load32 replicate u32 Z.lnot Z.land Z.lor].
  rewrite !insert_insert_eq. unfold singletonM, map_singleton. rewrite insert_insert_eq.
  rewrite (netif_search_chain _ _ _ None []) by (done || apply Nat.le_0_l). reflexivity.
Qed.

Lemma open_runs ops ip now dev name addr0 peer broadcast r t addr o c (w w1 w2 w3 w4 w5 : RW) :
  eth_malloc w = (true, w1, []) -> raw_alloc RAWDEV_TYPE_AUTO name w1 = (Some r, w2, []) -> raw_open r w2 = (o, w3, []) -> o <> -1 ->
  pthread_self w3 = (t, w4, []) ->
  (if memeq addr0 ETHERNET_ADDR_ANY ETHERNET_ADDR_LEN then raw_addr r addr0 w4 = ((c, addr), w5, []) else addr = addr0 /\ w5 = w4) ->
  on_eth (ethernet_open dev RAWDEV_TYPE_AUTO)
    (tcp_init_state (starting ip now (net_started ops [dev] {[ dev := dev_started ops None name addr0 peer broadcast ]} ∅) ∅ w))
  = (0, tcp_init_state (starting ip now (net_started ops [dev]
       {[ dev := dev_started ops None name addr peer (addr_copy broadcast ETHERNET_ADDR_BROADCAST) ]} ∅)
       {[ dev := EthernetPriv (Some r) (Some t) false ]} w5), []).
Proof.
  intros E1 E2 E3 Ho E4 E5. unfold on_eth, sysm, on_snd, zoom. cbn [tcp_world tcp_init_state starting snd arp_world].
  match goal with |- context [ethernet_open dev _ ?e] => set (s := e) end.
  assert (ethernet_open dev RAWDEV_TYPE_AUTO s = (0, Eth (net_started ops [dev]
       {[ dev := dev_started ops None name addr peer (addr_copy broadcast ETHERNET_ADDR_BROADCAST) ]} ∅)
       {[ dev := EthernetPriv (Some r) (Some t) false ]} w5, [])) as ->; [|reflexivity]. subst s.
  unfold ethernet_open. run by (unfold raw, zoom; cbn [eth_world]; by rewrite E1). cbn [negb].
  run by (unfold dev_get, gets; cbn; by rewrite lookup_singleton_eq). cbn [dev_name dev_started].
  run by (unfold raw, zoom; cbn [eth_world set_eth_world]; by rewrite E2).
  run by (unfold raw, zoom; cbn [eth_world set_eth_world]; by rewrite E3). rewrite (proj2 (Z.eqb_neq _ _)) by done.
  run by (unfold raw, zoom; cbn [eth_world set_eth_world]; by rewrite E4). run.
  cbn [dev_addr dev_started].
  destruct (memeq _ _ _).
  - rewrite mbind_assoc. run by (unfold raw, zoom; cbn [eth_world set_eth_world set_eth_priv]; by rewrite E5). run. run.
    unfold dev_mod, modify, mret'. cbn -[addr_copy]. unfold singletonM, map_singleton. by rewrite !alter_insert_eq.
  - destruct E5 as [-> ->]. run. run. unfold mret'. cbn -[addr_copy]. unfold singletonM, map_singleton. by rewrite !alter_insert_eq.
Qed.

Lemma priv_replaced dev (p q : ethernet_priv) :
  partial_alter (fun _ => Some q) dev ({[ dev := p ]} : gmap devid ethernet_priv) = {[ dev := q ]}.
Proof. exact (insert_insert_eq _ _ _ _). Qed.

Lemma priv_removed dev (p : ethernet_priv) : partial_alter (fun _ => None) dev ({[ dev := p ]} : gmap devid ethernet_priv) = ∅.
Proof. exact (delete_singleton_eq _ _). Qed.

Lemma run_runs ip now n dev r t t1 (w w1 : RW) : pthread_create w = (Some t1, w1, []) ->
  on_eth (ethernet_run dev) (tcp_init_state (starting ip now n {[ dev := EthernetPriv (Some r) (Some t) false ]} w))
  = (0, tcp_init_state (starting ip now n {[ dev := EthernetPriv (Some r) (Some t1) false ]} w1), []).
Proof.
  intros E. unfold on_eth, sysm, on_snd, zoom. cbn [tcp_world tcp_init_state starting snd arp_world].
  unfold ethernet_run, mbind', priv_get, gets. cbn [eth_priv]. rewrite lookup_singleton_eq.
  unfold raw, zoom. cbn [eth_world]. rewrite E. unfold priv_set, modify, mret'. cbn -[replicate].
  by rewrite priv_replaced.
Qed.

(** The registries after the start are those of a host. *)
Lemma started_registered ops dev netif gateway name addr peer broadcast : 6 <= zlen addr ->
  registered (net_started ops [dev] {[ dev := dev_started ops (Some netif) name addr peer broadcast ]} {[ netif := nif_started (Some dev) gateway ]})
    netif (nif_started (Some dev) gateway) dev (dev_started ops (Some netif) name addr peer broadcast).
Proof.
  intros Ha. split; try done.
  - split; cbn [drivers protos devices devtab niftab net_started map].
    + repeat constructor; set_solver.
    + repeat constructor; set_solver.
    + by repeat constructor.
    + apply Forall_singleton. rewrite lookup_singleton_eq. by eexists.
    + intros d x Hx. apply lookup_singleton_Some in Hx as [<- <-]. exists [netif].
      split_and!; [|apply NoDup_singleton|apply Forall_singleton; by rewrite lookup_singleton_eq].
      split; [done|]. eexists. by rewrite lookup_singleton_eq.
  - right. left.
  - apply lookup_singleton_eq.
  - apply lookup_singleton_eq.
  - unfold netdev_get_netif. cbn [devtab niftab net_started]. rewrite lookup_singleton_eq. unfold netif_search.
    cbn [dev_ifs dev_started]. by destruct (size _); rewrite lookup_singleton_eq.
  - unfold nif_started. cbn [nif_unicast]. apply load32_range; by split.
Qed.

(** What happens when [main] stops: its thread is not the one that receives, which it
    waits for. *)
Record stops (r : rawid) (t1 : tid) (rw rw' : RW) : Prop := {
  sp_run : exists t w1 w2, pthread_self rw = (t, w1, []) /\ t <> t1 /\ pthread_join t1 w1 = (tt, w2, []) /\ raw_close r w2 = (tt, rw', [])
}.

(** The block of the listener is free again, but for its port. *)
Definition closed_table : list tcp_cb := cb_set_port (hton16 20000) cb0 :: replicate 127 cb0.

Lemma listening_close (w : world) t : sys_gettimeofday w = (Some t, w) ->
  tcp_api_close 0 (listening w) = (Some 0, Tcp closed_table false [Broadcast 0] w, []).
Proof.
  intros Ht. assert (tcp_close (S TCP_CB_TABLE_SIZE) 0 (set_tcp_mutex true (listening w))
    = (Some 0, Tcp closed_table true [Broadcast 0] w, [])) as E.
  { cbn [tcp_close]. run by reflexivity. match goal with |- (if negb (cb_used ?c) then _ else _) _ = _ => change (cb_used c) with true end.
    cbn [negb]. run by reflexivity. run by (unfold sys; cbn -[hton16 replicate]; by rewrite Ht).
    match goal with |- match cb_state ?c with _ => _ end _ = _ => change (cb_state c) with LISTEN; change (cb_backlog c) with (@nil nat) end.
    reflexivity. }
  unfold tcp_api_close. change (TCP_SOCKET_INVALID 0) with false. cbv iota. run. change (Z.to_nat 0) with 0%nat.
  unfold mbind' at 1. by rewrite E.
Qed.

Lemma close_runs (n : net Ops eth_handler) dev r t1 (rw rw' : RW) : stops r t1 rw rw' ->
  ethernet_close (Some dev) (Eth n {[ dev := EthernetPriv (Some r) (Some t1) false ]} rw) = (0, Eth n ∅ rw', []).
Proof.
  intros [(t0 & w1 & w2 & E1 & Hne & E2 & E3)]. unfold ethernet_close.
  run by (unfold priv_get, gets; cbn [eth_priv]; by rewrite lookup_singleton_eq).
  run by (unfold raw, zoom; cbn [eth_world]; by rewrite E1).
  cbn [ep_thread ep_raw]. rewrite (bool_decide_eq_false_2 (Some t1 = Some t0)) by congruence. cbn [join_thread]. rewrite mbind_assoc. run.
  run by (unfold raw, zoom; cbn [eth_world set_eth_world set_eth_priv]; by rewrite E2).
  run by (unfold raw, zoom; cbn [eth_world set_eth_world set_eth_priv]; by rewrite E3).
  unfold priv_set, mbind', modify, mret'. cbn. by rewrite priv_replaced, priv_removed.
Qed.

Lemma main_stop_runs ip now n dev r t1 (rw rw' : RW) t :
  sys_gettimeofday (starting ip now n {[ dev := EthernetPriv (Some r) (Some t1) false ]} rw)
    = (Some t, starting ip now n {[ dev := EthernetPriv (Some r) (Some t1) false ]} rw) -> stops r t1 rw rw' ->
  main_stop dev 0 (listening (starting ip now n {[ dev := EthernetPriv (Some r) (Some t1) false ]} rw))
  = (Some 0, Tcp closed_table false [Broadcast 0] (starting ip now n ∅ rw'), []).
Proof.
  intros Ht Hs. unfold main_stop. run by exact (listening_close _ _ Ht). cbn [Z.eqb].
  run by (unfold on_eth, sysm, on_snd, zoom; cbn [tcp_world starting snd arp_world]; by rewrite (close_runs _ _ _ _ _ _ Hs)).
  done.
Qed.

(** Listening again on the port fails. *)
Lemma listen_again (w : world) wk : rval (main_listen (Tcp closed_table false wk w)) = None.
Proof.
  unfold main_listen.
  rewrite (mbind_run_nil tcp_api_open _ _ 0 (Tcp (cb_set_used true (cb_set_port (hton16 20000) cb0) :: replicate 127 cb0) false wk w))
    by reflexivity. cbn [Z.eqb].
  rewrite (mbind_run_nil (tcp_api_bind 0 20000) _ _ (-1)
    (Tcp (cb_set_used true (cb_set_port (hton16 20000) cb0) :: replicate 127 cb0) false wk w)); [done|].
  unfold tcp_api_bind. change (TCP_SOCKET_INVALID 0) with false. change (u16 20000) with 20000. cbv zeta iota.
  unfold mbind' at 1, lock. unfold mbind' at 1, gets. cbn [cb_table set_tcp_mutex existsb cb_port cb_set_used cb_set_port].
  by rewrite Z.eqb_refl.
Qed.

(** C17: from the zeroed variables of the program, with enough memory and a raw device
    that opens, [main] of the echo server comes to a host whose TCP listens on port
    20000 and where nothing else has changed: the registries are well-formed, IP,
    ARP and TCP are registered for their types, the interface 192.168.33.13 belongs
    to the device and is the default one, and the device is open with its receiving
    thread running.  When it is stopped at once, it waits for this thread, closes
    the raw device, and every control block is free again.  No undefined behaviour
    takes place on the way.  But the port stays taken: the same calls of
    open, bind and listen fail afterwards. *)
Theorem echo_starts_and_stops ops mem now dev d0 netif nif0 (rw rw' rw'' : RW) r t t1 addr :
  (forall k, mem k = true) -> starts (strncpy (dev_name d0) (str "tap2") (IFNAMSIZ - 1)) (dev_addr d0) rw r t t1 addr rw' ->
  (forall w, exists t, sys_gettimeofday w = (Some t, w)) -> stops r t1 rw' rw'' ->
  exists nif d s' s'',
    main_start ops mem now (Some (dev, d0)) (Some (netif, nif0)) (boot_state rw) = (Some (dev, 0), s', []) /\
    s' = listening (tcp_world s') /\
    registered (world_net (tcp_world s')) netif nif dev d /\
    NetdevProto ETHERNET_TYPE_ARP ArpRx ∈ protos (world_net (tcp_world s')) /\
    protocols (tcp_world s').1 = [(IP_PROTOCOL_TCP, TcpRx)] /\
    default_netif (tcp_world s').1 = Some netif /\
    nif_unicast nif = load32 192 168 33 13 /\ dev_addr d = addr /\ dev_name d = strncpy (dev_name d0) (str "tap2") (IFNAMSIZ - 1) /\
    eth_priv (arp_world (tcp_world s').2) !! dev = Some (EthernetPriv (Some r) (Some t1) false) /\
    eth_world (arp_world (tcp_world s').2) = rw' /\
    main_stop dev 0 s' = (Some 0, s'', []) /\
    Forall (fun c => IS_FREE_CB c = true) (cb_table s'') /\
    eth_priv (arp_world (tcp_world s'').2) = ∅ /\ eth_world (arp_world (tcp_world s'').2) = rw'' /\
    rval (main_listen s'') = None.
Proof.
  intros Hm [(o & w0 & w1 & w2 & w3 & w4 & w5 & w6 & t0 & t2 & c & E0 & E1 & E2 & E3 & Ho & E4 & E5 & E6 & E7) Ha] Ht Hs.
  set (nif := nif_started (Some dev) (nif_gateway nif0)).
  set (d := dev_started ops (Some netif) (strncpy (dev_name d0) (str "tap2") (IFNAMSIZ - 1)) addr (dev_peer d0) (addr_copy (dev_broadcast d0) ETHERNET_ADDR_BROADCAST)).
  set (n := net_started ops [dev] {[ dev := d ]} {[ netif := nif ]}).
  set (w := starting (ip_started (Some netif)) now n {[ dev := EthernetPriv (Some r) (Some t1) false ]} rw').
  destruct (Ht w) as [tw Htw].
  exists nif, d, (listening w), (Tcp closed_table false [Broadcast 0] (starting (ip_started (Some netif)) now n ∅ rw'')).
  split.
  { unfold main_start. run by by apply (setup_runs _ _ _ _ _ _ Hm E0). cbn [Z.eqb]. run by apply alloc_runs. run by apply name_runs.
    run by by eapply open_runs. cbn [Z.eqb]. run by apply register_runs. run by by apply run_runs.
    run by apply main_listen_starts.
    run by (unfold on_raw, on_eth, sysm, on_snd, zoom; cbn -[replicate]; by rewrite E7). done. }
  split_and!; try done.
  - by apply started_registered.
  - left.
  - apply lookup_singleton_eq.
  - by eapply main_stop_runs.
  - constructor; [done|]. by apply Forall_replicate.
  - apply listen_again.
Qed.

End Boot.

(** ** Example *)

(** The system of the example; the clock does not matter. *)
Definition boot_system : System (ip_state ip_handler * arp (eth unit eth_handler (raws sample_kernel))) :=
  station_system (H := LittleEndian) sample_A.

(** The raw devices before the start, when the device exists, is open and is closed, with
    the threads [ts] beside the one of [main]. *)
Definition boot_name : bytes := str "tap2" ++ replicate 11 0 ++ [9].
Definition boot_tap (p : option nat) : gmap rawid rawdev := {[ 0%nat := Rawdev RAWDEV_TYPE_TAP boot_name TapOps p ]}.
Definition boot_world (ts : gset tid) : raws sample_kernel := Raws ∅ ∅ (SampleKernel {[ 0; 1; 2 ]} [] [] ts).
Definition boot_alloc (ts : gset tid) : raws sample_kernel := Raws (boot_tap None) ∅ (SampleKernel {[ 0; 1; 2 ]} [] [] ts).
Definition boot_open (ts : gset tid) : raws sample_kernel :=
  Raws (boot_tap (Some 0%nat)) {[ 0%nat := 3 ]} (SampleKernel {[ 0; 1; 2; 3 ]} [] [] ts).
Definition boot_closed (ts : gset tid) : raws sample_kernel := Raws (boot_tap (Some 0%nat)) ∅ (SampleKernel {[ 0; 1; 2 ]} [] [] ts).

Definition boot_dev : netdev unit := Netdev None (replicate 16 9) 0 0 0 0 0 (replicate 16 7) [] [] tt.
Definition boot_nif : netif := Netif None 0 None 0 0 0 0 0.

(** The threads of the timer, of the device and of the acceptor. *)
Definition boot_timer : gset tid := {[ 1%nat ]}.
Definition boot_run : gset tid := {[ 1%nat; 2%nat ]}.
Definition boot_all : gset tid := {[ 1%nat; 2%nat; 3%nat ]}.
Definition boot_joined : gset tid := {[ 1%nat; 3%nat ]}.

(** With memory that is not zero, and with the calls of the example's system. *)
Lemma echo_starts_and_stops_witness :
  exists s' s'',
    main_start (H := LittleEndian) (RL := sample_layer) tt (fun _ => true) 100 (Some (0%nat, boot_dev)) (Some (0%nat, boot_nif))
      (boot_state (boot_world ∅)) = (Some (0%nat, 0), s', []) /\
    main_stop (H := LittleEndian) (RL := sample_layer) (SYS := boot_system) 0 0 s' = (Some 0, s'', []).
Proof.
  destruct (echo_starts_and_stops (H := LittleEndian) (RL := sample_layer) (SYS := boot_system) tt (fun _ => true) 100 0
    boot_dev 0 boot_nif (boot_world ∅) (boot_open boot_all) (boot_closed boot_joined) 0 0 2 (replicate 16 7))
    as (nif & d & s' & s'' & E & _ & _ & _ & _ & _ & _ & _ & _ & _ & _ & E' & _).
  - done.
  - split; [|by apply Z.leb_le].
    exists 0, (boot_world boot_timer), (boot_world boot_timer), (boot_alloc boot_timer), (boot_open boot_timer),
      (boot_open boot_timer), (boot_open boot_timer), (boot_open boot_run), 1%nat, 3%nat, 0.
    split_and!; vm_compute; first [reflexivity | discriminate | split; reflexivity].
  - intros [ip [? ? ? ? [? ? [? ? [? ? ? ?]]]]]. exists 100; reflexivity.
  - split. exists 0%nat, (boot_open boot_all), (boot_open boot_joined).
    split_and!; [reflexivity|done|vm_compute; reflexivity|vm_compute; reflexivity].
  - exists s', s''; split; [exact E|exact E'].
Defined.
